(* ===== verification/_CoqProject ===== *)
-Q . S2P
Prelude.v
GoStrings.v
StringFacts.v
NumberFacts.v
K8sTypes.v
BuilderCore.v
PVCBuilder.v
PVBuilder.v
ServiceBuilder.v
VolumeBuilder.v
ContainerBuilder.v
PodTemplateBuilder.v
DeploymentBuilder.v
KubeClient.v
MetaHelper.v
Concrete.v
BuilderErrors.v
BuilderFacts.v
Hook.v
HookFacts.v
Metrics.v
Prog.v
KubeAPI.v
NamespaceBuilder.v
TypedClient.v
TypedClientFacts.v
PVCClient.v
PVClient.v
ServiceClient.v
NamespaceClient.v
DeploymentClient.v
HookExecute.v
Tracker.v
Env.v
VolumeConfig.v
Regexp.v
NodeAffinity.v
NodeAffinityFacts.v
NFSServer.v
Provisioner.v
Daemon.v
Controller.v
App.v
ConstructionFacts.v
GarbageCollector.v
History.v
HookExecuteFacts.v
VolumeConfigFacts.v
NFSObjects.v
NFSDeleteFacts.v
NFSCreateFacts.v
ProvisionerFacts.v
GCFacts.v
MetricsFacts.v
Cluster.v
Faults.v
ClusterFacts.v
ProvisionCluster.v
Recovery.v
GCCluster.v
Abandoned.v
Concurrency.v
WellTyped.v
Examples.v
Process.v
ProcessFacts.v
ProcessExamples.v
HandlerProperties.v
Witnesses.v
