(* ===== verification/Prelude.v ===== *)
(** * Dynamic NFS provisioner: verification library

    The program (Go, under src/) serves ReadWriteMany volumes: for every claim of
    an NFS storage class it runs an NFS server in the cluster, made of a backend
    claim, a deployment and a service, and answers with a volume that points at
    the service.  Deleting the volume removes the server.  A garbage collector
    removes servers whose claim and volume are gone.  Annotations and finalizers
    can be put on all these objects by a configured hook.

    ** Parts, and where they are modelled

    Handlers (src/provisioner)
    - provisioner.go, provisioner_kernel_nfs_server.go: [Provisioner]
      ([Provision], [Delete], the construction [NewProvisioner], the affinity
      check, usage events and counters);
    - helper_kernel_nfs_server.go: [NFSServer] (creating, deleting and waiting
      for the three objects of a server);
    - garbage_collector.go: [GarbageCollector];
    - pvc_tracker.go: [Tracker] (the interface as a class with its laws, and the
      set that implements it);
    - env.go: [Env]; config.go: [VolumeConfig]; node_affinity.go: [NodeAffinity],
      whose patterns are matched by [Regexp].
    The process (src/provisioner, src/cmd/provisioner-nfs, src/pkg/metrics)
    - controller.go, signal_handler.go, backward_compatability.go, and the
      goroutines of [NewProvisioner]: [Controller]; main.go and app/start.go:
      [App]; metrics.go: [Metrics]; the requests to the Go runtime: [Daemon].
    Hooks (src/pkg/hook, src/pkg/helper)
    - types, parser, inventory and actions: [Hook]; execute.go: [HookExecute];
      helper.go: [MetaHelper].
    Kubernetes packages (src/pkg/kubernetes)
    - the builders: [BuilderCore] and [PVCBuilder], [PVBuilder],
      [ServiceBuilder], [VolumeBuilder], [ContainerBuilder],
      [PodTemplateBuilder], [DeploymentBuilder] (with the rollout status),
      [NamespaceBuilder];
    - client/client.go: [KubeClient];
    - the five kubernetes.go: [TypedClient] for what they share, and
      [PVCClient], [PVClient], [ServiceClient], [NamespaceClient],
      [DeploymentClient].
    Language and library: [Prelude] (errors, Go maps and slices), [GoStrings]
    (strings, strconv, Sscanf), [K8sTypes] (the API objects by the fields the
    source uses), [Prog] (programs that make requests), [KubeAPI] (the requests
    of the handlers).

    ** How the code is modelled

    A pure function of the source is a Coq function; errors are values ([goerr]),
    the pair of a value and an error is [result], a pointer that may be nil is an
    [option], a Go map that may be nil is a [gomap], a nil slice is told from an
    empty one ([gslice]).  A method that fills fields of its receiver or options
    returns them.

    A function with effects is a tree of requests ([Prog.prog]): each request
    says what is asked of the world, and the continuation what is done with the
    answer.  Reading and changing API objects, the tracker, the [select] of the
    waiting loop, the metrics, and the clock and map order that a hook sees are
    requests ([KubeAPI.req]); the typed clients have requests of their own
    ([TypedClient.creq]), and so has the process ([Daemon.dreq]).  A run is a relation ([exec]) between a program, its
    requests with arbitrary answers, and its end, so that a theorem about all
    runs is about every behaviour of the API server, and about a process that is
    stopped anywhere.  Panics are an outcome: a nil function, a nil dereference
    and a write to a nil map panic.

    [run] executes a program against a server given as a function.  [Cluster] is
    such a server, a store of objects that never fails; the equations of whole
    handlers are proved against it.  [Faults] makes it lose requests and
    answers, and stops a program anywhere.  [Concurrency] interleaves the
    requests of several handlers and of anything outside the process.  [Process]
    is the process as a state machine: goroutines, the signal channel, the
    context, the registry of counters and the exit status.  How the code of a
    goroutine can end is given by the runs of the handlers it calls
    ([run_outcome]): a panic of a handler, of the collector or of a library ends
    the process, and so does the loss of leadership.

    Code that is not part of the repository is a parameter, with the laws the
    source relies on where a theorem needs them: [CoreTypes] (quantities and the
    types that are passed along), [PatchLib] (JSON and the strategic merge
    patch), [MayaConfig] with [MayaConfigLaws] (the configuration language of
    maya), [MayaEnv] (the environment), [ProvisionerLib] (selectors of nodes and
    the names of usage events), [FileSystem] (the hook file), [ClientLib]
    (client-go), [ApiOptions] (option structs), [DaemonLib] with [DaemonLaws]
    (cobra, Prometheus, maya's exit on errors, which libraries may panic, and
    the status of an exit on lost leadership).  [Concrete], [Examples] and
    [ProcessExamples] instantiate them for the witnesses.

    ** What the theorems show

    - Every run of the handlers ([HandlerProperties], from [NFSCreateFacts],
      [NFSDeleteFacts], [ProvisionerFacts], [GCFacts] over [History]): Provision
      creates only the objects of its server, each at most once and after the
      answer that it does not exist, in order, between marking and unmarking the
      volume; Delete
      removes only these, in the order service, deployment, claim, and reports
      success only when they are gone; the collector deletes only what it saw to
      be stale.
    - Interleaved runs ([Concurrency]): when the tracker calls a volume idle, its
      handler has not started or has finished, whatever the other goroutines do.
    - Whole handlers on a working cluster ([ClusterFacts], [ProvisionCluster],
      [GCCluster]): provisioning and deleting is a round trip, and a run of the
      collector computes an abstract collector, which is its specification.
    - Attempts that fail or stop anywhere ([Faults], [Recovery], [Abandoned]):
      after any number of them, one undisturbed Provision gives the volume and
      the objects it would have given at first, one undisturbed Delete gives the
      cluster back, and when the claim is gone one run of the collector removes
      what was left.  The invariant [between] says what such attempts leave.
    - The collector's loop ([GCCluster]) ends when its context is done.
    - Types ([WellTyped]): under any interleaving every object a handler creates
      is one the API server can store in its namespace, so a store of such
      objects stays one.
    - Counters ([MetricsFacts]): which counter a finished handler incremented.
    - The process ([ProcessFacts]): every way it can end, by exit, crash or
      signal, and what had been started then; only [Provision] can crash it from
      the code of the repository, on three kinds of request; and once SIGINT or
      SIGTERM has arrived it can exit with status 0 from every state.
    - Objects ([NFSObjects], and the wiring theorem of [HandlerProperties]): what
      the builder chains build, and that service, deployment, pod, claim and
      volume refer to each other.
    - Hooks ([HookFacts], [HookExecuteFacts]): what an action can change, when
      its result depends on the order of the configuration, that the guard is
      exact, that adding and removing cancel, and that an execution is reads and
      one patch of the object it read.
    - Configuration ([VolumeConfigFacts], [ConstructionFacts],
      [NodeAffinityFacts], [NumberFacts], [StringFacts]): precedence of the
      sources, defaults and ranges, printing and parsing affinity rules, the
      timeout in 64 bits.
    - Builders ([BuilderErrors], [BuilderFacts]): for every call which arguments
      it refuses, and that a chain builds exactly when none of its calls was
      refused; no chain of methods panics; node affinity and list filters; the
      rollout verdict.
    - Clients ([KubeClient], [TypedClientFacts] and the client files): where the
      configuration comes from; a client in use does not panic, connects at most
      once successfully, and stays within its resource and namespace.
    - [Witnesses] and the files of the theorems apply them to concrete inputs,
      and hold the concrete runs that show defects.

    ** Fuel and bounds

    The loop of waitForPvcBound and the ticker loop of the collector are not
    bounded in the source; their models take a number of ticks to look at, and
    the theorems hold for every such number; the termination theorem of
    [HandlerProperties] shows that waiting returns once the timer fires, with as
    much fuel as rounds before that.  The recursive search of node_affinity.go has the length of its input
    plus one as fuel, which is proved to be enough (getRightMostMatchingString_total,
    parse_total); trimming has the length of the string.  Replica counts wrap at 32 bits
    where the source subtracts them, and the timeout at 64 bits; the other
    integers of the source are compared and printed only.

    ** Not modelled

    Logging and alerts, which return nothing to the code; how Prometheus counts
    and serves, leader election itself and the loop of the volume controller,
    which are library code: of these only how they end the process; the informers
    behind the node lister; deep copies, since the values here are not shared; the integration
    tests, which run against a live cluster.

    ** Plan

    In order: the handlers, the collector, hooks, configuration, builders and
    clients; then attempts that fail and are repeated, well-formed objects,
    counters, and the process, which are done.  Next: the collector interleaved
    with attempts that fail, on one cluster; a refinement of the typed clients
    by the store of [Cluster]; hooks in the recovery theorems, which now assume
    that no hook is configured. *)

From stdpp Require Export base tactics list gmap sets strings.

#[export] Set Default Proof Using "Type".

Declare Scope nfs_scope.
Delimit Scope nfs_scope with nfs.
#[global] Open Scope string_scope.
#[global] Open Scope list_scope.
#[global] Open Scope nfs_scope.

(** ** Go [error] values

    [ErrAPI] is an error returned by the Kubernetes client; the source only
    ever asks one question of it ([k8serrors.IsNotFound]).  [ErrNew] is
    [errors.New]/[errors.Errorf]/[fmt.Errorf] with its arguments already
    substituted, [ErrWrap] is [errors.Wrap]/[errors.Wrapf] on a non-nil error,
    [ErrList] is an [Errorf] whose argument is a list of errors (how every
    builder reports), and [ErrNum] is the [*strconv.NumError]. *)
Inductive apierr :=
| APINotFound
| APIOther (msg : string).

Inductive goerr :=
| ErrAPI (e : apierr)
| ErrNew (msg : string)
| ErrWrap (e : goerr) (msg : string)
| ErrList (msg : string) (errs : list goerr)
| ErrNum (fn num : string) (range : bool).

(** Go's [error] is nilable. *)
Abbreviation error := (option goerr).

(** [(value, error)] results that are used with the [if err != nil] idiom. *)
Inductive result (A : Type) :=
| Ok (a : A)
| Err (e : goerr).
Arguments Ok {A} a.
Arguments Err {A} e.

#[export] Instance apierr_eq_dec : EqDecision apierr.
Proof. solve_decision. Defined.

Definition result_bind {A B} (r : result A) (f : A -> result B) : result B :=
  match r with
  | Ok a => f a
  | Err e => Err e
  end.

Notation "'let?' x ':=' r 'in' k" := (result_bind r (fun x => k))
  (at level 10, x binder, r at level 100, k at level 200) : nfs_scope.

Definition is_ok {A} (r : result A) : bool :=
  match r with Ok _ => true | Err _ => false end.

(** [errors.Wrapf] keeps a nil error nil. *)
Definition Wrapf (e : error) (msg : string) : error :=
  (fun err => ErrWrap err msg) <$> e.

(** [k8serrors.IsNotFound], applied by the source to client errors only. *)
Definition IsNotFound (e : apierr) : bool :=
  match e with
  | APINotFound => true
  | APIOther _ => false
  end.

(** What a client call returns: an object or a client error. *)
Inductive api (A : Type) :=
| ApiOk (a : A)
| ApiErr (e : apierr).
Arguments ApiOk {A} a.
Arguments ApiErr {A} e.

Definition api_err {A} (r : api A) : error :=
  match r with
  | ApiOk _ => None
  | ApiErr e => Some (ErrAPI e)
  end.

(** ** Go maps and slices

    A Go map or slice variable can be nil.  [None] is the nil value; for slices
    the distinction only matters where the source compares with [nil], and
    there [gslice] is used. *)
Abbreviation gomap V := (option (gmap string V)).
Abbreviation gslice A := (option (list A)).

Definition gomap_get {V} (m : gomap V) : gmap string V := default ∅ m.

(** [len(m)]; 0 for the nil map. *)
Definition gomap_len {V} (m : gomap V) : nat := size (gomap_get m).

(** [m[k]] in its comma-ok form; reading a nil map is allowed. *)
Definition gomap_lookup {V} (m : gomap V) (k : string) : option V :=
  gomap_get m !! k.

Definition gslice_get {A} (s : gslice A) : list A := default [] s.

(** [for k, v := range src { dst[k] = v }].  The order of a Go map range is
    not specified; [range_insert_union] shows that this loop does not
    depend on it. *)
Definition range_insert {V} (src dst : gmap string V) : gmap string V :=
  foldr (fun kv m => <[kv.1 := kv.2]> m) dst (map_to_list src).

(** [for k := range src { delete(dst, k) }] *)
Definition range_delete {V W} (src : gmap string W) (dst : gmap string V)
  : gmap string V :=
  foldr (fun kv m => delete kv.1 m) dst (map_to_list src).

(** ** Tactics *)

(** Splits the matches of the goal or of a hypothesis, keeping equations. *)
Ltac split_match :=
  match goal with
  | |- context [match ?x with _ => _ end] => destruct x eqn:?
  | H : context [match ?x with _ => _ end] |- _ => destruct x eqn:?
  end.

(** Case analysis to the leaves, closing contradictory branches. *)
Ltac split_all := repeat (split_match; simplify_eq/=; try done).

Create HintDb nfs discriminated.
Create Rewrite HintDb nfs.

(** ** Lemmas on ranges over maps *)

Lemma foldr_insert_lookup {V} (l : list (string * V)) (dst : gmap string V) k :
  NoDup l.*1 ->
  foldr (fun kv m => <[kv.1 := kv.2]> m) dst l !! k =
  match (list_to_map l : gmap string V) !! k with
  | Some v => Some v
  | None => dst !! k
  end.
Proof.
  induction l as [|[k' v'] l IH]; simpl; intros Hnd; [by rewrite lookup_empty|].
  inversion_clear Hnd. rewrite !lookup_insert. case_decide; [done|]. auto.
Qed.

Lemma range_insert_union {V} (src dst : gmap string V) :
  range_insert src dst = src ∪ dst.
Proof.
  apply map_eq; intros k. unfold range_insert.
  rewrite foldr_insert_lookup by apply NoDup_fst_map_to_list.
  rewrite list_to_map_to_list, lookup_union.
  by destruct (src !! k), (dst !! k).
Qed.

(** Any order of the range gives the same map. *)
Lemma range_insert_order {V} (src dst : gmap string V) l :
  Permutation l (map_to_list src) ->
  foldr (fun kv m => <[kv.1 := kv.2]> m) dst l = range_insert src dst.
Proof.
  intros Hp. apply map_eq; intros k. unfold range_insert.
  rewrite !foldr_insert_lookup; [|apply NoDup_fst_map_to_list|].
  - rewrite list_to_map_to_list.
    rewrite (list_to_map_proper l (map_to_list src)); [by rewrite list_to_map_to_list| |done].
    rewrite Hp. apply NoDup_fst_map_to_list.
  - rewrite Hp. apply NoDup_fst_map_to_list.
Qed.

Lemma range_insert_lookup {V} (src dst : gmap string V) k :
  range_insert src dst !! k =
  match src !! k with Some v => Some v | None => dst !! k end.
Proof. rewrite range_insert_union, lookup_union. by destruct (src !! k), (dst !! k). Qed.

Lemma range_insert_empty {V} (src : gmap string V) : range_insert src ∅ = src.
Proof. by rewrite range_insert_union, map_union_empty. Qed.

Lemma range_delete_lookup {V W} (src : gmap string W) (dst : gmap string V) k :
  range_delete src dst !! k =
  match src !! k with Some _ => None | None => dst !! k end.
Proof.
  unfold range_delete.
  assert (Hl : forall l : list (string * W),
    foldr (fun kv m => delete kv.1 m) dst l !! k =
    if decide (k ∈ l.*1) then None else dst !! k).
  { induction l as [|[k' w] l IH]; [done|]; cbn [foldr fmap list_fmap fst].
    rewrite lookup_delete, IH. repeat case_decide; set_solver. }
  rewrite Hl. case_decide as Hin.
  - apply list_elem_of_fmap in Hin as [[k' w] [-> Hin]].
    apply elem_of_map_to_list in Hin. simpl. by rewrite Hin.
  - destruct (src !! k) as [w|] eqn:Hk; [|done]. exfalso. apply Hin.
    apply list_elem_of_fmap. exists (k, w). by rewrite elem_of_map_to_list.
Qed.

#[export] Hint Rewrite @range_insert_lookup @range_delete_lookup : nfs.

Lemma Wrapf_None e msg : Wrapf e msg = None <-> e = None.
Proof. by destruct e. Qed.

Lemma result_bind_Ok {A B} (r : result A) (f : A -> result B) b :
  result_bind r f = Ok b <-> exists a, r = Ok a /\ f a = Ok b.
Proof. destruct r; simpl; naive_solver. Qed.
