(* ===== verification/GoStrings.v ===== *)
(** * The parts of Go's standard library the provisioner uses

    [strings], [strconv] and [fmt.Sscanf], over Go strings as byte sequences
    ([String.string]).  Everything is executable.  Separators and patterns are
    non-empty wherever the source calls these functions, and cutsets are a
    single ASCII character, which is what the definitions below cover. *)

From Stdlib Require Import Ascii.
From stdpp Require Import pretty.
From S2P Require Import Prelude.

(** ** Prefixes and searches *)

(** The rest of [s] after the prefix [p]. *)
Fixpoint strip_prefix (p s : string) : option string :=
  match p, s with
  | EmptyString, _ => Some s
  | String c p', String d s' =>
      if decide (c = d) then strip_prefix p' s' else None
  | String _ _, EmptyString => None
  end.

Definition HasPrefix (s p : string) : bool := bool_decide (is_Some (strip_prefix p s)).

Fixpoint index_opt (s sub : string) : option nat :=
  if HasPrefix s sub then Some 0
  else match s with
       | EmptyString => None
       | String _ s' => S <$> index_opt s' sub
       end.

(** [strings.Index]: -1 when absent. *)
Definition Index (s sub : string) : Z :=
  match index_opt s sub with Some n => Z.of_nat n | None => -1 end.

Definition Contains (s sub : string) : bool := bool_decide (is_Some (index_opt s sub)).

Fixpoint last_index_opt (s sub : string) : option nat :=
  match s with
  | EmptyString => if HasPrefix s sub then Some 0 else None
  | String _ s' =>
      match last_index_opt s' sub with
      | Some n => Some (S n)
      | None => if HasPrefix s sub then Some 0 else None
      end
  end.

(** [strings.LastIndex] *)
Definition LastIndex (s sub : string) : Z :=
  match last_index_opt s sub with Some n => Z.of_nat n | None => -1 end.

(** [strings.ContainsRune] for an ASCII rune. *)
Fixpoint ContainsRune (s : string) (c : Ascii.ascii) : bool :=
  match s with
  | EmptyString => false
  | String d s' => bool_decide (c = d) || ContainsRune s' c
  end.

(** [s[n:]] and [s[:n]], for [n <= len s]. *)
Fixpoint drop_str (n : nat) (s : string) : string :=
  match n, s with
  | S n', String _ s' => drop_str n' s'
  | _, _ => s
  end.

Fixpoint take_str (n : nat) (s : string) : string :=
  match n, s with
  | S n', String c s' => String c (take_str n' s')
  | _, _ => EmptyString
  end.

(** [strings.ReplaceAll] for a non-empty [old]. *)
Fixpoint replace_from (old new : string) (skip : nat) (s : string) : string :=
  match s with
  | EmptyString => EmptyString
  | String c s' =>
      match skip with
      | S k => replace_from old new k s'
      | O => if HasPrefix s old
             then new +:+ replace_from old new (String.length old - 1) s'
             else String c (replace_from old new 0 s')
      end
  end.

Definition ReplaceAll (s old new : string) : string := replace_from old new 0 s.

(** [strings.Split] for a non-empty separator. *)
Definition cons_piece (c : Ascii.ascii) (l : list string) : list string :=
  match l with
  | [] => [String c EmptyString]
  | x :: l' => String c x :: l'
  end.

Fixpoint split_from (sep : string) (skip : nat) (s : string) : list string :=
  match s with
  | EmptyString => [EmptyString]
  | String c s' =>
      match skip with
      | S k => split_from sep k s'
      | O => if HasPrefix s sep
             then EmptyString :: split_from sep (String.length sep - 1) s'
             else cons_piece c (split_from sep 0 s')
      end
  end.

Definition Split (s sep : string) : list string := split_from sep 0 s.

(** ** Trimming *)

Definition byte_str (l : list nat) : string :=
  foldr (fun n s => String (Ascii.ascii_of_nat n) s) EmptyString l.

(** The UTF-8 encodings of the runes for which [unicode.IsSpace] holds.  No
    encoding is a prefix or a suffix of another, so trimming runes is trimming
    these byte sequences. *)
Definition space_encodings : list string :=
  map byte_str
    ([[9]; [10]; [11]; [12]; [13]; [32]; [194; 133]; [194; 160];
      [225; 154; 128]]
     ++ map (fun n => [226; 128; n])
          [128; 129; 130; 131; 132; 133; 134; 135; 136; 137; 138; 168; 169; 175]
     ++ [[226; 129; 159]; [227; 128; 128]]).

Fixpoint strip_any (ps : list string) (s : string) : option string :=
  match ps with
  | [] => None
  | p :: ps' =>
      match strip_prefix p s with
      | Some r => Some r
      | None => strip_any ps' s
      end
  end.

Fixpoint trim_left_fuel (ps : list string) (fuel : nat) (s : string) : string :=
  match fuel with
  | O => s
  | S f =>
      match strip_any ps s with
      | Some r => trim_left_fuel ps f r
      | None => s
      end
  end.

(** Every round removes at least one byte, so [len s] rounds are enough. *)
Definition trim_left_of (ps : list string) (s : string) : string :=
  trim_left_fuel ps (String.length s) s.

Definition trim_left_space (s : string) : string := trim_left_of space_encodings s.

Fixpoint trim_right_space (s : string) : string :=
  if decide (trim_left_space s = EmptyString) then EmptyString
  else match s with
       | EmptyString => EmptyString
       | String c s' => String c (trim_right_space s')
       end.

Definition TrimSpace (s : string) : string := trim_right_space (trim_left_space s).

(** [strings.TrimLeft] and [strings.TrimRight] with a one-character cutset. *)
Fixpoint TrimLeft (s : string) (c : Ascii.ascii) : string :=
  match s with
  | EmptyString => EmptyString
  | String d s' => if decide (c = d) then TrimLeft s' c else s
  end.

Fixpoint TrimRight (s : string) (c : Ascii.ascii) : string :=
  match s with
  | EmptyString => EmptyString
  | String d s' =>
      match TrimRight s' c with
      | EmptyString => if decide (c = d) then EmptyString else String d EmptyString
      | r => String d r
      end
  end.

(** ** [strconv] *)

Definition digit_val (c : Ascii.ascii) : option Z :=
  let n := Ascii.nat_of_ascii c in
  if decide (48 <= n <= 57) then Some (Z.of_nat n - 48)%Z else None.

Fixpoint digits_val (acc : Z) (s : string) : option Z :=
  match s with
  | EmptyString => Some acc
  | String c s' =>
      match digit_val c with
      | Some d => digits_val (acc * 10 + d)%Z s'
      | None => None
      end
  end.

Definition parse_unsigned (s : string) : option Z :=
  match s with
  | EmptyString => None
  | String _ _ => digits_val 0 s
  end.

(** [strconv.ParseInt(s, 10, 64)]: an optional sign, then decimal digits; a
    value outside the signed 64-bit range is a range error. *)
Definition parse_int (fn s : string) : result Z :=
  let '(neg, body) :=
    match s with
    | String c s' =>
        if decide (c = "-"%char) then (true, s')
        else if decide (c = "+"%char) then (false, s') else (false, s)
    | EmptyString => (false, s)
    end in
  match parse_unsigned body with
  | None => Err (ErrNum fn s false)
  | Some n =>
      if neg then if decide (n <= 2 ^ 63)%Z then Ok (- n)%Z else Err (ErrNum fn s true)
      else if decide (n < 2 ^ 63)%Z then Ok n else Err (ErrNum fn s true)
  end.

Definition ParseInt64 (s : string) : result Z := parse_int "ParseInt" s.

(** [strconv.Atoi] where [int] has 64 bits. *)
Definition Atoi (s : string) : result Z := parse_int "Atoi" s.

Definition Itoa (n : Z) : string := pretty n.

(** [strconv.ParseBool] *)
Definition ParseBool (s : string) : result bool :=
  if decide (s ∈ ["1"; "t"; "T"; "true"; "TRUE"; "True"]) then Ok true
  else if decide (s ∈ ["0"; "f"; "F"; "false"; "FALSE"; "False"]) then Ok false
  else Err (ErrNum "ParseBool" s false).

(** [strings.ToLower] on the ASCII letters.  The two other runes with an ASCII
    lower case map to [i] and [k]. *)
Definition lower_ascii (c : Ascii.ascii) : Ascii.ascii :=
  let n := Ascii.nat_of_ascii c in
  if decide (65 <= n <= 90) then Ascii.ascii_of_nat (n + 32) else c.

Fixpoint ToLower (s : string) : string :=
  match s with
  | EmptyString => EmptyString
  | String c s' => String (lower_ascii c) (ToLower s')
  end.

(** ** [fmt.Sscanf(s, lit ++ "%s", &x)] *)

Definition newline : string := byte_str [10].

(** The longest prefix of [s] without a space: the token of [%s]. *)
Fixpoint scan_token (s : string) : string :=
  match s with
  | EmptyString => EmptyString
  | String c s' =>
      if decide (is_Some (strip_any space_encodings s)) then EmptyString
      else String c (scan_token s')
  end.

(** The value of [x] afterwards, from [x] empty: the literal must match, [%s]
    skips spaces other than newlines, and an error leaves [x] as it was. *)
Definition Sscanf_lit_s (lit s : string) : string :=
  match strip_prefix lit s with
  | None => EmptyString
  | Some r =>
      let r' := trim_left_of (filter (fun e => e <> newline) space_encodings) r in
      scan_token r'
  end.

(** ** Lemmas *)

Lemma app_cons_str c (a b : string) : String c a +:+ b = String c (a +:+ b).
Proof. reflexivity. Qed.

Lemma app_nil_str (b : string) : EmptyString +:+ b = b.
Proof. reflexivity. Qed.

#[export] Hint Rewrite app_cons_str app_nil_str : nfs.

Ltac simpl_str := repeat (progress simpl in * || rewrite app_cons_str in * || rewrite app_nil_str in *).

Lemma strip_prefix_Some p s r : strip_prefix p s = Some r <-> s = p +:+ r.
Proof.
  revert s. induction p as [|c p IH]; intros s; simpl_str.
  - split; [by intros [= ->]|by intros ->].
  - destruct s as [|d s]; [done|].
    case_decide as Hcd; [subst; rewrite IH|].
    + split; [by intros ->|by intros [= ->]].
    + split; [done|by intros [= -> ->]].
Qed.

Lemma strip_prefix_app p r : strip_prefix p (p +:+ r) = Some r.
Proof. by apply strip_prefix_Some. Qed.

Lemma HasPrefix_spec s p : HasPrefix s p = true <-> exists r, s = p +:+ r.
Proof.
  unfold HasPrefix. rewrite bool_decide_eq_true. unfold is_Some.
  by setoid_rewrite strip_prefix_Some.
Qed.

Lemma app_empty_r (s : string) : s +:+ EmptyString = s.
Proof. induction s as [|c s IH]; simpl_str; [done|by rewrite IH]. Qed.

Lemma app_assoc_str (a b c : string) : (a +:+ b) +:+ c = a +:+ (b +:+ c).
Proof. induction a as [|x a IH]; simpl_str; [done|by rewrite IH]. Qed.

Lemma length_app_str (a b : string) :
  String.length (a +:+ b) = String.length a + String.length b.
Proof. induction a as [|x a IH]; simpl_str; [done|by rewrite IH]. Qed.

Lemma app_inj_prefix (p a b : string) : p +:+ a = p +:+ b -> a = b.
Proof. induction p as [|c p IH]; simpl_str; [done|intros [=]; auto]. Qed.

Lemma last_index_opt_suffix a b :
  last_index_opt (a +:+ b) b = Some (String.length a) \/
  exists n, last_index_opt (a +:+ b) b = Some n /\ String.length a < n.
Proof.
  induction a as [|x a IH]; simpl_str.
  - destruct b as [|c b]; simpl_str; [by left|].
    destruct (last_index_opt b (String c b)) as [n|] eqn:Hl; [right; eexists; split; [done|lia]|].
    rewrite (proj2 (HasPrefix_spec (String c b) (String c b))); [by left|].
    exists EmptyString. by rewrite app_empty_r.
  - destruct IH as [->|(n & -> & Hn)]; [by left|right; eexists; split; [done|lia]].
Qed.

Lemma last_index_opt_bound s sub n :
  last_index_opt s sub = Some n -> n + String.length sub <= String.length s.
Proof.
  revert n. induction s as [|c s IH]; intros n; simpl.
  - destruct (HasPrefix EmptyString sub) eqn:Hp; [|done]. intros [= <-].
    apply HasPrefix_spec in Hp as [r Hr]. destruct sub; simpl in *; [lia|done].
  - destruct (last_index_opt s sub) as [m|] eqn:Hl.
    + intros [= <-]. specialize (IH m eq_refl). lia.
    + destruct (HasPrefix (String c s) sub) eqn:Hp; [|done]. intros [= <-].
      apply HasPrefix_spec in Hp as [r Hr].
      assert (String.length (String c s) = String.length (sub +:+ r)) as Hlen by (by rewrite <- Hr).
      rewrite length_app_str in Hlen. simpl in Hlen. lia.
Qed.

(** The last occurrence of a suffix is that suffix. *)
Lemma last_index_suffix a b : last_index_opt (a +:+ b) b = Some (String.length a).
Proof.
  destruct (last_index_opt_suffix a b) as [|(n & Hn & Hlt)]; [done|].
  pose proof (last_index_opt_bound _ _ _ Hn) as Hb.
  rewrite length_app_str in Hb. lia.
Qed.

Lemma drop_str_app a b : drop_str (String.length a) (a +:+ b) = b.
Proof. induction a; simpl_str; [by destruct b|done]. Qed.

Lemma take_str_app a b : take_str (String.length a) (a +:+ b) = a.
Proof. induction a as [|c a IH]; simpl_str; [by destruct b|by rewrite IH]. Qed.
