(* ===== verification/StringFacts.v ===== *)
(** * Lemmas on splitting, trimming and searching Go strings

    Shared by the parser of the affinity rules, the configuration and the name
    of a volume.  A [word] is a non-empty string of printable ASCII characters
    without the four separators of the affinity language. *)

From Stdlib Require Import Ascii.
From S2P Require Import Prelude GoStrings.

Fixpoint str_forall (f : ascii -> bool) (s : string) : bool :=
  match s with
  | EmptyString => true
  | String c s' => f c && str_forall f s'
  end.

(** Printable and not a blank. *)
Definition visible (c : ascii) : bool := bool_decide (33 <= nat_of_ascii c <= 126).

Definition label_char (c : ascii) : bool :=
  visible c && negb (bool_decide (c = ","%char)) && negb (bool_decide (c = ":"%char))
  && negb (bool_decide (c = "["%char)) && negb (bool_decide (c = "]"%char)).

Definition word (s : string) : bool :=
  match s with EmptyString => false | String _ _ => str_forall label_char s end.

(** ** Characters *)

Lemma str_forall_app f a b : str_forall f (a +:+ b) = str_forall f a && str_forall f b.
Proof. induction a as [|c a IH]; simpl_str; [done|]. by rewrite IH, andb_assoc. Qed.

Lemma str_forall_impl f g s :
  (forall c, f c = true -> g c = true) -> str_forall f s = true -> str_forall g s = true.
Proof.
  intros Hfg. induction s as [|c s IH]; simpl; [done|]. intros [Hc Hs]%andb_true_iff.
  by rewrite (Hfg _ Hc), IH.
Qed.

Lemma ContainsRune_app a b c : ContainsRune (a +:+ b) c = ContainsRune a c || ContainsRune b c.
Proof. induction a as [|d a IH]; simpl_str; [done|]. by rewrite IH, orb_assoc. Qed.

Lemma ContainsRune_forall f s c :
  str_forall f s = true -> f c = false -> ContainsRune s c = false.
Proof.
  intros Hs Hc. induction s as [|d s IH]; simpl in *; [done|].
  apply andb_true_iff in Hs as [Hd Hs]. rewrite IH by done.
  case_bool_decide; [subst; congruence|done].
Qed.

Lemma label_char_visible c : label_char c = true -> visible c = true.
Proof. unfold label_char. rewrite !andb_true_iff. tauto. Qed.

Lemma word_inv s : word s = true -> s <> EmptyString /\ str_forall label_char s = true.
Proof. by destruct s. Qed.

Lemma word_no s c : word s = true -> label_char c = false -> ContainsRune s c = false.
Proof. intros [_ Hs]%word_inv. by apply ContainsRune_forall. Qed.

Lemma word_visible s : word s = true -> str_forall visible s = true.
Proof. intros [_ Hs]%word_inv. eapply str_forall_impl; [apply label_char_visible|done]. Qed.

Lemma ContainsRune_split s c : ContainsRune s c = true -> exists a b, s = a +:+ String c b.
Proof.
  induction s as [|d s IH]; simpl; [done|]. intros [Hd%bool_decide_eq_true|Hs]%orb_true_iff.
  - subst d. by exists EmptyString, s.
  - destruct (IH Hs) as (a & b & ->). by exists (String d a), b.
Qed.

Lemma ContainsRune_mid a c b : ContainsRune (a +:+ String c b) c = true.
Proof. rewrite ContainsRune_app. simpl. rewrite bool_decide_eq_true_2 by done. apply orb_true_r. Qed.

(** A character that occurs once splits a string in one way. *)
Lemma split_unique c a b a' b' :
  a +:+ String c b = a' +:+ String c b' ->
  ContainsRune a c = false -> ContainsRune b c = false -> a = a' /\ b = b'.
Proof.
  revert a'. induction a as [|x a IH]; intros a' Heq Ha Hb; destruct a' as [|y a']; simpl_str.
  - by injection Heq as ->.
  - injection Heq as <- Hb'. subst b. by rewrite ContainsRune_mid in Hb.
  - injection Heq as -> _. by rewrite bool_decide_eq_true_2 in Ha.
  - injection Heq as -> Heq. apply orb_false_iff in Ha as [_ Ha].
    by destruct (IH _ Heq Ha Hb) as [-> ->].
Qed.

(** ** Prefixes and splitting *)

Lemma HasPrefix_nil s : HasPrefix s EmptyString = true.
Proof. apply HasPrefix_spec. by exists s. Qed.

Lemma HasPrefix_cons d s c p :
  HasPrefix (String d s) (String c p) = bool_decide (c = d) && HasPrefix s p.
Proof.
  unfold HasPrefix. cbn [strip_prefix]. destruct (decide (c = d)) as [Hc|Hc].
  - by rewrite (bool_decide_eq_true_2 (c = d)).
  - rewrite (bool_decide_eq_false_2 (c = d)) by done. apply bool_decide_eq_false_2. by intros [? ?].
Qed.

Definition chr (c : ascii) : string := String c EmptyString.

Lemma Split_chr_cons c a b :
  ContainsRune a c = false -> Split (a +:+ String c b) (chr c) = a :: Split b (chr c).
Proof.
  unfold Split, chr. induction a as [|d a IH]; intros Ha; simpl_str.
  - by rewrite HasPrefix_cons, bool_decide_eq_true_2, HasPrefix_nil.
  - apply orb_false_iff in Ha as [Hd Ha]. rewrite HasPrefix_cons, Hd. simpl. by rewrite IH.
Qed.

Lemma Split_chr_none c a : ContainsRune a c = false -> Split a (chr c) = [a].
Proof.
  unfold Split, chr. induction a as [|d a IH]; intros Ha; simpl_str; [done|].
  apply orb_false_iff in Ha as [Hd Ha]. rewrite HasPrefix_cons, Hd. simpl. by rewrite IH.
Qed.

(** Splitting what was joined with a character. *)
Lemma Split_concat c l :
  l <> [] -> Forall (fun s => ContainsRune s c = false) l ->
  Split (String.concat (chr c) l) (chr c) = l.
Proof.
  intros Hne Hl. induction Hl as [|s l Hs Hl IH]; [done|].
  destruct l as [|s' l]; [by apply Split_chr_none|].
  change (String.concat (chr c) (s :: s' :: l)) with
    (s +:+ String c (String.concat (chr c) (s' :: l))).
  by rewrite Split_chr_cons, IH.
Qed.

(** The same for the two-character separator [c d]. *)
Lemma Split_two_cons c d a b :
  ContainsRune a c = false ->
  Split (a +:+ String c (String d b)) (String c (chr d)) = a :: Split b (String c (chr d)).
Proof.
  unfold Split, chr. induction a as [|x a IH]; intros Ha; simpl_str.
  - by rewrite !HasPrefix_cons, HasPrefix_nil, (bool_decide_eq_true_2 (c = c)),
      (bool_decide_eq_true_2 (d = d)).
  - apply orb_false_iff in Ha as [Hx Ha]. rewrite HasPrefix_cons, Hx. simpl. by rewrite IH.
Qed.

Lemma Split_two_none c d a :
  ContainsRune a c = false -> Split a (String c (chr d)) = [a].
Proof.
  unfold Split, chr. induction a as [|x a IH]; intros Ha; simpl_str; [done|].
  apply orb_false_iff in Ha as [Hx Ha]. rewrite HasPrefix_cons, Hx. simpl. by rewrite IH.
Qed.

Lemma Split_two_end c d a :
  ContainsRune a c = false -> Split (a +:+ chr c) (String c (chr d)) = [a +:+ chr c].
Proof.
  unfold Split, chr. induction a as [|x a IH]; intros Ha; simpl_str.
  - by rewrite HasPrefix_cons, bool_decide_eq_true_2.
  - apply orb_false_iff in Ha as [Hx Ha]. rewrite HasPrefix_cons, Hx. simpl. by rewrite IH.
Qed.

(** ** Trimming *)

Lemma TrimRight_none a c : ContainsRune a c = false -> TrimRight a c = a.
Proof.
  induction a as [|d a IH]; simpl; [done|]. intros [Hd Ha]%orb_false_iff. rewrite IH by done.
  apply bool_decide_eq_false in Hd. destruct a; [by rewrite decide_False|done].
Qed.

Lemma TrimRight_end a c : ContainsRune a c = false -> TrimRight (a +:+ chr c) c = a.
Proof.
  unfold chr. induction a as [|d a IH]; simpl_str; [by rewrite decide_True|].
  intros [Hd Ha]%orb_false_iff. rewrite IH by done.
  apply bool_decide_eq_false in Hd. destruct a; [by rewrite decide_False|done].
Qed.

Lemma TrimLeft_start a c : ContainsRune a c = false -> TrimLeft (String c a) c = a.
Proof.
  intros Ha. simpl. rewrite decide_True by done. destruct a as [|d a]; [done|]. simpl in *.
  apply orb_false_iff in Ha as [Hd%bool_decide_eq_false _]. by rewrite decide_False.
Qed.

(** No encoding of a space starts with a visible character. *)
Definition first_char_ok (c : ascii) (p : string) : bool :=
  match p with EmptyString => false | String d _ => negb (bool_decide (d = c)) end.

Lemma space_first c : visible c = true -> forallb (first_char_ok c) space_encodings = true.
Proof. destruct c as [[] [] [] [] [] [] [] []]; vm_compute; congruence. Qed.

Lemma strip_any_first c s ps : forallb (first_char_ok c) ps = true -> strip_any ps (String c s) = None.
Proof.
  induction ps as [|[|d p] ps IH]; simpl; [done|done|].
  intros [Hd Hps]%andb_true_iff. apply negb_true_iff, bool_decide_eq_false in Hd.
  rewrite decide_False by done. auto.
Qed.

Lemma strip_any_visible c s : visible c = true -> strip_any space_encodings (String c s) = None.
Proof. intros Hc. by apply strip_any_first, space_first. Qed.

Lemma trim_left_space_visible c s :
  visible c = true -> trim_left_space (String c s) = String c s.
Proof.
  intros Hc. unfold trim_left_space, trim_left_of. cbn [String.length trim_left_fuel].
  by rewrite strip_any_visible.
Qed.

Lemma trim_right_space_visible s : str_forall visible s = true -> trim_right_space s = s.
Proof.
  induction s as [|c s IH]; [done|]. cbn [str_forall trim_right_space]. intros [Hc Hs]%andb_true_iff.
  rewrite decide_False by by rewrite trim_left_space_visible. by rewrite IH.
Qed.

Lemma TrimSpace_visible s : str_forall visible s = true -> TrimSpace s = s.
Proof.
  intros Hs. unfold TrimSpace. destruct s as [|c s]; [done|].
  rewrite trim_left_space_visible by (simpl in Hs; by apply andb_true_iff in Hs as [? _]).
  by apply trim_right_space_visible.
Qed.

(** A visible string is one token. *)
Lemma scan_token_visible s : str_forall visible s = true -> scan_token s = s.
Proof.
  induction s as [|c s IH]; [done|]. cbn [str_forall scan_token]. intros [Hc Hs]%andb_true_iff.
  rewrite strip_any_visible by done. rewrite decide_False by (by intros [? ?]). by rewrite IH.
Qed.

Lemma concat_forall f sep l :
  str_forall f sep = true -> Forall (fun s => str_forall f s = true) l ->
  str_forall f (String.concat sep l) = true.
Proof.
  intros Hsep Hl. induction Hl as [|s l Hs Hl IH]; [done|]. destruct l as [|s' l]; [done|].
  change (String.concat sep (s :: s' :: l)) with (s +:+ sep +:+ String.concat sep (s' :: l)).
  by rewrite !str_forall_app, Hs, Hsep, IH.
Qed.
