(* ===== verification/NumberFacts.v ===== *)
(** * Decimal numbers: [strconv.Atoi] reads what [strconv.Itoa] writes *)

From Stdlib Require Import Ascii.
From stdpp Require Import pretty.
From S2P Require Import Prelude GoStrings StringFacts.

Lemma digit_val_char d : (d < 10)%N -> digit_val (pretty_N_char d) = Some (Z.of_N d).
Proof.
  intros Hd.
  assert (d = 0 \/ d = 1 \/ d = 2 \/ d = 3 \/ d = 4 \/ d = 5 \/ d = 6 \/ d = 7 \/ d = 8 \/ d = 9)%N
    as H by lia.
  by repeat (destruct H as [-> | H]; [reflexivity|]); subst.
Qed.

Lemma digits_val_go x s : digits_val 0 (pretty_N_go x s) = digits_val (Z.of_N x) s.
Proof.
  revert s. induction (N.lt_wf_0 x) as [x _ IH]; intros s.
  destruct (decide (x = 0)%N) as [->|Hx]; [done|].
  rewrite pretty_N_go_step by lia. rewrite IH by (apply N.div_lt; lia).
  assert (Hm : (x `mod` 10 < 10)%N) by (apply N.mod_lt; lia).
  cbn [digits_val]. rewrite (digit_val_char _ Hm). f_equal.
  rewrite N2Z.inj_div, N2Z.inj_mod. pose proof (Z.div_mod (Z.of_N x) (Z.of_N 10)). lia.
Qed.

(** The first character of a decimal is a digit. *)
Definition starts_with_digit (s : string) : Prop :=
  exists c s', s = String c s' /\ is_Some (digit_val c).

Lemma go_starts x s : starts_with_digit s \/ (0 < x)%N -> starts_with_digit (pretty_N_go x s).
Proof.
  revert s. induction (N.lt_wf_0 x) as [x _ IH]; intros s Hs.
  destruct (decide (x = 0)%N) as [->|Hx]; [destruct Hs; [done|lia]|].
  rewrite pretty_N_go_step by lia. apply IH; [apply N.div_lt; lia|]. left. eexists _, s.
  split; [done|]. eexists. apply digit_val_char, N.mod_lt. lia.
Qed.

Lemma pretty_N_starts (x : N) : starts_with_digit (pretty x).
Proof.
  unfold pretty, pretty_N. case_decide as Hx; [eexists _, EmptyString; split; [done|by eexists]|].
  apply go_starts. right. lia.
Qed.

Lemma parse_unsigned_pretty (x : N) : parse_unsigned (pretty x) = Some (Z.of_N x).
Proof.
  pose proof (pretty_N_starts x) as (c & s & Hs & _).
  assert (Hd : digits_val 0 (pretty x) = Some (Z.of_N x)).
  { unfold pretty, pretty_N. case_decide as Hx; [by subst|]. by rewrite digits_val_go. }
  rewrite Hs in *. exact Hd.
Qed.

(** A sign is not a digit. *)
Lemma parse_int_pretty fn (x : N) s :
  s = pretty x ->
  parse_int fn s = if decide (Z.of_N x < 2 ^ 63)%Z then Ok (Z.of_N x) else Err (ErrNum fn s true).
Proof.
  intros ->. pose proof (parse_unsigned_pretty x) as Hp. pose proof (pretty_N_starts x) as (c & s & Hs & Hc).
  rewrite Hs in *. unfold parse_int.
  rewrite decide_False by (intros ->; by destruct Hc).
  rewrite decide_False by (intros ->; by destruct Hc). by rewrite Hp.
Qed.

Lemma parse_int_Itoa fn n : (- 2 ^ 63 <= n < 2 ^ 63)%Z -> parse_int fn (Itoa n) = Ok n.
Proof.
  intros Hn. unfold Itoa. destruct n as [|x|x].
  - done.
  - rewrite (parse_int_pretty fn (Npos x)) by done. by rewrite decide_True by lia.
  - change (pretty (Zneg x)) with (String "-" (pretty (Npos x))). unfold parse_int.
    rewrite decide_True by done. rewrite parse_unsigned_pretty. by rewrite decide_True by lia.
Qed.

Lemma Atoi_Itoa n : (- 2 ^ 63 <= n < 2 ^ 63)%Z -> Atoi (Itoa n) = Ok n.
Proof. apply parse_int_Itoa. Qed.

(** Whatever is read fits in 64 bits. *)
Lemma parse_int_bounds fn s n : parse_int fn s = Ok n -> (- 2 ^ 63 <= n < 2 ^ 63)%Z.
Proof.
  unfold parse_int. intros H.
  assert (Hu : forall t m, parse_unsigned t = Some m -> (0 <= m)%Z).
  { assert (Hd : forall t acc m, (0 <= acc)%Z -> digits_val acc t = Some m -> (0 <= m)%Z).
    { induction t as [|c t IH]; intros acc m Ha; simpl; [by intros [= <-]|].
      destruct (digit_val c) as [d|] eqn:Hc; [|done]. apply IH. unfold digit_val in Hc.
      case_decide; [|done]. injection Hc as <-. lia. }
    intros [|c t] m; [done|]. by apply Hd. }
  repeat (case_decide || case_match); simplify_eq;
    repeat match goal with Hp : parse_unsigned _ = Some _ |- _ => apply Hu in Hp end; lia.
Qed.

(** A decimal is visible, so it is not blank. *)
Lemma pretty_char_visible d : visible (pretty_N_char d) = true.
Proof. unfold pretty_N_char. by repeat case_match. Qed.

Lemma Itoa_visible n : str_forall visible (Itoa n) = true.
Proof.
  assert (Hgo : forall x s, str_forall visible s = true -> str_forall visible (pretty_N_go x s) = true).
  { intros x. induction (N.lt_wf_0 x) as [x _ IH]; intros s Hs.
    destruct (decide (x = 0)%N) as [->|Hx]; [done|].
    rewrite pretty_N_go_step by lia. apply IH; [apply N.div_lt; lia|]. simpl.
    by rewrite pretty_char_visible. }
  assert (Hp : forall x : N, str_forall visible (pretty x) = true).
  { intros x. unfold pretty, pretty_N. case_decide; [done|by apply Hgo]. }
  unfold Itoa. destruct n as [|x|x]; [done|apply (Hp (Npos x))|].
  change (pretty (Zneg x)) with (String "-" (pretty (Npos x))). simpl. apply (Hp (Npos x)).
Qed.

Lemma Itoa_not_empty n : Itoa n <> EmptyString.
Proof.
  unfold Itoa. destruct n as [|x|x]; [done| |done].
  destruct (pretty_N_starts (Npos x)) as (c & s & Hs & _).
  change (pretty (Zpos x)) with (pretty (Npos x)). by rewrite Hs.
Qed.
