(* ===== verification/K8sTypes.v ===== *)
(** * Kubernetes API objects

    The fields of [metav1], [corev1] and [appsv1] objects that the source reads
    or writes.  Types the source only passes along are members of the class
    [CoreTypes], together with [resource.Quantity] and its parser and printer,
    which are library code: the development is parametric in them. *)

From S2P Require Import Prelude.

Class CoreTypes := {
  Quantity : Type;
  (** [resource.Quantity{}] *)
  quantity_zero : Quantity;
  (** [Quantity.String] *)
  quantity_String : Quantity -> string;
  (** [resource.ParseQuantity] *)
  ParseQuantity : string -> result Quantity;
  Probe : Type;
  Lifecycle : Type;
  EnvFromSource : Type;
  VolumeDevice : Type;
  Toleration : Type;
  OwnerReference : Type;
  EmptyDirVolumeSource : Type;
  (** [labels.Selector] *)
  LabelSelector : Type;
}.

(** ** [metav1.ObjectMeta] *)
Record ObjectMeta {C : CoreTypes} := mkMeta {
  Name : string;
  GenerateName : string;
  Namespace : string;
  UID : string;
  Generation : Z;
  Labels : gomap string;
  Annotations : gomap string;
  Finalizers : list string;
  OwnerReferences : list OwnerReference;
}.

Section Meta.
Context {C : CoreTypes}.

Definition emptyMeta : ObjectMeta :=
  mkMeta _ EmptyString EmptyString EmptyString EmptyString 0 None None [] [].

Definition set_Name (x : string) (m : ObjectMeta) : ObjectMeta :=
  mkMeta _ x (GenerateName m) (Namespace m) (UID m) (Generation m) (Labels m)
    (Annotations m) (Finalizers m) (OwnerReferences m).
Definition set_GenerateName (x : string) (m : ObjectMeta) : ObjectMeta :=
  mkMeta _ (Name m) x (Namespace m) (UID m) (Generation m) (Labels m)
    (Annotations m) (Finalizers m) (OwnerReferences m).
Definition set_Namespace (x : string) (m : ObjectMeta) : ObjectMeta :=
  mkMeta _ (Name m) (GenerateName m) x (UID m) (Generation m) (Labels m)
    (Annotations m) (Finalizers m) (OwnerReferences m).
Definition set_Labels (x : gomap string) (m : ObjectMeta) : ObjectMeta :=
  mkMeta _ (Name m) (GenerateName m) (Namespace m) (UID m) (Generation m) x
    (Annotations m) (Finalizers m) (OwnerReferences m).
Definition set_Annotations (x : gomap string) (m : ObjectMeta) : ObjectMeta :=
  mkMeta _ (Name m) (GenerateName m) (Namespace m) (UID m) (Generation m) (Labels m)
    x (Finalizers m) (OwnerReferences m).
Definition set_Finalizers (x : list string) (m : ObjectMeta) : ObjectMeta :=
  mkMeta _ (Name m) (GenerateName m) (Namespace m) (UID m) (Generation m) (Labels m)
    (Annotations m) x (OwnerReferences m).
Definition set_OwnerReferences (x : list OwnerReference) (m : ObjectMeta) : ObjectMeta :=
  mkMeta _ (Name m) (GenerateName m) (Namespace m) (UID m) (Generation m) (Labels m)
    (Annotations m) (Finalizers m) x.
End Meta.

(** ** [corev1.PersistentVolumeClaim] *)
Definition ReadWriteOnce : string := "ReadWriteOnce".
Definition ReadWriteMany : string := "ReadWriteMany".
Definition ClaimBound : string := "Bound".
Definition ResourceStorage : string := "storage".

Record PVCSpec {C : CoreTypes} := mkPVCSpec {
  pvc_StorageClassName : option string;
  pvc_AccessModes : list string;
  pvc_Requests : gomap Quantity;
  pvc_VolumeMode : option string;
  pvc_VolumeName : string;
}.

Record PersistentVolumeClaim {C : CoreTypes} := mkPVC {
  pvc_meta : ObjectMeta;
  pvc_spec : PVCSpec;
  pvc_Phase : string;
}.

(** ** [corev1.PersistentVolume] *)
Record NFSVolumeSource := mkNFS {
  nfs_Server : string;
  nfs_Path : string;
  nfs_ReadOnly : bool;
}.

Record LocalVolumeSource := mkLocal {
  local_Path : string;
  local_FSType : option string;
}.

Record PersistentVolumeSource := mkPVSource {
  src_NFS : option NFSVolumeSource;
  src_Local : option LocalVolumeSource;
  (** [HostPath.Path] *)
  src_HostPath : option string;
}.

Definition NodeSelectorOpIn : string := "In".
Definition NodeSelectorOpExists : string := "Exists".

Record NodeSelectorRequirement := mkReq {
  req_Key : string;
  req_Operator : string;
  req_Values : list string;
}.

(** [corev1.NodeSelectorTerm] by its [MatchExpressions] *)
Abbreviation NodeSelectorTerm := (list NodeSelectorRequirement).

(** [corev1.NodeSelector] by its [NodeSelectorTerms] *)
Abbreviation NodeSelector := (list NodeSelectorTerm).

Definition PersistentVolumeReclaimRetain : string := "Retain".

Record PVSpec {C : CoreTypes} := mkPVSpec {
  pv_ReclaimPolicy : string;
  pv_VolumeMode : option string;
  pv_AccessModes : list string;
  pv_Capacity : gomap Quantity;
  pv_Source : PersistentVolumeSource;
  (** [Spec.NodeAffinity], then [Required] *)
  pv_NodeAffinity : option (option NodeSelector);
  pv_MountOptions : list string;
  (** [Spec.ClaimRef.Name] *)
  pv_ClaimRef : option string;
}.

Record PersistentVolume {C : CoreTypes} := mkPV {
  pv_meta : ObjectMeta;
  pv_spec : PVSpec;
}.

(** ** [corev1.Service] *)
Record ServicePort := mkServicePort {
  sp_Name : string;
  sp_Port : Z;
}.

Record ServiceSpec := mkServiceSpec {
  svc_Selector : gomap string;
  svc_Ports : list ServicePort;
  svc_Type : string;
  svc_ClusterIP : string;
}.

Record Service {C : CoreTypes} := mkService {
  svc_meta : ObjectMeta;
  svc_spec : ServiceSpec;
}.

(** ** [corev1.Container], [corev1.Volume] and pod templates *)
Record EnvVar := mkEnv { env_Name : string; env_Value : string }.
Record ContainerPort := mkContainerPort { cp_Name : string; cp_Port : Z }.
Record VolumeMount := mkVolumeMount { vm_Name : string; vm_MountPath : string }.

Record ResourceRequirements {C : CoreTypes} := mkResources {
  res_Requests : gomap Quantity;
  res_Limits : gomap Quantity;
}.

Record Container {C : CoreTypes} := mkContainer {
  c_Name : string;
  c_Image : string;
  c_Command : list string;
  c_Args : list string;
  c_WorkingDir : string;
  c_Ports : list ContainerPort;
  c_EnvFrom : list EnvFromSource;
  c_Env : gslice EnvVar;
  c_Resources : ResourceRequirements;
  c_VolumeMounts : list VolumeMount;
  c_VolumeDevices : list VolumeDevice;
  c_LivenessProbe : option Probe;
  c_ReadinessProbe : option Probe;
  c_Lifecycle : option Lifecycle;
  c_TerminationMessagePath : string;
  c_TerminationMessagePolicy : string;
  c_ImagePullPolicy : string;
  (** [SecurityContext], then [Privileged] *)
  c_SecurityContext : option (option bool);
  c_Stdin : bool;
  c_StdinOnce : bool;
  c_TTY : bool;
}.

(** [corev1.VolumeSource]: the members the volume builder sets. *)
Record VolumeSource {C : CoreTypes} := mkVolumeSource {
  vs_HostPath : option (string * option string);
  (** [SecretName], [DefaultMode] *)
  vs_Secret : option (string * option Z);
  (** [Name], [DefaultMode] *)
  vs_ConfigMap : option (string * option Z);
  (** [ClaimName] *)
  vs_PVC : option string;
  vs_EmptyDir : option EmptyDirVolumeSource;
}.

Record Volume {C : CoreTypes} := mkVolume {
  v_Name : string;
  v_Source : VolumeSource;
}.

(** [corev1.Affinity] by its [NodeAffinity], then
    [RequiredDuringSchedulingIgnoredDuringExecution]. *)
Record Affinity := mkAffinity {
  aff_NodeAffinity : option (option NodeSelector);
}.

Record PodSpec {C : CoreTypes} := mkPodSpec {
  pod_NodeSelector : gomap string;
  pod_PriorityClassName : string;
  pod_ServiceAccountName : string;
  pod_ImagePullSecrets : list string;
  (** [SecurityContext], then [FSGroup] *)
  pod_SecurityContext : option (option Z);
  pod_Affinity : option Affinity;
  pod_Tolerations : list Toleration;
  pod_Containers : list Container;
  pod_Volumes : list Volume;
}.

Record PodTemplateSpec {C : CoreTypes} := mkPodTemplate {
  pt_meta : ObjectMeta;
  pt_spec : PodSpec;
}.

(** ** [appsv1.Deployment] *)
Definition RecreateDeploymentStrategyType : string := "Recreate".
Definition DeploymentProgressing : string := "Progressing".
Definition PullIfNotPresent : string := "IfNotPresent".

Record DeploymentCondition := mkCondition {
  cond_Type : string;
  cond_Reason : string;
}.

(** [metav1.LabelSelector] by its [MatchLabels] is [Selector]; int32 and int64
    counters are kept as [Z] since the source only compares them. *)
Record DeploymentSpec {C : CoreTypes} := mkDeploymentSpec {
  d_Selector : option (gomap string);
  d_Replicas : option Z;
  d_StrategyType : string;
  d_Template : PodTemplateSpec;
}.

Record DeploymentStatus := mkDeploymentStatus {
  d_Conditions : list DeploymentCondition;
  d_UpdatedReplicas : Z;
  d_StatusReplicas : Z;
  d_AvailableReplicas : Z;
  d_ReadyReplicas : Z;
  d_ObservedGeneration : Z;
}.

Record Deployment {C : CoreTypes} := mkDeployment {
  d_meta : ObjectMeta;
  d_spec : DeploymentSpec;
  d_status : DeploymentStatus;
}.

(** ** [storagev1.StorageClass] *)
Record StorageClass {C : CoreTypes} := mkStorageClass {
  sc_meta : ObjectMeta;
  (** a pointer; the API server defaults it *)
  sc_ReclaimPolicy : option string;
  sc_MountOptions : list string;
}.

(** The dynamic types an [interface{}] argument takes in the hook package. *)
Inductive object {C : CoreTypes} :=
| ObjPVC (o : PersistentVolumeClaim)
| ObjPV (o : PersistentVolume)
| ObjService (o : Service)
| ObjDeployment (o : Deployment).

(** The zero values, [&corev1.PersistentVolumeClaim{}] and so on. *)
Section Zero.
Context {C : CoreTypes}.

Definition emptyPVC : PersistentVolumeClaim :=
  mkPVC _ emptyMeta (mkPVCSpec _ None [] None None EmptyString) EmptyString.
Definition emptyPV : PersistentVolume :=
  mkPV _ emptyMeta
    (mkPVSpec _ EmptyString None [] None (mkPVSource None None None) None [] None).
Definition emptyService : Service :=
  mkService _ emptyMeta (mkServiceSpec None [] EmptyString EmptyString).
Definition emptyResources : ResourceRequirements := mkResources _ None None.
Definition emptyContainer : Container :=
  mkContainer _ EmptyString EmptyString [] [] EmptyString [] [] None emptyResources
    [] [] None None None EmptyString EmptyString EmptyString None false false false.
Definition emptyVolumeSource : VolumeSource := mkVolumeSource _ None None None None None.
Definition emptyVolume : Volume := mkVolume _ EmptyString emptyVolumeSource.
Definition emptyPodTemplate : PodTemplateSpec :=
  mkPodTemplate _ emptyMeta
    (mkPodSpec _ None EmptyString EmptyString [] None None [] [] []).
Definition emptyDeployment : Deployment :=
  mkDeployment _ emptyMeta (mkDeploymentSpec _ None None EmptyString emptyPodTemplate)
    (mkDeploymentStatus [] 0 0 0 0 0).

(** Which [ObjectMeta] an object carries, and its replacement. *)
Definition object_meta (o : object) : ObjectMeta :=
  match o with
  | ObjPVC x => pvc_meta x
  | ObjPV x => pv_meta x
  | ObjService x => svc_meta x
  | ObjDeployment x => d_meta x
  end.
End Zero.
