(* ===== verification/BuilderCore.v ===== *)
(** * The builder pattern shared by the pkg/kubernetes/api packages

    Every builder of those packages is an object under construction and a list
    of errors.  A method either appends an error and leaves the object alone,
    or updates the object and leaves the errors alone; [Build] returns the
    object when the list is empty.  The packages are modelled on this record;
    [Method] is this discipline, and [records] says when a method records an
    error.  (The volume builder's [WithSecret] and [WithConfigMap] break the
    discipline: they can do both.) *)

From S2P Require Import Prelude.

Record builder (A : Type) := mkBuilder {
  b_obj : A;
  b_errs : list goerr;
}.
Arguments mkBuilder {A}.
Arguments b_obj {A}.
Arguments b_errs {A}.

Section Builder.
Context {A : Type}.
Implicit Types b : builder A.

(** [b.errs = append(b.errs, e); return b] *)
Definition fail_with (e : goerr) b : builder A := mkBuilder (b_obj b) (b_errs b ++ [e]).

Definition fail_msg (msg : string) b : builder A := fail_with (ErrNew msg) b.

(** [b.<object>.<field> = x; return b] *)
Definition upd (f : A -> A) b : builder A := mkBuilder (f (b_obj b)) (b_errs b).

(** [if bad { errs = append(errs, New(msg)); return b }; update; return b] *)
Definition checked (bad : bool) (msg : string) (f : A -> A) b : builder A :=
  if bad then fail_msg msg b else upd f b.

(** [if len(b.errs) > 0 { return nil, Errorf(.., b.errs) }; return object] *)
Definition build (report : list goerr -> goerr) b : result A :=
  match b_errs b with
  | [] => Ok (b_obj b)
  | es => Err (report es)
  end.

(** A builder method: it records one error, or it updates the object. *)
Definition Method (m : builder A -> builder A) : Prop :=
  forall b, (exists e, m b = fail_with e b) \/ (exists f, m b = upd f b).

(** The method records an error exactly when [bad], and drops none. *)
Definition records (m : builder A -> builder A) (bad : bool) : Prop :=
  forall b, b_errs (m b) = [] <-> b_errs b = [] /\ bad = false.

(** It never drops an error. *)
Definition Monotone (m : builder A -> builder A) : Prop :=
  forall b, b_errs b `prefix_of` b_errs (m b).

(** A chained call [b.m1().m2()...]. *)
Definition chain (ms : list (builder A -> builder A)) b : builder A :=
  fold_left (fun b m => m b) ms b.

Lemma build_Ok report b o : build report b = Ok o <-> b_errs b = [] /\ b_obj b = o.
Proof.
  unfold build. destruct (b_errs b) as [|e es].
  - split; [by intros [= ->]|by intros [_ ->]].
  - split; [done|by intros [? _]].
Qed.

Lemma Method_fail e : Method (fail_with e).
Proof. intros b. left. by exists e. Qed.

Lemma Method_fail_msg msg : Method (fail_msg msg).
Proof. apply Method_fail. Qed.

Lemma Method_upd f : Method (upd f).
Proof. intros b. right. by exists f. Qed.

Lemma Method_checked bad msg f : Method (checked bad msg f).
Proof. destruct bad; [apply Method_fail|apply Method_upd]. Qed.

Lemma Method_id : Method (fun b => b).
Proof. intros b. right. exists id. by destruct b. Qed.

Lemma Method_Monotone m : Method m -> Monotone m.
Proof.
  intros Hm b. destruct (Hm b) as [[e ->]|[f ->]]; simpl; [by apply prefix_app_r|done].
Qed.

Lemma chain_errs ms b : Forall Monotone ms -> b_errs b `prefix_of` b_errs (chain ms b).
Proof.
  revert b. induction ms as [|m ms IH]; intros b Hms; [done|].
  inversion_clear Hms as [|?? Hm Hrest]. etrans; [apply Hm|by apply IH].
Qed.

Lemma records_upd (f : A -> A) : records (upd f) false.
Proof. intros b. cbn. tauto. Qed.

Lemma records_fail e : records (fail_with e) true.
Proof. intros b. cbn. split; [by intros [_ ?]%app_nil|by intros [_ ?]]. Qed.

Lemma records_checked bad bad' msg (f : A -> A) : bad = bad' -> records (checked bad msg f) bad'.
Proof. intros <-. destruct bad; [apply records_fail|apply records_upd]. Qed.

End Builder.

Create HintDb builders discriminated.
#[export] Hint Resolve Method_fail Method_fail_msg Method_upd Method_checked Method_id : builders.
#[export] Hint Resolve records_upd records_fail : builders.

(** Proves [Method m], for an unfolded [m], by splitting its guards. *)
Ltac solve_method :=
  let b := fresh "b" in intros b; cbv zeta;
  repeat (match goal with
          | |- context [match ?x with _ => _ end] => destruct x
          end);
  solve [ left; eexists; reflexivity
        | right; eexists; reflexivity
        | right; exists id; by destruct b
        | (apply Method_checked || apply Method_upd || apply Method_fail_msg) ].
