(* ===== verification/PVCBuilder.v ===== *)
(** * pkg/kubernetes/api/core/v1/persistentvolumeclaim

    The claim builder ([build.go]), the list builder ([buildlist.go]) and the
    predicates ([persistentvolumeclaim.go]). *)

From S2P Require Import Prelude GoStrings K8sTypes BuilderCore.

(** [PVC] wraps a possibly nil object pointer; [None] as the result of a
    predicate is the nil dereference of the Go method. *)
Abbreviation PVC := (option PersistentVolumeClaim).
Abbreviation Predicate := (PVC -> option bool).

Section PVCBuilder.
Context {C : CoreTypes}.

Definition Builder := builder PersistentVolumeClaim.

Definition NewBuilder : Builder := mkBuilder emptyPVC [].

Definition on_meta (f : ObjectMeta -> ObjectMeta) (o : PersistentVolumeClaim) :=
  mkPVC _ (f (pvc_meta o)) (pvc_spec o) (pvc_Phase o).

Definition on_spec (f : PVCSpec -> PVCSpec) (o : PersistentVolumeClaim) :=
  mkPVC _ (pvc_meta o) (f (pvc_spec o)) (pvc_Phase o).

Definition BuildFrom (p : option PersistentVolumeClaim) : Builder :=
  match p with
  | None => fail_msg "failed to build pvc object" NewBuilder
  | Some o => mkBuilder o []
  end.

Definition WithName (name : string) : Builder -> Builder :=
  checked (bool_decide (String.length name = 0))
    "failed to build PVC object: missing PVC name"
    (on_meta (set_Name name)).

Definition WithGenerateName (name : string) : Builder -> Builder :=
  checked (bool_decide (String.length name = 0))
    "failed to build PVC object: missing PVC generateName"
    (on_meta (set_GenerateName name)).

Definition WithNamespace (namespace : string) : Builder -> Builder :=
  let namespace := if decide (String.length namespace = 0) then "default" else namespace in
  upd (on_meta (set_Namespace namespace)).

Definition WithAnnotations (annotations : gomap string) : Builder -> Builder :=
  checked (bool_decide (gomap_len annotations = 0))
    "failed to build PVC object: missing annotations"
    (on_meta (set_Annotations annotations)).

Definition merge_labels (labels : gomap string) (m : ObjectMeta) : ObjectMeta :=
  let cur := match Labels m with None => ∅ | Some l => l end in
  set_Labels (Some (range_insert (gomap_get labels) cur)) m.

Definition WithLabels (labels : gomap string) : Builder -> Builder :=
  checked (bool_decide (gomap_len labels = 0))
    "failed to build PVC object: missing labels"
    (on_meta (merge_labels labels)).

Definition WithLabelsNew (labels : gomap string) : Builder -> Builder :=
  checked (bool_decide (gomap_len labels = 0))
    "failed to build PVC object: missing labels"
    (on_meta (set_Labels (Some (range_insert (gomap_get labels) ∅)))).

Definition set_StorageClassName (x : option string) (s : PVCSpec) : PVCSpec :=
  mkPVCSpec _ x (pvc_AccessModes s) (pvc_Requests s) (pvc_VolumeMode s) (pvc_VolumeName s).
Definition set_AccessModes (x : list string) (s : PVCSpec) : PVCSpec :=
  mkPVCSpec _ (pvc_StorageClassName s) x (pvc_Requests s) (pvc_VolumeMode s) (pvc_VolumeName s).
Definition set_Requests (x : gomap Quantity) (s : PVCSpec) : PVCSpec :=
  mkPVCSpec _ (pvc_StorageClassName s) (pvc_AccessModes s) x (pvc_VolumeMode s) (pvc_VolumeName s).
Definition set_VolumeMode (x : option string) (s : PVCSpec) : PVCSpec :=
  mkPVCSpec _ (pvc_StorageClassName s) (pvc_AccessModes s) (pvc_Requests s) x (pvc_VolumeName s).
Definition set_VolumeName (x : string) (s : PVCSpec) : PVCSpec :=
  mkPVCSpec _ (pvc_StorageClassName s) (pvc_AccessModes s) (pvc_Requests s) (pvc_VolumeMode s) x.

(** An empty class name is silently ignored. *)
Definition WithStorageClass (scName : string) (b : Builder) : Builder :=
  if decide (String.length scName = 0) then b
  else upd (on_spec (set_StorageClassName (Some scName))) b.

Definition WithAccessModes (accessMode : list string) : Builder -> Builder :=
  checked (bool_decide (length accessMode = 0))
    "failed to build PVC object: missing accessmodes"
    (on_spec (set_AccessModes accessMode)).

Definition WithAccessModeRWO : Builder -> Builder := WithAccessModes [ReadWriteOnce].

Definition WithCapacity (capacity : string) (b : Builder) : Builder :=
  match ParseQuantity capacity with
  | Err err =>
      fail_with (ErrWrap err
        ("failed to build PVC object: failed to parse capacity {" +:+ capacity +:+ "}")) b
  | Ok resCapacity => upd (on_spec (set_Requests (Some {[ResourceStorage := resCapacity]}))) b
  end.

Definition WithVolumeMode (vM : string) : Builder -> Builder :=
  upd (on_spec (set_VolumeMode (Some vM))).

Definition WithVolumeName (volumeName : string) : Builder -> Builder :=
  upd (on_spec (set_VolumeName volumeName)).

(** [errors.Errorf("%+v", b.errs)] *)
Definition Build (b : Builder) : result PersistentVolumeClaim :=
  build (ErrList EmptyString) b.

(** ** Predicates and lists *)

Definition IsBound (p : PVC) : option bool :=
  (fun o => bool_decide (pvc_Phase o = ClaimBound)) <$> p.

Definition IsNil (p : PVC) : option bool :=
  Some (match p with None => true | Some _ => false end).

Definition ContainsName (name : string) (p : PVC) : option bool :=
  (fun o => Contains (Name (pvc_meta o)) name) <$> p.

(** [PredicateList.all]: stops at the first predicate that does not hold. *)
Fixpoint all (l : list Predicate) (p : PVC) : option bool :=
  match l with
  | [] => Some true
  | pred :: l' =>
      match pred p with
      | None => None
      | Some false => Some false
      | Some true => all l' p
      end
  end.

(** [ToAPIList] dereferences every item. *)
Definition ToAPIList (l : list PVC) : option (list PersistentVolumeClaim) := mapM id l.

Record ListBuilder := mkListBuilder {
  lb_template : option PersistentVolumeClaim;
  lb_count : Z;
  lb_list : option (list PVC);
  lb_filters : list Predicate;
  lb_errs : list goerr;
}.

Definition NewListBuilder : ListBuilder := mkListBuilder None 0 (Some []) [] [].

Definition ListBuilderFromTemplate (p : option PersistentVolumeClaim) : ListBuilder :=
  match p with
  | None => mkListBuilder None 0 (Some []) []
              [ErrNew "failed to build pvc list: nil pvc template"]
  | Some t => mkListBuilder (Some t) 1 (Some []) [] []
  end.

Definition ListBuilderForAPIObjects (pvcs : option (list PersistentVolumeClaim)) : ListBuilder :=
  match pvcs with
  | None => mkListBuilder None 0 (Some []) []
              [ErrNew "failed to build pvc list: missing api list"]
  | Some items => mkListBuilder None 0 (Some (map Some items)) [] []
  end.

Definition ListBuilderForObjects (pvcs : option (list PVC)) : ListBuilder :=
  match pvcs with
  | None => mkListBuilder None 0 None []
              [ErrNew "failed to build pvc list: missing object list"]
  | Some l => mkListBuilder None 0 (Some l) [] []
  end.

Definition WithFilter (pred : list Predicate) (b : ListBuilder) : ListBuilder :=
  mkListBuilder (lb_template b) (lb_count b) (lb_list b) (lb_filters b ++ pred) (lb_errs b).

Definition WithCount (count : Z) (b : ListBuilder) : ListBuilder :=
  mkListBuilder (lb_template b) count (lb_list b) (lb_filters b) (lb_errs b).

(** The [for i := 0; i < b.count; i++] loop appends [count] times, not at all
    for a negative count. *)
Definition buildFromTemplateIfNilList (b : ListBuilder) (items : list PVC) : list PVC :=
  match lb_template b with
  | Some t =>
      if decide (length items <> 0) then items
      else items ++ replicate (Z.to_nat (lb_count b)) (Some t)
  | None => items
  end.

Fixpoint filter_all (fs : list Predicate) (l : list PVC) : option (list PVC) :=
  match l with
  | [] => Some []
  | p :: l' =>
      match all fs p with
      | None => None
      | Some keep =>
          match filter_all fs l' with
          | None => None
          | Some r => Some (if keep then p :: r else r)
          end
      end
  end.

(** [List] updates the builder's list in place.  The outer option is a nil
    dereference. *)
Definition List (b : ListBuilder) : option (ListBuilder * result (list PVC)) :=
  if decide (0 < length (lb_errs b))
  then Some (b, Err (ErrList "failed to build pvc list: " (lb_errs b)))
  else
    match lb_list b with
    | None => None
    | Some items =>
        let items' := buildFromTemplateIfNilList b items in
        let b' := mkListBuilder (lb_template b) (lb_count b) (Some items')
                    (lb_filters b) (lb_errs b) in
        if decide (length (lb_filters b) = 0) then Some (b', Ok items')
        else (fun r => (b', Ok r)) <$> filter_all (lb_filters b) items'
    end.

Definition Len (b : ListBuilder) : option (ListBuilder * result Z) :=
  match List b with
  | None => None
  | Some (b', r) => Some (b', let? l := r in Ok (Z.of_nat (length l)))
  end.

Definition APIList (b : ListBuilder) : option (ListBuilder * result (list PersistentVolumeClaim)) :=
  match List b with
  | None => None
  | Some (b', Err e) => Some (b', Err e)
  | Some (b', Ok l) => (fun items => (b', Ok items)) <$> ToAPIList l
  end.
End PVCBuilder.

(** ** Facts *)
Section PVCBuilderFacts.
Context {C : CoreTypes}.

Lemma filter_all_filter fs l (f : PVC -> bool) :
  (forall p, p ∈ l -> all fs p = Some (f p)) -> filter_all fs l = Some (base.filter f l).
Proof.
  induction l as [|p l IH]; intros Hf; simpl; [done|].
  rewrite Hf by set_solver. rewrite IH by set_solver.
  rewrite filter_cons. case_decide; by destruct (f p).
Qed.

Lemma buildFromTemplate_idem b c :
  buildFromTemplateIfNilList
    (mkListBuilder (lb_template b) (lb_count b) c (lb_filters b) (lb_errs b))
    (buildFromTemplateIfNilList b (default [] (lb_list b))) =
  buildFromTemplateIfNilList b (default [] (lb_list b)).
Proof.
  unfold buildFromTemplateIfNilList; simpl.
  destruct (lb_template b) as [t|]; [|done]. set (items := default [] (lb_list b)).
  repeat case_decide; simpl in *; try done.
  rewrite !length_app, length_replicate in *. destruct items; [|simpl in *; lia]. simpl in *.
  destruct (Z.to_nat (lb_count b)); [done|lia].
Qed.

(** [List] can be called again on the builder it updated, with the same
    outcome: the template is expanded once. *)
Lemma List_idempotent b b' r :
  List b = Some (b', r) -> List b' = Some (b', r).
Proof.
  unfold List. destruct (decide (0 < length (lb_errs b))) as [He|He].
  { intros [= <- <-]. by rewrite decide_True. }
  pose proof (buildFromTemplate_idem b) as Hi.
  destruct (lb_list b) as [items|] eqn:Hl; [|done]. simpl in Hi.
  set (items' := buildFromTemplateIfNilList b items) in *.
  destruct (decide (length (lb_filters b) = 0)) as [Hf|Hf].
  - intros [= <- <-]. simpl. rewrite decide_False by done. rewrite Hi.
    by rewrite decide_True.
  - intros Hr. destruct (filter_all (lb_filters b) items') as [x|] eqn:Hx; simpl in Hr; [|done].
    injection Hr as <- <-. simpl. rewrite decide_False by done. rewrite Hi.
    rewrite decide_False by done. by rewrite Hx.
Qed.
End PVCBuilderFacts.
