(* ===== verification/PVBuilder.v ===== *)
(** * pkg/kubernetes/api/core/v1/persistentvolume

    The volume builder ([build.go]), the list builder ([buildlist.go]) and the
    accessors of [persistentvolume.go]. *)

From S2P Require Import Prelude GoStrings K8sTypes BuilderCore.

(** [PV] wraps a possibly nil object pointer; [None] as the result of a method
    is its nil dereference. *)
Abbreviation PV := (option PersistentVolume).
Abbreviation Predicate := (PV -> option bool).

Section PVBuilder.
Context {C : CoreTypes}.

Definition KeyNode : string := "kubernetes.io/hostname".

Definition Builder := builder PersistentVolume.

Definition NewBuilder : Builder := mkBuilder emptyPV [].

Definition on_meta (f : ObjectMeta -> ObjectMeta) (o : PersistentVolume) :=
  mkPV _ (f (pv_meta o)) (pv_spec o).

Definition on_spec (f : PVSpec -> PVSpec) (o : PersistentVolume) :=
  mkPV _ (pv_meta o) (f (pv_spec o)).

Definition set_ReclaimPolicy (x : string) (s : PVSpec) : PVSpec :=
  mkPVSpec _ x (pv_VolumeMode s) (pv_AccessModes s) (pv_Capacity s) (pv_Source s)
    (pv_NodeAffinity s) (pv_MountOptions s) (pv_ClaimRef s).
Definition set_VolumeMode (x : option string) (s : PVSpec) : PVSpec :=
  mkPVSpec _ (pv_ReclaimPolicy s) x (pv_AccessModes s) (pv_Capacity s) (pv_Source s)
    (pv_NodeAffinity s) (pv_MountOptions s) (pv_ClaimRef s).
Definition set_AccessModes (x : list string) (s : PVSpec) : PVSpec :=
  mkPVSpec _ (pv_ReclaimPolicy s) (pv_VolumeMode s) x (pv_Capacity s) (pv_Source s)
    (pv_NodeAffinity s) (pv_MountOptions s) (pv_ClaimRef s).
Definition set_Capacity (x : gomap Quantity) (s : PVSpec) : PVSpec :=
  mkPVSpec _ (pv_ReclaimPolicy s) (pv_VolumeMode s) (pv_AccessModes s) x (pv_Source s)
    (pv_NodeAffinity s) (pv_MountOptions s) (pv_ClaimRef s).
Definition set_Source (x : PersistentVolumeSource) (s : PVSpec) : PVSpec :=
  mkPVSpec _ (pv_ReclaimPolicy s) (pv_VolumeMode s) (pv_AccessModes s) (pv_Capacity s) x
    (pv_NodeAffinity s) (pv_MountOptions s) (pv_ClaimRef s).
Definition set_NodeAffinity (x : option (option NodeSelector)) (s : PVSpec) : PVSpec :=
  mkPVSpec _ (pv_ReclaimPolicy s) (pv_VolumeMode s) (pv_AccessModes s) (pv_Capacity s)
    (pv_Source s) x (pv_MountOptions s) (pv_ClaimRef s).
Definition set_MountOptions (x : list string) (s : PVSpec) : PVSpec :=
  mkPVSpec _ (pv_ReclaimPolicy s) (pv_VolumeMode s) (pv_AccessModes s) (pv_Capacity s)
    (pv_Source s) (pv_NodeAffinity s) x (pv_ClaimRef s).

Definition WithName (name : string) : Builder -> Builder :=
  checked (bool_decide (String.length name = 0))
    "failed to build PV object: missing PV name"
    (on_meta (set_Name name)).

Definition WithAnnotations (annotations : gomap string) : Builder -> Builder :=
  checked (bool_decide (gomap_len annotations = 0))
    "failed to build PV object: missing annotations"
    (on_meta (set_Annotations annotations)).

(** Unlike the claim builder, this sets the map as it is given. *)
Definition WithLabels (labels : gomap string) : Builder -> Builder :=
  checked (bool_decide (gomap_len labels = 0))
    "failed to build PV object: missing labels"
    (on_meta (set_Labels labels)).

Definition WithReclaimPolicy (reclaimPolicy : string) : Builder -> Builder :=
  upd (on_spec (set_ReclaimPolicy reclaimPolicy)).

Definition WithVolumeMode (volumeMode : string) : Builder -> Builder :=
  upd (on_spec (set_VolumeMode (Some volumeMode))).

Definition WithAccessModes (accessMode : list string) : Builder -> Builder :=
  checked (bool_decide (length accessMode = 0))
    "failed to build PV object: missing accessmodes"
    (on_spec (set_AccessModes accessMode)).

Definition WithCapacityQty (resCapacity : Quantity) : Builder -> Builder :=
  upd (on_spec (set_Capacity (Some {[ResourceStorage := resCapacity]}))).

Definition WithCapacity (capacity : string) (b : Builder) : Builder :=
  match ParseQuantity capacity with
  | Err err =>
      fail_with (ErrWrap err
        ("failed to build PV object: failed to parse capacity {" +:+ capacity +:+ "}")) b
  | Ok resCapacity => WithCapacityQty resCapacity b
  end.

Definition WithLocalHostPathFormat (path fstype : string) : Builder -> Builder :=
  checked (bool_decide (String.length path = 0))
    "failed to build PV object: missing PV path"
    (on_spec (set_Source (mkPVSource None (Some (mkLocal path (Some fstype))) None))).

Definition WithLocalHostDirectory (path : string) : Builder -> Builder :=
  WithLocalHostPathFormat path EmptyString.

Definition WithPersistentVolumeSource (source : option PersistentVolumeSource)
    (b : Builder) : Builder :=
  match source with
  | None => fail_msg "failed to build PV object: missing PV source" b
  | Some src => upd (on_spec (set_Source src)) b
  end.

Definition WithNodeAffinity (nodeName : string) : Builder -> Builder :=
  checked (bool_decide (String.length nodeName = 0))
    "failed to build PV object: missing PV node name"
    (on_spec (set_NodeAffinity
       (Some (Some [[mkReq KeyNode NodeSelectorOpIn [nodeName]]])))).

Definition WithNFS (server path : string) (readOnly : bool) (b : Builder) : Builder :=
  if decide (String.length server = 0)
  then fail_msg "failed to build PV object: missing NFS Server address" b
  else if decide (String.length path = 0)
  then fail_msg "failed to build PV object: missing NFS Path" b
  else upd (on_spec (set_Source (mkPVSource (Some (mkNFS server path readOnly)) None None))) b.

Definition WithMountOptions (mountOptions : list string) (b : Builder) : Builder :=
  if decide (length mountOptions = 0) then b
  else upd (on_spec (set_MountOptions mountOptions)) b.

(** [errors.Errorf("%+v", b.errs)] *)
Definition Build (b : Builder) : result PersistentVolume := build (ErrList EmptyString) b.

(** ** Accessors *)

Definition IsNil (p : PV) : option bool :=
  Some (match p with None => true | Some _ => false end).

Definition ContainsName (name : string) (p : PV) : option bool :=
  (fun o => Contains (Name (pv_meta o)) name) <$> p.

Definition GetPath (o : PersistentVolume) : string :=
  match src_Local (pv_Source (pv_spec o)) with
  | Some local => local_Path local
  | None =>
      match src_HostPath (pv_Source (pv_spec o)) with
      | Some path => path
      | None => EmptyString
      end
  end.

(** The inner loop of [GetAffinitedNodeHostname]: [inl x] is [return x], [inr h]
    leaves the loop with [hostname = h]. *)
Fixpoint term_hostname (hostname : string) (exprs : NodeSelectorTerm) : string + string :=
  match exprs with
  | [] => inr hostname
  | e :: rest =>
      if decide (req_Key e = KeyNode /\ req_Operator e = NodeSelectorOpIn) then
        match req_Values e with
        | [v] => inr v
        | _ => inl EmptyString
        end
      else term_hostname hostname rest
  end.

Fixpoint terms_hostname (hostname : string) (terms : NodeSelector) : string :=
  match terms with
  | [] => hostname
  | t :: rest =>
      match term_hostname hostname t with
      | inl r => r
      | inr h => if decide (h <> EmptyString) then h else terms_hostname h rest
      end
  end.

Definition GetAffinitedNodeHostname (o : PersistentVolume) : string :=
  match pv_NodeAffinity (pv_spec o) with
  | None => EmptyString
  | Some None => EmptyString
  | Some (Some terms) => terms_hostname EmptyString terms
  end.

(** ** Lists *)

Fixpoint all (l : list Predicate) (p : PV) : option bool :=
  match l with
  | [] => Some true
  | pred :: l' =>
      match pred p with
      | None => None
      | Some false => Some false
      | Some true => all l' p
      end
  end.

Definition ToAPIList (l : list PV) : option (list PersistentVolume) := mapM id l.

Record ListBuilder := mkListBuilder {
  lb_list : option (list PV);
  lb_filters : list Predicate;
  lb_errs : list goerr;
}.

Definition NewListBuilder : ListBuilder := mkListBuilder (Some []) [] [].

Definition ListBuilderForAPIObjects (pvs : option (list PersistentVolume)) : ListBuilder :=
  match pvs with
  | None => mkListBuilder (Some []) [] [ErrNew "failed to build pv list: missing api list"]
  | Some items => mkListBuilder (Some (map Some items)) [] []
  end.

Definition ListBuilderForObjects (pvs : option (list PV)) : ListBuilder :=
  match pvs with
  | None => mkListBuilder None [] [ErrNew "failed to build pv list: missing object list"]
  | Some l => mkListBuilder (Some l) [] []
  end.

Definition WithFilter (pred : list Predicate) (b : ListBuilder) : ListBuilder :=
  mkListBuilder (lb_list b) (lb_filters b ++ pred) (lb_errs b).

Fixpoint filter_all (fs : list Predicate) (l : list PV) : option (list PV) :=
  match l with
  | [] => Some []
  | p :: l' =>
      match all fs p with
      | None => None
      | Some keep =>
          match filter_all fs l' with
          | None => None
          | Some r => Some (if keep then p :: r else r)
          end
      end
  end.

Definition List (b : ListBuilder) : option (result (list PV)) :=
  if decide (0 < length (lb_errs b))
  then Some (Err (ErrList "failed to list pv: " (lb_errs b)))
  else
    match lb_list b with
    | None => None
    | Some items =>
        if decide (length (lb_filters b) = 0) then Some (Ok items)
        else Ok <$> filter_all (lb_filters b) items
    end.

Definition Len (b : ListBuilder) : option (result Z) :=
  (fun r => let? l := r in Ok (Z.of_nat (length l))) <$> List b.

Definition APIList (b : ListBuilder) : option (result (list PersistentVolume)) :=
  match List b with
  | None => None
  | Some (Err e) => Some (Err e)
  | Some (Ok l) => Ok <$> ToAPIList l
  end.
End PVBuilder.

(** ** Facts *)
Section PVBuilderFacts.
Context {C : CoreTypes}.

Inductive pv_method : (Builder -> Builder) -> Prop :=
| m_WithName s : pv_method (WithName s)
| m_WithAnnotations m : pv_method (WithAnnotations m)
| m_WithLabels m : pv_method (WithLabels m)
| m_WithReclaimPolicy s : pv_method (WithReclaimPolicy s)
| m_WithVolumeMode s : pv_method (WithVolumeMode s)
| m_WithAccessModes l : pv_method (WithAccessModes l)
| m_WithCapacity s : pv_method (WithCapacity s)
| m_WithCapacityQty q : pv_method (WithCapacityQty q)
| m_WithLocalHostDirectory s : pv_method (WithLocalHostDirectory s)
| m_WithLocalHostPathFormat s t : pv_method (WithLocalHostPathFormat s t)
| m_WithPersistentVolumeSource s : pv_method (WithPersistentVolumeSource s)
| m_WithNodeAffinity s : pv_method (WithNodeAffinity s)
| m_WithNFS s p r : pv_method (WithNFS s p r)
| m_WithMountOptions l : pv_method (WithMountOptions l).

Lemma pv_method_Method m : pv_method m -> Method m.
Proof.
  destruct 1; try solve [auto with builders | apply Method_checked | apply Method_upd].
  - unfold WithCapacity, WithCapacityQty; solve_method.
  - unfold WithPersistentVolumeSource; solve_method.
  - unfold WithNFS; solve_method.
  - unfold WithMountOptions; solve_method.
Qed.
End PVBuilderFacts.
