(* ===== verification/ServiceBuilder.v ===== *)
(** * pkg/kubernetes/api/core/v1/service: the service builder ([build.go]) and
    the predicates of [service.go] *)

From S2P Require Import Prelude GoStrings K8sTypes BuilderCore.

Section ServiceBuilder.
Context {C : CoreTypes}.

Definition Builder := builder Service.

Definition NewBuilder : Builder := mkBuilder emptyService [].

Definition on_meta (f : ObjectMeta -> ObjectMeta) (o : Service) :=
  mkService _ (f (svc_meta o)) (svc_spec o).

Definition on_spec (f : ServiceSpec -> ServiceSpec) (o : Service) :=
  mkService _ (svc_meta o) (f (svc_spec o)).

Definition set_Selector (x : gomap string) (s : ServiceSpec) : ServiceSpec :=
  mkServiceSpec x (svc_Ports s) (svc_Type s) (svc_ClusterIP s).
Definition set_Ports (x : list ServicePort) (s : ServiceSpec) : ServiceSpec :=
  mkServiceSpec (svc_Selector s) x (svc_Type s) (svc_ClusterIP s).
Definition set_Type (x : string) (s : ServiceSpec) : ServiceSpec :=
  mkServiceSpec (svc_Selector s) (svc_Ports s) x (svc_ClusterIP s).

Definition WithName (name : string) : Builder -> Builder :=
  checked (bool_decide (String.length name = 0))
    "failed to build service object: missing name"
    (on_meta (set_Name name)).

Definition WithGenerateName (name : string) : Builder -> Builder :=
  checked (bool_decide (String.length name = 0))
    "failed to build service object: missing generateName"
    (on_meta (set_GenerateName name)).

Definition WithNamespace (namespace : string) : Builder -> Builder :=
  checked (bool_decide (String.length namespace = 0))
    "failed to build service object: missing namespace"
    (on_meta (set_Namespace namespace)).

(** [map[string]string{}] filled with a copy of the argument *)
Definition copy_map (m : gomap string) : gomap string :=
  Some (range_insert (gomap_get m) ∅).

Definition WithAnnotationsNew (annotations : gomap string) : Builder -> Builder :=
  checked (bool_decide (gomap_len annotations = 0))
    "failed to build service object: no new annotations"
    (on_meta (set_Annotations (copy_map annotations))).

Definition WithAnnotations (annotations : gomap string) (b : Builder) : Builder :=
  if decide (gomap_len annotations = 0)
  then fail_msg "failed to build service object: missing annotations" b
  else match Annotations (svc_meta (b_obj b)) with
       | None => WithAnnotationsNew annotations b
       | Some cur =>
           upd (on_meta (set_Annotations (Some (range_insert (gomap_get annotations) cur)))) b
       end.

Definition WithOwnerReferenceNew (ownerRefernce : list OwnerReference) : Builder -> Builder :=
  checked (bool_decide (length ownerRefernce = 0))
    "failed to build service object: no new ownerRefernce"
    (on_meta (set_OwnerReferences ownerRefernce)).

Definition WithLabelsNew (labels : gomap string) : Builder -> Builder :=
  checked (bool_decide (gomap_len labels = 0))
    "failed to build service object: no new labels"
    (on_meta (set_Labels (copy_map labels))).

Definition WithLabels (labels : gomap string) (b : Builder) : Builder :=
  if decide (gomap_len labels = 0)
  then fail_msg "failed to build service object: missing labels" b
  else match Labels (svc_meta (b_obj b)) with
       | None => WithLabelsNew labels b
       | Some cur => upd (on_meta (set_Labels (Some (range_insert (gomap_get labels) cur)))) b
       end.

Definition WithSelectorsNew (selectors : gomap string) : Builder -> Builder :=
  checked (bool_decide (gomap_len selectors = 0))
    "failed to build service object: no new selectors"
    (on_spec (set_Selector (copy_map selectors))).

Definition WithSelectors (selectors : gomap string) (b : Builder) : Builder :=
  if decide (gomap_len selectors = 0)
  then fail_msg "failed to build service object: missing selectors" b
  else match svc_Selector (svc_spec (b_obj b)) with
       | None => WithSelectorsNew selectors b
       | Some cur => upd (on_spec (set_Selector (Some (range_insert (gomap_get selectors) cur)))) b
       end.

Definition WithPorts (ports : list ServicePort) : Builder -> Builder :=
  checked (bool_decide (length ports = 0))
    "failed to build service object: missing ports"
    (on_spec (set_Ports ([] ++ ports))).

Definition WithType (svcType : string) : Builder -> Builder :=
  checked (bool_decide (String.length svcType = 0))
    "failed to build service object: missing service type"
    (on_spec (set_Type svcType)).

(** [errors.Errorf("%+v", b.errs)] *)
Definition Build (b : Builder) : result Service := build (ErrList EmptyString) b.

(** ** [service.go], over a possibly nil object pointer *)

Definition IsNil (s : option Service) : option bool :=
  Some (match s with None => true | Some _ => false end).

Definition ContainsName (name : string) (s : option Service) : option bool :=
  (fun o => Contains (Name (svc_meta o)) name) <$> s.

Definition ToAPIList (l : list (option Service)) : option (list Service) := mapM id l.
End ServiceBuilder.
