(* ===== verification/VolumeBuilder.v ===== *)
(** * pkg/kubernetes/api/core/v1/volume: the pod volume builder ([build.go])
    and [volume.go] *)

From S2P Require Import Prelude K8sTypes BuilderCore.

Section VolumeBuilder.
Context {C : CoreTypes}.

Definition Builder := builder Volume.

Definition NewBuilder : Builder := mkBuilder emptyVolume [].

Definition set_VolumeSource (x : VolumeSource) (v : Volume) : Volume := mkVolume _ (v_Name v) x.
Definition set_VolumeName (x : string) (v : Volume) : Volume := mkVolume _ x (v_Source v).

Definition WithName (name : string) : Builder -> Builder :=
  checked (bool_decide (String.length name = 0))
    "failed to build Volume object: missing Volume name"
    (set_VolumeName name).

Definition WithHostDirectory (path : string) : Builder -> Builder :=
  checked (bool_decide (String.length path = 0))
    "failed to build volume object: missing volume path"
    (set_VolumeSource (mkVolumeSource _ (Some (path, None)) None None None None)).

(** The secret is used by its name.  A zero mode is recorded as an error, and
    the source is set all the same. *)
Definition WithSecret (secret : option string) (defaultMode : Z) (b : Builder) : Builder :=
  match secret with
  | None => fail_msg "failed to build volume object: nil ConfigMap" b
  | Some name =>
      let b := if decide (defaultMode = 0)%Z
               then fail_msg "failed to build volume object: missing defaultmode" b else b in
      upd (fun v => set_VolumeName name
             (set_VolumeSource (mkVolumeSource _ None (Some (name, Some defaultMode)) None None None) v)) b
  end.

Definition WithConfigMap (configMap : option string) (defaultMode : Z) (b : Builder) : Builder :=
  match configMap with
  | None => fail_msg "failed to build volume object: nil ConfigMap" b
  | Some name =>
      let b := if decide (defaultMode = 0)%Z
               then fail_msg "failed to build volume object: missing defaultmode" b else b in
      upd (fun v => set_VolumeName name
             (set_VolumeSource (mkVolumeSource _ None None (Some (name, Some defaultMode)) None None) v)) b
  end.

Definition WithHostPathAndType (dirpath : string) (dirtype : option string) (b : Builder) : Builder :=
  match dirtype with
  | None => fail_msg "failed to build volume object: nil volume type" b
  | Some newdirtype =>
      if decide (String.length dirpath = 0)
      then fail_msg "failed to build volume object: missing volume path" b
      else upd (set_VolumeSource
             (mkVolumeSource _ (Some (dirpath, Some newdirtype)) None None None None)) b
  end.

Definition WithPVCSource (pvcName : string) : Builder -> Builder :=
  checked (bool_decide (String.length pvcName = 0))
    "failed to build volume object: missing pvc name"
    (set_VolumeSource (mkVolumeSource _ None None None (Some pvcName) None)).

(** Only the [EmptyDir] member of the source is replaced. *)
Definition WithEmptyDir (dir : option EmptyDirVolumeSource) (b : Builder) : Builder :=
  match dir with
  | None => fail_msg "failed to build volume object: nil dir" b
  | Some newdir =>
      upd (fun v => let s := v_Source v in
             set_VolumeSource (mkVolumeSource _ (vs_HostPath s) (vs_Secret s)
               (vs_ConfigMap s) (vs_PVC s) (Some newdir)) v) b
  end.

(** [errors.Errorf("%+v", b.errs)] *)
Definition Build (b : Builder) : result Volume := build (ErrList EmptyString) b.

(** ** [volume.go], over a possibly nil object pointer *)

Definition IsNil (v : option Volume) : bool :=
  match v with None => true | Some _ => false end.

Fixpoint all (l : list (option Volume -> bool)) (v : option Volume) : bool :=
  match l with
  | [] => true
  | pred :: l' => if pred v then all l' v else false
  end.
End VolumeBuilder.
