(* ===== verification/ContainerBuilder.v ===== *)
(** * pkg/kubernetes/api/core/v1/container: the container builder
    ([container.go])

    Besides its errors this builder carries predicates, checked when the
    container is built. *)

From S2P Require Import Prelude K8sTypes BuilderCore.

(** [nameOrMsg, ok] *)
Abbreviation Predicate := (Container -> string * bool).

Section ContainerBuilder.
Context {C : CoreTypes}.

Record Builder := mkContainerBuilder {
  core : builder Container;
  checks : list Predicate;
}.

Definition con (b : Builder) : Container := b_obj (core b).
Definition errors (b : Builder) : list goerr := b_errs (core b).

(** Runs a method that leaves [checks] alone. *)
Definition lift (m : builder Container -> builder Container) (b : Builder) : Builder :=
  mkContainerBuilder (m (core b)) (checks b).

Definition predicateFailedError (message : string) : goerr :=
  ErrNew ("predicatefailed: " +:+ message).

(** Field by field, as in the source: a container is copied out. *)
Definition asContainer (c : Container) : Container :=
  mkContainer _ (c_Name c) (c_Image c) (c_Command c) (c_Args c) (c_WorkingDir c)
    (c_Ports c) (c_EnvFrom c) (c_Env c) (c_Resources c) (c_VolumeMounts c)
    (c_VolumeDevices c) (c_LivenessProbe c) (c_ReadinessProbe c) (c_Lifecycle c)
    (c_TerminationMessagePath c) (c_TerminationMessagePolicy c) (c_ImagePullPolicy c)
    (c_SecurityContext c) (c_Stdin c) (c_StdinOnce c) (c_TTY c).

(** An [OptionFunc] mutates the container it is given. *)
Definition New (opts : list (Container -> Container)) : Container :=
  asContainer (fold_left (fun c o => o c) opts emptyContainer).

Definition NewBuilder : Builder := mkContainerBuilder (mkBuilder emptyContainer []) [].

(** [validate] appends one error per failed check, so a second [Build] reports
    them twice. *)
Definition validate (b : Builder) : Builder * error :=
  let failed := flat_map (fun c => let '(m, ok) := c (con b) in
                           if ok : bool then [] else [predicateFailedError m]) (checks b) in
  let b' := mkContainerBuilder (mkBuilder (con b) (errors b ++ failed)) (checks b) in
  (b', match errors b' with
       | [] => None
       | es => Some (ErrList "validation errors: " es)
       end).

Definition Build (b : Builder) : Builder * result Container :=
  let '(b', err) := validate b in
  (b', match err with
       | Some e => Err e
       | None => Ok (asContainer (con b'))
       end).

Definition AddCheck (p : Predicate) (b : Builder) : Builder :=
  mkContainerBuilder (core b) (checks b ++ [p]).

Definition AddChecks (ps : list Predicate) (b : Builder) : Builder :=
  fold_left (fun b p => AddCheck p b) ps b.

(** Field updates of the container under construction. *)
Definition set_Name (x : string) (c : Container) : Container :=
  mkContainer _ x (c_Image c) (c_Command c) (c_Args c) (c_WorkingDir c)
    (c_Ports c) (c_EnvFrom c) (c_Env c) (c_Resources c) (c_VolumeMounts c)
    (c_VolumeDevices c) (c_LivenessProbe c) (c_ReadinessProbe c) (c_Lifecycle c)
    (c_TerminationMessagePath c) (c_TerminationMessagePolicy c) (c_ImagePullPolicy c)
    (c_SecurityContext c) (c_Stdin c) (c_StdinOnce c) (c_TTY c).
Definition set_Image (x : string) (c : Container) : Container :=
  mkContainer _ (c_Name c) x (c_Command c) (c_Args c) (c_WorkingDir c)
    (c_Ports c) (c_EnvFrom c) (c_Env c) (c_Resources c) (c_VolumeMounts c)
    (c_VolumeDevices c) (c_LivenessProbe c) (c_ReadinessProbe c) (c_Lifecycle c)
    (c_TerminationMessagePath c) (c_TerminationMessagePolicy c) (c_ImagePullPolicy c)
    (c_SecurityContext c) (c_Stdin c) (c_StdinOnce c) (c_TTY c).
Definition set_Command (x : list string) (c : Container) : Container :=
  mkContainer _ (c_Name c) (c_Image c) x (c_Args c) (c_WorkingDir c)
    (c_Ports c) (c_EnvFrom c) (c_Env c) (c_Resources c) (c_VolumeMounts c)
    (c_VolumeDevices c) (c_LivenessProbe c) (c_ReadinessProbe c) (c_Lifecycle c)
    (c_TerminationMessagePath c) (c_TerminationMessagePolicy c) (c_ImagePullPolicy c)
    (c_SecurityContext c) (c_Stdin c) (c_StdinOnce c) (c_TTY c).
Definition set_Args (x : list string) (c : Container) : Container :=
  mkContainer _ (c_Name c) (c_Image c) (c_Command c) x (c_WorkingDir c)
    (c_Ports c) (c_EnvFrom c) (c_Env c) (c_Resources c) (c_VolumeMounts c)
    (c_VolumeDevices c) (c_LivenessProbe c) (c_ReadinessProbe c) (c_Lifecycle c)
    (c_TerminationMessagePath c) (c_TerminationMessagePolicy c) (c_ImagePullPolicy c)
    (c_SecurityContext c) (c_Stdin c) (c_StdinOnce c) (c_TTY c).
Definition set_Ports (x : list ContainerPort) (c : Container) : Container :=
  mkContainer _ (c_Name c) (c_Image c) (c_Command c) (c_Args c) (c_WorkingDir c)
    x (c_EnvFrom c) (c_Env c) (c_Resources c) (c_VolumeMounts c)
    (c_VolumeDevices c) (c_LivenessProbe c) (c_ReadinessProbe c) (c_Lifecycle c)
    (c_TerminationMessagePath c) (c_TerminationMessagePolicy c) (c_ImagePullPolicy c)
    (c_SecurityContext c) (c_Stdin c) (c_StdinOnce c) (c_TTY c).
Definition set_Env (x : gslice EnvVar) (c : Container) : Container :=
  mkContainer _ (c_Name c) (c_Image c) (c_Command c) (c_Args c) (c_WorkingDir c)
    (c_Ports c) (c_EnvFrom c) x (c_Resources c) (c_VolumeMounts c)
    (c_VolumeDevices c) (c_LivenessProbe c) (c_ReadinessProbe c) (c_Lifecycle c)
    (c_TerminationMessagePath c) (c_TerminationMessagePolicy c) (c_ImagePullPolicy c)
    (c_SecurityContext c) (c_Stdin c) (c_StdinOnce c) (c_TTY c).
Definition set_Resources (x : ResourceRequirements) (c : Container) : Container :=
  mkContainer _ (c_Name c) (c_Image c) (c_Command c) (c_Args c) (c_WorkingDir c)
    (c_Ports c) (c_EnvFrom c) (c_Env c) x (c_VolumeMounts c)
    (c_VolumeDevices c) (c_LivenessProbe c) (c_ReadinessProbe c) (c_Lifecycle c)
    (c_TerminationMessagePath c) (c_TerminationMessagePolicy c) (c_ImagePullPolicy c)
    (c_SecurityContext c) (c_Stdin c) (c_StdinOnce c) (c_TTY c).
Definition set_VolumeMounts (x : list VolumeMount) (c : Container) : Container :=
  mkContainer _ (c_Name c) (c_Image c) (c_Command c) (c_Args c) (c_WorkingDir c)
    (c_Ports c) (c_EnvFrom c) (c_Env c) (c_Resources c) x
    (c_VolumeDevices c) (c_LivenessProbe c) (c_ReadinessProbe c) (c_Lifecycle c)
    (c_TerminationMessagePath c) (c_TerminationMessagePolicy c) (c_ImagePullPolicy c)
    (c_SecurityContext c) (c_Stdin c) (c_StdinOnce c) (c_TTY c).
Definition set_VolumeDevices (x : list VolumeDevice) (c : Container) : Container :=
  mkContainer _ (c_Name c) (c_Image c) (c_Command c) (c_Args c) (c_WorkingDir c)
    (c_Ports c) (c_EnvFrom c) (c_Env c) (c_Resources c) (c_VolumeMounts c)
    x (c_LivenessProbe c) (c_ReadinessProbe c) (c_Lifecycle c)
    (c_TerminationMessagePath c) (c_TerminationMessagePolicy c) (c_ImagePullPolicy c)
    (c_SecurityContext c) (c_Stdin c) (c_StdinOnce c) (c_TTY c).
Definition set_LivenessProbe (x : option Probe) (c : Container) : Container :=
  mkContainer _ (c_Name c) (c_Image c) (c_Command c) (c_Args c) (c_WorkingDir c)
    (c_Ports c) (c_EnvFrom c) (c_Env c) (c_Resources c) (c_VolumeMounts c)
    (c_VolumeDevices c) x (c_ReadinessProbe c) (c_Lifecycle c)
    (c_TerminationMessagePath c) (c_TerminationMessagePolicy c) (c_ImagePullPolicy c)
    (c_SecurityContext c) (c_Stdin c) (c_StdinOnce c) (c_TTY c).
Definition set_Lifecycle (x : option Lifecycle) (c : Container) : Container :=
  mkContainer _ (c_Name c) (c_Image c) (c_Command c) (c_Args c) (c_WorkingDir c)
    (c_Ports c) (c_EnvFrom c) (c_Env c) (c_Resources c) (c_VolumeMounts c)
    (c_VolumeDevices c) (c_LivenessProbe c) (c_ReadinessProbe c) x
    (c_TerminationMessagePath c) (c_TerminationMessagePolicy c) (c_ImagePullPolicy c)
    (c_SecurityContext c) (c_Stdin c) (c_StdinOnce c) (c_TTY c).
Definition set_ImagePullPolicy (x : string) (c : Container) : Container :=
  mkContainer _ (c_Name c) (c_Image c) (c_Command c) (c_Args c) (c_WorkingDir c)
    (c_Ports c) (c_EnvFrom c) (c_Env c) (c_Resources c) (c_VolumeMounts c)
    (c_VolumeDevices c) (c_LivenessProbe c) (c_ReadinessProbe c) (c_Lifecycle c)
    (c_TerminationMessagePath c) (c_TerminationMessagePolicy c) x
    (c_SecurityContext c) (c_Stdin c) (c_StdinOnce c) (c_TTY c).
Definition set_SecurityContext (x : option (option bool)) (c : Container) : Container :=
  mkContainer _ (c_Name c) (c_Image c) (c_Command c) (c_Args c) (c_WorkingDir c)
    (c_Ports c) (c_EnvFrom c) (c_Env c) (c_Resources c) (c_VolumeMounts c)
    (c_VolumeDevices c) (c_LivenessProbe c) (c_ReadinessProbe c) (c_Lifecycle c)
    (c_TerminationMessagePath c) (c_TerminationMessagePolicy c) (c_ImagePullPolicy c)
    x (c_Stdin c) (c_StdinOnce c) (c_TTY c).

Definition WithName (name : string) : Builder -> Builder :=
  lift (checked (bool_decide (String.length name = 0))
    "failed to build container object: missing name" (set_Name name)).

Definition WithImage (img : string) : Builder -> Builder :=
  lift (checked (bool_decide (String.length img = 0))
    "failed to build container object: missing image" (set_Image img)).

(** The guard of the slice setters: nil and empty are reported apart, and a
    copy of the argument is stored. *)
Definition checked_slice {A} (what : string) (x : gslice A)
    (f : list A -> Container -> Container) : Builder -> Builder :=
  lift (fun b =>
    match x with
    | None => fail_msg ("failed to build container object: nil " +:+ what) b
    | Some l =>
        if decide (length l = 0)
        then fail_msg ("failed to build container object: missing " +:+ what) b
        else upd (f ([] ++ l)) b
    end).

Definition WithCommandNew (cmd : gslice string) : Builder -> Builder :=
  checked_slice "command" cmd set_Command.

Definition WithArgumentsNew (args : gslice string) : Builder -> Builder :=
  checked_slice "arguments" args set_Args.

Definition WithVolumeMountsNew (volumeMounts : gslice VolumeMount) : Builder -> Builder :=
  checked_slice "volumemounts" volumeMounts set_VolumeMounts.

Definition WithVolumeDevices (volumeDevices : gslice VolumeDevice) : Builder -> Builder :=
  checked_slice "volumedevices" volumeDevices set_VolumeDevices.

Definition WithImagePullPolicy (policy : string) : Builder -> Builder :=
  lift (checked (bool_decide (String.length policy = 0))
    "failed to build container object: missing imagepullpolicy" (set_ImagePullPolicy policy)).

Definition WithPrivilegedSecurityContext (privileged : option bool) : Builder -> Builder :=
  lift (fun b =>
    match privileged with
    | None => fail_msg "failed to build container object: missing securitycontext" b
    | Some newprivileged => upd (set_SecurityContext (Some (Some newprivileged))) b
    end).

Definition WithResources (resources : option ResourceRequirements) : Builder -> Builder :=
  lift (fun b =>
    match resources with
    | None => fail_msg "failed to build container object: missing resources" b
    | Some newresources => upd (set_Resources newresources) b
    end).

Definition WithResourcesByValue (resources : ResourceRequirements) : Builder -> Builder :=
  lift (upd (set_Resources resources)).

Definition WithPortsNew (ports : gslice ContainerPort) : Builder -> Builder :=
  checked_slice "ports" ports set_Ports.

Definition WithEnvsNew (envs : gslice EnvVar) : Builder -> Builder :=
  checked_slice "envs" envs (fun l => set_Env (Some l)).

Definition WithEnvs (envs : gslice EnvVar) (b : Builder) : Builder :=
  match envs with
  | None => lift (fail_msg "failed to build container object: nil envs") b
  | Some l =>
      if decide (length l = 0)
      then lift (fail_msg "failed to build container object: missing envs") b
      else match c_Env (con b) with
           | None => WithEnvsNew envs b
           | Some cur => lift (upd (set_Env (Some (cur ++ l)))) b
           end
  end.

Definition WithLivenessProbe (liveness : option Probe) : Builder -> Builder :=
  lift (fun b =>
    match liveness with
    | None => fail_msg "failed to build container object: nil liveness probe" b
    | Some _ => upd (set_LivenessProbe liveness) b
    end).

Definition WithLifeCycle (lc : option Lifecycle) : Builder -> Builder :=
  lift (fun b =>
    match lc with
    | None => fail_msg "failed to build container object: nil lifecycle" b
    | Some _ => upd (set_Lifecycle lc) b
    end).
End ContainerBuilder.

(** ** Facts *)
Section ContainerBuilderFacts.
Context {C : CoreTypes}.

Lemma asContainer_id c : asContainer c = c.
Proof. by destruct c. Qed.

Lemma Build_no_checks b :
  checks b = [] -> errors b = [] -> Build b = (b, Ok (con b)).
Proof.
  destruct b as [[o es] cs]. unfold errors, con; simpl. intros -> ->.
  unfold Build, validate, con, errors; simpl. by rewrite asContainer_id.
Qed.
End ContainerBuilderFacts.
