(* ===== verification/PodTemplateBuilder.v ===== *)
(** * pkg/kubernetes/api/core/v1/podtemplatespec: the pod template builder

    [WithTolerations], the container and the volume methods are variadic: their
    list is nil when they are called without arguments, which is [None] here. *)

From S2P Require Import Prelude K8sTypes BuilderCore.
From S2P Require ContainerBuilder VolumeBuilder.

Section PodTemplateBuilder.
Context {C : CoreTypes}.

Definition Builder := builder PodTemplateSpec.

Definition NewBuilder : Builder := mkBuilder emptyPodTemplate [].

Definition on_meta (f : ObjectMeta -> ObjectMeta) (o : PodTemplateSpec) :=
  mkPodTemplate _ (f (pt_meta o)) (pt_spec o).

Definition on_spec (f : PodSpec -> PodSpec) (o : PodTemplateSpec) :=
  mkPodTemplate _ (pt_meta o) (f (pt_spec o)).

Definition set_NodeSelector (x : gomap string) (s : PodSpec) : PodSpec :=
  mkPodSpec _ x (pod_PriorityClassName s) (pod_ServiceAccountName s) (pod_ImagePullSecrets s)
    (pod_SecurityContext s) (pod_Affinity s) (pod_Tolerations s) (pod_Containers s) (pod_Volumes s).
Definition set_PriorityClassName (x : string) (s : PodSpec) : PodSpec :=
  mkPodSpec _ (pod_NodeSelector s) x (pod_ServiceAccountName s) (pod_ImagePullSecrets s)
    (pod_SecurityContext s) (pod_Affinity s) (pod_Tolerations s) (pod_Containers s) (pod_Volumes s).
Definition set_ServiceAccountName (x : string) (s : PodSpec) : PodSpec :=
  mkPodSpec _ (pod_NodeSelector s) (pod_PriorityClassName s) x (pod_ImagePullSecrets s)
    (pod_SecurityContext s) (pod_Affinity s) (pod_Tolerations s) (pod_Containers s) (pod_Volumes s).
Definition set_ImagePullSecrets (x : list string) (s : PodSpec) : PodSpec :=
  mkPodSpec _ (pod_NodeSelector s) (pod_PriorityClassName s) (pod_ServiceAccountName s) x
    (pod_SecurityContext s) (pod_Affinity s) (pod_Tolerations s) (pod_Containers s) (pod_Volumes s).
Definition set_SecurityContext (x : option (option Z)) (s : PodSpec) : PodSpec :=
  mkPodSpec _ (pod_NodeSelector s) (pod_PriorityClassName s) (pod_ServiceAccountName s)
    (pod_ImagePullSecrets s) x (pod_Affinity s) (pod_Tolerations s) (pod_Containers s) (pod_Volumes s).
Definition set_Affinity (x : option Affinity) (s : PodSpec) : PodSpec :=
  mkPodSpec _ (pod_NodeSelector s) (pod_PriorityClassName s) (pod_ServiceAccountName s)
    (pod_ImagePullSecrets s) (pod_SecurityContext s) x (pod_Tolerations s) (pod_Containers s) (pod_Volumes s).
Definition set_Tolerations (x : list Toleration) (s : PodSpec) : PodSpec :=
  mkPodSpec _ (pod_NodeSelector s) (pod_PriorityClassName s) (pod_ServiceAccountName s)
    (pod_ImagePullSecrets s) (pod_SecurityContext s) (pod_Affinity s) x (pod_Containers s) (pod_Volumes s).
Definition set_Containers (x : list Container) (s : PodSpec) : PodSpec :=
  mkPodSpec _ (pod_NodeSelector s) (pod_PriorityClassName s) (pod_ServiceAccountName s)
    (pod_ImagePullSecrets s) (pod_SecurityContext s) (pod_Affinity s) (pod_Tolerations s) x (pod_Volumes s).
Definition set_Volumes (x : list Volume) (s : PodSpec) : PodSpec :=
  mkPodSpec _ (pod_NodeSelector s) (pod_PriorityClassName s) (pod_ServiceAccountName s)
    (pod_ImagePullSecrets s) (pod_SecurityContext s) (pod_Affinity s) (pod_Tolerations s)
    (pod_Containers s) x.

(** A fresh map filled from the argument. *)
Definition copy_map (m : gomap string) : gomap string :=
  Some (range_insert (gomap_get m) ∅).

Definition WithName (name : string) : Builder -> Builder :=
  checked (bool_decide (String.length name = 0))
    "failed to build podtemplatespec object: missing name"
    (on_meta (set_Name name)).

Definition WithNamespace (namespace : string) : Builder -> Builder :=
  checked (bool_decide (String.length namespace = 0))
    "failed to build podtemplatespec object: missing namespace"
    (on_meta (set_Namespace namespace)).

Definition WithAnnotationsNew (annotations : gomap string) : Builder -> Builder :=
  checked (bool_decide (gomap_len annotations = 0))
    "failed to build podtemplatespec object: missing annotations"
    (on_meta (set_Annotations (copy_map annotations))).

Definition WithAnnotations (annotations : gomap string) (b : Builder) : Builder :=
  if decide (gomap_len annotations = 0)
  then fail_msg "failed to build deployment object: missing annotations" b
  else match Annotations (pt_meta (b_obj b)) with
       | None => WithAnnotationsNew annotations b
       | Some cur =>
           upd (on_meta (set_Annotations (Some (range_insert (gomap_get annotations) cur)))) b
       end.

Definition WithLabelsNew (labels : gomap string) : Builder -> Builder :=
  checked (bool_decide (gomap_len labels = 0))
    "failed to build podtemplatespec object: missing labels"
    (on_meta (set_Labels (copy_map labels))).

Definition WithLabels (labels : gomap string) (b : Builder) : Builder :=
  if decide (gomap_len labels = 0)
  then fail_msg "failed to build podtemplatespec object: missing labels" b
  else match Labels (pt_meta (b_obj b)) with
       | None => WithLabelsNew labels b
       | Some cur => upd (on_meta (set_Labels (Some (range_insert (gomap_get labels) cur)))) b
       end.

(** A nil context is ignored. *)
Definition WithSecurityContext (podSecurityContext : option (option Z)) (b : Builder) : Builder :=
  match podSecurityContext with
  | None => b
  | Some _ => upd (on_spec (set_SecurityContext podSecurityContext)) b
  end.

Definition WithNodeSelectorNew (nodeselectors : gomap string) : Builder -> Builder :=
  checked (bool_decide (gomap_len nodeselectors = 0))
    "failed to build podtemplatespec object: missing nodeselectors"
    (on_spec (set_NodeSelector (copy_map nodeselectors))).

Definition WithNodeSelector (nodeselectors : gomap string) (b : Builder) : Builder :=
  if decide (gomap_len nodeselectors = 0)
  then fail_msg "failed to build podtemplatespec object: missing nodeselectors" b
  else match pod_NodeSelector (pt_spec (b_obj b)) with
       | None => WithNodeSelectorNew nodeselectors b
       | Some cur =>
           upd (on_spec (set_NodeSelector (Some (range_insert (gomap_get nodeselectors) cur)))) b
       end.

Definition WithNodeSelectorByValue (nodeselectors : gomap string) : Builder -> Builder :=
  upd (on_spec (set_NodeSelector (copy_map nodeselectors))).

Definition WithPriorityClassName (prorityClassName : string) : Builder -> Builder :=
  upd (on_spec (set_PriorityClassName prorityClassName)).

Definition WithServiceAccountName (serviceAccountnNme : string) : Builder -> Builder :=
  checked (bool_decide (String.length serviceAccountnNme = 0))
    "failed to build podtemplatespec object: missing serviceaccountname"
    (on_spec (set_ServiceAccountName serviceAccountnNme)).

(** An empty secret name is ignored. *)
Definition WithImagePullSecret (imagePullSecretName : string) (b : Builder) : Builder :=
  if decide (String.length imagePullSecretName <> 0)
  then upd (on_spec (fun s => set_ImagePullSecrets
              (pod_ImagePullSecrets s ++ [imagePullSecretName]) s)) b
  else b.

Definition WithAffinity (affinity : option Affinity) (b : Builder) : Builder :=
  match affinity with
  | None => fail_msg "failed to build podtemplatespec object: missing affinity" b
  | Some newaffinity => upd (on_spec (set_Affinity (Some newaffinity))) b
  end.

(** The node selector terms an affinity holds, nil pointers on the way read as
    no terms. *)
Definition affinity_terms (a : option Affinity) : NodeSelector :=
  match a with
  | Some (mkAffinity (Some (Some terms))) => terms
  | _ => []
  end.

Definition WithNodeAffinityMatchExpressions (mExpressions : list NodeSelectorRequirement)
    (b : Builder) : Builder :=
  if decide (length mExpressions = 0) then b
  else upd (on_spec (fun s =>
         set_Affinity
           (Some (mkAffinity (Some (Some (affinity_terms (pod_Affinity s) ++ [mExpressions])))))
           s)) b.

Definition WithTolerationsByValue (tolerations : gslice Toleration) (b : Builder) : Builder :=
  upd (on_spec (fun s =>
    set_Tolerations
      (if decide (length (pod_Tolerations s) = 0) then gslice_get tolerations
       else pod_Tolerations s ++ gslice_get tolerations) s)) b.

Definition WithTolerationsNew (tolerations : gslice Toleration) (b : Builder) : Builder :=
  match tolerations with
  | None => fail_msg "failed to build podtemplatespec object: nil tolerations" b
  | Some l =>
      if decide (length l = 0)
      then fail_msg "failed to build podtemplatespec object: missing tolerations" b
      else upd (on_spec (set_Tolerations ([] ++ l))) b
  end.

Definition WithTolerations (tolerations : gslice Toleration) (b : Builder) : Builder :=
  match tolerations with
  | None => fail_msg "failed to build podtemplatespec object: nil tolerations" b
  | Some l =>
      if decide (length l = 0)
      then fail_msg "failed to build podtemplatespec object: missing tolerations" b
      else if decide (length (pod_Tolerations (pt_spec (b_obj b))) = 0)
      then WithTolerationsNew tolerations b
      else upd (on_spec (fun s => set_Tolerations (pod_Tolerations s ++ l) s)) b
  end.

Definition add_container (c : Container) (s : PodSpec) : PodSpec :=
  set_Containers (pod_Containers s ++ [c]) s.
Definition add_volume (v : Volume) (s : PodSpec) : PodSpec :=
  set_Volumes (pod_Volumes s ++ [v]) s.

(** The loop stops at the first container that does not build and keeps those
    appended before it. *)
Fixpoint append_containers (l : list ContainerBuilder.Builder) (b : Builder) : Builder :=
  match l with
  | [] => b
  | cb :: l' =>
      match (ContainerBuilder.Build cb).2 with
      | Err err => fail_with (ErrWrap err "failed to build podtemplatespec") b
      | Ok c => append_containers l' (upd (on_spec (add_container c)) b)
      end
  end.

Definition WithContainerBuilders (l : gslice ContainerBuilder.Builder) (b : Builder) : Builder :=
  match l with
  | None => fail_msg "failed to build podtemplatespec: nil containerbuilder" b
  | Some l => append_containers l b
  end.

Fixpoint append_volumes (l : list VolumeBuilder.Builder) (b : Builder) : Builder :=
  match l with
  | [] => b
  | vb :: l' =>
      match VolumeBuilder.Build vb with
      | Err err => fail_with (ErrWrap err "failed to build podtemplatespec") b
      | Ok v => append_volumes l' (upd (on_spec (add_volume v)) b)
      end
  end.

Definition WithVolumeBuilders (l : gslice VolumeBuilder.Builder) (b : Builder) : Builder :=
  match l with
  | None => fail_msg "failed to build podtemplatespec: nil volumeBuilderList" b
  | Some l => append_volumes l b
  end.

(** The [New] variants build everything first and set the field at the end. *)
Fixpoint build_containers (l : list ContainerBuilder.Builder) : result (list Container) :=
  match l with
  | [] => Ok []
  | cb :: l' =>
      let? c := (ContainerBuilder.Build cb).2 in
      let? cs := build_containers l' in
      Ok (c :: cs)
  end.

Definition WithContainerBuildersNew (l : gslice ContainerBuilder.Builder) (b : Builder) : Builder :=
  match l with
  | None => fail_msg "failed to build podtemplatespec: nil containerbuilder" b
  | Some l =>
      if decide (length l = 0)
      then fail_msg "failed to build podtemplatespec: missing containerbuilder" b
      else match build_containers l with
           | Err err => fail_with (ErrWrap err "failed to build podtemplatespec") b
           | Ok containerList => upd (on_spec (set_Containers containerList)) b
           end
  end.

Fixpoint build_volumes (l : list VolumeBuilder.Builder) : result (list Volume) :=
  match l with
  | [] => Ok []
  | vb :: l' =>
      let? v := VolumeBuilder.Build vb in
      let? vs := build_volumes l' in
      Ok (v :: vs)
  end.

Definition WithVolumeBuildersNew (l : gslice VolumeBuilder.Builder) (b : Builder) : Builder :=
  match l with
  | None => fail_msg "failed to build podtemplatespec: nil volumeBuilderList" b
  | Some l =>
      if decide (length l = 0)
      then fail_msg "failed to build podtemplatespec: missing volumeBuilderList" b
      else match build_volumes l with
           | Err err => fail_with (ErrWrap err "failed to build podtemplatespec") b
           | Ok volList => upd (on_spec (set_Volumes volList)) b
           end
  end.

Definition validate (b : Builder) : error :=
  match b_errs b with
  | [] => None
  | es => Some (ErrList "failed to validate: build errors were found: " es)
  end.

(** The message also prints the object, which is left out of the model. *)
Definition Build (b : Builder) : result PodTemplateSpec :=
  match validate b with
  | Some err => Err (ErrWrap err "failed to build a podtemplatespec: ")
  | None => Ok (b_obj b)
  end.
End PodTemplateBuilder.
