(* ===== verification/DeploymentBuilder.v ===== *)
(** * pkg/kubernetes/api/apps/v1/deployment: the deployment builder and the
    rollout status ([deployment.go], [rollout_status.go]) *)

From stdpp Require Import pretty.
From S2P Require Import Prelude K8sTypes BuilderCore.
From S2P Require PodTemplateBuilder.

(** [Deploy] wraps a deployment. *)
Abbreviation Predicate := (Deployment -> bool).

Section DeploymentBuilder.
Context {C : CoreTypes}.

Record Builder := mkDeploymentBuilder {
  core : builder Deployment;
  checks : list Predicate;
}.

Definition lift (m : builder Deployment -> builder Deployment) (b : Builder) : Builder :=
  mkDeploymentBuilder (m (core b)) (checks b).

Definition deployment (b : Builder) : Deployment := b_obj (core b).

Definition NewBuilder : Builder := mkDeploymentBuilder (mkBuilder emptyDeployment []) [].

Definition on_meta (f : ObjectMeta -> ObjectMeta) (o : Deployment) :=
  mkDeployment _ (f (d_meta o)) (d_spec o) (d_status o).

Definition on_spec (f : DeploymentSpec -> DeploymentSpec) (o : Deployment) :=
  mkDeployment _ (d_meta o) (f (d_spec o)) (d_status o).

Definition set_Selector (x : option (gomap string)) (s : DeploymentSpec) : DeploymentSpec :=
  mkDeploymentSpec _ x (d_Replicas s) (d_StrategyType s) (d_Template s).
Definition set_Replicas (x : option Z) (s : DeploymentSpec) : DeploymentSpec :=
  mkDeploymentSpec _ (d_Selector s) x (d_StrategyType s) (d_Template s).
Definition set_StrategyType (x : string) (s : DeploymentSpec) : DeploymentSpec :=
  mkDeploymentSpec _ (d_Selector s) (d_Replicas s) x (d_Template s).
Definition set_Template (x : PodTemplateSpec) (s : DeploymentSpec) : DeploymentSpec :=
  mkDeploymentSpec _ (d_Selector s) (d_Replicas s) (d_StrategyType s) x.
Definition set_pod_NodeSelector (x : gomap string) (s : DeploymentSpec) : DeploymentSpec :=
  set_Template (PodTemplateBuilder.on_spec (PodTemplateBuilder.set_NodeSelector x) (d_Template s)) s.

(** A fresh map filled from the argument. *)
Definition copy_map (m : gomap string) : gomap string :=
  Some (range_insert (gomap_get m) ∅).

Definition WithName (name : string) : Builder -> Builder :=
  lift (checked (bool_decide (String.length name = 0))
    "failed to build deployment: missing name" (on_meta (set_Name name))).

Definition WithNamespace (namespace : string) : Builder -> Builder :=
  lift (checked (bool_decide (String.length namespace = 0))
    "failed to build deployment: missing namespace" (on_meta (set_Namespace namespace))).

Definition WithAnnotationsNew (annotations : gomap string) : Builder -> Builder :=
  lift (checked (bool_decide (gomap_len annotations = 0))
    "failed to build deployment object: no new annotations"
    (on_meta (set_Annotations (copy_map annotations)))).

Definition WithAnnotations (annotations : gomap string) (b : Builder) : Builder :=
  if decide (gomap_len annotations = 0)
  then lift (fail_msg "failed to build deployment object: missing annotations") b
  else match Annotations (d_meta (deployment b)) with
       | None => WithAnnotationsNew annotations b
       | Some cur =>
           lift (upd (on_meta (set_Annotations (Some (range_insert (gomap_get annotations) cur))))) b
       end.

(** The selector map is stored without a copy. *)
Definition WithNodeSelectorNew (selector : gomap string) : Builder -> Builder :=
  lift (checked (bool_decide (gomap_len selector = 0))
    "failed to build deployment object: no new node selector"
    (on_spec (set_pod_NodeSelector selector))).

Definition WithNodeSelector (selector : gomap string) (b : Builder) : Builder :=
  if decide (gomap_len selector = 0)
  then lift (fail_msg "failed to build deployment object: no node selector") b
  else match pod_NodeSelector (pt_spec (d_Template (d_spec (deployment b)))) with
       | None => WithNodeSelectorNew selector b
       | Some cur =>
           lift (upd (on_spec (set_pod_NodeSelector
             (Some (range_insert (gomap_get selector) cur))))) b
       end.

Definition WithOwnerReferenceNew (ownerRefernce : list OwnerReference) : Builder -> Builder :=
  lift (checked (bool_decide (length ownerRefernce = 0))
    "failed to build deployment object: no new ownerRefernce"
    (on_meta (set_OwnerReferences ownerRefernce))).

Definition WithLabelsNew (labels : gomap string) : Builder -> Builder :=
  lift (checked (bool_decide (gomap_len labels = 0))
    "failed to build deployment object: no new labels"
    (on_meta (set_Labels (copy_map labels)))).

Definition WithLabels (labels : gomap string) (b : Builder) : Builder :=
  if decide (gomap_len labels = 0)
  then lift (fail_msg "failed to build deployment object: missing labels") b
  else match Labels (d_meta (deployment b)) with
       | None => WithLabelsNew labels b
       | Some cur =>
           lift (upd (on_meta (set_Labels (Some (range_insert (gomap_get labels) cur))))) b
       end.

Definition WithSelectorMatchLabelsNew (matchlabels : gomap string) : Builder -> Builder :=
  lift (checked (bool_decide (gomap_len matchlabels = 0))
    "failed to build deployment object: no new matchlabels"
    (on_spec (set_Selector (Some (copy_map matchlabels))))).

(** [None] is the panic of writing to a nil [MatchLabels] map of a non-nil
    selector. *)
Definition WithSelectorMatchLabels (matchlabels : gomap string) (b : Builder) : option Builder :=
  if decide (gomap_len matchlabels = 0)
  then Some (lift (fail_msg "failed to build deployment object: missing matchlabels") b)
  else match d_Selector (d_spec (deployment b)) with
       | None => Some (WithSelectorMatchLabelsNew matchlabels b)
       | Some None => None
       | Some (Some cur) =>
           Some (lift (upd (on_spec (set_Selector
             (Some (Some (range_insert (gomap_get matchlabels) cur)))))) b)
       end.

Definition WithReplicas (replicas : option Z) (b : Builder) : Builder :=
  match replicas with
  | None => lift (fail_msg "failed to build deployment object: nil replicas") b
  | Some newreplicas =>
      if decide (newreplicas < 0)%Z
      then lift (fail_msg ("failed to build deployment object: invalid replicas {"
                           +:+ pretty newreplicas +:+ "}")) b
      else lift (upd (on_spec (set_Replicas (Some newreplicas)))) b
  end.

Definition WithStrategyType (strategytype : string) : Builder -> Builder :=
  lift (checked (bool_decide (String.length strategytype = 0))
    "failed to build deployment object: missing strategytype"
    (on_spec (set_StrategyType strategytype))).

Definition WithStrategyTypeRecreate : Builder -> Builder :=
  WithStrategyType RecreateDeploymentStrategyType.

Definition WithPodTemplateSpecBuilder (tmplbuilder : option PodTemplateBuilder.Builder)
    (b : Builder) : Builder :=
  match tmplbuilder with
  | None => lift (fail_msg "failed to build deployment: nil templatespecbuilder") b
  | Some tb =>
      match PodTemplateBuilder.Build tb with
      | Err err => lift (fail_with (ErrWrap err "failed to build deployment")) b
      | Ok templatespecObj => lift (upd (on_spec (set_Template templatespecObj))) b
      end
  end.

Definition validate (b : Builder) : error :=
  match b_errs (core b) with
  | [] => None
  | es => Some (ErrList "failed to validate: build errors were found: " es)
  end.

Definition Build (b : Builder) : result Deployment :=
  match validate b with
  | Some err => Err (ErrWrap err ("failed to build a deployment: " +:+ Name (d_meta (deployment b))))
  | None => Ok (deployment b)
  end.

Definition AddCheck (p : Predicate) (b : Builder) : Builder :=
  mkDeploymentBuilder (core b) (checks b ++ [p]).

Definition AddChecks (ps : list Predicate) (b : Builder) : Builder :=
  fold_left (fun b p => AddCheck p b) ps b.

(** ** Rollout status *)

Inductive PredicateName :=
| PredicateProgressDeadlineExceeded
| PredicateNotSpecSynced
| PredicateOlderReplicaActive
| PredicateTerminationInProgress
| PredicateUpdateInProgress.

Definition IsProgressDeadlineExceeded (d : Deployment) : bool :=
  existsb (fun cond => bool_decide (cond_Type cond = DeploymentProgressing) &&
                       bool_decide (cond_Reason cond = "ProgressDeadlineExceeded"))
    (d_Conditions (d_status d)).

Definition IsOlderReplicaActive (d : Deployment) : bool :=
  match d_Replicas (d_spec d) with
  | None => false
  | Some n => bool_decide (d_UpdatedReplicas (d_status d) < n)%Z
  end.

Definition IsTerminationInProgress (d : Deployment) : bool :=
  bool_decide (d_UpdatedReplicas (d_status d) < d_StatusReplicas (d_status d))%Z.

Definition IsUpdateInProgress (d : Deployment) : bool :=
  bool_decide (d_AvailableReplicas (d_status d) < d_UpdatedReplicas (d_status d))%Z.

Definition IsNotSyncSpec (d : Deployment) : bool :=
  bool_decide (d_ObservedGeneration (d_status d) < Generation (d_meta d))%Z.

(** The map [rolloutChecks], in the order it is written. *)
Definition rolloutChecks : list (PredicateName * Predicate) :=
  [(PredicateProgressDeadlineExceeded, IsProgressDeadlineExceeded);
   (PredicateOlderReplicaActive, IsOlderReplicaActive);
   (PredicateTerminationInProgress, IsTerminationInProgress);
   (PredicateUpdateInProgress, IsUpdateInProgress);
   (PredicateNotSpecSynced, IsNotSyncSpec)].

(** int32 wrap-around of the subtraction that is printed *)
Definition wrap32 (n : Z) : Z := ((n + 2 ^ 31) mod 2 ^ 32 - 2 ^ 31)%Z.

Definition rolloutStatuses (name : PredicateName) (d : Deployment) : string :=
  let st := d_status d in
  match name with
  | PredicateProgressDeadlineExceeded => "deployment exceeded its progress deadline"
  | PredicateOlderReplicaActive =>
      match d_Replicas (d_spec d) with
      | None => "replica update in-progress: some older replicas were updated"
      | Some n =>
          "replica update in-progress: " +:+ pretty (d_UpdatedReplicas st) +:+ " of "
          +:+ pretty n +:+ " new replicas were updated"
      end
  | PredicateTerminationInProgress =>
      "replica termination in-progress: "
      +:+ pretty (wrap32 (d_StatusReplicas st - d_UpdatedReplicas st))
      +:+ " old replicas are pending termination"
  | PredicateUpdateInProgress =>
      "replica update in-progress: " +:+ pretty (d_AvailableReplicas st) +:+ " of "
      +:+ pretty (d_UpdatedReplicas st) +:+ " updated replicas are available"
  | PredicateNotSpecSynced =>
      "deployment rollout in-progress: waiting for deployment spec update"
  end.

Record RolloutOutput := mkRollout { IsRolledout : bool; Message : string }.

(** The range over [rolloutChecks] visits the entries in an unspecified order,
    which is the argument [order]. *)
Fixpoint IsRollout (order : list (PredicateName * Predicate)) (d : Deployment)
  : option PredicateName :=
  match order with
  | [] => None
  | (pk, p) :: rest => if p d then Some pk else IsRollout rest d
  end.

Definition FailedRollout (d : Deployment) (name : PredicateName) : RolloutOutput :=
  mkRollout false (rolloutStatuses name d).

Definition SuccessRollout : RolloutOutput := mkRollout true "deployment successfully rolled out".

Definition RolloutStatus (order : list (PredicateName * Predicate)) (d : Deployment) : RolloutOutput :=
  match IsRollout order d with
  | None => SuccessRollout
  | Some pk => FailedRollout d pk
  end.

(** [Rollout]: the output, and how it is printed; [None] for [raw] is the nil
    function.  [json.Marshal] is a parameter. *)
Record Rollout := mkRolloutBuilder {
  output : option RolloutOutput;
  raw : option (RolloutOutput -> result string);
}.

Definition withOutputObject (o : RolloutOutput) (r : Rollout) : Rollout :=
  mkRolloutBuilder (Some o) (raw r).

Definition withDefaults (json_Marshal : RolloutOutput -> result string) (r : Rollout) : Rollout :=
  match raw r with
  | None => mkRolloutBuilder (output r) (Some json_Marshal)
  | Some _ => r
  end.

Definition NewRollout (json_Marshal : RolloutOutput -> result string)
    (opts : list (Rollout -> Rollout)) : Rollout :=
  withDefaults json_Marshal (fold_left (fun r o => o r) opts (mkRolloutBuilder None None)).

(** The outer option is the call of a nil function. *)
Definition Raw (r : Rollout) : option (result string) :=
  match output r with
  | None => Some (Err (ErrNew "unable to get rollout status output"))
  | Some o => (fun f => f o) <$> raw r
  end.

Definition RolloutStatusRaw (json_Marshal : RolloutOutput -> result string)
    (order : list (PredicateName * Predicate)) (d : Deployment) : option (result string) :=
  Raw (NewRollout json_Marshal [withOutputObject (RolloutStatus order d)]).

Definition VerifyReplicaStatus (d : Deployment) : error :=
  match d_Replicas (d_spec d) with
  | None => Some (ErrNew "failed to verify replica status for deployment: nil replicas")
  | Some n =>
      if decide (d_ReadyReplicas (d_status d) <> n)
      then Some (ErrNew (Name (d_meta d)
             +:+ " deployment pods are not in running state expected: " +:+ pretty n
             +:+ " got: " +:+ pretty (d_ReadyReplicas (d_status d))))
      else None
  end.
End DeploymentBuilder.

(** ** Facts *)
Section DeploymentBuilderFacts.
Context {C : CoreTypes}.

(** The methods that cannot panic. *)
Inductive deployment_method : (Builder -> Builder) -> Prop :=
| m_WithName s : deployment_method (WithName s)
| m_WithNamespace s : deployment_method (WithNamespace s)
| m_WithAnnotations m : deployment_method (WithAnnotations m)
| m_WithAnnotationsNew m : deployment_method (WithAnnotationsNew m)
| m_WithNodeSelector m : deployment_method (WithNodeSelector m)
| m_WithNodeSelectorNew m : deployment_method (WithNodeSelectorNew m)
| m_WithOwnerReferenceNew l : deployment_method (WithOwnerReferenceNew l)
| m_WithLabels m : deployment_method (WithLabels m)
| m_WithLabelsNew m : deployment_method (WithLabelsNew m)
| m_WithSelectorMatchLabelsNew m : deployment_method (WithSelectorMatchLabelsNew m)
| m_WithReplicas r : deployment_method (WithReplicas r)
| m_WithStrategyType s : deployment_method (WithStrategyType s)
| m_WithStrategyTypeRecreate : deployment_method WithStrategyTypeRecreate
| m_WithPodTemplateSpecBuilder t : deployment_method (WithPodTemplateSpecBuilder t)
| m_AddCheck p : deployment_method (AddCheck p)
| m_AddChecks ps : deployment_method (AddChecks ps).

(** Builders that the package's methods can produce. *)
Inductive reachable : Builder -> Prop :=
| reach_new : reachable NewBuilder
| reach_step b m : reachable b -> deployment_method m -> reachable (m b)
| reach_match b b' ml : reachable b -> WithSelectorMatchLabels ml b = Some b' -> reachable b'.

Definition selector_ok (b : Builder) : Prop :=
  d_Selector (d_spec (deployment b)) <> Some None.

Lemma AddChecks_core ps b : core (AddChecks ps b) = core b.
Proof. revert b. induction ps as [|p ps IH]; intros b; simpl; [done|]. by rewrite IH. Qed.

Lemma method_selector_ok m b : deployment_method m -> selector_ok b -> selector_ok (m b).
Proof.
  unfold selector_ok, deployment. destruct 1; intros Hok;
    unfold WithName, WithNamespace, WithAnnotations, WithAnnotationsNew, WithNodeSelector,
      WithNodeSelectorNew, WithOwnerReferenceNew, WithLabels, WithLabelsNew,
      WithSelectorMatchLabelsNew, WithReplicas, WithStrategyTypeRecreate, WithStrategyType,
      WithPodTemplateSpecBuilder, AddCheck, lift, checked;
    try (rewrite AddChecks_core);
    repeat (case_match || case_decide); simpl; done.
Qed.

Lemma match_selector_ok ml b b' :
  selector_ok b -> WithSelectorMatchLabels ml b = Some b' -> selector_ok b'.
Proof.
  unfold selector_ok, WithSelectorMatchLabels, deployment. intros Hok.
  repeat (case_match || case_decide); intros [= <-]; simpl; try done.
  unfold checked; simpl. rewrite bool_decide_eq_false_2 by done. simpl. done.
Qed.

Lemma reachable_selector_ok b : reachable b -> selector_ok b.
Proof.
  induction 1; [done|by apply method_selector_ok|by eapply match_selector_ok].
Qed.

Lemma IsRollout_None order d :
  IsRollout order d = None <-> Forall (fun pp => pp.2 d = false) order.
Proof.
  induction order as [|[pk p] order IH]; simpl; [done|].
  rewrite Forall_cons; simpl. destruct (p d); [naive_solver|].
  rewrite IH. naive_solver.
Qed.

Lemma IsRollout_Some order d pk :
  IsRollout order d = Some pk -> exists p, (pk, p) ∈ order /\ p d = true.
Proof.
  induction order as [|[pk' p] order IH]; simpl; [done|].
  destruct (p d) eqn:Hp.
  - intros [= ->]. exists p. split; [set_solver|done].
  - intros Hi. destruct (IH Hi) as (p' & Hin & Hp'). exists p'. split; [set_solver|done].
Qed.
End DeploymentBuilderFacts.
