(* ===== verification/KubeClient.v ===== *)
(** * pkg/kubernetes/client: where the Kubernetes configuration comes from
    ([client.go])

    client-go and the environment are the class [ClientLib].  The function
    fields of a client are nilable; calling a nil one is a panic, which is the
    outer [None] of the methods' results. *)

From S2P Require Import Prelude GoStrings StringFacts.

Class ClientLib := {
  (** [rest.Config], [kubernetes.Clientset] and [dynamic.Interface] *)
  rest_Config : Type;
  kube_Clientset : Type;
  dynamic_Interface : Type;
  rest_InClusterConfig : result rest_Config;
  clientcmd_BuildConfigFromFlags : string -> string -> result rest_Config;
  kubernetes_NewForConfig : rest_Config -> result kube_Clientset;
  dynamic_NewForConfig : rest_Config -> result dynamic_Interface;
  (** [env.Get] *)
  env_Get : string -> string;
}.

Definition K8sMasterIPEnvironmentKey : string := "OPENEBS_IO_K8S_MASTER".
Definition KubeConfigEnvironmentKey : string := "OPENEBS_IO_KUBE_CONFIG".

Section KubeClient.
Context {L : ClientLib}.

Definition getInClusterConfigFn : Type := result rest_Config.
Definition buildConfigFromFlagsFn : Type := string -> string -> result rest_Config.
Definition getKubeMasterIPFromENVFn : Type := string -> string.
Definition getKubeConfigPathFromENVFn : Type := string -> string.
Definition getKubeDynamicClientFn : Type := rest_Config -> result dynamic_Interface.
Definition getKubeClientsetFn : Type := rest_Config -> result kube_Clientset.

Record Client := mkClient {
  IsInCluster : bool;
  KubeConfigPath : string;
  getInClusterConfig : option getInClusterConfigFn;
  buildConfigFromFlags : option buildConfigFromFlagsFn;
  getKubeClientset : option getKubeClientsetFn;
  getKubeDynamicClient : option getKubeDynamicClientFn;
  getKubeMasterIPFromENV : option getKubeMasterIPFromENVFn;
  getKubeConfigPathFromENV : option getKubeConfigPathFromENVFn;
}.

Definition OptionFn : Type := Client -> Client.

(** [if c.f == nil { c.f = default }] *)
Definition or_default_fn {A} (f : option A) (d : A) : option A :=
  match f with None => Some d | Some _ => f end.

Definition withDefaultGetInClusterConfigFn : OptionFn := fun c =>
  mkClient (IsInCluster c) (KubeConfigPath c)
    (or_default_fn (getInClusterConfig c) rest_InClusterConfig) (buildConfigFromFlags c)
    (getKubeClientset c) (getKubeDynamicClient c) (getKubeMasterIPFromENV c)
    (getKubeConfigPathFromENV c).

Definition withDefaultBuildConfigFromFlagsFn : OptionFn := fun c =>
  mkClient (IsInCluster c) (KubeConfigPath c) (getInClusterConfig c)
    (or_default_fn (buildConfigFromFlags c) clientcmd_BuildConfigFromFlags)
    (getKubeClientset c) (getKubeDynamicClient c) (getKubeMasterIPFromENV c)
    (getKubeConfigPathFromENV c).

Definition withDefaultGetKubeClientsetFn : OptionFn := fun c =>
  mkClient (IsInCluster c) (KubeConfigPath c) (getInClusterConfig c) (buildConfigFromFlags c)
    (or_default_fn (getKubeClientset c) kubernetes_NewForConfig) (getKubeDynamicClient c)
    (getKubeMasterIPFromENV c) (getKubeConfigPathFromENV c).

Definition withDefaultGetKubeDynamicClientFn : OptionFn := fun c =>
  mkClient (IsInCluster c) (KubeConfigPath c) (getInClusterConfig c) (buildConfigFromFlags c)
    (getKubeClientset c) (or_default_fn (getKubeDynamicClient c) dynamic_NewForConfig)
    (getKubeMasterIPFromENV c) (getKubeConfigPathFromENV c).

Definition withDefaultGetKubeMasterIPFromENVFn : OptionFn := fun c =>
  mkClient (IsInCluster c) (KubeConfigPath c) (getInClusterConfig c) (buildConfigFromFlags c)
    (getKubeClientset c) (getKubeDynamicClient c)
    (or_default_fn (getKubeMasterIPFromENV c) env_Get) (getKubeConfigPathFromENV c).

Definition withDefaultGetKubeConfigPathFromENVFn : OptionFn := fun c =>
  mkClient (IsInCluster c) (KubeConfigPath c) (getInClusterConfig c) (buildConfigFromFlags c)
    (getKubeClientset c) (getKubeDynamicClient c) (getKubeMasterIPFromENV c)
    (or_default_fn (getKubeConfigPathFromENV c) env_Get).

Definition defaultFns : list OptionFn :=
  [withDefaultGetInClusterConfigFn; withDefaultBuildConfigFromFlagsFn;
   withDefaultGetKubeClientsetFn; withDefaultGetKubeDynamicClientFn;
   withDefaultGetKubeMasterIPFromENVFn; withDefaultGetKubeConfigPathFromENVFn].

Definition withDefaults (c : Client) : Client := fold_left (fun c def => def c) defaultFns c.

(** [&Client{}] *)
Definition zero_client : Client := mkClient false EmptyString None None None None None None.

Definition New (opts : list OptionFn) : Client :=
  withDefaults (fold_left (fun c o => o c) opts zero_client).

(** The package variables [instance] and [once]: the first call builds the
    instance, every later one returns it.  The variable is the state. *)
Definition Instance (opts : list OptionFn) (instance : option Client) : option Client * Client :=
  match instance with
  | Some c => (instance, c)
  | None => let c := New opts in (Some c, c)
  end.

Definition InCluster : OptionFn := fun c =>
  mkClient true (KubeConfigPath c) (getInClusterConfig c) (buildConfigFromFlags c)
    (getKubeClientset c) (getKubeDynamicClient c) (getKubeMasterIPFromENV c)
    (getKubeConfigPathFromENV c).

Definition WithKubeConfigPath (kubeConfigPath : string) : OptionFn := fun c =>
  mkClient (IsInCluster c) kubeConfigPath (getInClusterConfig c) (buildConfigFromFlags c)
    (getKubeClientset c) (getKubeDynamicClient c) (getKubeMasterIPFromENV c)
    (getKubeConfigPathFromENV c).

Definition ConfigForPath (kubeConfigPath : string) (c : Client) : option (result rest_Config) :=
  (fun f => f EmptyString kubeConfigPath) <$> buildConfigFromFlags c.

(** [strings.TrimSpace(s) != ""] *)
Definition is_set (s : string) : bool := negb (bool_decide (TrimSpace s = EmptyString)).

Definition getConfigFromENV (c : Client) : option (result rest_Config) :=
  getMaster ← getKubeMasterIPFromENV c;
  let k8sMaster := getMaster K8sMasterIPEnvironmentKey in
  getPath ← getKubeConfigPathFromENV c;
  let kubeConfig := getPath KubeConfigEnvironmentKey in
  if negb (is_set k8sMaster) && negb (is_set kubeConfig)
  then Some (Err (ErrNew ("failed to get kubernetes config: missing ENV: atleast one should be set: {"
                          +:+ K8sMasterIPEnvironmentKey +:+ "} or {" +:+ KubeConfigEnvironmentKey +:+ "}")))
  else (fun f => f k8sMaster kubeConfig) <$> buildConfigFromFlags c.

(** The second variable is only read when the first one is not set. *)
Definition Config (c : Client) : option (result rest_Config) :=
  if IsInCluster c then getInClusterConfig c
  else
    getMaster ← getKubeMasterIPFromENV c;
    from_env ← (if is_set (getMaster K8sMasterIPEnvironmentKey) then Some true
                else (fun getPath => is_set (getPath KubeConfigEnvironmentKey))
                       <$> getKubeConfigPathFromENV c);
    if from_env : bool then getConfigFromENV c else getInClusterConfig c.

Definition GetConfigForPathOrDirect (c : Client) : option (result rest_Config) :=
  if decide (KubeConfigPath c <> EmptyString) then ConfigForPath (KubeConfigPath c) c
  else Config c.

Definition GetConfig (c : option Client) : option (result rest_Config) :=
  match c with
  | None => Some (Err (ErrNew "failed to get kubernetes config: nil client provided"))
  | Some c => GetConfigForPathOrDirect c
  end.

Definition Clientset (c : Client) : option (result kube_Clientset) :=
  config ← GetConfigForPathOrDirect c;
  match config with
  | Err err => Some (Err (ErrWrap err ("failed to get kubernetes clientset: IsInCluster {"
      +:+ (if IsInCluster c then "true" else "false") +:+ "}: KubeConfigPath {"
      +:+ KubeConfigPath c +:+ "}")))
  | Ok config => (fun f => f config) <$> getKubeClientset c
  end.

Definition Dynamic (c : Client) : option (result dynamic_Interface) :=
  config ← GetConfigForPathOrDirect c;
  match config with
  | Err err => Some (Err (ErrWrap err "failed to get dynamic client"))
  | Ok config => (fun f => f config) <$> getKubeDynamicClient c
  end.
End KubeClient.

(** ** Which configuration is chosen *)
Section KubeClientFacts.
Context {L : ClientLib}.

(** The options a caller can give, as data: [InCluster()] and
    [WithKubeConfigPath(path)]. *)
Inductive given := GivenInCluster | GivenPath (path : string).

#[export] Instance given_eq_dec : EqDecision given.
Proof. solve_decision. Defined.

Definition option_fn (g : given) : OptionFn :=
  match g with
  | GivenInCluster => InCluster
  | GivenPath path => WithKubeConfigPath path
  end.

(** What they ask for: the last of the paths, and the cluster when it is named
    at all. *)
Definition given_path (gs : list given) : string :=
  default EmptyString (last (omap (fun g => match g with GivenPath p => Some p | _ => None end) gs)).

Definition given_cluster (gs : list given) : bool := bool_decide (GivenInCluster ∈ gs).

(** The client that flags and path describe, with every default. *)
Definition default_client (inCluster : bool) (path : string) : Client :=
  mkClient inCluster path (Some rest_InClusterConfig) (Some clientcmd_BuildConfigFromFlags)
    (Some kubernetes_NewForConfig) (Some dynamic_NewForConfig) (Some env_Get) (Some env_Get).

Lemma given_cluster_app gs g :
  given_cluster (gs ++ [g]) = given_cluster gs || bool_decide (g = GivenInCluster).
Proof.
  unfold given_cluster. rewrite <- bool_decide_or. apply bool_decide_ext. set_solver.
Qed.

Lemma New_options gs : New (map option_fn gs) = default_client (given_cluster gs) (given_path gs).
Proof.
  enough (Hf : fold_left (fun c o => o c) (map option_fn gs) zero_client =
    mkClient (given_cluster gs) (given_path gs) None None None None None None).
  { exact (f_equal withDefaults Hf). }
  induction gs as [|g gs IH] using rev_ind; [done|].
  rewrite map_app, fold_left_app. etrans; [exact (f_equal (option_fn g) IH)|]. rewrite given_cluster_app. unfold given_path. rewrite omap_app.
  destruct g; cbn.
  - by rewrite app_nil_r, orb_true_r.
  - by rewrite last_snoc, orb_false_r.
Qed.

(** Whether the environment asks for a configuration. *)
Definition env_configured : bool :=
  is_set (env_Get K8sMasterIPEnvironmentKey) || is_set (env_Get KubeConfigEnvironmentKey).

Definition selected_config (inCluster : bool) (path : string) : result rest_Config :=
  if decide (path <> EmptyString) then clientcmd_BuildConfigFromFlags EmptyString path
  else if inCluster then rest_InClusterConfig
  else if env_configured
  then clientcmd_BuildConfigFromFlags (env_Get K8sMasterIPEnvironmentKey) (env_Get KubeConfigEnvironmentKey)
  else rest_InClusterConfig.

Lemma default_client_config b path :
  GetConfigForPathOrDirect (default_client b path) = Some (selected_config b path).
Proof.
  unfold GetConfigForPathOrDirect, selected_config. cbn [KubeConfigPath default_client].
  case_decide; [done|]. unfold Config. cbn [IsInCluster default_client]. destruct b; [done|].
  unfold env_configured. cbn [getKubeMasterIPFromENV getKubeConfigPathFromENV default_client mbind option_bind].
  destruct (is_set (env_Get K8sMasterIPEnvironmentKey)) eqn:Hm; cbn -[is_set].
  - unfold getConfigFromENV. cbn -[is_set]. by rewrite Hm.
  - destruct (is_set (env_Get KubeConfigEnvironmentKey)) eqn:Hk; cbn -[is_set]; [|done].
    unfold getConfigFromENV. cbn -[is_set]. by rewrite Hm.
Qed.

(** C37: a client made with any options of the package, in any order, never
    calls a nil function, and takes its configuration from the last path it was
    given, else from the cluster if it was told to, else from the environment if
    that is set, else from the cluster; every error of these is reported. *)
Theorem client_selection gs :
  let c := New (map option_fn gs) in
  KubeConfigPath c = given_path gs /\
  IsInCluster c = given_cluster gs /\
  GetConfig (Some c) = Some (selected_config (given_cluster gs) (given_path gs)) /\
  match selected_config (given_cluster gs) (given_path gs) with
  | Ok cfg => Clientset c = Some (kubernetes_NewForConfig cfg) /\ Dynamic c = Some (dynamic_NewForConfig cfg)
  | Err err =>
      (exists msg, Clientset c = Some (Err (ErrWrap err msg))) /\
      exists msg, Dynamic c = Some (Err (ErrWrap err msg))
  end.
Proof.
  cbv zeta. rewrite New_options. split; [done|]. split; [done|].
  cbn [GetConfig]. unfold Clientset, Dynamic. rewrite default_client_config. cbn [mbind option_bind].
  split; [done|]. destruct (selected_config _ _); [done|]. split; by eexists.
Qed.
End KubeClientFacts.

Definition example_lib : ClientLib := {|
  rest_Config := string; kube_Clientset := string; dynamic_Interface := string;
  rest_InClusterConfig := Ok "in-cluster";
  clientcmd_BuildConfigFromFlags := fun master path => Ok ("flags " +:+ master +:+ path);
  kubernetes_NewForConfig := Ok; dynamic_NewForConfig := Ok;
  env_Get := fun k => EmptyString;
|}.

Lemma client_selection_witness :
  GetConfig (Some (New (L := example_lib) [InCluster; WithKubeConfigPath "/etc/old"; WithKubeConfigPath "/etc/kube"])) =
    Some (Ok "flags /etc/kube") /\
  GetConfig (Some (New (L := example_lib) [InCluster])) = Some (Ok "in-cluster").
Proof.
  split.
  - exact (proj1 (proj2 (proj2 (client_selection (L := example_lib)
      [GivenInCluster; GivenPath "/etc/old"; GivenPath "/etc/kube"])))).
  - exact (proj1 (proj2 (proj2 (client_selection (L := example_lib) [GivenInCluster])))).
Defined.
