(* ===== verification/MetaHelper.v ===== *)
(** * pkg/helper: finalizers, annotations and patch data ([helper.go])

    The functions of the package mutate the [ObjectMeta] they point to; here
    they return it.  JSON marshalling and the strategic merge patch are library
    code, the members of [PatchLib]. *)

From S2P Require Import Prelude K8sTypes.

Class PatchLib {C : CoreTypes} := {
  (** [json.Marshal] *)
  json_Marshal : object -> result string;
  (** [strategicpatch.CreateTwoWayMergePatch], its third argument is only used
      for the type of the objects *)
  CreateTwoWayMergePatch : string -> string -> object -> result string;
}.

Section MetaHelper.
Context {C : CoreTypes}.

Fixpoint add_finalizers (existing finalizers : list string) : list string :=
  match finalizers with
  | [] => existing
  | f :: rest =>
      add_finalizers (if decide (f ∈ existing) then existing else existing ++ [f]) rest
  end.

Definition AddFinalizers (objMeta : ObjectMeta) (finalizers : list string) : ObjectMeta :=
  set_Finalizers (add_finalizers (Finalizers objMeta) finalizers) objMeta.

Definition AddAnnotations (objMeta : ObjectMeta) (annotations : gomap string) : ObjectMeta :=
  set_Annotations
    (Some (range_insert (gomap_get annotations) (gomap_get (Annotations objMeta)))) objMeta.

(** [append(l[:i], l[i+1:]...)] for the first [i] with [l[i] == f], then break *)
Fixpoint remove_first (f : string) (l : list string) : list string :=
  match l with
  | [] => []
  | x :: l' => if decide (x = f) then l' else x :: remove_first f l'
  end.

Definition RemoveFinalizers (objMeta : ObjectMeta) (finalizers : list string) : ObjectMeta :=
  set_Finalizers
    (fold_left (fun l f => remove_first f l) finalizers (Finalizers objMeta)) objMeta.

(** [delete] on a nil map does nothing. *)
Definition RemoveAnnotations (objMeta : ObjectMeta) (annotations : gomap string) : ObjectMeta :=
  set_Annotations
    (range_delete (gomap_get annotations) <$> Annotations objMeta) objMeta.

(** The printed error [%v] is its value. *)
Definition GetPatchData {P : PatchLib} (oldObj newObj : object) : result (string * string) :=
  match json_Marshal oldObj with
  | Err err => Err (ErrList "marshal old object failed: " [err])
  | Ok oldData =>
      match json_Marshal newObj with
      | Err err => Err (ErrList "marshal new object failed: " [err])
      | Ok newData =>
          match CreateTwoWayMergePatch oldData newData oldObj with
          | Err err => Err (ErrList "CreateTwoWayMergePatch failed: " [err])
          | Ok patchBytes => Ok (patchBytes, oldData)
          end
      end
  end.
End MetaHelper.

(** ** Facts *)
Section MetaHelperFacts.
Context {C : CoreTypes}.

Lemma add_finalizers_elem fs l x :
  x ∈ add_finalizers l fs <-> x ∈ l \/ x ∈ fs.
Proof.
  revert l. induction fs as [|f fs IH]; intros l; simpl; [set_solver|].
  rewrite IH. case_decide; set_solver.
Qed.

Lemma add_finalizers_NoDup fs l : NoDup l -> NoDup (add_finalizers l fs).
Proof.
  revert l. induction fs as [|f fs IH]; intros l Hl; simpl; [done|].
  apply IH. case_decide; [done|]. rewrite NoDup_app.
  split; [done|]. split; [set_solver|apply NoDup_singleton].
Qed.

(** The existing finalizers stay, in their order, at the front. *)
Lemma add_finalizers_prefix fs l : l `prefix_of` add_finalizers l fs.
Proof.
  revert l. induction fs as [|f fs IH]; intros l; simpl; [done|].
  case_decide; [apply IH|]. etrans; [|apply IH]. by apply prefix_app_r.
Qed.

Lemma add_finalizers_present fs l : (forall f, f ∈ fs -> f ∈ l) -> add_finalizers l fs = l.
Proof.
  revert l. induction fs as [|f fs IH]; intros l Hin; simpl; [done|].
  rewrite decide_True by set_solver. apply IH. set_solver.
Qed.

Lemma remove_first_notin f l : f ∉ l -> remove_first f l = l.
Proof.
  induction l as [|x l IH]; simpl; intros Hin; [done|].
  rewrite decide_False by set_solver. rewrite IH by set_solver. done.
Qed.

Lemma remove_first_app_in f l k : f ∈ l -> remove_first f (l ++ k) = remove_first f l ++ k.
Proof.
  induction l as [|x l IH]; simpl; intros Hin; [set_solver|].
  case_decide; [done|]. simpl. rewrite IH by set_solver. done.
Qed.

Lemma remove_first_app_notin f l k : f ∉ l -> remove_first f (l ++ k) = l ++ remove_first f k.
Proof.
  induction l as [|x l IH]; simpl; intros Hin; [done|].
  rewrite decide_False by set_solver. rewrite IH by set_solver. done.
Qed.

Lemma remove_first_elem f l x : NoDup l -> x ∈ remove_first f l <-> x ∈ l /\ x <> f.
Proof.
  induction l as [|y l IH]; simpl; intros Hnd; [set_solver|].
  inversion_clear Hnd as [|?? Hy Hl]. case_decide as Hyf; [subst; set_solver|].
  specialize (IH Hl). rewrite !elem_of_cons, IH. naive_solver.
Qed.

Lemma remove_first_NoDup f l : NoDup l -> NoDup (remove_first f l).
Proof.
  induction l as [|y l IH]; simpl; intros Hnd; [done|].
  inversion_clear Hnd as [|?? Hy Hl]. case_decide; [done|].
  apply NoDup_cons. rewrite remove_first_elem by done. naive_solver.
Qed.

Lemma remove_all_elem fs l x :
  NoDup l -> x ∈ fold_left (fun l f => remove_first f l) fs l <-> x ∈ l /\ x ∉ fs.
Proof.
  revert l. induction fs as [|f fs IH]; intros l Hnd; simpl; [set_solver|].
  rewrite IH by by apply remove_first_NoDup. rewrite remove_first_elem by done. set_solver.
Qed.

(** Removing finalizers that were not there before they were added gives the
    list back. *)
Lemma remove_add_finalizers fs l :
  NoDup fs -> (forall f, f ∈ fs -> f ∉ l) ->
  fold_left (fun l f => remove_first f l) fs (l ++ fs) = l.
Proof.
  intros Hnd. induction fs as [|f fs IH]; intros Hf; simpl; [by rewrite app_nil_r|].
  inversion_clear Hnd. rewrite remove_first_app_notin by set_solver.
  simpl. rewrite decide_True by done. apply IH; set_solver.
Qed.

Lemma add_finalizers_fresh fs l :
  NoDup fs -> (forall f, f ∈ fs -> f ∉ l) -> add_finalizers l fs = l ++ fs.
Proof.
  revert l. induction fs as [|f fs IH]; intros l Hnd Hf; simpl; [by rewrite app_nil_r|].
  inversion_clear Hnd. rewrite decide_False by set_solver.
  rewrite IH; [by rewrite <- app_assoc|done|set_solver].
Qed.
End MetaHelperFacts.
