(* ===== verification/Concrete.v ===== *)
(** * A concrete instance of the library parameters

    Used by the witnesses, to run the development on concrete inputs.
    Quantities are the decimal strings of non-negative integers, and the other
    opaque types are [unit]. *)

From S2P Require Import Prelude GoStrings K8sTypes.
From S2P Require Import MetaHelper.

Definition parse_decimal (s : string) : result string :=
  match parse_unsigned s with
  | Some _ => Ok s
  | None => Err (ErrNew "quantities must match the regular expression")
  end.

Definition core : CoreTypes := {|
  Quantity := string;
  quantity_zero := "0";
  quantity_String := fun q => q;
  ParseQuantity := parse_decimal;
  Probe := unit;
  Lifecycle := unit;
  EnvFromSource := unit;
  VolumeDevice := unit;
  Toleration := unit;
  OwnerReference := unit;
  EmptyDirVolumeSource := unit;
  LabelSelector := string;
|}.

(** A patch that names the object it was made for. *)
Definition patch_lib : @PatchLib core := {|
  json_Marshal := fun o => Ok (Name (object_meta o));
  CreateTwoWayMergePatch := fun old new _ => Ok (old +:+ "->" +:+ new);
|}.
