(* ===== verification/BuilderErrors.v ===== *)
(** * When the builders of pkg/kubernetes/api refuse to build

    For every package, which calls have arguments that its methods refuse
    ([.._call m bad]), and that [Build] at the end of a chain fails exactly when
    one of the calls of the chain was such a call. *)

From S2P Require Import Prelude GoStrings K8sTypes BuilderCore.
From S2P Require PVCBuilder PVBuilder ServiceBuilder VolumeBuilder ContainerBuilder PodTemplateBuilder DeploymentBuilder.
From S2P Require Concrete.

Section BuilderErrors.
Context {C : CoreTypes}.

(** Arguments that are missing. *)
Abbreviation no_text s := (bool_decide (s = EmptyString)).
Abbreviation no_items l := (bool_decide (l = [])).
Abbreviation no_entries m := (bool_decide (gomap_get m = ∅)).
Abbreviation no_slice x := (bool_decide (gslice_get x = [])).
Abbreviation nil x := (match x with None => true | Some _ => false end).
Abbreviation not_built r := (negb (is_ok r)).

(** ** The calls of each package, and whether their arguments are refused *)

Inductive pvc_call : (PVCBuilder.Builder -> PVCBuilder.Builder) -> bool -> Prop :=
| pvc_Name s : pvc_call (PVCBuilder.WithName s) (no_text s)
| pvc_GenerateName s : pvc_call (PVCBuilder.WithGenerateName s) (no_text s)
| pvc_Namespace s : pvc_call (PVCBuilder.WithNamespace s) false
| pvc_Annotations m : pvc_call (PVCBuilder.WithAnnotations m) (no_entries m)
| pvc_Labels m : pvc_call (PVCBuilder.WithLabels m) (no_entries m)
| pvc_LabelsNew m : pvc_call (PVCBuilder.WithLabelsNew m) (no_entries m)
| pvc_StorageClass s : pvc_call (PVCBuilder.WithStorageClass s) false
| pvc_Modes l : pvc_call (PVCBuilder.WithAccessModes l) (no_items l)
| pvc_ModeRWO : pvc_call PVCBuilder.WithAccessModeRWO false
| pvc_Capacity s : pvc_call (PVCBuilder.WithCapacity s) (not_built (ParseQuantity s))
| pvc_Mode s : pvc_call (PVCBuilder.WithVolumeMode s) false
| pvc_Volume s : pvc_call (PVCBuilder.WithVolumeName s) false.

Inductive pv_call : (PVBuilder.Builder -> PVBuilder.Builder) -> bool -> Prop :=
| pv_Name s : pv_call (PVBuilder.WithName s) (no_text s)
| pv_Annotations m : pv_call (PVBuilder.WithAnnotations m) (no_entries m)
| pv_Labels m : pv_call (PVBuilder.WithLabels m) (no_entries m)
| pv_ReclaimPolicy s : pv_call (PVBuilder.WithReclaimPolicy s) false
| pv_VolumeMode s : pv_call (PVBuilder.WithVolumeMode s) false
| pv_Modes l : pv_call (PVBuilder.WithAccessModes l) (no_items l)
| pv_Capacity s : pv_call (PVBuilder.WithCapacity s) (not_built (ParseQuantity s))
| pv_CapacityQty q : pv_call (PVBuilder.WithCapacityQty q) false
| pv_HostDirectory s : pv_call (PVBuilder.WithLocalHostDirectory s) (no_text s)
| pv_HostPath s t : pv_call (PVBuilder.WithLocalHostPathFormat s t) (no_text s)
| pv_Source s : pv_call (PVBuilder.WithPersistentVolumeSource s) (nil s)
| pv_Node s : pv_call (PVBuilder.WithNodeAffinity s) (no_text s)
| pv_NFS s p r : pv_call (PVBuilder.WithNFS s p r) (no_text s || no_text p)
| pv_Mounts l : pv_call (PVBuilder.WithMountOptions l) false.

Inductive service_call : (ServiceBuilder.Builder -> ServiceBuilder.Builder) -> bool -> Prop :=
| svc_Name s : service_call (ServiceBuilder.WithName s) (no_text s)
| svc_GenerateName s : service_call (ServiceBuilder.WithGenerateName s) (no_text s)
| svc_Namespace s : service_call (ServiceBuilder.WithNamespace s) (no_text s)
| svc_Annotations m : service_call (ServiceBuilder.WithAnnotations m) (no_entries m)
| svc_AnnotationsNew m : service_call (ServiceBuilder.WithAnnotationsNew m) (no_entries m)
| svc_Owners l : service_call (ServiceBuilder.WithOwnerReferenceNew l) (no_items l)
| svc_Labels m : service_call (ServiceBuilder.WithLabels m) (no_entries m)
| svc_LabelsNew m : service_call (ServiceBuilder.WithLabelsNew m) (no_entries m)
| svc_Selectors m : service_call (ServiceBuilder.WithSelectors m) (no_entries m)
| svc_SelectorsNew m : service_call (ServiceBuilder.WithSelectorsNew m) (no_entries m)
| svc_Port l : service_call (ServiceBuilder.WithPorts l) (no_items l)
| svc_Kind s : service_call (ServiceBuilder.WithType s) (no_text s).

Inductive volume_call : (VolumeBuilder.Builder -> VolumeBuilder.Builder) -> bool -> Prop :=
| vol_Name s : volume_call (VolumeBuilder.WithName s) (no_text s)
| vol_HostDirectory s : volume_call (VolumeBuilder.WithHostDirectory s) (no_text s)
| vol_Secret s m : volume_call (VolumeBuilder.WithSecret s m) (nil s || bool_decide (m = 0%Z))
| vol_ConfigMap s m : volume_call (VolumeBuilder.WithConfigMap s m) (nil s || bool_decide (m = 0%Z))
| vol_HostPath s t : volume_call (VolumeBuilder.WithHostPathAndType s t) (nil t || no_text s)
| vol_PVC s : volume_call (VolumeBuilder.WithPVCSource s) (no_text s)
| vol_EmptyDir d : volume_call (VolumeBuilder.WithEmptyDir d) (nil d).

(** A slice of builders that is nil, or has one that does not build. *)
Definition containers_refused (x : gslice ContainerBuilder.Builder) : bool :=
  match x with
  | None => true
  | Some l => existsb (fun cb => not_built (ContainerBuilder.Build cb).2) l
  end.
Definition volumes_refused (x : gslice VolumeBuilder.Builder) : bool :=
  match x with
  | None => true
  | Some l => existsb (fun vb => not_built (VolumeBuilder.Build vb)) l
  end.

(** The methods of the container builder but [AddCheck] and [AddChecks], whose
    predicates are not arguments that a call refuses: [Build] evaluates them. *)
Inductive container_call : (ContainerBuilder.Builder -> ContainerBuilder.Builder) -> bool -> Prop :=
| con_Name s : container_call (ContainerBuilder.WithName s) (no_text s)
| con_Image s : container_call (ContainerBuilder.WithImage s) (no_text s)
| con_Command l : container_call (ContainerBuilder.WithCommandNew l) (no_slice l)
| con_Arguments l : container_call (ContainerBuilder.WithArgumentsNew l) (no_slice l)
| con_Mounts l : container_call (ContainerBuilder.WithVolumeMountsNew l) (no_slice l)
| con_Devices l : container_call (ContainerBuilder.WithVolumeDevices l) (no_slice l)
| con_PullPolicy s : container_call (ContainerBuilder.WithImagePullPolicy s) (no_text s)
| con_Privileged x : container_call (ContainerBuilder.WithPrivilegedSecurityContext x) (nil x)
| con_Resources x : container_call (ContainerBuilder.WithResources x) (nil x)
| con_ResourcesByValue x : container_call (ContainerBuilder.WithResourcesByValue x) false
| con_Ports l : container_call (ContainerBuilder.WithPortsNew l) (no_slice l)
| con_EnvsNew l : container_call (ContainerBuilder.WithEnvsNew l) (no_slice l)
| con_Envs l : container_call (ContainerBuilder.WithEnvs l) (no_slice l)
| con_Liveness x : container_call (ContainerBuilder.WithLivenessProbe x) (nil x)
| con_LifeCycle x : container_call (ContainerBuilder.WithLifeCycle x) (nil x).

Inductive pt_call : (PodTemplateBuilder.Builder -> PodTemplateBuilder.Builder) -> bool -> Prop :=
| pt_Name s : pt_call (PodTemplateBuilder.WithName s) (no_text s)
| pt_Namespace s : pt_call (PodTemplateBuilder.WithNamespace s) (no_text s)
| pt_Annotations m : pt_call (PodTemplateBuilder.WithAnnotations m) (no_entries m)
| pt_AnnotationsNew m : pt_call (PodTemplateBuilder.WithAnnotationsNew m) (no_entries m)
| pt_Labels m : pt_call (PodTemplateBuilder.WithLabels m) (no_entries m)
| pt_LabelsNew m : pt_call (PodTemplateBuilder.WithLabelsNew m) (no_entries m)
| pt_Security x : pt_call (PodTemplateBuilder.WithSecurityContext x) false
| pt_Nodes m : pt_call (PodTemplateBuilder.WithNodeSelector m) (no_entries m)
| pt_NodesNew m : pt_call (PodTemplateBuilder.WithNodeSelectorNew m) (no_entries m)
| pt_NodesByValue m : pt_call (PodTemplateBuilder.WithNodeSelectorByValue m) false
| pt_Priority s : pt_call (PodTemplateBuilder.WithPriorityClassName s) false
| pt_Account s : pt_call (PodTemplateBuilder.WithServiceAccountName s) (no_text s)
| pt_PullSecret s : pt_call (PodTemplateBuilder.WithImagePullSecret s) false
| pt_Affinity a : pt_call (PodTemplateBuilder.WithAffinity a) (nil a)
| pt_Match l : pt_call (PodTemplateBuilder.WithNodeAffinityMatchExpressions l) false
| pt_TolerationsByValue l : pt_call (PodTemplateBuilder.WithTolerationsByValue l) false
| pt_Tolerations l : pt_call (PodTemplateBuilder.WithTolerations l) (no_slice l)
| pt_TolerationsNew l : pt_call (PodTemplateBuilder.WithTolerationsNew l) (no_slice l)
| pt_Containers l : pt_call (PodTemplateBuilder.WithContainerBuilders l) (containers_refused l)
| pt_ContainersNew l :
    pt_call (PodTemplateBuilder.WithContainerBuildersNew l) (no_slice l || containers_refused l)
| pt_Volumes l : pt_call (PodTemplateBuilder.WithVolumeBuilders l) (volumes_refused l)
| pt_VolumesNew l :
    pt_call (PodTemplateBuilder.WithVolumeBuildersNew l) (no_slice l || volumes_refused l).

(** [WithSelectorMatchLabels] can panic on other builders, never on those of a
    chain (WithSelectorMatchLabels_safe). *)
Inductive deployment_call : (DeploymentBuilder.Builder -> DeploymentBuilder.Builder) -> bool -> Prop :=
| dep_Name s : deployment_call (DeploymentBuilder.WithName s) (no_text s)
| dep_Namespace s : deployment_call (DeploymentBuilder.WithNamespace s) (no_text s)
| dep_Annotations m : deployment_call (DeploymentBuilder.WithAnnotations m) (no_entries m)
| dep_AnnotationsNew m : deployment_call (DeploymentBuilder.WithAnnotationsNew m) (no_entries m)
| dep_Nodes m : deployment_call (DeploymentBuilder.WithNodeSelector m) (no_entries m)
| dep_NodesNew m : deployment_call (DeploymentBuilder.WithNodeSelectorNew m) (no_entries m)
| dep_Owners l : deployment_call (DeploymentBuilder.WithOwnerReferenceNew l) (no_items l)
| dep_Labels m : deployment_call (DeploymentBuilder.WithLabels m) (no_entries m)
| dep_LabelsNew m : deployment_call (DeploymentBuilder.WithLabelsNew m) (no_entries m)
| dep_MatchLabelsNew m : deployment_call (DeploymentBuilder.WithSelectorMatchLabelsNew m) (no_entries m)
| dep_MatchLabels m :
    deployment_call (fun b => default b (DeploymentBuilder.WithSelectorMatchLabels m b)) (no_entries m)
| dep_Replicas r :
    deployment_call (DeploymentBuilder.WithReplicas r)
      (match r with None => true | Some n => bool_decide (n < 0)%Z end)
| dep_Strategy s : deployment_call (DeploymentBuilder.WithStrategyType s) (no_text s)
| dep_Recreate : deployment_call DeploymentBuilder.WithStrategyTypeRecreate false
| dep_Template t :
    deployment_call (DeploymentBuilder.WithPodTemplateSpecBuilder t)
      (match t with None => true | Some tb => not_built (PodTemplateBuilder.Build tb) end)
| dep_Check p : deployment_call (DeploymentBuilder.AddCheck p) false
| dep_Checks ps : deployment_call (DeploymentBuilder.AddChecks ps) false.

(** ** One call *)

Lemma no_text_eq s : bool_decide (String.length s = 0) = no_text s.
Proof. apply bool_decide_ext. by destruct s. Qed.
Lemma no_items_eq {V} (l : list V) (d : Decision (l = [])) : bool_decide (length l = 0) = no_items l.
Proof. apply bool_decide_ext. by destruct l. Qed.
Lemma no_entries_eq {V} (m : gomap V) (d : Decision (gomap_get m = ∅)) : bool_decide (gomap_len m = 0) = no_entries m.
Proof. apply bool_decide_ext. unfold gomap_len. apply map_size_empty_iff. Qed.

(** A guard, a nil test, or an update. *)
Ltac record_call :=
  first
    [ apply records_upd
    | apply records_checked; first [apply no_text_eq | apply no_items_eq | apply no_entries_eq]
    | intros ?; cbv zeta beta;
      rewrite <- ?no_text_eq; rewrite <- ?no_items_eq; rewrite <- ?no_entries_eq;
      repeat (case_match || case_decide || case_bool_decide); cbn in *; simplify_eq;
      rewrite ?app_nil; naive_solver lia ].

Lemma pvc_call_records m bad : pvc_call m bad -> records m bad.
Proof.
  destruct 1; unfold PVCBuilder.WithStorageClass, PVCBuilder.WithCapacity; record_call.
Qed.

Lemma pv_call_records m bad : pv_call m bad -> records m bad.
Proof.
  destruct 1; unfold PVBuilder.WithCapacity, PVBuilder.WithPersistentVolumeSource,
    PVBuilder.WithNFS, PVBuilder.WithMountOptions; record_call.
Qed.

Lemma service_call_records m bad : service_call m bad -> records m bad.
Proof.
  destruct 1; unfold ServiceBuilder.WithAnnotations, ServiceBuilder.WithAnnotationsNew,
    ServiceBuilder.WithLabels, ServiceBuilder.WithLabelsNew, ServiceBuilder.WithSelectors,
    ServiceBuilder.WithSelectorsNew, checked; record_call.
Qed.

Lemma volume_call_records m bad : volume_call m bad -> records m bad.
Proof.
  destruct 1; unfold VolumeBuilder.WithSecret, VolumeBuilder.WithConfigMap,
    VolumeBuilder.WithHostPathAndType, VolumeBuilder.WithEmptyDir; record_call.
Qed.

(** *** Containers, without checks *)

Lemma checked_slice_records {V} what (x : gslice V) f b :
  b_errs (ContainerBuilder.core (ContainerBuilder.checked_slice what x f b)) = [] <->
  b_errs (ContainerBuilder.core b) = [] /\ no_slice x = false.
Proof.
  unfold ContainerBuilder.checked_slice, ContainerBuilder.lift. cbn.
  destruct x as [l|]; cbn; [case_decide; destruct l|]; cbn in *; simplify_eq;
    rewrite ?app_nil; naive_solver.
Qed.

Lemma container_lift_records m bad b :
  records m bad ->
  b_errs (ContainerBuilder.core (ContainerBuilder.lift m b)) = [] <->
  b_errs (ContainerBuilder.core b) = [] /\ bad = false.
Proof. intros Hm. apply Hm. Qed.

Lemma container_call_records m bad b :
  container_call m bad ->
  b_errs (ContainerBuilder.core (m b)) = [] <-> b_errs (ContainerBuilder.core b) = [] /\ bad = false.
Proof.
  destruct 1; try (by apply checked_slice_records); try solve [apply container_lift_records; record_call].
  unfold ContainerBuilder.WithEnvs. destruct l as [l|]; [|apply container_lift_records, records_fail].
  case_decide as Hl; [destruct l; [|done]; apply container_lift_records, records_fail|].
  case_match; [|apply checked_slice_records]. destruct l; [done|].
  apply container_lift_records, records_upd.
Qed.

Lemma container_call_checks m bad b :
  container_call m bad -> ContainerBuilder.checks b = [] -> ContainerBuilder.checks (m b) = [].
Proof.
  destruct 1; try done. unfold ContainerBuilder.WithEnvs. repeat (case_match || case_decide); done.
Qed.

(** *** Pod templates *)

#[local] Arguments ContainerBuilder.Build : simpl never.
#[local] Arguments VolumeBuilder.Build : simpl never.
#[local] Arguments PodTemplateBuilder.Build : simpl never.

Lemma append_containers_records l : records (PodTemplateBuilder.append_containers l) (containers_refused (Some l)).
Proof.
  induction l as [|cb l IH]; intros b; cbn; [tauto|].
  destruct (ContainerBuilder.Build cb).2; cbn; [apply (IH (upd _ b))|].
  rewrite app_nil. naive_solver.
Qed.

Lemma append_volumes_records l : records (PodTemplateBuilder.append_volumes l) (volumes_refused (Some l)).
Proof.
  induction l as [|vb l IH]; intros b; cbn; [tauto|].
  destruct (VolumeBuilder.Build vb); cbn; [apply (IH (upd _ b))|].
  rewrite app_nil. naive_solver.
Qed.

Lemma build_containers_refused l :
  is_ok (PodTemplateBuilder.build_containers l) = negb (containers_refused (Some l)).
Proof.
  induction l as [|cb l IH]; cbn; [done|]. destruct (ContainerBuilder.Build cb).2; cbn; [|done].
  cbn in IH. rewrite <- IH. by destruct (PodTemplateBuilder.build_containers l).
Qed.

Lemma build_volumes_refused l :
  is_ok (PodTemplateBuilder.build_volumes l) = negb (volumes_refused (Some l)).
Proof.
  induction l as [|vb l IH]; cbn; [done|]. destruct (VolumeBuilder.Build vb); cbn; [|done].
  cbn in IH. rewrite <- IH. by destruct (PodTemplateBuilder.build_volumes l).
Qed.

Lemma pt_call_records m bad : pt_call m bad -> records m bad.
Proof.
  destruct 1; try (unfold PodTemplateBuilder.WithAnnotations, PodTemplateBuilder.WithAnnotationsNew,
    PodTemplateBuilder.WithLabels, PodTemplateBuilder.WithLabelsNew,
    PodTemplateBuilder.WithSecurityContext, PodTemplateBuilder.WithNodeSelector,
    PodTemplateBuilder.WithNodeSelectorNew, PodTemplateBuilder.WithImagePullSecret,
    PodTemplateBuilder.WithAffinity, PodTemplateBuilder.WithNodeAffinityMatchExpressions,
    PodTemplateBuilder.WithTolerations, PodTemplateBuilder.WithTolerationsNew, checked;
    solve [record_call]).
  - destruct l; [apply append_containers_records|apply records_fail].
  - destruct l as [[|cb l]|]; [apply records_fail| |apply records_fail]. cbn -[containers_refused].
    generalize (build_containers_refused (cb :: l)) as Hr. intros Hr b. unfold PodTemplateBuilder.WithContainerBuildersNew.
    rewrite decide_False by done. destruct (PodTemplateBuilder.build_containers (cb :: l));
      apply (f_equal negb) in Hr; rewrite negb_involutive in Hr; rewrite <- Hr;
      [apply records_upd|apply records_fail].
  - destruct l; [apply append_volumes_records|apply records_fail].
  - destruct l as [[|vb l]|]; [apply records_fail| |apply records_fail]. cbn -[volumes_refused].
    generalize (build_volumes_refused (vb :: l)) as Hr. intros Hr b. unfold PodTemplateBuilder.WithVolumeBuildersNew.
    rewrite decide_False by done. destruct (PodTemplateBuilder.build_volumes (vb :: l));
      apply (f_equal negb) in Hr; rewrite negb_involutive in Hr; rewrite <- Hr;
      [apply records_upd|apply records_fail].
Qed.

(** *** Deployments *)

Lemma deployment_lift_records m bad b :
  records m bad ->
  b_errs (DeploymentBuilder.core (DeploymentBuilder.lift m b)) = [] <->
  b_errs (DeploymentBuilder.core b) = [] /\ bad = false.
Proof. intros Hm. apply Hm. Qed.

(** A method of maps: refused when empty, else one of two updates. *)
Ltac record_map_call :=
  let Hlen := fresh in
  rewrite <- no_entries_eq;
  case_decide as Hlen;
    [rewrite bool_decide_eq_true_2 by exact Hlen; apply deployment_lift_records, records_fail|];
  case_match; apply deployment_lift_records;
  try (apply records_checked, no_entries_eq);
  rewrite bool_decide_eq_false_2 by exact Hlen; apply records_upd.

Lemma deployment_call_records m bad b :
  deployment_call m bad ->
  b_errs (DeploymentBuilder.core (m b)) = [] <-> b_errs (DeploymentBuilder.core b) = [] /\ bad = false.
Proof.
  destruct 1; try solve [apply deployment_lift_records; record_call].
  - unfold DeploymentBuilder.WithAnnotations. record_map_call.
  - unfold DeploymentBuilder.WithNodeSelector. record_map_call.
  - unfold DeploymentBuilder.WithLabels. record_map_call.
  - unfold DeploymentBuilder.WithSelectorMatchLabels. rewrite <- no_entries_eq.
    case_decide as Hl; [rewrite bool_decide_eq_true_2 by exact Hl; apply deployment_lift_records, records_fail|].
    case_match; [case_match|apply deployment_lift_records, records_checked; reflexivity];
      rewrite bool_decide_eq_false_2 by exact Hl; cbn; tauto.
  - unfold DeploymentBuilder.WithReplicas. destruct r as [n|]; [|apply deployment_lift_records, records_fail].
    case_decide as Hn; [rewrite bool_decide_eq_true_2 by exact Hn|rewrite bool_decide_eq_false_2 by exact Hn];
      apply deployment_lift_records; [apply records_fail|apply records_upd].
  - unfold DeploymentBuilder.WithPodTemplateSpecBuilder. destruct t as [tb|]; [|apply deployment_lift_records, records_fail].
    destruct (PodTemplateBuilder.Build tb); apply deployment_lift_records; [apply records_upd|apply records_fail].
  - cbn. tauto.
  - rewrite DeploymentBuilder.AddChecks_core. tauto.
Qed.

(** ** A chain of calls *)

(** [Build] at the end of a chain of calls returns the object of the chain when
    no call was refused, and an error when one was. *)
Definition builds {B R} (call : (B -> B) -> bool -> Prop) (NewBuilder : B) (Build : B -> result R)
    (object : B -> R) : Prop :=
  forall ms bads, Forall2 call ms bads ->
    let b := fold_left (fun b m => m b) ms NewBuilder in
    if existsb id bads then is_ok (Build b) = false else Build b = Ok (object b).

Lemma chain_builds {B R} call (NewBuilder : B) (Build : B -> result R) object
    (errs : B -> list goerr) (inv : B -> Prop) :
  inv NewBuilder -> errs NewBuilder = [] ->
  (forall m bad b, call m bad -> inv b ->
     inv (m b) /\ (errs (m b) = [] <-> errs b = [] /\ bad = false)) ->
  (forall b, inv b -> match errs b with [] => Build b = Ok (object b) | _ => is_ok (Build b) = false end) ->
  builds call NewBuilder Build object.
Proof.
  intros Hi0 He0 Hcall Hbuild ms bads Hms. cbv zeta.
  enough (forall b, inv b -> inv (fold_left (fun b m => m b) ms b) /\
    (errs (fold_left (fun b m => m b) ms b) = [] <-> errs b = [] /\ existsb id bads = false)) as Hall.
  { destruct (Hall _ Hi0) as [Hi He]. apply Hbuild in Hi. rewrite He0 in He.
    destruct (errs (fold_left _ _ _)) as [|e es].
    - by rewrite (proj2 (proj1 He eq_refl)).
    - destruct (existsb id bads); [done|]. discriminate (proj2 He (conj eq_refl eq_refl)). }
  induction Hms as [|m bad ms bads Hm Hms IH]; intros b Hb; cbn [fold_left existsb]; [cbn; tauto|].
  destruct (Hcall m bad b Hm Hb) as [Hb' He']. destruct (IH _ Hb') as [Hi He]. split; [done|].
  rewrite He, He'. destruct bad; cbn; clear; [|tauto]. split; [by intros [[_ ?] _]|by intros [_ ?]].
Qed.

Lemma builder_builds {A} call (new : A) report :
  (forall m bad, call m bad -> records m bad) ->
  builds call (mkBuilder new []) (build report) b_obj.
Proof.
  intros Hcall. apply (chain_builds _ _ _ _ b_errs (fun _ => True)); [done|done| |].
  - intros m bad b Hm _. split; [done|by apply Hcall].
  - intros b _. unfold build. by destruct (b_errs b).
Qed.

(** C27: a chain of calls on a new builder ends in an object exactly when each
    call had arguments its method accepts; one call with a missing name, an
    empty map, a capacity that does not parse, a part that does not build, ...
    makes [Build] fail at the end, whatever is called before and after it. (For
    containers: chains without checks.) *)
Theorem builder_errors :
  builds pvc_call PVCBuilder.NewBuilder PVCBuilder.Build b_obj /\
  builds pv_call PVBuilder.NewBuilder PVBuilder.Build b_obj /\
  builds service_call ServiceBuilder.NewBuilder ServiceBuilder.Build b_obj /\
  builds volume_call VolumeBuilder.NewBuilder VolumeBuilder.Build b_obj /\
  builds container_call ContainerBuilder.NewBuilder (fun b => (ContainerBuilder.Build b).2) ContainerBuilder.con /\
  builds pt_call PodTemplateBuilder.NewBuilder PodTemplateBuilder.Build b_obj /\
  builds deployment_call DeploymentBuilder.NewBuilder DeploymentBuilder.Build DeploymentBuilder.deployment.
Proof.
  split; [apply builder_builds, pvc_call_records|]. split; [apply builder_builds, pv_call_records|].
  split; [apply builder_builds, service_call_records|]. split; [apply builder_builds, volume_call_records|].
  split; [|split].
  - apply (chain_builds _ _ _ _ ContainerBuilder.errors (fun b => ContainerBuilder.checks b = [])); [done|done| |].
    + intros m bad b Hm Hb. split; [by eapply container_call_checks|by apply container_call_records].
    + intros b Hb. destruct (ContainerBuilder.errors b) eqn:He.
      * by rewrite (ContainerBuilder.Build_no_checks b Hb He).
      * unfold ContainerBuilder.Build, ContainerBuilder.validate. cbn. by rewrite He.
  - apply (chain_builds _ _ _ _ b_errs (fun _ => True)); [done|done| |].
    + intros m bad b Hm _. split; [done|by apply pt_call_records].
    + intros b _. unfold PodTemplateBuilder.Build, PodTemplateBuilder.validate. by destruct (b_errs b).
  - apply (chain_builds _ _ _ _ (fun b => b_errs (DeploymentBuilder.core b)) (fun _ => True)); [done|done| |].
    + intros m bad b Hm _. split; [done|by apply deployment_call_records].
    + intros b _. unfold DeploymentBuilder.Build, DeploymentBuilder.validate.
      by destruct (b_errs (DeploymentBuilder.core b)).
Qed.
End BuilderErrors.

(** ** Witness: an empty map of labels between calls that are fine *)
Lemma builder_errors_witness :
  is_ok (PVCBuilder.Build (C := Concrete.core)
    (PVCBuilder.WithNamespace "nfs" (PVCBuilder.WithLabels None
      (PVCBuilder.WithName "claim" PVCBuilder.NewBuilder)))) = false /\
  is_ok (PVCBuilder.Build (C := Concrete.core)
    (PVCBuilder.WithNamespace "nfs" (PVCBuilder.WithName "claim" PVCBuilder.NewBuilder))) = true.
Proof.
  destruct (builder_errors (C := Concrete.core)) as [Hpvc _]. split.
  - apply (Hpvc [PVCBuilder.WithName "claim"; PVCBuilder.WithLabels None; PVCBuilder.WithNamespace "nfs"]
      [false; true; false]).
    apply Forall2_cons; split; [apply (pvc_Name "claim")|].
    apply Forall2_cons; split; [apply (pvc_Labels None)|].
    apply Forall2_cons; split; [apply (pvc_Namespace "nfs")|constructor].
  - assert (Forall2 pvc_call [PVCBuilder.WithName (C := Concrete.core) "claim"; PVCBuilder.WithNamespace "nfs"]
      [false; false]) as Hms; [|exact (f_equal is_ok (Hpvc _ _ Hms))].
    apply Forall2_cons; split; [apply (pvc_Name "claim")|].
    apply Forall2_cons; split; [apply (pvc_Namespace "nfs")|constructor].
Defined.
