(* ===== verification/BuilderFacts.v ===== *)
(** * The builders of pkg/kubernetes/api: nothing panics, what is set is what is
    read, lists are filtered by every predicate *)

From S2P Require Import Prelude GoStrings K8sTypes BuilderCore.
From S2P Require PVCBuilder PVBuilder ServiceBuilder VolumeBuilder ContainerBuilder PodTemplateBuilder DeploymentBuilder.
From S2P Require Concrete.

Section BuilderFacts.
Context {C : CoreTypes}.

(** C30: [WithSelectorMatchLabels] writes to the map of an existing selector,
    which would panic on a selector without a map; no chain of the package's
    methods builds such a selector. *)
Theorem WithSelectorMatchLabels_safe ml b :
  DeploymentBuilder.reachable b -> is_Some (DeploymentBuilder.WithSelectorMatchLabels ml b).
Proof.
  intros Hr%DeploymentBuilder.reachable_selector_ok. unfold DeploymentBuilder.selector_ok in Hr.
  unfold DeploymentBuilder.WithSelectorMatchLabels. case_decide; [by eexists|].
  destruct (d_Selector (d_spec (DeploymentBuilder.deployment b))) as [[cur|]|];
    [by eexists|by destruct Hr|by eexists].
Qed.

(** ** Rollout status *)

Import DeploymentBuilder.

(** The deployment is rolled out when none of the five conditions holds. *)
Definition rolled_out (d : Deployment) : bool :=
  negb (IsProgressDeadlineExceeded d) && negb (IsOlderReplicaActive d) &&
  negb (IsTerminationInProgress d) && negb (IsUpdateInProgress d) && negb (IsNotSyncSpec d).

Lemma IsRollout_perm order d :
  Permutation order rolloutChecks -> IsRollout order d = None <-> rolled_out d = true.
Proof.
  intros Hp. rewrite IsRollout_None, Hp. unfold rolloutChecks, rolled_out.
  rewrite !Forall_cons, !andb_true_iff, !negb_true_iff. cbn [snd].
  split; [naive_solver|]. intros [[[[? ?] ?] ?] ?]. repeat split; done.
Qed.

(** C29: Go ranges over the rollout checks in an unspecified order. In every
    order the status is "rolled out" exactly when none of the five conditions
    holds; otherwise the message is that of a condition that does hold; and the
    JSON form is that of this status, never a missing output. *)
Theorem RolloutStatus_order order d json_Marshal :
  Permutation order rolloutChecks ->
  (IsRolledout (RolloutStatus order d) = rolled_out d) /\
  (rolled_out d = true -> RolloutStatus order d = SuccessRollout) /\
  (rolled_out d = false -> exists pk p, (pk, p) ∈ rolloutChecks /\ p d = true /\
     RolloutStatus order d = FailedRollout d pk) /\
  RolloutStatusRaw json_Marshal order d = Some (json_Marshal (RolloutStatus order d)).
Proof.
  intros Hp. pose proof (IsRollout_perm order d Hp) as Hi. unfold RolloutStatus.
  destruct (IsRollout order d) as [pk|] eqn:Hr.
  - assert (Hf : rolled_out d = false) by (apply not_true_is_false; intros Ht; by apply Hi in Ht).
    rewrite Hf. split; [done|]. split; [done|]. split.
    + intros _. apply IsRollout_Some in Hr as (p & Hin & Ht). exists pk, p. by rewrite <- Hp.
    + unfold RolloutStatusRaw, RolloutStatus. by rewrite Hr.
  - assert (Ht : rolled_out d = true) by by apply Hi.
    rewrite Ht. split; [done|]. split; [done|]. split; [done|].
    unfold RolloutStatusRaw, RolloutStatus. by rewrite Hr.
Qed.

(** ** The node of a local volume *)

Lemma pv_method_affinity m :
  PVBuilder.pv_method m ->
  (exists n, m = PVBuilder.WithNodeAffinity n) \/
  forall b, pv_NodeAffinity (pv_spec (b_obj (m b))) = pv_NodeAffinity (pv_spec (b_obj b)).
Proof.
  destruct 1; try (by left; eexists); right; intros b;
    unfold PVBuilder.WithName, PVBuilder.WithAnnotations, PVBuilder.WithLabels,
      PVBuilder.WithReclaimPolicy, PVBuilder.WithVolumeMode, PVBuilder.WithAccessModes,
      PVBuilder.WithCapacity, PVBuilder.WithCapacityQty, PVBuilder.WithLocalHostDirectory,
      PVBuilder.WithLocalHostPathFormat, PVBuilder.WithPersistentVolumeSource, PVBuilder.WithNFS,
      PVBuilder.WithMountOptions, checked;
    repeat (case_match || case_decide); done.
Qed.

(** C31: the node given to [WithNodeAffinity] is the one
    [GetAffinitedNodeHostname] reads from the built volume, whatever other
    methods are called before and after. *)
Theorem node_affinity_roundtrip node ms b o :
  Forall (fun m => PVBuilder.pv_method m /\ forall n, m <> PVBuilder.WithNodeAffinity n) ms ->
  PVBuilder.Build (chain ms (PVBuilder.WithNodeAffinity node b)) = Ok o ->
  node <> EmptyString /\ PVBuilder.GetAffinitedNodeHostname o = node.
Proof.
  intros Hms [He Ho]%build_Ok.
  assert (Hm : Forall Monotone ms).
  { eapply Forall_impl; [exact Hms|]. intros m [Hm _]. by apply Method_Monotone, PVBuilder.pv_method_Method. }
  pose proof (chain_errs ms (PVBuilder.WithNodeAffinity node b) Hm) as Hp.
  rewrite He in Hp. apply prefix_nil_inv in Hp.
  assert (Hn : node <> EmptyString).
  { intros ->. unfold PVBuilder.WithNodeAffinity, checked in Hp. simpl in Hp.
    by apply app_nil in Hp as [_ ?]. }
  split; [done|].
  assert (Ha : pv_NodeAffinity (pv_spec o) =
    pv_NodeAffinity (pv_spec (b_obj (PVBuilder.WithNodeAffinity node b)))).
  { subst o. clear He Hp Hm. generalize (PVBuilder.WithNodeAffinity node b) as b1.
    induction Hms as [|m ms [Hm Hne] Hms IH]; intros b1; [done|]. unfold chain. cbn [fold_left].
    etrans; [apply IH|]. destruct (pv_method_affinity m Hm) as [[n ->]|Hf]; [by destruct (Hne n)|apply Hf]. }
  unfold PVBuilder.GetAffinitedNodeHostname. rewrite Ha.
  unfold PVBuilder.WithNodeAffinity, checked.
  rewrite bool_decide_eq_false_2 by (by destruct node). cbn.
  rewrite decide_True by done. by case_decide.
Qed.

(** ** Lists *)

(** The objects that all predicates hold of. *)
Definition selected {V} (fs : list (V -> option bool)) (l : list V) : list V :=
  base.filter (fun p => Forall (fun pred => pred p = Some true) fs) l.

Lemma selected_nil {V} (l : list V) : selected [] l = l.
Proof.
  induction l as [|p l IH]; [done|]. unfold selected in *. rewrite filter_cons_True by constructor. by f_equal.
Qed.

Lemma pvc_all_Some fs p :
  (forall pred, pred ∈ fs -> is_Some (pred p)) ->
  PVCBuilder.all fs p = Some (bool_decide (Forall (fun pred => pred p = Some true) fs)).
Proof.
  induction fs as [|pred fs IH]; intros Hs; cbn [PVCBuilder.all]; [done|].
  destruct (Hs pred) as [v Hv]; [set_solver|]. rewrite Hv.
  destruct v; [rewrite IH by set_solver|]; f_equal;
    [apply bool_decide_ext|symmetry; apply bool_decide_eq_false_2]; rewrite Forall_cons, Hv; naive_solver.
Qed.

Lemma WithFilter_filters fss b :
  fold_left (fun b fs => PVCBuilder.WithFilter fs b) fss b =
  PVCBuilder.mkListBuilder (PVCBuilder.lb_template b) (PVCBuilder.lb_count b) (PVCBuilder.lb_list b)
    (PVCBuilder.lb_filters b ++ concat fss) (PVCBuilder.lb_errs b).
Proof.
  revert b. induction fss as [|fs fss IH]; intros b; cbn [fold_left concat].
  - rewrite app_nil_r. by destruct b.
  - rewrite IH. cbn. by rewrite <- app_assoc.
Qed.

(** C32: the list of claims built from API objects keeps, in order, exactly the
    claims of which every predicate given to the calls of [WithFilter] holds, and
    asking for it again gives the same. *)
Theorem pvc_List_filters items fss :
  (forall pred p, pred ∈ concat fss -> p ∈ map Some items -> is_Some (pred p)) ->
  exists b',
    PVCBuilder.List (fold_left (fun b fs => PVCBuilder.WithFilter fs b) fss
        (PVCBuilder.ListBuilderForAPIObjects (Some items))) =
      Some (b', Ok (selected (concat fss) (map Some items))) /\
    PVCBuilder.List b' = Some (b', Ok (selected (concat fss) (map Some items))).
Proof.
  rewrite WithFilter_filters. cbn [PVCBuilder.ListBuilderForAPIObjects PVCBuilder.lb_template
    PVCBuilder.lb_count PVCBuilder.lb_list PVCBuilder.lb_filters PVCBuilder.lb_errs app].
  generalize (concat fss) as fs. intros fs Hf. set (b := PVCBuilder.mkListBuilder _ _ _ _ _).
  assert (Hl : exists b', PVCBuilder.List b = Some (b', Ok (selected fs (map Some items)))).
  { eexists. unfold PVCBuilder.List, b. cbn.
    case_decide as Hn; [simpl in Hn; lia|]. clear Hn. case_decide as Hn.
    - destruct fs; [|done]. by rewrite selected_nil.
    - rewrite (PVCBuilder.filter_all_filter fs (map Some items)
        (fun p => bool_decide (Forall (fun pred => pred p = Some true) fs))); cbn.
      + do 3 f_equal. apply list_filter_iff. intros p. by rewrite bool_decide_spec.
      + intros p Hp. apply pvc_all_Some. intros pred Hpred. by apply Hf. }
  destruct Hl as [b' Hl]. exists b'. split; [done|]. by eapply PVCBuilder.List_idempotent.
Qed.
End BuilderFacts.

(** ** Witnesses *)

Lemma WithSelectorMatchLabels_safe_witness :
  is_Some (DeploymentBuilder.WithSelectorMatchLabels (C := Concrete.core) (Some {["app" := "nfs"]})
    (DeploymentBuilder.WithName "server" DeploymentBuilder.NewBuilder)).
Proof.
  apply WithSelectorMatchLabels_safe. apply DeploymentBuilder.reach_step;
    [apply DeploymentBuilder.reach_new|apply DeploymentBuilder.m_WithName].
Defined.

Lemma RolloutStatus_order_witness :
  DeploymentBuilder.RolloutStatus (C := Concrete.core) (rev DeploymentBuilder.rolloutChecks)
    emptyDeployment = DeploymentBuilder.SuccessRollout.
Proof.
  apply (RolloutStatus_order (rev DeploymentBuilder.rolloutChecks) emptyDeployment (fun _ => Ok EmptyString));
    [symmetry; apply Permutation_rev|reflexivity].
Defined.

Lemma node_affinity_roundtrip_witness :
  exists o, PVBuilder.Build (chain [PVBuilder.WithName "local-pv"]
      (PVBuilder.WithNodeAffinity "node-1" (PVBuilder.NewBuilder (C := Concrete.core)))) = Ok o /\
    PVBuilder.GetAffinitedNodeHostname o = "node-1".
Proof.
  eexists. split; [reflexivity|].
  refine (proj2 (node_affinity_roundtrip "node-1" [PVBuilder.WithName "local-pv"]
    PVBuilder.NewBuilder _ _ eq_refl)).
  constructor; [|constructor]. split; [apply PVBuilder.m_WithName|]. intros n Hn.
  apply (f_equal (fun m => Name (pv_meta (b_obj (m PVBuilder.NewBuilder))))) in Hn.
  unfold PVBuilder.WithNodeAffinity, checked in Hn.
  destruct (bool_decide (String.length n = 0)); discriminate Hn.
Defined.

Lemma pvc_List_filters_witness :
  let claim name phase := mkPVC Concrete.core (set_Name name emptyMeta) (pvc_spec emptyPVC) phase in
  let a := claim "nfs-pvc-1" ClaimBound in
  let b := claim "nfs-pvc-2" "Pending" in
  let c := claim "data" ClaimBound in
  exists b', PVCBuilder.List (PVCBuilder.WithFilter [PVCBuilder.IsBound]
      (PVCBuilder.WithFilter [PVCBuilder.ContainsName "nfs"]
        (PVCBuilder.ListBuilderForAPIObjects (Some [a; b; c])))) =
    Some (b', Ok [Some a]).
Proof.
  intros claim a b c.
  destruct (pvc_List_filters (C := Concrete.core) [a; b; c]
    [[PVCBuilder.ContainsName "nfs"]; [PVCBuilder.IsBound]]) as (b' & Hb & _); [|exists b'; exact Hb].
  intros pred p Hpred Hp.
  repeat (apply elem_of_cons in Hpred as [->|Hpred] || apply elem_of_nil in Hpred as []);
  simpl in Hp; repeat (apply elem_of_cons in Hp as [->|Hp] || apply elem_of_nil in Hp as []);
  eexists; reflexivity.
Defined.
