(* ===== verification/Hook.v ===== *)
(** * pkg/hook: hook configuration and its actions

    [types.go], [vars.go], [parser.go], [action.go], [helper.go] and the four
    [*_action.go] files.  The functions that patch objects through the API
    server ([execute.go]) are in HookExecute. *)

From S2P Require Import Prelude GoStrings K8sTypes.
From S2P Require MetaHelper PVCBuilder PVBuilder ServiceBuilder DeploymentBuilder.

Definition HookVersion : string := "1.0.0".

Definition ResourceBackendPVC : Z := 0.
Definition ResourceBackendPV : Z := 1.
Definition ResourceNFSService : Z := 2.
Definition ResourceNFSPV : Z := 3.
Definition ResourceNFSServerDeployment : Z := 4.

Abbreviation ActionType := string.
Abbreviation ActionOp := string.
Abbreviation EventType := string.

Definition ActionAddOnCreateVolumeEvent : ActionType := "addOrUpdateEntriesOnCreateVolumeEvent".
Definition ActionRemoveOnCreateVolumeEvent : ActionType := "removeEntriesOnCreateVolumeEvent".
Definition ActionAddOnDeleteVolumeEvent : ActionType := "addOrUpdateEntriesOnDeleteVolumeEvent".
Definition ActionRemoveOnDeleteVolumeEvent : ActionType := "removeEntriesOnDeleteVolumeEvent".
Definition ActionOpAddOrUpdate : ActionOp := "addOrUpdateEntries".
Definition ActionOpRemove : ActionOp := "removeEntries".
Definition EventTypeCreateVolume : EventType := "CreateVolume".
Definition EventTypeDeleteVolume : EventType := "DeleteVolume".

(** [ActionForEventMap]: [evType] and [actOp] of every action. *)
Definition ActionForEventMap : gmap string (EventType * ActionOp) :=
  list_to_map
    [(ActionAddOnCreateVolumeEvent, (EventTypeCreateVolume, ActionOpAddOrUpdate));
     (ActionRemoveOnCreateVolumeEvent, (EventTypeCreateVolume, ActionOpRemove));
     (ActionAddOnDeleteVolumeEvent, (EventTypeDeleteVolume, ActionOpAddOrUpdate));
     (ActionRemoveOnDeleteVolumeEvent, (EventTypeDeleteVolume, ActionOpRemove))].

(** [PVHook], [PVCHook], [ServiceHook] and [DeploymentHook] have the same two
    fields. *)
Record ResourceHook := mkResourceHook {
  h_Annotations : gomap string;
  h_Finalizers : list string;
}.
Definition PVHook := ResourceHook.
Definition PVCHook := ResourceHook.
Definition ServiceHook := ResourceHook.
Definition DeploymentHook := ResourceHook.

Record HookConfig := mkHookConfig {
  hc_Name : string;
  NFSPVConfig : option PVHook;
  BackendPVConfig : option PVHook;
  BackendPVCConfig : option PVCHook;
  NFSServiceConfig : option ServiceHook;
  NFSDeploymentConfig : option DeploymentHook;
}.

Record Hook := mkHook {
  Config : gomap HookConfig;
  Version : string;
  availableActions : gomap (gset Z);
}.

(** ** parser.go *)

Definition mark (evType : EventType) (resource : Z) (present : bool)
    (avail : gmap string (gset Z)) : gmap string (gset Z) :=
  if present then alter (fun s => {[resource]} ∪ s) evType avail else avail.

Definition not_nil {A} (x : option A) : bool := match x with Some _ => true | None => false end.

(** The body of the range loop. *)
Definition mark_config (kv : ActionType * HookConfig) (avail : gmap string (gset Z))
  : gmap string (gset Z) :=
  match ActionForEventMap !! kv.1 with
  | None => avail
  | Some (evType, _) =>
      let cfg := kv.2 in
      let avail := mark evType ResourceBackendPVC (not_nil (BackendPVCConfig cfg)) avail in
      let avail := mark evType ResourceBackendPV (not_nil (BackendPVConfig cfg)) avail in
      let avail := mark evType ResourceNFSService (not_nil (NFSServiceConfig cfg)) avail in
      let avail := mark evType ResourceNFSPV (not_nil (NFSPVConfig cfg)) avail in
      mark evType ResourceNFSServerDeployment (not_nil (NFSDeploymentConfig cfg)) avail
  end.

Definition updateAvailableActions (h : Hook) : Hook :=
  let init := <[EventTypeDeleteVolume := ∅]> {[EventTypeCreateVolume := ∅]} in
  mkHook (Config h) (Version h)
    (Some (foldr mark_config init (map_to_list (gomap_get (Config h))))).

(** [yaml.Unmarshal] into a [Hook] sets the exported fields. *)
Definition ParseHooks (yaml_Unmarshal : string -> result (gomap HookConfig * string))
    (hookData : string) : result Hook :=
  match yaml_Unmarshal hookData with
  | Err err => Err (ErrWrap err "error Unmarshalling hookData")
  | Ok (config, version) =>
      if decide (version <> HookVersion)
      then Err (ErrNew ("Hook Version=" +:+ version +:+ " not supported"))
      else Ok (updateAvailableActions (mkHook config version None))
  end.

(** ** helper.go *)

Definition TemplateVarCurrentTime : string := "$current-time".

(** [now k] is the formatted time read for the annotation [k]. *)
Definition expand (now : string -> string) (k v : string) : string :=
  if decide (Index v TemplateVarCurrentTime = -1)%Z then v
  else ReplaceAll v TemplateVarCurrentTime (now k).

(** [objMeta.Annotations[k] = ..] for every entry: the range writes distinct
    keys, so it is the insertion of the expanded map. *)
Definition AddAnnotations {C : CoreTypes} (now : string -> string) (objMeta : ObjectMeta)
    (annotations : gomap string) : ObjectMeta :=
  set_Annotations
    (Some (range_insert (map_imap (fun k v => Some (expand now k v)) (gomap_get annotations))
             (gomap_get (Annotations objMeta)))) objMeta.

(** ** The [*_action.go] files *)
Section Actions.
Context {C : CoreTypes}.

(** [xHookActionAdd] and [xHookActionRemove] on the object's [ObjectMeta]. *)
Definition meta_add (now : string -> string) (hookCfg : ResourceHook) (m : ObjectMeta) : ObjectMeta :=
  let m := if decide (gomap_len (h_Annotations hookCfg) <> 0)
           then AddAnnotations now m (h_Annotations hookCfg) else m in
  if decide (length (h_Finalizers hookCfg) <> 0)
  then MetaHelper.AddFinalizers m (h_Finalizers hookCfg) else m.

Definition meta_remove (hookCfg : ResourceHook) (m : ObjectMeta) : ObjectMeta :=
  let m := if decide (gomap_len (h_Annotations hookCfg) <> 0)
           then MetaHelper.RemoveAnnotations m (h_Annotations hookCfg) else m in
  if decide (length (h_Finalizers hookCfg) <> 0)
  then MetaHelper.RemoveFinalizers m (h_Finalizers hookCfg) else m.

(** [switch action]; any other operation does nothing. *)
Definition meta_action (now : string -> string) (hookCfg : ResourceHook) (action : ActionOp)
    (m : ObjectMeta) : ObjectMeta :=
  if decide (action = ActionOpAddOrUpdate) then meta_add now hookCfg m
  else if decide (action = ActionOpRemove) then meta_remove hookCfg m
  else m.

(** [%T] of the argument *)
Definition type_name (obj : object) : string :=
  match obj with
  | ObjPVC _ => "*v1.PersistentVolumeClaim"
  | ObjPV _ => "*v1.PersistentVolume"
  | ObjService _ => "*v1.Service"
  | ObjDeployment _ => "*v1.Deployment"
  end.

Definition pvcHookAction (now : string -> string) (hookCfg : option PVCHook) (action : ActionOp)
    (obj : object) : result object :=
  match hookCfg with
  | None => Ok obj
  | Some cfg =>
      match obj with
      | ObjPVC o => Ok (ObjPVC (PVCBuilder.on_meta (meta_action now cfg action) o))
      | _ => Err (ErrNew (type_name obj +:+ " is not a PersistentVolumeClaim type"))
      end
  end.

Definition pvHookAction (now : string -> string) (hookCfg : option PVHook) (action : ActionOp)
    (obj : object) : result object :=
  match hookCfg with
  | None => Ok obj
  | Some cfg =>
      match obj with
      | ObjPV o => Ok (ObjPV (PVBuilder.on_meta (meta_action now cfg action) o))
      | _ => Err (ErrNew (type_name obj +:+ " is not a PersistentVolume type"))
      end
  end.

Definition serviceHookAction (now : string -> string) (hookCfg : option ServiceHook)
    (action : ActionOp) (obj : object) : result object :=
  match hookCfg with
  | None => Ok obj
  | Some cfg =>
      match obj with
      | ObjService o => Ok (ObjService (ServiceBuilder.on_meta (meta_action now cfg action) o))
      | _ => Err (ErrNew (type_name obj +:+ " is not a Service type"))
      end
  end.

Definition deploymentHookAction (now : string -> string) (hookCfg : option DeploymentHook)
    (action : ActionOp) (obj : object) : result object :=
  match hookCfg with
  | None => Ok obj
  | Some cfg =>
      match obj with
      | ObjDeployment o =>
          Ok (ObjDeployment (DeploymentBuilder.on_meta (meta_action now cfg action) o))
      | _ => Err (ErrNew (type_name obj +:+ " is not a Deployment type"))
      end
  end.

(** ** action.go *)

(** What one run of [Action] reads from outside: the order of its range over
    the configuration, as an index into the permutations of the entries, and
    the times it formats, by action and annotation key. *)
Record ActionEnv := mkActionEnv {
  env_order : nat;
  env_now : ActionType -> string -> string;
}.

Definition range_order (n : nat) (m : gmap string HookConfig) : list (ActionType * HookConfig) :=
  default (map_to_list m) (permutations (map_to_list m) !! n).

(** The [switch resourceType] of the loop; another resource type does nothing. *)
Definition action_switch (now : string -> string) (cfg : HookConfig) (resourceType : Z)
    (op : ActionOp) (obj : object) : result object :=
  if decide (resourceType = ResourceBackendPVC) then pvcHookAction now (BackendPVCConfig cfg) op obj
  else if decide (resourceType = ResourceBackendPV) then pvHookAction now (BackendPVConfig cfg) op obj
  else if decide (resourceType = ResourceNFSService) then serviceHookAction now (NFSServiceConfig cfg) op obj
  else if decide (resourceType = ResourceNFSPV) then pvHookAction now (NFSPVConfig cfg) op obj
  else if decide (resourceType = ResourceNFSServerDeployment)
  then deploymentHookAction now (NFSDeploymentConfig cfg) op obj
  else Ok obj.

Definition action_entry (now : ActionType -> string -> string) (resourceType : Z)
    (eventType : EventType) (kv : ActionType * HookConfig) (obj : object) : result object :=
  match ActionForEventMap !! kv.1 with
  | None => Ok obj
  | Some (evType, actOp) =>
      if decide (evType <> eventType) then Ok obj
      else action_switch (now kv.1) kv.2 resourceType actOp obj
  end.

Fixpoint action_loop (now : ActionType -> string -> string) (l : list (ActionType * HookConfig))
    (resourceType : Z) (eventType : EventType) (obj : object) : result object :=
  match l with
  | [] => Ok obj
  | kv :: rest =>
      let? obj' := action_entry now resourceType eventType kv obj in
      action_loop now rest resourceType eventType obj'
  end.

Definition Action (env : ActionEnv) (h : Hook) (obj : object) (resourceType : Z)
    (eventType : EventType) : result object :=
  action_loop (env_now env) (range_order (env_order env) (gomap_get (Config h)))
    resourceType eventType obj.

Definition ActionExists (h : Hook) (resourceType : Z) (eventType : EventType) : bool :=
  match gomap_lookup (availableActions h) eventType with
  | None => false
  | Some s => bool_decide (resourceType ∈ s)
  end.
End Actions.
