(* ===== verification/HookFacts.v ===== *)
(** * Theorems on pkg/hook: which actions exist, what an action may change, and
    when its result does not depend on the order of the configuration *)

From S2P Require Import Prelude GoStrings K8sTypes MetaHelper.
From S2P Require Concrete.
From S2P Require Import Hook.

(** ** The table of actions *)

Lemma ActionForEventMap_cases a ev op :
  ActionForEventMap !! a = Some (ev, op) ->
  (a = ActionAddOnCreateVolumeEvent /\ ev = EventTypeCreateVolume /\ op = ActionOpAddOrUpdate) \/
  (a = ActionRemoveOnCreateVolumeEvent /\ ev = EventTypeCreateVolume /\ op = ActionOpRemove) \/
  (a = ActionAddOnDeleteVolumeEvent /\ ev = EventTypeDeleteVolume /\ op = ActionOpAddOrUpdate) \/
  (a = ActionRemoveOnDeleteVolumeEvent /\ ev = EventTypeDeleteVolume /\ op = ActionOpRemove).
Proof.
  unfold ActionForEventMap. simpl. rewrite !lookup_insert_Some, lookup_empty. naive_solver.
Qed.

(** An event and an operation name at most one action. *)
Lemma ActionForEventMap_inj a1 a2 ev op :
  ActionForEventMap !! a1 = Some (ev, op) -> ActionForEventMap !! a2 = Some (ev, op) -> a1 = a2.
Proof.
  intros H1%ActionForEventMap_cases H2%ActionForEventMap_cases.
  destruct H1 as [(->&->&->)|[(->&->&->)|[(->&->&->)|(->&->&->)]]];
    destruct H2 as [(->&?&?)|[(->&?&?)|[(->&?&?)|(->&?&?)]]]; done.
Qed.

Lemma ActionForEventMap_op a ev op :
  ActionForEventMap !! a = Some (ev, op) -> op = ActionOpAddOrUpdate \/ op = ActionOpRemove.
Proof. intros H%ActionForEventMap_cases. naive_solver. Qed.

Lemma ActionForEventMap_event a ev op :
  ActionForEventMap !! a = Some (ev, op) -> ev = EventTypeCreateVolume \/ ev = EventTypeDeleteVolume.
Proof. intros H%ActionForEventMap_cases. naive_solver. Qed.

(** ** The inventory of a parsed hook *)

(** The entry [cfg] configures something for the resource. *)
Definition has_config (cfg : HookConfig) (resourceType : Z) : bool :=
  if decide (resourceType = ResourceBackendPVC) then not_nil (BackendPVCConfig cfg)
  else if decide (resourceType = ResourceBackendPV) then not_nil (BackendPVConfig cfg)
  else if decide (resourceType = ResourceNFSService) then not_nil (NFSServiceConfig cfg)
  else if decide (resourceType = ResourceNFSPV) then not_nil (NFSPVConfig cfg)
  else if decide (resourceType = ResourceNFSServerDeployment) then not_nil (NFSDeploymentConfig cfg)
  else false.

Definition inventory (avail : gmap string (gset Z)) (ev : EventType) : gset Z :=
  default ∅ (avail !! ev).

Definition has_events (avail : gmap string (gset Z)) : Prop :=
  is_Some (avail !! EventTypeCreateVolume) /\ is_Some (avail !! EventTypeDeleteVolume).

Lemma mark_has_events ev r b avail : has_events avail -> has_events (mark ev r b avail).
Proof.
  unfold mark, has_events. destruct b; [|done]. rewrite !lookup_alter_is_Some. done.
Qed.

Lemma mark_elem ev r b avail ev' x :
  has_events avail -> ev = EventTypeCreateVolume \/ ev = EventTypeDeleteVolume ->
  x ∈ inventory (mark ev r b avail) ev' <->
  x ∈ inventory avail ev' \/ (ev' = ev /\ x = r /\ b = true).
Proof.
  intros [Hc Hd] Hev. unfold mark, inventory. destruct b; [|naive_solver].
  rewrite lookup_alter. case_decide as Heq; [subst ev'|naive_solver].
  assert (is_Some (avail !! ev)) as [s ->] by (by destruct Hev as [-> | ->]).
  simpl. set_solver.
Qed.

Lemma has_config_cases cfg x :
  has_config cfg x = true <->
  (x = ResourceBackendPVC /\ not_nil (BackendPVCConfig cfg) = true) \/
  (x = ResourceBackendPV /\ not_nil (BackendPVConfig cfg) = true) \/
  (x = ResourceNFSService /\ not_nil (NFSServiceConfig cfg) = true) \/
  (x = ResourceNFSPV /\ not_nil (NFSPVConfig cfg) = true) \/
  (x = ResourceNFSServerDeployment /\ not_nil (NFSDeploymentConfig cfg) = true).
Proof.
  unfold has_config. repeat case_decide; subst;
    (split; [first [tauto | discriminate]
            |intros [[? ?]|[[? ?]|[[? ?]|[[? ?]|[? ?]]]]]; first [done | congruence | discriminate]]).
Qed.

Lemma mark_config_spec kv avail ev x :
  has_events avail ->
  has_events (mark_config kv avail) /\
  (x ∈ inventory (mark_config kv avail) ev <->
   x ∈ inventory avail ev \/
   exists op, ActionForEventMap !! kv.1 = Some (ev, op) /\ has_config kv.2 x = true).
Proof.
  intros He. unfold mark_config.
  destruct (ActionForEventMap !! kv.1) as [[ev' op]|] eqn:Ha; [|naive_solver].
  pose proof (ActionForEventMap_event _ _ _ Ha) as Hev. cbv zeta.
  split; [repeat apply mark_has_events; done|].
  rewrite !mark_elem by (repeat apply mark_has_events; done).
  setoid_rewrite has_config_cases. split.
  - intros [[[[[Hi|(-> & Hx)]|(-> & Hx)]|(-> & Hx)]|(-> & Hx)]|(-> & Hx)]; [by left|..];
      right; exists op; (split; [done|]); tauto.
  - intros [Hi|(op' & Hop & Hc)]; [tauto|]. assert (ev = ev') as -> by congruence. tauto.
Qed.

Lemma mark_all_spec l init ev x :
  has_events init ->
  has_events (foldr mark_config init l) /\
  (x ∈ inventory (foldr mark_config init l) ev <->
   x ∈ inventory init ev \/
   exists kv op, kv ∈ l /\ ActionForEventMap !! kv.1 = Some (ev, op) /\ has_config kv.2 x = true).
Proof.
  intros He. induction l as [|kv l [IHe IH]]; simpl; [set_solver|].
  destruct (mark_config_spec kv (foldr mark_config init l) ev x IHe) as [Hh Hx].
  split; [done|]. rewrite Hx, IH. setoid_rewrite elem_of_cons. split.
  - intros [[Hi|(kv' & op & Hin & Ha & Hc)]|(op & Ha & Hc)]; [by left|right..];
      [exists kv', op|exists kv, op]; auto.
  - intros [Hi|(kv' & op & [->|Hin] & Ha & Hc)]; [by left; left|right; by exists op|].
    left. right. by exists kv', op.
Qed.

(** Some configured action of the event concerns the resource. *)
Definition configured (h : Hook) (resourceType : Z) (ev : EventType) : Prop :=
  exists a cfg op, gomap_lookup (Config h) a = Some cfg /\
    ActionForEventMap !! a = Some (ev, op) /\ has_config cfg resourceType = true.

Lemma updateAvailableActions_exists h x ev :
  ActionExists (updateAvailableActions h) x ev = true <-> configured h x ev.
Proof.
  unfold ActionExists, updateAvailableActions, configured, gomap_lookup; simpl.
  set (init := <[EventTypeDeleteVolume := ∅]> {[EventTypeCreateVolume := ∅]} : gmap string (gset Z)).
  set (l := map_to_list (gomap_get (Config h))).
  assert (He : has_events init) by (split; vm_compute; eauto).
  assert (Hi : x ∈ inventory init ev <-> False).
  { unfold inventory, init. rewrite lookup_insert, lookup_singleton. repeat case_decide; simpl; apply elem_of_empty. }
  destruct (mark_all_spec l init ev x He) as [_ Hx].
  transitivity (x ∈ inventory (foldr mark_config init l) ev).
  { unfold inventory. destruct (foldr mark_config init l !! ev); simpl.
    - by rewrite bool_decide_eq_true.
    - split; [done|]. intros Hin. by apply elem_of_empty in Hin. }
  rewrite Hx, Hi. split.
  - intros [[]|([a cfg] & op & Hin & Ha & Hc)]. exists a, cfg, op.
    split; [by apply elem_of_map_to_list|done].
  - intros (a & cfg & op & Hin & Ha & Hc). right. exists (a, cfg), op.
    split; [by apply elem_of_map_to_list|done].
Qed.

Lemma ParseHooks_Ok yaml data h :
  ParseHooks yaml data = Ok h ->
  exists config, yaml data = Ok (config, HookVersion) /\
    h = updateAvailableActions (mkHook config HookVersion None).
Proof.
  unfold ParseHooks. destruct (yaml data) as [[config version]|e]; [|done].
  destruct (decide (version = HookVersion)) as [->|Hv].
  - rewrite decide_False by auto. intros [= <-]. by exists config.
  - by rewrite decide_True.
Qed.

Lemma updateAvailableActions_Config h : Config (updateAvailableActions h) = Config h.
Proof. done. Qed.

(** ** The loop of [Action] *)
Section ActionFacts.
Context {C : CoreTypes}.
Implicit Types obj : object.

Lemma range_order_Permutation n m : Permutation (range_order n m) (map_to_list m).
Proof.
  unfold range_order. destruct (permutations (map_to_list m) !! n) as [l|] eqn:Hl; [|done].
  apply list_elem_of_lookup_2 in Hl. symmetry. by apply permutations_Permutation.
Qed.

Lemma action_switch_absent now cfg x op obj :
  has_config cfg x = false -> action_switch now cfg x op obj = Ok obj.
Proof.
  unfold has_config, action_switch, pvcHookAction, pvHookAction, serviceHookAction,
    deploymentHookAction, not_nil.
  repeat case_decide; repeat case_match; done.
Qed.

Lemma action_loop_skip now l x ev obj :
  Forall (fun kv => forall op, ActionForEventMap !! kv.1 = Some (ev, op) -> has_config kv.2 x = false) l ->
  action_loop now l x ev obj = Ok obj.
Proof.
  induction 1 as [|kv l Hkv Hl IH]; simpl; [done|].
  assert (action_entry now x ev kv obj = Ok obj) as ->; [|done].
  unfold action_entry. destruct (ActionForEventMap !! kv.1) as [[ev' op]|]; [|done].
  destruct (decide (ev' = ev)) as [->|He]; [|by rewrite decide_True].
  rewrite decide_False by auto.
  eapply action_switch_absent, Hkv. done.
Qed.

(** The object an action expects for the resource. *)
Definition right_type (x : Z) obj : Prop :=
  match obj with
  | ObjPVC _ => x = ResourceBackendPVC
  | ObjPV _ => x = ResourceBackendPV \/ x = ResourceNFSPV
  | ObjService _ => x = ResourceNFSService
  | ObjDeployment _ => x = ResourceNFSServerDeployment
  end.

(** [b] is [a] up to annotations and finalizers. *)
Definition same_meta (a b : ObjectMeta) : Prop :=
  b = set_Finalizers (Finalizers b) (set_Annotations (Annotations b) a).

Definition same_object a b : Prop :=
  match a, b with
  | ObjPVC x, ObjPVC y => same_meta (pvc_meta x) (pvc_meta y) /\ pvc_spec x = pvc_spec y /\ pvc_Phase x = pvc_Phase y
  | ObjPV x, ObjPV y => same_meta (pv_meta x) (pv_meta y) /\ pv_spec x = pv_spec y
  | ObjService x, ObjService y => same_meta (svc_meta x) (svc_meta y) /\ svc_spec x = svc_spec y
  | ObjDeployment x, ObjDeployment y =>
      same_meta (d_meta x) (d_meta y) /\ d_spec x = d_spec y /\ d_status x = d_status y
  | _, _ => False
  end.

Lemma same_meta_refl a : same_meta a a.
Proof. by destruct a. Qed.

Lemma same_meta_trans a b c : same_meta a b -> same_meta b c -> same_meta a c.
Proof. destruct a, b, c; unfold same_meta; simpl. intros [= -> -> -> -> -> -> ->] [= -> -> -> -> -> -> ->]. done. Qed.

#[export] Instance same_object_refl : Reflexive same_object.
Proof. intros []; simpl; auto using same_meta_refl. Qed.

#[export] Instance same_object_trans : Transitive same_object.
Proof.
  intros [] [] []; simpl; try tauto; intuition (try congruence);
    by eapply same_meta_trans.
Qed.

Lemma meta_action_same now cfg op m : same_meta m (meta_action now cfg op m).
Proof.
  unfold meta_action, meta_add, meta_remove. repeat case_decide; by destruct m.
Qed.

Lemma action_switch_right now cfg x op obj :
  right_type x obj ->
  exists obj', action_switch now cfg x op obj = Ok obj' /\ same_object obj obj'.
Proof.
  unfold action_switch, pvcHookAction, pvHookAction, serviceHookAction, deploymentHookAction.
  destruct obj as [o|o|o|o]; simpl; intros Hx;
    [subst x | destruct Hx; subst x | subst x | subst x];
    (repeat (case_decide; try done)); case_match;
    (eexists; split; [reflexivity|]); simpl;
    auto using meta_action_same, same_meta_refl.
Qed.

Lemma action_entry_right now x ev kv obj :
  right_type x obj -> exists obj', action_entry now x ev kv obj = Ok obj' /\ same_object obj obj'.
Proof.
  intros Hx. unfold action_entry.
  destruct (ActionForEventMap !! kv.1) as [[ev' op]|]; [|by exists obj].
  case_decide; [by exists obj|]. by apply action_switch_right.
Qed.

Lemma same_object_right_type x a b : same_object a b -> right_type x a -> right_type x b.
Proof. by destruct a, b. Qed.

Lemma action_loop_right now l x ev obj :
  right_type x obj -> exists obj', action_loop now l x ev obj = Ok obj' /\ same_object obj obj'.
Proof.
  revert obj. induction l as [|kv l IH]; intros obj Hx; simpl; [by exists obj|].
  destruct (action_entry_right now x ev kv obj Hx) as (obj1 & -> & H1).
  destruct (IH obj1) as (obj2 & Hl & H2); [by eapply same_object_right_type|].
  exists obj2. split; [done|]. by etrans.
Qed.

Lemma Action_right_type env h obj x ev :
  right_type x obj -> exists obj', Action env h obj x ev = Ok obj' /\ same_object obj obj'.
Proof. apply action_loop_right. Qed.

(** ** Independence of the order *)

Lemma action_loop_app now l1 l2 x ev obj :
  action_loop now (l1 ++ l2) x ev obj =
  let? obj' := action_loop now l1 x ev obj in action_loop now l2 x ev obj'.
Proof.
  revert obj. induction l1 as [|kv l1 IH]; intros obj; simpl; [done|].
  by destruct (action_entry now x ev kv obj); simpl.
Qed.

(** Swapping neighbours is enough when every two entries commute. *)
Lemma action_loop_perm now x ev l1 l2 :
  Permutation l1 l2 ->
  (forall a b obj, a ∈ l1 -> b ∈ l1 ->
     action_loop now [a; b] x ev obj = action_loop now [b; a] x ev obj) ->
  forall obj, action_loop now l1 x ev obj = action_loop now l2 x ev obj.
Proof.
  induction 1 as [|a l1 l2 Hp IH|a b l|l1 l2 l3 Hp1 IH1 Hp2 IH2]; intros Hc obj.
  - done.
  - simpl. destruct (action_entry now x ev a obj) as [obj'|]; simpl; [|done].
    apply IH. intros a1 b1 o Ha Hb. apply Hc; by right.
  - change (b :: a :: l) with ([b; a] ++ l). change (a :: b :: l) with ([a; b] ++ l).
    rewrite !action_loop_app. rewrite Hc; [done|set_solver|set_solver].
  - rewrite IH1 by done. apply IH2. intros a1 b1 o Ha Hb. apply Hc; by rewrite Hp1.
Qed.

(** Two configurations that touch no common annotation and no common
    finalizer. *)
Definition disjoint_hooks (a b : ResourceHook) : Prop :=
  dom (gomap_get (h_Annotations a)) ## dom (gomap_get (h_Annotations b)) /\
  (forall f, f ∈ h_Finalizers a -> f ∈ h_Finalizers b -> False).

Definition resource_hook (cfg : HookConfig) (x : Z) : option ResourceHook :=
  if decide (x = ResourceBackendPVC) then BackendPVCConfig cfg
  else if decide (x = ResourceBackendPV) then BackendPVConfig cfg
  else if decide (x = ResourceNFSService) then NFSServiceConfig cfg
  else if decide (x = ResourceNFSPV) then NFSPVConfig cfg
  else if decide (x = ResourceNFSServerDeployment) then NFSDeploymentConfig cfg
  else None.

Lemma meta_add_parts now cfg m :
  meta_add now cfg m =
  set_Finalizers (add_finalizers (Finalizers m) (h_Finalizers cfg))
    (set_Annotations
       (if decide (gomap_len (h_Annotations cfg) = 0) then Annotations m
        else Annotations (AddAnnotations now m (h_Annotations cfg))) m).
Proof.
  unfold meta_add. destruct m, cfg as [an fs]. cbn [h_Annotations h_Finalizers].
  destruct (decide (gomap_len an = 0)) as [Ha|Ha];
    [rewrite (decide_False (P := gomap_len an <> 0)) by lia
    |rewrite (decide_True (P := gomap_len an <> 0)) by lia];
    (destruct fs; [rewrite decide_False by (simpl; lia)|rewrite decide_True by (simpl; lia)]);
    reflexivity.
Qed.

Lemma meta_remove_parts cfg m :
  meta_remove cfg m =
  set_Finalizers (fold_left (fun l f => remove_first f l) (h_Finalizers cfg) (Finalizers m))
    (set_Annotations
       (if decide (gomap_len (h_Annotations cfg) = 0) then Annotations m
        else Annotations (MetaHelper.RemoveAnnotations m (h_Annotations cfg))) m).
Proof.
  unfold meta_remove. destruct m, cfg as [an fs]. cbn [h_Annotations h_Finalizers].
  destruct (decide (gomap_len an = 0)) as [Ha|Ha];
    [rewrite (decide_False (P := gomap_len an <> 0)) by lia
    |rewrite (decide_True (P := gomap_len an <> 0)) by lia];
    (destruct fs; [rewrite decide_False by (simpl; lia)|rewrite decide_True by (simpl; lia)]);
    reflexivity.
Qed.

Lemma add_remove_finalizers_comm l fa fr :
  (forall f, f ∈ fa -> f ∈ fr -> False) ->
  fold_left (fun l f => remove_first f l) fr (add_finalizers l fa) =
  add_finalizers (fold_left (fun l f => remove_first f l) fr l) fa.
Proof.
  intros Hd. revert l. induction fr as [|r fr IH]; intros l; simpl; [done|].
  assert (remove_first r (add_finalizers l fa) = add_finalizers (remove_first r l) fa) as ->.
  2:{ apply IH. set_solver. }
  assert (Hr : r ∉ fa) by set_solver. clear IH Hd. revert l.
  induction fa as [|a fa IHa]; intros l; simpl; [done|].
  assert (Hra : r <> a) by set_solver.
  rewrite IHa by set_solver. f_equal.
  assert (Hiff : a ∈ remove_first r l <-> a ∈ l).
  { clear -Hra. induction l as [|y l IH]; simpl; [done|].
    case_decide; subst; rewrite ?elem_of_cons; naive_solver. }
  destruct (decide (a ∈ l)) as [Hin|Hin].
  - by rewrite decide_True by tauto.
  - rewrite decide_False by tauto. destruct (decide (r ∈ l)) as [Hrl|Hrl].
    + by rewrite remove_first_app_in.
    + rewrite remove_first_app_notin, (remove_first_notin r l) by done. simpl.
      by rewrite decide_False by congruence.
Qed.

Lemma add_remove_annotations_comm now m a r :
  dom (gomap_get a) ## dom (gomap_get r) ->
  Annotations (MetaHelper.RemoveAnnotations (AddAnnotations now m a) r) =
  Annotations (AddAnnotations now (MetaHelper.RemoveAnnotations m r) a).
Proof.
  intros Hd. simpl. f_equal. apply map_eq. intros k.
  rewrite range_delete_lookup, !range_insert_lookup, map_lookup_imap.
  destruct (gomap_get r !! k) as [w|] eqn:Hr.
  - assert (gomap_get a !! k = None) as ->.
    { apply not_elem_of_dom. intros Hin. apply (Hd k Hin). by eapply elem_of_dom_2. }
    simpl. destruct (Annotations m); simpl; [by rewrite range_delete_lookup, Hr|symmetry; apply lookup_empty].
  - destruct (gomap_get a !! k); simpl; [done|].
    destruct (Annotations m); simpl; [by rewrite range_delete_lookup, Hr|done].
Qed.

Lemma meta_add_remove_comm now ca cr m :
  disjoint_hooks ca cr ->
  meta_remove cr (meta_add now ca m) = meta_add now ca (meta_remove cr m).
Proof.
  intros [Hd Hf]. rewrite !meta_add_parts, !meta_remove_parts. simpl.
  rewrite add_remove_finalizers_comm by done.
  pose proof (add_remove_annotations_comm now m _ _ Hd) as Ha. simpl in Ha.
  unfold set_Finalizers, set_Annotations; simpl. f_equal.
  repeat case_decide; simpl in *; done.
Qed.

Definition on_object_meta (f : ObjectMeta -> ObjectMeta) obj : object :=
  match obj with
  | ObjPVC o => ObjPVC (PVCBuilder.on_meta f o)
  | ObjPV o => ObjPV (PVBuilder.on_meta f o)
  | ObjService o => ObjService (ServiceBuilder.on_meta f o)
  | ObjDeployment o => ObjDeployment (DeploymentBuilder.on_meta f o)
  end.

(** The type error of the resource's action. *)
Definition wrong_type (x : Z) obj : goerr :=
  ErrNew (type_name obj +:+
    (if decide (x = ResourceBackendPVC) then " is not a PersistentVolumeClaim type"
     else if decide (x = ResourceNFSService) then " is not a Service type"
     else if decide (x = ResourceNFSServerDeployment) then " is not a Deployment type"
     else " is not a PersistentVolume type")).

#[export] Instance right_type_dec x obj : Decision (right_type x obj).
Proof. destruct obj; simpl; apply _. Defined.

Lemma on_object_meta_right_type f x obj : right_type x (on_object_meta f obj) <-> right_type x obj.
Proof. by destruct obj. Qed.

Lemma action_switch_spec now cfg x op obj :
  action_switch now cfg x op obj =
  match resource_hook cfg x with
  | None => Ok obj
  | Some h => if decide (right_type x obj) then Ok (on_object_meta (meta_action now h op) obj)
              else Err (wrong_type x obj)
  end.
Proof.
  unfold action_switch, resource_hook, pvcHookAction, pvHookAction, serviceHookAction,
    deploymentHookAction, wrong_type.
  repeat (case_decide; try done); subst; case_match; destruct obj; simpl in *;
    try done; naive_solver.
Qed.

Lemma meta_action_add now h m : meta_action now h ActionOpAddOrUpdate m = meta_add now h m.
Proof. done. Qed.

Lemma meta_action_remove now h m : meta_action now h ActionOpRemove m = meta_remove h m.
Proof. done. Qed.

(** The configuration of the resource in an action that adds, and in one that
    removes, for the event. *)
Definition hook_of (h : Hook) (x : Z) (ev : EventType) (op : ActionOp) (c : ResourceHook) : Prop :=
  exists a cfg, gomap_lookup (Config h) a = Some cfg /\
    ActionForEventMap !! a = Some (ev, op) /\ resource_hook cfg x = Some c.

Lemma action_entry_irrelevant now x ev kv obj :
  (forall op, ActionForEventMap !! kv.1 <> Some (ev, op)) -> action_entry now x ev kv obj = Ok obj.
Proof.
  intros Hk. unfold action_entry. destruct (ActionForEventMap !! kv.1) as [[ev' op]|]; [|done].
  rewrite decide_True; [done|]. intros ->. by apply (Hk op).
Qed.

Lemma action_entry_relevant now x ev kv op obj :
  ActionForEventMap !! kv.1 = Some (ev, op) ->
  action_entry now x ev kv obj = action_switch (now kv.1) kv.2 x op obj.
Proof. intros Hk. unfold action_entry. rewrite Hk, decide_False; naive_solver. Qed.

Lemma relevant_dec ev a :
  (exists op, ActionForEventMap !! a = Some (ev, op)) \/
  (forall op, ActionForEventMap !! a <> Some (ev, op)).
Proof.
  destruct (ActionForEventMap !! a) as [[ev' op]|]; [|by right].
  destruct (decide (ev' = ev)) as [->|]; [left; by exists op|right; naive_solver].
Qed.

Lemma action_loop_pair now a b x ev obj :
  action_loop now [a; b] x ev obj =
  match action_entry now x ev a obj with
  | Ok o => action_entry now x ev b o
  | Err e => Err e
  end.
Proof.
  simpl. destruct (action_entry now x ev a obj) as [o|e]; simpl; [|done].
  by destruct (action_entry now x ev b o).
Qed.

Lemma action_entry_spec now x ev kv op obj :
  ActionForEventMap !! kv.1 = Some (ev, op) ->
  action_entry now x ev kv obj =
  match resource_hook kv.2 x with
  | None => Ok obj
  | Some h => if decide (right_type x obj) then Ok (on_object_meta (meta_action (now kv.1) h op) obj)
              else Err (wrong_type x obj)
  end.
Proof.
  intros Hk. unfold action_entry. rewrite Hk, decide_False by auto. apply action_switch_spec.
Qed.

Lemma on_object_meta_comm f g obj :
  (forall m, g (f m) = f (g m)) ->
  on_object_meta g (on_object_meta f obj) = on_object_meta f (on_object_meta g obj).
Proof.
  intros Hc. destruct obj as [[]|[]|[]|[]]; simpl; unfold PVCBuilder.on_meta, PVBuilder.on_meta,
    ServiceBuilder.on_meta, DeploymentBuilder.on_meta; simpl; by rewrite Hc.
Qed.

Lemma action_entries_commute now h x ev obj a b :
  (forall ca cr, hook_of h x ev ActionOpAddOrUpdate ca -> hook_of h x ev ActionOpRemove cr ->
     disjoint_hooks ca cr) ->
  a ∈ map_to_list (gomap_get (Config h)) -> b ∈ map_to_list (gomap_get (Config h)) ->
  action_loop now [a; b] x ev obj = action_loop now [b; a] x ev obj.
Proof.
  destruct a as [a ca], b as [b cb]. intros Hd Ha Hb.
  apply elem_of_map_to_list in Ha, Hb. rewrite !action_loop_pair.
  destruct (relevant_dec ev a) as [[opa Hea]|Hia].
  2:{ rewrite (action_entry_irrelevant now x ev (a, ca)) by done.
      destruct (action_entry now x ev (b, cb) obj); [|done].
      by rewrite (action_entry_irrelevant now x ev (a, ca)). }
  destruct (relevant_dec ev b) as [[opb Heb]|Hib].
  2:{ rewrite (action_entry_irrelevant now x ev (b, cb) obj) by done.
      destruct (action_entry now x ev (a, ca) obj); [|done].
      by rewrite (action_entry_irrelevant now x ev (b, cb)). }
  destruct (decide (opa = opb)) as [->|Hop].
  { assert (a = b) as -> by (by eapply ActionForEventMap_inj).
    by replace cb with ca by congruence. }
  rewrite (action_entry_spec now x ev (a, ca) opa obj Hea),
    (action_entry_spec now x ev (b, cb) opb obj Heb). simpl.
  destruct (resource_hook ca x) as [ha|] eqn:Hha, (resource_hook cb x) as [hb|] eqn:Hhb;
    try destruct (decide (right_type x obj)) as [Hr|Hr];
    rewrite ?(action_entry_spec now x ev (a, ca) opa _ Hea),
      ?(action_entry_spec now x ev (b, cb) opb _ Heb); simpl; rewrite ?Hha, ?Hhb; try done;
    try (rewrite decide_True by done; done); try (rewrite decide_False by done; done).
  rewrite !decide_True by (by rewrite on_object_meta_right_type).
  assert (Hcomm : forall c1 c2 n1 m, hook_of h x ev ActionOpAddOrUpdate c1 ->
    hook_of h x ev ActionOpRemove c2 ->
    meta_remove c2 (meta_add n1 c1 m) = meta_add n1 c1 (meta_remove c2 m)).
  { intros. by apply meta_add_remove_comm, Hd. }
  assert (hook_of h x ev opa ha) by (by exists a, ca).
  assert (hook_of h x ev opb hb) by (by exists b, cb).
  f_equal. apply on_object_meta_comm. intros m.
  destruct (ActionForEventMap_op _ _ _ Hea), (ActionForEventMap_op _ _ _ Heb); subst; try done;
    rewrite !meta_action_add, !meta_action_remove; [|symmetry]; by apply Hcomm.
Qed.

(** The first configured action rejects an object of another type. *)
Lemma action_loop_wrong_type now l x ev obj :
  ~ right_type x obj ->
  Exists (fun kv => exists op, ActionForEventMap !! kv.1 = Some (ev, op) /\ has_config kv.2 x = true) l ->
  exists e, action_loop now l x ev obj = Err e.
Proof.
  intros Hr. induction l as [|kv l IH]; [by rewrite Exists_nil|].
  rewrite Exists_cons. intros Hex. simpl.
  destruct (relevant_dec ev kv.1) as [[op Ha]|Hi].
  - rewrite (action_entry_spec now x ev kv op obj Ha).
    destruct (resource_hook kv.2 x) as [c|] eqn:Hc; [rewrite decide_False by done; by eexists|].
    simpl. apply IH. destruct Hex as [(op' & _ & Hh)|]; [|done]. exfalso.
    revert Hc Hh. unfold resource_hook, has_config.
    repeat case_decide; try done; by intros ->.
  - rewrite action_entry_irrelevant by done. simpl. apply IH.
    destruct Hex as [(op' & Ha & _)|]; [|done]. by destruct (Hi op').
Qed.

Lemma Action_wrong_type env h obj x ev :
  ~ right_type x obj -> configured h x ev -> exists e, Action env h obj x ev = Err e.
Proof.
  intros Hr (a & cfg & op & Hin & Ha & Hc). apply action_loop_wrong_type; [done|].
  rewrite Exists_exists. exists (a, cfg). rewrite range_order_Permutation.
  split; [by apply elem_of_map_to_list|]. by exists op.
Qed.
End ActionFacts.

(** ** Properties *)

(** After [ParseHooks] succeeds, [ActionExists] answers exactly whether some
    configured, supported action of the event has a configuration for the
    resource, whatever the order in which the configuration was ranged over. *)
Theorem ActionExists_parsed yaml data h x ev :
  ParseHooks yaml data = Ok h ->
  ActionExists h x ev = true <-> configured h x ev.
Proof.
  intros (config & _ & ->)%ParseHooks_Ok. rewrite updateAvailableActions_exists. done.
Qed.

(** C22: the guard [ActionExists] that every caller uses is exact: with it false,
    running the hooks would return the object unchanged; with it true, they
    succeed exactly on the objects of the resource's type. *)
Theorem Action_guard {C : CoreTypes} yaml data h env obj x ev :
  ParseHooks yaml data = Ok h ->
  (ActionExists h x ev = false -> Action env h obj x ev = Ok obj) /\
  (ActionExists h x ev = true -> is_ok (Action env h obj x ev) = true <-> right_type x obj).
Proof.
  intros (config & _ & ->)%ParseHooks_Ok. set (h := mkHook config HookVersion None). split.
  - intros Hx. apply action_loop_skip. rewrite Forall_forall. intros [a cfg] Hin op Ha.
    rewrite range_order_Permutation in Hin. apply elem_of_map_to_list in Hin.
    destruct (has_config cfg x) eqn:Hc; [|done].
    assert (ActionExists (updateAvailableActions h) x ev = true) as Ht; [|congruence].
    apply updateAvailableActions_exists. by exists a, cfg, op.
  - intros (a & cfg & op & Hin & Ha & Hc)%updateAvailableActions_exists. split.
    + intros Hok. destruct (decide (right_type x obj)) as [|Hr]; [done|]. exfalso.
      destruct (Action_wrong_type env (updateAvailableActions h) obj x ev) as [e He];
        [done|by exists a, cfg, op|]. by rewrite He in Hok.
    + intros Hr. by destruct (Action_right_type env (updateAvailableActions h) obj x ev Hr) as (o & -> & _).
Qed.

(** C23: an action on an object of the right type never fails and changes
    nothing but its annotations and finalizers. *)
Theorem Action_frame {C : CoreTypes} env h obj x ev :
  right_type x obj ->
  exists obj', Action env h obj x ev = Ok obj' /\ same_object obj obj'.
Proof. apply Action_right_type. Qed.

(** C16: Go ranges over the hook configuration in an unspecified order. When the
    entries added and the entries removed for the event and the resource are
    disjoint, every order gives the same object. *)
Theorem Action_order_independent {C : CoreTypes} e1 e2 h obj x ev :
  env_now e1 = env_now e2 ->
  (forall ca cr, hook_of h x ev ActionOpAddOrUpdate ca -> hook_of h x ev ActionOpRemove cr ->
     disjoint_hooks ca cr) ->
  Action e1 h obj x ev = Action e2 h obj x ev.
Proof.
  intros Hn Hd. unfold Action. rewrite Hn. apply action_loop_perm.
  - by rewrite !range_order_Permutation.
  - intros a b o Ha Hb. rewrite range_order_Permutation in Ha, Hb.
    by eapply action_entries_commute.
Qed.

(** C39: Removing what a hook added gives the metadata back, when none of the
    hook's finalizers and annotations were there before. *)
Theorem meta_remove_after_add {C : CoreTypes} now cfg m :
  NoDup (h_Finalizers cfg) ->
  (forall f, f ∈ h_Finalizers cfg -> f ∉ Finalizers m) ->
  dom (gomap_get (h_Annotations cfg)) ## dom (gomap_get (Annotations m)) ->
  Finalizers (meta_remove cfg (meta_add now cfg m)) = Finalizers m /\
  gomap_get (Annotations (meta_remove cfg (meta_add now cfg m))) = gomap_get (Annotations m).
Proof.
  intros Hnd Hf Hd. rewrite meta_remove_parts, meta_add_parts. simpl.
  split; [by rewrite add_finalizers_fresh, remove_add_finalizers|].
  case_decide as Hl; [done|]. apply map_eq. intros k. simpl.
  rewrite range_delete_lookup, range_insert_lookup, map_lookup_imap.
  destruct (gomap_get (h_Annotations cfg) !! k) as [v|] eqn:Hk; simpl; [|done].
  symmetry. apply not_elem_of_dom. intros Hin. apply (Hd k); [|done]. by eapply elem_of_dom_2.
Qed.

(** ** Witnesses *)

Definition example_add : ResourceHook :=
  mkResourceHook (Some {["example.io/track" := "true"]}) ["example.io/protect"].
Definition example_remove : ResourceHook :=
  mkResourceHook (Some {["example.io/old" := EmptyString]}) ["example.io/stale"].
Definition example_config : gomap HookConfig :=
  Some (<[ActionAddOnCreateVolumeEvent :=
          mkHookConfig "add" None None (Some example_add) None None]>
        {[ActionRemoveOnCreateVolumeEvent :=
          mkHookConfig "remove" None None (Some example_remove) None None]}).
Definition example_yaml (data : string) : result (gomap HookConfig * string) :=
  Ok (example_config, HookVersion).
Definition example_hook : Hook := updateAvailableActions (mkHook example_config HookVersion None).

Lemma ActionExists_parsed_witness :
  ParseHooks example_yaml "data" = Ok example_hook /\
  ActionExists example_hook ResourceBackendPVC EventTypeCreateVolume = true /\
  configured example_hook ResourceBackendPVC EventTypeCreateVolume.
Proof.
  split; [reflexivity|]. split; [vm_compute; reflexivity|].
  apply (ActionExists_parsed example_yaml "data" example_hook); [reflexivity|].
  vm_compute; reflexivity.
Defined.

Lemma Action_guard_witness :
  Action (C := Concrete.core) (mkActionEnv 0 (fun _ _ => EmptyString)) example_hook
    (ObjService emptyService) ResourceNFSService EventTypeCreateVolume = Ok (ObjService emptyService) /\
  is_ok (Action (C := Concrete.core) (mkActionEnv 0 (fun _ _ => EmptyString)) example_hook
    (ObjService emptyService) ResourceBackendPVC EventTypeCreateVolume) <> true.
Proof.
  split.
  - apply (Action_guard example_yaml "data"); [reflexivity|vm_compute; reflexivity].
  - intros Ht. apply (Action_guard example_yaml "data") in Ht;
      [discriminate Ht|reflexivity|vm_compute; reflexivity].
Defined.

Lemma Action_frame_witness :
  exists obj', Action (C := Concrete.core) (mkActionEnv 0 (fun _ _ => EmptyString)) example_hook
    (ObjPVC emptyPVC) ResourceBackendPVC EventTypeCreateVolume = Ok obj' /\
    same_object (ObjPVC emptyPVC) obj'.
Proof. apply Action_frame. reflexivity. Defined.

Lemma Action_order_independent_witness :
  Action (C := Concrete.core) (mkActionEnv 0 (fun _ _ => EmptyString)) example_hook
    (ObjPVC emptyPVC) ResourceBackendPVC EventTypeCreateVolume =
  Action (mkActionEnv 1 (fun _ _ => EmptyString)) example_hook
    (ObjPVC emptyPVC) ResourceBackendPVC EventTypeCreateVolume.
Proof.
  apply Action_order_independent; [reflexivity|].
  intros ca cr (a & cfg & Hc & Ha & Hh) (a' & cfg' & Hc' & Ha' & Hh').
  apply ActionForEventMap_cases in Ha, Ha'.
  destruct Ha as [(->&_&_)|[(_&_&Ho)|[(_&Ho&_)|(_&Ho&_)]]]; try discriminate Ho.
  destruct Ha' as [(_&_&Ho)|[(->&_&_)|[(_&Ho&_)|(_&Ho&_)]]]; try discriminate Ho.
  change (gomap_lookup (Config example_hook) ActionAddOnCreateVolumeEvent)
    with (Some (mkHookConfig "add" None None (Some example_add) None None)) in Hc.
  change (gomap_lookup (Config example_hook) ActionRemoveOnCreateVolumeEvent)
    with (Some (mkHookConfig "remove" None None (Some example_remove) None None)) in Hc'.
  injection Hc as <-. injection Hc' as <-. injection Hh as <-. injection Hh' as <-. split.
  - intros k Hk Hk'. simpl in Hk, Hk'. rewrite dom_singleton in Hk, Hk'.
    apply elem_of_singleton in Hk, Hk'. subst. discriminate Hk'.
  - intros f Hf Hf'. apply list_elem_of_singleton in Hf, Hf'. subst. discriminate Hf'.
Defined.

Lemma meta_remove_after_add_witness :
  Finalizers (C := Concrete.core)
    (meta_remove example_add (meta_add (fun _ => EmptyString) example_add emptyMeta)) = [] /\
  gomap_get (Annotations (C := Concrete.core)
    (meta_remove example_add (meta_add (fun _ => EmptyString) example_add emptyMeta))) = ∅.
Proof.
  apply (meta_remove_after_add (C := Concrete.core)).
  - apply NoDup_singleton.
  - intros f _. apply not_elem_of_nil.
  - simpl. set_solver.
Defined.

(** When an action adds and another removes the same entry, the outcome does
    depend on the order of the range: the two orders of this configuration
    disagree on whether the finalizer is there. *)
Lemma Action_order_matters :
  exists h e1 e2,
    Action (C := Concrete.core) e1 h (ObjPVC emptyPVC) ResourceBackendPVC EventTypeCreateVolume <>
    Action e2 h (ObjPVC emptyPVC) ResourceBackendPVC EventTypeCreateVolume.
Proof.
  exists (mkHook (Some (<[ActionAddOnCreateVolumeEvent :=
          mkHookConfig "add" None None (Some example_add) None None]>
        {[ActionRemoveOnCreateVolumeEvent :=
          mkHookConfig "remove" None None (Some example_add) None None]})) HookVersion None).
  exists (mkActionEnv 0 (fun _ _ => EmptyString)), (mkActionEnv 1 (fun _ _ => EmptyString)).
  intros He.
  apply (f_equal (fun r => match r with Ok o => length (Finalizers (object_meta o)) | Err _ => 0 end)) in He.
  revert He. vm_compute. discriminate.
Qed.
