(* ===== verification/Metrics.v ===== *)
(** * pkg/metrics/metrics.go: the counters of the provisioner

    A counter vector is what it was declared with: its options and the names of
    its labels.  Counting and exporting are the Prometheus client's business. *)

From S2P Require Import Prelude.

(** [prometheus.CounterOpts], the fields that are set *)
Record CounterOpts := mkCounterOpts {
  co_Namespace : string;
  co_Subsystem : string;
  co_Name : string;
  co_Help : string;
}.

(** [prometheus.CounterVec] *)
Record CounterVec := NewCounterVec {
  cv_opts : CounterOpts;
  cv_labels : list string;
}.

#[export] Instance CounterOpts_eq_dec : EqDecision CounterOpts.
Proof. solve_decision. Defined.
#[export] Instance CounterVec_eq_dec : EqDecision CounterVec.
Proof. solve_decision. Defined.

Definition NfsVolumeProvisionerNamespace : string := "nfs_volume_provisioner".
Definition PersistentVolumeSubsytem : string := "persistentvolume".
Definition ProvisionerRequestCreate : string := "create".
Definition ProvisionerRequestDelete : string := "delete".
Definition Process : string := "process".

Definition PersistentVolumeDeleteTotal : CounterVec :=
  NewCounterVec
    (mkCounterOpts NfsVolumeProvisionerNamespace PersistentVolumeSubsytem
       "delete_total" "Total number of persistent volumes deleted")
    [Process].

Definition PersistentVolumeDeleteFailedTotal : CounterVec :=
  NewCounterVec
    (mkCounterOpts NfsVolumeProvisionerNamespace PersistentVolumeSubsytem
       "delete_failed_total" "Total number of persistent volume delete failed attempts")
    [Process].

Definition PersistentVolumeCreateTotal : CounterVec :=
  NewCounterVec
    (mkCounterOpts NfsVolumeProvisionerNamespace PersistentVolumeSubsytem
       "create_total" "Total number of persistent volumes created")
    [Process].

Definition PersistentVolumeCreateFailedTotal : CounterVec :=
  NewCounterVec
    (mkCounterOpts NfsVolumeProvisionerNamespace PersistentVolumeSubsytem
       "create_failed_total" "Total number of persistent volume creation failed attempts")
    [Process].
