(* ===== verification/Prog.v ===== *)
(** * Programs that talk to the outside world

    A handler of the provisioner is a tree of requests: what it does next
    depends on the responses it gets.  [prog] is that tree, with Go's panic and
    the exhaustion of the fuel of a polling loop as two further ways to end.

    - [exec] is the relation between a program, the requests and responses of a
      (possibly unfinished) run, and how the run ended, for arbitrary
      responses;
    - [run] executes a program against a server given as a function;
    - [wp] is a weakest precondition over histories: [G] must allow every
      request when it is issued, and [Q] must hold when the program ends.
      [wp_exec] says what it proves about every run. *)

From S2P Require Import Prelude.

Section Prog.
Context {Req : Type} {Resp : Req -> Type}.

Inductive prog (A : Type) : Type :=
| PRet (a : A)
| PPanic
| PFuel
| PCall (r : Req) (k : Resp r -> prog A).
Arguments PRet {A} a.
Arguments PPanic {A}.
Arguments PFuel {A}.
Arguments PCall {A} r k.

Fixpoint prog_bind {A B} (f : A -> prog B) (p : prog A) : prog B :=
  match p with
  | PRet a => f a
  | PPanic => PPanic
  | PFuel => PFuel
  | PCall r k => PCall r (fun x => prog_bind f (k x))
  end.

#[export] Instance prog_MBind : MBind prog := @prog_bind.
#[export] Instance prog_MRet : MRet prog := @PRet.

Definition call (r : Req) : prog (Resp r) := PCall r PRet.

(** Go's [defer]: the clean-up runs when the function returns and when it
    panics. *)
Fixpoint defer {A} (cleanup : prog ()) (p : prog A) : prog A :=
  match p with
  | PRet a => prog_bind (fun _ => PRet a) cleanup
  | PPanic => prog_bind (fun _ => PPanic) cleanup
  | PFuel => PFuel
  | PCall r k => PCall r (fun x => defer cleanup (k x))
  end.

(** ** Runs *)

Record event := Event { ev_req : Req; ev_resp : Resp ev_req }.
Abbreviation history := (list event).

Inductive outcome (A : Type) :=
| Returned (a : A)
| Panicked
| OutOfFuel.
Arguments Returned {A} a.
Arguments Panicked {A}.
Arguments OutOfFuel {A}.

(** [None]: the run was cut before its end. *)
Inductive exec {A} : prog A -> history -> option (outcome A) -> Prop :=
| exec_ret a : exec (PRet a) [] (Some (Returned a))
| exec_panic : exec PPanic [] (Some Panicked)
| exec_fuel : exec PFuel [] (Some OutOfFuel)
| exec_cut p : exec p [] None
| exec_call r k x t o : exec (k x) t o -> exec (PCall r k) (Event r x :: t) o.

Lemma exec_inv {A} (p : prog A) t o :
  exec p t o ->
  match p with
  | PRet a => t = [] /\ (o = None \/ o = Some (Returned a))
  | PPanic => t = [] /\ (o = None \/ o = Some Panicked)
  | PFuel => t = [] /\ (o = None \/ o = Some OutOfFuel)
  | PCall r k =>
      (t = [] /\ o = None) \/ exists x t', t = Event r x :: t' /\ exec (k x) t' o
  end.
Proof.
  destruct 1 as [a| | |p|r k x t o He]; [by auto..| |right; by eauto].
  destruct p; auto.
Qed.

Lemma exec_call_inv {A} r (k : Resp r -> prog A) t o :
  exec (PCall r k) t (Some o) -> exists x t', t = Event r x :: t' /\ exec (k x) t' (Some o).
Proof. intros He%exec_inv. by destruct He as [[_ ?]|He]. Qed.

Lemma exec_ret_inv {A} (a : A) t o : exec (PRet a) t (Some o) -> t = [] /\ o = Returned a.
Proof. intros He%exec_inv. destruct He as [-> [?|[= ->]]]; done. Qed.

(** A server is a state and a function that answers requests. *)
Fixpoint run {S A} (serve : S -> forall r : Req, S * Resp r) (p : prog A) (s : S)
  : S * history * outcome A :=
  match p with
  | PRet a => (s, [], Returned a)
  | PPanic => (s, [], Panicked)
  | PFuel => (s, [], OutOfFuel)
  | PCall r k =>
      let '(s1, x) := serve s r in
      let '(s2, t, o) := run serve (k x) s1 in
      (s2, Event r x :: t, o)
  end.

Lemma run_exec {S A} serve (p : prog A) (s : S) :
  exec p (run serve p s).1.2 (Some (run serve p s).2).
Proof.
  revert s. induction p as [a| | |r k IH]; intros s; simpl; [constructor..|].
  destruct (serve s r) as [s1 x]. specialize (IH x s1).
  destruct (run serve (k x) s1) as [[s2 t] o]. by constructor.
Qed.

(** ** Weakest preconditions *)
Section Wp.
Context (G : history -> Req -> Prop).

Fixpoint wp {A} (p : prog A) (h : history) (Q : history -> outcome A -> Prop) : Prop :=
  match p with
  | PRet a => Q h (Returned a)
  | PPanic => Q h Panicked
  | PFuel => Q h OutOfFuel
  | PCall r k => G h r /\ forall x, wp (k x) (h ++ [Event r x]) Q
  end.

Lemma wp_mono {A} (p : prog A) h (Q Q' : history -> outcome A -> Prop) :
  (forall h' o, h `prefix_of` h' -> Q h' o -> Q' h' o) -> wp p h Q -> wp p h Q'.
Proof.
  revert h. induction p as [a| | |r k IH]; intros h HQ; simpl; [by apply HQ..|].
  intros [HG Hk]. split; [done|]. intros x. eapply IH; [|apply Hk].
  intros h' o Hp. apply HQ. etrans; [|done]. by apply prefix_app_r.
Qed.

Lemma wp_bind {A B} (f : A -> prog B) (p : prog A) h (Q : history -> outcome B -> Prop) :
  wp p h (fun h' o =>
    match o with
    | Returned a => wp (f a) h' Q
    | Panicked => Q h' Panicked
    | OutOfFuel => Q h' OutOfFuel
    end) ->
  wp (mbind f p) h Q.
Proof.
  revert h. induction p as [a| | |r k IH]; intros h; simpl; [done..|].
  intros [HG Hk]. split; [done|]. intros x. by apply IH.
Qed.

Lemma wp_defer {A} cleanup (p : prog A) h (Q : history -> outcome A -> Prop) :
  wp p h (fun h' o =>
    match o with
    | Returned a => wp cleanup h' (fun h'' o' =>
        match o' with Returned _ => Q h'' (Returned a) | Panicked => Q h'' Panicked | OutOfFuel => Q h'' OutOfFuel end)
    | Panicked => wp cleanup h' (fun h'' o' =>
        match o' with OutOfFuel => Q h'' OutOfFuel | _ => Q h'' Panicked end)
    | OutOfFuel => Q h' OutOfFuel
    end) ->
  wp (defer cleanup p) h Q.
Proof.
  revert h. induction p as [a| | |r k IH]; intros h; simpl.
  - intros Hc. apply (wp_bind (fun _ => PRet a)). eapply wp_mono, Hc. by intros ? [].
  - intros Hc. apply (wp_bind (fun _ => PPanic)). eapply wp_mono, Hc. by intros ? [].
  - done.
  - intros [HG Hk]. split; [done|]. intros x. by apply IH.
Qed.

(** What [wp] proves about a run: every request was allowed by what preceded
    it, and a finished run satisfies the postcondition. *)
Lemma wp_exec {A} (p : prog A) h Q t o :
  wp p h Q -> exec p t o ->
  (forall t1 e t2, t = t1 ++ e :: t2 -> G (h ++ t1) (ev_req e)) /\
  (forall o', o = Some o' -> Q (h ++ t) o').
Proof.
  intros Hwp Hex. revert h Hwp. induction Hex as [a| | |p|r k x t o Hex IH]; intros h Hwp.
  - split; [by intros []|]. intros o [= <-]. by rewrite app_nil_r.
  - split; [by intros []|]. intros o [= <-]. by rewrite app_nil_r.
  - split; [by intros []|]. intros o [= <-]. by rewrite app_nil_r.
  - split; [by intros []|done].
  - simpl in Hwp. destruct Hwp as [HG Hk]. destruct (IH _ (Hk x)) as [IH1 IH2]. split.
    + intros [|e1 t1] e t2 Ht; simplify_eq/=; [by rewrite app_nil_r|].
      specialize (IH1 t1 e t2 eq_refl). by rewrite <- app_assoc in IH1.
    + intros o' Ho. specialize (IH2 o' Ho). by rewrite <- app_assoc in IH2.
Qed.
End Wp.

(** Without a constraint on requests. *)
Lemma wp_weaken {A} (G G' : history -> Req -> Prop) (p : prog A) h Q :
  (forall h' r, h `prefix_of` h' -> G h' r -> G' h' r) -> wp G p h Q -> wp G' p h Q.
Proof.
  revert h. induction p as [a| | |r k IH]; intros h HG; simpl; [done..|].
  intros [Hr Hk]. split; [by apply HG|]. intros x. apply IH; [|done].
  intros h' r' Hp. apply HG. etrans; [|done]. by apply prefix_app_r.
Qed.

Lemma wp_and {A} (G1 G2 : history -> Req -> Prop) (p : prog A) h Q1 Q2 :
  wp G1 p h Q1 -> wp G2 p h Q2 ->
  wp (fun h r => G1 h r /\ G2 h r) p h (fun h o => Q1 h o /\ Q2 h o).
Proof.
  revert h. induction p as [a| | |r k IH]; intros h; simpl; [done..|].
  intros [H1 Hk1] [H2 Hk2]. split; [done|]. intros x. by apply IH.
Qed.
End Prog.

Arguments prog {Req} Resp A.
Arguments PRet {Req Resp A} a.
Arguments PPanic {Req Resp A}.
Arguments PFuel {Req Resp A}.
Arguments PCall {Req Resp A} r k.
Arguments event {Req} Resp.
Arguments Event {Req Resp} ev_req ev_resp.
Arguments Returned {A} a.
Arguments Panicked {A}.
Arguments OutOfFuel {A}.
