(* ===== verification/KubeAPI.v ===== *)
(** * The outside world of the provisioner

    The requests its code makes: the Kubernetes API server through the client
    set, the node lister, the provisioning tracker, the [select] of the waiting
    loops, the Prometheus counters, and what a hook reads while it runs (the
    order of a map range and the clock).  Responses are arbitrary; nothing is
    assumed about the server unless a theorem says so. *)

From S2P Require Import Prelude K8sTypes Hook Metrics Prog.

Inductive kind := KPVC | KPV | KService | KDeployment.

#[export] Instance kind_eq_dec : EqDecision kind.
Proof. solve_decision. Defined.

Section KubeAPI.
Context {C : CoreTypes}.

Definition obj_of (k : kind) : Type :=
  match k with
  | KPVC => PersistentVolumeClaim
  | KPV => PersistentVolume
  | KService => Service
  | KDeployment => Deployment
  end.

(** A usage event, as the builder of the analytics library is filled. *)
Record usage_event := mkUsage {
  use_engine : string;
  use_volume : string;
  use_claim : string;
  use_label : string;
  use_action : string;
  use_category : string;
  use_capacity : string;
}.

(** Cluster-scoped objects have the empty namespace. *)
Inductive req :=
| RGet (k : kind) (ns name : string)
| RCreate (k : kind) (ns : string) (o : obj_of k)
| RDelete (k : kind) (ns name : string)
| RPatch (k : kind) (ns name : string) (data : string)
| RListPVC (ns labelSelector : string)
| RGetStorageClass (name : string)
| RListNodes (selector : LabelSelector)
| RTrackAdd (pvName : string)
| RTrackDelete (pvName : string)
| RTrackInprogress (pvName : string)
| RSelectTick
| RSelectDone
| RHookEnv
| RInc (c : CounterVec) (process : string)
| RSend (e : usage_event).

Definition resp (r : req) : Type :=
  match r with
  | RGet k _ _ => api (obj_of k)
  | RCreate k _ _ => api (obj_of k)
  | RDelete _ _ _ => option apierr
  | RPatch k _ _ _ => api (obj_of k)
  | RListPVC _ _ => api (list PersistentVolumeClaim)
  | RGetStorageClass _ => api StorageClass
  | RListNodes _ => result (list string)
  | RTrackAdd _ | RTrackDelete _ => unit
  | RTrackInprogress _ => bool
  (** true: the ticker fired first; false: the other channel did *)
  | RSelectTick | RSelectDone => bool
  | RHookEnv => ActionEnv
  | RInc _ _ | RSend _ => unit
  end.

Definition io (A : Type) : Type := prog resp A.

#[global] Instance io_MBind : MBind io := @prog_MBind req resp.
#[global] Instance io_MRet : MRet io := @prog_MRet req resp.

Definition kget (k : kind) (ns name : string) : io (api (obj_of k)) := call (RGet k ns name).
Definition kcreate (k : kind) (ns : string) (o : obj_of k) : io (api (obj_of k)) :=
  call (RCreate k ns o).
Definition kdelete (k : kind) (ns name : string) : io (option apierr) := call (RDelete k ns name).
Definition kpatch (k : kind) (ns name data : string) : io (api (obj_of k)) :=
  call (RPatch k ns name data).

(** Runs an action of the hook with the order and the times of this moment. *)
Definition run_action (h : Hook) (obj : object) (resourceType : Z) (eventType : EventType)
  : io (result object) :=
  env ← (call RHookEnv : io ActionEnv);
  PRet (Action env h obj resourceType eventType).

(** [p.hook != nil && p.hook.ActionExists(..)] *)
Definition hook_guard (hook : option Hook) (resourceType : Z) (eventType : EventType) : option Hook :=
  match hook with
  | None => None
  | Some h => if ActionExists h resourceType eventType then Some h else None
  end.
End KubeAPI.

Abbreviation ev := (event resp).
