(* ===== verification/NamespaceBuilder.v ===== *)
(** * pkg/kubernetes/api/core/v1/namespace: the builder ([namespace.go]) *)

From S2P Require Import Prelude K8sTypes BuilderCore.

Section NamespaceBuilder.
Context {C : CoreTypes}.

(** [corev1.Namespace], by its metadata; the wrapper struct of the package only
    holds a pointer to it. *)
Record Namespace := mkNamespace { ns_meta : ObjectMeta }.

Definition Builder := builder Namespace.

Definition NewBuilder : Builder := mkBuilder (mkNamespace emptyMeta) [].

Definition on_meta (f : ObjectMeta -> ObjectMeta) (o : Namespace) : Namespace :=
  mkNamespace (f (ns_meta o)).

Definition WithName (name : string) : Builder -> Builder :=
  checked (bool_decide (String.length name = 0))
    "failed to build namespace: missing namespace name" (on_meta (set_Name name)).

(** The dash is appended even to an empty name. *)
Definition WithGenerateName (name : string) : Builder -> Builder :=
  upd (on_meta (set_GenerateName (name +:+ "-"))).

Definition Build (b : Builder) : result Namespace := build (ErrList EmptyString) b.

Definition APIObject (b : Builder) : result Namespace :=
  match Build b with
  | Err err => Err (ErrWrap err "failed to build APIObject")
  | Ok ns => Ok ns
  end.
End NamespaceBuilder.
