(* ===== verification/TypedClient.v ===== *)
(** * What the typed clients of pkg/kubernetes/api share ([kubernetes.go] in the
    packages of claims, volumes, services, deployments and namespaces)

    A typed client holds a clientset, nil until the first use, the ways to get
    one, and one function per operation; the function fields are nilable and
    calling a nil one is a panic.  The requests below are what the default
    functions do: connect, or one call of the clientset.  The four fields about
    the connection are the record [conn]. *)

From S2P Require Import Prelude GoStrings K8sTypes Prog KubeAPI KubeClient NamespaceBuilder.

(** The option structs of the API machinery, with their zero values. *)
Class ApiOptions := {
  GetOptions : Type;
  ListOptions : Type;
  DeleteOptions : Type;
  CreateOptions : Type;
  UpdateOptions : Type;
  PatchOptions : Type;
  PatchType : Type;
  zero_GetOptions : GetOptions;
  zero_CreateOptions : CreateOptions;
  zero_UpdateOptions : UpdateOptions;
  zero_PatchOptions : PatchOptions;
  (** [opts.PropagationPolicy = &DeletePropagationForeground] *)
  set_Foreground : DeleteOptions -> DeleteOptions;
  (** how [%v] prints the options of a list *)
  fmt_ListOptions : ListOptions -> string;
}.

Section TypedClient.
Context {C : CoreTypes} {L : ClientLib} {O : ApiOptions}.

Inductive resource := RObj (k : kind) | RNamespace.

Definition res_obj (r : resource) : Type :=
  match r with RObj k => obj_of k | RNamespace => Namespace end.

Inductive creq :=
(** [c.Clientset()], [c.Config()] and [client.Instance().Clientset()] *)
| CConnect (c : Client)
| CConfig (c : Client)
| CInstance
| CGet (r : resource) (cli : kube_Clientset) (ns name : string) (opts : GetOptions)
| CList (r : resource) (cli : kube_Clientset) (ns : string) (opts : ListOptions)
| CDelete (r : resource) (cli : kube_Clientset) (ns name : string) (opts : DeleteOptions)
| CDeleteCollection (r : resource) (cli : kube_Clientset) (ns : string)
    (dopts : DeleteOptions) (lopts : ListOptions)
(** the object is a pointer, which may be nil *)
| CCreate (r : resource) (cli : kube_Clientset) (ns : string) (o : option (res_obj r)) (opts : CreateOptions)
| CUpdate (r : resource) (cli : kube_Clientset) (ns : string) (o : option (res_obj r)) (opts : UpdateOptions)
| CPatch (r : resource) (cli : kube_Clientset) (ns name : string) (pt : PatchType) (data : string)
    (opts : PatchOptions) (subresources : list string).

Definition cresp (r : creq) : Type :=
  match r with
  | CConnect _ | CInstance => result kube_Clientset
  | CConfig _ => result rest_Config
  | CGet r _ _ _ _ | CCreate r _ _ _ _ | CUpdate r _ _ _ _ | CPatch r _ _ _ _ _ _ _ =>
      result (res_obj r)
  | CList r _ _ _ => result (list (res_obj r))
  | CDelete _ _ _ _ _ | CDeleteCollection _ _ _ _ _ => error
  end.

Definition cio (A : Type) : Type := prog cresp A.

#[global] Instance cio_MBind : MBind cio := @prog_MBind creq cresp.

(** ** The connection *)

Definition getClientsetFn : Type := cio (result kube_Clientset).
Definition getClientsetForPathFn : Type := string -> cio (result kube_Clientset).

Record conn := mkConn {
  clientset : option kube_Clientset;
  kubeConfigPath : string;
  getClientset : option getClientsetFn;
  getClientsetForPath : option getClientsetForPathFn;
}.

Definition zero_conn : conn := mkConn None EmptyString None None.

(** [return client.New().Clientset()] and [client.New(WithKubeConfigPath(path)).Clientset()] *)
Definition defaultGetClientset : getClientsetFn := (call (CConnect (New [])) : cio _).
Definition defaultGetClientsetForPath : getClientsetForPathFn := fun path =>
  (call (CConnect (New [KubeClient.WithKubeConfigPath path])) : cio _).

(** The two connection defaults of [withDefaults]; the first differs by package. *)
Definition conn_withDefaults (get : getClientsetFn) (c : conn) : conn :=
  mkConn (clientset c) (kubeConfigPath c) (or_default_fn (getClientset c) get)
    (or_default_fn (getClientsetForPath c) defaultGetClientsetForPath).

Definition set_clientset (cs : option kube_Clientset) (c : conn) : conn :=
  mkConn cs (kubeConfigPath c) (getClientset c) (getClientsetForPath c).
Definition set_path (path : string) (c : conn) : conn :=
  mkConn (clientset c) path (getClientset c) (getClientsetForPath c).

(** Calling a function field. *)
Definition call_fn {F A} (f : option F) (use : F -> cio A) : cio A :=
  match f with None => PPanic | Some f => use f end.

Definition getClientsetForPathOrDirect (c : conn) : cio (result kube_Clientset) :=
  if decide (kubeConfigPath c <> EmptyString)
  then call_fn (getClientsetForPath c) (fun f => f (kubeConfigPath c))
  else call_fn (getClientset c) id.

(** [wrap] is what the package does to the error of a failed connection. *)
Definition getClientsetOrCached_with (wrap : goerr -> goerr) (c : conn)
  : cio (conn * result kube_Clientset) :=
  match clientset c with
  | Some cs => PRet (c, Ok cs)
  | None =>
      r ← getClientsetForPathOrDirect c;
      match r with
      | Err err => PRet (c, Err (wrap err))
      | Ok cs => PRet (set_clientset (Some cs) c, Ok cs)
      end
  end.

Definition getClientsetOrCached : conn -> cio (conn * result kube_Clientset) :=
  getClientsetOrCached_with (fun err => ErrWrap err "failed to get clientset").

(** ** Operations

    An operation on a client record [K] that holds a connection: get the
    clientset, then use it.  [msg] is what the operation makes of the error of
    the connection. *)
Section Op.
Context {K : Type} (get_conn : K -> conn) (set_conn : conn -> K -> K).
Context (connect : conn -> cio (conn * result kube_Clientset)).

Definition with_cli {A} (msg : goerr -> goerr) (k : K) (use : kube_Clientset -> cio (result A))
  : cio (K * result A) :=
  '(c, r) ← connect (get_conn k);
  let k := set_conn c k in
  match r with
  | Err err => PRet (k, Err (msg err))
  | Ok cli =>
      a ← use cli;
      PRet (k, a)
  end.
End Op.

(** The error of a call without a value. *)
Definition to_result (e : error) : result () :=
  match e with None => Ok tt | Some err => Err err end.

Definition call_err (p : cio error) : cio (result ()) :=
  e ← p;
  PRet (to_result e).
End TypedClient.
