(* ===== verification/TypedClientFacts.v ===== *)
(** * What the typed clients promise

    A caller uses one client for a sequence of operations.  The client is [mk c],
    a package's record with every default function, around the connection [c];
    [session_run] is the proof, once for all packages, that whatever the API
    server answers no nil function is called, the clientset is asked for only
    while there is none, from the place the options say, and every API request
    goes through that clientset, to the resource and the namespace of the
    client, and satisfies the package's own guard. *)

From S2P Require Import Prelude GoStrings K8sTypes Prog KubeAPI KubeClient TypedClient.

Section TypedClientFacts.
Context {C : CoreTypes} {L : ClientLib} {O : ApiOptions}.

(** The clientset that an event provides. *)
Definition connected (e : event cresp) : option kube_Clientset :=
  match e with
  | Event r x =>
      match r return cresp r -> option kube_Clientset with
      | CConnect _ | CInstance => fun x => match x with Ok cs => Some cs | Err _ => None end
      | CConfig _ => fun x =>
          match x with
          | Ok cfg => match kubernetes_NewForConfig cfg with Ok cs => Some cs | Err _ => None end
          | Err _ => None
          end
      | _ => fun _ => None
      end x
  end.

(** The resource, the clientset and the namespace of an API request. *)
Definition target (r : creq) : option (resource * kube_Clientset * string) :=
  match r with
  | CConnect _ | CConfig _ | CInstance => None
  | CGet rs cli ns _ _ | CDelete rs cli ns _ _ | CPatch rs cli ns _ _ _ _ _
  | CList rs cli ns _ | CDeleteCollection rs cli ns _ _
  | CCreate rs cli ns _ _ | CUpdate rs cli ns _ _ => Some (rs, cli, ns)
  end.

(** What distinguishes a client: its resource and namespace, how it connects
    without a path, the path and the clientset it was given, and a guard on its
    API requests. *)
Record profile := mkProfile {
  pf_resource : resource;
  pf_ns : string;
  pf_direct : creq;
  pf_path : string;
  pf_clientset : option kube_Clientset;
  pf_guard : creq -> Prop;
}.

Definition known (pf : profile) (h : list (event cresp)) : option kube_Clientset :=
  match pf_clientset pf with
  | Some cs => Some cs
  | None => head (omap connected h)
  end.

Definition connect_req (pf : profile) : creq :=
  if decide (pf_path pf <> EmptyString)
  then CConnect (New [KubeClient.WithKubeConfigPath (pf_path pf)]) else pf_direct pf.

Lemma connect_req_direct pf : pf_path pf = EmptyString -> connect_req pf = pf_direct pf.
Proof. unfold connect_req. intros ->. by case_decide. Qed.

Definition allowed (pf : profile) (h : list (event cresp)) (r : creq) : Prop :=
  match target r with
  | None => known pf h = None /\ r = connect_req pf
  | Some (rs, cli, ns) =>
      rs = pf_resource pf /\ ns = pf_ns pf /\ known pf h = Some cli /\ pf_guard pf r
  end.

Lemma known_snoc pf h e :
  known pf (h ++ [e]) = match known pf h with Some cs => Some cs | None => connected e end.
Proof.
  unfold known. destruct (pf_clientset pf); [done|]. rewrite omap_app. simpl.
  destruct (omap connected h); simpl; [|done]. by destruct (connected e).
Qed.

Lemma known_keep pf h e cs : known pf h = Some cs -> known pf (h ++ [e]) = Some cs.
Proof. intros Hk. by rewrite known_snoc, Hk. Qed.

(** A default way to connect does one request and provides what it returns. *)
Definition connects (pf : profile) (get : getClientsetFn) : Prop :=
  forall h, known pf h = None -> pf_path pf = EmptyString ->
    wp (allowed pf) get h (fun h' o => exists r, o = Returned r /\
      known pf h' = match r with Ok cs => Some cs | Err _ => None end).

(** When it is one request that returns the clientset. *)
Lemma connects_call pf (r : creq) (f : cresp r -> result kube_Clientset) :
  target r = None -> pf_direct pf = r ->
  (forall x, connected (Event r x) = match f x with Ok cs => Some cs | Err _ => None end) ->
  connects pf (PCall r (fun x => PRet (f x))).
Proof.
  intros Ht Hr Hf h Hk Hp. split.
  - unfold allowed. rewrite Ht, (connect_req_direct pf Hp). done.
  - intros x. exists (f x). split; [done|]. by rewrite known_snoc, Hk.
Qed.

Record conn_inv (pf : profile) (get : getClientsetFn) (c : conn) (h : list (event cresp)) : Prop := {
  ci_known : clientset c = known pf h;
  ci_path : kubeConfigPath c = pf_path pf;
  ci_get : getClientset c = Some get;
  ci_getForPath : getClientsetForPath c = Some defaultGetClientsetForPath;
}.

Section Session.
Context (pf : profile) (get : getClientsetFn) (Hget : connects pf get).

Abbreviation W := (wp (allowed pf)).

Lemma wp_connect c h :
  conn_inv pf get c h -> known pf h = None ->
  W (getClientsetForPathOrDirect c) h (fun h' o => exists r, o = Returned r /\
      known pf h' = match r with Ok cs => Some cs | Err _ => None end).
Proof using Hget.
  intros [_ Hp Hg Hf] Hn. unfold getClientsetForPathOrDirect. rewrite Hp, Hg, Hf. case_decide as Hd; cbn.
  - split.
    + split; [done|]. unfold connect_req. by case_decide.
    + intros r. exists r. split; [done|]. rewrite known_snoc, Hn. by destruct r.
  - by apply Hget.
Qed.

Lemma wp_cached wrap c h :
  conn_inv pf get c h ->
  W (getClientsetOrCached_with wrap c) h (fun h' o => exists c' r, o = Returned (c', r) /\
      conn_inv pf get c' h' /\ match r with Ok cs => known pf h' = Some cs | Err _ => True end).
Proof using Hget.
  intros Hc. unfold getClientsetOrCached_with. destruct (clientset c) as [cs|] eqn:Hcs.
  - exists c, (Ok cs). split; [done|]. split; [done|]. by rewrite <- (ci_known _ _ _ _ Hc), Hcs.
  - apply (wp_bind (allowed pf)). eapply wp_mono, wp_connect; [|done|].
    + intros h' o _ (r & -> & Hk). destruct Hc as [_ Hp Hg Hf]. destruct r as [cs|e]; simpl.
      * exists (set_clientset (Some cs) c), (Ok cs). split; [done|]. split; [by constructor|done].
      * exists c, (Err (wrap e)). split; [done|]. split; [|done]. constructor; [|done..]. by rewrite Hk.
    + by rewrite <- (ci_known _ _ _ _ Hc).
Qed.

(** One request of the API: allowed once there is a clientset, and the
    connection is as before. *)
Definition one_request {A} (cli : kube_Clientset) (p : cio A) : Prop :=
  match p with
  | PCall r k =>
      target r = Some (pf_resource pf, cli, pf_ns pf) /\ pf_guard pf r /\
      forall x, exists a, k x = PRet a
  | _ => False
  end.

Lemma wp_api {A} (p : cio A) cli c h :
  one_request cli p -> conn_inv pf get c h -> known pf h = Some cli ->
  W p h (fun h' o => (exists a, o = Returned a) /\ conn_inv pf get c h').
Proof.
  destruct p as [| | |r k]; [done..|]. intros (Ht & Hg & Hret) [Hc Hp Hgt Hf] Hk. split.
  - unfold allowed. rewrite Ht. done.
  - intros x. destruct (Hret x) as [a ->]. split; [by eexists|]. constructor; [|done..]. rewrite Hc, Hk. symmetry. by apply known_keep.
Qed.

Context {K : Type}.

(** An operation for its effect on the client. *)
Definition next {A} (p : cio (K * A)) : cio K := '(k, _) ← p; PRet k.

Context {Op : Type} (mk : conn -> K) (step : Op -> K -> cio K).

(** Stops at the first operation that does not return. *)
Fixpoint session (ops : list Op) (k : K) : cio K :=
  match ops with
  | [] => PRet k
  | op :: ops => k ← step op k; session ops k
  end.

(** What a step or an operation of a client establishes. *)
Definition keeps {A} (p : cio (K * A)) (h : list (event cresp)) : Prop :=
  W p h (fun h' o => exists c a, o = Returned (mk c, a) /\ conn_inv pf get c h').

Lemma keeps_next {A} (p : cio (K * A)) h :
  keeps p h -> W (next p) h (fun h' o => exists c, o = Returned (mk c) /\ conn_inv pf get c h').
Proof.
  intros Hk. apply (wp_bind (allowed pf)). eapply wp_mono, Hk.
  intros h' o _ (c & a & -> & Hc). by exists c.
Qed.

Lemma wp_session ops c h :
  (forall op c h, conn_inv pf get c h ->
     W (step op (mk c)) h (fun h' o => exists c', o = Returned (mk c') /\ conn_inv pf get c' h')) ->
  conn_inv pf get c h ->
  W (session ops (mk c)) h (fun h' o => exists c', o = Returned (mk c') /\ conn_inv pf get c' h').
Proof.
  intros Hs. revert c h. induction ops as [|op ops IH]; intros c h Hc; [by exists c|].
  cbn [session]. apply (wp_bind (allowed pf)). eapply wp_mono, Hs; [|done].
  intros h' o _ (c' & -> & Hc'). by apply IH.
Qed.

Context (get_conn : K -> conn) (put_conn : conn -> K -> K).
Context (Hgc : forall c, get_conn (mk c) = c) (Hpc : forall c c', put_conn c' (mk c) = mk c').

Lemma keeps_with_cli {A} wrap msg c h (use : kube_Clientset -> cio (result A)) :
  conn_inv pf get c h ->
  (forall c' h' cli, conn_inv pf get c' h' -> known pf h' = Some cli ->
     W (use cli) h' (fun h'' o => (exists a, o = Returned a) /\ conn_inv pf get c' h'')) ->
  keeps (with_cli get_conn put_conn (getClientsetOrCached_with wrap) msg (mk c) use) h.
Proof using Hget Hgc Hpc.
  intros Hc Hu. unfold keeps, with_cli. apply (wp_bind (allowed pf)). rewrite Hgc.
  eapply wp_mono, wp_cached; [|done]. intros h' o _ (c' & r & -> & Hc' & Hr). rewrite Hpc.
  destruct r as [cli|e]; [|by exists c', (Err (msg e))].
  apply (wp_bind (allowed pf)). eapply wp_mono, Hu; [|done..].
  intros h'' o' _ ((a & ->) & Hc''). by exists c', a.
Qed.

(** The common case: one request with the clientset. *)
Lemma keeps_request {A} wrap msg c h (use : kube_Clientset -> cio (result A)) :
  conn_inv pf get c h ->
  (forall cli, one_request cli (use cli)) ->
  keeps (with_cli get_conn put_conn (getClientsetOrCached_with wrap) msg (mk c) use) h.
Proof using Hget Hgc Hpc.
  intros Hc Hu. apply keeps_with_cli; [done|]. intros c' h' cli Hc' Hk.
  by apply (wp_api _ cli).
Qed.

Lemma keeps_ret {A} (a : A) c h : conn_inv pf get c h -> keeps (PRet (mk c, a)) h.
Proof. intros Hc. by exists c, a. Qed.

(** What [keeps] and [wp_session] say about runs. *)
Lemma session_run ops c t o :
  (forall op c h, conn_inv pf get c h ->
     W (step op (mk c)) h (fun h' o => exists c', o = Returned (mk c') /\ conn_inv pf get c' h')) ->
  conn_inv pf get c [] -> exec (session ops (mk c)) t o ->
  (forall t1 e t2, t = t1 ++ e :: t2 -> allowed pf t1 (ev_req e)) /\
  (forall o', o = Some o' -> exists c', o' = Returned (mk c') /\ clientset c' = known pf t).
Proof.
  intros Hs Hc He.
  destruct (wp_exec (allowed pf) _ [] _ t o (wp_session ops c [] Hs Hc) He) as [Ha Ho].
  split; [done|]. intros o' Ho'. destruct (Ho o' Ho') as (c' & -> & Hc'). exists c'. split; [done|].
  exact (ci_known _ _ _ _ Hc').
Qed.
End Session.
End TypedClientFacts.

(** Closes the goal that an operation with one request keeps the client, from
    the lemma that its way to connect is one. *)
Ltac request conn :=
  apply keeps_request; [apply conn|done..|]; intros cli; repeat (split; [done|]);
  first [by eexists | intros []; by eexists].

(** A guard of several packages: reads and deletions name an object. *)
Definition named `{C : CoreTypes} {L : ClientLib} {O : ApiOptions} (r : creq) : Prop :=
  match r with
  | CGet _ _ _ name _ | CDelete _ _ _ name _ => TrimSpace name <> EmptyString
  | _ => True
  end.

(** ** An example server

    It connects, finds no object, and creates what it is given. *)
Definition example_options : ApiOptions := {|
  GetOptions := (); ListOptions := (); DeleteOptions := bool; CreateOptions := ();
  UpdateOptions := (); PatchOptions := (); PatchType := string;
  zero_GetOptions := tt; zero_CreateOptions := tt; zero_UpdateOptions := tt;
  zero_PatchOptions := tt; set_Foreground := fun _ => true; fmt_ListOptions := fun _ => EmptyString;
|}.

Definition example_serve (C : CoreTypes)
  (s : ()) (r : @creq C example_lib example_options)
  : () * @cresp C example_lib example_options r :=
  (s, match r return @cresp C example_lib example_options r with
      | CConnect _ | CInstance => Ok "clientset"
      | CConfig _ => Ok "config"
      | CList _ _ _ _ => Ok []
      | CDelete _ _ _ _ _ | CDeleteCollection _ _ _ _ _ => None
      | CCreate _ _ _ (Some o) _ => Ok o
      | CCreate _ _ _ None _ => Err (ErrNew "nil object")
      | CGet _ _ _ _ _ | CUpdate _ _ _ _ _ | CPatch _ _ _ _ _ _ _ _ =>
          Err (ErrAPI APINotFound)
      end).
