(* ===== verification/PVCClient.v ===== *)
(** * pkg/kubernetes/api/core/v1/persistentvolumeclaim: the typed client
    ([kubernetes.go]) *)

From S2P Require Import Prelude GoStrings K8sTypes Prog KubeAPI KubeClient TypedClient TypedClientFacts Concrete.

Section PVCClient.
Context {C : CoreTypes} {L : ClientLib} {O : ApiOptions}.

Definition getFn : Type := kube_Clientset -> string -> string -> GetOptions ->
  cio (result PersistentVolumeClaim).
Definition listFn : Type := kube_Clientset -> string -> ListOptions ->
  cio (result (list PersistentVolumeClaim)).
(** A pointer to options may be nil, and so may the one to an object. *)
Definition deleteFn : Type := kube_Clientset -> string -> string -> option DeleteOptions ->
  cio (result ()).
Definition deleteCollectionFn : Type := kube_Clientset -> string -> ListOptions ->
  option DeleteOptions -> cio (result ()).
Definition createFn : Type := kube_Clientset -> string -> option PersistentVolumeClaim -> CreateOptions ->
  cio (result PersistentVolumeClaim).
Definition updateFn : Type := kube_Clientset -> string -> option PersistentVolumeClaim -> UpdateOptions ->
  cio (result PersistentVolumeClaim).

Record Kubeclient := mkKube {
  k_conn : conn;
  namespace : string;
  list_fn : option listFn;
  get_fn : option getFn;
  create_fn : option createFn;
  update_fn : option updateFn;
  del_fn : option deleteFn;
  delCollection_fn : option deleteCollectionFn;
}.

Definition KubeclientBuildOption : Type := Kubeclient -> Kubeclient.

Definition set_conn (c : conn) (k : Kubeclient) : Kubeclient :=
  mkKube c (namespace k) (list_fn k) (get_fn k) (create_fn k) (update_fn k) (del_fn k)
    (delCollection_fn k).

(** The functions that [withDefaults] sets. *)
Definition defaultGet : getFn := fun cli name namespace opts =>
  (call (CGet (RObj KPVC) cli namespace name opts) : cio _).
Definition defaultList : listFn := fun cli namespace opts =>
  (call (CList (RObj KPVC) cli namespace opts) : cio _).
Definition defaultDel : deleteFn := fun cli namespace name deleteOpts =>
  call_fn deleteOpts (fun o => call_err (call (CDelete (RObj KPVC) cli namespace name o))).
Definition defaultDelCollection : deleteCollectionFn := fun cli namespace listOpts deleteOpts =>
  call_fn deleteOpts (fun o =>
    call_err (call (CDeleteCollection (RObj KPVC) cli namespace o listOpts))).
Definition defaultCreate : createFn := fun cli namespace pvc createOpts =>
  (call (CCreate (RObj KPVC) cli namespace pvc createOpts) : cio _).
Definition defaultUpdate : updateFn := fun cli namespace pvc updateOpts =>
  (call (CUpdate (RObj KPVC) cli namespace pvc updateOpts) : cio _).

Definition withDefaults (k : Kubeclient) : Kubeclient :=
  mkKube (conn_withDefaults defaultGetClientset (k_conn k)) (namespace k)
    (or_default_fn (list_fn k) defaultList) (or_default_fn (get_fn k) defaultGet)
    (or_default_fn (create_fn k) defaultCreate) (or_default_fn (update_fn k) defaultUpdate)
    (or_default_fn (del_fn k) defaultDel)
    (or_default_fn (delCollection_fn k) defaultDelCollection).

(** A nil clientset is a value too. *)
Definition WithClientSet (c : option kube_Clientset) : KubeclientBuildOption := fun k =>
  set_conn (set_clientset c (k_conn k)) k.
Definition WithKubeConfigPath (path : string) : KubeclientBuildOption := fun k =>
  set_conn (set_path path (k_conn k)) k.

(** [&Kubeclient{}] *)
Definition zero_kube : Kubeclient := mkKube zero_conn EmptyString None None None None None None.

Definition NewKubeClient (opts : list KubeclientBuildOption) : Kubeclient :=
  withDefaults (fold_left (fun k o => o k) opts zero_kube).

Definition WithNamespace (namespace : string) (k : Kubeclient) : Kubeclient :=
  mkKube (k_conn k) namespace (list_fn k) (get_fn k) (create_fn k) (update_fn k) (del_fn k)
    (delCollection_fn k).

Definition with_clientset {A} := with_cli (A := A) k_conn set_conn getClientsetOrCached.

Definition Get (name : string) (opts : GetOptions) (k : Kubeclient)
  : cio (Kubeclient * result PersistentVolumeClaim) :=
  if decide (TrimSpace name = EmptyString)
  then PRet (k, Err (ErrNew "failed to get pvc: missing pvc name"))
  else with_clientset (fun err => ErrWrap err ("failed to get pvc {" +:+ name +:+ "}")) k
    (fun cli => call_fn (get_fn k) (fun get => get cli name (namespace k) opts)).

Definition List (opts : ListOptions) (k : Kubeclient)
  : cio (Kubeclient * result (list PersistentVolumeClaim)) :=
  with_clientset (fun err => ErrWrap err ("failed to list pvc listoptions: '"
      +:+ fmt_ListOptions opts +:+ "'")) k
    (fun cli => call_fn (list_fn k) (fun list => list cli (namespace k) opts)).

Definition Delete (name : string) (deleteOpts : option DeleteOptions) (k : Kubeclient)
  : cio (Kubeclient * result ()) :=
  if decide (TrimSpace name = EmptyString)
  then PRet (k, Err (ErrNew "failed to delete pvc: missing pvc name"))
  else with_clientset (fun err => ErrWrap err ("failed to delete pvc {" +:+ name +:+ "}")) k
    (fun cli => call_fn (del_fn k) (fun del => del cli (namespace k) name deleteOpts)).

Definition Create (pvc : option PersistentVolumeClaim) (k : Kubeclient)
  : cio (Kubeclient * result PersistentVolumeClaim) :=
  match pvc with
  | None => PRet (k, Err (ErrNew "failed to create pvc: nil pvc object"))
  | Some pvc =>
      with_clientset (fun err => ErrWrap err ("failed to create pvc {" +:+ Name (pvc_meta pvc)
          +:+ "} in namespace {" +:+ Namespace (pvc_meta pvc) +:+ "}")) k
        (fun cli => call_fn (create_fn k) (fun create =>
           create cli (namespace k) (Some pvc) zero_CreateOptions))
  end.

Definition Update (pvc : option PersistentVolumeClaim) (k : Kubeclient)
  : cio (Kubeclient * result PersistentVolumeClaim) :=
  match pvc with
  | None => PRet (k, Err (ErrNew "failed to update pvc: nil pvc object"))
  | Some pvc =>
      with_clientset (fun err => ErrWrap err ("failed to update pvc {" +:+ Name (pvc_meta pvc)
          +:+ "} in namespace {" +:+ Namespace (pvc_meta pvc) +:+ "}")) k
        (fun cli => call_fn (update_fn k) (fun update =>
           update cli (namespace k) (Some pvc) zero_UpdateOptions))
  end.

(** The loop of [CreateCollection]: what was created so far is dropped on the
    first error. *)
Fixpoint create_items (items newlist : list PersistentVolumeClaim) (k : Kubeclient)
  : cio (Kubeclient * result (list PersistentVolumeClaim)) :=
  match items with
  | [] => PRet (k, Ok newlist)
  | item :: items =>
      '(k, r) ← Create (Some item) k;
      match r with
      | Err err => PRet (k, Err err)
      | Ok obj => create_items items (newlist ++ [obj]) k
      end
  end.

Definition CreateCollection (list : option (list PersistentVolumeClaim)) (k : Kubeclient)
  : cio (Kubeclient * result (Datatypes.list PersistentVolumeClaim)) :=
  match list with
  | None | Some [] => PRet (k, Err (ErrNew "failed to create list of pvcs: nil pvc list provided"))
  | Some items => create_items items [] k
  end.

Definition DeleteCollection (listOpts : ListOptions) (deleteOpts : option DeleteOptions)
  (k : Kubeclient) : cio (Kubeclient * result ()) :=
  with_clientset (fun err => ErrWrap err "failed to delete the collection of pvcs") k
    (fun cli => call_fn (delCollection_fn k) (fun delCollection =>
       delCollection cli (namespace k) listOpts deleteOpts)).
End PVCClient.

(** ** A client in use *)
Section PVCClientFacts.
Context {C : CoreTypes} {L : ClientLib} {O : ApiOptions}.

(** The options of the package. *)
Inductive pvc_option : KubeclientBuildOption -> Prop :=
| pvc_o_clientset c : pvc_option (WithClientSet c)
| pvc_o_path path : pvc_option (WithKubeConfigPath path).

(** A caller's operations, with options that are not nil. *)
Inductive pvc_op :=
| PVCGet (name : string) (opts : GetOptions)
| PVCList (opts : ListOptions)
| PVCDelete (name : string) (opts : DeleteOptions)
| PVCCreate (pvc : option PersistentVolumeClaim)
| PVCUpdate (pvc : option PersistentVolumeClaim)
| PVCCreateCollection (pvcs : option (list PersistentVolumeClaim))
| PVCDeleteCollection (lopts : ListOptions) (dopts : DeleteOptions).

Definition pvc_step (op : pvc_op) (k : Kubeclient) : cio Kubeclient :=
  match op with
  | PVCGet name opts => next (Get name opts k)
  | PVCList opts => next (List opts k)
  | PVCDelete name opts => next (Delete name (Some opts) k)
  | PVCCreate pvc => next (Create pvc k)
  | PVCUpdate pvc => next (Update pvc k)
  | PVCCreateCollection pvcs => next (CreateCollection pvcs k)
  | PVCDeleteCollection lopts dopts => next (DeleteCollection lopts (Some dopts) k)
  end.

(** The client of this package around a connection. *)
Definition pvc_client (ns : string) (c : conn) : Kubeclient :=
  mkKube c ns (Some defaultList) (Some defaultGet) (Some defaultCreate) (Some defaultUpdate)
    (Some defaultDel) (Some defaultDelCollection).

Definition pvc_profile (ns : string) (k : Kubeclient) : profile :=
  mkProfile (RObj KPVC) ns (CConnect (New [])) (kubeConfigPath (k_conn k)) (clientset (k_conn k)) named.

Lemma pvc_new ns opts :
  Forall pvc_option opts ->
  exists c, WithNamespace ns (NewKubeClient opts) = pvc_client ns c /\
    conn_inv (pvc_profile ns (NewKubeClient opts)) defaultGetClientset c [].
Proof.
  intros Ho.
  assert (Hf : forall cs p, exists cs' p', fold_left (fun k o => o k) opts
      (set_conn (mkConn cs p None None) zero_kube) = set_conn (mkConn cs' p' None None) zero_kube).
  { induction Ho as [|o opts [c|path] Hopts IH]; intros cs p; [by eexists _, _|apply IH..]. }
  destruct (Hf None EmptyString) as (cs & p & Hk).
  unfold NewKubeClient. change zero_kube with (set_conn (mkConn None EmptyString None None) zero_kube).
  rewrite Hk. eexists. split; [reflexivity|]. constructor; [|done..].
  unfold known. simpl. by destruct cs.
Qed.

Section Runs.
Context (ns : string) (k0 : Kubeclient).

Abbreviation pf := (pvc_profile ns k0).
Abbreviation inv := (conn_inv pf defaultGetClientset).
Abbreviation kept := (keeps pf defaultGetClientset (pvc_client ns)).

Lemma pvc_connects : connects pf defaultGetClientset.
Proof. apply (connects_call pf (CConnect (New [])) id); [done..|]. by intros [cs|e]. Qed.

Lemma pvc_Create_keeps pvc c h : inv c h -> kept (Create pvc (pvc_client ns c)) h.
Proof.
  intros Hc. destruct pvc as [pvc|]; [|by apply keeps_ret]. unfold Create, with_clientset. request pvc_connects.
Qed.

Lemma pvc_create_items_keeps items newlist c h :
  inv c h -> kept (create_items items newlist (pvc_client ns c)) h.
Proof.
  revert newlist c h. induction items as [|item items IH]; intros newlist c h Hc.
  - by apply keeps_ret.
  - cbn [create_items]. apply wp_bind. eapply wp_mono, (pvc_Create_keeps (Some item) c h Hc).
    intros h' o _ (c' & [obj|err] & -> & Hc'); [by apply IH|by eexists _, _].
Qed.

Lemma pvc_step_keeps op c h :
  inv c h -> wp (allowed pf) (pvc_step op (pvc_client ns c)) h
    (fun h' o => exists c', o = Returned (pvc_client ns c') /\ inv c' h').
Proof.
  intros Hc. destruct op as [name opts|opts|name opts|pvc|pvc|pvcs|lopts dopts]; apply keeps_next.
  - unfold Get, with_clientset. case_decide; [by apply keeps_ret|request pvc_connects].
  - unfold List, with_clientset. request pvc_connects.
  - unfold Delete, with_clientset. case_decide; [by apply keeps_ret|request pvc_connects].
  - by apply pvc_Create_keeps.
  - destruct pvc as [pvc|]; [|by apply keeps_ret]. unfold Update, with_clientset. request pvc_connects.
  - destruct pvcs as [[|item items]|]; [by apply keeps_ret| |by apply keeps_ret].
    by apply (pvc_create_items_keeps (item :: items)).
  - unfold DeleteCollection, with_clientset. request pvc_connects.
Qed.
End Runs.

(** C33: whatever a caller does with a client of claims and whatever the API
    server answers, no operation panics; the clientset is asked for only while
    there is none, at the path that was given or else with the defaults, and the
    first one obtained is kept; every request goes through it, to claims of the
    client's namespace; and no read or deletion has a blank name. *)
Theorem pvc_client_runs ns opts ops t o :
  Forall pvc_option opts ->
  exec (session pvc_step ops (WithNamespace ns (NewKubeClient opts))) t o ->
  (forall t1 e t2, t = t1 ++ e :: t2 ->
     allowed (pvc_profile ns (NewKubeClient opts)) t1 (ev_req e)) /\
  (forall o', o = Some o' -> exists k, o' = Returned k /\
     clientset (k_conn k) = known (pvc_profile ns (NewKubeClient opts)) t).
Proof.
  intros (c & -> & Hc)%(pvc_new ns) He.
  destruct (session_run _ _ (pvc_client ns) _ ops c t o (pvc_step_keeps ns _) Hc He) as [Ha Ho].
  split; [done|]. intros o' Ho'. destruct (Ho o' Ho') as (c' & -> & Hk). by eexists.
Qed.

(** ** The loop of [CreateCollection] *)

Definition create_req (ns : string) (cs : kube_Clientset) (pvc : PersistentVolumeClaim) : creq :=
  CCreate (RObj KPVC) cs ns (Some pvc) zero_CreateOptions.

(** The claim that the answer to a creation holds. *)
Definition created (e : event cresp) : option PersistentVolumeClaim :=
  match e with
  | Event r x =>
      match r return cresp r -> option PersistentVolumeClaim with
      | CCreate rs _ _ _ _ =>
          match rs return result (res_obj rs) -> option PersistentVolumeClaim with
          | RObj KPVC => fun x => match x with Ok o => Some o | Err _ => None end
          | _ => fun _ => None
          end
      | _ => fun _ => None
      end x
  end.

Section Collection.
Context (ns : string) (cs : kube_Clientset) (path : string).
Context (get : option getClientsetFn) (getForPath : option getClientsetForPathFn).

Let k := pvc_client ns (mkConn (Some cs) path get getForPath).

(** What a finished run of the loop did, for the items it was given. *)
Definition collection_post (items newlist : list PersistentVolumeClaim) (t : list (event cresp))
  (r : result (list PersistentVolumeClaim)) : Prop :=
  match r with
  | Ok l => exists l', l = newlist ++ l' /\ ev_req <$> t = create_req ns cs <$> items /\
      created <$> t = Some <$> l'
  | Err err => exists done item rest t', items = done ++ item :: rest /\
      t = t' ++ [Event (create_req ns cs item) (Err err)] /\
      ev_req <$> t' = create_req ns cs <$> done /\ Forall (fun e => is_Some (created e)) t'
  end.

Lemma create_items_run items newlist t o :
  exec (create_items items newlist k) t (Some o) ->
  exists r, o = Returned (k, r) /\ collection_post items newlist t r.
Proof.
  revert newlist t. induction items as [|item items IH]; intros newlist t He.
  - apply exec_ret_inv in He as [-> ->]. eexists. split; [done|]. exists []. by rewrite app_nil_r.
  - apply exec_call_inv in He as (x & t' & -> & He). destruct x as [obj|err]; cbn in He.
    + destruct (IH _ _ He) as (r & -> & Hr). exists r. split; [done|]. destruct r as [l|err].
      * destruct Hr as (l' & -> & Hq & Hc). exists (obj :: l'). split; [by rewrite <- app_assoc|].
        split; [by rewrite !fmap_cons, Hq|by rewrite !fmap_cons, Hc].
      * destruct Hr as (done & i & rest & t1 & -> & -> & Hq & Hc).
        exists (item :: done), i, rest, (Event (create_req ns cs item) (Ok obj) :: t1).
        split; [done|]. split; [done|]. split; [by rewrite !fmap_cons, Hq|]. constructor; [by eexists|done].
    + apply exec_ret_inv in He as [-> ->]. eexists. split; [done|].
      by exists [], item, items, [].
Qed.
End Collection.

(** C36: with a clientset, creating a collection creates its items one by one in
    their order and returns what the API server made of them, in that order; the
    first error ends it, is returned as it is, and leaves the items before it
    created; an empty or a nil list is refused without a request. *)
Theorem CreateCollection_runs ns cs path get getForPath items t o :
  let k := pvc_client ns (mkConn (Some cs) path get getForPath) in
  exec (CreateCollection items k) t (Some o) ->
  exists r, o = Returned (k, r) /\
    match items with
    | None | Some [] => t = [] /\ exists e, r = Err e
    | Some l => collection_post ns cs l [] t r
    end.
Proof.
  intros k He. destruct items as [[|item items]|].
  - apply exec_ret_inv in He as [-> ->]. eexists. split; [done|]. split; [done|]. by eexists.
  - by apply create_items_run.
  - apply exec_ret_inv in He as [-> ->]. eexists. split; [done|]. split; [done|]. by eexists.
Qed.
End PVCClientFacts.

(** A blank name, a read, and a deletion: the client connects once. *)
Definition pvc_example_ops : list (@pvc_op Concrete.core example_options) :=
  [PVCGet (O := example_options) " " tt; PVCGet (O := example_options) "nfs-pvc-1" tt;
   PVCDelete (O := example_options) "nfs-pvc-1" false].

Definition pvc_example : @cio Concrete.core example_lib example_options _ :=
  session (pvc_step (C := Concrete.core) (L := example_lib) (O := example_options))
    pvc_example_ops
    (WithNamespace "openebs" (NewKubeClient [WithKubeConfigPath "/etc/kube"])).

Lemma pvc_client_runs_witness :
  let '(_, t, o) := run (example_serve Concrete.core) pvc_example () in
  length t = 3 /\ exists k, o = Returned k /\ clientset (k_conn k) = Some "clientset".
Proof.
  destruct (run (example_serve Concrete.core) pvc_example ()) as [[s t] o] eqn:Hrun.
  pose proof (run_exec (example_serve Concrete.core) pvc_example ()) as He. rewrite Hrun in He.
  destruct (pvc_client_runs (O := example_options) "openebs" [WithKubeConfigPath "/etc/kube"]
    pvc_example_ops t (Some o)) as [_ Ho].
  - repeat constructor.
  - exact He.
  - injection Hrun as <- <- <-. split; [reflexivity|].
    destruct (Ho _ eq_refl) as (k & Hk & Hc). exists k. split; [exact Hk|]. rewrite Hc. reflexivity.
Defined.

(** Two claims are created one after the other. *)
Definition example_claims : option (list (@PersistentVolumeClaim Concrete.core)) :=
  Some [emptyPVC; emptyPVC].

Definition example_collection :=
  CreateCollection (C := Concrete.core) (L := example_lib) (O := example_options) example_claims
    (pvc_client "openebs" (mkConn (Some "clientset" : option (@kube_Clientset example_lib))
       EmptyString None None)).

Lemma CreateCollection_runs_witness :
  let '(_, t, o) := run (example_serve Concrete.core) example_collection () in
  length t = 2 /\ exists k r, o = Returned (k, r) /\ is_ok r = true.
Proof.
  destruct (run (example_serve Concrete.core) example_collection ()) as [[s t] o] eqn:Hrun.
  pose proof (run_exec (example_serve Concrete.core) example_collection ()) as He. rewrite Hrun in He.
  destruct (CreateCollection_runs (C := Concrete.core) (L := example_lib) (O := example_options)
    "openebs" "clientset" EmptyString None None example_claims t o) as (r & -> & _); [exact He|].
  injection Hrun as <- <- Hr. split; [reflexivity|]. exists
    (pvc_client (C := Concrete.core) (L := example_lib) (O := example_options) "openebs"
       (mkConn (Some "clientset" : option (@kube_Clientset example_lib)) EmptyString None None)), r.
  split; [reflexivity|]. by rewrite <- Hr.
Defined.
