(* ===== verification/PVClient.v ===== *)
(** * pkg/kubernetes/api/core/v1/persistentvolume: the typed client
    ([kubernetes.go])

    Volumes are cluster-scoped: the requests have the empty namespace.  [Create]
    hands a nil volume on to the clientset; the claims' client rejects it. *)

From S2P Require Import Prelude GoStrings K8sTypes Prog KubeAPI KubeClient TypedClient TypedClientFacts.

Section PVClient.
Context {C : CoreTypes} {L : ClientLib} {O : ApiOptions}.
(** [stringer.Yaml] of maya, for the text of an error *)
Context (stringer_Yaml : string -> option PersistentVolume -> string).

Definition getFn : Type := kube_Clientset -> string -> GetOptions -> cio (result PersistentVolume).
Definition listFn : Type := kube_Clientset -> ListOptions -> cio (result (list PersistentVolume)).
Definition deleteFn : Type := kube_Clientset -> string -> option DeleteOptions -> cio (result ()).
Definition deleteCollectionFn : Type := kube_Clientset -> ListOptions -> option DeleteOptions ->
  cio (result ()).
Definition createFn : Type := kube_Clientset -> option PersistentVolume -> CreateOptions ->
  cio (result PersistentVolume).

Record Kubeclient := mkKube {
  k_conn : conn;
  list_fn : option listFn;
  get_fn : option getFn;
  create_fn : option createFn;
  del_fn : option deleteFn;
  delCollection_fn : option deleteCollectionFn;
}.

Definition KubeclientBuildOption : Type := Kubeclient -> Kubeclient.

Definition set_conn (c : conn) (k : Kubeclient) : Kubeclient :=
  mkKube c (list_fn k) (get_fn k) (create_fn k) (del_fn k) (delCollection_fn k).

Definition defaultGet : getFn := fun cli name opts =>
  (call (CGet (RObj KPV) cli EmptyString name opts) : cio _).
Definition defaultList : listFn := fun cli opts =>
  (call (CList (RObj KPV) cli EmptyString opts) : cio _).
Definition defaultDel : deleteFn := fun cli name deleteOpts =>
  call_fn deleteOpts (fun o => call_err (call (CDelete (RObj KPV) cli EmptyString name o))).
Definition defaultDelCollection : deleteCollectionFn := fun cli listOpts deleteOpts =>
  call_fn deleteOpts (fun o =>
    call_err (call (CDeleteCollection (RObj KPV) cli EmptyString o listOpts))).
Definition defaultCreate : createFn := fun cli pv createOpts =>
  (call (CCreate (RObj KPV) cli EmptyString pv createOpts) : cio _).

Definition withDefaults (k : Kubeclient) : Kubeclient :=
  mkKube (conn_withDefaults defaultGetClientset (k_conn k)) (or_default_fn (list_fn k) defaultList)
    (or_default_fn (get_fn k) defaultGet) (or_default_fn (create_fn k) defaultCreate)
    (or_default_fn (del_fn k) defaultDel)
    (or_default_fn (delCollection_fn k) defaultDelCollection).

Definition WithClientSet (c : option kube_Clientset) : KubeclientBuildOption := fun k =>
  set_conn (set_clientset c (k_conn k)) k.
Definition WithKubeConfigPath (path : string) : KubeclientBuildOption := fun k =>
  set_conn (set_path path (k_conn k)) k.

Definition zero_kube : Kubeclient := mkKube zero_conn None None None None None.

Definition NewKubeClient (opts : list KubeclientBuildOption) : Kubeclient :=
  withDefaults (fold_left (fun k o => o k) opts zero_kube).

Definition with_clientset {A} := with_cli (A := A) k_conn set_conn getClientsetOrCached.

Definition Get (name : string) (opts : GetOptions) (k : Kubeclient)
  : cio (Kubeclient * result PersistentVolume) :=
  if decide (TrimSpace name = EmptyString)
  then PRet (k, Err (ErrNew "failed to get pv: missing pv name"))
  else with_clientset (fun err => ErrWrap err ("failed to get pv {" +:+ name +:+ "}")) k
    (fun cli => call_fn (get_fn k) (fun get => get cli name opts)).

Definition List (opts : ListOptions) (k : Kubeclient)
  : cio (Kubeclient * result (list PersistentVolume)) :=
  with_clientset (fun err => ErrWrap err ("failed to list pv listoptions: '"
      +:+ fmt_ListOptions opts +:+ "'")) k
    (fun cli => call_fn (list_fn k) (fun list => list cli opts)).

Definition Delete (name : string) (deleteOpts : option DeleteOptions) (k : Kubeclient)
  : cio (Kubeclient * result ()) :=
  if decide (TrimSpace name = EmptyString)
  then PRet (k, Err (ErrNew "failed to delete pvc: missing pv name"))
  else with_clientset (fun err => ErrWrap err ("failed to delete pv {" +:+ name +:+ "}")) k
    (fun cli => call_fn (del_fn k) (fun del => del cli name deleteOpts)).

Definition Create (pv : option PersistentVolume) (k : Kubeclient)
  : cio (Kubeclient * result PersistentVolume) :=
  with_clientset (fun err => ErrWrap err ("failed to create pv: "
      +:+ stringer_Yaml "persistent volume" pv)) k
    (fun cli => call_fn (create_fn k) (fun create => create cli pv zero_CreateOptions)).

Definition DeleteCollection (listOpts : ListOptions) (deleteOpts : option DeleteOptions)
  (k : Kubeclient) : cio (Kubeclient * result ()) :=
  with_clientset (fun err => ErrWrap err "failed to delete the collection of pvs") k
    (fun cli => call_fn (delCollection_fn k) (fun delCollection =>
       delCollection cli listOpts deleteOpts)).
End PVClient.

(** ** A client in use *)
Section PVClientFacts.
Context {C : CoreTypes} {L : ClientLib} {O : ApiOptions}.
Context (stringer_Yaml : string -> option PersistentVolume -> string).

Inductive pv_option : KubeclientBuildOption -> Prop :=
| pv_o_clientset c : pv_option (WithClientSet c)
| pv_o_path path : pv_option (WithKubeConfigPath path).

(** A caller's operations, with options that are not nil. *)
Inductive pv_op :=
| PVGet (name : string) (opts : GetOptions)
| PVList (opts : ListOptions)
| PVDelete (name : string) (opts : DeleteOptions)
| PVCreate (pv : option PersistentVolume)
| PVDeleteCollection (lopts : ListOptions) (dopts : DeleteOptions).

Definition pv_step (op : pv_op) (k : Kubeclient) : cio Kubeclient :=
  match op with
  | PVGet name opts => next (Get name opts k)
  | PVList opts => next (List opts k)
  | PVDelete name opts => next (Delete name (Some opts) k)
  | PVCreate pv => next (Create stringer_Yaml pv k)
  | PVDeleteCollection lopts dopts => next (DeleteCollection lopts (Some dopts) k)
  end.

Definition pv_client (c : conn) : Kubeclient :=
  mkKube c (Some defaultList) (Some defaultGet) (Some defaultCreate) (Some defaultDel)
    (Some defaultDelCollection).

Definition pv_profile (k : Kubeclient) : profile :=
  mkProfile (RObj KPV) EmptyString (CConnect (New [])) (kubeConfigPath (k_conn k))
    (clientset (k_conn k)) named.

Lemma pv_new opts :
  Forall pv_option opts ->
  exists c, NewKubeClient opts = pv_client c /\
    conn_inv (pv_profile (NewKubeClient opts)) defaultGetClientset c [].
Proof.
  intros Ho.
  assert (Hf : forall cs p, exists cs' p', fold_left (fun k o => o k) opts
      (set_conn (mkConn cs p None None) zero_kube) = set_conn (mkConn cs' p' None None) zero_kube).
  { induction Ho as [|o opts [c|path] Hopts IH]; intros cs p; [by eexists _, _|apply IH..]. }
  destruct (Hf None EmptyString) as (cs & p & Hk).
  unfold NewKubeClient. change zero_kube with (set_conn (mkConn None EmptyString None None) zero_kube).
  rewrite Hk. eexists. split; [reflexivity|]. constructor; [|done..].
  unfold known. simpl. by destruct cs.
Qed.

Lemma pv_connects k : connects (pv_profile k) defaultGetClientset.
Proof. apply (connects_call _ (CConnect (New [])) id); [done..|]. by intros [cs|e]. Qed.

Lemma pv_step_keeps k op c h :
  conn_inv (pv_profile k) defaultGetClientset c h ->
  wp (allowed (pv_profile k)) (pv_step op (pv_client c)) h
    (fun h' o => exists c', o = Returned (pv_client c') /\
       conn_inv (pv_profile k) defaultGetClientset c' h').
Proof.
  intros Hc. destruct op as [name opts|opts|name opts|pv|lopts dopts]; apply keeps_next.
  - unfold Get, with_clientset. case_decide; [by apply keeps_ret|request pv_connects].
  - unfold List, with_clientset. request pv_connects.
  - unfold Delete, with_clientset. case_decide; [by apply keeps_ret|request pv_connects].
  - unfold Create, with_clientset. request pv_connects.
  - unfold DeleteCollection, with_clientset. request pv_connects.
Qed.

(** Every run of a client of volumes: no panic, one connection, volumes only. *)
Theorem pv_client_runs opts ops t o :
  Forall pv_option opts ->
  exec (session pv_step ops (NewKubeClient opts)) t o ->
  (forall t1 e t2, t = t1 ++ e :: t2 -> allowed (pv_profile (NewKubeClient opts)) t1 (ev_req e)) /\
  (forall o', o = Some o' -> exists k, o' = Returned k /\
     clientset (k_conn k) = known (pv_profile (NewKubeClient opts)) t).
Proof.
  intros (c & Hn & Hc)%pv_new He. rewrite Hn in He.
  destruct (session_run _ _ pv_client _ ops c t o (pv_step_keeps _) Hc He) as [Ha Ho].
  split; [done|]. intros o' Ho'. destruct (Ho o' Ho') as (c' & -> & Hk). by eexists.
Qed.
End PVClientFacts.
