(* ===== verification/ServiceClient.v ===== *)
(** * pkg/kubernetes/api/core/v1/service: the typed client ([kubernetes.go])

    Without a path it connects in two steps, the configuration and then the
    clientset.  A deletion always propagates in the foreground, whatever the
    caller's options say (the caller's struct is changed too, which is not
    modelled: nobody reads it afterwards).  Blank names are not rejected. *)

From S2P Require Import Prelude GoStrings K8sTypes Prog KubeAPI KubeClient TypedClient TypedClientFacts Concrete.

Section ServiceClient.
Context {C : CoreTypes} {L : ClientLib} {O : ApiOptions}.
(** [json.Marshal] on a service and on a list of them *)
Context (json_Marshal : Service -> result string) (json_MarshalList : list Service -> result string).

Definition getFn : Type := kube_Clientset -> string -> string -> GetOptions -> cio (result Service).
Definition listFn : Type := kube_Clientset -> string -> ListOptions -> cio (result (list Service)).
Definition delFn : Type := kube_Clientset -> string -> string -> option DeleteOptions ->
  cio (result ()).
Definition createFn : Type := kube_Clientset -> option Service -> string -> CreateOptions ->
  cio (result Service).
Definition updateFn : Type := kube_Clientset -> option Service -> string -> UpdateOptions ->
  cio (result Service).
Definition patchFn : Type := kube_Clientset -> string -> string -> PatchType -> string ->
  PatchOptions -> list string -> cio (result Service).

Record Kubeclient := mkKube {
  k_conn : conn;
  namespace : string;
  list_fn : option listFn;
  get_fn : option getFn;
  del_fn : option delFn;
  create_fn : option createFn;
  patch_fn : option patchFn;
  update_fn : option updateFn;
}.

Definition KubeclientBuildOption : Type := Kubeclient -> Kubeclient.

Definition set_conn (c : conn) (k : Kubeclient) : Kubeclient :=
  mkKube c (namespace k) (list_fn k) (get_fn k) (del_fn k) (create_fn k) (patch_fn k) (update_fn k).

Definition defaultGetClientset : getClientsetFn :=
  config ← (call (CConfig (New [])) : cio _);
  match config with
  | Err err => PRet (Err err)
  | Ok config => PRet (kubernetes_NewForConfig config)
  end.

Definition defaultGet : getFn := fun cli name namespace opts =>
  (call (CGet (RObj KService) cli namespace name opts) : cio _).
Definition defaultList : listFn := fun cli namespace opts =>
  (call (CList (RObj KService) cli namespace opts) : cio _).
Definition defaultDel : delFn := fun cli name namespace opts =>
  call_fn opts (fun o =>
    call_err (call (CDelete (RObj KService) cli namespace name (set_Foreground o)))).
Definition defaultCreate : createFn := fun cli service namespace opts =>
  (call (CCreate (RObj KService) cli namespace service opts) : cio _).
Definition defaultUpdate : updateFn := fun cli service namespace opts =>
  (call (CUpdate (RObj KService) cli namespace service opts) : cio _).
Definition defaultPatch : patchFn := fun cli name namespace pt data opts subresources =>
  (call (CPatch (RObj KService) cli namespace name pt data opts subresources) : cio _).

Definition withDefaults (k : Kubeclient) : Kubeclient :=
  mkKube (conn_withDefaults defaultGetClientset (k_conn k)) (namespace k)
    (or_default_fn (list_fn k) defaultList) (or_default_fn (get_fn k) defaultGet)
    (or_default_fn (del_fn k) defaultDel) (or_default_fn (create_fn k) defaultCreate)
    (or_default_fn (patch_fn k) defaultPatch) (or_default_fn (update_fn k) defaultUpdate).

Definition WithClientset (c : option kube_Clientset) : KubeclientBuildOption := fun k =>
  set_conn (set_clientset c (k_conn k)) k.
(** The option and the method of this name do the same. *)
Definition WithNamespace (namespace : string) : KubeclientBuildOption := fun k =>
  mkKube (k_conn k) namespace (list_fn k) (get_fn k) (del_fn k) (create_fn k) (patch_fn k) (update_fn k).
Definition WithKubeConfigPath (path : string) : KubeclientBuildOption := fun k =>
  set_conn (set_path path (k_conn k)) k.

Definition zero_kube : Kubeclient := mkKube zero_conn EmptyString None None None None None None.

Definition NewKubeClient (opts : list KubeclientBuildOption) : Kubeclient :=
  withDefaults (fold_left (fun k o => o k) opts zero_kube).

(** [getClientOrCached], whose error most operations return as it is. *)
Definition with_clientset {A} := with_cli (A := A) k_conn set_conn getClientsetOrCached.

Definition Get (name : string) (opts : GetOptions) (k : Kubeclient) : cio (Kubeclient * result Service) :=
  with_clientset id k (fun cli => call_fn (get_fn k) (fun get => get cli name (namespace k) opts)).

Definition GetRaw (name : string) (opts : GetOptions) (k : Kubeclient)
  : cio (Kubeclient * result string) :=
  '(k, svc) ← Get name opts k;
  PRet (k, result_bind svc json_Marshal).

Definition List (opts : ListOptions) (k : Kubeclient) : cio (Kubeclient * result (list Service)) :=
  with_clientset id k (fun cli => call_fn (list_fn k) (fun list => list cli (namespace k) opts)).

Definition ListRaw (opts : ListOptions) (k : Kubeclient) : cio (Kubeclient * result string) :=
  '(k, svcList) ← List opts k;
  PRet (k, result_bind svcList json_MarshalList).

Definition Delete (name : string) (options : option DeleteOptions) (k : Kubeclient)
  : cio (Kubeclient * result ()) :=
  with_clientset id k (fun cli => call_fn (del_fn k) (fun del => del cli name (namespace k) options)).

Definition on_service (verb : string) (service : Service) (err : goerr) : goerr :=
  ErrWrap err ("failed to " +:+ verb +:+ " service {" +:+ Name (svc_meta service)
    +:+ "} in namespace {" +:+ Namespace (svc_meta service) +:+ "}").

Definition Create (service : option Service) (k : Kubeclient) : cio (Kubeclient * result Service) :=
  match service with
  | None => PRet (k, Err (ErrNew "failed to create service: nil service object"))
  | Some svc =>
      with_clientset (on_service "create" svc) k (fun cli => call_fn (create_fn k) (fun create =>
        create cli (Some svc) (namespace k) zero_CreateOptions))
  end.

Definition Update (service : option Service) (k : Kubeclient) : cio (Kubeclient * result Service) :=
  match service with
  | None => PRet (k, Err (ErrNew "failed to update service: nil service object"))
  | Some svc =>
      with_clientset (on_service "update" svc) k (fun cli => call_fn (update_fn k) (fun update =>
        update cli (Some svc) (namespace k) zero_UpdateOptions))
  end.

Definition Patch (name : string) (pt : PatchType) (data : string) (subresources : list string)
  (k : Kubeclient) : cio (Kubeclient * result Service) :=
  with_clientset id k (fun cli => call_fn (patch_fn k) (fun patch =>
    patch cli name (namespace k) pt data zero_PatchOptions subresources)).
End ServiceClient.

(** ** A client in use *)
Section ServiceClientFacts.
Context {C : CoreTypes} {L : ClientLib} {O : ApiOptions}.
Context (json_Marshal : Service -> result string) (json_MarshalList : list Service -> result string).

Inductive svc_option : KubeclientBuildOption -> Prop :=
| svc_o_clientset c : svc_option (WithClientset c)
| svc_o_namespace ns : svc_option (WithNamespace ns)
| svc_o_path path : svc_option (WithKubeConfigPath path).

(** A caller's operations, with options that are not nil. *)
Inductive svc_op :=
| SvcGet (name : string) (opts : GetOptions)
| SvcGetRaw (name : string) (opts : GetOptions)
| SvcList (opts : ListOptions)
| SvcListRaw (opts : ListOptions)
| SvcDelete (name : string) (opts : DeleteOptions)
| SvcCreate (svc : option Service)
| SvcUpdate (svc : option Service)
| SvcPatch (name : string) (pt : PatchType) (data : string) (subresources : list string).

Definition svc_step (op : svc_op) (k : Kubeclient) : cio Kubeclient :=
  match op with
  | SvcGet name opts => next (Get name opts k)
  | SvcGetRaw name opts => next (GetRaw json_Marshal name opts k)
  | SvcList opts => next (List opts k)
  | SvcListRaw opts => next (ListRaw json_MarshalList opts k)
  | SvcDelete name opts => next (Delete name (Some opts) k)
  | SvcCreate svc => next (Create svc k)
  | SvcUpdate svc => next (Update svc k)
  | SvcPatch name pt data subresources => next (Patch name pt data subresources k)
  end.

Definition svc_client (ns : string) (c : conn) : Kubeclient :=
  mkKube c ns (Some defaultList) (Some defaultGet) (Some defaultDel) (Some defaultCreate)
    (Some defaultPatch) (Some defaultUpdate).

(** Deletions propagate in the foreground. *)
Definition foreground (r : creq) : Prop :=
  match r with
  | CDelete _ _ _ _ opts => exists o, opts = set_Foreground o
  | _ => True
  end.

Definition svc_profile (k : Kubeclient) : profile :=
  mkProfile (RObj KService) (namespace k) (CConfig (New [])) (kubeConfigPath (k_conn k))
    (clientset (k_conn k)) foreground.

Lemma svc_new opts :
  Forall svc_option opts ->
  exists c, NewKubeClient opts = svc_client (namespace (NewKubeClient opts)) c /\
    conn_inv (svc_profile (NewKubeClient opts)) defaultGetClientset c [].
Proof.
  intros Ho.
  set (start := fun cs p ns => WithNamespace ns (set_conn (mkConn cs p None None) zero_kube)).
  assert (Hf : forall cs p ns, exists cs' p' ns',
    fold_left (fun k o => o k) opts (start cs p ns) = start cs' p' ns').
  { induction Ho as [|o opts [c|ns|path] Hopts IH]; intros cs p ns'; [by eexists _, _, _|apply IH..]. }
  destruct (Hf None EmptyString EmptyString) as (cs & p & ns & Hk).
  unfold NewKubeClient. change zero_kube with (start None EmptyString EmptyString).
  rewrite Hk. eexists. split; [reflexivity|]. constructor; [|done..].
  unfold known. simpl. by destruct cs.
Qed.

Lemma svc_connects k : connects (svc_profile k) defaultGetClientset.
Proof.
  intros h Hk Hp. split; [unfold allowed; cbn [target]; by rewrite (connect_req_direct _ Hp)|]. intros [cfg|err]; cbn.
  - eexists. split; [done|]. by rewrite known_snoc, Hk.
  - eexists. split; [done|]. by rewrite known_snoc, Hk.
Qed.

Section Steps.
Context (k : Kubeclient).
Abbreviation inv := (conn_inv (svc_profile k) defaultGetClientset).
Abbreviation kept := (keeps (svc_profile k) defaultGetClientset (svc_client (namespace k))).

Lemma svc_Get_keeps name opts c h : inv c h -> kept (Get name opts (svc_client (namespace k) c)) h.
Proof. intros Hc. unfold Get, with_clientset. request svc_connects. Qed.

Lemma svc_List_keeps opts c h : inv c h -> kept (List opts (svc_client (namespace k) c)) h.
Proof. intros Hc. unfold List, with_clientset. request svc_connects. Qed.

(** What is computed from the result of an operation. *)
Lemma keeps_map {A B} (f : A -> B) (p : cio (Kubeclient * A)) h :
  kept p h -> kept ('(k, a) ← p; PRet (k, f a)) h.
Proof.
  intros Hp. apply wp_bind. eapply wp_mono, Hp. intros h' o _ (c & a & -> & Hc). by eexists _, _.
Qed.

Lemma svc_step_keeps op c h :
  inv c h ->
  wp (allowed (svc_profile k)) (svc_step op (svc_client (namespace k) c)) h
    (fun h' o => exists c', o = Returned (svc_client (namespace k) c') /\ inv c' h').
Proof.
  intros Hc. destruct op as [name opts|name opts|opts|opts|name opts|svc|svc|name pt data subs];
    apply keeps_next.
  - by apply svc_Get_keeps.
  - by apply (keeps_map (fun r => result_bind r json_Marshal)), svc_Get_keeps.
  - by apply svc_List_keeps.
  - by apply (keeps_map (fun r => result_bind r json_MarshalList)), svc_List_keeps.
  - unfold Delete, with_clientset. apply keeps_request; [apply svc_connects|done..|].
    intros cli. split; [done|]. split; [by eexists|]. by eexists.
  - destruct svc as [svc|]; [|by apply keeps_ret]. unfold Create, with_clientset. request svc_connects.
  - destruct svc as [svc|]; [|by apply keeps_ret]. unfold Update, with_clientset. request svc_connects.
  - unfold Patch, with_clientset. request svc_connects.
Qed.
End Steps.

(** C35: whatever a caller does with a client of services and whatever the API
    server answers, no operation panics; without a clientset the configuration
    is asked for first, or the path that was given is used, and the first
    clientset obtained is kept; every request goes through it, to services of
    the client's namespace, and every deletion propagates in the foreground. *)
Theorem svc_client_runs opts ops t o :
  Forall svc_option opts ->
  exec (session svc_step ops (NewKubeClient opts)) t o ->
  (forall t1 e t2, t = t1 ++ e :: t2 -> allowed (svc_profile (NewKubeClient opts)) t1 (ev_req e)) /\
  (forall o', o = Some o' -> exists k, o' = Returned k /\
     clientset (k_conn k) = known (svc_profile (NewKubeClient opts)) t).
Proof.
  intros (c & Hn & Hc)%svc_new He. rewrite Hn in He.
  destruct (session_run _ _ (svc_client _) _ ops c t o (svc_step_keeps _) Hc He) as [Ha Ho].
  split; [done|]. intros o' Ho'. destruct (Ho o' Ho') as (c' & -> & Hk). by eexists.
Qed.
End ServiceClientFacts.

(** A read that fails, and a deletion, with the default configuration. *)
Definition svc_example_ops : list (@svc_op Concrete.core example_options) :=
  [SvcGetRaw (O := example_options) "nfs-svc" tt; SvcDelete (O := example_options) "nfs-svc" false].

Definition svc_example : @cio Concrete.core example_lib example_options _ :=
  session (svc_step (C := Concrete.core) (L := example_lib) (O := example_options)
      (fun _ => Ok EmptyString) (fun _ => Ok EmptyString))
    svc_example_ops (NewKubeClient [WithNamespace "openebs"]).

Lemma svc_client_runs_witness :
  let '(_, t, o) := run (example_serve Concrete.core) svc_example () in
  length t = 3 /\ exists k, o = Returned k /\ clientset (k_conn k) = Some "config".
Proof.
  destruct (run (example_serve Concrete.core) svc_example ()) as [[s t] o] eqn:Hrun.
  pose proof (run_exec (example_serve Concrete.core) svc_example ()) as He. rewrite Hrun in He.
  destruct (svc_client_runs (O := example_options) (fun _ => Ok EmptyString) (fun _ => Ok EmptyString)
    [WithNamespace "openebs"] svc_example_ops t (Some o)) as [_ Ho].
  - repeat constructor.
  - exact He.
  - injection Hrun as <- <- <-. split; [reflexivity|].
    destruct (Ho _ eq_refl) as (k & Hk & Hc). exists k. split; [exact Hk|]. rewrite Hc. reflexivity.
Defined.
