(* ===== verification/NamespaceClient.v ===== *)
(** * pkg/kubernetes/api/core/v1/namespace: the typed client ([kubernetes.go]) *)

From S2P Require Import Prelude GoStrings K8sTypes Prog KubeAPI KubeClient NamespaceBuilder TypedClient TypedClientFacts.

Section NamespaceClient.
Context {C : CoreTypes} {L : ClientLib} {O : ApiOptions}.

Definition getFn : Type := kube_Clientset -> string -> GetOptions -> cio (result Namespace).
Definition createFn : Type := kube_Clientset -> option Namespace -> CreateOptions ->
  cio (result Namespace).
Definition deleteFn : Type := kube_Clientset -> string -> option DeleteOptions -> cio (result ()).

Record Kubeclient := mkKube {
  k_conn : conn;
  get_fn : option getFn;
  create_fn : option createFn;
  del_fn : option deleteFn;
}.

Definition KubeclientBuildOption : Type := Kubeclient -> Kubeclient.

Definition set_conn (c : conn) (k : Kubeclient) : Kubeclient :=
  mkKube c (get_fn k) (create_fn k) (del_fn k).

Definition defaultGet : getFn := fun cli name opts =>
  (call (CGet RNamespace cli EmptyString name opts) : cio _).
Definition defaultDel : deleteFn := fun cli name deleteOpts =>
  call_fn deleteOpts (fun o => call_err (call (CDelete RNamespace cli EmptyString name o))).
Definition defaultCreate : createFn := fun cli namespace createOpts =>
  (call (CCreate RNamespace cli EmptyString namespace createOpts) : cio _).

Definition withDefaults (k : Kubeclient) : Kubeclient :=
  mkKube (conn_withDefaults defaultGetClientset (k_conn k)) (or_default_fn (get_fn k) defaultGet)
    (or_default_fn (create_fn k) defaultCreate) (or_default_fn (del_fn k) defaultDel).

Definition WithClientSet (c : option kube_Clientset) : KubeclientBuildOption := fun k =>
  set_conn (set_clientset c (k_conn k)) k.
Definition WithKubeConfigPath (path : string) : KubeclientBuildOption := fun k =>
  set_conn (set_path path (k_conn k)) k.

Definition zero_kube : Kubeclient := mkKube zero_conn None None None.

Definition NewKubeClient (opts : list KubeclientBuildOption) : Kubeclient :=
  withDefaults (fold_left (fun k o => o k) opts zero_kube).

Definition with_clientset {A} := with_cli (A := A) k_conn set_conn getClientsetOrCached.

Definition Get (name : string) (opts : GetOptions) (k : Kubeclient)
  : cio (Kubeclient * result Namespace) :=
  if decide (TrimSpace name = EmptyString)
  then PRet (k, Err (ErrNew "failed to get namespace: missing namespace name"))
  else with_clientset (fun err => ErrWrap err ("failed to get namespace {" +:+ name +:+ "}")) k
    (fun cli => call_fn (get_fn k) (fun get => get cli name opts)).

Definition Delete (name : string) (deleteOpts : option DeleteOptions) (k : Kubeclient)
  : cio (Kubeclient * result ()) :=
  if decide (TrimSpace name = EmptyString)
  then PRet (k, Err (ErrNew "failed to delete namespace: missing namespace name"))
  else with_clientset (fun err => ErrWrap err ("failed to delete namespace {" +:+ name +:+ "}")) k
    (fun cli => call_fn (del_fn k) (fun del => del cli name deleteOpts)).

Definition Create (namespace : option Namespace) (k : Kubeclient)
  : cio (Kubeclient * result Namespace) :=
  match namespace with
  | None => PRet (k, Err (ErrNew "failed to create namespace: nil namespace object"))
  | Some ns =>
      with_clientset (fun err => ErrWrap err ("failed to create namespace {"
          +:+ Name (ns_meta ns) +:+ "}")) k
        (fun cli => call_fn (create_fn k) (fun create => create cli (Some ns) zero_CreateOptions))
  end.
End NamespaceClient.

(** ** A client in use *)
Section NamespaceClientFacts.
Context {C : CoreTypes} {L : ClientLib} {O : ApiOptions}.

Inductive ns_option : KubeclientBuildOption -> Prop :=
| ns_o_clientset c : ns_option (WithClientSet c)
| ns_o_path path : ns_option (WithKubeConfigPath path).

(** A caller's operations, with options that are not nil. *)
Inductive ns_op :=
| NSGet (name : string) (opts : GetOptions)
| NSDelete (name : string) (opts : DeleteOptions)
| NSCreate (ns : option Namespace).

Definition ns_step (op : ns_op) (k : Kubeclient) : cio Kubeclient :=
  match op with
  | NSGet name opts => next (Get name opts k)
  | NSDelete name opts => next (Delete name (Some opts) k)
  | NSCreate ns => next (Create ns k)
  end.

Definition ns_client (c : conn) : Kubeclient :=
  mkKube c (Some defaultGet) (Some defaultCreate) (Some defaultDel).

Definition ns_profile (k : Kubeclient) : profile :=
  mkProfile RNamespace EmptyString (CConnect (New [])) (kubeConfigPath (k_conn k))
    (clientset (k_conn k)) named.

Lemma ns_new opts :
  Forall ns_option opts ->
  exists c, NewKubeClient opts = ns_client c /\
    conn_inv (ns_profile (NewKubeClient opts)) defaultGetClientset c [].
Proof.
  intros Ho.
  assert (Hf : forall cs p, exists cs' p', fold_left (fun k o => o k) opts
      (set_conn (mkConn cs p None None) zero_kube) = set_conn (mkConn cs' p' None None) zero_kube).
  { induction Ho as [|o opts [c|path] Hopts IH]; intros cs p; [by eexists _, _|apply IH..]. }
  destruct (Hf None EmptyString) as (cs & p & Hk).
  unfold NewKubeClient. change zero_kube with (set_conn (mkConn None EmptyString None None) zero_kube).
  rewrite Hk. eexists. split; [reflexivity|]. constructor; [|done..].
  unfold known. simpl. by destruct cs.
Qed.

Lemma ns_connects k : connects (ns_profile k) defaultGetClientset.
Proof. apply (connects_call _ (CConnect (New [])) id); [done..|]. by intros [cs|e]. Qed.

Lemma ns_step_keeps k op c h :
  conn_inv (ns_profile k) defaultGetClientset c h ->
  wp (allowed (ns_profile k)) (ns_step op (ns_client c)) h
    (fun h' o => exists c', o = Returned (ns_client c') /\
       conn_inv (ns_profile k) defaultGetClientset c' h').
Proof.
  intros Hc. destruct op as [name opts|name opts|ns]; apply keeps_next.
  - unfold Get, with_clientset. case_decide; [by apply keeps_ret|request ns_connects].
  - unfold Delete, with_clientset. case_decide; [by apply keeps_ret|request ns_connects].
  - destruct ns as [ns|]; [|by apply keeps_ret]. unfold Create, with_clientset. request ns_connects.
Qed.

(** Every run of a client of namespaces: no panic, one connection, namespaces
    only. *)
Theorem ns_client_runs opts ops t o :
  Forall ns_option opts ->
  exec (session ns_step ops (NewKubeClient opts)) t o ->
  (forall t1 e t2, t = t1 ++ e :: t2 -> allowed (ns_profile (NewKubeClient opts)) t1 (ev_req e)) /\
  (forall o', o = Some o' -> exists k, o' = Returned k /\
     clientset (k_conn k) = known (ns_profile (NewKubeClient opts)) t).
Proof.
  intros (c & Hn & Hc)%ns_new He. rewrite Hn in He.
  destruct (session_run _ _ ns_client _ ops c t o (ns_step_keeps _) Hc He) as [Ha Ho].
  split; [done|]. intros o' Ho'. destruct (Ho o' Ho') as (c' & -> & Hk). by eexists.
Qed.
End NamespaceClientFacts.
