(* ===== verification/DeploymentClient.v ===== *)
(** * pkg/kubernetes/api/apps/v1/deployment: the typed client ([kubernetes.go])

    Its default clientset is that of the process-wide client, and it returns the
    error of a failed connection as it is.  [injected] in [Delete], [Create] and
    [Update] is what maya's [debug.EI] answers at that moment. *)

From S2P Require Import Prelude GoStrings K8sTypes Prog KubeAPI DeploymentBuilder KubeClient TypedClient TypedClientFacts Concrete.

Section DeploymentClient.
Context {C : CoreTypes} {L : ClientLib} {O : ApiOptions}.
(** [json.Marshal], and the order in which the range over [rolloutChecks] visits
    its entries *)
Context (json_Marshal : Deployment -> result string)
  (json_MarshalOutput : RolloutOutput -> result string)
  (order : list (PredicateName * Predicate)).

Definition getFn : Type := kube_Clientset -> string -> string -> option GetOptions ->
  cio (result Deployment).
Definition listFn : Type := kube_Clientset -> string -> option ListOptions ->
  cio (result (list Deployment)).
Definition createFn : Type := kube_Clientset -> string -> option Deployment -> CreateOptions ->
  cio (result Deployment).
Definition updateFn : Type := kube_Clientset -> string -> option Deployment -> UpdateOptions ->
  cio (result Deployment).
Definition deleteFn : Type := kube_Clientset -> string -> string -> option DeleteOptions ->
  cio (result ()).
Definition patchFn : Type := kube_Clientset -> string -> string -> PatchType -> string ->
  PatchOptions -> list string -> cio (result Deployment).
Definition rolloutStatusFn : Type := Deployment -> cio (result RolloutOutput).
Definition rolloutStatusfFn : Type := Deployment -> cio (result string).

Definition defaultGetClientset : getClientsetFn := (call CInstance : cio _).
Definition defaultGet : getFn := fun cli name namespace opts =>
  call_fn opts (fun o => (call (CGet (RObj KDeployment) cli namespace name o) : cio _)).
Definition defaultList : listFn := fun cli namespace opts =>
  call_fn opts (fun o => (call (CList (RObj KDeployment) cli namespace o) : cio _)).
Definition defaultCreate : createFn := fun cli namespace deploy createOpts =>
  (call (CCreate (RObj KDeployment) cli namespace deploy createOpts) : cio _).
Definition defaultUpdate : updateFn := fun cli namespace deploy updateOpts =>
  (call (CUpdate (RObj KDeployment) cli namespace deploy updateOpts) : cio _).
Definition defaultDel : deleteFn := fun cli namespace name opts =>
  call_fn opts (fun o => call_err (call (CDelete (RObj KDeployment) cli namespace name o))).
Definition defaultPatch : patchFn := fun cli name namespace pt data patchOpts subresources =>
  (call (CPatch (RObj KDeployment) cli namespace name pt data patchOpts subresources) : cio _).
Definition defaultRolloutStatus : rolloutStatusFn := fun d => PRet (Ok (RolloutStatus order d)).
Definition defaultRolloutStatusf : rolloutStatusfFn := fun d =>
  call_fn (RolloutStatusRaw json_MarshalOutput order d) PRet.

Record Kubeclient := mkKube {
  k_conn : conn;
  namespace : string;
  get_fn : option getFn;
  list_fn : option listFn;
  create_fn : option createFn;
  update_fn : option updateFn;
  del_fn : option deleteFn;
  patch_fn : option patchFn;
  rolloutStatus : option rolloutStatusFn;
  rolloutStatusf : option rolloutStatusfFn;
}.

Definition KubeclientBuildOption : Type := Kubeclient -> Kubeclient.

Definition set_conn (c : conn) (k : Kubeclient) : Kubeclient :=
  mkKube c (namespace k) (get_fn k) (list_fn k) (create_fn k) (update_fn k) (del_fn k)
    (patch_fn k) (rolloutStatus k) (rolloutStatusf k).

Definition withDefaults (k : Kubeclient) : Kubeclient :=
  mkKube (conn_withDefaults defaultGetClientset (k_conn k)) (namespace k)
    (or_default_fn (get_fn k) defaultGet) (or_default_fn (list_fn k) defaultList)
    (or_default_fn (create_fn k) defaultCreate) (or_default_fn (update_fn k) defaultUpdate)
    (or_default_fn (del_fn k) defaultDel) (or_default_fn (patch_fn k) defaultPatch)
    (or_default_fn (rolloutStatus k) defaultRolloutStatus)
    (or_default_fn (rolloutStatusf k) defaultRolloutStatusf).

Definition WithClientset (c : option kube_Clientset) : KubeclientBuildOption := fun k =>
  set_conn (set_clientset c (k_conn k)) k.
(** The option and the method of this name do the same. *)
Definition WithNamespace (namespace : string) : KubeclientBuildOption := fun k =>
  mkKube (k_conn k) namespace (get_fn k) (list_fn k) (create_fn k) (update_fn k) (del_fn k)
    (patch_fn k) (rolloutStatus k) (rolloutStatusf k).
Definition WithKubeConfigPath (path : string) : KubeclientBuildOption := fun k =>
  set_conn (set_path path (k_conn k)) k.

Definition zero_kube : Kubeclient :=
  mkKube zero_conn EmptyString None None None None None None None None.

Definition NewKubeClient (opts : list KubeclientBuildOption) : Kubeclient :=
  withDefaults (fold_left (fun k o => o k) opts zero_kube).

(** [getClientOrCached] *)
Definition getClientOrCached : conn -> cio (conn * result kube_Clientset) :=
  getClientsetOrCached_with id.

Definition with_clientset {A} := with_cli (A := A) k_conn set_conn getClientOrCached.

Definition get_deployment (k : Kubeclient) (name : string) (cli : kube_Clientset)
  : cio (result Deployment) :=
  call_fn (get_fn k) (fun get => get cli name (namespace k) (Some zero_GetOptions)).

Definition Get (name : string) (k : Kubeclient) : cio (Kubeclient * result Deployment) :=
  with_clientset id k (get_deployment k name).

Definition List (opts : option ListOptions) (k : Kubeclient)
  : cio (Kubeclient * result (list Deployment)) :=
  with_clientset id k (fun cli => call_fn (list_fn k) (fun list => list cli (namespace k) opts)).

Definition Patch (name : string) (pt : PatchType) (data : string) (patchOpts : PatchOptions)
  (subresources : list string) (k : Kubeclient) : cio (Kubeclient * result Deployment) :=
  with_clientset id k (fun cli => call_fn (patch_fn k) (fun patch =>
    patch cli name (namespace k) pt data patchOpts subresources)).

(** [GetRaw], [RolloutStatusf] and [RolloutStatus] read the deployment and use
    it when there is no error. *)
Definition after_get {A} (name : string) (use : Deployment -> cio (result A)) (k : Kubeclient)
  : cio (Kubeclient * result A) :=
  with_clientset id k (fun cli =>
    d ← get_deployment k name cli;
    match d with
    | Err err => PRet (Err err)
    | Ok d => use d
    end).

Definition GetRaw (name : string) (k : Kubeclient) : cio (Kubeclient * result string) :=
  after_get name (fun d => PRet (json_Marshal d)) k.

Definition Delete (injected : bool) (name : string) (opts : option DeleteOptions) (k : Kubeclient)
  : cio (Kubeclient * result ()) :=
  if injected then PRet (k, Err (ErrNew "Deployment delete error via injection"))
  else if decide (TrimSpace name = EmptyString)
  then PRet (k, Err (ErrNew "failed to delete deployment: missing deployment name"))
  else with_clientset (fun err => ErrWrap err ("failed to delete deployment {" +:+ name +:+ "}")) k
    (fun cli => call_fn (del_fn k) (fun del => del cli (namespace k) name opts)).

Definition on_deployment (verb : string) (d : Deployment) (err : goerr) : goerr :=
  ErrWrap err ("failed to " +:+ verb +:+ " deployment {" +:+ Name (d_meta d)
    +:+ "} in namespace {" +:+ Namespace (d_meta d) +:+ "}").

Definition Create (injected : bool) (deployment : option Deployment) (k : Kubeclient)
  : cio (Kubeclient * result Deployment) :=
  if injected then PRet (k, Err (ErrNew "Deployment create error via injection"))
  else match deployment with
  | None => PRet (k, Err (ErrNew "failed to create deployment: nil deployment object"))
  | Some d =>
      with_clientset (on_deployment "create" d) k (fun cli => call_fn (create_fn k) (fun create =>
        create cli (namespace k) (Some d) zero_CreateOptions))
  end.

Definition Update (injected : bool) (deployment : option Deployment) (k : Kubeclient)
  : cio (Kubeclient * result Deployment) :=
  if injected then PRet (k, Err (ErrNew "Deployment update error via injection"))
  else match deployment with
  | None => PRet (k, Err (ErrNew "failed to update deployment: nil deployment object"))
  | Some d =>
      with_clientset (on_deployment "update" d) k (fun cli => call_fn (update_fn k) (fun update =>
        update cli (namespace k) (Some d) zero_UpdateOptions))
  end.

Definition RolloutStatusf (name : string) (k : Kubeclient) : cio (Kubeclient * result string) :=
  after_get name (fun d => call_fn (rolloutStatusf k) (fun f => f d)) k.

Definition RolloutStatus (name : string) (k : Kubeclient) : cio (Kubeclient * result RolloutOutput) :=
  after_get name (fun d => call_fn (rolloutStatus k) (fun f => f d)) k.
End DeploymentClient.

(** ** A client in use *)
Section DeploymentClientFacts.
Context {C : CoreTypes} {L : ClientLib} {O : ApiOptions}.
Context (json_Marshal : Deployment -> result string)
  (json_MarshalOutput : RolloutOutput -> result string)
  (order : list (PredicateName * Predicate)).

Inductive d_option : KubeclientBuildOption -> Prop :=
| d_o_clientset c : d_option (WithClientset c)
| d_o_namespace ns : d_option (WithNamespace ns)
| d_o_path path : d_option (WithKubeConfigPath path).

(** A caller's operations, with options that are not nil. *)
Inductive d_op :=
| DGet (name : string)
| DList (opts : ListOptions)
| DPatch (name : string) (pt : PatchType) (data : string) (opts : PatchOptions)
    (subresources : list string)
| DGetRaw (name : string)
| DDelete (injected : bool) (name : string) (opts : DeleteOptions)
| DCreate (injected : bool) (d : option Deployment)
| DUpdate (injected : bool) (d : option Deployment)
| DRolloutStatusf (name : string)
| DRolloutStatus (name : string).

Definition d_step (op : d_op) (k : Kubeclient) : cio Kubeclient :=
  match op with
  | DGet name => next (Get name k)
  | DList opts => next (List (Some opts) k)
  | DPatch name pt data opts subresources => next (Patch name pt data opts subresources k)
  | DGetRaw name => next (GetRaw json_Marshal name k)
  | DDelete injected name opts => next (Delete injected name (Some opts) k)
  | DCreate injected d => next (Create injected d k)
  | DUpdate injected d => next (Update injected d k)
  | DRolloutStatusf name => next (RolloutStatusf name k)
  | DRolloutStatus name => next (RolloutStatus name k)
  end.

Definition d_client (ns : string) (c : conn) : Kubeclient :=
  mkKube c ns (Some defaultGet) (Some defaultList) (Some defaultCreate) (Some defaultUpdate)
    (Some defaultDel) (Some defaultPatch) (Some (defaultRolloutStatus order))
    (Some (defaultRolloutStatusf json_MarshalOutput order)).

(** Deletions name a deployment. *)
Definition d_guard (r : creq) : Prop :=
  match r with
  | CDelete _ _ _ name _ => TrimSpace name <> EmptyString
  | _ => True
  end.

Definition d_profile (k : Kubeclient) : profile :=
  mkProfile (RObj KDeployment) (namespace k) CInstance (kubeConfigPath (k_conn k))
    (clientset (k_conn k)) d_guard.

Abbreviation NewDeploymentClient := (NewKubeClient json_MarshalOutput order).

Lemma d_new opts :
  Forall d_option opts ->
  exists c, NewDeploymentClient opts = d_client (namespace (NewDeploymentClient opts)) c /\
    conn_inv (d_profile (NewDeploymentClient opts)) defaultGetClientset c [].
Proof.
  intros Ho.
  set (start := fun cs p ns => WithNamespace ns (set_conn (mkConn cs p None None) zero_kube)).
  assert (Hf : forall cs p ns, exists cs' p' ns',
    fold_left (fun k o => o k) opts (start cs p ns) = start cs' p' ns').
  { induction Ho as [|o opts [c|ns|path] Hopts IH]; intros cs p ns'; [by eexists _, _, _|apply IH..]. }
  destruct (Hf None EmptyString EmptyString) as (cs & p & ns & Hk).
  unfold NewKubeClient. change zero_kube with (start None EmptyString EmptyString).
  rewrite Hk. eexists. split; [reflexivity|]. constructor; [|done..].
  unfold known. simpl. by destruct cs.
Qed.

Lemma d_connects k : connects (d_profile k) defaultGetClientset.
Proof. apply (connects_call _ CInstance id); [done..|]. by intros [cs|e]. Qed.

Section Steps.
Context (k : Kubeclient).
Abbreviation inv := (conn_inv (d_profile k) defaultGetClientset).
Abbreviation kept := (keeps (d_profile k) defaultGetClientset (d_client (namespace k))).

(** A use of the deployment that only computes. *)
Lemma after_get_keeps {A} name (use : Deployment -> cio (result A)) c h :
  (forall d, exists a, use d = PRet a) ->
  inv c h -> kept (after_get name use (d_client (namespace k) c)) h.
Proof.
  intros Hu Hc. unfold after_get, with_clientset, getClientOrCached.
  apply keeps_request; [apply d_connects|done..|]. intros cli. repeat (split; [done|]).
  intros [d|err]; [apply Hu|by eexists].
Qed.

Lemma d_step_keeps op c h :
  inv c h ->
  wp (allowed (d_profile k)) (d_step op (d_client (namespace k) c)) h
    (fun h' o => exists c', o = Returned (d_client (namespace k) c') /\ inv c' h').
Proof.
  intros Hc. destruct op as [name|opts|name pt data opts subs|name|inj name opts|inj d|inj d|name|name];
    apply keeps_next.
  - unfold Get, with_clientset, getClientOrCached. request d_connects.
  - unfold List, with_clientset, getClientOrCached. request d_connects.
  - unfold Patch, with_clientset, getClientOrCached. request d_connects.
  - apply after_get_keeps; [by eexists|done].
  - destruct inj; [by apply keeps_ret|]. unfold Delete, with_clientset, getClientOrCached.
    case_decide; [by apply keeps_ret|request d_connects].
  - destruct inj; [by apply keeps_ret|]. destruct d as [d|]; [|by apply keeps_ret].
    unfold Create, with_clientset, getClientOrCached. request d_connects.
  - destruct inj; [by apply keeps_ret|]. destruct d as [d|]; [|by apply keeps_ret].
    unfold Update, with_clientset, getClientOrCached. request d_connects.
  - apply after_get_keeps; [|done]. intros d. by eexists.
  - apply after_get_keeps; [|done]. intros d. by eexists.
Qed.
End Steps.

(** C34: whatever a caller does with a client of deployments, whatever the API
    server answers and whichever errors are injected, no operation panics; the
    clientset is that of the process-wide client or of the path that was given,
    and the first one obtained is kept; every request goes through it, to
    deployments of the client's namespace, and no deletion has a blank name. *)
Theorem deployment_client_runs opts ops t o :
  Forall d_option opts ->
  exec (session d_step ops (NewDeploymentClient opts)) t o ->
  (forall t1 e t2, t = t1 ++ e :: t2 ->
     allowed (d_profile (NewDeploymentClient opts)) t1 (ev_req e)) /\
  (forall o', o = Some o' -> exists k, o' = Returned k /\
     clientset (k_conn k) = known (d_profile (NewDeploymentClient opts)) t).
Proof.
  intros (c & Hn & Hc)%d_new He. rewrite Hn in He.
  destruct (session_run _ _ (d_client _) _ ops c t o (d_step_keeps _) Hc He) as [Ha Ho].
  split; [done|]. intros o' Ho'. destruct (Ho o' Ho') as (c' & -> & Hk). by eexists.
Qed.
End DeploymentClientFacts.

(** An injected error, a blank name, a rollout status and a deletion. *)
Definition d_example_ops : list (@d_op Concrete.core example_options) :=
  [DDelete (O := example_options) true "nfs" false; DDelete (O := example_options) false " " false;
   DRolloutStatus (O := example_options) "nfs"; DDelete (O := example_options) false "nfs" false].

Definition d_example : @cio Concrete.core example_lib example_options _ :=
  session (d_step (C := Concrete.core) (L := example_lib) (O := example_options) (fun _ => Ok EmptyString))
    d_example_ops (NewKubeClient (fun _ => Ok EmptyString) rolloutChecks [WithNamespace "openebs"]).

Lemma deployment_client_runs_witness :
  let '(_, t, o) := run (example_serve Concrete.core) d_example () in
  length t = 3 /\ exists k, o = Returned k /\ clientset (k_conn k) = Some "clientset".
Proof.
  destruct (run (example_serve Concrete.core) d_example ()) as [[s t] o] eqn:Hrun.
  pose proof (run_exec (example_serve Concrete.core) d_example ()) as He. rewrite Hrun in He.
  destruct (deployment_client_runs (O := example_options) (fun _ => Ok EmptyString)
    (fun _ => Ok EmptyString) rolloutChecks [WithNamespace "openebs"] d_example_ops t (Some o))
    as [_ Ho].
  - repeat constructor.
  - exact He.
  - injection Hrun as <- <- <-. split; [reflexivity|].
    destruct (Ho _ eq_refl) as (k & Hk & Hc). exists k. split; [exact Hk|]. rewrite Hc. reflexivity.
Defined.
