(* ===== verification/HookExecute.v ===== *)
(** * pkg/hook/execute.go: running a hook on an object of the API server

    Fetch the object, run the hook's action on a copy, and patch the object
    with the difference. *)

From S2P Require Import Prelude K8sTypes MetaHelper Prog KubeAPI.
From S2P Require Import Hook.

Section HookExecute.
Context {C : CoreTypes} {P : PatchLib}.

Definition msg_fetch_pv (name : string) : string := "failed to fetch PV=" +:+ name.
Definition msg_fetch (what ns name : string) : string :=
  "failed to fetch " +:+ what +:+ "=" +:+ ns +:+ "/" +:+ name.
Definition msg_patch (what ns name : string) : string :=
  "failed to patch " +:+ what +:+ "=" +:+ ns +:+ "/" +:+ name.

Definition ExecuteHookOnNFSPV (h : Hook) (pvName : string) (eventType : EventType) : io error :=
  r ← kget KPV EmptyString pvName;
  match r with
  | ApiErr e => PRet (Wrapf (Some (ErrAPI e)) (msg_fetch_pv pvName))
  | ApiOk pvObjOrig =>
      a ← run_action h (ObjPV pvObjOrig) ResourceNFSPV eventType;
      match a with
      | Err e => PRet (Wrapf (Some e) "failed to execute hook")
      | Ok pvObj =>
          match GetPatchData (ObjPV pvObjOrig) pvObj with
          | Err e => PRet (Some e)
          | Ok (data, _) =>
              p ← kpatch KPV EmptyString pvName data;
              PRet (Wrapf (api_err p) ("failed to patch PV=" +:+ Name (object_meta pvObj)))
          end
      end
  end.

Definition ExecuteHookOnBackendPV (h : Hook) (ns backendPvcName : string) (eventType : EventType)
  : io error :=
  c ← kget KPVC ns backendPvcName;
  match c with
  | ApiErr e => PRet (Wrapf (Some (ErrAPI e)) (msg_fetch "PVC" ns backendPvcName))
  | ApiOk pvcObj =>
      let volumeName := pvc_VolumeName (pvc_spec pvcObj) in
      r ← kget KPV EmptyString volumeName;
      match r with
      | ApiErr e => PRet (Wrapf (Some (ErrAPI e)) (msg_fetch_pv volumeName))
      | ApiOk pvObjOrig =>
          a ← run_action h (ObjPV pvObjOrig) ResourceBackendPV eventType;
          match a with
          | Err e => PRet (Wrapf (Some e) "failed to execute hook")
          | Ok pvObj =>
              match GetPatchData (ObjPV pvObjOrig) pvObj with
              | Err e => PRet (Some e)
              | Ok (data, _) =>
                  p ← kpatch KPV EmptyString (Name (object_meta pvObj)) data;
                  PRet (Wrapf (api_err p) ("failed to patch PV=" +:+ Name (object_meta pvObj)))
              end
          end
      end
  end.

Definition ExecuteHookOnBackendPVC (h : Hook) (ns backendPvcName : string) (eventType : EventType)
  : io error :=
  r ← kget KPVC ns backendPvcName;
  match r with
  | ApiErr e => PRet (Wrapf (Some (ErrAPI e)) (msg_fetch "PVC" ns backendPvcName))
  | ApiOk pvcObjOrig =>
      a ← run_action h (ObjPVC pvcObjOrig) ResourceBackendPVC eventType;
      match a with
      | Err e => PRet (Wrapf (Some e) "failed to execute hook")
      | Ok pvcObj =>
          match GetPatchData (ObjPVC pvcObjOrig) pvcObj with
          | Err e => PRet (Some e)
          | Ok (data, _) =>
              p ← kpatch KPVC ns (Name (object_meta pvcObj)) data;
              PRet (Wrapf (api_err p) (msg_patch "PVC" ns backendPvcName))
          end
      end
  end.

Definition ExecuteHookOnNFSService (h : Hook) (ns serviceName : string) (eventType : EventType)
  : io error :=
  r ← kget KService ns serviceName;
  match r with
  | ApiErr e => PRet (Wrapf (Some (ErrAPI e)) (msg_fetch "service" ns serviceName))
  | ApiOk svcObjOrig =>
      a ← run_action h (ObjService svcObjOrig) ResourceNFSService eventType;
      match a with
      | Err e => PRet (Wrapf (Some e) "failed to execute hook")
      | Ok svcObj =>
          match GetPatchData (ObjService svcObjOrig) svcObj with
          | Err e => PRet (Some e)
          | Ok (data, _) =>
              p ← kpatch KService ns (Name (object_meta svcObj)) data;
              PRet (Wrapf (api_err p) (msg_patch "service" ns serviceName))
          end
      end
  end.

Definition ExecuteHookOnNFSDeployment (h : Hook) (ns deployName : string) (eventType : EventType)
  : io error :=
  r ← kget KDeployment ns deployName;
  match r with
  | ApiErr e => PRet (Wrapf (Some (ErrAPI e)) (msg_fetch "deployment" ns deployName))
  | ApiOk deployObjOrig =>
      a ← run_action h (ObjDeployment deployObjOrig) ResourceNFSServerDeployment eventType;
      match a with
      | Err e => PRet (Wrapf (Some e) "failed to execute hook")
      | Ok deployObj =>
          match GetPatchData (ObjDeployment deployObjOrig) deployObj with
          | Err e => PRet (Some e)
          | Ok (data, _) =>
              p ← kpatch KDeployment ns (Name (object_meta deployObj)) data;
              PRet (Wrapf (api_err p) (msg_patch "deployment" ns deployName))
          end
      end
  end.
End HookExecute.
