(* ===== verification/Tracker.v ===== *)
(** * provisioner/pvc_tracker.go: the tracker of in-progress requests

    The Go interface is the class [ProvisioningTracker]; its laws are what the
    garbage collector relies on.  The implementation is a set of names behind a
    mutex, so its operations are atomic: a run of the process is a sequence of
    them. *)

From S2P Require Import Prelude.

Class ProvisioningTracker (T : Type) := {
  NewProvisioningTracker : T;
  Add : T -> string -> T;
  Delete : T -> string -> T;
  Inprogress : T -> string -> bool;
}.

Class TrackerLaws (T : Type) `{ProvisioningTracker T} := {
  Inprogress_new n : Inprogress NewProvisioningTracker n = false;
  Inprogress_Add t n m : Inprogress (Add t n) m = bool_decide (n = m) || Inprogress t m;
  Inprogress_Delete t n m : Inprogress (Delete t n) m = negb (bool_decide (n = m)) && Inprogress t m;
}.

(** [sets.String] *)
Definition provisioningTracker : Type := gset string.

Definition tracker_new : provisioningTracker := ∅.
Definition tracker_Add (t : provisioningTracker) (pvName : string) : provisioningTracker :=
  {[pvName]} ∪ t.
Definition tracker_Delete (t : provisioningTracker) (pvName : string) : provisioningTracker :=
  t ∖ {[pvName]}.
Definition tracker_Inprogress (t : provisioningTracker) (pvName : string) : bool :=
  bool_decide (pvName ∈ t).

#[export] Instance set_tracker : ProvisioningTracker provisioningTracker := {|
  NewProvisioningTracker := tracker_new;
  Add := tracker_Add;
  Delete := tracker_Delete;
  Inprogress := tracker_Inprogress;
|}.

#[export] Instance set_tracker_laws : TrackerLaws provisioningTracker.
Proof.
  split; simpl; unfold tracker_Inprogress, tracker_Add, tracker_Delete, tracker_new.
  - intros n. by rewrite bool_decide_eq_false_2 by set_solver.
  - intros t n m. repeat case_bool_decide; simpl; set_solver.
  - intros t n m. repeat case_bool_decide; simpl; set_solver.
Qed.

(** ** Sequences of operations *)

Inductive tracker_op := OpAdd (n : string) | OpDelete (n : string).

Section TrackerFacts.
Context {T : Type} `{TrackerLaws T}.

Definition apply_op (t : T) (op : tracker_op) : T :=
  match op with OpAdd n => Add t n | OpDelete n => Delete t n end.

Definition op_name (op : tracker_op) : string :=
  match op with OpAdd n => n | OpDelete n => n end.

Definition is_add (op : tracker_op) : bool :=
  match op with OpAdd _ => true | OpDelete _ => false end.

(** The last operation on [n], if any. *)
Definition last_op (n : string) (ops : list tracker_op) : option tracker_op :=
  last (filter (fun op => op_name op = n) ops).

Lemma Inprogress_last_op ops t n :
  Inprogress (fold_left apply_op ops t) n =
  match last_op n ops with Some op => is_add op | None => Inprogress t n end.
Proof using Type*.
  unfold last_op. induction ops as [|op ops IH] using rev_ind; [done|].
  rewrite fold_left_app, filter_app. simpl.
  assert (Hs : base.filter (fun o => op_name o = n) [op] = if decide (op_name op = n) then [op] else []).
  { rewrite filter_cons. by case_decide. }
  rewrite Hs. case_decide as Hn.
  - rewrite last_snoc. destruct op as [m|m]; simpl in *; subst m.
    + rewrite Inprogress_Add. by rewrite bool_decide_eq_true_2.
    + rewrite Inprogress_Delete. by rewrite bool_decide_eq_true_2.
  - rewrite app_nil_r, <- IH. destruct op as [m|m]; simpl in *.
    + rewrite Inprogress_Add. by rewrite bool_decide_eq_false_2.
    + rewrite Inprogress_Delete. by rewrite bool_decide_eq_false_2.
Qed.
End TrackerFacts.

(** ** Properties *)

(** C40: whatever operations the concurrent requests perform, in whatever order
    the mutex serialises them, a volume is in progress exactly when the last
    operation on its name was [Add]; operations on other names do not matter.
    In particular the tracker is a set: one [Delete] ends two [Add]s. *)
Theorem tracker_last_op ops n :
  Inprogress (fold_left apply_op ops (NewProvisioningTracker : provisioningTracker)) n =
  match last_op n ops with Some op => is_add op | None => false end.
Proof. rewrite Inprogress_last_op. destruct (last_op n ops); [done|]. apply Inprogress_new. Qed.
