(* ===== verification/Env.v ===== *)
(** * provisioner/env.go: the environment variables of the provisioner

    Reading the environment is library code ([menv] of the maya repository):
    the class [MayaEnv]. *)

From S2P Require Import Prelude.

Class MayaEnv := {
  (** [menv.Get] *)
  menv_Get : string -> string;
  (** [menv.GetOrDefault] *)
  menv_GetOrDefault : string -> string -> string;
  (** [menv.Truthy] *)
  menv_Truthy : string -> bool;
  (** [menv.OpenEBSNamespace], [menv.OpenEBSServiceAccount],
      [menv.OpenEBSEnableAnalytics] *)
  OpenEBSNamespace : string;
  OpenEBSServiceAccount : string;
  OpenEBSEnableAnalytics : string;
  (** [NFSServerDefaultImage], set when the program is linked *)
  NFSServerDefaultImage : string;
}.

Definition ProvisionerNFSServerType : string := "OPENEBS_IO_NFS_SERVER_TYPE".
Definition ProvisionerExportsSC : string := "OPENEBS_IO_EXPORTS_SC".
Definition ProvisionerNFSServerUseClusterIP : string := "OPENEBS_IO_NFS_SERVER_USE_CLUSTERIP".
Definition NFSServerImageKey : string := "OPENEBS_IO_NFS_SERVER_IMG".
Definition NFSServerNamespace : string := "OPENEBS_IO_NFS_SERVER_NS".
Definition NodeAffinityKey : string := "OPENEBS_IO_NFS_SERVER_NODE_AFFINITY".
Definition NFSBackendPvcTimeout : string := "OPENEBS_IO_NFS_SERVER_BACKEND_PVC_TIMEOUT".
Definition NFSGarbageCollectionEnable : string := "OPENEBS_IO_NFS_SERVER_GARBAGE_COLLECTION_ENABLED".
Definition NFSServerImagePullSecret : string := "OPENEBS_IO_NFS_SERVER_IMAGE_PULL_SECRET".

Definition defaultNFSServerType : string := "kernel".
Definition defaultExportsSC : string := EmptyString.

Section Env.
Context {M : MayaEnv}.

Definition getOpenEBSNamespace : string := menv_Get OpenEBSNamespace.
Definition getNfsServerNamespace : string :=
  menv_GetOrDefault NFSServerNamespace (menv_Get OpenEBSNamespace).
Definition getDefaultExportsSC : string := menv_GetOrDefault ProvisionerExportsSC defaultExportsSC.
Definition getDefaultNFSServerType : string :=
  menv_GetOrDefault ProvisionerNFSServerType defaultNFSServerType.
Definition getOpenEBSServiceAccountName : string := menv_Get OpenEBSServiceAccount.
Definition getNFSServerImage : string := menv_GetOrDefault NFSServerImageKey NFSServerDefaultImage.
Definition getNfsServerNodeAffinity : string := menv_Get NodeAffinityKey.
Definition getBackendPvcTimeout : string := menv_Get NFSBackendPvcTimeout.
Definition getNfsGarbageCollectionEnable : string :=
  menv_GetOrDefault NFSGarbageCollectionEnable "true".
Definition getNfsServerImagePullSecret : string :=
  menv_GetOrDefault NFSServerImagePullSecret EmptyString.
End Env.
