(* ===== verification/VolumeConfig.v ===== *)
(** * provisioner/config.go: the configuration of a volume

    The merged configuration of the claim and its storage class, the getters
    that read it, and the hook configuration file.  The configuration language
    itself ([cast] and [mconfig] of the maya repository) is library code: the
    class [MayaConfig]. *)

From S2P Require Import Prelude GoStrings K8sTypes Prog KubeAPI.
From S2P Require Hook.

(** A value of a [map[string]interface{}]: the source only asks whether it is a
    [map[string]string]. *)
Inductive iface :=
| IStrMap (m : gomap string)
| IOther.

Class MayaConfig {C : CoreTypes} := {
  (** [mconfig.Config] *)
  MConfig : Type;
  (** [mconfig.Config{Name: n, Value: v}] *)
  mconfig_new : string -> string -> MConfig;
  mc_Name : MConfig -> string;
  mc_Data : MConfig -> gomap string;
  (** [mconfig.CASConfigKey], [mconfig.CASTypeKey], [mconfig.ValuePTP] *)
  CASConfigKey : string;
  CASTypeKey : string;
  ValuePTP : string;
  (** [cast.UnMarshallToConfig], [cast.MergeConfig], [cast.ConfigToMap] *)
  UnMarshallToConfig : string -> result (list MConfig);
  MergeConfig : list MConfig -> list MConfig -> list MConfig;
  ConfigToMap : list MConfig -> result (gmap string iface);
  (** [util.GetNestedField] with one field name *)
  GetNestedField : gmap string iface -> string -> option iface;
  (** [yaml.Unmarshal] into a [v1.ResourceList] *)
  Unmarshal_ResourceList : string -> result (gomap Quantity);
}.

Definition KeyPVNFSServerType : string := "NFSServerType".
Definition KeyPVBackendStorageClass : string := "BackendStorageClass".
Definition CustomServerConfig : string := "CustomServerConfig".
Definition LeaseTime : string := "LeaseTime".
Definition DefaultLeaseTime : Z := 90.
Definition GraceTime : string := "GraceTime".
Definition DefaultGraceTime : Z := 90.
Definition FSGroupID : string := "FSGID".
Definition FilePermissions : string := "FilePermissions".
Definition FsUID : string := "UID".
Definition FsGID : string := "GID".
Definition FsMode : string := "mode".
Definition NFSServerResourceRequests : string := "NFSServerResourceRequests".
Definition NFSServerResourceLimits : string := "NFSServerResourceLimits".
Definition HookConfigFilePath : string := "/etc/nfs-provisioner/hook-config".
Definition betaStorageClassAnnotation : string := "volume.beta.kubernetes.io/storage-class".

Record VolumeConfig := mkVolumeConfig {
  vc_pvName : string;
  vc_pvcName : string;
  vc_scName : string;
  vc_options : gmap string iface;
  vc_configData : gmap string iface;
}.

(** [len(strings.TrimSpace(s)) == 0] *)
Definition blank (s : string) : bool := bool_decide (String.length (TrimSpace s) = 0).

Section VolumeConfig.
Context {C : CoreTypes} {Y : MayaConfig}.

(** The body of the loop, then the loop, from the map built so far. *)
Definition data_entry (m : gmap string iface) (configObj : MConfig) : gmap string iface :=
  match mc_Data configObj with
  | None => m
  | Some data => <[TrimSpace (mc_Name configObj) := IStrMap (Some data)]> m
  end.

Definition dataConfigToMap (pvConfig : list MConfig) : gmap string iface :=
  fold_left data_entry pvConfig ∅.

(** The beta annotation has precedence, even when it is empty. *)
Definition GetStorageClassNameFromPVC (pvc : PersistentVolumeClaim) : option string :=
  match gomap_lookup (Annotations (pvc_meta pvc)) betaStorageClassAnnotation with
  | Some class => Some class
  | None => pvc_StorageClassName (pvc_spec pvc)
  end.

Definition GetNFSServerTypeFromPV (pv : PersistentVolume) : string := "kernel".

(** Merges the configuration of an annotation, when there is one. *)
Definition merge_annotation (m : ObjectMeta) (msg : string) (pvConfig : list MConfig)
  : result (list MConfig) :=
  let str := default EmptyString (gomap_lookup (Annotations m) CASConfigKey) in
  if blank str then Ok pvConfig
  else match UnMarshallToConfig str with
       | Ok cfg => Ok (MergeConfig cfg pvConfig)
       | Err err => Err (ErrWrap err msg)
       end.

(** A claim without a storage class name is a nil dereference.  Error messages
    keep their constant text. *)
Definition GetVolumeConfig (defaultConfig : list MConfig) (pvName : string)
    (pvc : PersistentVolumeClaim) : io (result VolumeConfig) :=
  match merge_annotation (pvc_meta pvc) "failed to get config: invalid config in pvc" defaultConfig with
  | Err err => PRet (Err err)
  | Ok pvConfig =>
      match GetStorageClassNameFromPVC pvc with
      | None => PPanic
      | Some scName =>
          r ← (call (RGetStorageClass scName) : io (api StorageClass));
          match r with
          | ApiErr e => PRet (Err (ErrWrap (ErrAPI e) "failed to get storageclass: missing sc name"))
          | ApiOk sc =>
              match merge_annotation (sc_meta sc) "failed to get config: invalid sc config" pvConfig with
              | Err err => PRet (Err err)
              | Ok pvConfig =>
                  match ConfigToMap pvConfig with
                  | Err err => PRet (Err (ErrWrap err "unable to read volume config"))
                  | Ok pvConfigMap =>
                      PRet (Ok (mkVolumeConfig pvName (Name (pvc_meta pvc)) scName pvConfigMap
                                  (dataConfigToMap pvConfig)))
                  end
              end
          end
      end
  end.

(** ** Getters *)

Definition lookup_field (m : gmap string iface) (key subkey : string) : string :=
  match GetNestedField m key with
  | Some (IStrMap configObj) => default EmptyString (gomap_lookup configObj subkey)
  | _ => EmptyString
  end.

Definition getValue (c : VolumeConfig) (key : string) : string :=
  lookup_field (vc_options c) key ValuePTP.

Definition getData (c : VolumeConfig) (key dataKey : string) : string :=
  lookup_field (vc_configData c) key dataKey.

Definition GetNFSServerTypeFromConfig (c : VolumeConfig) : string :=
  let serverType := getValue c KeyPVNFSServerType in
  if blank serverType then "kernel" else serverType.

Definition GetBackendStorageClassFromConfig (c : VolumeConfig) : string :=
  let backingSC := getValue c KeyPVBackendStorageClass in
  if blank backingSC then EmptyString else backingSC.

Definition GetCustomNFSServerConfig (c : VolumeConfig) : string :=
  let customServerConfig := getValue c CustomServerConfig in
  if blank customServerConfig then EmptyString else customServerConfig.

(** Both results of the Go function: the value next to an error is 0. *)
Definition GetNFSServerLeaseTime (c : VolumeConfig) : Z * error :=
  let leaseTime := getValue c LeaseTime in
  if blank leaseTime then (DefaultLeaseTime, None)
  else match Atoi leaseTime with
       | Err err => (0%Z, Some err)
       | Ok leaseTimeVal =>
           (if decide (leaseTimeVal = 0)%Z then DefaultLeaseTime else leaseTimeVal, None)
       end.

Definition GetNFServerGraceTime (c : VolumeConfig) : Z * error :=
  let graceTime := getValue c GraceTime in
  if blank graceTime then (DefaultGraceTime, None)
  else match Atoi graceTime with
       | Err err => (0%Z, Some err)
       | Ok graceTimeVal =>
           (if decide (graceTimeVal = 0)%Z then DefaultGraceTime else graceTimeVal, None)
       end.

Definition GetFSGroupID (c : VolumeConfig) : result (option Z) :=
  let fsGroupIDStr := getValue c FSGroupID in
  if blank fsGroupIDStr then Ok None
  else match ParseInt64 fsGroupIDStr with
       | Err err => Err err
       | Ok fsGIDInt => Ok (Some fsGIDInt)
       end.

(** The pointer [GetFSGroupID] returns, its error dropped. *)
Definition deprecatedFsGroupID (c : VolumeConfig) : option Z :=
  match GetFSGroupID c with Ok p => p | Err _ => None end.

(** The common body of [GetFsGID] and [GetFsMode]. *)
Definition exclusive_data (c : VolumeConfig) (dataKey : string) : result string :=
  let str := TrimSpace (getData c FilePermissions dataKey) in
  let exists_str := bool_decide (0 < String.length str) in
  let exists_deprecated :=
    match deprecatedFsGroupID c with Some _ => true | None => false end in
  if exists_str && exists_deprecated
  then Err (ErrNew ("both '" +:+ FSGroupID +:+ "' and '" +:+ FilePermissions +:+ "." +:+ dataKey
                    +:+ "' cannot be used together"))
  else if exists_deprecated then Ok EmptyString
  else Ok str.

Definition GetFsGID (c : VolumeConfig) : result string := exclusive_data c FsGID.

Definition GetFsMode (c : VolumeConfig) : result string := exclusive_data c FsMode.

Definition GetFsUID (c : VolumeConfig) : string :=
  let fsUIDStr := TrimSpace (getData c FilePermissions FsUID) in
  if decide (String.length fsUIDStr = 0) then EmptyString else fsUIDStr.

Definition getResourceList (c : VolumeConfig) (key : string) : result (gomap Quantity) :=
  let dataStr := getValue c key in
  match Unmarshal_ResourceList dataStr with
  | Err err => Err (ErrWrap err ("failed to marshal data " +:+ dataStr))
  | Ok resourceList => Ok resourceList
  end.

Definition GetNFSServerResourceRequirements (c : VolumeConfig) : result ResourceRequirements :=
  match getResourceList c NFSServerResourceRequests with
  | Err err => Err err
  | Ok requests =>
      match getResourceList c NFSServerResourceLimits with
      | Err err => Err err
      | Ok limits => Ok (mkResources _ requests limits)
      end
  end.
End VolumeConfig.

(** ** The hook configuration file *)

Class FileSystem := {
  (** the error of [os.Stat] *)
  os_Stat : string -> error;
  os_IsNotExist : goerr -> bool;
  ioutil_ReadFile : string -> result string;
  (** [yaml.Unmarshal] into a [Hook] *)
  yaml_Unmarshal_Hook : string -> result (gomap Hook.HookConfig * string);
}.

Section HookFile.
Context {F : FileSystem}.

Definition hookConfigFileExist : result bool :=
  match os_Stat HookConfigFilePath with
  | None => Ok true
  | Some err => if os_IsNotExist err then Ok false else Err err
  end.

(** The error, and the hook variable afterwards (nil before). *)
Definition initializeHook : result (option Hook.Hook) :=
  match hookConfigFileExist with
  | Err err => Err (ErrList "failed to check hook config file, err=" [err])
  | Ok hookFileExists =>
      if negb hookFileExists then Ok None
      else match ioutil_ReadFile HookConfigFilePath with
           | Err err => Err (ErrList "failed to read hook config file, err=" [err])
           | Ok data =>
               match Hook.ParseHooks yaml_Unmarshal_Hook data with
               | Err err => Err err
               | Ok hookObj => Ok (Some hookObj)
               end
           end
  end.
End HookFile.
