(* ===== verification/Regexp.v ===== *)
(** * Regular expressions, as far as the provisioner uses Go's [regexp]

    The source asks two things of its two patterns: whether a string contains a
    match, and where the leftmost match starts.  Both depend on the language of
    the pattern only, and are computed with derivatives.  [lang] is the
    specification, [prefix_match_lang] and [find_start_spec] the correctness of
    the functions.  [.] does not match a newline; the literals of the patterns
    are ASCII, so working on bytes instead of runes finds the same matches. *)

From Stdlib Require Import Ascii.
From S2P Require Import Prelude GoStrings.

Inductive regex :=
| RNone
| REps
| RChr (c : ascii)
| RDot
| RSeq (a b : regex)
| RAlt (a b : regex)
| RStar (a : regex).

Definition RPlus (a : regex) : regex := RSeq a (RStar a).

Definition newline_char : ascii := Ascii.ascii_of_nat 10.

Inductive lang : regex -> string -> Prop :=
| l_eps : lang REps EmptyString
| l_chr c : lang (RChr c) (String c EmptyString)
| l_dot c : c <> newline_char -> lang RDot (String c EmptyString)
| l_seq a b s t : lang a s -> lang b t -> lang (RSeq a b) (s +:+ t)
| l_alt_l a b s : lang a s -> lang (RAlt a b) s
| l_alt_r a b s : lang b s -> lang (RAlt a b) s
| l_star_nil a : lang (RStar a) EmptyString
| l_star_cons a s t : lang a s -> lang (RStar a) t -> lang (RStar a) (s +:+ t).

Fixpoint nullable (r : regex) : bool :=
  match r with
  | RNone | RChr _ | RDot => false
  | REps | RStar _ => true
  | RSeq a b => nullable a && nullable b
  | RAlt a b => nullable a || nullable b
  end.

Fixpoint deriv (c : ascii) (r : regex) : regex :=
  match r with
  | RNone | REps => RNone
  | RChr d => if decide (c = d) then REps else RNone
  | RDot => if decide (c = newline_char) then RNone else REps
  | RSeq a b =>
      if nullable a then RAlt (RSeq (deriv c a) b) (deriv c b) else RSeq (deriv c a) b
  | RAlt a b => RAlt (deriv c a) (deriv c b)
  | RStar a => RSeq (deriv c a) (RStar a)
  end.

(** Some prefix of the string is in the language. *)
Fixpoint prefix_match (r : regex) (s : string) : bool :=
  nullable r || match s with
                | EmptyString => false
                | String c s' => prefix_match (deriv c r) s'
                end.

(** [FindStringIndex(s)], its first component: the leftmost start of a match. *)
Fixpoint find_start (r : regex) (s : string) : option nat :=
  if prefix_match r s then Some 0
  else match s with
       | EmptyString => None
       | String _ s' => S <$> find_start r s'
       end.

(** ** Correctness *)

Lemma nullable_lang r : nullable r = true <-> lang r EmptyString.
Proof.
  assert (Hinv : forall s, lang r s -> s = EmptyString -> nullable r = true).
  { induction 1; simpl; intros Hs; try done.
    - destruct s; [|done]. simpl_str. by rewrite IHlang1, IHlang2.
    - by rewrite IHlang.
    - rewrite IHlang by done. apply orb_true_r. }
  split; [|eauto]. clear Hinv.
  induction r as [| | | |a IHa b IHb|a IHa b IHb|a IHa]; simpl; try done.
  - intros _. constructor.
  - intros [Ha Hb]%andb_true_iff.
    change EmptyString with (EmptyString +:+ EmptyString). constructor; auto.
  - intros [Ha|Hb]%orb_true_iff; [apply l_alt_l|apply l_alt_r]; auto.
  - intros _. constructor.
Qed.

Lemma app_eq_cons s t c (u : string) :
  s +:+ t = String c u ->
  (s = EmptyString /\ t = String c u) \/ exists s', s = String c s' /\ u = s' +:+ t.
Proof.
  destruct s as [|d s]; simpl_str; [by left|]. intros [= -> <-]. right. by exists s.
Qed.

Lemma deriv_lang c r s : lang (deriv c r) s <-> lang r (String c s).
Proof.
  revert s. induction r as [| |d| |a IHa b IHb|a IHa b IHb|a IHa]; intros s; simpl.
  - split; inversion 1.
  - split; inversion 1.
  - case_decide; subst.
    + split; [inversion 1; constructor|inversion 1; constructor].
    + split; [inversion 1|inversion 1; congruence].
  - case_decide; subst.
    + split; [inversion 1|inversion 1; congruence].
    + split; [inversion 1; by constructor|inversion 1; constructor].
  - assert (Hseq : forall u, lang (RSeq (deriv c a) b) u -> lang (RSeq a b) (String c u)).
    { intros u Hu. inversion Hu; subst. rewrite <- app_cons_str. constructor; [by apply IHa|done]. }
    assert (Hinv : lang (RSeq a b) (String c s) ->
      lang (RSeq (deriv c a) b) s \/ (lang a EmptyString /\ lang b (String c s))).
    { inversion 1 as [| | |? ? s1 t1 H1 H2 Heq| | | |]; subst.
      match goal with He : _ +:+ _ = _ |- _ => apply app_eq_cons in He as [[-> ->]|(s' & -> & ->)] end;
        [by right|]. left. constructor; [by apply IHa|done]. }
    destruct (nullable a) eqn:Hn.
    + apply nullable_lang in Hn. split.
      * inversion 1; subst; [by apply Hseq|].
        change (String c s) with (EmptyString +:+ String c s). constructor; [done|by apply IHb].
      * intros [|[_ Hb]]%Hinv; [by apply l_alt_l|by apply l_alt_r, IHb].
    + split; [apply Hseq|]. intros [|[Ha _]]%Hinv; [done|]. apply nullable_lang in Ha. congruence.
  - split; (inversion 1; subst; [apply l_alt_l|apply l_alt_r]; naive_solver).
  - split.
    + inversion 1; subst. rewrite <- app_cons_str. apply l_star_cons; [by apply IHa|done].
    + intros Hl. remember (RStar a) as r eqn:Hr. remember (String c s) as u eqn:Hu.
      revert s Hu. induction Hl as [| | | | | | |a' s1 t1 H1 IH1 H2 IH2]; intros z Hu; try done.
      injection Hr as ->.
      apply app_eq_cons in Hu as [[-> ->]|(s' & -> & ->)]; [by apply IH2|].
      constructor; [by apply IHa|done].
Qed.

Lemma prefix_match_lang r s :
  prefix_match r s = true <-> exists u v, s = u +:+ v /\ lang r u.
Proof.
  revert r. induction s as [|c s IH]; intros r; simpl.
  - rewrite orb_false_r, nullable_lang. split.
    + intros Hl. by exists EmptyString, EmptyString.
    + intros (u & v & Huv & Hl). by destruct u.
  - rewrite orb_true_iff, nullable_lang, IH. split.
    + intros [Hl|(u & v & -> & Hl)].
      * by exists EmptyString, (String c s).
      * exists (String c u), v. split; [done|]. by apply deriv_lang.
    + intros (u & v & Huv & Hl). destruct u as [|d u]; simpl_str; [by left|].
      injection Huv as -> ->. right. exists u, v. split; [done|]. by apply deriv_lang.
Qed.

(** The leftmost position from which the pattern matches. *)
Lemma find_start_spec r s n :
  find_start r s = Some n <->
  exists p q, s = p +:+ q /\ String.length p = n /\ prefix_match r q = true /\
    forall p1 p2, p = p1 +:+ p2 -> p2 <> EmptyString -> prefix_match r (p2 +:+ q) = false.
Proof.
  revert n. induction s as [|c s IH]; intros n.
  - change (find_start r EmptyString) with (if prefix_match r EmptyString then Some 0 else None).
    destruct (prefix_match r EmptyString) eqn:Hm.
    + split.
      * intros [= <-]. exists EmptyString, EmptyString. repeat split; [done|].
        by intros [] [].
      * intros (p & q & Hpq & <- & _). by destruct p.
    + split; [done|]. intros (p & q & Hpq & <- & Hq & _). destruct p, q; try done.
      simpl_str. congruence.
  - change (find_start r (String c s)) with
      (if prefix_match r (String c s) then Some 0 else S <$> find_start r s).
    destruct (prefix_match r (String c s)) eqn:Hm.
    + split.
      * intros [= <-]. exists EmptyString, (String c s). repeat split; [done|]. by intros [] [].
      * intros (p & q & Hpq & <- & Hq & Hl). destruct p as [|d p]; [done|].
        specialize (Hl EmptyString (String d p) eq_refl ltac:(done)). rewrite <- Hpq in Hl. congruence.
    + rewrite fmap_Some. setoid_rewrite IH. split.
      * intros (m & (p & q & -> & <- & Hq & Hl) & ->).
        exists (String c p), q. repeat split; [done|].
        intros p1 p2 Hp Hne. symmetry in Hp.
        apply app_eq_cons in Hp as [[-> ->]|(p1' & -> & ->)]; [done|].
        by eapply Hl.
      * intros (p & q & Hpq & <- & Hq & Hl). destruct p as [|d p];
          [rewrite app_nil_str in Hpq; congruence|].
        rewrite app_cons_str in Hpq. injection Hpq as -> ->. exists (String.length p). split; [|done].
        exists p, q. repeat split; [done|]. intros p1 p2 -> Hne.
        by apply (Hl (String d p1) p2).
Qed.

Lemma find_start_None r s :
  find_start r s = None <-> forall p q, s = p +:+ q -> prefix_match r q = false.
Proof.
  induction s as [|c s IH].
  - change (find_start r EmptyString) with (if prefix_match r EmptyString then Some 0 else None).
    destruct (prefix_match r EmptyString) eqn:Hm; split; try done.
    + intros Hn. specialize (Hn EmptyString EmptyString eq_refl). congruence.
    + intros _ p q Hpq. by destruct p, q.
  - change (find_start r (String c s)) with
      (if prefix_match r (String c s) then Some 0 else S <$> find_start r s).
    destruct (prefix_match r (String c s)) eqn:Hm; split; try done.
    + intros Hn. specialize (Hn EmptyString (String c s) eq_refl). congruence.
    + intros Hn p q Hpq. apply fmap_None in Hn. destruct p as [|d p];
        [rewrite app_nil_str in Hpq; by subst|]. rewrite app_cons_str in Hpq.
      injection Hpq as -> ->. by eapply IH.
    + intros Hn. apply fmap_None, IH. intros p q ->. by apply (Hn (String c p) q).
Qed.
