(* ===== verification/NodeAffinity.v ===== *)
(** * provisioner/node_affinity.go: the affinity rules in the environment *)

From Stdlib Require Import Ascii.
From S2P Require Import Prelude GoStrings K8sTypes Env Regexp.

(** [NodeAffinity] is its [MatchExpressions]. *)
Definition NodeAffinity : Type := list NodeSelectorRequirement.

Definition r_any : regex := RStar RDot.
Definition comma : ascii := ","%char.

(** [,.*:\[.*] *)
Definition complex_suffix_re : regex :=
  RSeq (RChr comma) (RSeq r_any (RSeq (RChr ":"%char) (RSeq (RChr "["%char) r_any))).

(** [.*,+.*:\[.*] *)
Definition complex_re : regex :=
  RSeq r_any (RSeq (RPlus (RChr comma))
    (RSeq r_any (RSeq (RChr ":"%char) (RSeq (RChr "["%char) r_any)))).

(** [FindString(s) != ""]: neither pattern matches the empty string, so a match
    is all it takes. *)
Definition found (r : regex) (s : string) : bool := bool_decide (is_Some (find_start r s)).

Definition getNodeSelectorRequirement (reqAsValue : string) : NodeSelectorRequirement :=
  let keyValues := Split reqAsValue ":" in
  let key := TrimSpace (default EmptyString (head keyValues)) in
  match keyValues with
  | _ :: kv1 :: _ =>
      let valueList :=
        Split (TrimSpace (TrimLeft (TrimRight kv1 "]"%char) "["%char)) "," in
      if decide (1 < length valueList) then mkReq key NodeSelectorOpIn valueList
      else match valueList with
           | [v] => if decide (TrimSpace v <> EmptyString)
                    then mkReq key NodeSelectorOpIn valueList
                    else mkReq key NodeSelectorOpExists []
           | _ => mkReq key NodeSelectorOpExists []
           end
  | _ => mkReq key NodeSelectorOpExists []
  end.

(** Recursive on a string that may not get shorter: [None] is running out of
    fuel.  [getRightMostMatchingString_total] shows that for a pattern whose
    matches start with a comma, [S (len value)] is enough. *)
Fixpoint right_most (fuel : nat) (r : regex) (value : string) : option string :=
  match fuel with
  | O => None
  | S f =>
      match find_start r value with
      | None => Some EmptyString
      | Some loc =>
          let value := drop_str loc value in
          let value :=
            match value with
            | String c rest =>
                if decide (c = comma /\ 1 < String.length value) then rest else value
            | EmptyString => value
            end in
          match right_most f r value with
          | None => None
          | Some rightMostMatchingString =>
              if decide (rightMostMatchingString <> EmptyString)
              then Some rightMostMatchingString else Some value
          end
      end
  end.

Definition getRightMostMatchingString (r : regex) (value : string) : option string :=
  right_most (S (String.length value)) r value.

(** The whole text after the key is handed to [getNodeSelectorRequirement]. *)
Definition getOneOrMoreNodeSelectorRequirements (requirementsAsValue : string)
  : option (list NodeSelectorRequirement) :=
  let isComplexRequirement := found complex_re requirementsAsValue in
  let zero := mkReq EmptyString EmptyString [] in
  match (if isComplexRequirement
         then getRightMostMatchingString complex_suffix_re requirementsAsValue
         else Some EmptyString) with
  | None => None
  | Some matchingString =>
      let '(complexReq, value) :=
        if decide (matchingString <> EmptyString) then
          let matchingIndex := Z.to_nat (LastIndex requirementsAsValue matchingString) in
          (getNodeSelectorRequirement (drop_str matchingIndex requirementsAsValue),
           take_str matchingIndex requirementsAsValue)
        else (zero, requirementsAsValue) in
      if ContainsRune value "["%char then Some [getNodeSelectorRequirement value]
      else
        let reqs := filter (fun req => TrimSpace req <> EmptyString) (Split value ",") in
        Some (map getNodeSelectorRequirement reqs
              ++ if isComplexRequirement then [complexReq] else [])
  end.

(** [getNodeAffinityRules] on the value of the environment variable. *)
Definition parseNodeAffinity (affinityValue : string) : option NodeAffinity :=
  if decide (affinityValue = EmptyString) then Some []
  else mjoin <$> mapM getOneOrMoreNodeSelectorRequirements (Split affinityValue "],").

Definition getNodeAffinityRules {M : MayaEnv} : option NodeAffinity :=
  parseNodeAffinity getNfsServerNodeAffinity.

(** ** Examples of the comments in the source *)

Example affinity_zones :
  parseNodeAffinity "kubernetes.io/hostName:[z1-host1,z2-host1,z3-host1],kubernetes.io/storage:[available]"
  = Some [mkReq "kubernetes.io/hostName" NodeSelectorOpIn ["z1-host1"; "z2-host1"; "z3-host1"];
          mkReq "kubernetes.io/storage" NodeSelectorOpIn ["available"]].
Proof. vm_compute. reflexivity. Qed.

Example affinity_storage :
  parseNodeAffinity "kubernetes.io/storage:[],kubernetes.io/zone:[zone1]"
  = Some [mkReq "kubernetes.io/storage" NodeSelectorOpExists [];
          mkReq "kubernetes.io/zone" NodeSelectorOpIn ["zone1"]].
Proof. vm_compute. reflexivity. Qed.

Example affinity_mixed :
  parseNodeAffinity "kubernetes.io/storage-node,kubernetes.io/nfs-node,kubernetes.io/zone:[zone-1,zone-2,zone-3]"
  = Some [mkReq "kubernetes.io/storage-node" NodeSelectorOpExists [];
          mkReq "kubernetes.io/nfs-node" NodeSelectorOpExists [];
          mkReq "kubernetes.io/zone" NodeSelectorOpIn ["zone-1"; "zone-2"; "zone-3"]].
Proof. vm_compute. reflexivity. Qed.

(** A blank between the bracket and the comma hides the separator: the last
    requirement is then dropped. *)
Example affinity_dropped :
  parseNodeAffinity "zone:[z1] ,disk:[ssd]" = Some [mkReq "zone" NodeSelectorOpIn ["z1] "; EmptyString]].
Proof. vm_compute. reflexivity. Qed.
