(* ===== verification/NodeAffinityFacts.v ===== *)
(** * The affinity parser: it always answers, and it reads back what a
    well-formed list of requirements prints to *)

From Stdlib Require Import Ascii.
From S2P Require Import Prelude GoStrings StringFacts K8sTypes Regexp NodeAffinity.

Definition colon : ascii := ":"%char.
Definition lbracket : ascii := "["%char.
Definition rbracket : ascii := "]"%char.

(** ** The two patterns *)

Lemma lang_any u : lang r_any u <-> ContainsRune u newline_char = false.
Proof.
  split.
  - intros Hl. remember r_any as r eqn:Hr.
    induction Hl as [| | | | | |a|a s t Hs _ Ht IH]; try done. injection Hr as ->.
    rewrite ContainsRune_app, IH by done. inversion Hs; subst. simpl.
    by rewrite bool_decide_eq_false_2 by congruence.
  - induction u as [|c u IH]; [constructor|]. simpl. intros [Hc Hu]%orb_false_iff.
    apply bool_decide_eq_false in Hc.
    change (String c u) with (String c EmptyString +:+ u). constructor; [by constructor|auto].
Qed.

Lemma lang_seq_inv a b u : lang (RSeq a b) u -> exists s t, u = s +:+ t /\ lang a s /\ lang b t.
Proof. inversion 1; subst; eauto. Qed.

Lemma lang_chr_inv c u : lang (RChr c) u -> u = chr c.
Proof. by inversion 1. Qed.

(** [x:\[], behind the pattern's tail. *)
Lemma lang_tail x :
  ContainsRune x newline_char = false ->
  lang (RSeq r_any (RSeq (RChr ":"%char) (RSeq (RChr "["%char) r_any)))
    (x +:+ (chr colon +:+ (chr lbracket +:+ EmptyString))).
Proof.
  intros Hx. apply l_seq; [by apply lang_any|]. apply l_seq; [apply l_chr|].
  apply l_seq; [apply l_chr|by apply lang_any].
Qed.

(** A match of [,.*:\[.*] at the start of a string. *)
Lemma suffix_match s :
  prefix_match complex_suffix_re s = true <->
  exists x y, s = String comma (x +:+ String colon (String lbracket y)) /\
              ContainsRune x newline_char = false.
Proof.
  rewrite prefix_match_lang. split.
  - intros (u & v & -> & Hu). unfold complex_suffix_re in Hu.
    apply lang_seq_inv in Hu as (? & ? & -> & ->%lang_chr_inv & Hu).
    apply lang_seq_inv in Hu as (x & ? & -> & Hx & Hu).
    apply lang_seq_inv in Hu as (? & ? & -> & ->%lang_chr_inv & Hu).
    apply lang_seq_inv in Hu as (? & y & -> & ->%lang_chr_inv & Hu).
    exists x, (y +:+ v). split; [|by apply lang_any].
    unfold chr. simpl_str. by rewrite app_assoc_str.
  - intros (x & y & -> & Hx).
    exists (chr comma +:+ (x +:+ (chr colon +:+ (chr lbracket +:+ EmptyString)))), y.
    split; [unfold chr; simpl_str; by rewrite app_assoc_str|].
    apply l_seq; [apply l_chr|by apply lang_tail].
Qed.

Lemma find_start_suffix s n :
  find_start complex_suffix_re s = Some n ->
  exists p x y, s = p +:+ String comma (x +:+ String colon (String lbracket y)) /\ String.length p = n.
Proof.
  intros (p & q & -> & <- & Hq & _)%find_start_spec. apply suffix_match in Hq as (x & y & -> & _).
  by exists p, x, y.
Qed.

Lemma found_true r s : found r s = true <-> exists p u v, s = p +:+ (u +:+ v) /\ lang r u.
Proof.
  unfold found. rewrite bool_decide_eq_true. split.
  - intros [n (p & q & -> & _ & Hq & _)%find_start_spec].
    apply prefix_match_lang in Hq as (u & v & -> & Hu). by exists p, u, v.
  - intros (p & u & v & -> & Hu). apply not_eq_None_Some. intros Hn.
    rewrite find_start_None in Hn. specialize (Hn p _ eq_refl).
    rewrite (proj2 (prefix_match_lang r (u +:+ v))) in Hn; [done|]. by exists u, v.
Qed.

Lemma found_complex_inv s :
  found complex_re s = true ->
  exists x y z, s = x +:+ String comma (y +:+ String colon (String lbracket z)).
Proof.
  intros (p & u & v & -> & Hu)%found_true. unfold complex_re, RPlus in Hu.
  apply lang_seq_inv in Hu as (x & ? & -> & _ & Hu).
  apply lang_seq_inv in Hu as (? & ? & -> & Hc & Hu).
  apply lang_seq_inv in Hc as (? & cs & -> & ->%lang_chr_inv & _).
  apply lang_seq_inv in Hu as (y & ? & -> & _ & Hu).
  apply lang_seq_inv in Hu as (? & ? & -> & ->%lang_chr_inv & Hu).
  apply lang_seq_inv in Hu as (? & z & -> & ->%lang_chr_inv & _).
  exists (p +:+ x), (cs +:+ y), (z +:+ v). unfold chr. by repeat (simpl_str; rewrite ?app_assoc_str).
Qed.

Lemma found_complex x y z :
  ContainsRune x newline_char = false -> ContainsRune y newline_char = false ->
  found complex_re (x +:+ String comma (y +:+ String colon (String lbracket z))) = true.
Proof.
  intros Hx Hy. apply found_true.
  exists EmptyString, (x +:+ ((chr comma +:+ EmptyString) +:+ (y +:+ (chr colon +:+ (chr lbracket +:+ EmptyString))))), z.
  split; [unfold chr; by repeat (simpl_str; rewrite ?app_assoc_str)|].
  unfold complex_re, RPlus. apply l_seq; [by apply lang_any|].
  apply l_seq; [apply l_seq; [apply l_chr|apply l_star_nil]|by apply lang_tail].
Qed.

(** ** The search for the rightmost match ends *)

Lemma right_most_spec fuel s :
  String.length s < fuel ->
  exists m, right_most fuel complex_suffix_re s = Some m /\
    ((find_start complex_suffix_re s = None /\ m = EmptyString) \/
     (find_start complex_suffix_re m = None /\
      exists p x y, s = p +:+ String comma m /\ m = x +:+ String colon (String lbracket y))).
Proof.
  revert s. induction fuel as [|fuel IH]; intros s Hs; [lia|]. cbn [right_most].
  destruct (find_start complex_suffix_re s) as [loc|] eqn:Hf.
  2:{ exists EmptyString. split; [done|by left]. }
  apply find_start_suffix in Hf as (p & x & y & -> & <-). rewrite drop_str_app.
  rewrite decide_True by (split; [done|simpl; rewrite length_app_str; simpl; lia]).
  set (v := x +:+ String colon (String lbracket y)).
  assert (Hv : String.length v < fuel).
  { unfold v. rewrite !length_app_str in *. simpl in *. rewrite length_app_str in *. simpl in *. lia. }
  destruct (IH v Hv) as (m & -> & [[Hn ->]|(Hn & p' & x' & y' & Hvm & Hm)]).
  - rewrite decide_False by (by intros []). exists v. split; [done|]. right. split; [done|].
    by exists p, x, y.
  - rewrite decide_True by (rewrite Hm; by destruct x'). exists m. split; [done|]. right.
    split; [done|]. exists (p +:+ String comma p'), x', y'. split; [|done].
    by rewrite Hvm, app_assoc_str, app_cons_str.
Qed.

(** The fuel that [getRightMostMatchingString] is given is enough. *)
Lemma getRightMostMatchingString_total s :
  is_Some (getRightMostMatchingString complex_suffix_re s).
Proof. destruct (right_most_spec (S (String.length s)) s) as (m & Hm & _); [lia|by eexists]. Qed.

Lemma getOneOrMore_total s : is_Some (getOneOrMoreNodeSelectorRequirements s).
Proof.
  unfold getOneOrMoreNodeSelectorRequirements.
  destruct (getRightMostMatchingString_total s) as [m Hm].
  destruct (found complex_re s); [rewrite Hm|];
    repeat (case_decide || case_match); by eexists.
Qed.

Lemma parse_total s : is_Some (parseNodeAffinity s).
Proof.
  unfold parseNodeAffinity. case_decide; [by eexists|].
  assert (Ht : is_Some (mapM getOneOrMoreNodeSelectorRequirements (Split s "],"))).
  { apply mapM_is_Some, Forall_forall. intros x _. apply getOneOrMore_total. }
  destruct Ht as [l ->]. by eexists.
Qed.

(** C26: the recursive search ends, and finds the rightmost match: the text
    after the last comma that a [:\[] follows, nothing when there is none. *)
Theorem getRightMostMatchingString_spec s :
  exists m, getRightMostMatchingString complex_suffix_re s = Some m /\
    ((find_start complex_suffix_re s = None /\ m = EmptyString) \/
     (find_start complex_suffix_re m = None /\
      exists p x y, s = p +:+ String comma m /\ m = x +:+ String colon (String lbracket y))).
Proof. apply right_most_spec. lia. Qed.

(** ** Printing requirements *)

Definition print_req (r : NodeSelectorRequirement) : string :=
  match req_Values r with
  | [] => req_Key r
  | vs => req_Key r +:+ String colon (String lbracket (String.concat (chr comma) vs +:+ chr rbracket))
  end.

Definition print_affinity (l : NodeAffinity) : string :=
  String.concat (chr comma) (map print_req l).

(** Keys and values are words, and the operator is the one the parser gives. *)
Definition wf_req (r : NodeSelectorRequirement) : Prop :=
  word (req_Key r) = true /\ Forall (fun v => word v = true) (req_Values r) /\
  req_Operator r = match req_Values r with [] => NodeSelectorOpExists | _ => NodeSelectorOpIn end.

Definition exists_req (k : string) : NodeSelectorRequirement := mkReq k NodeSelectorOpExists [].
Definition in_req (k : string) (vs : list string) : NodeSelectorRequirement :=
  mkReq k NodeSelectorOpIn vs.

(** The keys without values before a requirement, each with its comma. *)
Definition keys_text (ks : list string) : string := foldr (fun k s => k +:+ String comma s) EmptyString ks.

(** [key:[v1,...,vn] without its bracket. *)
Definition in_text (k : string) (vs : list string) (tail : string) : string :=
  k +:+ String colon (String lbracket (String.concat (chr comma) vs +:+ tail)).

Definition words (l : list string) : Prop := Forall (fun s => word s = true) l.

Lemma words_concat_forall f vs :
  words vs -> (forall c, label_char c = true -> f c = true) -> f comma = true ->
  str_forall f (String.concat (chr comma) vs) = true.
Proof.
  intros Hvs Hf Hc. apply concat_forall; [simpl; by rewrite Hc|].
  eapply Forall_impl; [exact Hvs|]. intros s [_ Hs]%word_inv. by eapply str_forall_impl.
Qed.

(** ** One requirement *)

Lemma getReq_key k : word k = true -> getNodeSelectorRequirement k = exists_req k.
Proof.
  intros Hk. unfold getNodeSelectorRequirement. change ":" with (chr colon).
  rewrite Split_chr_none by by apply word_no. cbn -[TrimSpace].
  by rewrite (TrimSpace_visible k) by by apply word_visible.
Qed.

Definition value_char (c : ascii) : bool := label_char c || bool_decide (c = comma).

Lemma values_text vs : words vs -> str_forall value_char (String.concat (chr comma) vs) = true.
Proof.
  intros Hvs. apply words_concat_forall; [done| |done]. intros c Hc. unfold value_char. by rewrite Hc.
Qed.

Lemma value_char_visible c : value_char c = true -> visible c = true.
Proof.
  unfold value_char. intros [Hc|Hc%bool_decide_eq_true]%orb_true_iff; [by apply label_char_visible|].
  by subst.
Qed.

Lemma getReq_in k vs tail :
  word k = true -> words vs -> vs <> [] -> tail = EmptyString \/ tail = chr rbracket ->
  getNodeSelectorRequirement (in_text k vs tail) = in_req k vs.
Proof.
  intros Hk Hvs Hne Htail. unfold getNodeSelectorRequirement, in_text.
  pose proof (values_text vs Hvs) as Hv.
  assert (Hno : forall c, value_char c = false -> ContainsRune (String.concat (chr comma) vs) c = false)
    by (intros; by eapply ContainsRune_forall).
  change ":" with (chr colon).
  rewrite Split_chr_cons by by apply word_no.
  rewrite Split_chr_none.
  2:{ simpl. rewrite ContainsRune_app, Hno by done. by destruct Htail as [-> | ->]. }
  cbn -[TrimSpace TrimLeft TrimRight Split String.concat decide]. rewrite (TrimSpace_visible k) by by apply word_visible.
  assert (Hr : TrimRight (String lbracket (String.concat (chr comma) vs +:+ tail)) rbracket =
    String lbracket (String.concat (chr comma) vs)).
  { rewrite <- app_cons_str. destruct Htail as [-> | ->].
    - rewrite app_empty_r. apply TrimRight_none. simpl. by rewrite Hno.
    - apply TrimRight_end. simpl. by rewrite Hno. }
  change "]"%char with rbracket. change "["%char with lbracket. rewrite Hr.
  rewrite TrimLeft_start by by apply Hno.
  rewrite TrimSpace_visible by (eapply str_forall_impl; [apply value_char_visible|done]).
  change "," with (chr comma).
  rewrite Split_concat; [|done|eapply Forall_impl; [exact Hvs|]; intros; by apply word_no].
  destruct vs as [|v [|v' vs]]; [done| |by rewrite decide_True by (simpl; lia)].
  rewrite decide_False by (simpl; lia). apply Forall_inv in Hvs.
  rewrite TrimSpace_visible by by apply word_visible. by rewrite decide_True by by apply word_inv.
Qed.

(** ** One piece between the separators *)

Lemma no_newline s : str_forall visible s = true -> ContainsRune s newline_char = false.
Proof. intros Hs. by eapply ContainsRune_forall. Qed.

Lemma keys_text_forall f ks :
  words ks -> (forall c, label_char c = true -> f c = true) -> f comma = true ->
  str_forall f (keys_text ks) = true.
Proof.
  intros Hks Hf Hc. induction Hks as [|k ks Hk Hks IH]; [done|]. simpl.
  rewrite str_forall_app. simpl. rewrite Hc, IH. apply word_inv in Hk as [_ Hk].
  by rewrite (str_forall_impl _ _ _ Hf Hk).
Qed.

Lemma keys_text_no ks c : words ks -> value_char c = false -> ContainsRune (keys_text ks) c = false.
Proof.
  intros Hks Hc. apply (ContainsRune_forall value_char); [|done]. apply keys_text_forall; [done| |done].
  intros d Hd. unfold value_char. by rewrite Hd.
Qed.

Lemma Split_keys ks last :
  words ks -> ContainsRune last comma = false ->
  Split (keys_text ks +:+ last) (chr comma) = ks ++ [last].
Proof.
  intros Hks Hl. induction Hks as [|k ks Hk Hks IH]; [by apply Split_chr_none|]. simpl.
  rewrite app_assoc_str, app_cons_str, Split_chr_cons by by apply word_no. by rewrite IH.
Qed.

(** Reading keys separated by commas. *)
Lemma read_keys ks last :
  words ks -> last = EmptyString \/ word last = true ->
  map getNodeSelectorRequirement
    (filter (fun req => TrimSpace req <> EmptyString) (Split (keys_text ks +:+ last) ",")) =
  map exists_req (ks ++ if decide (last = EmptyString) then [] else [last]).
Proof.
  intros Hks Hlast. change "," with (chr comma).
  rewrite Split_keys; [|done|destruct Hlast as [->|Hlast]; [done|by apply word_no]].
  assert (Hm : forall l, words l -> map getNodeSelectorRequirement
    (filter (fun req => TrimSpace req <> EmptyString) l) = map exists_req l).
  { induction 1 as [|k l Hk Hl IH]; [done|]. rewrite filter_cons_True.
    - simpl. by rewrite getReq_key, IH.
    - rewrite TrimSpace_visible by by apply word_visible. by apply word_inv. }
  rewrite filter_app, map_app, Hm, map_app by done. f_equal. case_decide as Hd.
  - by subst.
  - destruct Hlast as [?|Hlast]; [done|]. by rewrite Hm by by constructor.
Qed.

(** A piece of keys only. *)
Lemma getOneOrMore_keys ks last :
  words ks -> last = EmptyString \/ word last = true ->
  getOneOrMoreNodeSelectorRequirements (keys_text ks +:+ last) =
  Some (map exists_req (ks ++ if decide (last = EmptyString) then [] else [last])).
Proof.
  intros Hks Hlast. unfold getOneOrMoreNodeSelectorRequirements.
  assert (Hno : forall c, value_char c = false -> ContainsRune (keys_text ks +:+ last) c = false).
  { intros c Hc. rewrite ContainsRune_app, (keys_text_no _ _ Hks Hc).
    destruct Hlast as [->|Hlast]; [done|]. apply word_no; [done|].
    unfold value_char in Hc. by apply orb_false_iff in Hc as [? _]. }
  assert (Hf : found complex_re (keys_text ks +:+ last) = false).
  { apply not_true_is_false. intros (x & y & z & Heq)%found_complex_inv.
    pose proof (Hno colon eq_refl) as Hn. rewrite Heq, ContainsRune_app in Hn.
    apply orb_false_iff in Hn as [_ Hn]. simpl in Hn. by rewrite ContainsRune_mid in Hn. }
  rewrite Hf. rewrite decide_False by (by intros []). rewrite Hno by done.
  by rewrite app_nil_r, read_keys.
Qed.

(** A piece that ends with values: the keys before it are split off at the
    rightmost match. *)
Section Complex.
Context (k : string) (vs : list string) (tail : string).
Hypothesis Hk : word k = true.
Hypothesis Hvs : words vs.
Hypothesis Hne : vs <> [].
Hypothesis Htail : tail = EmptyString \/ tail = chr rbracket.

Lemma values_no_colon : ContainsRune (String lbracket (String.concat (chr comma) vs +:+ tail)) colon = false.
Proof using Hvs Htail.
  simpl. rewrite ContainsRune_app, (ContainsRune_forall value_char) by (done || by apply values_text).
  by destruct Htail as [-> | ->].
Qed.

Lemma in_text_no_comma x y z :
  in_text k vs tail <> x +:+ String comma (y +:+ String colon (String lbracket z)).
Proof using Hk Hvs Htail.
  intros Heq. rewrite <- app_cons_str, <- app_assoc_str in Heq. symmetry in Heq.
  unfold in_text in Heq. symmetry in Heq.
  apply split_unique in Heq as [Heq _]; [|by apply word_no|apply values_no_colon].
  pose proof (word_no k comma Hk eq_refl) as Hc. by rewrite Heq, ContainsRune_mid in Hc.
Qed.

Lemma right_most_keys ks fuel :
  words ks -> length ks < fuel ->
  right_most fuel complex_suffix_re (keys_text ks +:+ in_text k vs tail) =
  Some (match ks with [] => EmptyString | _ => in_text k vs tail end).
Proof using Hk Hvs Htail.
  intros Hks. revert fuel. induction Hks as [|k1 ks Hk1 Hks IH]; intros [|fuel] Hf;
    simpl in Hf; try lia; cbn [right_most].
  - assert (Hn : find_start complex_suffix_re (keys_text [] +:+ in_text k vs tail) = None).
    { apply find_start_None. intros p q Hpq. apply not_true_is_false.
      intros (x & y & -> & _)%suffix_match. by eapply in_text_no_comma. }
    by rewrite Hn.
  - assert (Hs : keys_text (k1 :: ks) +:+ in_text k vs tail =
      k1 +:+ String comma (keys_text ks +:+ in_text k vs tail)).
    { simpl. by rewrite app_assoc_str, app_cons_str. }
    assert (Hloc : find_start complex_suffix_re (keys_text (k1 :: ks) +:+ in_text k vs tail) =
      Some (String.length k1)).
    { apply find_start_spec. rewrite Hs. eexists k1, _. split; [done|]. split; [done|]. split.
      - apply suffix_match. exists (keys_text ks +:+ k), (String.concat (chr comma) vs +:+ tail).
        unfold in_text. rewrite app_assoc_str. split; [done|].
        rewrite ContainsRune_app, keys_text_no, word_no by done. done.
      - intros p1 p2 Hp Hp2. apply not_true_is_false. intros (x & y & Heq & _)%suffix_match.
        destruct p2 as [|c p2]; [done|]. rewrite app_cons_str in Heq. injection Heq as -> _.
        pose proof (word_no k1 comma Hk1 eq_refl) as Hc. by rewrite Hp, ContainsRune_mid in Hc. }
    rewrite Hloc, Hs, drop_str_app, decide_True.
    2:{ split; [done|]. unfold in_text. simpl. rewrite !length_app_str. simpl. lia. }
    rewrite IH by lia. destruct ks as [|k2 ks]; [by rewrite decide_False by (by intros [])|].
    rewrite decide_True; [done|]. unfold in_text. by apply word_inv in Hk as [??]; destruct k.
Qed.

Lemma getOneOrMore_in ks :
  words ks ->
  getOneOrMoreNodeSelectorRequirements (keys_text ks +:+ in_text k vs tail) =
  Some (map exists_req ks ++ [in_req k vs]).
Proof using Hk Hvs Hne Htail.
  intros Hks. unfold getOneOrMoreNodeSelectorRequirements.
  assert (Hw : in_text k vs tail <> EmptyString) by (unfold in_text; by destruct k).
  destruct ks as [|k1 ks].
  - assert (Hf : found complex_re (keys_text [] +:+ in_text k vs tail) = false).
    { apply not_true_is_false. intros (x & y & z & Heq)%found_complex_inv.
      by eapply in_text_no_comma. }
    rewrite Hf, decide_False by (by intros []). cbn [keys_text foldr].
    assert (Hb : ContainsRune (EmptyString +:+ in_text k vs tail) lbracket = true).
    { simpl_str. unfold in_text. rewrite ContainsRune_app. simpl. apply orb_true_r. }
    change "["%char with lbracket. rewrite Hb. simpl_str. by rewrite getReq_in.
  - assert (Hf : found complex_re (keys_text (k1 :: ks) +:+ in_text k vs tail) = true).
    { inversion_clear Hks as [|? ? Hk1 Hks']. simpl. rewrite app_assoc_str, app_cons_str.
      unfold in_text. rewrite <- app_assoc_str. apply found_complex; [by apply word_no|].
      by rewrite ContainsRune_app, keys_text_no, word_no. }
    rewrite Hf. unfold getRightMostMatchingString. rewrite right_most_keys.
    2:{ done. }
    2:{ rewrite length_app_str. clear. induction (k1 :: ks) as [|x l IH]; simpl; [lia|].
        rewrite length_app_str. simpl. lia. }
    rewrite decide_True by done. unfold LastIndex. rewrite last_index_suffix, Nat2Z.id.
    rewrite drop_str_app, take_str_app, getReq_in by done.
    assert (Hb : ContainsRune (keys_text (k1 :: ks)) lbracket = false) by by apply keys_text_no.
    change "["%char with lbracket. rewrite Hb.
    rewrite <- (app_empty_r (keys_text (k1 :: ks))), read_keys by (done || by left).
    by rewrite decide_True, app_nil_r.
Qed.
End Complex.

(** ** The round trip *)

Lemma print_req_in k vs : vs <> [] -> print_req (in_req k vs) = in_text k vs (chr rbracket).
Proof. by destruct vs. Qed.

Lemma wf_req_cases r :
  wf_req r -> word (req_Key r) = true /\
  (r = exists_req (req_Key r) \/
   words (req_Values r) /\ req_Values r <> [] /\ r = in_req (req_Key r) (req_Values r)).
Proof.
  destruct r as [k o vs]. intros (Hk & Hv & Ho). simpl in *. split; [done|]. subst o.
  destruct vs; [by left|by right].
Qed.

Lemma print_affinity_cons r l :
  l <> [] -> print_affinity (r :: l) = print_req r +:+ String comma (print_affinity l).
Proof. by destruct l. Qed.

(** The pieces of the text, with the keys read so far in front. *)
Lemma parse_pieces l : Forall wf_req l -> forall ks, words ks ->
  mjoin <$> mapM getOneOrMoreNodeSelectorRequirements
    (Split (keys_text ks +:+ print_affinity l) "],") = Some (map exists_req ks ++ l).
Proof.
  change "]," with (String rbracket (chr comma)).
  assert (Hone : forall ks k, words ks -> word k = true \/ k = EmptyString ->
    Split (keys_text ks +:+ k) (String rbracket (chr comma)) = [keys_text ks +:+ k]).
  { intros ks k Hks Hk. apply Split_two_none. rewrite ContainsRune_app, keys_text_no by done.
    destruct Hk as [Hk| ->]; [by apply word_no|done]. }
  assert (Hsnoc : forall ks k s, keys_text (ks ++ [k]) +:+ s = keys_text ks +:+ (k +:+ String comma s)).
  { intros ks k s. unfold keys_text. rewrite foldr_app. simpl. induction ks as [|k1 ks IH]; simpl_str;
      [by rewrite app_assoc_str|]. by rewrite !app_assoc_str, !app_cons_str, IH. }
  induction 1 as [|r l Hr Hl IH]; intros ks Hks.
  { unfold print_affinity. simpl. rewrite Hone by (done || by right). cbn [mapM].
    simpl. rewrite getOneOrMore_keys by (done || by left). simpl. by rewrite !app_nil_r. }
  apply wf_req_cases in Hr as [Hk Hr]. set (k := req_Key r) in *. clearbody k.
  destruct Hr as [->|(Hvs & Hne & ->)].
  - destruct (decide (l = [])) as [->|Hln].
    + change (print_affinity [exists_req k]) with k. rewrite Hone by (done || by left).
      simpl. rewrite getOneOrMore_keys by (done || by right). simpl.
      rewrite decide_False by (by apply word_inv in Hk as [??]). by rewrite map_app, app_nil_r.
    + rewrite print_affinity_cons by done. change (print_req (exists_req k)) with k.
      rewrite <- Hsnoc, IH by (apply Forall_app; split; [done|by constructor]).
      by rewrite map_app, <- app_assoc.
  - set (vs := req_Values r) in *. clearbody vs.
    assert (Hnb : ContainsRune (keys_text ks +:+ in_text k vs EmptyString) rbracket = false).
    { unfold in_text. rewrite ContainsRune_app, keys_text_no, ContainsRune_app, word_no by done.
      simpl. rewrite app_empty_r. by rewrite (ContainsRune_forall value_char) by (done || by apply values_text). }
    assert (Htail : forall t, keys_text ks +:+ in_text k vs (chr rbracket +:+ t) =
      (keys_text ks +:+ in_text k vs EmptyString) +:+ String rbracket t).
    { intros t. unfold in_text, chr. by repeat (simpl_str; rewrite ?app_assoc_str). }
    destruct (decide (l = [])) as [->|Hln].
    + change (print_affinity [in_req k vs]) with (print_req (in_req k vs)).
      rewrite print_req_in by done. rewrite <- (app_empty_r (chr rbracket)), Htail at 1.
      fold (chr rbracket). rewrite Split_two_end by done.
      assert (He : (keys_text ks +:+ in_text k vs EmptyString) +:+ chr rbracket =
        keys_text ks +:+ in_text k vs (chr rbracket)) by (symmetry; exact (Htail EmptyString)).
      rewrite He. simpl. rewrite getOneOrMore_in by (done || by right). simpl. by rewrite app_nil_r.
    + rewrite print_affinity_cons, print_req_in by done.
      assert (He : keys_text ks +:+ (in_text k vs (chr rbracket) +:+ String comma (print_affinity l)) =
        (keys_text ks +:+ in_text k vs EmptyString) +:+ String rbracket (String comma (print_affinity l))).
      { rewrite <- Htail. unfold in_text, chr. by repeat (simpl_str; rewrite ?app_assoc_str). }
      rewrite He, Split_two_cons by done. specialize (IH [] (Forall_nil_2 _)). simpl in IH.
      cbn [mapM]. simpl. rewrite getOneOrMore_in by (done || by left). simpl.
      rewrite app_nil_str in IH.
      destruct (mapM _ (Split (print_affinity l) _)) as [ps|]; [|done]. simpl in *.
      injection IH as ->. by rewrite <- app_assoc.
Qed.

(** C18: a list of requirements whose keys and values are words is read back
    from its printed form. *)
Theorem affinity_roundtrip l : Forall wf_req l -> parseNodeAffinity (print_affinity l) = Some l.
Proof.
  intros Hl. unfold parseNodeAffinity. case_decide as Hd.
  - destruct Hl as [|r l Hr Hl]; [done|]. exfalso. apply wf_req_cases in Hr as [Hk Hr].
    assert (Hp : print_req r <> EmptyString).
    { destruct (word_inv _ Hk) as [Hk' _]. unfold print_req. destruct (req_Values r); [done|].
      by destruct (req_Key r). }
    destruct l; [done|]. unfold print_affinity in Hd. simpl in Hd. by destruct (print_req r).
  - exact (parse_pieces l Hl [] (Forall_nil_2 _)).
Qed.

Lemma affinity_roundtrip_witness :
  Forall wf_req [exists_req "kubernetes.io/nfs-node"; in_req "kubernetes.io/zone" ["zone-1"; "zone-2"]] /\
  parseNodeAffinity "kubernetes.io/nfs-node,kubernetes.io/zone:[zone-1,zone-2]" =
    Some [exists_req "kubernetes.io/nfs-node"; in_req "kubernetes.io/zone" ["zone-1"; "zone-2"]].
Proof.
  assert (Hw : Forall wf_req
    [exists_req "kubernetes.io/nfs-node"; in_req "kubernetes.io/zone" ["zone-1"; "zone-2"]]).
  { repeat constructor. }
  split; [exact Hw|]. exact (affinity_roundtrip _ Hw).
Defined.
