(* ===== verification/NFSServer.v ===== *)
(** * provisioner/helper_kernel_nfs_server.go: the objects of an NFS server

    Creating and deleting the claim, the deployment and the service behind an
    NFS volume, and waiting for the claim to be bound.  A Go function that
    fills fields of its options returns them; the [error] it returns is the
    second component.  Error messages keep their constant text and the names
    they end with. *)

From S2P Require Import Prelude GoStrings K8sTypes MetaHelper Hook Prog KubeAPI HookExecute.
From S2P Require Import Env VolumeConfig NodeAffinity.
From S2P Require PVCBuilder ServiceBuilder VolumeBuilder ContainerBuilder PodTemplateBuilder DeploymentBuilder.

Definition nfsPvcNameLabelKey : string := "nfs.openebs.io/nfs-pvc-name".
Definition nfsPvcUIDLabelKey : string := "nfs.openebs.io/nfs-pvc-uid".
Definition nfsPvcNsLabelKey : string := "nfs.openebs.io/nfs-pvc-namespace".
Definition NFSServerPort : Z := 2049.
Definition RPCBindPort : Z := 111.
Definition DefaultBackendPvcBoundTimeout : Z := 60.

Section NFSServer.
Context {C : CoreTypes} {P : PatchLib} {Y : MayaConfig} {M : MayaEnv}.

(** [Provisioner] (types.go) without the handles to the outside world; the
    timeout is in seconds. *)
Record Provisioner := mkProvisioner {
  namespace : string;
  serverNamespace : string;
  defaultConfig : list MConfig;
  getVolumeConfig : string -> PersistentVolumeClaim -> io (result VolumeConfig);
  useClusterIP : bool;
  nodeAffinity : NodeAffinity;
  backendPvcTimeout : Z;
  hook : option Hook;
}.

Record KernelNFSServerOptions := mkOpts {
  provisionerNS : string;
  pvName : string;
  capacity : string;
  pvcName : string;
  pvcUID : string;
  pvcNamespace : string;
  backendStorageClass : string;
  backendPvcName : string;
  serviceName : string;
  deploymentName : string;
  nfsServerCustomConfig : string;
  leaseTime : Z;
  graceTime : Z;
  fsGroup : option Z;
  permissionsGID : string;
  permissionsUID : string;
  permissionsMode : string;
  resources : option ResourceRequirements;
}.

(** [o.backendPvcName = x] and so on *)
Definition set_backendPvcName (x : string) (o : KernelNFSServerOptions) : KernelNFSServerOptions :=
  mkOpts (provisionerNS o) (pvName o) (capacity o) (pvcName o) (pvcUID o) (pvcNamespace o)
    (backendStorageClass o) x (serviceName o) (deploymentName o) (nfsServerCustomConfig o)
    (leaseTime o) (graceTime o) (fsGroup o) (permissionsGID o) (permissionsUID o)
    (permissionsMode o) (resources o).
Definition set_serviceName (x : string) (o : KernelNFSServerOptions) : KernelNFSServerOptions :=
  mkOpts (provisionerNS o) (pvName o) (capacity o) (pvcName o) (pvcUID o) (pvcNamespace o)
    (backendStorageClass o) (backendPvcName o) x (deploymentName o) (nfsServerCustomConfig o)
    (leaseTime o) (graceTime o) (fsGroup o) (permissionsGID o) (permissionsUID o)
    (permissionsMode o) (resources o).
Definition set_deploymentName (x : string) (o : KernelNFSServerOptions) : KernelNFSServerOptions :=
  mkOpts (provisionerNS o) (pvName o) (capacity o) (pvcName o) (pvcUID o) (pvcNamespace o)
    (backendStorageClass o) (backendPvcName o) (serviceName o) x (nfsServerCustomConfig o)
    (leaseTime o) (graceTime o) (fsGroup o) (permissionsGID o) (permissionsUID o)
    (permissionsMode o) (resources o).

(** The fields a delete sets; every other field is its zero value. *)
Definition delete_opts (name : string) : KernelNFSServerOptions :=
  mkOpts EmptyString name EmptyString EmptyString EmptyString EmptyString EmptyString
    EmptyString EmptyString EmptyString EmptyString 0 0 None EmptyString EmptyString
    EmptyString None.

Definition validate (nfsServerOpts : KernelNFSServerOptions) : error := None.

Definition nfs_name (nfsServerOpts : KernelNFSServerOptions) : string :=
  "nfs-" +:+ pvName nfsServerOpts.

Definition getLabels (nfsServerOpts : KernelNFSServerOptions) : gmap string string :=
  list_to_map [("persistent-volume", pvName nfsServerOpts); ("openebs.io/cas-type", "nfs-kernel")].

(** ["{ns/name}"] *)
Definition braces (ns name : string) : string := "{" +:+ ns +:+ "/" +:+ name +:+ "}".

Definition api_not_found {A} (r : api A) : bool :=
  match r with ApiErr e => IsNotFound e | ApiOk _ => false end.

(** [if p.hook != nil && p.hook.ActionExists(..) { err = p.hook.Action(obj, ..) }] *)
Definition action_on_create (p : Provisioner) (obj : object) (resourceType : Z) : io (result object) :=
  match hook_guard (hook p) resourceType EventTypeCreateVolume with
  | None => PRet (Ok obj)
  | Some h => run_action h obj resourceType EventTypeCreateVolume
  end.

(** [if p.hook != nil && p.hook.ActionExists(..) { err = p.hook.ExecuteHook..(..) }] *)
Definition execute_guarded (p : Provisioner) (resourceType : Z) (eventType : EventType)
    (body : Hook -> io error) : io error :=
  match hook_guard (hook p) resourceType eventType with
  | None => PRet None
  | Some h => body h
  end.

Definition backend_pvc_labels (nfsServerOpts : KernelNFSServerOptions) : gomap string :=
  Some (<[nfsPvcNsLabelKey := pvcNamespace nfsServerOpts]>
       (<[nfsPvcUIDLabelKey := pvcUID nfsServerOpts]>
       (<[nfsPvcNameLabelKey := pvcName nfsServerOpts]> (getLabels nfsServerOpts)))).

Definition backend_pvc_builder (p : Provisioner) (nfsServerOpts : KernelNFSServerOptions)
  : PVCBuilder.Builder :=
  let b := PVCBuilder.NewBuilder in
  let b := PVCBuilder.WithNamespace (serverNamespace p) b in
  let b := PVCBuilder.WithName (nfs_name nfsServerOpts) b in
  let b := PVCBuilder.WithLabels (backend_pvc_labels nfsServerOpts) b in
  let b := PVCBuilder.WithCapacity (capacity nfsServerOpts) b in
  let b := PVCBuilder.WithAccessModeRWO b in
  PVCBuilder.WithStorageClass (backendStorageClass nfsServerOpts) b.

(** When the claim cannot be built, the error branch dereferences the nil claim
    for its message: a panic. *)
Definition createBackendPVC (p : Provisioner) (nfsServerOpts : KernelNFSServerOptions)
  : io (KernelNFSServerOptions * error) :=
  match validate nfsServerOpts with
  | Some err => PRet (nfsServerOpts, Some err)
  | None =>
  let backendPvcName := nfs_name nfsServerOpts in
  r ← kget KPVC (serverNamespace p) backendPvcName;
  match r with
  | ApiOk _ => PRet (set_backendPvcName backendPvcName nfsServerOpts, None)
  | ApiErr e =>
      if negb (IsNotFound e)
      then PRet (nfsServerOpts, Wrapf (Some (ErrAPI e))
             ("failed to check existence of backend PVC " +:+ braces (serverNamespace p) backendPvcName))
      else
        match PVCBuilder.Build (backend_pvc_builder p nfsServerOpts) with
        | Err _ => PPanic
        | Ok pvcObj =>
            a ← action_on_create p (ObjPVC pvcObj) ResourceBackendPVC;
            match a with
            | Err err => PRet (nfsServerOpts, Wrapf (Some err) "failed to execute hook on Backend PVC")
            | Ok (ObjPVC pvcObj) =>
                c ← kcreate KPVC (serverNamespace p) pvcObj;
                match c with
                | ApiErr e => PRet (nfsServerOpts, Wrapf (Some (ErrAPI e))
                    ("failed to create PVC " +:+ braces (serverNamespace p) backendPvcName))
                | ApiOk _ => PRet (set_backendPvcName backendPvcName nfsServerOpts, None)
                end
            | Ok _ => PPanic
            end
        end
  end
  end.

(** An error of the [Get] other than not-found is ignored. *)
Definition deleteBackendPVC (p : Provisioner) (nfsServerOpts : KernelNFSServerOptions)
  : io (KernelNFSServerOptions * error) :=
  match validate nfsServerOpts with
  | Some err => PRet (nfsServerOpts, Some err)
  | None =>
  let backendPvcName := nfs_name nfsServerOpts in
  r ← kget KPVC (serverNamespace p) backendPvcName;
  if api_not_found r then PRet (nfsServerOpts, None)
  else
    let nfsServerOpts :=
      match r with ApiOk _ => set_backendPvcName backendPvcName nfsServerOpts | ApiErr _ => nfsServerOpts end in
    e1 ← execute_guarded p ResourceBackendPV EventTypeDeleteVolume (fun h =>
           ExecuteHookOnBackendPV h (serverNamespace p) (nfs_name nfsServerOpts) EventTypeDeleteVolume);
    match e1 with
    | Some err => PRet (nfsServerOpts, Wrapf (Some err) "failed to execute hook on backend PV")
    | None =>
        e2 ← execute_guarded p ResourceBackendPVC EventTypeDeleteVolume (fun h =>
               ExecuteHookOnBackendPVC h (serverNamespace p) (nfs_name nfsServerOpts) EventTypeDeleteVolume);
        match e2 with
        | Some err => PRet (nfsServerOpts, Wrapf (Some err) "failed to execute hook on backend PVC")
        | None =>
            d ← kdelete KPVC (serverNamespace p) backendPvcName;
            match d with
            | Some e =>
                if negb (IsNotFound e)
                then PRet (nfsServerOpts, Wrapf (Some (ErrAPI e))
                       ("failed to delete backend PVC " +:+ braces (serverNamespace p) backendPvcName))
                else PRet (nfsServerOpts, None)
            | None => PRet (nfsServerOpts, None)
            end
        end
    end
  end.

(** ** Deployment *)

Definition deploy_label_selector (nfsServerOpts : KernelNFSServerOptions) (deployName : string)
  : gomap string :=
  Some (<[nfsPvcNsLabelKey := pvcNamespace nfsServerOpts]>
       (<[nfsPvcUIDLabelKey := pvcUID nfsServerOpts]>
       (<[nfsPvcNameLabelKey := pvcName nfsServerOpts]>
         {["openebs.io/nfs-server" := deployName]}))).

Definition server_envs (nfsServerOpts : KernelNFSServerOptions) : list EnvVar :=
  [mkEnv "SHARED_DIRECTORY" "/nfsshare";
   mkEnv "CUSTOM_EXPORTS_CONFIG" (nfsServerCustomConfig nfsServerOpts);
   mkEnv "NFS_LEASE_TIME" (Itoa (leaseTime nfsServerOpts));
   mkEnv "NFS_GRACE_TIME" (Itoa (graceTime nfsServerOpts));
   mkEnv "FILEPERMISSIONS_UID" (permissionsUID nfsServerOpts);
   mkEnv "FILEPERMISSIONS_GID" (permissionsGID nfsServerOpts);
   mkEnv "FILEPERMISSIONS_MODE" (permissionsMode nfsServerOpts)].

Definition server_container (nfsServerOpts : KernelNFSServerOptions) : ContainerBuilder.Builder :=
  let resourceRequirements := default emptyResources (resources nfsServerOpts) in
  let b := ContainerBuilder.NewBuilder in
  let b := ContainerBuilder.WithName "nfs-server" b in
  let b := ContainerBuilder.WithImage getNFSServerImage b in
  let b := ContainerBuilder.WithImagePullPolicy PullIfNotPresent b in
  let b := ContainerBuilder.WithEnvsNew (Some (server_envs nfsServerOpts)) b in
  let b := ContainerBuilder.WithPortsNew
             (Some [mkContainerPort "nfs" NFSServerPort; mkContainerPort "rpcbind" RPCBindPort]) b in
  let b := ContainerBuilder.WithPrivilegedSecurityContext (Some true) b in
  let b := ContainerBuilder.WithVolumeMountsNew (Some [mkVolumeMount "exports-dir" "/nfsshare"]) b in
  ContainerBuilder.WithResources (Some resourceRequirements) b.

Definition server_pod (p : Provisioner) (nfsServerOpts : KernelNFSServerOptions) (deployName : string)
  : PodTemplateBuilder.Builder :=
  let b := PodTemplateBuilder.NewBuilder in
  let b := PodTemplateBuilder.WithLabelsNew (deploy_label_selector nfsServerOpts deployName) b in
  let b := PodTemplateBuilder.WithSecurityContext (Some (fsGroup nfsServerOpts)) b in
  let b := PodTemplateBuilder.WithNodeAffinityMatchExpressions (nodeAffinity p) b in
  let b := PodTemplateBuilder.WithImagePullSecret getNfsServerImagePullSecret b in
  let b := PodTemplateBuilder.WithContainerBuildersNew (Some [server_container nfsServerOpts]) b in
  PodTemplateBuilder.WithVolumeBuilders
    (Some [VolumeBuilder.WithPVCSource (backendPvcName nfsServerOpts)
             (VolumeBuilder.WithName "exports-dir" VolumeBuilder.NewBuilder)]) b.

Definition deployment_builder (p : Provisioner) (nfsServerOpts : KernelNFSServerOptions)
    (deployName : string) : DeploymentBuilder.Builder :=
  let b := DeploymentBuilder.NewBuilder in
  let b := DeploymentBuilder.WithName deployName b in
  let b := DeploymentBuilder.WithNamespace (serverNamespace p) b in
  let b := DeploymentBuilder.WithLabelsNew (deploy_label_selector nfsServerOpts deployName) b in
  let b := DeploymentBuilder.WithSelectorMatchLabelsNew (deploy_label_selector nfsServerOpts deployName) b in
  let b := DeploymentBuilder.WithStrategyTypeRecreate b in
  DeploymentBuilder.WithPodTemplateSpecBuilder (Some (server_pod p nfsServerOpts deployName)) b.

Definition createDeployment (p : Provisioner) (nfsServerOpts : KernelNFSServerOptions)
  : io (KernelNFSServerOptions * error) :=
  match validate nfsServerOpts with
  | Some err => PRet (nfsServerOpts, Some err)
  | None =>
  let deployName := nfs_name nfsServerOpts in
  r ← kget KDeployment (serverNamespace p) deployName;
  match r with
  | ApiOk _ => PRet (set_deploymentName deployName nfsServerOpts, None)
  | ApiErr e =>
      if negb (IsNotFound e)
      then PRet (nfsServerOpts, Wrapf (Some (ErrAPI e))
             ("failed to check existence of NFS server deployment " +:+ braces (serverNamespace p) deployName))
      else
        match DeploymentBuilder.Build (deployment_builder p nfsServerOpts deployName) with
        | Err err => PRet (nfsServerOpts, Wrapf (Some err) "unable to build Deployment")
        | Ok deployObj =>
            a ← action_on_create p (ObjDeployment deployObj) ResourceNFSServerDeployment;
            match a with
            | Err err => PRet (nfsServerOpts, Wrapf (Some err)
                           "failed to execute hook on nfs-server deployment object")
            | Ok (ObjDeployment deployObj) =>
                c ← kcreate KDeployment (serverNamespace p) deployObj;
                match c with
                | ApiErr e => PRet (nfsServerOpts, Wrapf (Some (ErrAPI e))
                    ("failed to create NFS server deployment " +:+ braces (serverNamespace p) deployName))
                | ApiOk _ => PRet (set_deploymentName deployName nfsServerOpts, None)
                end
            | Ok _ => PPanic
            end
        end
  end
  end.

Definition deleteDeployment (p : Provisioner) (nfsServerOpts : KernelNFSServerOptions)
  : io (KernelNFSServerOptions * error) :=
  match validate nfsServerOpts with
  | Some err => PRet (nfsServerOpts, Some err)
  | None =>
  let deployName := nfs_name nfsServerOpts in
  r ← kget KDeployment (serverNamespace p) deployName;
  if api_not_found r then PRet (nfsServerOpts, None)
  else
    let nfsServerOpts :=
      match r with ApiOk _ => set_deploymentName deployName nfsServerOpts | ApiErr _ => nfsServerOpts end in
    e1 ← execute_guarded p ResourceNFSServerDeployment EventTypeDeleteVolume (fun h =>
           ExecuteHookOnNFSDeployment h (serverNamespace p) deployName EventTypeDeleteVolume);
    match e1 with
    | Some err => PRet (nfsServerOpts, Wrapf (Some err) "failed to execute hook on nfs-server Deployment")
    | None =>
        d ← kdelete KDeployment (serverNamespace p) deployName;
        match d with
        | Some e =>
            if negb (IsNotFound e)
            then PRet (nfsServerOpts, Wrapf (Some (ErrAPI e))
                   ("failed to delete NFS server deployment " +:+ braces (serverNamespace p) deployName))
            else PRet (nfsServerOpts, None)
        | None => PRet (nfsServerOpts, None)
        end
    end
  end.

(** ** Service *)

Definition service_builder (p : Provisioner) (nfsServerOpts : KernelNFSServerOptions)
    (svcName : string) : ServiceBuilder.Builder :=
  let nfsDeployLabelSelector := Some {["openebs.io/nfs-server" := deploymentName nfsServerOpts]} in
  let b := ServiceBuilder.NewBuilder in
  let b := ServiceBuilder.WithNamespace (serverNamespace p) b in
  let b := ServiceBuilder.WithName svcName b in
  let b := ServiceBuilder.WithPorts
             [mkServicePort "nfs" NFSServerPort; mkServicePort "rpcbind" RPCBindPort] b in
  ServiceBuilder.WithSelectorsNew nfsDeployLabelSelector b.

Definition createService (p : Provisioner) (nfsServerOpts : KernelNFSServerOptions)
  : io (KernelNFSServerOptions * error) :=
  match validate nfsServerOpts with
  | Some err => PRet (nfsServerOpts, Some err)
  | None =>
  let svcName := nfs_name nfsServerOpts in
  r ← kget KService (serverNamespace p) svcName;
  match r with
  | ApiOk _ => PRet (set_serviceName svcName nfsServerOpts, None)
  | ApiErr e =>
      if negb (IsNotFound e)
      then PRet (nfsServerOpts, Wrapf (Some (ErrAPI e))
             ("failed to check existence of NFS service " +:+ braces (serverNamespace p) svcName))
      else
        match ServiceBuilder.Build (service_builder p nfsServerOpts svcName) with
        | Err err => PRet (nfsServerOpts, Wrapf (Some err) "unable to build Service")
        | Ok svcObj =>
            a ← action_on_create p (ObjService svcObj) ResourceNFSService;
            match a with
            | Err err => PRet (nfsServerOpts, Wrapf (Some err)
                           "failed to execute hook on NFS Service object")
            | Ok (ObjService svcObj) =>
                c ← kcreate KService (serverNamespace p) svcObj;
                match c with
                | ApiErr e => PRet (nfsServerOpts, Wrapf (Some (ErrAPI e))
                    ("failed to create NFS service " +:+ braces (serverNamespace p) svcName))
                | ApiOk _ => PRet (set_serviceName svcName nfsServerOpts, None)
                end
            | Ok _ => PPanic
            end
        end
  end
  end.

Definition deleteService (p : Provisioner) (nfsServerOpts : KernelNFSServerOptions)
  : io (KernelNFSServerOptions * error) :=
  match validate nfsServerOpts with
  | Some err => PRet (nfsServerOpts, Some err)
  | None =>
  let svcName := nfs_name nfsServerOpts in
  r ← kget KService (serverNamespace p) svcName;
  if api_not_found r then PRet (nfsServerOpts, None)
  else
    let nfsServerOpts :=
      match r with ApiOk _ => set_serviceName svcName nfsServerOpts | ApiErr _ => nfsServerOpts end in
    e1 ← execute_guarded p ResourceNFSService EventTypeDeleteVolume (fun h =>
           ExecuteHookOnNFSService h (serverNamespace p) svcName EventTypeDeleteVolume);
    match e1 with
    | Some err => PRet (nfsServerOpts, Wrapf (Some err) "failed to execute hook on NFS Service")
    | None =>
        d ← kdelete KService (serverNamespace p) svcName;
        match d with
        | Some e =>
            if negb (IsNotFound e)
            then PRet (nfsServerOpts, Wrapf (Some (ErrAPI e))
                   ("failed to delete NFS service " +:+ serverNamespace p +:+ "/" +:+ svcName))
            else PRet (nfsServerOpts, None)
        | None => PRet (nfsServerOpts, None)
        end
    end
  end.

(** ** Waiting, and the two sequences *)

(** The loop polls once per tick until the timer fires; the fuel bounds the
    number of rounds that are looked at. *)
Fixpoint waitForPvcBound (fuel : nat) (namespace name : string) : io error :=
  match fuel with
  | O => PFuel
  | S f =>
      tick ← (call RSelectTick : io bool);
      if tick : bool then
        r ← kget KPVC namespace name;
        match r with
        | ApiErr e => PRet (Wrapf (Some (ErrAPI e)) ("failed to get pvc" +:+ braces namespace name))
        | ApiOk obj =>
            if decide (pvc_Phase (obj : PersistentVolumeClaim) = ClaimBound) then PRet None
            else waitForPvcBound f namespace name
        end
      else PRet (Some (ErrNew ("timed out waiting for PVC" +:+ braces namespace name +:+ " to bound")))
  end.

Definition createNFSServer (fuel : nat) (p : Provisioner) (nfsServerOpts : KernelNFSServerOptions)
  : io (KernelNFSServerOptions * error) :=
  '(nfsServerOpts, err) ← createBackendPVC p nfsServerOpts;
  match err with
  | Some err => PRet (nfsServerOpts, Wrapf (Some err)
      ("failed to initialize NFS Storage PVC for RWX PVC{" +:+ pvName nfsServerOpts +:+ "}"))
  | None =>
  '(nfsServerOpts, err) ← createDeployment p nfsServerOpts;
  match err with
  | Some err => PRet (nfsServerOpts, Wrapf (Some err)
      ("failed to initialize NFS Storage Deployment for RWX PVC{" +:+ pvName nfsServerOpts +:+ "}"))
  | None =>
  err ← waitForPvcBound fuel (serverNamespace p) (nfs_name nfsServerOpts);
  match err with
  | Some err => PRet (nfsServerOpts, Some err)
  | None =>
  err ← execute_guarded p ResourceBackendPV EventTypeCreateVolume (fun h =>
          ExecuteHookOnBackendPV h (serverNamespace p) (nfs_name nfsServerOpts) EventTypeCreateVolume);
  match err with
  | Some err => PRet (nfsServerOpts, Wrapf (Some err) "failed to execute hook on backend PV")
  | None =>
  '(nfsServerOpts, err) ← createService p nfsServerOpts;
  match err with
  | Some err => PRet (nfsServerOpts, Wrapf (Some err)
      ("failed to initialize NFS Storage Service for RWX PVC{" +:+ pvName nfsServerOpts +:+ "}"))
  | None => PRet (nfsServerOpts, None)
  end end end end end.

Definition deleteNFSServer (p : Provisioner) (nfsServerOpts : KernelNFSServerOptions)
  : io (KernelNFSServerOptions * error) :=
  '(nfsServerOpts, err) ← deleteService p nfsServerOpts;
  match err with
  | Some err => PRet (nfsServerOpts, Wrapf (Some err)
      ("failed to delete NFS Storage Service for RWX PVC{" +:+ pvName nfsServerOpts +:+ "}"))
  | None =>
  '(nfsServerOpts, err) ← deleteDeployment p nfsServerOpts;
  match err with
  | Some err => PRet (nfsServerOpts, Wrapf (Some err)
      ("failed to delete NFS Storage Deployment for RWX PVC{" +:+ pvName nfsServerOpts +:+ "}"))
  | None =>
  '(nfsServerOpts, err) ← deleteBackendPVC p nfsServerOpts;
  match err with
  | Some err => PRet (nfsServerOpts, Wrapf (Some err)
      ("failed to delete NFS Storage PVC for RWX PVC{" +:+ pvName nfsServerOpts +:+ "}"))
  | None => PRet (nfsServerOpts, None)
  end end end.

(** The client never returns a nil service without an error. *)
Definition getNFSServerAddress (fuel : nat) (p : Provisioner) (nfsServerOpts : KernelNFSServerOptions)
  : io (KernelNFSServerOptions * result string) :=
  '(nfsServerOpts, err) ← createNFSServer fuel p nfsServerOpts;
  match err with
  | Some err => PRet (nfsServerOpts, Err (ErrWrap err "failed to deploy NFS Server"))
  | None =>
      if useClusterIP p then
        r ← kget KService (serverNamespace p) (serviceName nfsServerOpts);
        match r with
        | ApiErr e => PRet (nfsServerOpts, Err (ErrWrap (ErrAPI e)
            ("failed to get NFS Service for PVC{" +:+ backendPvcName nfsServerOpts +:+ "}")))
        | ApiOk nfsService => PRet (nfsServerOpts, Ok (svc_ClusterIP (svc_spec (nfsService : Service))))
        end
      else PRet (nfsServerOpts,
                 Ok (serviceName nfsServerOpts +:+ "." +:+ serverNamespace p +:+ ".svc.cluster.local"))
  end.
End NFSServer.
