(* ===== verification/Provisioner.v ===== *)
(** * provisioner/provisioner.go and provisioner_kernel_nfs_server.go

    The two entry points the volume controller calls, [Provision] and [Delete],
    with the kernel NFS server behind them; the construction of the
    provisioner. *)

From S2P Require Import Prelude GoStrings K8sTypes MetaHelper Hook Metrics Prog KubeAPI HookExecute.
From S2P Require Import Env VolumeConfig NodeAffinity NFSServer.
From S2P Require PVBuilder.

(** [v1helper.NodeSelectorRequirementsAsSelector] and [Selector.String], and the
    constants of the analytics library. *)
Class ProvisionerLib {C : CoreTypes} := {
  NodeSelectorRequirementsAsSelector : list NodeSelectorRequirement -> result LabelSelector;
  Selector_String : LabelSelector -> string;
  VolumeProvision : string;
  VolumeDeprovision : string;
  EventLabelCapacity : string;
}.

(** [pvController.ProvisioningState] *)
Inductive ProvisioningState := ProvisioningFinished | ProvisioningNoChange.

Definition NodeAffinityRulesMismatchEvent : string :=
  "No matching nodes found for given affinity rules".

Definition DefaultCASType : string := "nfs".
Definition DefaultUnknownReplicaCount : string := "replica:<N/A>".

Section Provisioner.
Context {C : CoreTypes} {P : PatchLib} {Y : MayaConfig} {M : MayaEnv} {N : ProvisionerLib}.
(** rounds of the waiting loop that are looked at *)
Context (fuel : nat).

(** [pvController.ProvisionOptions] *)
Record ProvisionOptions := mkProvisionOptions {
  po_StorageClass : StorageClass;
  po_PVName : string;
  po_PVC : PersistentVolumeClaim;
}.

(** [m[v1.ResourceStorage]], the zero quantity when it is absent. *)
Definition storage_request (m : gomap Quantity) : Quantity :=
  default quantity_zero (gomap_lookup m ResourceStorage).

Definition nfs_pv_builder (opts : ProvisionOptions) (reclaimPolicy nfsService : string)
  : PVBuilder.Builder :=
  let pvc := po_PVC opts in
  let b := PVBuilder.NewBuilder in
  let b := PVBuilder.WithName (po_PVName opts) b in
  let b := PVBuilder.WithLabels (Some {[CASTypeKey := "nfs-kernel"]}) b in
  let b := PVBuilder.WithReclaimPolicy reclaimPolicy b in
  let b := PVBuilder.WithAccessModes (pvc_AccessModes (pvc_spec pvc)) b in
  let b := PVBuilder.WithCapacityQty (storage_request (pvc_Requests (pvc_spec pvc))) b in
  let b := PVBuilder.WithMountOptions (sc_MountOptions (po_StorageClass opts)) b in
  PVBuilder.WithNFS nfsService "/" false b.

(** The options extracted from the claim and the configuration, or the first
    configuration error.  A lease or grace time that does not parse is logged
    only. *)
Definition server_options (p : Provisioner) (opts : ProvisionOptions) (volumeConfig : VolumeConfig)
  : result KernelNFSServerOptions :=
  let pvc := po_PVC opts in
  let capacity := storage_request (pvc_Requests (pvc_spec pvc)) in
  let leaseTime := (GetNFSServerLeaseTime volumeConfig).1 in
  let graceTime := (GetNFServerGraceTime volumeConfig).1 in
  let? fsGID := GetFSGroupID volumeConfig in
  let? resources := GetNFSServerResourceRequirements volumeConfig in
  let? gid := GetFsGID volumeConfig in
  let? mode := GetFsMode volumeConfig in
  Ok (mkOpts (namespace p) (po_PVName opts) (quantity_String capacity) (Name (pvc_meta pvc))
        (UID (pvc_meta pvc)) (Namespace (pvc_meta pvc))
        (GetBackendStorageClassFromConfig volumeConfig)
        EmptyString EmptyString EmptyString (GetCustomNFSServerConfig volumeConfig)
        leaseTime graceTime fsGID gid (GetFsUID volumeConfig) mode (Some resources)).

(** A storage class without a reclaim policy is a nil dereference, after the
    server was created. *)
Definition ProvisionKernalNFSServer (p : Provisioner) (opts : ProvisionOptions)
    (volumeConfig : VolumeConfig) : io (result PersistentVolume) :=
  match server_options p opts volumeConfig with
  | Err err => PRet (Err err)
  | Ok nfsServerOpts =>
      '(nfsServerOpts, addr) ← getNFSServerAddress fuel p nfsServerOpts;
      match addr with
      | Err err => PRet (Err err)
      | Ok nfsService =>
          match sc_ReclaimPolicy (po_StorageClass opts) with
          | None => PPanic
          | Some reclaimPolicy =>
              match PVBuilder.Build (nfs_pv_builder opts reclaimPolicy nfsService) with
              | Err err => PRet (Err err)
              | Ok pvObj =>
                  a ← action_on_create p (ObjPV pvObj) ResourceNFSPV;
                  match a with
                  | Err err => PRet (Err (ErrWrap err
                                 ("failed to execute hook on NFS PV=" +:+ Name (pv_meta pvObj))))
                  | Ok (ObjPV pvObj) => PRet (Ok pvObj)
                  | Ok _ => PPanic
                  end
              end
          end
      end
  end.

Definition msg_delete_volume (name : string) : string := "failed to delete volume " +:+ name.

Definition DeleteKernalNFSServer (p : Provisioner) (pv : PersistentVolume) : io error :=
  '(_, err) ← deleteNFSServer p (delete_opts (Name (pv_meta pv)));
  PRet (Wrapf err (msg_delete_volume (Name (pv_meta pv)))).

Definition validateNodeAffinityRules (p : Provisioner) : io error :=
  if decide (length (nodeAffinity p) = 0) then PRet None
  else
    match NodeSelectorRequirementsAsSelector (nodeAffinity p) with
    | Err err => PRet (Some err)
    | Ok nodeSelector =>
        r ← (call (RListNodes nodeSelector) : io (result (list string)));
        match r with
        | Err err => PRet (Some err)
        | Ok nodeList =>
            if decide (length nodeList = 0)
            then PRet (Some (ErrNew (NodeAffinityRulesMismatchEvent +:+ " ("
                                     +:+ Selector_String nodeSelector +:+ ")")))
            else PRet None
        end
    end.

(** The default is for an event without a volume type. *)
Definition GetEngineName (volType method : string) : string :=
  if bool_decide (method = VolumeProvision) && bool_decide (volType = EmptyString)
  then DefaultCASType else volType.

Definition sendEventOrIgnore (pvcName pvName capacity stgType method : string) : io () :=
  if negb (menv_Truthy OpenEBSEnableAnalytics) then PRet tt
  else
    let stgType := if decide (method = VolumeProvision) then "nfs-" +:+ stgType else stgType in
    call (RSend (mkUsage (GetEngineName stgType method) pvName pvcName EventLabelCapacity
                   DefaultUnknownReplicaCount method capacity)).

Definition track_add (name : string) : io () := call (RTrackAdd name).
Definition track_delete (name : string) : io () := call (RTrackDelete name).
(** [c.WithLabelValues(process).Inc()] *)
Definition inc (c : CounterVec) (process : string) : io () := call (RInc c process).

(** The body of [Provision], between the two tracker calls. *)
Definition provision_body (p : Provisioner) (opts : ProvisionOptions)
  : io (result PersistentVolume * ProvisioningState) :=
  c ← getVolumeConfig p (po_PVName opts) (po_PVC opts);
  match c with
  | Err err => PRet (Err err, ProvisioningNoChange)
  | Ok pvCASConfig =>
      e ← validateNodeAffinityRules p;
      match e with
      | Some err => PRet (Err err, ProvisioningNoChange)
      | None =>
          let nfsServerType := GetNFSServerTypeFromConfig pvCASConfig in
          let size := storage_request (pvc_Requests (pvc_spec (po_PVC opts))) in
          sendEventOrIgnore (Name (pvc_meta (po_PVC opts))) (po_PVName opts)
            (quantity_String size) nfsServerType VolumeProvision;;
          if decide (nfsServerType = "kernel") then
            r ← ProvisionKernalNFSServer p opts pvCASConfig;
            match r with
            | Err err => inc PersistentVolumeCreateFailedTotal ProvisionerRequestCreate;; PRet (Err err, ProvisioningNoChange)
            | Ok pv => inc PersistentVolumeCreateTotal ProvisionerRequestCreate;; PRet (Ok pv, ProvisioningFinished)
            end
          else PRet (Err (ErrNew ("PV with NFS Server of type(" +:+ nfsServerType
                                  +:+ ") is not supported")), ProvisioningNoChange)
      end
  end.

Definition Provision (p : Provisioner) (opts : ProvisionOptions)
  : io (result PersistentVolume * ProvisioningState) :=
  track_add (po_PVName opts);;
  defer (track_delete (po_PVName opts)) (provision_body p opts).

(** The body of [Delete]; the deferred functions wrap its error, then remove
    the name from the tracker. *)
Definition delete_body (p : Provisioner) (pv : PersistentVolume) : io error :=
  if decide (pv_ReclaimPolicy (pv_spec pv) <> PersistentVolumeReclaimRetain) then
    let nfsServerType := GetNFSServerTypeFromPV pv in
    sendEventOrIgnore (default EmptyString (pv_ClaimRef (pv_spec pv))) (Name (pv_meta pv))
      (quantity_String (storage_request (pv_Capacity (pv_spec pv)))) ("nfs-" +:+ nfsServerType)
      VolumeDeprovision;;
    err ← (if decide (nfsServerType = "kernel") then
             err ← DeleteKernalNFSServer p pv;
             match err with
             | Some err => PRet (Some err)
             | None =>
                 execute_guarded p ResourceNFSPV EventTypeDeleteVolume (fun h =>
                   ExecuteHookOnNFSPV h (Name (pv_meta pv)) EventTypeDeleteVolume)
             end
           else PRet None : io error);
    match err with
    | None => inc PersistentVolumeDeleteTotal ProvisionerRequestDelete;; PRet None
    | Some err => inc PersistentVolumeDeleteFailedTotal ProvisionerRequestDelete;; PRet (Some err)
    end
  else PRet None.

Definition Delete (p : Provisioner) (pv : PersistentVolume) : io error :=
  track_add (Name (pv_meta pv));;
  defer (track_delete (Name (pv_meta pv)))
    (err ← delete_body p pv;
     PRet (Wrapf err (msg_delete_volume (Name (pv_meta pv))))).

Definition SupportsBlock : bool := false.

(** ** Construction *)

(** [time.Duration(n) * time.Second]: a signed 64-bit count of nanoseconds. *)
Definition wrap64 (n : Z) : Z := ((n + 2 ^ 63) mod 2 ^ 64 - 2 ^ 63)%Z.
Definition seconds (n : Z) : Z := wrap64 (n * 1000000000).

Definition backend_timeout (backendPvcTimeoutStr : string) : Z :=
  match Atoi backendPvcTimeoutStr with
  | Err _ => DefaultBackendPvcBoundTimeout
  | Ok n => if decide (n = 0)%Z then DefaultBackendPvcBoundTimeout else n
  end.

Definition gc_enabled (gcStr : string) : bool :=
  match ParseBool gcStr with
  | Err _ => true
  | Ok gcEnable => gcEnable
  end.

(** The provisioner, and whether the garbage collector is started.  The outer
    option is the fuel of the affinity parser. *)
Definition NewProvisioner {F : FileSystem} : option (result (Provisioner * bool)) :=
  let namespace := getOpenEBSNamespace in
  if blank namespace
  then Some (Err (ErrNew "Cannot start Provisioner: failed to get namespace"))
  else
    let backendPvcTimeoutVal := backend_timeout getBackendPvcTimeout in
    let nfsServerNs := getNfsServerNamespace in
    match initializeHook with
    | Err err => Some (Err (ErrList "failed to initialize hooks" [err]))
    | Ok hook =>
        match getNodeAffinityRules with
        | None => None
        | Some affinity =>
            let config := [mconfig_new KeyPVNFSServerType getDefaultNFSServerType] in
            Some (Ok (mkProvisioner namespace nfsServerNs config (GetVolumeConfig config)
                        (menv_Truthy ProvisionerNFSServerUseClusterIP) affinity
                        (seconds backendPvcTimeoutVal) hook,
                      gc_enabled getNfsGarbageCollectionEnable))
        end
    end.
End Provisioner.
