(* ===== verification/Daemon.v ===== *)
(** * The requests of the process itself

    What the code that starts the provisioner asks of the Go runtime and of the
    libraries: goroutines, signals, the context, the registry of counters, the
    HTTP server, and running the loops of the libraries that call the handlers.
    cobra, Prometheus, the helpers of maya and what these libraries can do to the
    process are the class [DaemonLib]. *)

From S2P Require Import Prelude Metrics K8sTypes MetaHelper Hook Prog KubeAPI VolumeConfig NodeAffinity NFSServer Provisioner.

(** [syscall.SIGINT], [syscall.SIGTERM], and any other signal by its number *)
Inductive signal := SIGINT | SIGTERM | SIGOTHER (number : Z).

#[export] Instance signal_eq_dec : EqDecision signal.
Proof. solve_decision. Defined.

(** [pflag.Flag], as [StringVar] declares it *)
Record Flag := mkFlag {
  fl_Name : string;
  fl_Value : string;
  fl_Usage : string;
}.

(** What cobra finds on the command line: an error, a request for help, or the
    values of the flags. *)
Inductive parsed :=
| ParsedErr (err : goerr)
| ParsedHelp
| ParsedRun (flags : gmap string string).

(** The libraries whose code runs in the goroutines of the provisioner. *)
Inductive library := LibVolumeController | LibKubeClient | LibAnalytics.

Class DaemonLib := {
  (** [os.Getenv], [os.Args] *)
  os_Getenv : string -> string;
  os_Args : list string;
  (** cobra's parsing of the arguments, given the flags of the command *)
  cobra_parse : list Flag -> list string -> parsed;
  (** [util.CheckErr(err, util.Fatal)]: the exit status, if it does not return *)
  CheckErr_Fatal : error -> option Z;
  (** [prometheus.BuildFQName], by which the registry tells counters apart *)
  BuildFQName : string -> string -> string -> string;
  (** a library can panic by itself *)
  library_panics : library -> Prop;
  (** the status of [klog.Fatal], by which the volume controller ends the process
      when it loses its leadership *)
  leader_lost_status : Z;
}.

(** What these libraries document. *)
Class DaemonLaws (D : DaemonLib) := {
  (** a declared flag has a value *)
  cobra_declared flags args values f :
    cobra_parse flags args = ParsedRun values -> f ∈ flags -> is_Some (values !! fl_Name f);
  (** without arguments the flags have their defaults *)
  cobra_defaults flags :
    cobra_parse flags [] =
      ParsedRun (list_to_map (map (fun f => (fl_Name f, fl_Value f)) flags));
  CheckErr_nil : CheckErr_Fatal None = None;
  CheckErr_fatal err : CheckErr_Fatal (Some err) = Some 1%Z;
  BuildFQName_join ns sub name :
    ns <> EmptyString -> sub <> EmptyString -> name <> EmptyString ->
    BuildFQName ns sub name = ns +:+ "_" +:+ sub +:+ "_" +:+ name;
  leader_lost_fatal : leader_lost_status <> 0%Z;
}.

Section Daemon.
Context {C : CoreTypes} {Y : MayaConfig}.

(** The goroutines that the code starts. *)
Inductive goroutine :=
| GoMetricServer (metricPath metricListenAddress : string)
| GoShutdown
| GoNodeInformer
| GoGarbageCollector (nfsServerNs : string)
| GoController (provisionerName : string) (p : Provisioner) (leaderElection : bool)
| GoPingCheck (engine category : string).

(** Where a goroutine panicked: in the handler of a request, in the collector, or
    in a library by itself. *)
Inductive panic_source :=
| InProvision (opts : ProvisionOptions)
| InDelete (pv : PersistentVolume)
| InCollector
| InLibrary (l : library).

(** How the code that a goroutine runs ends: it returns, it panics, or a library
    exits. *)
Inductive run_result := RunReturned | RunPanicked (source : panic_source) | RunExit (code : Z).

Inductive dreq :=
| DInitLogs
| DFlushLogs
| DMustRegister (cs : list CounterVec)
| DGo (g : goroutine)
| DNotify (sigs : list signal)
| DRecvSignal
| DCancel
| DDone
| DHandle (path : string)
| DListenAndServe (addr : string)
| DInstallEvent (engine : string)
(** the handlers and the library code of a goroutine *)
| DRun (g : goroutine)
| DExit (code : Z).

Definition dresp (r : dreq) : Type :=
  match r with
  (** false: it panics *)
  | DMustRegister _ | DHandle _ => bool
  | DRecvSignal => signal
  | DListenAndServe _ => goerr
  | DRun _ => run_result
  | DExit _ => Empty_set
  | _ => unit
  end.

Definition dio (A : Type) : Type := prog dresp A.

#[global] Instance dio_MBind : MBind dio := @prog_MBind dreq dresp.
#[global] Instance dio_MRet : MRet dio := @PRet dreq dresp.

Definition dcall (r : dreq) : dio (dresp r) := call r.

(** [go f()] *)
Definition go (g : goroutine) : dio () := call (DGo g).

(** A library call that panics when it cannot do its work. *)
Definition must (r : dreq) (ok : dresp r -> bool) : dio () :=
  x ← (call r : dio (dresp r)); if ok x then PRet tt else PPanic.
End Daemon.

Abbreviation dev := (event dresp).
