(* ===== verification/Controller.v ===== *)
(** * provisioner/controller.go, signal_handler.go, backward_compatability.go

    Starting the controller: the client, the provisioner and its goroutines,
    then waiting for the context.  Also the goroutines that [NewProvisioner]
    starts. *)

From S2P Require Import Prelude GoStrings Metrics K8sTypes MetaHelper Hook Prog KubeAPI KubeClient Env.
From S2P Require Import VolumeConfig NodeAffinity NFSServer Provisioner Daemon.

Definition provisionerName : string := "openebs.io/nfsrwx".
Definition LeaderElectionKey : string := "LEADER_ELECTION_ENABLED".
Definition Ping : string := "ping".

Section Controller.
Context {C : CoreTypes} {P : PatchLib} {Y : MayaConfig} {M : MayaEnv} {F : FileSystem}.
Context {L : ClientLib} {D : DaemonLib}.

Definition isLeaderElectionEnabled : bool :=
  let s := ToLower (os_Getenv LeaderElectionKey) in
  if decide (s ∈ ["y"; "yes"; "true"]) then true
  else if decide (s ∈ ["n"; "no"; "false"]) then false
  else true.

Definition performPreupgradeTasks (kubeClient : kube_Clientset) : error := None.

(** [NewProvisioner] with the goroutines it starts once nothing can fail any
    more: the node informer, and the garbage collector unless it is disabled. *)
Definition NewProvisioner_go : dio (result Provisioner) :=
  match NewProvisioner with
  | None => PFuel
  | Some (Err err) => PRet (Err err)
  | Some (Ok (p, gcEnable)) =>
      go GoNodeInformer;;
      (if gcEnable : bool then go (GoGarbageCollector getNfsServerNamespace) else PRet tt);;
      PRet (Ok p)
  end.

(** The outer [None] of [Clientset] is a nil function that is called. *)
Definition Start : dio error :=
  match Clientset (New []) with
  | None => PPanic
  | Some (Err err) => PRet (Some (ErrWrap err "unable to get k8s client"))
  | Some (Ok kubeClient) =>
      match performPreupgradeTasks kubeClient with
      | Some err => PRet (Some (ErrWrap err "failure in preupgrade tasks"))
      | None =>
          r ← NewProvisioner_go;
          match r with
          | Err err => PRet (Some err)
          | Ok provisioner =>
              go (GoController provisionerName provisioner isLeaderElectionEnabled);;
              (if menv_Truthy OpenEBSEnableAnalytics then
                 dcall (DInstallEvent DefaultCASType);; go (GoPingCheck DefaultCASType Ping)
               else PRet tt);;
              dcall DDone;;
              PRet None
          end
      end
  end.

(** signal_handler.go: the goroutine waits for one signal and cancels. *)
Definition shutdown_goroutine : dio () :=
  dcall DRecvSignal;;
  dcall DCancel.

Definition RegisterShutdownChannel : dio () :=
  dcall (DNotify [SIGINT; SIGTERM]);;
  go GoShutdown.
End Controller.
