(* ===== verification/App.v ===== *)
(** * cmd/provisioner-nfs: the command and the process ([main.go], [app/start.go]) *)

From S2P Require Import Prelude GoStrings Metrics K8sTypes MetaHelper Hook Prog KubeAPI KubeClient Env.
From S2P Require Import VolumeConfig NodeAffinity NFSServer Provisioner Daemon Controller.

Definition cmdName : string := "provisioner".
Definition usage : string := cmdName.
Definition defaultMetricsPath : string := "/metrics".
Definition defaultListenAddress : string := ":9500".

Section App.
Context {C : CoreTypes} {P : PatchLib} {Y : MayaConfig} {M : MayaEnv} {F : FileSystem}.
Context {L : ClientLib} {D : DaemonLib}.

(** [cobra.Command]: the fields that are set, its flags, and what it runs with
    their values. *)
Record Command := mkCommand {
  cmd_Use : string;
  cmd_Short : string;
  cmd_Long : string;
  cmd_Flags : list Flag;
  cmd_Run : gmap string string -> dio ();
}.

Definition registered_counters : list CounterVec :=
  [PersistentVolumeDeleteTotal; PersistentVolumeDeleteFailedTotal;
   PersistentVolumeCreateTotal; PersistentVolumeCreateFailedTotal].

(** The goroutine of the metric server: a server that fails is reported, and
    that is all. *)
Definition metric_server (metricPath metricListenAddress : string) : dio () :=
  must (DHandle metricPath) id;;
  dcall (DListenAndServe metricListenAddress);;
  PRet tt.

(** A flag that is not declared is a nil dereference. *)
Definition Start (flags : gmap string string) : dio error :=
  match flags !! "metrics-path" with
  | None => PPanic
  | Some metricPath =>
      match flags !! "listen-address" with
      | None => PPanic
      | Some metricListenAddress =>
          must (DMustRegister registered_counters) id;;
          go (GoMetricServer metricPath metricListenAddress);;
          RegisterShutdownChannel;;
          Controller.Start
      end
  end.

(** The flags that [StartProvisioner] declares; those of Go's own flag set, which
    it adds to the global ones, are left to the parser. *)
Definition provisioner_flags : list Flag :=
  [mkFlag "metrics-path" defaultMetricsPath "path under which to expose metrics";
   mkFlag "listen-address" defaultListenAddress "address on which to expose metrics"].

Definition StartProvisioner : result Command :=
  Ok (mkCommand usage "Dynamic NFS Provisioner"
        "Manage the NFS PVs that includes: validating, creating,
			deleting and cleanup tasks. NFS PVs are setup on top
			of other PVCs (block volumes)"
        provisioner_flags
        (fun flags =>
           err ← Start flags;
           match CheckErr_Fatal err with
           | None => PRet tt
           | Some code => x ← dcall (DExit code); match x : Empty_set with end
           end)).

(** [cmd.Execute] *)
Definition Execute (cmd : Command) : dio error :=
  match cobra_parse (cmd_Flags cmd) os_Args with
  | ParsedErr err => PRet (Some err)
  | ParsedHelp => PRet None
  | ParsedRun flags => cmd_Run cmd flags;; PRet None
  end.

Definition run : dio error :=
  dcall DInitLogs;;
  defer (dcall DFlushLogs)
    match StartProvisioner with
    | Err err => PRet (Some err)
    | Ok cmd => Execute cmd
    end.

(** [os.Exit] does not return. *)
Definition main : dio () :=
  err ← run;
  x ← dcall (DExit (if err is Some _ then 1 else 0)%Z); match x : Empty_set with end.
End App.
