(* ===== verification/ConstructionFacts.v ===== *)
(** * The provisioner that the environment asks for *)

From S2P Require Import Prelude GoStrings StringFacts NumberFacts K8sTypes MetaHelper Hook Prog KubeAPI.
From S2P Require Import Env VolumeConfig NodeAffinity NodeAffinityFacts NFSServer Provisioner.

Section ConstructionFacts.
Context {C : CoreTypes} {P : PatchLib} {Y : MayaConfig} {M : MayaEnv} {N : ProvisionerLib} {F : FileSystem}.

Lemma wrap64_bounds n : (- 2 ^ 63 <= wrap64 n < 2 ^ 63)%Z.
Proof. unfold wrap64. pose proof (Z.mod_pos_bound (n + 2 ^ 63) (2 ^ 64)). lia. Qed.

Lemma wrap64_id n : (- 2 ^ 63 <= n < 2 ^ 63)%Z -> wrap64 n = n.
Proof. intros Hn. unfold wrap64. rewrite Z.mod_small by lia. lia. Qed.

(** The longest timeout, in seconds, whose nanoseconds fit in 64 bits. *)
Definition max_seconds : Z := 9223372036.

Lemma seconds_exact n : (- max_seconds <= n <= max_seconds)%Z -> seconds n = (n * 1000000000)%Z.
Proof. unfold max_seconds. intros Hn. apply wrap64_id. lia. Qed.

(** One more second wraps around to a timer that fires at once. *)
Example seconds_wraps : (seconds (max_seconds + 1) < 0)%Z.
Proof. vm_compute. reflexivity. Qed.

(** Neither branch of construction runs out of fuel. *)
Lemma NewProvisioner_total : is_Some NewProvisioner.
Proof.
  unfold NewProvisioner. destruct (blank _); [by eexists|]. destruct initializeHook; [|by eexists].
  destruct (parse_total getNfsServerNodeAffinity) as [rules Hr].
  change getNodeAffinityRules with (parseNodeAffinity getNfsServerNodeAffinity). rewrite Hr.
  by eexists.
Qed.

(** The timeout, in seconds, that a setting stands for: what it says, or 60
    seconds when it is not a number or zero. *)
Definition timeout_setting (s : string) : Z :=
  match Atoi s with
  | Ok n => if bool_decide (n = 0)%Z then 60 else n
  | Err _ => 60
  end.

Lemma backend_timeout_setting s : backend_timeout s = timeout_setting s.
Proof.
  unfold backend_timeout, timeout_setting. destruct (Atoi s) as [n|]; [|done].
  case_decide; case_bool_decide; done.
Qed.

(** C24: construction always answers. It fails exactly when no namespace is set
    or the hook file cannot be used; otherwise the provisioner carries the
    namespaces, the server type, the hook and the parsed affinity rules of the
    environment, reads volume configurations from its own defaults, uses the
    cluster IP exactly when it is asked to, and waits for its claims as long as
    the setting says: the configured seconds as nanoseconds where they fit in 64
    bits, 60 seconds when the text is not a number or is zero. *)
Theorem NewProvisioner_spec :
  exists r, NewProvisioner = Some r /\
    (is_ok r = false <-> blank getOpenEBSNamespace = true \/ is_ok initializeHook = false) /\
    match r with
    | Err _ => True
    | Ok (p, gc) =>
        namespace p = getOpenEBSNamespace /\
        serverNamespace p = getNfsServerNamespace /\
        defaultConfig p = [mconfig_new KeyPVNFSServerType getDefaultNFSServerType] /\
        getVolumeConfig p = GetVolumeConfig (defaultConfig p) /\
        useClusterIP p = menv_Truthy ProvisionerNFSServerUseClusterIP /\
        initializeHook = Ok (hook p) /\
        getNodeAffinityRules = Some (nodeAffinity p) /\
        (- 2 ^ 63 <= backendPvcTimeout p < 2 ^ 63)%Z /\
        ((- max_seconds <= timeout_setting getBackendPvcTimeout <= max_seconds)%Z ->
           backendPvcTimeout p = (timeout_setting getBackendPvcTimeout * 1000000000)%Z) /\
        (forall n, (- max_seconds <= n <= max_seconds)%Z -> getBackendPvcTimeout = Itoa n ->
           backendPvcTimeout p = ((if bool_decide (n = 0)%Z then 60 else n) * 1000000000)%Z) /\
        (is_ok (Atoi getBackendPvcTimeout) = false -> backendPvcTimeout p = 60000000000%Z) /\
        (gc = false <-> ParseBool getNfsGarbageCollectionEnable = Ok false)
    end.
Proof.
  unfold NewProvisioner. destruct (blank getOpenEBSNamespace) eqn:Hb.
  { eexists. split; [done|]. split; [|done]. split; [by left|done]. }
  destruct initializeHook as [h|e] eqn:Hh.
  2:{ eexists. split; [done|]. split; [|done]. split; [by right|done]. }
  destruct (parse_total getNfsServerNodeAffinity) as [rules Hr].
  change getNodeAffinityRules with (parseNodeAffinity getNfsServerNodeAffinity). rewrite Hr.
  eexists. split; [done|]. split; [split; [done|by intros []]|]. cbn. rewrite backend_timeout_setting.
  do 7 (split; [done|]). split; [apply wrap64_bounds|]. split; [apply seconds_exact|]. split.
  - intros n Hn ->. unfold timeout_setting. rewrite Atoi_Itoa by (unfold max_seconds in Hn; lia).
    apply seconds_exact. unfold max_seconds in *. case_bool_decide; lia.
  - split.
    + intros Ha. unfold timeout_setting. by destruct (Atoi getBackendPvcTimeout).
    + unfold gc_enabled. destruct (ParseBool _) as [[]|]; naive_solver.
Qed.
End ConstructionFacts.
