(* ===== verification/GarbageCollector.v ===== *)
(** * provisioner/garbage_collector.go: deleting the objects of volumes that
    are gone *)

From S2P Require Import Prelude GoStrings K8sTypes MetaHelper Hook Prog KubeAPI HookExecute.
From S2P Require Import Env VolumeConfig NodeAffinity NFSServer.

Section GarbageCollector.
Context {C : CoreTypes} {P : PatchLib} {Y : MayaConfig} {M : MayaEnv}.

(** [&Provisioner{kubeClient: client, serverNamespace: ns}]: no hooks. *)
Definition gc_provisioner (nfsServerNs : string) : Provisioner :=
  mkProvisioner EmptyString nfsServerNs [] (fun _ _ => PPanic) false [] 0 None.

Definition deleteBackendStaleResources (nfsServerNs nfsPvName : string) : io error :=
  '(_, err) ← deleteNFSServer (gc_provisioner nfsServerNs) (delete_opts nfsPvName);
  PRet err.

Definition nfsPvcExists (backendPvcObj : PersistentVolumeClaim) : io (result bool) :=
  let label k := gomap_lookup (Labels (pvc_meta backendPvcObj)) k in
  match label nfsPvcNameLabelKey, label nfsPvcNsLabelKey, label nfsPvcUIDLabelKey with
  | Some nfsPvcName, Some nfsPvcNs, Some nfsPvcUID =>
      r ← kget KPVC nfsPvcNs nfsPvcName;
      match r with
      | ApiErr e => if negb (IsNotFound e) then PRet (Err (ErrAPI e)) else PRet (Ok false)
      | ApiOk pvcObj =>
          if decide (nfsPvcUID <> UID (pvc_meta (pvcObj : PersistentVolumeClaim)))
          then PRet (Ok false) else PRet (Ok true)
      end
  | _, _, _ => PRet (Err (ErrNew "backend PVC doesn't have sufficient information of nfs pvc"))
  end.

Definition pvExists (pvName : string) : io (result bool) :=
  r ← kget KPV EmptyString pvName;
  match r with
  | ApiOk _ => PRet (Ok true)
  | ApiErr e => if IsNotFound e then PRet (Ok false) else PRet (Err (ErrAPI e))
  end.

(** [fmt.Sscanf(pvc.Name, "nfs-%s", &nfsPvName)] from the empty string *)
Definition nfs_pv_name (name : string) : string := Sscanf_lit_s "nfs-" name.

(** The body of the loop.  The error of the deletion is only logged, and every
    other error is retried in the next run. *)
Definition cleanup_one (pvc : PersistentVolumeClaim) : io () :=
  r ← nfsPvcExists pvc;
  match r with
  | Err _ => PRet tt
  | Ok true => PRet tt
  | Ok false =>
      let nfsPvName := nfs_pv_name (Name (pvc_meta pvc)) in
      if decide (nfsPvName = EmptyString) then PRet tt
      else
        busy ← (call (RTrackInprogress nfsPvName) : io bool);
        if busy : bool then PRet tt
        else
          r ← pvExists nfsPvName;
          match r with
          | Err _ => PRet tt
          | Ok true => PRet tt
          | Ok false =>
              deleteBackendStaleResources (Namespace (pvc_meta pvc)) nfsPvName;; PRet tt
          end
  end.

Fixpoint cleanup_all (pvcs : list PersistentVolumeClaim) : io () :=
  match pvcs with
  | [] => PRet tt
  | pvc :: rest => cleanup_one pvc;; cleanup_all rest
  end.

Definition cleanUpStalePvc (ns : string) : io error :=
  let backendPvcLabel := CASTypeKey +:+ "=" +:+ "nfs-kernel" in
  r ← (call (RListPVC ns backendPvcLabel) : io (api (list PersistentVolumeClaim)));
  match r with
  | ApiErr e => PRet (Some (ErrAPI e))
  | ApiOk pvcList => cleanup_all pvcList;; PRet None
  end.

(** One run at the start, then one per tick until the context is done; the
    fuel bounds the number of ticks that are looked at. *)
Fixpoint gc_loop (fuel : nat) (ns : string) : io () :=
  match fuel with
  | O => PFuel
  | S f =>
      tick ← (call RSelectDone : io bool);
      if tick : bool then cleanUpStalePvc ns;; gc_loop f ns else PRet tt
  end.

Definition RunGarbageCollector (fuel : nat) (ns : string) : io () :=
  cleanUpStalePvc ns;; gc_loop fuel ns.
End GarbageCollector.
