(* ===== verification/History.v ===== *)
(** * What a history of requests and responses shows

    Predicates on histories used by the specifications of the handlers, and the
    rules and tactics to step through a handler with [wp]. *)

From S2P Require Import Prelude K8sTypes MetaHelper Hook Prog KubeAPI HookExecute.

Section History.
Context {C : CoreTypes}.
Implicit Types h : list ev.

Definition object_of (k : kind) : obj_of k -> object :=
  match k with
  | KPVC => ObjPVC
  | KPV => ObjPV
  | KService => ObjService
  | KDeployment => ObjDeployment
  end.

Definition name_of (k : kind) (o : obj_of k) : string := Name (object_meta (object_of k o)).

(** The object was absent when the server was asked. *)
Definition seen_absent h (k : kind) (ns name : string) : Prop :=
  exists e, Event (RGet k ns name) (ApiErr e) ∈ h /\ IsNotFound e = true.

(** The object was absent, or its deletion was accepted, or came too late. *)
Definition gone h (k : kind) (ns name : string) : Prop :=
  seen_absent h k ns name \/
  exists d : option apierr, (Event (RDelete k ns name) d : ev) ∈ h /\
    match d with None => True | Some e => IsNotFound e = true end.

(** The object was there, or its creation was accepted. *)
Definition present h (k : kind) (ns name : string) : Prop :=
  (exists o, Event (RGet k ns name) (ApiOk o) ∈ h) \/
  (exists o o', Event (RCreate k ns o) (ApiOk o') ∈ h /\ name_of k o = name).

(** The claim was seen bound. *)
Definition seen_bound h (ns name : string) : Prop :=
  exists o : PersistentVolumeClaim,
    (Event (RGet KPVC ns name) (ApiOk o) : ev) ∈ h /\ pvc_Phase o = ClaimBound.

(** The last tracker operation on the name was [Add]. *)
Fixpoint tracked_from (b : bool) (name : string) (h : list ev) : bool :=
  match h with
  | [] => b
  | e :: h' =>
      tracked_from
        (match ev_req e with
         | RTrackAdd n => if decide (n = name) then true else b
         | RTrackDelete n => if decide (n = name) then false else b
         | _ => b
         end) name h'
  end.
Definition tracked (name : string) (h : list ev) : bool := tracked_from false name h.

(** Requests that only read. *)
Definition is_read (r : req) : bool :=
  match r with
  | RGet _ _ _ | RListPVC _ _ | RGetStorageClass _ | RListNodes _ | RTrackInprogress _
  | RSelectTick | RSelectDone | RHookEnv => true
  | _ => false
  end.

(** Requests that change an object of the API server. *)
Definition is_write (r : req) : bool :=
  match r with
  | RCreate _ _ _ | RDelete _ _ _ | RPatch _ _ _ _ => true
  | _ => false
  end.

(** Counters and usage events. *)
Definition is_telemetry (r : req) : bool :=
  match r with
  | RInc _ _ | RSend _ => true
  | _ => false
  end.

Definition is_track (r : req) : bool :=
  match r with
  | RTrackAdd _ | RTrackDelete _ => true
  | _ => false
  end.

(** ** Histories only grow *)

Lemma prefix_elem h h' (e : ev) : h `prefix_of` h' -> e ∈ h -> e ∈ h'.
Proof. intros [k ->] He. rewrite elem_of_app. by left. Qed.

Lemma seen_absent_mono h h' k ns n : h `prefix_of` h' -> seen_absent h k ns n -> seen_absent h' k ns n.
Proof. intros Hp (e & He & Hn). exists e. split; [by eapply prefix_elem|done]. Qed.

Lemma gone_mono h h' k ns n : h `prefix_of` h' -> gone h k ns n -> gone h' k ns n.
Proof.
  intros Hp [Ha|(d & Hd & Hn)]; [left; by eapply seen_absent_mono|].
  right. exists d. split; [by eapply prefix_elem|done].
Qed.

Lemma present_mono h h' k ns n : h `prefix_of` h' -> present h k ns n -> present h' k ns n.
Proof.
  intros Hp [(o & Ho)|(o & o' & Ho & Hn)]; [left; exists o; by eapply prefix_elem|].
  right. exists o, o'. split; [by eapply prefix_elem|done].
Qed.

Lemma seen_bound_mono h h' ns n : h `prefix_of` h' -> seen_bound h ns n -> seen_bound h' ns n.
Proof. intros Hp (o & Ho & Hb). exists o. split; [by eapply prefix_elem|done]. Qed.

Lemma elem_snoc h (e : ev) : e ∈ h ++ [e].
Proof. rewrite elem_of_app. right. by apply list_elem_of_singleton. Qed.

Lemma prefix_snoc h (e : ev) : h `prefix_of` h ++ [e].
Proof. by apply prefix_app_r. Qed.

Lemma seen_absent_now h k ns n e :
  IsNotFound e = true -> seen_absent (h ++ [Event (RGet k ns n) (ApiErr e)]) k ns n.
Proof. exists e. split; [apply elem_snoc|done]. Qed.

Lemma gone_get_now h k ns n e :
  IsNotFound e = true -> gone (h ++ [Event (RGet k ns n) (ApiErr e)]) k ns n.
Proof. left. by apply seen_absent_now. Qed.

Lemma gone_delete_now h k ns n (d : option apierr) :
  match d with None => True | Some e => IsNotFound e = true end ->
  gone (h ++ [Event (RDelete k ns n) d]) k ns n.
Proof. right. exists d. split; [apply elem_snoc|done]. Qed.

Lemma present_get_now h k ns n o : present (h ++ [Event (RGet k ns n) (ApiOk o)]) k ns n.
Proof. left. exists o. apply elem_snoc. Qed.

Lemma present_create_now h k ns n o o' :
  name_of k o = n -> present (h ++ [Event (RCreate k ns o) (ApiOk o')]) k ns n.
Proof. right. exists o, o'. split; [apply elem_snoc|done]. Qed.

Lemma seen_bound_now h ns n (o : PersistentVolumeClaim) :
  pvc_Phase o = ClaimBound -> seen_bound (h ++ [Event (RGet KPVC ns n) (ApiOk o)]) ns n.
Proof. exists o. split; [apply elem_snoc|done]. Qed.

(** ** The tracker along a history *)

Lemma tracked_from_app b n h1 h2 :
  tracked_from b n (h1 ++ h2) = tracked_from (tracked_from b n h1) n h2.
Proof. revert b. induction h1 as [|e h1 IH]; intros b; simpl; [done|apply IH]. Qed.

Lemma tracked_snoc n h r x :
  tracked n (h ++ [Event r x]) =
  match r with
  | RTrackAdd m => if decide (m = n) then true else tracked n h
  | RTrackDelete m => if decide (m = n) then false else tracked n h
  | _ => tracked n h
  end.
Proof. unfold tracked. rewrite tracked_from_app. by destruct r. Qed.

Lemma tracked_other n h r x : is_track r = false -> tracked n (h ++ [Event r x]) = tracked n h.
Proof. rewrite tracked_snoc. by destruct r. Qed.

(** ** Rules *)
Section Rules.
Context (G : list ev -> req -> Prop).

Lemma wp_ret {A} (a : A) h (Q : list ev -> outcome A -> Prop) :
  Q h (Returned a) -> wp G (PRet a : io A) h Q.
Proof. done. Qed.

Lemma wp_call {A} r (f : resp r -> io A) h (Q : list ev -> outcome A -> Prop) :
  G h r -> (forall x, wp G (f x) (h ++ [Event r x]) Q) ->
  wp G (mbind (M := io) f (call r)) h Q.
Proof. by split. Qed.

Lemma wp_seq {A B} (f : A -> io B) (p : io A) h (Q : list ev -> outcome B -> Prop) :
  wp G p h (fun h' o =>
    match o with
    | Returned a => wp G (f a) h' Q
    | Panicked => Q h' Panicked
    | OutOfFuel => Q h' OutOfFuel
    end) ->
  wp G (mbind (M := io) f p) h Q.
Proof. apply wp_bind. Qed.

(** A postcondition can use that the history grew. *)
Lemma wp_grows {A} (p : io A) h (Q : list ev -> outcome A -> Prop) :
  wp G p h Q -> wp G p h (fun h' o => h `prefix_of` h' /\ Q h' o).
Proof. intros Hw. eapply wp_mono, Hw. done. Qed.

(** An invariant that the allowed requests preserve. *)
Lemma wp_invariant {A} (I : list ev -> Prop) (p : io A) h (Q : list ev -> outcome A -> Prop) :
  (forall h r x, I h -> G h r -> I (h ++ [Event r x])) ->
  I h -> wp G p h Q ->
  wp (fun h r => I h /\ G h r) p h (fun h' o => I h' /\ Q h' o).
Proof.
  intros Hstep. revert h. induction p as [a| | |r k IH]; intros h HI; simpl; [done..|].
  intros [Hr Hk]. split; [done|]. intros x. apply IH; [by apply Hstep|done].
Qed.
End Rules.

(** Every request of the trace was allowed by what preceded it. *)
Definition obeys (G : list ev -> req -> Prop) (t : list ev) : Prop :=
  forall t1 e t2, t = t1 ++ e :: t2 -> G t1 (ev_req e).

Lemma wp_run {A} G (p : io A) Q t o :
  wp G p [] Q -> exec p t o -> obeys G t /\ (forall o', o = Some o' -> Q t o').
Proof. intros Hw He. exact (wp_exec (Resp := resp) G p [] Q t o Hw He). Qed.

(** ** Hooks run on objects of the server *)

(** The requests of the [ExecuteHook..] functions: reads, and one patch. *)
Definition reads_patches (r : req) : bool :=
  is_read r || match r with RPatch _ _ _ _ => true | _ => false end.

Context {P : PatchLib}.

(** The functions return, they never panic, and they only read and patch. *)
Definition returns {A} (h : list ev) (o : outcome A) : Prop := exists a, o = Returned a.

Section Execute.
Context (G : list ev -> req -> Prop) (HG : forall h r, reads_patches r = true -> G h r).

Ltac hook_run :=
  repeat first
    [ apply wp_call; [by apply HG|intros [?|?]]
    | apply wp_seq; apply wp_call; [by apply HG|intros ?; apply wp_ret]
    | apply wp_ret; by eexists
    | match goal with |- wp _ (match ?x with _ => _ end) _ _ => destruct x end ].

Lemma wp_ExecuteHookOnNFSPV hk n e h : wp G (ExecuteHookOnNFSPV hk n e) h returns.
Proof using HG. unfold ExecuteHookOnNFSPV, run_action. hook_run. Qed.

Lemma wp_ExecuteHookOnBackendPV hk ns n e h : wp G (ExecuteHookOnBackendPV hk ns n e) h returns.
Proof using HG. unfold ExecuteHookOnBackendPV, run_action. hook_run. Qed.

Lemma wp_ExecuteHookOnBackendPVC hk ns n e h : wp G (ExecuteHookOnBackendPVC hk ns n e) h returns.
Proof using HG. unfold ExecuteHookOnBackendPVC, run_action. hook_run. Qed.

Lemma wp_ExecuteHookOnNFSService hk ns n e h : wp G (ExecuteHookOnNFSService hk ns n e) h returns.
Proof using HG. unfold ExecuteHookOnNFSService, run_action. hook_run. Qed.

Lemma wp_ExecuteHookOnNFSDeployment hk ns n e h : wp G (ExecuteHookOnNFSDeployment hk ns n e) h returns.
Proof using HG. unfold ExecuteHookOnNFSDeployment, run_action. hook_run. Qed.
End Execute.
End History.
