(* ===== verification/HookExecuteFacts.v ===== *)
(** * What a hook run on an object of the server does to it

    Every [ExecuteHook..] function reads, then patches once: the object it
    fetched, with the difference its action makes. *)

From S2P Require Import Prelude K8sTypes MetaHelper Hook HookFacts Prog KubeAPI HookExecute History.

Section HookExecuteFacts.
Context {C : CoreTypes} {P : PatchLib}.
Implicit Types t : list ev.

(** [data] is the difference that the action, run under an environment read
    in [t], makes to [orig], which it changes in annotations and finalizers
    only. *)
Definition patch_data (h : Hook) (x : Z) (evt : EventType) t (orig : object) (data : string) : Prop :=
  exists env obj d, (Event RHookEnv env : ev) ∈ t /\ Action env h orig x evt = Ok obj /\
    same_object orig obj /\ GetPatchData orig obj = Ok (data, d).

(** The requests: reads, and one patch of a fetched object. *)
Definition hook_discipline (h : Hook) (x : Z) (evt : EventType) (k : kind) (ns : string)
    t (r : req) : Prop :=
  Forall (fun e => is_read (ev_req e) = true) t /\
  (is_read r = true \/
   exists name name' data (orig : obj_of k),
     r = RPatch k ns name data /\ (Event (RGet k ns name') (ApiOk orig) : ev) ∈ t /\
     (name = name' \/ name = name_of k orig) /\
     patch_data h x evt t (object_of k orig) data).

(** The functions return, with nil only if the patch was accepted. *)
Definition hook_post (k : kind) (ns : string) t (o : outcome error) : Prop :=
  exists err, o = Returned err /\
    (err = None -> exists t0 name data obj,
       t = t0 ++ [Event (RPatch k ns name data) (ApiOk obj)]).

(** The resources a kind of object is configured under. *)
Definition kind_resource (k : kind) (x : Z) : Prop :=
  match k with
  | KPVC => x = ResourceBackendPVC
  | KPV => x = ResourceBackendPV \/ x = ResourceNFSPV
  | KService => x = ResourceNFSService
  | KDeployment => x = ResourceNFSServerDeployment
  end.

Lemma kind_right_type k x (o : obj_of k) : kind_resource k x -> right_type x (object_of k o).
Proof. by destruct k. Qed.

Lemma same_object_name a b : same_object a b -> Name (object_meta b) = Name (object_meta a).
Proof.
  destruct a, b; simpl; try done; unfold same_meta; intros Hm;
    repeat match goal with H : _ /\ _ |- _ => destruct H as [H _] end; by rewrite Hm.
Qed.

Section Run.
Context (h : Hook) (x : Z) (evt : EventType) (k : kind) (ns : string).
Hypothesis Hx : kind_resource k x.

Lemma wp_read {A} r (f : resp r -> io A) t Q :
  is_read r = true -> Forall (fun e => is_read (ev_req e) = true) t ->
  (forall y, Forall (fun e => is_read (ev_req e) = true) (t ++ [Event r y]) ->
     wp (hook_discipline h x evt k ns) (f y) (t ++ [Event r y]) Q) ->
  wp (hook_discipline h x evt k ns) (mbind (M := io) f (call r)) t Q.
Proof.
  intros Hr Ht Hf. apply wp_call; [by split; [|left]|]. intros y. apply Hf.
  apply Forall_app. split; [done|by constructor].
Qed.

(** The common tail: act on the fetched object and patch it. *)
Lemma wp_act_patch (orig : obj_of k) name' (patched : object -> string) (msg : object -> string) t :
  Forall (fun e => is_read (ev_req e) = true) t ->
  (Event (RGet k ns name') (ApiOk orig) : ev) ∈ t ->
  (forall obj, patched obj = name' \/ patched obj = Name (object_meta obj)) ->
  wp (hook_discipline h x evt k ns)
    (a ← run_action h (object_of k orig) x evt;
     match a with
     | Err e => PRet (Wrapf (Some e) "failed to execute hook")
     | Ok obj =>
         match GetPatchData (object_of k orig) obj with
         | Err e => PRet (Some e)
         | Ok (data, _) =>
             p ← kpatch k ns (patched obj) data;
             PRet (Wrapf (api_err p) (msg obj))
         end
     end) t (hook_post k ns).
Proof using Hx.
  intros Ht Hg Hpatch. unfold run_action. apply wp_seq. apply wp_read; [done..|].
  intros env Ht1. apply wp_ret.
  destruct (Action_right_type env h (object_of k orig) x evt (kind_right_type k x orig Hx))
    as (obj & Ha & Hs). rewrite Ha.
  destruct (GetPatchData (object_of k orig) obj) as [[data d]|e] eqn:Hd; [|by eexists].
  apply wp_call.
  - split; [done|]. right. exists (patched obj), name', data, orig. split; [done|].
    split; [rewrite elem_of_app; by left|]. split.
    + destruct (Hpatch obj) as [->|Hp]; [by left|]. right. rewrite Hp. by apply same_object_name.
    + exists env, obj, d. split; [apply elem_snoc|done].
  - intros [obj'|e]; apply wp_ret; eexists; (split; [done|]); [|done]. intros _. by eexists _, _, _, _.
Qed.
End Run.

Lemma elem_get_snoc t k ns n (o : obj_of k) :
  (Event (RGet k ns n) (ApiOk o) : ev) ∈ t ++ [Event (RGet k ns n) (ApiOk o)].
Proof. apply elem_snoc. Qed.

Lemma wp_NFSPV_patch h name evt :
  wp (hook_discipline h ResourceNFSPV evt KPV EmptyString) (ExecuteHookOnNFSPV h name evt) []
    (hook_post KPV EmptyString).
Proof.
  unfold ExecuteHookOnNFSPV. apply wp_read; [done..|]. intros [orig|e] Ht; [|by eexists].
  by apply (wp_act_patch h ResourceNFSPV evt KPV EmptyString (or_intror eq_refl) orig name
    (fun _ => name) (fun obj => "failed to patch PV=" +:+ Name (object_meta obj)));
    [|apply elem_get_snoc|left].
Qed.

Lemma wp_BackendPV_patch h ns name evt :
  wp (hook_discipline h ResourceBackendPV evt KPV EmptyString) (ExecuteHookOnBackendPV h ns name evt) []
    (hook_post KPV EmptyString).
Proof.
  unfold ExecuteHookOnBackendPV. apply wp_read; [done..|]. intros [c|e] Ht; [|by eexists].
  apply wp_read; [done..|]. intros [orig|e] Ht'; [|by eexists].
  by apply (wp_act_patch h ResourceBackendPV evt KPV EmptyString (or_introl eq_refl) orig
    (pvc_VolumeName (pvc_spec c)) (fun obj => Name (object_meta obj))
    (fun obj => "failed to patch PV=" +:+ Name (object_meta obj))); [|apply elem_get_snoc|right].
Qed.

Lemma wp_BackendPVC_patch h ns name evt :
  wp (hook_discipline h ResourceBackendPVC evt KPVC ns) (ExecuteHookOnBackendPVC h ns name evt) []
    (hook_post KPVC ns).
Proof.
  unfold ExecuteHookOnBackendPVC. apply wp_read; [done..|]. intros [orig|e] Ht; [|by eexists].
  by apply (wp_act_patch h ResourceBackendPVC evt KPVC ns eq_refl orig name
    (fun obj => Name (object_meta obj)) (fun _ => msg_patch "PVC" ns name));
    [|apply elem_get_snoc|right].
Qed.

Lemma wp_Service_patch h ns name evt :
  wp (hook_discipline h ResourceNFSService evt KService ns) (ExecuteHookOnNFSService h ns name evt) []
    (hook_post KService ns).
Proof.
  unfold ExecuteHookOnNFSService. apply wp_read; [done..|]. intros [orig|e] Ht; [|by eexists].
  by apply (wp_act_patch h ResourceNFSService evt KService ns eq_refl orig name
    (fun obj => Name (object_meta obj)) (fun _ => msg_patch "service" ns name));
    [|apply elem_get_snoc|right].
Qed.

Lemma wp_Deployment_patch h ns name evt :
  wp (hook_discipline h ResourceNFSServerDeployment evt KDeployment ns)
    (ExecuteHookOnNFSDeployment h ns name evt) [] (hook_post KDeployment ns).
Proof.
  unfold ExecuteHookOnNFSDeployment. apply wp_read; [done..|]. intros [orig|e] Ht; [|by eexists].
  by apply (wp_act_patch h ResourceNFSServerDeployment evt KDeployment ns eq_refl orig name
    (fun obj => Name (object_meta obj)) (fun _ => msg_patch "deployment" ns name));
    [|apply elem_get_snoc|right].
Qed.

(** Every run of [p] keeps to the discipline, and ends as specified. *)
Definition patches_once (h : Hook) (x : Z) (evt : EventType) (k : kind) (ns : string)
    (p : io error) : Prop :=
  forall t o, exec p t o ->
    obeys (hook_discipline h x evt k ns) t /\ (forall o', o = Some o' -> hook_post k ns t o').

(** C15: whatever the server answers, running a hook on an object issues reads
    and at most one patch, last: of the object it fetched, with the difference
    that the hook's action makes to it, which is in annotations and finalizers
    only; it never panics, and returns nil only if the patch was accepted. *)
Theorem ExecuteHook_patches h ns name evt :
  patches_once h ResourceNFSPV evt KPV EmptyString (ExecuteHookOnNFSPV h name evt) /\
  patches_once h ResourceBackendPV evt KPV EmptyString (ExecuteHookOnBackendPV h ns name evt) /\
  patches_once h ResourceBackendPVC evt KPVC ns (ExecuteHookOnBackendPVC h ns name evt) /\
  patches_once h ResourceNFSService evt KService ns (ExecuteHookOnNFSService h ns name evt) /\
  patches_once h ResourceNFSServerDeployment evt KDeployment ns
    (ExecuteHookOnNFSDeployment h ns name evt).
Proof.
  split; [|split; [|split; [|split]]]; intros t o He; (eapply wp_run; [|exact He]).
  - apply wp_NFSPV_patch.
  - apply wp_BackendPV_patch.
  - apply wp_BackendPVC_patch.
  - apply wp_Service_patch.
  - apply wp_Deployment_patch.
Qed.
End HookExecuteFacts.
