(* ===== verification/NFSObjects.v ===== *)
(** * The objects an NFS server is made of

    What the builder chains of helper_kernel_nfs_server.go and
    provisioner_kernel_nfs_server.go build, written out, and exactly when they
    fail. *)

From S2P Require Import Prelude GoStrings K8sTypes BuilderCore MetaHelper Hook Prog KubeAPI.
From S2P Require Import Env VolumeConfig NodeAffinity NFSServer Provisioner.
From S2P Require PVCBuilder PVBuilder ServiceBuilder VolumeBuilder ContainerBuilder PodTemplateBuilder DeploymentBuilder.

Section Objects.
Context {C : CoreTypes} {P : PatchLib} {Y : MayaConfig} {M : MayaEnv}.

Lemma length_str_0 (s : string) : bool_decide (String.length s = 0) = bool_decide (s = EmptyString).
Proof. apply bool_decide_ext. by destruct s. Qed.

Lemma gomap_len_insert {V} k (v : V) m :
  bool_decide (gomap_len (Some (<[k := v]> m)) = 0) = false.
Proof.
  apply bool_decide_eq_false_2. unfold gomap_len, gomap_get; simpl.
  rewrite map_size_empty_iff. apply insert_non_empty.
Qed.

Lemma gomap_len_singleton {V} k (v : V) :
  bool_decide (gomap_len (Some ({[k := v]} : gmap string V)) = 0) = false.
Proof. apply gomap_len_insert. Qed.

Lemma nfs_name_nonempty opts : bool_decide (nfs_name opts = EmptyString) = false.
Proof. done. Qed.

(** ** The backend claim *)

Definition or_default (ns : string) : string :=
  if decide (String.length ns = 0) then "default" else ns.

Definition backend_pvc (p : Provisioner) (opts : KernelNFSServerOptions) (q : Quantity)
  : PersistentVolumeClaim :=
  mkPVC _
    (mkMeta _ (nfs_name opts) EmptyString (or_default (serverNamespace p)) EmptyString 0
       (backend_pvc_labels opts) None [] [])
    (mkPVCSpec _
       (if decide (String.length (backendStorageClass opts) = 0) then None
        else Some (backendStorageClass opts))
       [ReadWriteOnce] (Some {[ResourceStorage := q]}) None EmptyString)
    EmptyString.

Lemma backend_pvc_Build p opts :
  PVCBuilder.Build (backend_pvc_builder p opts) =
  match ParseQuantity (capacity opts) with
  | Ok q => Ok (backend_pvc p opts q)
  | Err err => Err (ErrList EmptyString
      [ErrWrap err ("failed to build PVC object: failed to parse capacity {"
                    +:+ capacity opts +:+ "}")])
  end.
Proof.
  unfold backend_pvc_builder, PVCBuilder.WithName, PVCBuilder.WithLabels, PVCBuilder.WithNamespace,
    PVCBuilder.WithAccessModeRWO, PVCBuilder.WithAccessModes, PVCBuilder.WithCapacity,
    PVCBuilder.WithStorageClass. cbv zeta.
  rewrite length_str_0, nfs_name_nonempty. unfold backend_pvc_labels. rewrite gomap_len_insert.
  unfold backend_pvc, or_default.
  destruct (ParseQuantity (capacity opts)) as [q|e];
    destruct (decide (String.length (backendStorageClass opts) = 0)),
      (decide (String.length (serverNamespace p) = 0));
    cbn; try done; unfold PVCBuilder.Build, build, PVCBuilder.on_meta, PVCBuilder.on_spec,
      PVCBuilder.merge_labels; cbn; by rewrite range_insert_empty.
Qed.

(** ** The service *)

Definition nfs_service (p : Provisioner) (opts : KernelNFSServerOptions) : Service :=
  mkService _
    (mkMeta _ (nfs_name opts) EmptyString (serverNamespace p) EmptyString 0 None None [] [])
    (mkServiceSpec (Some {["openebs.io/nfs-server" := deploymentName opts]})
       [mkServicePort "nfs" NFSServerPort; mkServicePort "rpcbind" RPCBindPort]
       EmptyString EmptyString).

Lemma service_Build p opts :
  ServiceBuilder.Build (service_builder p opts (nfs_name opts)) =
  if decide (serverNamespace p = EmptyString)
  then Err (ErrList EmptyString [ErrNew "failed to build service object: missing namespace"])
  else Ok (nfs_service p opts).
Proof.
  unfold service_builder, ServiceBuilder.WithName, ServiceBuilder.WithNamespace,
    ServiceBuilder.WithPorts, ServiceBuilder.WithSelectorsNew. cbv zeta.
  rewrite !length_str_0, nfs_name_nonempty, gomap_len_singleton.
  case_decide as Hn; [rewrite (bool_decide_eq_true_2 (serverNamespace p = EmptyString)) by done
                     |rewrite (bool_decide_eq_false_2 (serverNamespace p = EmptyString)) by done];
    cbn; [done|].
  unfold ServiceBuilder.Build, build, nfs_service, ServiceBuilder.on_meta, ServiceBuilder.on_spec,
    ServiceBuilder.copy_map; cbn. by rewrite range_insert_empty.
Qed.

(** ** The deployment *)

Definition server_container_obj (opts : KernelNFSServerOptions) : Container :=
  mkContainer _ "nfs-server" getNFSServerImage [] [] EmptyString
    [mkContainerPort "nfs" NFSServerPort; mkContainerPort "rpcbind" RPCBindPort]
    [] (Some (server_envs opts)) (default emptyResources (resources opts))
    [mkVolumeMount "exports-dir" "/nfsshare"] [] None None None EmptyString EmptyString
    PullIfNotPresent (Some (Some true)) false false false.

Lemma server_container_Build opts :
  (ContainerBuilder.Build (server_container opts)).2 =
  if decide (getNFSServerImage = EmptyString)
  then Err (ErrList "validation errors: " [ErrNew "failed to build container object: missing image"])
  else Ok (server_container_obj opts).
Proof.
  unfold server_container, ContainerBuilder.WithImage. cbv zeta. rewrite length_str_0.
  case_decide as Hi; [rewrite (bool_decide_eq_true_2 (getNFSServerImage = EmptyString)) by done
                     |rewrite (bool_decide_eq_false_2 (getNFSServerImage = EmptyString)) by done];
    done.
Qed.

Definition server_pod_obj (p : Provisioner) (opts : KernelNFSServerOptions) (deployName : string)
  : PodTemplateSpec :=
  mkPodTemplate _
    (mkMeta _ EmptyString EmptyString EmptyString EmptyString 0
       (deploy_label_selector opts deployName) None [] [])
    (mkPodSpec _ None EmptyString EmptyString
       (if decide (String.length getNfsServerImagePullSecret <> 0)
        then [getNfsServerImagePullSecret] else [])
       (Some (fsGroup opts))
       (if decide (length (nodeAffinity p) = 0) then None
        else Some (mkAffinity (Some (Some [nodeAffinity p]))))
       [] [server_container_obj opts]
       [mkVolume _ "exports-dir" (mkVolumeSource _ None None None (Some (backendPvcName opts)) None)]).

Lemma copy_deploy_labels opts dn :
  PodTemplateBuilder.copy_map (deploy_label_selector opts dn) = deploy_label_selector opts dn.
Proof.
  unfold PodTemplateBuilder.copy_map, deploy_label_selector, gomap_get; cbn.
  by rewrite range_insert_empty.
Qed.

Lemma deploy_labels_len opts dn :
  bool_decide (gomap_len (deploy_label_selector opts dn) = 0) = false.
Proof. apply gomap_len_insert. Qed.

Definition buildable (opts : KernelNFSServerOptions) : Prop :=
  getNFSServerImage <> EmptyString /\ backendPvcName opts <> EmptyString.

#[export] Instance buildable_dec opts : Decision (buildable opts).
Proof. unfold buildable. apply _. Defined.

Lemma server_pod_Build p opts dn :
  buildable opts -> PodTemplateBuilder.Build (server_pod p opts dn) = Ok (server_pod_obj p opts dn).
Proof.
  intros [Hi Hp]. unfold server_pod, PodTemplateBuilder.WithLabelsNew,
    PodTemplateBuilder.WithNodeAffinityMatchExpressions, PodTemplateBuilder.WithImagePullSecret,
    PodTemplateBuilder.WithContainerBuildersNew, PodTemplateBuilder.WithVolumeBuilders,
    PodTemplateBuilder.build_containers, PodTemplateBuilder.append_volumes,
    VolumeBuilder.WithPVCSource. cbv zeta.
  rewrite server_container_Build, (decide_False (P := getNFSServerImage = EmptyString)) by done.
  rewrite length_str_0, (bool_decide_eq_false_2 (backendPvcName opts = EmptyString)) by done.
  unfold server_pod_obj. rewrite copy_deploy_labels.
  rewrite deploy_labels_len.
  destruct (decide (length (nodeAffinity p) = 0)), (decide (String.length getNfsServerImagePullSecret <> 0));
    reflexivity.
Qed.

Definition server_deployment (p : Provisioner) (opts : KernelNFSServerOptions) : Deployment :=
  mkDeployment _
    (mkMeta _ (nfs_name opts) EmptyString (serverNamespace p) EmptyString 0
       (deploy_label_selector opts (nfs_name opts)) None [] [])
    (mkDeploymentSpec _ (Some (deploy_label_selector opts (nfs_name opts))) None
       RecreateDeploymentStrategyType (server_pod_obj p opts (nfs_name opts)))
    (mkDeploymentStatus [] 0 0 0 0 0).

Lemma deployment_Build p opts :
  buildable opts -> serverNamespace p <> EmptyString ->
  DeploymentBuilder.Build (deployment_builder p opts (nfs_name opts)) = Ok (server_deployment p opts).
Proof.
  intros Hb Hn. unfold deployment_builder, DeploymentBuilder.WithName, DeploymentBuilder.WithNamespace,
    DeploymentBuilder.WithLabelsNew, DeploymentBuilder.WithSelectorMatchLabelsNew,
    DeploymentBuilder.WithPodTemplateSpecBuilder. cbv zeta.
  rewrite !length_str_0, nfs_name_nonempty, (bool_decide_eq_false_2 (serverNamespace p = EmptyString)) by done.
  rewrite server_pod_Build by done. unfold server_deployment.
  assert (Hc : DeploymentBuilder.copy_map (deploy_label_selector opts (nfs_name opts)) =
               deploy_label_selector opts (nfs_name opts)) by apply copy_deploy_labels.
  rewrite Hc, deploy_labels_len. reflexivity.
Qed.
Lemma server_pod_Build_fails p opts dn :
  ~ buildable opts -> is_ok (PodTemplateBuilder.Build (server_pod p opts dn)) = false.
Proof.
  intros Hb. unfold server_pod, PodTemplateBuilder.WithLabelsNew,
    PodTemplateBuilder.WithNodeAffinityMatchExpressions, PodTemplateBuilder.WithImagePullSecret,
    PodTemplateBuilder.WithContainerBuildersNew, PodTemplateBuilder.WithVolumeBuilders,
    PodTemplateBuilder.build_containers, PodTemplateBuilder.append_volumes,
    VolumeBuilder.WithPVCSource. cbv zeta.
  rewrite server_container_Build, length_str_0, deploy_labels_len. unfold buildable in Hb.
  destruct (decide (getNFSServerImage = EmptyString)) as [Hi|Hi].
  - destruct (bool_decide (backendPvcName opts = EmptyString)),
      (decide (length (nodeAffinity p) = 0)), (decide (String.length getNfsServerImagePullSecret <> 0));
      reflexivity.
  - rewrite (bool_decide_eq_true_2 (backendPvcName opts = EmptyString))
      by (apply dec_stable; tauto).
    destruct (decide (length (nodeAffinity p) = 0)), (decide (String.length getNfsServerImagePullSecret <> 0));
      reflexivity.
Qed.

(** The deployment builds exactly when there is an image, a backend claim and a
    namespace, and then it is [server_deployment]. *)
Lemma deployment_Build_spec p opts :
  match DeploymentBuilder.Build (deployment_builder p opts (nfs_name opts)) with
  | Ok d => buildable opts /\ serverNamespace p <> EmptyString /\ d = server_deployment p opts
  | Err _ => ~ (buildable opts /\ serverNamespace p <> EmptyString)
  end.
Proof.
  destruct (decide (buildable opts /\ serverNamespace p <> EmptyString)) as [[Hb Hn]|Hf].
  { by rewrite deployment_Build. }
  assert (is_ok (DeploymentBuilder.Build (deployment_builder p opts (nfs_name opts))) = false) as Hk;
    [|by destruct (DeploymentBuilder.Build _)].
  unfold deployment_builder, DeploymentBuilder.WithName, DeploymentBuilder.WithNamespace,
    DeploymentBuilder.WithLabelsNew, DeploymentBuilder.WithSelectorMatchLabelsNew,
    DeploymentBuilder.WithPodTemplateSpecBuilder. cbv zeta.
  rewrite !length_str_0, nfs_name_nonempty, deploy_labels_len.
  destruct (decide (serverNamespace p = EmptyString)) as [Hn|Hn].
  - rewrite (bool_decide_eq_true_2 (serverNamespace p = EmptyString)) by done.
    destruct (PodTemplateBuilder.Build (server_pod p opts (nfs_name opts))); reflexivity.
  - pose proof (server_pod_Build_fails p opts (nfs_name opts) ltac:(tauto)) as Hp.
    rewrite (bool_decide_eq_false_2 (serverNamespace p = EmptyString)) by done.
    by destruct (PodTemplateBuilder.Build (server_pod p opts (nfs_name opts))).
Qed.

(** ** The NFS volume *)

Definition nfs_pv (opts : ProvisionOptions) (reclaimPolicy nfsService : string) : PersistentVolume :=
  mkPV _
    (mkMeta _ (po_PVName opts) EmptyString EmptyString EmptyString 0
       (Some {[CASTypeKey := "nfs-kernel"]}) None [] [])
    (mkPVSpec _ reclaimPolicy None (pvc_AccessModes (pvc_spec (po_PVC opts)))
       (Some {[ResourceStorage := storage_request (pvc_Requests (pvc_spec (po_PVC opts)))]})
       (mkPVSource (Some (mkNFS nfsService "/" false)) None None) None
       (sc_MountOptions (po_StorageClass opts)) None).

(** The volume builds exactly when it has a name, an access mode and a server
    address. *)
Lemma nfs_pv_Build_spec opts rp addr :
  match PVBuilder.Build (nfs_pv_builder opts rp addr) with
  | Ok pv => pv = nfs_pv opts rp addr
  | Err _ => po_PVName opts = EmptyString \/ pvc_AccessModes (pvc_spec (po_PVC opts)) = [] \/
             addr = EmptyString
  end.
Proof.
  unfold nfs_pv_builder, PVBuilder.WithName, PVBuilder.WithLabels, PVBuilder.WithAccessModes,
    PVBuilder.WithMountOptions, PVBuilder.WithNFS, nfs_pv. cbv zeta.
  rewrite length_str_0, gomap_len_singleton.
  destruct (bool_decide (po_PVName opts = EmptyString)) eqn:Hn,
    (pvc_AccessModes (pvc_spec (po_PVC opts))) as [|m ms] eqn:Hm,
    (decide (String.length addr = 0)) as [Ha|Ha],
    (sc_MountOptions (po_StorageClass opts)) as [|mo mos] eqn:Hmo;
    simpl;
    try apply bool_decide_eq_true in Hn; try (left; exact Hn);
    try (right; left; reflexivity);
    try (right; right; by destruct addr).
  all: unfold PVBuilder.on_spec; cbn; rewrite ?Hm, ?Hmo; reflexivity.
Qed.
End Objects.
