(* ===== verification/NFSDeleteFacts.v ===== *)
(** * Deleting an NFS server: theorems for arbitrary responses of the server *)

From S2P Require Import Prelude GoStrings K8sTypes MetaHelper Hook Prog KubeAPI HookExecute.
From S2P Require Import History Env VolumeConfig NodeAffinity NFSServer.

Section Delete.
Context {C : CoreTypes} {P : PatchLib} {Y : MayaConfig} {M : MayaEnv}.

(** The discipline of a deletion in namespace [ns] for the objects named [n]:
    besides reading and patching it only deletes these three objects, the
    deployment after the service and the claim after both are gone. *)
Definition delete_discipline (ns n : string) (h : list ev) (r : req) : Prop :=
  reads_patches r = true \/
  match r with
  | RDelete KService ns' n' => ns' = ns /\ n' = n
  | RDelete KDeployment ns' n' => ns' = ns /\ n' = n /\ gone h KService ns n
  | RDelete KPVC ns' n' =>
      ns' = ns /\ n' = n /\ gone h KService ns n /\ gone h KDeployment ns n
  | _ => False
  end.

(** A step of the deletion: on success the object is gone. *)
Definition step_post (ns : string) (opts : KernelNFSServerOptions) (k : kind)
    (h : list ev) (o : outcome (KernelNFSServerOptions * error)) : Prop :=
  exists opts' err, o = Returned (opts', err) /\ pvName opts' = pvName opts /\
    (err = None -> gone h k ns (nfs_name opts)).

Lemma wp_execute_guarded G p x e body h :
  (forall hk h', wp G (body hk) h' returns) -> wp G (execute_guarded p x e body) h returns.
Proof.
  intros Hb. unfold execute_guarded. destruct (hook_guard (hook p) x e); [apply Hb|].
  apply wp_ret. by exists None.
Qed.

(** Runs an [execute_guarded] and continues with its error. *)
Lemma wp_hook_then {A} G p x e body (f : error -> io A) h Q :
  (forall hk h', wp G (body hk) h' returns) ->
  (forall h' err, h `prefix_of` h' -> wp G (f err) h' Q) ->
  wp G (mbind (M := io) f (execute_guarded p x e body)) h Q.
Proof.
  intros Hb Hf. apply wp_seq. eapply wp_mono, (wp_execute_guarded G); [|done].
  intros h' o Hp [err ->]. by apply Hf.
Qed.

Lemma reads_patches_discipline ns n h r : reads_patches r = true -> delete_discipline ns n h r.
Proof. by left. Qed.

#[local] Hint Resolve reads_patches_discipline : core.

Lemma gone_get_branch {k} h ns n (x : api (obj_of k)) :
  api_not_found x = true -> gone (h ++ [Event (RGet k ns n) x]) k ns n.
Proof. destruct x as [a|e]; [done|]. apply gone_get_now. Qed.

(** The last part of every step: delete, and ignore not-found. *)
Lemma wp_delete_tail (G : list ev -> req -> Prop) k ns n opts0 opts msg h :
  pvName opts = pvName opts0 -> n = nfs_name opts0 ->
  G h (RDelete k ns n) ->
  wp G (d ← kdelete k ns n;
        match d with
        | Some e => if negb (IsNotFound e) then PRet (opts, Wrapf (Some (ErrAPI e)) msg)
                    else PRet (opts, None)
        | None => PRet (opts, None)
        end) h (step_post ns opts0 k).
Proof.
  intros Hn -> HG. apply wp_call; [done|]. intros [e|].
  - destruct (IsNotFound e) eqn:He; simpl; exists opts; eexists; (split; [done|]); split; [done| |done|done].
    intros _. by apply gone_delete_now.
  - exists opts, None. split; [done|]. split; [done|]. intros _. by apply gone_delete_now.
Qed.

Lemma wp_deleteService p opts h :
  wp (delete_discipline (serverNamespace p) (nfs_name opts)) (deleteService p opts) h
    (step_post (serverNamespace p) opts KService).
Proof.
  unfold deleteService; cbn [validate]. apply wp_call; [by left|]. intros x.
  destruct (api_not_found x) eqn:Hx.
  { exists opts, None. split; [done|]. split; [done|]. intros _. by apply gone_get_branch. }
  apply wp_hook_then; [intros; apply wp_ExecuteHookOnNFSService; auto|].
  intros h' [err|] _.
  - destruct x; (eexists _, _; split; [done|]; split; done).
  - apply wp_delete_tail; [by destruct x|done|]. by right.
Qed.

Lemma wp_deleteDeployment p opts h :
  gone h KService (serverNamespace p) (nfs_name opts) ->
  wp (delete_discipline (serverNamespace p) (nfs_name opts)) (deleteDeployment p opts) h
    (step_post (serverNamespace p) opts KDeployment).
Proof.
  intros Hs. unfold deleteDeployment; cbn [validate]. apply wp_call; [by left|]. intros x.
  destruct (api_not_found x) eqn:Hx.
  { exists opts, None. split; [done|]. split; [done|]. intros _. by apply gone_get_branch. }
  apply wp_hook_then; [intros; apply wp_ExecuteHookOnNFSDeployment; auto|].
  intros h' [err|] Hp.
  - destruct x; (eexists _, _; split; [done|]; split; done).
  - apply wp_delete_tail; [by destruct x|done|]. right. repeat split.
    eapply gone_mono; [|done]. etrans; [apply prefix_snoc|done].
Qed.

Lemma wp_deleteBackendPVC p opts h :
  gone h KService (serverNamespace p) (nfs_name opts) ->
  gone h KDeployment (serverNamespace p) (nfs_name opts) ->
  wp (delete_discipline (serverNamespace p) (nfs_name opts)) (deleteBackendPVC p opts) h
    (step_post (serverNamespace p) opts KPVC).
Proof.
  intros Hs Hd. unfold deleteBackendPVC; cbn [validate]. apply wp_call; [by left|]. intros x.
  destruct (api_not_found x) eqn:Hx.
  { exists opts, None. split; [done|]. split; [done|]. intros _. by apply gone_get_branch. }
  apply wp_hook_then; [intros; apply wp_ExecuteHookOnBackendPV; auto|].
  intros h1 [err|] Hp1.
  { destruct x; (eexists _, _; split; [done|]; split; done). }
  apply wp_hook_then; [intros; apply wp_ExecuteHookOnBackendPVC; auto|].
  intros h2 [err|] Hp2.
  { destruct x; (eexists _, _; split; [done|]; split; done). }
  assert (Hp : h `prefix_of` h2) by (do 2 (etrans; [|done]); apply prefix_snoc).
  apply wp_delete_tail; [by destruct x|done|].
  right. repeat split; by eapply gone_mono.
Qed.

(** All three objects are gone. *)
Definition all_gone (h : list ev) (ns n : string) : Prop :=
  gone h KService ns n /\ gone h KDeployment ns n /\ gone h KPVC ns n.

Definition delete_post (ns n : string) (h : list ev)
    (o : outcome (KernelNFSServerOptions * error)) : Prop :=
  exists opts' err, o = Returned (opts', err) /\ (err = None -> all_gone h ns n).

Lemma nfs_name_eq (o o' : KernelNFSServerOptions) : pvName o' = pvName o -> nfs_name o' = nfs_name o.
Proof. unfold nfs_name. by intros ->. Qed.

Lemma wp_deleteNFSServer p opts h :
  wp (delete_discipline (serverNamespace p) (nfs_name opts)) (deleteNFSServer p opts) h
    (delete_post (serverNamespace p) (nfs_name opts)).
Proof.
  unfold deleteNFSServer. apply wp_seq. eapply wp_mono, wp_deleteService.
  intros h1 ? _ (o1 & [err|] & -> & Hn1 & Hg1); [by eexists _, _|].
  pose proof (nfs_name_eq _ _ Hn1) as Hm1. specialize (Hg1 eq_refl).
  apply wp_seq. rewrite <- Hm1 in *. eapply wp_mono, wp_deleteDeployment; [|done].
  intros h2 ? Hp2 (o2 & [err|] & -> & Hn2 & Hg2); [by eexists _, _|].
  pose proof (nfs_name_eq _ _ Hn2) as Hm2. specialize (Hg2 eq_refl). rewrite <- Hm2 in *.
  apply wp_seq. eapply wp_mono, wp_deleteBackendPVC; [|by eapply gone_mono|done].
  intros h3 ? Hp3 (o3 & [err|] & -> & Hn3 & Hg3); [by eexists _, _|].
  apply wp_ret. eexists _, _. split; [done|]. intros _. repeat split.
  - eapply gone_mono, gone_mono; done.
  - by eapply gone_mono.
  - by apply Hg3.
Qed.
End Delete.
