(* ===== verification/NFSCreateFacts.v ===== *)
(** * Creating an NFS server: theorems for arbitrary responses of the server *)

From S2P Require Import Prelude GoStrings K8sTypes MetaHelper Hook Prog KubeAPI HookExecute.
From S2P Require Import HookFacts History Env VolumeConfig NodeAffinity NFSServer Provisioner NFSObjects.
From S2P Require Import NFSDeleteFacts.
From S2P Require ServiceBuilder PVCBuilder.

Section Create.
Context {C : CoreTypes} {P : PatchLib} {Y : MayaConfig} {M : MayaEnv}.

(** The object is [base] up to the annotations and finalizers hooks add. *)
Definition is_base (k : kind) (o base : obj_of k) : Prop :=
  same_object (object_of k base) (object_of k o).

(** The discipline of a creation for the options [opts] in namespace [ns]:
    besides reading, and patching (the hook on the backend volume), it creates
    only the three objects of the server, each after the server said it was
    absent; the service comes last, when the claim is bound and the deployment
    exists.  It never deletes. *)
Definition create_discipline (p : Provisioner) (opts : KernelNFSServerOptions)
    (h : list ev) (r : req) : Prop :=
  let ns := serverNamespace p in
  let n := nfs_name opts in
  reads_patches r = true \/
  match r with
  | RCreate KPVC ns' o =>
      ns' = ns /\ seen_absent h KPVC ns n /\
      exists q, ParseQuantity (capacity opts) = Ok q /\ is_base KPVC o (backend_pvc p opts q)
  | RCreate KDeployment ns' o =>
      ns' = ns /\ seen_absent h KDeployment ns n /\ present h KPVC ns n /\
      is_base KDeployment o (server_deployment p (set_backendPvcName n opts))
  | RCreate KService ns' o =>
      ns' = ns /\ seen_absent h KService ns n /\ present h KPVC ns n /\
      present h KDeployment ns n /\ seen_bound h ns n /\
      is_base KService o
        (nfs_service p (set_deploymentName n (set_backendPvcName n opts)))
  | _ => False
  end.

(** What a step returns: on success the object is there and its name is in the
    options; the step panics only on [panics]. *)
Definition create_step (ns n : string) (k : kind) (opts done_opts : KernelNFSServerOptions)
    (panics : Prop) (h : list ev) (o : outcome (KernelNFSServerOptions * error)) : Prop :=
  match o with
  | Returned (opts', err) =>
      match err with
      | None => opts' = done_opts /\ present h k ns n
      | Some _ => opts' = opts
      end
  | Panicked => panics
  | OutOfFuel => False
  end.

Lemma name_of_base k (o base : obj_of k) : is_base k o base -> name_of k o = name_of k base.
Proof.
  unfold is_base, name_of. destruct k; simpl; intros [Hm _];
    unfold same_meta in Hm; rewrite Hm; reflexivity.
Qed.

(** Running the hook action on an object of the right type. *)
Lemma wp_action_on_create {A} G p (k : kind) (o : obj_of k) x (f : result object -> io A) h Q :
  right_type x (object_of k o) ->
  (forall h, G h RHookEnv) ->
  (forall h' o', h `prefix_of` h' -> is_base k o' o -> wp G (f (Ok (object_of k o'))) h' Q) ->
  wp G (mbind (M := io) f (action_on_create p (object_of k o) x)) h Q.
Proof.
  intros Hx HG Hf. unfold action_on_create.
  assert (Hrefl : is_base k o o) by (unfold is_base; reflexivity).
  destruct (hook_guard (hook p) x EventTypeCreateVolume) as [hk|]; [|by apply Hf].
  unfold run_action. apply wp_seq, wp_call; [by apply HG|]. intros env. apply wp_ret.
  destruct (Action_right_type env hk (object_of k o) x EventTypeCreateVolume Hx) as (obj' & -> & Hs).
  assert (exists o' : obj_of k, obj' = object_of k o') as [o' ->].
  { destruct k, obj'; simpl in Hs; try done; by eexists. }
  apply Hf; [apply prefix_snoc|done].
Qed.

Lemma reads_patches_create p opts h r : reads_patches r = true -> create_discipline p opts h r.
Proof. by left. Qed.
#[local] Hint Resolve reads_patches_create : core.

Lemma wp_createBackendPVC p opts h :
  wp (create_discipline p opts) (createBackendPVC p opts) h
    (create_step (serverNamespace p) (nfs_name opts) KPVC opts
       (set_backendPvcName (nfs_name opts) opts) (is_ok (ParseQuantity (capacity opts)) = false)).
Proof.
  unfold createBackendPVC; cbn [validate]. apply wp_call; [by left|]. intros [a|e].
  { split; [done|]. apply (present_get_now _ KPVC). }
  destruct (IsNotFound e) eqn:He; simpl; [|done].
  rewrite backend_pvc_Build. destruct (ParseQuantity (capacity opts)) as [q|e'] eqn:Hq; [|done].
  apply (wp_action_on_create _ p KPVC); [done|intros; by left|].
  intros h' o' Hp Ho. cbn [object_of]. apply wp_call.
  - right. split; [done|]. split; [|by exists q].
    eapply seen_absent_mono; [exact Hp|]. by apply (seen_absent_now _ KPVC).
  - intros [c|ec]; [|done]. split; [done|]. apply (present_create_now _ KPVC).
    by rewrite (name_of_base KPVC _ _ Ho).
Qed.

Lemma wp_createDeployment p opts h :
  present h KPVC (serverNamespace p) (nfs_name opts) ->
  wp (create_discipline p opts) (createDeployment p (set_backendPvcName (nfs_name opts) opts)) h
    (create_step (serverNamespace p) (nfs_name opts) KDeployment
       (set_backendPvcName (nfs_name opts) opts)
       (set_deploymentName (nfs_name opts) (set_backendPvcName (nfs_name opts) opts)) False).
Proof.
  intros Hpvc. set (opts1 := set_backendPvcName (nfs_name opts) opts).
  unfold createDeployment; cbn [validate]. change (nfs_name opts1) with (nfs_name opts).
  apply wp_call; [by left|]. intros [a|e].
  { split; [done|]. apply (present_get_now _ KDeployment). }
  destruct (IsNotFound e) eqn:He; simpl; [|done].
  pose proof (deployment_Build_spec p opts1) as Hb. change (nfs_name opts1) with (nfs_name opts) in Hb.
  destruct (DeploymentBuilder.Build (deployment_builder p opts1 (nfs_name opts))) as [d|eb]; [|done].
  destruct Hb as (_ & _ & ->).
  apply (wp_action_on_create _ p KDeployment); [done|intros; by left|].
  intros h' o' Hp Ho. cbn [object_of]. apply wp_call.
  - right. split; [done|]. split; [|split; [|done]].
    + eapply seen_absent_mono; [exact Hp|]. by apply (seen_absent_now _ KDeployment).
    + eapply present_mono; [|done]. etrans; [apply prefix_snoc|done].
  - intros [c|ec]; [|done]. split; [done|]. apply (present_create_now _ KDeployment).
    by rewrite (name_of_base KDeployment _ _ Ho).
Qed.

Lemma wp_createService p opts h :
  present h KPVC (serverNamespace p) (nfs_name opts) ->
  present h KDeployment (serverNamespace p) (nfs_name opts) ->
  seen_bound h (serverNamespace p) (nfs_name opts) ->
  let opts2 := set_deploymentName (nfs_name opts) (set_backendPvcName (nfs_name opts) opts) in
  wp (create_discipline p opts) (createService p opts2) h
    (create_step (serverNamespace p) (nfs_name opts) KService opts2
       (set_serviceName (nfs_name opts) opts2) False).
Proof.
  intros Hpvc Hdep Hbound opts2.
  unfold createService; cbn [validate]. change (nfs_name opts2) with (nfs_name opts).
  apply wp_call; [by left|]. intros [a|e].
  { split; [done|]. apply (present_get_now _ KService). }
  destruct (IsNotFound e) eqn:He; simpl; [|done].
  pose proof (service_Build p opts2) as Hb. change (nfs_name opts2) with (nfs_name opts) in Hb.
  rewrite Hb.
  destruct (decide (serverNamespace p = EmptyString)) as [|Hns]; [done|].
  apply (wp_action_on_create _ p KService); [done|intros; by left|].
  intros h' o' Hp Ho. cbn [object_of]. apply wp_call.
  - assert (Hp' : h `prefix_of` h') by (etrans; [apply prefix_snoc|done]).
    right. split; [done|]. split; [|split; [|split; [|split; [|done]]]].
    + eapply seen_absent_mono; [exact Hp|]. by apply (seen_absent_now _ KService).
    + by eapply present_mono.
    + by eapply present_mono.
    + by eapply seen_bound_mono.
  - intros [c|ec]; [|done]. split; [done|]. apply (present_create_now _ KService).
    by rewrite (name_of_base KService _ _ Ho).
Qed.

(** ** The waiting loop *)

(** It returns nil only when it saw the claim bound; it only reads. *)
Lemma wp_waitForPvcBound G fuel ns n h :
  (forall h r, is_read r = true -> G h r) ->
  wp G (waitForPvcBound fuel ns n) h (fun h' o =>
    match o with
    | Returned None => seen_bound h' ns n
    | Returned (Some _) => True
    | Panicked => False
    | OutOfFuel => True
    end).
Proof.
  intros HG. revert h. induction fuel as [|fuel IH]; intros h; [done|].
  cbn [waitForPvcBound]. apply wp_call; [by apply HG|]. intros [].
  - apply wp_call; [by apply HG|]. intros [o|e]; [|done].
    case_decide as Hb; [|apply IH]. by apply seen_bound_now.
  - done.
Qed.

(** What the whole creation guarantees. *)
Definition create_post (p : Provisioner) (opts : KernelNFSServerOptions) (h : list ev)
    (o : outcome (KernelNFSServerOptions * error)) : Prop :=
  let ns := serverNamespace p in
  let n := nfs_name opts in
  match o with
  | Returned (opts', None) =>
      present h KPVC ns n /\ present h KDeployment ns n /\ present h KService ns n /\
      seen_bound h ns n /\
      opts' = set_serviceName n (set_deploymentName n (set_backendPvcName n opts))
  | Returned (_, Some _) => True
  | Panicked => is_ok (ParseQuantity (capacity opts)) = false
  | OutOfFuel => True
  end.

Lemma wp_createNFSServer fuel p opts h :
  wp (create_discipline p opts) (createNFSServer fuel p opts) h (create_post p opts).
Proof.
  unfold createNFSServer. apply wp_seq. eapply wp_mono, wp_createBackendPVC.
  intros h1 [[o1 [err|]]| |] Hp1; cbn beta iota delta [create_step]; [done| |done|done]. intros [-> Hpvc].
  apply wp_seq. eapply wp_mono, wp_createDeployment; [|done].
  intros h2 [[o2 [err|]]| |] Hp2; cbn beta iota delta [create_step]; [done| |done|done]. intros [-> Hdep].
  apply wp_seq. eapply wp_mono, wp_waitForPvcBound; [|intros; left; by unfold reads_patches; apply orb_true_iff; left].
  intros h3 [[err|]| |] Hp3; cbn beta iota delta [create_step]; [done| |done|done]. intros Hbound.
  apply wp_hook_then; [intros; apply wp_ExecuteHookOnBackendPV; auto|].
  intros h4 [err|] Hp4; [done|].
  assert (Hp : h1 `prefix_of` h4) by (etrans; [exact Hp2|etrans; [exact Hp3|done]]).
  assert (Hp' : h2 `prefix_of` h4) by (etrans; [exact Hp3|done]).
  apply wp_seq. eapply wp_mono, wp_createService;
    [|exact (present_mono _ _ _ _ _ Hp Hpvc)|exact (present_mono _ _ _ _ _ Hp' Hdep)
     |exact (seen_bound_mono _ _ _ _ Hp4 Hbound)].
  intros h5 [[o5 [err|]]| |] Hp5; cbn beta iota delta [create_step]; [done| |done|done]. intros [-> Hsvc].
  split; [|split; [|split; [done|split; [|done]]]].
  - exact (present_mono _ _ _ _ _ Hp5 (present_mono _ _ _ _ _ Hp Hpvc)).
  - exact (present_mono _ _ _ _ _ Hp5 (present_mono _ _ _ _ _ Hp' Hdep)).
  - exact (seen_bound_mono _ _ _ _ Hp5 (seen_bound_mono _ _ _ _ Hp4 Hbound)).
Qed.

(** ** Every object at most once *)

(** The kinds that were created, in order, and those that were reported absent
    under the name of the server. *)
Definition created_of (e : ev) : option kind :=
  match ev_req e with
  | RCreate k _ _ => Some k
  | _ => None
  end.

Definition missing_of (ns n : string) (e : ev) : option kind :=
  match ev_req e as r return resp r -> option kind with
  | RGet k ns' n' => fun x =>
      if bool_decide (ns' = ns /\ n' = n) && api_not_found x then Some k else None
  | _ => fun _ => None
  end (ev_resp e).

Definition created (h : list ev) : list kind := omap created_of h.
Definition missing (ns n : string) (h : list ev) : list kind := omap (missing_of ns n) h.

(** What is created before an object of a kind. *)
Definition before (k : kind) : list kind :=
  match k with
  | KPVC => []
  | KDeployment => [KPVC]
  | KService => [KPVC; KDeployment]
  | KPV => []
  end.

Definition once (h : list ev) (r : req) : Prop :=
  match r with
  | RCreate k _ _ => k <> KPV /\ created h `sublist_of` before k
  | _ => True
  end.

Lemma created_snoc h e : created (h ++ [e]) = created h ++ from_option (fun k => [k]) [] (created_of e).
Proof. unfold created. rewrite omap_app. cbn. by destruct (created_of e). Qed.

Lemma missing_snoc ns n h e :
  missing ns n (h ++ [e]) = missing ns n h ++ from_option (fun k => [k]) [] (missing_of ns n e).
Proof. unfold missing. rewrite omap_app. cbn. by destruct (missing_of ns n e). Qed.

Lemma obeys_once t : obeys once t -> created t `sublist_of` [KPVC; KDeployment; KService].
Proof.
  induction t as [|e t IH] using rev_ind; intros Ho; [apply sublist_nil_l|].
  assert (Ht : obeys once t).
  { intros t1 e' t2 ->. apply (Ho t1 e' (t2 ++ [e])). by rewrite <- app_assoc. }
  specialize (Ho t e [] eq_refl). rewrite created_snoc. unfold created_of.
  destruct (ev_req e) as [|k ? ?| | | | | | | | | | | | |]; cbn [from_option]; rewrite ?app_nil_r; auto.
  destruct Ho as [Hk Hs]. apply (sublist_app _ _ [k] [k]) in Hs; [|done].
  etrans; [exact Hs|]. destruct k; cbn; try done; by repeat constructor.
Qed.

(** Before the step that creates a kind: what was missing has been created. *)
Definition accounted (ns n : string) (kinds : list kind) (h : list ev) : Prop :=
  created h = missing ns n h /\ created h `sublist_of` kinds.

(** After the step, if it succeeded. *)
Definition accounted_after (ns n : string) (kinds : list kind) (h : list ev)
    (o : outcome (KernelNFSServerOptions * error)) : Prop :=
  match o with
  | Returned (opts, None) => nfs_name opts = n /\ accounted ns n kinds h
  | _ => True
  end.

Lemma accounted_same ns n kinds h e :
  created_of e = None -> missing_of ns n e = None -> accounted ns n kinds h -> accounted ns n kinds (h ++ [e]).
Proof.
  intros Hc Hm [He Hs]. unfold accounted. rewrite created_snoc, missing_snoc, Hc, Hm. cbn.
  by rewrite !app_nil_r.
Qed.

Lemma accounted_more ns n kinds kinds' h :
  kinds `sublist_of` kinds' -> accounted ns n kinds h -> accounted ns n kinds' h.
Proof. intros Hk [He Hs]. split; [done|]. by etrans. Qed.

(** The object was reported absent and has been created. *)
Lemma accounted_created ns n k ns' o h (x : api (obj_of k)) hg hk :
  accounted ns n (before k) hg ->
  missing ns n hk = missing ns n hg ++ [k] -> created hk = created hg -> h = hk ++ [Event (RCreate k ns' o) x] ->
  accounted ns n (before k ++ [k]) h.
Proof.
  intros [He Hs] Hm Hc ->. unfold accounted. rewrite created_snoc, missing_snoc, Hm, Hc. cbn.
  rewrite app_nil_r, He. split; [done|]. rewrite <- He. by apply sublist_app.
Qed.

(** A step: look for the object, build and hook it, create it. *)
Lemma wp_once_step k ns n (f : api (obj_of k) -> io (KernelNFSServerOptions * error)) h :
  k <> KPV -> accounted ns n (before k) h ->
  (forall o, exists r, f (ApiOk o) = PRet r /\ nfs_name r.1 = n) ->
  (forall e G h' Q, IsNotFound e = false ->
     (forall r err, Q h' (Returned (r, Some err))) -> wp G (f (ApiErr e)) h' Q) ->
  (forall e hk, IsNotFound e = true ->
     missing ns n hk = missing ns n h ++ [k] -> created hk = created h ->
     wp once (f (ApiErr e)) hk (accounted_after ns n (before k ++ [k]))) ->
  wp once (mbind (M := io) f (kget k ns n)) h (accounted_after ns n (before k ++ [k])).
Proof.
  intros Hk Ha Hok Herr Hnew. apply wp_call; [done|]. intros [o|e].
  - destruct (Hok o) as ([a err] & -> & Hn). cbn. destruct err; [done|]. split; [exact Hn|].
    eapply accounted_more; [by apply sublist_inserts_r|]. apply accounted_same; [done| |done].
    cbn. by rewrite andb_false_r.
  - destruct (IsNotFound e) eqn:He; [|by apply Herr].
    apply Hnew; [done| |].
    + rewrite missing_snoc. cbn. by rewrite bool_decide_eq_true_2, He.
    + rewrite created_snoc. cbn. by rewrite app_nil_r.
Qed.

(** Running the hook action changes neither list. *)
Lemma wp_once_action {A} ns n p obj x (f : result object -> io A) h Q :
  (forall r h', missing ns n h' = missing ns n h -> created h' = created h -> wp once (f r) h' Q) ->
  wp once (mbind (M := io) f (action_on_create p obj x)) h Q.
Proof.
  intros Hf. unfold action_on_create.
  destruct (hook_guard (hook p) x EventTypeCreateVolume) as [hk|]; [|by apply Hf].
  unfold run_action. apply wp_seq, wp_call; [done|]. intros env. apply wp_ret, Hf.
  - rewrite missing_snoc. cbn. by rewrite app_nil_r.
  - rewrite created_snoc. cbn. by rewrite app_nil_r.
Qed.

(** The creation itself, after which the step ends. *)
Lemma wp_once_create k ns n o (f : api (obj_of k) -> io (KernelNFSServerOptions * error)) hg hk :
  k <> KPV -> accounted ns n (before k) hg ->
  missing ns n hk = missing ns n hg ++ [k] -> created hk = created hg ->
  (forall x, exists r, f x = PRet r /\ nfs_name r.1 = n) ->
  wp once (mbind (M := io) f (kcreate k ns o)) hk (accounted_after ns n (before k ++ [k])).
Proof.
  intros Hk Ha Hm Hc Hf. apply wp_call; [split; [done|]; rewrite Hc; apply Ha|].
  intros x. destruct (Hf x) as ([a err] & -> & Hn). cbn. destruct err; [done|]. split; [exact Hn|].
  by eapply accounted_created.
Qed.

(** A function of that shape, for the kind [k], from [Ha]. *)
Ltac once_step k Ha :=
  apply (wp_once_step k); [done|exact Ha|by intros ?; eexists (_, _)| |];
  [ intros ? ? ? ? He HQ; rewrite He; by apply HQ
  | intros ? ? He Hm Hc; rewrite He; cbn [negb];
    match goal with |- wp _ (match ?b with _ => _ end) _ _ => destruct b end; [|done];
    eapply wp_once_action; intros [[]|] ? Hm' Hc'; try done;
    eapply (wp_once_create k); [done|exact Ha|by rewrite Hm'|by rewrite Hc'|intros []; by eexists (_, _)] ].

Lemma once_createBackendPVC p opts h :
  accounted (serverNamespace p) (nfs_name opts) [] h ->
  wp once (createBackendPVC p opts) h (accounted_after (serverNamespace p) (nfs_name opts) [KPVC]).
Proof. intros Ha. unfold createBackendPVC; cbn [validate]. once_step KPVC Ha. Qed.

Lemma once_createDeployment p opts h :
  accounted (serverNamespace p) (nfs_name opts) [KPVC] h ->
  wp once (createDeployment p opts) h
    (accounted_after (serverNamespace p) (nfs_name opts) [KPVC; KDeployment]).
Proof. intros Ha. unfold createDeployment; cbn [validate]. once_step KDeployment Ha. Qed.

Lemma once_createService p opts h :
  accounted (serverNamespace p) (nfs_name opts) [KPVC; KDeployment] h ->
  wp once (createService p opts) h
    (accounted_after (serverNamespace p) (nfs_name opts) [KPVC; KDeployment; KService]).
Proof. intros Ha. unfold createService; cbn [validate]. once_step KService Ha. Qed.

(** Waiting and the hook create nothing, and fail when something is missing. *)
Lemma once_waitForPvcBound fuel ns n kinds h :
  accounted ns n kinds h ->
  wp once (waitForPvcBound fuel ns n) h (fun h' o => o = Returned None -> accounted ns n kinds h').
Proof.
  revert h. induction fuel as [|fuel IH]; intros h Ha; [done|]. cbn [waitForPvcBound].
  apply wp_call; [done|]. intros []; [|done].
  apply wp_call; [done|]. intros [o|e]; [|done].
  assert (Ha' : accounted ns n kinds ((h ++ [Event RSelectTick true]) ++ [Event (RGet KPVC ns n) (ApiOk o)])).
  { apply accounted_same; [done|cbn; by rewrite andb_false_r|]. by apply accounted_same. }
  case_decide; [intros _; exact Ha'|by apply IH].
Qed.

Lemma once_ExecuteHookOnBackendPV hk ns n et kinds h :
  accounted ns n kinds h ->
  wp once (ExecuteHookOnBackendPV hk ns n et) h (fun h' o => o = Returned None -> accounted ns n kinds h').
Proof.
  intros Ha. unfold ExecuteHookOnBackendPV. apply wp_call; [done|]. intros [c|e]; [|done].
  apply wp_call; [done|]. intros [v|e]; [|done].
  unfold run_action. apply wp_seq, wp_call; [done|]. intros env. apply wp_ret.
  case_match; [|done]. case_match; [|done]. case_match.
  apply wp_call; [done|]. intros x _.
  repeat (apply accounted_same; [done|cbn; by rewrite ?andb_false_r|]). done.
Qed.

Lemma once_createNFSServer fuel p opts :
  wp once (createNFSServer fuel p opts) []
    (accounted_after (serverNamespace p) (nfs_name opts) [KPVC; KDeployment; KService]).
Proof.
  unfold createNFSServer. apply wp_seq. eapply wp_mono, once_createBackendPVC; [|by split].
  intros h1 [[o1 [err|]]| |] _; cbn beta iota delta [accounted_after]; [done| |done|done]. intros [Hn1 H1].
  rewrite <- Hn1 in *. apply wp_seq. eapply wp_mono, once_createDeployment; [|exact H1].
  intros h2 [[o2 [err|]]| |] _; cbn beta iota delta [accounted_after]; [done| |done|done]. intros [Hn2 H2].
  rewrite <- Hn2 in *. apply wp_seq. eapply wp_mono, once_waitForPvcBound; [|exact H2].
  intros h3 [[err|]| |] _ H3; [done| |done|done]. specialize (H3 eq_refl).
  unfold execute_guarded. apply wp_seq.
  apply (wp_mono _ _ _ (fun h' o => o = Returned None ->
    accounted (serverNamespace p) (nfs_name o2) [KPVC; KDeployment] h')).
  - intros h4 [[err|]| |] _ H4; [done| |done|done]. apply wp_seq.
    eapply wp_mono, once_createService; [|exact (H4 eq_refl)].
    by intros h5 [[o5 [err|]]| |] _.
  - destruct (hook_guard _ _ _); [by apply once_ExecuteHookOnBackendPV|by intros _].
Qed.
End Create.
