(* ===== verification/ProvisionerFacts.v ===== *)
(** * Provision and Delete: theorems for arbitrary responses of the server *)

From S2P Require Import Prelude GoStrings K8sTypes MetaHelper Hook Prog KubeAPI HookExecute.
From S2P Require Import HookFacts History Env VolumeConfig NodeAffinity NFSServer Provisioner NFSObjects.
From S2P Require Import NFSDeleteFacts NFSCreateFacts.
From S2P Require PVBuilder.

Section ProvisionerFacts.
Context {C : CoreTypes} {P : PatchLib} {Y : MayaConfig} {M : MayaEnv} {N : ProvisionerLib}.
Context (fuel : nat).

(** ** The address of the server *)

Definition dns_address (p : Provisioner) (n : string) : string :=
  n +:+ "." +:+ serverNamespace p +:+ ".svc.cluster.local".

(** The server was created, or found, completely. *)
Definition server_up (p : Provisioner) (sopts : KernelNFSServerOptions) (h : list ev) : Prop :=
  let ns := serverNamespace p in
  let n := nfs_name sopts in
  present h KPVC ns n /\ present h KDeployment ns n /\ present h KService ns n /\ seen_bound h ns n.

(** The address is the DNS name of the service, or the cluster IP that the
    server reported. *)
Definition address_ok (p : Provisioner) (sopts : KernelNFSServerOptions) (addr : string)
    (h : list ev) : Prop :=
  if useClusterIP p
  then exists s : Service,
         (Event (RGet KService (serverNamespace p) (nfs_name sopts)) (ApiOk s) : ev) ∈ h /\
         addr = svc_ClusterIP (svc_spec s)
  else addr = dns_address p (nfs_name sopts).

Definition address_post (p : Provisioner) (sopts : KernelNFSServerOptions) (h : list ev)
    (o : outcome (KernelNFSServerOptions * result string)) : Prop :=
  match o with
  | Returned (_, Ok addr) => server_up p sopts h /\ address_ok p sopts addr h
  | Returned (_, Err _) => True
  | Panicked => is_ok (ParseQuantity (capacity sopts)) = false
  | OutOfFuel => True
  end.

Lemma server_up_mono p sopts h h' : h `prefix_of` h' -> server_up p sopts h -> server_up p sopts h'.
Proof.
  intros Hp (H1 & H2 & H3 & H4).
  split; [by eapply present_mono|]. split; [by eapply present_mono|].
  split; [by eapply present_mono|by eapply seen_bound_mono].
Qed.

Lemma wp_getNFSServerAddress p sopts h :
  wp (create_discipline p sopts) (getNFSServerAddress fuel p sopts) h (address_post p sopts).
Proof.
  unfold getNFSServerAddress. apply wp_seq. eapply wp_mono, wp_createNFSServer.
  intros h1 [[o1 [err|]]| |] Hp1; cbn beta iota delta [create_post]; [done| |done|done].
  intros (Hpvc & Hdep & Hsvc & Hbound & ->).
  assert (Hup : server_up p sopts h1) by done.
  destruct (useClusterIP p) eqn:Hip.
  - apply wp_call; [by left|]. intros [s|e]; [|done]. split.
    + eapply server_up_mono; [apply prefix_snoc|done].
    + unfold address_ok. rewrite Hip. exists s. split; [apply elem_snoc|done].
  - apply wp_ret. split; [done|]. unfold address_ok. by rewrite Hip.
Qed.

(** ** ProvisionKernalNFSServer *)

(** A volume that was provisioned: some configuration of the claim gave options
    whose server is up, and the volume points at it. *)
Definition provisioned (p : Provisioner) (opts : ProvisionOptions) (pv : PersistentVolume)
    (h : list ev) : Prop :=
  exists vc sopts rp addr, server_options p opts vc = Ok sopts /\ server_up p sopts h /\
    address_ok p sopts addr h /\ sc_ReclaimPolicy (po_StorageClass opts) = Some rp /\
    is_base KPV pv (nfs_pv opts rp addr).

Definition may_panic (opts : ProvisionOptions) : Prop :=
  is_ok (ParseQuantity (quantity_String (storage_request (pvc_Requests (pvc_spec (po_PVC opts)))))) = false
  \/ sc_ReclaimPolicy (po_StorageClass opts) = None.

Definition kernel_post (p : Provisioner) (opts : ProvisionOptions) (h : list ev)
    (o : outcome (result PersistentVolume)) : Prop :=
  match o with
  | Returned (Ok pv) => provisioned p opts pv h
  | Returned (Err _) => True
  | Panicked => may_panic opts
  | OutOfFuel => True
  end.

(** What [Provision] may ask of the API server. *)
Definition provision_requests (p : Provisioner) (opts : ProvisionOptions) (h : list ev) (r : req) : Prop :=
  reads_patches r = true \/
  exists vc sopts, server_options p opts vc = Ok sopts /\ create_discipline p sopts h r.

Lemma server_options_capacity p opts vc sopts :
  server_options p opts vc = Ok sopts ->
  pvName sopts = po_PVName opts /\
  capacity sopts = quantity_String (storage_request (pvc_Requests (pvc_spec (po_PVC opts)))).
Proof.
  unfold server_options. intros Hs.
  apply result_bind_Ok in Hs as (a & _ & Hs). apply result_bind_Ok in Hs as (b & _ & Hs).
  apply result_bind_Ok in Hs as (c & _ & Hs). apply result_bind_Ok in Hs as (d & _ & Hs).
  injection Hs as <-. done.
Qed.

Lemma wp_ProvisionKernalNFSServer p opts vc h :
  wp (provision_requests p opts) (ProvisionKernalNFSServer fuel p opts vc) h (kernel_post p opts).
Proof.
  unfold ProvisionKernalNFSServer.
  destruct (server_options p opts vc) as [sopts|e] eqn:Hs; [|done].
  apply wp_seq. eapply wp_mono, wp_weaken, wp_getNFSServerAddress;
    [|by intros h' r _ Hr; right; exists vc, sopts].
  intros h1 [[o1 [addr|err]]| |] Hp1; cbn beta iota delta [address_post]; [|done| |done].
  2:{ intros Hc. left. by rewrite <- (proj2 (server_options_capacity _ _ _ _ Hs)). }
  intros [Hup Haddr]. destruct (sc_ReclaimPolicy (po_StorageClass opts)) as [rp|] eqn:Hrp; [|by right].
  pose proof (nfs_pv_Build_spec opts rp addr) as Hb.
  destruct (PVBuilder.Build (nfs_pv_builder opts rp addr)) as [pv|err]; [subst pv|done].
  apply (wp_action_on_create _ p KPV); [by right|intros; by left|].
  intros h' o' Hp Ho. cbn [object_of]. apply wp_ret.
  exists vc, sopts, rp, addr. split; [done|]. split; [by eapply server_up_mono|]. split; [|done].
  unfold address_ok in *. destruct (useClusterIP p); [|done].
  destruct Haddr as (s & Hin & ->). exists s. split; [by eapply prefix_elem|done].
Qed.

(** ** Provision *)

(** The request is one of the body: the API requests above and the counters. *)
Definition body_requests (p : Provisioner) (opts : ProvisionOptions) (h : list ev) (r : req) : Prop :=
  provision_requests p opts h r \/ is_telemetry r = true.

Definition body_post (p : Provisioner) (opts : ProvisionOptions) (h : list ev)
    (o : outcome (result PersistentVolume * ProvisioningState)) : Prop :=
  match o with
  | Returned (Ok pv, st) => st = ProvisioningFinished /\ provisioned p opts pv h
  | Returned (Err _, st) => st = ProvisioningNoChange
  | Panicked => may_panic opts \/ GetStorageClassNameFromPVC (po_PVC opts) = None
  | OutOfFuel => True
  end.

Lemma reads_body p opts h r : is_read r = true -> body_requests p opts h r.
Proof. intros Hr. left. left. unfold reads_patches. by rewrite Hr. Qed.

Lemma wp_GetVolumeConfig G cfg n pvc h :
  (forall h r, is_read r = true -> G h r) ->
  wp G (GetVolumeConfig cfg n pvc) h (fun _ o =>
    match o with
    | Returned _ => True
    | Panicked => GetStorageClassNameFromPVC pvc = None
    | OutOfFuel => False
    end).
Proof.
  intros HG. unfold GetVolumeConfig.
  destruct (merge_annotation _ _ _) as [c|]; [|done].
  destruct (GetStorageClassNameFromPVC pvc) as [sc|]; [|done].
  apply wp_call; [by apply HG|]. intros [s|e]; [|done].
  destruct (merge_annotation _ _ _) as [c'|]; [|done].
  by destruct (ConfigToMap c').
Qed.

Lemma wp_validateNodeAffinityRules G p h :
  (forall h r, is_read r = true -> G h r) -> wp G (validateNodeAffinityRules p) h returns.
Proof.
  intros HG. unfold validateNodeAffinityRules. case_decide; [by eexists|].
  destruct (NodeSelectorRequirementsAsSelector (nodeAffinity p)); [|by eexists].
  apply wp_call; [by apply HG|]. intros [l|e]; [|by eexists]. case_decide; by eexists.
Qed.

Lemma wp_sendEventOrIgnore G c v q ty m h :
  (forall h r, is_telemetry r = true -> G h r) -> wp G (sendEventOrIgnore c v q ty m) h returns.
Proof.
  intros HG. unfold sendEventOrIgnore. destruct (negb _); [by eexists|].
  apply wp_call; [by apply HG|]. intros []. by eexists.
Qed.

Lemma wp_provision_body cfg p opts h :
  getVolumeConfig p = GetVolumeConfig cfg ->
  wp (body_requests p opts) (provision_body fuel p opts) h (body_post p opts).
Proof.
  intros Hcfg. unfold provision_body. rewrite Hcfg. apply wp_seq.
  eapply wp_mono, wp_GetVolumeConfig; [|apply reads_body].
  intros h1 [[vc|err]| |] Hp1; [intros _|by intros _|by right|done].
  apply wp_seq. eapply wp_mono, wp_validateNodeAffinityRules; [|apply reads_body].
  intros h2 ? Hp2 [[err|] ->]; [done|]. apply wp_seq.
  eapply wp_mono, wp_sendEventOrIgnore; [|by right]. intros h2' ? _ [[] ->].
  destruct (decide (GetNFSServerTypeFromConfig vc = "kernel")); [|done].
  apply wp_seq. eapply wp_mono, wp_weaken, wp_ProvisionKernalNFSServer; [|by left].
  intros h3 [[pv|err]| |] Hp3; cbn beta iota delta [kernel_post].
  - intros (vc' & sopts & rp & addr & Hs & Hup & Ha & Hrp & Hb).
    apply wp_call; [by right|]. intros []. split; [done|].
    exists vc', sopts, rp, addr. split; [done|]. split; [eapply server_up_mono; [apply prefix_snoc|done]|].
    split; [|done]. unfold address_ok in *. destruct (useClusterIP p); [|done].
    destruct Ha as (s & Hin & ->). exists s. split; [|done]. eapply prefix_elem; [apply prefix_snoc|done].
  - intros _. apply wp_call; [by right|]. by intros [].
  - by left.
  - done.
Qed.

Lemma body_requests_not_track p opts h r : body_requests p opts h r -> is_track r = false.
Proof.
  assert (Hrp : forall r, reads_patches r = true -> is_track r = false) by (by intros []).
  intros [[Hr|(vc & sopts & _ & [Hr|Hr])]|Hr]; [by apply Hrp|by apply Hrp| |]; by destruct r.
Qed.

(** The bracket: with the tracker marked before and cleared after, every write
    of the body happens while the name is marked. *)
Definition bracketed (name : string) (G : list ev -> req -> Prop) (h : list ev) (r : req) : Prop :=
  (is_write r = true -> tracked name h = true) /\
  (G h r \/ r = RTrackAdd name \/ r = RTrackDelete name).

Lemma wp_bracket {A} name (G : list ev -> req -> Prop) (body : io A) h (Q : list ev -> outcome A -> Prop) :
  (forall h r, G h r -> is_track r = false) ->
  (forall h o r x, Q h o -> is_track r = true -> Q (h ++ [Event r x]) o) ->
  wp G body (h ++ [Event (RTrackAdd name) tt]) Q ->
  wp (bracketed name G) (track_add name;; defer (track_delete name) body) h
    (fun h' o => Q h' o /\ (o <> OutOfFuel -> tracked name h' = false)).
Proof.
  intros HG HQ Hbody. apply wp_call; [split; [done|by right; left]|]. intros [].
  apply (wp_defer (Resp := resp)).
  eapply wp_mono, wp_weaken, (wp_invariant _ (fun h => tracked name h = true)), Hbody.
  - intros h' o _ [Ht HQo].
    destruct o as [a| |]; [| |done];
      (split; [split; [done|by right; right]|]);
      intros []; (split; [by apply HQ|]); intros _;
      rewrite tracked_snoc; by rewrite decide_True.
  - intros h' r _ [Ht Hr]. split; [done|by left].
  - intros h' r x Ht Hr. rewrite tracked_other; [done|by eapply HG].
  - rewrite tracked_snoc. by rewrite decide_True.
Qed.

Lemma provisioned_snoc p opts pv h r x :
  provisioned p opts pv h -> provisioned p opts pv (h ++ [Event r x]).
Proof.
  intros (vc' & sopts & rp & addr & Hs & Hup & Ha & Hrp & Hb).
  exists vc', sopts, rp, addr. split; [done|]. split; [eapply server_up_mono; [apply prefix_snoc|done]|].
  split; [|done]. unfold address_ok in *. destruct (useClusterIP p); [|done].
  destruct Ha as (s & Hin & ->). exists s. split; [|done]. eapply prefix_elem; [apply prefix_snoc|done].
Qed.

Lemma wp_Provision cfg p opts h :
  getVolumeConfig p = GetVolumeConfig cfg ->
  wp (bracketed (po_PVName opts) (body_requests p opts)) (Provision fuel p opts) h
    (fun h' o => body_post p opts h' o /\ (o <> OutOfFuel -> tracked (po_PVName opts) h' = false)).
Proof.
  intros Hcfg. unfold Provision. apply wp_bracket.
  - apply body_requests_not_track.
  - intros h' [[[pv|err] st]| |] r x; simpl; try done.
    intros [-> Hp] _. split; [done|]. by apply provisioned_snoc.
  - by eapply wp_provision_body.
Qed.

(** ** Delete *)

Definition delete_requests (p : Provisioner) (n : string) (h : list ev) (r : req) : Prop :=
  delete_discipline (serverNamespace p) n h r \/ is_telemetry r = true.

Definition nfs_of (pv : PersistentVolume) : string := "nfs-" +:+ Name (pv_meta pv).

(** Success of [Delete] means the volume is retained, or everything is gone. *)
Definition delete_volume_post (p : Provisioner) (pv : PersistentVolume) (h : list ev)
    (o : outcome error) : Prop :=
  exists err, o = Returned err /\
    (err = None -> pv_ReclaimPolicy (pv_spec pv) = PersistentVolumeReclaimRetain \/
                   all_gone h (serverNamespace p) (nfs_of pv)).

Lemma all_gone_mono h h' ns n : h `prefix_of` h' -> all_gone h ns n -> all_gone h' ns n.
Proof.
  intros Hp (H1 & H2 & H3). split; [by eapply gone_mono|]. split; by eapply gone_mono.
Qed.

Lemma wp_delete_body p pv h :
  wp (delete_requests p (nfs_of pv)) (delete_body p pv) h (delete_volume_post p pv).
Proof.
  unfold delete_body.
  destruct (decide (pv_ReclaimPolicy (pv_spec pv) <> PersistentVolumeReclaimRetain)) as [Hr|Hr].
  2:{ exists None. split; [done|]. intros _. left. by apply dec_stable. }
  rewrite decide_True by done. apply wp_seq.
  eapply wp_mono, wp_sendEventOrIgnore; [|by right]. intros h0 ? _ [[] ->]. apply wp_seq.
  apply (wp_mono _ _ _ (fun h' o => exists err, o = Returned err /\
    (err = None -> all_gone h' (serverNamespace p) (nfs_of pv)))).
  - intros h1 ? Hp1 ([err|] & -> & Hg).
    + apply wp_call; [by right|]. intros []. by eexists.
    + apply wp_call; [by right|]. intros []. exists None. split; [done|].
      intros _. right. eapply all_gone_mono; [apply prefix_snoc|by apply Hg].
  - apply wp_seq. unfold DeleteKernalNFSServer. apply wp_seq.
    eapply wp_mono, wp_weaken, (wp_deleteNFSServer p (delete_opts (Name (pv_meta pv)))); [|by left].
    intros h1 ? Hp1 (o1 & err & -> & Hg). apply wp_ret. destruct err as [err|]; [by eexists|].
    simpl. eapply wp_mono, wp_execute_guarded.
    + intros h2 ? Hp2 [err ->]. exists err. split; [done|]. intros _.
      eapply all_gone_mono; [done|by apply Hg].
    + intros hk h2. apply wp_ExecuteHookOnNFSPV. intros. left. by left.
Qed.

Lemma delete_requests_not_track p n h r : delete_requests p n h r -> is_track r = false.
Proof. intros [[Hr|Hr]|Hr]; by destruct r. Qed.

Lemma wp_Delete p pv h :
  wp (bracketed (Name (pv_meta pv)) (delete_requests p (nfs_of pv))) (Delete p pv) h
    (fun h' o => delete_volume_post p pv h' o /\
                 (o <> OutOfFuel -> tracked (Name (pv_meta pv)) h' = false)).
Proof.
  unfold Delete. apply wp_bracket.
  - apply delete_requests_not_track.
  - intros h' o r x (err & -> & Hg) _. exists err. split; [done|]. intros He.
    destruct (Hg He) as [|Hall]; [by left|right]. eapply all_gone_mono; [apply prefix_snoc|done].
  - apply wp_seq. eapply wp_mono, wp_delete_body. intros h1 ? Hp1 (err & -> & Hg).
    apply wp_ret. exists (Wrapf err (msg_delete_volume (Name (pv_meta pv)))).
    split; [done|]. intros He%Wrapf_None. by apply Hg.
Qed.
End ProvisionerFacts.
