(* ===== verification/GCFacts.v ===== *)
(** * The garbage collector: theorems for arbitrary responses of the server *)

From S2P Require Import Prelude GoStrings K8sTypes MetaHelper Hook Prog KubeAPI HookExecute.
From S2P Require Import History Env VolumeConfig NodeAffinity NFSServer NFSDeleteFacts GarbageCollector.

Section GCFacts.
Context {C : CoreTypes} {P : PatchLib} {Y : MayaConfig} {M : MayaEnv}.

Definition pvc_label (pvc : PersistentVolumeClaim) (k : string) : option string :=
  gomap_lookup (Labels (pvc_meta pvc)) k.

(** The claim the backend claim was created for is gone: it was not found, or
    another claim has its name. *)
Definition owner_gone (h : list ev) (pvc : PersistentVolumeClaim) : Prop :=
  exists name ns uid,
    pvc_label pvc nfsPvcNameLabelKey = Some name /\ pvc_label pvc nfsPvcNsLabelKey = Some ns /\
    pvc_label pvc nfsPvcUIDLabelKey = Some uid /\
    (seen_absent h KPVC ns name \/
     exists o : PersistentVolumeClaim,
       (Event (RGet KPVC ns name) (ApiOk o) : ev) ∈ h /\ UID (pvc_meta o) <> uid).

Definition gc_pv (pvc : PersistentVolumeClaim) : string := nfs_pv_name (Name (pvc_meta pvc)).

(** The evidence the collector needs before it deletes anything of a claim. *)
Definition stale (h : list ev) (pvc : PersistentVolumeClaim) : Prop :=
  owner_gone h pvc /\ gc_pv pvc <> EmptyString /\
  (Event (RTrackInprogress (gc_pv pvc)) false : ev) ∈ h /\
  seen_absent h KPV EmptyString (gc_pv pvc).

(** The discipline of a run in namespace [ns]: reads, and deletions for a claim
    that the run listed and found stale, in the order of [delete_discipline]. *)
Definition gc_discipline (ns : string) (h : list ev) (r : req) : Prop :=
  is_read r = true \/
  exists pvcs pvc,
    (Event (RListPVC ns (CASTypeKey +:+ "=" +:+ "nfs-kernel")) (ApiOk pvcs) : ev) ∈ h /\
    pvc ∈ pvcs /\ stale h pvc /\
    (exists k n, r = RDelete k (Namespace (pvc_meta pvc)) n) /\
    delete_discipline (Namespace (pvc_meta pvc)) ("nfs-" +:+ gc_pv pvc) h r.

Lemma owner_gone_mono h h' pvc : h `prefix_of` h' -> owner_gone h pvc -> owner_gone h' pvc.
Proof.
  intros Hp (name & ns & uid & Hn & Hs & Hu & Hg). exists name, ns, uid.
  split; [done|]. split; [done|]. split; [done|].
  destruct Hg as [Ha|(o & Ho & Hne)]; [left; by eapply seen_absent_mono|].
  right. exists o. split; [by eapply prefix_elem|done].
Qed.

Lemma stale_mono h h' pvc : h `prefix_of` h' -> stale h pvc -> stale h' pvc.
Proof.
  intros Hp (Ho & Hne & Ht & Ha). split; [by eapply owner_gone_mono|]. split; [done|].
  split; [by eapply prefix_elem|by eapply seen_absent_mono].
Qed.

Lemma wp_nfsPvcExists G pvc h :
  (forall h r, is_read r = true -> G h r) ->
  wp G (nfsPvcExists pvc) h (fun h' o =>
    exists r, o = Returned r /\ (r = Ok false -> owner_gone h' pvc)).
Proof.
  intros HG. unfold nfsPvcExists.
  destruct (gomap_lookup _ nfsPvcNameLabelKey) as [name|] eqn:Hn; [|by eexists].
  destruct (gomap_lookup _ nfsPvcNsLabelKey) as [ns|] eqn:Hs; [|by eexists].
  destruct (gomap_lookup _ nfsPvcUIDLabelKey) as [uid|] eqn:Hu; [|by eexists].
  apply wp_call; [by apply HG|]. intros [o|e].
  - case_decide as Hd; [|by eexists]. eexists. split; [done|]. intros _.
    exists name, ns, uid. split; [done|]. split; [done|]. split; [done|]. right. exists o.
    split; [apply elem_snoc|]. by intros Heq.
  - destruct (IsNotFound e) eqn:He; [|by eexists]. eexists. split; [done|]. intros _.
    exists name, ns, uid. split; [done|]. split; [done|]. split; [done|]. left.
    by apply (seen_absent_now _ KPVC).
Qed.

Lemma wp_pvExists G n h :
  (forall h r, is_read r = true -> G h r) ->
  wp G (pvExists n) h (fun h' o =>
    exists r, o = Returned r /\ (r = Ok false -> seen_absent h' KPV EmptyString n)).
Proof.
  intros HG. unfold pvExists. apply wp_call; [by apply HG|]. intros [o|e]; [by eexists|].
  destruct (IsNotFound e) eqn:He; eexists; (split; [done|]); [|done].
  intros _. by apply (seen_absent_now _ KPV).
Qed.

(** Without hooks a deletion only reads and deletes. *)
Definition reads_deletes (h : list ev) (r : req) : Prop :=
  is_read r = true \/ exists k ns n, r = RDelete k ns n.

Lemma wp_delete_no_hook p opts h :
  hook p = None -> wp reads_deletes (deleteNFSServer p opts) h (fun _ _ => True).
Proof.
  intros Hh. unfold deleteNFSServer, deleteService, deleteDeployment, deleteBackendPVC,
    execute_guarded; cbn [validate]. rewrite Hh; cbn [hook_guard].
  assert (Hd : forall h k ns n, reads_deletes h (RDelete k ns n)) by (right; by eexists _, _, _).
  repeat first
    [ done
    | apply wp_call; [first [by left|by apply Hd]|intros ?]
    | apply wp_seq
    | apply wp_ret; cbn beta iota
    | match goal with |- wp _ (match ?x with _ => _ end) _ _ => destruct x end
    | match goal with |- wp _ (let '(_, _) := ?x in _) _ _ => destruct x end ].
Qed.

Lemma wp_deleteBackendStaleResources ns pvcs pvc h :
  (Event (RListPVC ns (CASTypeKey +:+ "=" +:+ "nfs-kernel")) (ApiOk pvcs) : ev) ∈ h ->
  pvc ∈ pvcs -> stale h pvc ->
  wp (gc_discipline ns) (deleteBackendStaleResources (Namespace (pvc_meta pvc)) (gc_pv pvc)) h returns.
Proof.
  intros Hl Hin Hst. unfold deleteBackendStaleResources. apply wp_seq.
  set (p := gc_provisioner _). set (o := delete_opts (gc_pv pvc)).
  eapply wp_mono, wp_weaken, (wp_and _ _ _ _ _ _ (wp_deleteNFSServer p o h) (wp_delete_no_hook p o h eq_refl)).
  - intros h' ? _ [Hpost _]. destruct Hpost as (o' & err & -> & _). by eexists.
  - intros h' r Hp [Hd [Hr|Hr]]; [by left|right]. exists pvcs, pvc.
    split; [by eapply prefix_elem|]. split; [done|]. split; [by eapply stale_mono|].
    split; [|exact Hd]. destruct Hr as (k & ns' & n & ->). exists k, n. f_equal.
    destruct Hd as [Hd|Hd]; [done|]. destruct k; by (destruct Hd as [-> _] || destruct Hd).
Qed.

Lemma gc_reads ns h r : is_read r = true -> gc_discipline ns h r.
Proof. by left. Qed.

Lemma wp_cleanup_one ns pvcs pvc h :
  (Event (RListPVC ns (CASTypeKey +:+ "=" +:+ "nfs-kernel")) (ApiOk pvcs) : ev) ∈ h ->
  pvc ∈ pvcs -> wp (gc_discipline ns) (cleanup_one pvc) h returns.
Proof.
  intros Hl Hin. unfold cleanup_one. apply wp_seq.
  eapply wp_mono, wp_nfsPvcExists; [|apply gc_reads].
  intros h1 ? Hp1 ([[]|e] & -> & Hg); [by eexists| |by eexists].
  change (nfs_pv_name (Name (pvc_meta pvc))) with (gc_pv pvc).
  case_decide as Hne; [by eexists|].
  apply wp_call; [by apply gc_reads|]. intros [|]; [by eexists|].
  apply wp_seq. eapply wp_mono, wp_pvExists; [|apply gc_reads].
  intros h2 ? Hp2 ([[]|e] & -> & Ha); [by eexists| |by eexists].
  apply wp_seq. eapply wp_mono, (wp_deleteBackendStaleResources ns pvcs); [|..|done|].
  - intros h3 ? _ [err ->]. by eexists.
  - eapply prefix_elem; [exact Hp2|]. rewrite elem_of_app. left. by eapply prefix_elem.
  - split; [|split; [done|split; [|by apply Ha]]].
    + eapply owner_gone_mono; [exact Hp2|]. eapply owner_gone_mono; [apply prefix_snoc|by apply Hg].
    + eapply prefix_elem; [exact Hp2|]. apply elem_snoc.
Qed.

Lemma wp_cleanUpStalePvc ns h : wp (gc_discipline ns) (cleanUpStalePvc ns) h returns.
Proof.
  unfold cleanUpStalePvc. apply wp_call; [by left|]. intros [pvcs|e]; [|by eexists].
  apply wp_seq. set (h0 := h ++ _).
  assert (Hl : (Event (RListPVC ns (CASTypeKey +:+ "=" +:+ "nfs-kernel")) (ApiOk pvcs) : ev) ∈ h0)
    by apply elem_snoc. clearbody h0.
  assert (Hsub : forall l h1, (forall x, x ∈ l -> x ∈ pvcs) -> h0 `prefix_of` h1 ->
    wp (gc_discipline ns) (cleanup_all l) h1 returns).
  { induction l as [|pvc l IH]; intros h1 Hs Hp; [by eexists|]. cbn [cleanup_all].
    apply wp_seq. eapply wp_mono, (wp_cleanup_one ns pvcs); [|by eapply prefix_elem|set_solver].
    intros h2 ? Hp2 [u ->]. apply IH; [set_solver|by etrans]. }
  eapply wp_mono, Hsub; [|done|done]. intros h2 ? _ [u ->]. by eexists.
Qed.

(** ** The name of the volume *)

Lemma scan_token_plain s :
  (forall c, ContainsRune s c = true -> forall u, strip_any space_encodings (String c u) = None) ->
  scan_token s = s.
Proof.
  induction s as [|c s IH]; intros Hs; [done|]. cbn [scan_token].
  rewrite decide_False.
  - f_equal. apply IH. intros d Hd. apply Hs. simpl. rewrite Hd. apply orb_true_r.
  - rewrite Hs; [by intros [? ?]|]. simpl. by rewrite bool_decide_eq_true_2.
Qed.
End GCFacts.
