(* ===== verification/MetricsFacts.v ===== *)
(** * What the counters count

    Every handler that ends has incremented at most one counter, and which one
    says how it ended. *)

From S2P Require Import Prelude GoStrings K8sTypes MetaHelper Hook Metrics Prog KubeAPI HookExecute.
From S2P Require Import History Env VolumeConfig NodeAffinity NFSServer Provisioner NFSObjects.
From S2P Require Import NFSDeleteFacts NFSCreateFacts ProvisionerFacts.

Section MetricsFacts.
Context {C : CoreTypes} {P : PatchLib} {Y : MayaConfig} {M : MayaEnv} {N : ProvisionerLib}.

(** The requests of one kind in a history. *)
Definition only (f : req -> bool) (h : list ev) : list ev := filter (fun e => f (ev_req e) = true) h.

Definition is_inc (r : req) : bool := match r with RInc _ _ => true | _ => false end.

(** One increment of the counter, with this value of its label. *)
Definition counted (c : CounterVec) (process : string) : list ev := [Event (RInc c process) tt].

Lemma only_app f h1 h2 : only f (h1 ++ h2) = only f h1 ++ only f h2.
Proof. apply filter_app. Qed.

Lemma only_other f h r x : f r = false -> only f (h ++ [Event r x]) = only f h.
Proof.
  intros Hf. rewrite only_app. unfold only at 2. rewrite filter_cons_False, filter_nil, app_nil_r; [done|].
  cbn [ev_req]. by rewrite Hf.
Qed.

Lemma only_inc h c l x : only is_inc (h ++ [Event (RInc c l) x]) = only is_inc h ++ counted c l.
Proof. rewrite only_app. by destruct x. Qed.

Abbreviation any := (fun (_ : list ev) (_ : req) => True).

(** A program that never makes a request of the kind leaves them as they were. *)
Lemma wp_only {A} f G (p : io A) h Q :
  (forall h r, G h r -> f r = false) -> wp G p h Q ->
  wp any p h (fun h' o => only f h' = only f h /\ Q h' o).
Proof.
  intros HG Hw. eapply wp_weaken; [done|].
  apply (wp_invariant G (fun h' => only f h' = only f h)); [|done|done].
  intros h' r x Hh Hr. rewrite only_other; [done|by eapply HG].
Qed.

(** What changes an object or a counter. *)
Definition changes (r : req) : bool := is_write r || is_inc r.

Lemma only_weaken f g h : (forall r, f r = true -> g r = true) -> only g h = [] -> only f h = [].
Proof.
  intros Hfg Hg. destruct (only f h) as [|e l] eqn:Hf; [done|].
  assert (He : e ∈ only f h) by (rewrite Hf; left).
  apply list_elem_of_filter in He as [He Hin].
  by destruct (filter_nil_not_elem_of _ _ e Hg (Hfg _ He)).
Qed.

Lemma changes_inc h : only changes h = [] -> only is_inc h = [].
Proof. apply only_weaken. intros r Hr. unfold changes. by rewrite Hr, orb_true_r. Qed.

Lemma read_changes r : is_read r = true -> changes r = false.
Proof. by destruct r. Qed.

Lemma provision_requests_not_inc p opts h r : provision_requests p opts h r -> is_inc r = false.
Proof. intros [Hr|(vc & sopts & _ & [Hr|Hr])]; by destruct r. Qed.

Lemma delete_discipline_not_inc ns n h r : delete_discipline ns n h r -> is_inc r = false.
Proof. intros [Hr|Hr]; by destruct r. Qed.

(** Programs that only read, or only send events. *)
Lemma wp_reads {A} (p : io A) h Q :
  wp (fun _ r => is_read r = true) p h Q ->
  wp any p h (fun h' o => only changes h' = only changes h /\ Q h' o).
Proof. apply wp_only. intros _ r. apply read_changes. Qed.

Lemma wp_sends c v q ty m h :
  wp any (sendEventOrIgnore c v q ty m) h (fun h' o => only changes h' = only changes h /\ returns h' o).
Proof.
  apply (wp_only changes (fun _ r => is_telemetry r && negb (is_inc r) = true)).
  - by intros _ [].
  - unfold sendEventOrIgnore. destruct (negb _); [by eexists|]. apply wp_call; [done|].
    intros []. by eexists.
Qed.

(** The engine of a provisioning event is the server's type, which is never
    empty here: the default is not used. *)
Lemma engine_default_unreachable ty : GetEngineName ("nfs-" +:+ ty) VolumeProvision = "nfs-" +:+ ty.
Proof. unfold GetEngineName. by rewrite andb_false_r. Qed.

(** ** Provision *)

Definition provision_counts (h : list ev) (o : outcome (result PersistentVolume * ProvisioningState))
  : Prop :=
  match o with
  | Returned (Ok _, _) => only is_inc h = counted PersistentVolumeCreateTotal ProvisionerRequestCreate
  | Returned (Err _, _) =>
      only is_inc h = counted PersistentVolumeCreateFailedTotal ProvisionerRequestCreate \/
      only changes h = []
  | Panicked | OutOfFuel => only is_inc h = []
  end.

Lemma wp_provision_counts fuel cfg p opts h :
  getVolumeConfig p = GetVolumeConfig cfg -> only changes h = [] ->
  wp any (provision_body fuel p opts) h provision_counts.
Proof.
  intros Hcfg Hh. unfold provision_body. rewrite Hcfg. apply wp_seq.
  eapply wp_mono, wp_reads, wp_GetVolumeConfig; [|done].
  intros h1 [[vc|err]| |] _; rewrite Hh; intros [H1 _]; [|by right|by apply changes_inc..].
  apply wp_seq. eapply wp_mono, wp_reads, wp_validateNodeAffinityRules; [|done].
  intros h2 ? _ (H2 & [err|] & ->); rewrite H1 in H2; [by right|].
  apply wp_seq. eapply wp_mono, wp_sends. intros h3 ? _ (H3 & [] & ->). rewrite H2 in H3.
  case_decide; [|by right]. apply wp_seq.
  eapply wp_mono, (wp_only is_inc), wp_ProvisionKernalNFSServer;
    [|intros h' r; apply provision_requests_not_inc].
  intros h4 [[pv|err]| |] _ [H4 _]; rewrite (changes_inc h3 H3) in H4; [| |done..].
  - apply wp_call; [done|]. intros x. apply wp_ret. unfold provision_counts. by rewrite only_inc, H4.
  - apply wp_call; [done|]. intros x. apply wp_ret. left. by rewrite only_inc, H4.
Qed.

(** The tracker's requests do not count. *)
Lemma provision_counts_track n x h o :
  provision_counts h o -> provision_counts (h ++ [Event (RTrackDelete n) x]) o.
Proof.
  unfold provision_counts. destruct o as [[[pv|err] st]| |]; by rewrite ?only_other.
Qed.

Lemma wp_tracked {A} n (body : io A) (Q : list ev -> outcome A -> Prop) :
  (forall h x o, Q h o -> Q (h ++ [Event (RTrackDelete n) x]) o) ->
  wp any body [Event (RTrackAdd n) tt] Q ->
  wp any (track_add n;; defer (track_delete n) body) [] Q.
Proof.
  intros HQ Hw. apply wp_call; [done|]. intros []. apply (wp_defer (Resp := resp)).
  eapply wp_mono, Hw. intros h [a| |] _ Ho; [| |done]; (split; [done|]); intros x; by apply HQ.
Qed.

(** ** Delete *)

Definition delete_counts (pv : PersistentVolume) (h : list ev) (o : outcome error) : Prop :=
  match o with
  | Returned None =>
      only is_inc h = (if decide (pv_ReclaimPolicy (pv_spec pv) = PersistentVolumeReclaimRetain)
                       then [] else counted PersistentVolumeDeleteTotal ProvisionerRequestDelete)
  | Returned (Some _) =>
      only is_inc h = counted PersistentVolumeDeleteFailedTotal ProvisionerRequestDelete
  | Panicked | OutOfFuel => False
  end.

Lemma wp_delete_counts p pv h :
  only changes h = [] -> wp any (delete_body p pv) h (delete_counts pv).
Proof.
  intros Hh. unfold delete_body.
  destruct (decide (pv_ReclaimPolicy (pv_spec pv) = PersistentVolumeReclaimRetain)) as [Hr|Hr].
  { rewrite decide_False by auto. unfold delete_counts. cbn. rewrite decide_True by done.
    by apply changes_inc. }
  rewrite !decide_True by done. apply wp_seq. eapply wp_mono, wp_sends.
  intros h1 ? _ (H1 & [] & ->). rewrite Hh in H1. apply changes_inc in H1. apply wp_seq.
  eapply wp_mono, (wp_only is_inc (delete_discipline (serverNamespace p) (nfs_of pv)) _ _ returns);
    [|intros h' r; apply delete_discipline_not_inc|].
  - intros h2 ? _ (H2 & [err|] & ->); rewrite H1 in H2; apply wp_call; try done;
      intros x; apply wp_ret; unfold delete_counts; rewrite only_inc, H2; [done|].
    by rewrite decide_False.
  - apply wp_seq. unfold DeleteKernalNFSServer. apply wp_seq.
    eapply wp_mono, (wp_deleteNFSServer p (delete_opts (Name (pv_meta pv)))).
    intros h2 ? _ (o & err & -> & _). apply wp_ret. destruct err as [err|]; [by eexists|].
    apply wp_execute_guarded. intros hk h3. apply wp_ExecuteHookOnNFSPV. intros. by left.
Qed.

(** C13: a run of [Provision] that ends incremented the counter of created
    volumes if and only if it returned one; of its failures it counted one,
    except those that came before anything was changed.  A run of [Delete]
    counted one deletion, or one failure, as it returned, and nothing for a
    retained volume. *)
Theorem handlers_counted fuel cfg p opts pv :
  getVolumeConfig p = GetVolumeConfig cfg ->
  (forall t o, exec (Provision fuel p opts) t (Some o) -> provision_counts t o) /\
  (forall t o, exec (Provisioner.Delete p pv) t (Some o) -> delete_counts pv t o).
Proof.
  intros Hcfg. split; intros t o He.
  - refine (proj2 (wp_run any _ provision_counts t _ _ He) o eq_refl).
    apply wp_tracked; [intros; by apply provision_counts_track|]. by eapply wp_provision_counts.
  - refine (proj2 (wp_run any _ (delete_counts pv) t _ _ He) o eq_refl).
    apply wp_tracked.
    + intros h x o' Ho. unfold delete_counts in *. destruct o' as [[err|]| |];
        by rewrite ?only_other.
    + apply wp_seq. eapply wp_mono, wp_delete_counts; [|done].
      intros h [[err|]| |] _ Ho; [exact Ho|exact Ho|done..].
Qed.
End MetricsFacts.
