(* ===== verification/Cluster.v ===== *)
(** * A cluster in memory

    A concrete server for [run]: an object store per kind, the node list, the
    tracker, and the ticks left before a [select] sees its other channel.  It
    is a specification of an API server that never fails, against which the
    functional theorems on complete handlers are stated. *)

From S2P Require Import Prelude K8sTypes MetaHelper Hook Prog KubeAPI.
From S2P Require Import History Tracker.

Section Cluster.
Context {C : CoreTypes}.

Record cluster := mkCluster {
  c_pvc : gmap (string * string) PersistentVolumeClaim;
  c_pv : gmap (string * string) PersistentVolume;
  c_svc : gmap (string * string) Service;
  c_dep : gmap (string * string) Deployment;
  c_sc : gmap string StorageClass;
  c_nodes : list string;
  c_tracker : provisioningTracker;
  (** claims are bound when they are created *)
  c_bind : bool;
  (** ticks before the timer of [waitForPvcBound] fires *)
  c_ticks : nat;
  (** ticks before the context of the garbage collector is done *)
  c_gc_ticks : nat;
}.

Definition store_of (k : kind) (s : cluster) : gmap (string * string) (obj_of k) :=
  match k with
  | KPVC => c_pvc s
  | KPV => c_pv s
  | KService => c_svc s
  | KDeployment => c_dep s
  end.

Definition set_store (k : kind) : gmap (string * string) (obj_of k) -> cluster -> cluster :=
  match k with
  | KPVC => fun m s => mkCluster m (c_pv s) (c_svc s) (c_dep s) (c_sc s) (c_nodes s)
                         (c_tracker s) (c_bind s) (c_ticks s) (c_gc_ticks s)
  | KPV => fun m s => mkCluster (c_pvc s) m (c_svc s) (c_dep s) (c_sc s) (c_nodes s)
                        (c_tracker s) (c_bind s) (c_ticks s) (c_gc_ticks s)
  | KService => fun m s => mkCluster (c_pvc s) (c_pv s) m (c_dep s) (c_sc s) (c_nodes s)
                             (c_tracker s) (c_bind s) (c_ticks s) (c_gc_ticks s)
  | KDeployment => fun m s => mkCluster (c_pvc s) (c_pv s) (c_svc s) m (c_sc s) (c_nodes s)
                                (c_tracker s) (c_bind s) (c_ticks s) (c_gc_ticks s)
  end.

Definition set_tracker (t : provisioningTracker) (s : cluster) : cluster :=
  mkCluster (c_pvc s) (c_pv s) (c_svc s) (c_dep s) (c_sc s) (c_nodes s) t (c_bind s)
    (c_ticks s) (c_gc_ticks s).
Definition set_ticks (n : nat) (s : cluster) : cluster :=
  mkCluster (c_pvc s) (c_pv s) (c_svc s) (c_dep s) (c_sc s) (c_nodes s) (c_tracker s) (c_bind s)
    n (c_gc_ticks s).
Definition set_gc_ticks (n : nat) (s : cluster) : cluster :=
  mkCluster (c_pvc s) (c_pv s) (c_svc s) (c_dep s) (c_sc s) (c_nodes s) (c_tracker s) (c_bind s)
    (c_ticks s) n.

(** What the server stores for a created object: a binding cluster binds
    claims to the volume named like them. *)
Definition stored_object (s : cluster) (k : kind) : obj_of k -> obj_of k :=
  match k with
  | KPVC => fun o =>
      if c_bind s
      then mkPVC _ (pvc_meta o)
             (mkPVCSpec _ (pvc_StorageClassName (pvc_spec o)) (pvc_AccessModes (pvc_spec o))
                (pvc_Requests (pvc_spec o)) (pvc_VolumeMode (pvc_spec o))
                ("pvc-" +:+ Name (pvc_meta o))) ClaimBound
      else o
  | _ => fun o => o
  end.

Definition matches_selector (sel : string) (m : ObjectMeta) : bool :=
  existsb (fun kv => bool_decide (kv.1 +:+ "=" +:+ kv.2 = sel))
    (map_to_list (gomap_get (Labels m))).

Definition list_pvcs (s : cluster) (ns sel : string) : list PersistentVolumeClaim :=
  map snd (filter (fun kv : (string * string) * PersistentVolumeClaim =>
             kv.1.1 = ns /\ matches_selector sel (pvc_meta kv.2) = true) (map_to_list (c_pvc s))).

Definition get_response {A} (m : gmap (string * string) A) (key : string * string) : api A :=
  match m !! key with Some o => ApiOk o | None => ApiErr APINotFound end.

Definition serve (s : cluster) (r : req) : cluster * resp r :=
  match r with
  | RGet k ns n => (s, get_response (store_of k s) (ns, n))
  | RCreate k ns o =>
      let key := (ns, name_of k o) in
      match store_of k s !! key with
      | Some _ => (s, ApiErr (APIOther "already exists"))
      | None =>
          let o' := stored_object s k o in
          (set_store k (<[key := o']> (store_of k s)) s, ApiOk o')
      end
  | RDelete k ns n =>
      match store_of k s !! (ns, n) with
      | Some _ => (set_store k (delete (ns, n) (store_of k s)) s, None)
      | None => (s, Some APINotFound)
      end
  | RPatch k ns n _ => (s, get_response (store_of k s) (ns, n))
  | RListPVC ns sel => (s, ApiOk (list_pvcs s ns sel))
  | RGetStorageClass n =>
      (s, match c_sc s !! n with Some o => ApiOk o | None => ApiErr APINotFound end)
  | RListNodes _ => (s, Ok (c_nodes s))
  | RTrackAdd n => (set_tracker (Add (c_tracker s) n) s, tt)
  | RTrackDelete n => (set_tracker (Delete (c_tracker s) n) s, tt)
  | RTrackInprogress n => (s, Inprogress (c_tracker s) n)
  | RSelectTick =>
      match c_ticks s with O => (s, false) | S n => (set_ticks n s, true) end
  | RSelectDone =>
      match c_gc_ticks s with O => (s, false) | S n => (set_gc_ticks n s, true) end
  | RHookEnv => (s, mkActionEnv 0 (fun _ _ => "2022-01-01T00:00:00Z"))
  | RInc _ _ | RSend _ => (s, tt)
  end.

(** ** Runs against the cluster *)

(** The final state and the outcome, without the trace. *)
Definition exec_on {A} (p : io A) (s : cluster) : cluster * outcome A :=
  let '(s', _, o) := run serve p s in (s', o).

Lemma exec_on_ret {A} (a : A) s : exec_on (PRet a) s = (s, Returned a).
Proof. done. Qed.

Lemma exec_on_call {A} r (f : resp r -> io A) s :
  exec_on (mbind (M := io) f (call r)) s = exec_on (f (serve s r).2) (serve s r).1.
Proof.
  unfold exec_on. simpl. destruct (serve s r) as [s1 x]. simpl.
  by destruct (run serve (f x) s1) as [[s2 t] o].
Qed.

Lemma exec_on_bind {A B} (f : A -> io B) (p : io A) s :
  exec_on (mbind (M := io) f p) s =
  match exec_on p s with
  | (s', Returned a) => exec_on (f a) s'
  | (s', Panicked) => (s', Panicked)
  | (s', OutOfFuel) => (s', OutOfFuel)
  end.
Proof.
  unfold exec_on. revert s. induction p as [a| | |r k IH]; intros s; simpl; [done..|].
  destruct (serve s r) as [s1 x]. specialize (IH x s1). simpl in IH.
  unfold mbind, io_MBind, prog_MBind in *.
  destruct (run serve (prog_bind f (k x)) s1) as [[s2 t2] o2].
  destruct (run serve (k x) s1) as [[s3 t3] o3]. done.
Qed.

Lemma store_set_eq k m s : store_of k (set_store k m s) = m.
Proof. by destruct k. Qed.

Lemma store_set_ne k k' m s : k <> k' -> store_of k' (set_store k m s) = store_of k' s.
Proof. by destruct k, k'. Qed.

Lemma store_set_id k s : set_store k (store_of k s) s = s.
Proof. by destruct k, s. Qed.

(** Deleting one object, present or not. *)
Definition cluster_delete (k : kind) (ns n : string) (s : cluster) : cluster :=
  set_store k (delete (ns, n) (store_of k s)) s.

Lemma serve_delete k ns n s :
  (serve s (RDelete k ns n)).1 = cluster_delete k ns n s.
Proof.
  unfold cluster_delete. cbn [serve]. destruct (store_of k s !! (ns, n)) eqn:He; cbn [fst]; [done|].
  by rewrite delete_id, store_set_id.
Qed.

Lemma exec_on_kget {A} k ns n (f : api (obj_of k) -> io A) s :
  exec_on (mbind (M := io) f (kget k ns n)) s = exec_on (f (get_response (store_of k s) (ns, n))) s.
Proof. apply (exec_on_call (RGet k ns n)). Qed.

Definition delete_response (k : kind) (ns n : string) (s : cluster) : option apierr :=
  match store_of k s !! (ns, n) with Some _ => None | None => Some APINotFound end.

Lemma exec_on_kdelete {A} k ns n (f : option apierr -> io A) s :
  exec_on (mbind (M := io) f (kdelete k ns n)) s =
  exec_on (f (delete_response k ns n s)) (cluster_delete k ns n s).
Proof.
  etrans; [apply (exec_on_call (RDelete k ns n))|]. rewrite serve_delete. cbn [serve].
  unfold delete_response. by destruct (store_of k s !! (ns, n)).
Qed.

Definition cluster_create (k : kind) (ns : string) (o : obj_of k) (s : cluster) : cluster :=
  set_store k (<[(ns, name_of k o) := stored_object s k o]> (store_of k s)) s.

Lemma exec_on_kcreate {A} k ns o (f : api (obj_of k) -> io A) s :
  store_of k s !! (ns, name_of k o) = None ->
  exec_on (mbind (M := io) f (kcreate k ns o)) s =
  exec_on (f (ApiOk (stored_object s k o))) (cluster_create k ns o s).
Proof.
  intros Hn. etrans; [apply (exec_on_call (RCreate k ns o))|]. cbn [serve]. by rewrite Hn.
Qed.

Lemma exec_on_tick {A} (f : bool -> io A) s n :
  c_ticks s = S n ->
  exec_on (mbind (M := io) f (call RSelectTick : io bool)) s = exec_on (f true) (set_ticks n s).
Proof. intros Hn. etrans; [apply (exec_on_call RSelectTick)|]. cbn [serve]. by rewrite Hn. Qed.

Lemma get_response_None {V} (m : gmap (string * string) V) key :
  m !! key = None -> get_response m key = ApiErr APINotFound.
Proof. unfold get_response. by intros ->. Qed.

Lemma get_response_Some {V} (m : gmap (string * string) V) key o :
  m !! key = Some o -> get_response m key = ApiOk o.
Proof. unfold get_response. by intros ->. Qed.

Lemma cluster_delete_absent k ns n s : store_of k s !! (ns, n) = None -> cluster_delete k ns n s = s.
Proof. intros Hn. unfold cluster_delete. by rewrite delete_id, store_set_id. Qed.
End Cluster.
