(* ===== verification/Faults.v ===== *)
(** * An API server that fails, and processes that stop

    The in-memory cluster of [Cluster] never fails.  Here a request may also be
    lost, or be served while its answer is lost ([fstep]), and a run may stop
    after any request ([frun]).  [cwp I p s Q] proves about all these runs that
    [I] holds of the cluster whenever the process stops, and [Q] when the
    program ends. *)

From S2P Require Import Prelude K8sTypes MetaHelper Hook Prog KubeAPI.
From S2P Require Import History Tracker Cluster.

Section Faults.
Context {C : CoreTypes}.
Implicit Types s : cluster.

(** The answers by which the API server says that it failed; not-found is never
    one of them.  Everything inside the process does not fail. *)
Definition api_failure (r : req) : resp r -> Prop :=
  match r return resp r -> Prop with
  | RGet _ _ _ | RCreate _ _ _ | RPatch _ _ _ _ | RListPVC _ _ | RGetStorageClass _ =>
      fun x => exists msg, x = ApiErr (APIOther msg)
  | RDelete _ _ _ => fun x => exists msg, x = Some (APIOther msg)
  | _ => fun _ => False
  end.

Inductive fstep s (r : req) : cluster -> resp r -> Prop :=
| fstep_ok : fstep s r (serve s r).1 (serve s r).2
| fstep_lost x : api_failure r x -> fstep s r s x
| fstep_unacked x : api_failure r x -> fstep s r (serve s r).1 x.

(** [None]: the process stopped. *)
Inductive frun {A} : cluster -> io A -> cluster -> option (outcome A) -> Prop :=
| frun_stop s p : frun s p s None
| frun_ret s a : frun s (PRet a) s (Some (Returned a))
| frun_panic s : frun s PPanic s (Some Panicked)
| frun_fuel s : frun s PFuel s (Some OutOfFuel)
| frun_call s r k s1 x s' o :
    fstep s r s1 x -> frun s1 (k x) s' o -> frun s (PCall r k) s' o.

(** The cluster after the first [m] requests, none of which fails. *)
Fixpoint stopped {A} (m : nat) (p : io A) s : cluster :=
  match m, p with
  | S m, PCall r k => stopped m (k (serve s r).2) (serve s r).1
  | _, _ => s
  end.

Lemma stopped_frun {A} m (p : io A) s : frun s p (stopped m p s) None.
Proof.
  revert p s. induction m as [|m IH]; intros p s; [by destruct p; constructor|].
  destruct p as [a| | |r k]; try constructor. cbn [stopped]. econstructor; [apply fstep_ok|apply IH].
Qed.

Section Cwp.
Context (I : cluster -> Prop).

Fixpoint cwp {A} (p : io A) s (Q : cluster -> outcome A -> Prop) : Prop :=
  I s /\
  match p with
  | PRet a => Q s (Returned a)
  | PPanic => Q s Panicked
  | PFuel => Q s OutOfFuel
  | PCall r k => forall s' x, fstep s r s' x -> cwp (k x) s' Q
  end.

Lemma cwp_inv {A} (p : io A) s Q : cwp p s Q -> I s.
Proof. by destruct p as [a| | |r k]; intros [HI _]. Qed.

Lemma cwp_frun {A} (p : io A) s Q s' o :
  cwp p s Q -> frun s p s' o -> I s' /\ (forall o', o = Some o' -> Q s' o').
Proof.
  intros Hc Hr. revert Hc. induction Hr as [s p|s a|s|s|s r k s1 x s' o Hs Hr IH]; intros Hc.
  - split; [by eapply cwp_inv|done].
  - destruct Hc as [HI HQ]. split; [done|]. by intros o' [= <-].
  - destruct Hc as [HI HQ]. split; [done|]. by intros o' [= <-].
  - destruct Hc as [HI HQ]. split; [done|]. by intros o' [= <-].
  - destruct Hc as [HI HQ]. by apply IH, HQ.
Qed.

Lemma cwp_mono {A} (p : io A) s (Q Q' : cluster -> outcome A -> Prop) :
  (forall s' o, I s' -> Q s' o -> Q' s' o) -> cwp p s Q -> cwp p s Q'.
Proof.
  intros HQ. revert s. induction p as [a| | |r k IH]; intros s [HI Hp];
    (split; [done|]); [by apply HQ..|].
  intros s' x Hs. by apply IH, Hp.
Qed.

Lemma cwp_bind {A B} (f : A -> io B) (p : io A) s (Q : cluster -> outcome B -> Prop) :
  cwp p s (fun s' o =>
    match o with
    | Returned a => cwp (f a) s' Q
    | Panicked => Q s' Panicked
    | OutOfFuel => Q s' OutOfFuel
    end) ->
  cwp (mbind (M := io) f p) s Q.
Proof.
  revert s. induction p as [a| | |r k IH]; intros s [HI Hp]; [done|done|done|].
  split; [done|]. intros s' x Hs. by apply IH, Hp.
Qed.

Lemma cwp_call {A} r (k : resp r -> io A) s Q :
  I s -> (forall s' x, fstep s r s' x -> cwp (k x) s' Q) -> cwp (PCall r k) s Q.
Proof. done. Qed.

Lemma cwp_defer {A} (cleanup : io ()) (p : io A) s (Q : cluster -> outcome A -> Prop) :
  cwp p s (fun s' o =>
    match o with
    | OutOfFuel => Q s' OutOfFuel
    | _ => cwp cleanup s' (fun s'' o' =>
             match o' with
             | Returned _ => Q s'' o
             | Panicked => Q s'' Panicked
             | OutOfFuel => Q s'' OutOfFuel
             end)
    end) ->
  cwp (defer cleanup p) s Q.
Proof.
  revert s. induction p as [a| | |r k IH]; intros s [HI Hp]; cbn [defer].
  - apply (cwp_bind (fun _ => PRet a)). eapply cwp_mono, Hp. intros s' [u| |] HI' HQ; by try split.
  - apply (cwp_bind (fun _ => PPanic)). eapply cwp_mono, Hp. intros s' [u| |] HI' HQ; by try split.
  - by split.
  - split; [done|]. intros s' x Hs. by apply IH, Hp.
Qed.
End Cwp.

(** ** The objects of a cluster

    Two clusters hold the same objects when they differ at most in the tracker,
    which is the process's, and in the ticks of its timers. *)

Record same_objects s s' : Prop := {
  so_store : forall k, store_of k s = store_of k s';
  so_sc : c_sc s = c_sc s';
  so_nodes : c_nodes s = c_nodes s';
  so_bind : c_bind s = c_bind s';
}.

#[export] Instance same_objects_equiv : Equivalence same_objects.
Proof.
  split.
  - by intros s; split.
  - intros s s' [H1 H2 H3 H4]. split; [intros k; by rewrite H1|done..].
  - intros s1 s2 s3 [H1 H2 H3 H4] [G1 G2 G3 G4]. split; [intros k; by rewrite H1|congruence..].
Qed.

Lemma same_objects_tracker t s : same_objects (set_tracker t s) s.
Proof. split; [by intros []|done..]. Qed.

Lemma same_objects_ticks n s : same_objects (set_ticks n s) s.
Proof. split; [by intros []|done..]. Qed.

#[export] Instance set_store_proper k m : Proper (same_objects ==> same_objects) (set_store k m).
Proof.
  intros s s' [H1 H2 H3 H4]. split; [|by destruct k..].
  intros k'. destruct (decide (k = k')) as [<-|Hk]; [by rewrite !store_set_eq|].
  by rewrite !store_set_ne.
Qed.

#[export] Instance cluster_delete_proper k ns n :
  Proper (same_objects ==> same_objects) (cluster_delete k ns n).
Proof. intros s s' Hs. unfold cluster_delete. rewrite (so_store _ _ Hs k). by apply set_store_proper. Qed.

Lemma stored_object_proper s s' k (o : obj_of k) : c_bind s = c_bind s' -> stored_object s k o = stored_object s' k o.
Proof. intros Hb. destruct k; simpl; [by rewrite Hb|done..]. Qed.

#[export] Instance cluster_create_proper k ns o :
  Proper (same_objects ==> same_objects) (cluster_create k ns o).
Proof.
  intros s s' Hs. unfold cluster_create.
  rewrite (so_store _ _ Hs k), (stored_object_proper _ _ k o (so_bind _ _ Hs)).
  by apply set_store_proper.
Qed.

(** Only creations and deletions change an object. *)
Definition mutates (r : req) : bool :=
  match r with RCreate _ _ _ | RDelete _ _ _ => true | _ => false end.

Lemma serve_same_objects s r : mutates r = false -> same_objects (serve s r).1 s.
Proof.
  destruct r; intros Hr; try done; cbn [serve fst].
  all: first [apply same_objects_tracker | destruct (c_ticks s); [done|apply same_objects_ticks]
             | destruct (c_gc_ticks s); [done|split; [by intros []|done..]] | done].
Qed.

Lemma fstep_same_objects s r s' x : mutates r = false -> fstep s r s' x -> same_objects s' s.
Proof. intros Hr [|x' _|x' _]; [by apply serve_same_objects|done|by apply serve_same_objects]. Qed.

(** A deletion removes its object or nothing, and a creation adds it if it is
    absent, or changes nothing. *)
Lemma fstep_delete s k ns n s' x :
  fstep s (RDelete k ns n) s' x -> s' = s \/ s' = cluster_delete k ns n s.
Proof. intros [|x' _|x' _]; [right; apply serve_delete|by left|right; apply serve_delete]. Qed.

Lemma fstep_create s k ns (o : obj_of k) s' x :
  fstep s (RCreate k ns o) s' x ->
  s' = s \/ store_of k s !! (ns, name_of k o) = None /\ s' = cluster_create k ns o s.
Proof.
  assert (Hs : (serve s (RCreate k ns o)).1 = s \/ store_of k s !! (ns, name_of k o) = None /\
                (serve s (RCreate k ns o)).1 = cluster_create k ns o s).
  { cbn [serve]. destruct (store_of k s !! _) eqn:Ho; [by left|by right]. }
  intros [|x' _|x' _]; [done|by left|done].
Qed.

(** An accepted creation left the object there. *)
Lemma fstep_created s k ns (o o' : obj_of k) s' :
  fstep s (RCreate k ns o) s' (ApiOk o') -> is_Some (store_of k s' !! (ns, name_of k o)).
Proof.
  intros Hx. remember (ApiOk o') as x eqn:Ho. destruct Hx as [|x [msg ->]|x [msg ->]]; [|done..].
  revert Ho. cbn [serve]. destruct (store_of k s !! _) as [y|] eqn:Hy; [done|]. intros _. cbn [fst].
  rewrite store_set_eq, lookup_insert, decide_True by done. by eexists.
Qed.

(** An answer that an object is not there, and what it leaves. *)
Lemma fstep_get_absent s k ns n s' e :
  fstep s (RGet k ns n) s' (ApiErr e) -> IsNotFound e = true -> store_of k s' !! (ns, n) = None.
Proof.
  intros Hx He. remember (ApiErr e) as x eqn:Ho.
  destruct Hx as [|x [msg ->]|x [msg ->]]; [|by injection Ho as <-..].
  revert Ho. cbn [serve fst snd]. unfold get_response. by destruct (store_of k s !! (ns, n)).
Qed.

Lemma fstep_delete_absent s k ns n s' (d : option apierr) :
  fstep s (RDelete k ns n) s' d -> match d with None => True | Some e => IsNotFound e = true end ->
  store_of k s' !! (ns, n) = None.
Proof.
  intros [|d' [msg ->]|d' [msg ->]] Hd; [|done..].
  rewrite serve_delete. unfold cluster_delete. by rewrite store_set_eq, lookup_delete_eq.
Qed.

Lemma fstep_get_found s k ns n s' o :
  fstep s (RGet k ns n) s' (ApiOk o) -> s' = s /\ store_of k s !! (ns, n) = Some o.
Proof.
  intros Hx. remember (ApiOk o) as x eqn:Ho. destruct Hx as [|x [msg ->]|x [msg ->]]; [|done..].
  split; [done|]. revert Ho. cbn [serve fst snd]. unfold get_response.
  destruct (store_of k s !! (ns, n)); [by intros [= ->]|done].
Qed.

(** What a history shows gone is gone, while nothing is created. *)
Lemma fstep_gone h e s s' k ns n :
  match ev_req e with RCreate _ _ _ => False | _ => True end ->
  (gone h k ns n -> store_of k s !! (ns, n) = None) ->
  fstep s (ev_req e) s' (ev_resp e) -> gone (h ++ [e]) k ns n -> store_of k s' !! (ns, n) = None.
Proof.
  intros Hc Hg Hx Hgone.
  assert (Hkeep : gone h k ns n -> store_of k s' !! (ns, n) = None).
  { intros Ha%Hg. destruct (mutates (ev_req e)) eqn:Hm.
    - destruct e as [[| |k' ns' n'| | | | | | | | | | | |] x]; try done.
      apply fstep_delete in Hx as [->| ->]; [done|]. unfold cluster_delete.
      destruct (decide (k' = k)) as [->|Hk]; [|by rewrite store_set_ne].
      rewrite store_set_eq. by apply lookup_delete_None; right.
    - by rewrite (so_store _ _ (fstep_same_objects _ _ _ _ Hm Hx) k). }
  destruct Hgone as [(err & Hin & Hn)|(d & Hin & Hd)]; apply elem_of_app in Hin as [Hin|Hin].
  - apply Hkeep. left. by exists err.
  - apply list_elem_of_singleton in Hin. subst e. by eapply fstep_get_absent.
  - apply Hkeep. right. by exists d.
  - apply list_elem_of_singleton in Hin. subst e. by eapply fstep_delete_absent.
Qed.

(** From a proof about all answers: an invariant of the history and the cluster
    that the requests it allows keep. *)
Lemma cwp_of_wp {A} (J : list ev -> cluster -> Prop) (I : cluster -> Prop) G (p : io A) s h
    (Q : list ev -> outcome A -> Prop) :
  (forall h s, J h s -> I s) ->
  (forall h r s s' x, G h r -> J h s -> fstep s r s' x -> J (h ++ [Event r x]) s') ->
  J h s -> wp G p h Q ->
  cwp I p s (fun s' o => exists h', Q h' o).
Proof.
  intros HJ HG. revert s h. induction p as [a| | |r k IH]; intros s h Hs Hp;
    (split; [by eapply HJ|]); [by eexists..|].
  destruct Hp as [Hr Hk]. intros s' x Hx. eapply IH; [by eapply HG|apply Hk].
Qed.

(** A program that changes no object, from a proof that it asks only for what
    does not. *)
Lemma cwp_quiet {A} (I : cluster -> Prop) (p : io A) s h (Q : outcome A -> Prop) :
  (forall s1 s2, same_objects s1 s2 -> I s2 -> I s1) -> I s ->
  wp (fun _ r => mutates r = false) p h (fun _ o => Q o) ->
  cwp I p s (fun s' o => same_objects s' s /\ Q o).
Proof.
  intros HI. revert s h. induction p as [a| | |r k IH]; intros s h Hs Hp; (split; [done|]); [done..|].
  destruct Hp as [Hr Hk]. intros s' x Hx%fstep_same_objects; [|done].
  eapply cwp_mono, IH, Hk; [|by apply (HI _ s)].
  intros s'' o _ [Hs'' HQ]. split; [by etrans|done].
Qed.
End Faults.
