(* ===== verification/ClusterFacts.v ===== *)
(** * Complete handlers against the in-memory cluster *)

From S2P Require Import Prelude GoStrings K8sTypes MetaHelper Hook Prog KubeAPI HookExecute.
From S2P Require Import History Env VolumeConfig NodeAffinity NFSServer Provisioner NFSObjects.
From S2P Require Import GarbageCollector Tracker Cluster.
From S2P Require ServiceBuilder DeploymentBuilder PVCBuilder.

Section ClusterFacts.
Context {C : CoreTypes} {P : PatchLib} {Y : MayaConfig} {M : MayaEnv}.
Implicit Types s : cluster.

(** ** Deleting *)

Section Delete.
Context (p : Provisioner) (Hh : hook p = None).

Lemma exec_on_no_hook x e body s : exec_on (execute_guarded p x e body) s = (s, Returned None).
Proof using Hh. unfold execute_guarded, hook_guard. by rewrite Hh. Qed.

(** A step of the deletion on the cluster. *)
Definition deletes (k : kind) (step : io (KernelNFSServerOptions * error)) (n : string) s : Prop :=
  exists o', exec_on step s = (cluster_delete k (serverNamespace p) n s, Returned (o', None)) /\
             nfs_name o' = n.

Lemma exec_on_delete_tail k n (o : KernelNFSServerOptions) msg s :
  exec_on (d ← kdelete k (serverNamespace p) n;
           match d with
           | Some e => if negb (IsNotFound e) then PRet (o, Wrapf (Some (ErrAPI e)) msg)
                       else PRet (o, None)
           | None => PRet (o, None)
           end) s = (cluster_delete k (serverNamespace p) n s, Returned (o, None)).
Proof.
  rewrite exec_on_kdelete. unfold delete_response.
  by destruct (store_of k s !! (serverNamespace p, n)).
Qed.

Lemma deleteService_cluster o s : deletes KService (deleteService p o) (nfs_name o) s.
Proof using Hh.
  unfold deletes, deleteService; cbn [validate]. rewrite exec_on_kget. unfold get_response. destruct (store_of KService s !! (serverNamespace p, nfs_name o)) as [x|] eqn:Hs.
  - cbn [api_not_found]. rewrite exec_on_bind, exec_on_no_hook, exec_on_delete_tail. by eexists.
  - cbn [api_not_found IsNotFound]. rewrite cluster_delete_absent by done. rewrite exec_on_ret.
    by eexists.
Qed.

Lemma deleteDeployment_cluster o s : deletes KDeployment (deleteDeployment p o) (nfs_name o) s.
Proof using Hh.
  unfold deletes, deleteDeployment; cbn [validate]. rewrite exec_on_kget. unfold get_response. destruct (store_of KDeployment s !! (serverNamespace p, nfs_name o)) as [x|] eqn:Hs.
  - cbn [api_not_found]. rewrite exec_on_bind, exec_on_no_hook, exec_on_delete_tail. by eexists.
  - cbn [api_not_found IsNotFound]. rewrite cluster_delete_absent by done. rewrite exec_on_ret.
    by eexists.
Qed.

Lemma deleteBackendPVC_cluster o s : deletes KPVC (deleteBackendPVC p o) (nfs_name o) s.
Proof using Hh.
  unfold deletes, deleteBackendPVC; cbn [validate]. rewrite exec_on_kget. unfold get_response. destruct (store_of KPVC s !! (serverNamespace p, nfs_name o)) as [x|] eqn:Hs.
  - cbn [api_not_found]. rewrite exec_on_bind, exec_on_no_hook, exec_on_bind, exec_on_no_hook,
      exec_on_delete_tail. by eexists.
  - cbn [api_not_found IsNotFound]. rewrite cluster_delete_absent by done. rewrite exec_on_ret.
    by eexists.
Qed.

(** The three objects of a server, removed. *)
Definition without_server (ns n : string) s : cluster :=
  cluster_delete KPVC ns n (cluster_delete KDeployment ns n (cluster_delete KService ns n s)).

Lemma deleteNFSServer_cluster o s :
  exists o', exec_on (deleteNFSServer p o) s =
    (without_server (serverNamespace p) (nfs_name o) s, Returned (o', None)).
Proof using Hh.
  unfold deleteNFSServer, without_server.
  destruct (deleteService_cluster o s) as (o1 & H1 & Hn1). rewrite exec_on_bind, H1. cbn beta iota.
  destruct (deleteDeployment_cluster o1 (cluster_delete KService (serverNamespace p) (nfs_name o) s))
    as (o2 & H2 & Hn2). rewrite exec_on_bind, H2, Hn1. cbn beta iota.
  match goal with |- context [exec_on (mbind _ (deleteBackendPVC p o2)) ?s2] =>
    destruct (deleteBackendPVC_cluster o2 s2) as (o3 & H3 & Hn3); rewrite exec_on_bind, H3 end.
  cbn beta iota. rewrite Hn2, Hn1. by eexists.
Qed.
End Delete.

(** ** Creating *)

Definition absent (k : kind) (ns n : string) s : Prop := store_of k s !! (ns, n) = None.

(** The objects of a server, added to a cluster that binds claims; one tick of
    the waiting loop passes. *)
Definition with_server (p : Provisioner) (opts : KernelNFSServerOptions) (q : Quantity) s : cluster :=
  let n := nfs_name opts in
  let ns := serverNamespace p in
  cluster_create KService ns (nfs_service p (set_deploymentName n (set_backendPvcName n opts)))
    (set_ticks (pred (c_ticks s))
      (cluster_create KDeployment ns (server_deployment p (set_backendPvcName n opts))
        (cluster_create KPVC ns (backend_pvc p opts q) s))).

Section CreateSteps.
Context (p : Provisioner) (Hh : hook p = None).

Lemma exec_on_no_action obj x s : exec_on (action_on_create p obj x) s = (s, Returned (Ok obj)).
Proof using Hh. unfold action_on_create, hook_guard. by rewrite Hh. Qed.

Lemma createBackendPVC_cluster opts q s :
  ParseQuantity (capacity opts) = Ok q -> absent KPVC (serverNamespace p) (nfs_name opts) s ->
  exec_on (createBackendPVC p opts) s =
    (cluster_create KPVC (serverNamespace p) (backend_pvc p opts q) s,
     Returned (set_backendPvcName (nfs_name opts) opts, None)).
Proof using Hh.
  intros Hq Ha. unfold createBackendPVC; cbn [validate].
  rewrite exec_on_kget, get_response_None by done. cbn [IsNotFound negb].
  rewrite backend_pvc_Build, Hq, exec_on_bind, exec_on_no_action. cbn beta iota.
  by rewrite exec_on_kcreate.
Qed.

Lemma createDeployment_cluster opts s :
  buildable opts -> serverNamespace p <> EmptyString ->
  absent KDeployment (serverNamespace p) (nfs_name opts) s ->
  exec_on (createDeployment p opts) s =
    (cluster_create KDeployment (serverNamespace p) (server_deployment p opts) s,
     Returned (set_deploymentName (nfs_name opts) opts, None)).
Proof using Hh.
  intros Hb Hns Ha. unfold createDeployment; cbn [validate].
  rewrite exec_on_kget, get_response_None by done. cbn [IsNotFound negb].
  rewrite deployment_Build, exec_on_bind, exec_on_no_action by done. cbn beta iota.
  by rewrite exec_on_kcreate.
Qed.

Lemma createService_cluster opts s :
  serverNamespace p <> EmptyString -> absent KService (serverNamespace p) (nfs_name opts) s ->
  exec_on (createService p opts) s =
    (cluster_create KService (serverNamespace p) (nfs_service p opts) s,
     Returned (set_serviceName (nfs_name opts) opts, None)).
Proof using Hh.
  intros Hns Ha. unfold createService; cbn [validate].
  rewrite exec_on_kget, get_response_None by done. cbn [IsNotFound negb].
  rewrite service_Build, decide_False, exec_on_bind, exec_on_no_action by done. cbn beta iota.
  by rewrite exec_on_kcreate.
Qed.

Lemma wait_cluster fuel ns n s o ticks :
  c_ticks s = S ticks -> store_of KPVC s !! (ns, n) = Some o -> pvc_Phase o = ClaimBound ->
  exec_on (waitForPvcBound (S fuel) ns n) s = (set_ticks ticks s, Returned None).
Proof.
  intros Ht Ho Hb. cbn [waitForPvcBound]. erewrite exec_on_tick by done. cbn beta iota.
  etrans; [apply (exec_on_kget KPVC)|]. erewrite get_response_Some by exact Ho. by rewrite decide_True.
Qed.

Lemma createNFSServer_cluster fuel opts q s :
  serverNamespace p <> EmptyString -> getNFSServerImage <> EmptyString ->
  ParseQuantity (capacity opts) = Ok q ->
  c_bind s = true -> c_ticks s <> 0 ->
  (forall k, k <> KPV -> absent k (serverNamespace p) (nfs_name opts) s) ->
  exec_on (createNFSServer (S fuel) p opts) s =
    (with_server p opts q s,
     Returned (set_serviceName (nfs_name opts)
                 (set_deploymentName (nfs_name opts) (set_backendPvcName (nfs_name opts) opts)), None)).
Proof using Hh.
  intros Hns Hi Hq Hb Ht Habs. unfold createNFSServer, with_server.
  set (n := nfs_name opts). set (ns := serverNamespace p).
  rewrite exec_on_bind, (createBackendPVC_cluster _ q) by (done || by apply Habs). cbn beta iota.
  set (s1 := cluster_create KPVC _ _ s).
  rewrite exec_on_bind, createDeployment_cluster; [|done|done|by apply (Habs KDeployment)].
  cbn beta iota. set (s2 := cluster_create KDeployment _ _ s1).
  destruct (c_ticks s) as [|ticks] eqn:Htk; [done|].
  rewrite exec_on_bind.
  rewrite (wait_cluster fuel ns _ s2 (stored_object s KPVC (backend_pvc p opts q)) ticks).
  - cbn beta iota. rewrite exec_on_bind, (exec_on_no_hook p Hh). cbn beta iota.
    rewrite exec_on_bind, createService_cluster; [done|done|by apply (Habs KService)].
  - by destruct s.
  - destruct s; cbn. by rewrite lookup_insert, decide_True.
  - cbn. by rewrite Hb.
Qed.
End CreateSteps.

(** Deleting what was added; the tick of the wait is spent. *)
Lemma without_with_server p opts q s :
  (forall k, k <> KPV -> absent k (serverNamespace p) (nfs_name opts) s) ->
  without_server (serverNamespace p) (nfs_name opts) (with_server p opts q s) =
  set_ticks (pred (c_ticks s)) s.
Proof.
  intros Ha. pose proof (Ha KPVC ltac:(done)) as H1. pose proof (Ha KDeployment ltac:(done)) as H2.
  pose proof (Ha KService ltac:(done)) as H3. unfold absent in *.
  destruct s as [pvcs pvs svcs deps scs nodes tr bind ticks gct].
  unfold without_server, with_server, cluster_create, cluster_delete, set_ticks. simpl in *.
  unfold name_of. simpl. by rewrite !delete_insert_id.
Qed.
End ClusterFacts.
