(* ===== verification/ProvisionCluster.v ===== *)
(** * Provision and Delete, end to end, against the in-memory cluster *)

From S2P Require Import Prelude GoStrings K8sTypes MetaHelper Hook Prog KubeAPI HookExecute.
From S2P Require Import History Env VolumeConfig NodeAffinity NFSServer Provisioner NFSObjects.
From S2P Require Import Tracker Cluster ClusterFacts.

Section ProvisionCluster.
Context {C : CoreTypes} {P : PatchLib} {Y : MayaConfig} {M : MayaEnv} {N : ProvisionerLib}.
Implicit Types s : cluster.

Lemma exec_on_defer {A} (cleanup : io ()) (p : io A) s s' o :
  (forall s', exists s'', exec_on cleanup s' = (s'', Returned tt)) ->
  exec_on p s = (s', o) -> o <> OutOfFuel ->
  exec_on (defer cleanup p) s = ((exec_on cleanup s').1, o).
Proof.
  intros Hc. revert s. induction p as [a| | |r k IH]; intros s He Hf.
  - injection He as <- <-. cbn [defer]. etrans; [apply (exec_on_bind (fun _ => PRet a))|].
    destruct (Hc s) as [s'' ->]. done.
  - injection He as <- <-. cbn [defer]. etrans; [apply (exec_on_bind (fun _ => PPanic))|].
    destruct (Hc s) as [s'' ->]. done.
  - injection He as <- <-. done.
  - cbn [defer]. etrans; [apply (exec_on_call r (fun x => defer cleanup (k x)))|].
    apply IH; [|done]. by rewrite <- (exec_on_call r k).
Qed.

Lemma exec_on_track_delete n s : exec_on (track_delete n) s = (set_tracker (Tracker.Delete (c_tracker s) n) s, Returned tt).
Proof. done. Qed.

(** The tracker calls around a handler. *)
Lemma exec_on_tracked {A} n (p : io A) s s' o :
  exec_on p (set_tracker (Add (c_tracker s) n) s) = (s', o) -> o <> OutOfFuel ->
  exec_on (track_add n;; defer (track_delete n) p) s =
    (set_tracker (Tracker.Delete (c_tracker s') n) s', o).
Proof.
  intros He Hf. etrans; [apply (exec_on_call (RTrackAdd n))|]. cbn [serve fst snd].
  erewrite exec_on_defer; [|by intros s1; eexists; apply exec_on_track_delete|exact He|done].
  by rewrite exec_on_track_delete.
Qed.

Lemma tracker_restored t n : Inprogress t n = false -> Tracker.Delete (Add t n) n = t.
Proof.
  cbn. unfold tracker_Inprogress, tracker_Add, tracker_Delete. intros Hn%bool_decide_eq_false.
  apply set_eq. set_solver.
Qed.

(** ** A cluster and a request for which provisioning succeeds *)

Record ready (p : Provisioner) (opts : ProvisionOptions) (o : KernelNFSServerOptions)
    (q : Quantity) (policy : string) s : Prop := {
  rd_hook : hook p = None;
  rd_config : exists c, GetNFSServerTypeFromConfig c = "kernel" /\ server_options p opts c = Ok o /\
    forall t, exec_on (getVolumeConfig p (po_PVName opts) (po_PVC opts)) (set_tracker t s) =
      (set_tracker t s, Returned (Ok c));
  rd_affinity : forall t, exec_on (validateNodeAffinityRules p) (set_tracker t s) =
    (set_tracker t s, Returned None);
  rd_dns : useClusterIP p = false;
  rd_namespace : serverNamespace p <> EmptyString;
  rd_image : getNFSServerImage <> EmptyString;
  rd_quantity : ParseQuantity (capacity o) = Ok q;
  rd_bind : c_bind s = true;
  rd_ticks : c_ticks s <> 0;
  rd_absent : forall k, k <> KPV -> absent k (serverNamespace p) (nfs_name o) s;
  rd_policy : sc_ReclaimPolicy (po_StorageClass opts) = Some policy;
  rd_delete : policy <> PersistentVolumeReclaimRetain;
  rd_modes : pvc_AccessModes (pvc_spec (po_PVC opts)) <> [];
  rd_name : po_PVName opts <> EmptyString;
  rd_idle : Inprogress (c_tracker s) (po_PVName opts) = false;
}.

Lemma server_options_pvName p opts c o : server_options p opts c = Ok o -> pvName o = po_PVName opts.
Proof.
  unfold server_options. intros H.
  repeat (apply result_bind_Ok in H as (? & _ & H)). by injection H as <-.
Qed.

Definition server_address (p : Provisioner) (o : KernelNFSServerOptions) : string :=
  nfs_name o +:+ "." +:+ serverNamespace p +:+ ".svc.cluster.local".

Lemma server_address_nonempty p o : server_address p o <> EmptyString.
Proof. done. Qed.

Lemma with_server_set_tracker p o q t s :
  with_server p o q (set_tracker t s) = set_tracker t (with_server p o q s).
Proof. by destruct s. Qed.

Lemma without_server_set_tracker ns n t s :
  without_server ns n (set_tracker t s) = set_tracker t (without_server ns n s).
Proof. by destruct s. Qed.

Lemma with_server_tracker p o q s : c_tracker (with_server p o q s) = c_tracker s.
Proof. by destruct s. Qed.

Lemma set_tracker_twice t t' s : set_tracker t (set_tracker t' s) = set_tracker t s.
Proof. done. Qed.

Lemma set_tracker_id s : set_tracker (c_tracker s) s = s.
Proof. by destruct s. Qed.

Lemma exec_on_send c v qty ty m s : exec_on (sendEventOrIgnore c v qty ty m) s = (s, Returned tt).
Proof. unfold sendEventOrIgnore. by destruct (negb _). Qed.

Lemma exec_on_inc c l s : exec_on (inc c l) s = (s, Returned tt).
Proof. done. Qed.

(** ** Deleting a volume *)

Lemma delete_body_cluster p pv s1 :
  hook p = None -> pv_ReclaimPolicy (pv_spec pv) <> PersistentVolumeReclaimRetain ->
  exec_on (delete_body p pv) s1 =
    (without_server (serverNamespace p) ("nfs-" +:+ Name (pv_meta pv)) s1, Returned None).
Proof.
  intros Hh Hr. unfold delete_body. rewrite decide_True by done.
  rewrite exec_on_bind, exec_on_send. cbn beta iota. unfold DeleteKernalNFSServer.
  destruct (deleteNFSServer_cluster p Hh (delete_opts (Name (pv_meta pv))) s1) as [o' Hd].
  rewrite exec_on_bind. rewrite decide_True by done. rewrite exec_on_bind, exec_on_bind, Hd.
  cbn beta iota. rewrite exec_on_ret. cbn [Wrapf fmap option_fmap option_map].
  rewrite (exec_on_no_hook p Hh). cbn beta iota.
  by rewrite exec_on_bind, exec_on_inc.
Qed.

Lemma Delete_cluster p pv s :
  hook p = None -> pv_ReclaimPolicy (pv_spec pv) <> PersistentVolumeReclaimRetain ->
  exec_on (Provisioner.Delete p pv) s =
    (set_tracker (Tracker.Delete (Add (c_tracker s) (Name (pv_meta pv))) (Name (pv_meta pv)))
       (without_server (serverNamespace p) ("nfs-" +:+ Name (pv_meta pv)) s), Returned None).
Proof.
  intros Hh Hr. set (n := Name (pv_meta pv)).
  assert (He : exec_on (err ← delete_body p pv; PRet (Wrapf err (msg_delete_volume n)))
      (set_tracker (Add (c_tracker s) n) s) =
    (without_server (serverNamespace p) ("nfs-" +:+ n) (set_tracker (Add (c_tracker s) n) s), Returned None)).
  { by rewrite exec_on_bind, (delete_body_cluster p pv _ Hh Hr). }
  unfold Provisioner.Delete. fold n. rewrite (exec_on_tracked n _ _ _ _ He) by done.
  rewrite without_server_set_tracker. cbn [set_tracker c_tracker]. by rewrite set_tracker_twice.
Qed.

Section Cycle.
Context (p : Provisioner) (opts : ProvisionOptions) (o : KernelNFSServerOptions) (q : Quantity).
Context (policy : string) (s : cluster).
Hypothesis R : ready p opts o q policy s.

Lemma getNFSServerAddress_cluster fuel t :
  exists o', exec_on (getNFSServerAddress (S fuel) p o) (set_tracker t s) =
    (set_tracker t (with_server p o q s), Returned (o', Ok (server_address p o))).
Proof using R.
  unfold getNFSServerAddress. eexists. rewrite exec_on_bind.
  rewrite (createNFSServer_cluster p (rd_hook _ _ _ _ _ _ R) fuel o q).
  - cbn beta iota. rewrite (rd_dns _ _ _ _ _ _ R), with_server_set_tracker. done.
  - apply R.
  - apply R.
  - apply R.
  - apply (rd_bind _ _ _ _ _ _ R).
  - apply (rd_ticks _ _ _ _ _ _ R).
  - intros k Hk. pose proof (rd_absent _ _ _ _ _ _ R k Hk) as Ha. destruct s, k; exact Ha.
Qed.

Lemma provision_body_cluster fuel t :
  exec_on (provision_body (S fuel) p opts) (set_tracker t s) =
    (set_tracker t (with_server p o q s),
     Returned (Ok (nfs_pv opts policy (server_address p o)), ProvisioningFinished)).
Proof using R.
  destruct (rd_config _ _ _ _ _ _ R) as (c & Htype & Hopts & Hconf).
  unfold provision_body. rewrite exec_on_bind, Hconf. cbn beta iota.
  rewrite exec_on_bind, (rd_affinity _ _ _ _ _ _ R). cbn beta iota.
  rewrite exec_on_bind, exec_on_send. cbn beta iota.
  rewrite decide_True by done. unfold ProvisionKernalNFSServer. rewrite Hopts.
  destruct (getNFSServerAddress_cluster fuel t) as [o' Haddr].
  rewrite !exec_on_bind, Haddr. cbn beta iota. rewrite (rd_policy _ _ _ _ _ _ R).
  pose proof (nfs_pv_Build_spec opts policy (server_address p o)) as Hb.
  destruct (PVBuilder.Build _) as [pv|e].
  2:{ exfalso. destruct Hb as [Hn|[Hm|Ha]]; [by apply (rd_name _ _ _ _ _ _ R)
        |by apply (rd_modes _ _ _ _ _ _ R)|by apply (server_address_nonempty p o)]. }
  subst pv. rewrite exec_on_bind, (exec_on_no_action p (rd_hook _ _ _ _ _ _ R)). cbn beta iota.
  rewrite exec_on_ret. cbn beta iota. by rewrite exec_on_bind, exec_on_inc.
Qed.

Lemma Provision_cluster fuel :
  exec_on (Provision (S fuel) p opts) s =
    (with_server p o q s,
     Returned (Ok (nfs_pv opts policy (server_address p o)), ProvisioningFinished)).
Proof using R.
  unfold Provision. erewrite exec_on_tracked; [|apply provision_body_cluster|done].
  cbn [set_tracker c_tracker]. rewrite set_tracker_twice, tracker_restored by apply R.
  by rewrite <- (with_server_tracker p o q s), set_tracker_id.
Qed.

End Cycle.

(** C5: the life of a volume: on a cluster where the configuration can be read,
    claims bind before the timer fires and the names are free, [Provision]
    returns the volume, pointing at the service of its server, adds exactly the
    three objects of the server, and leaves the tracker as it was; [Delete] of
    that volume succeeds and gives the cluster back as it was before. *)
Theorem provision_delete_cycle fuel p opts o q policy s :
  ready p opts o q policy s ->
  exists pv s',
    exec_on (Provision (S fuel) p opts) s = (s', Returned (Ok pv, ProvisioningFinished)) /\
    s' = with_server p o q s /\
    Name (pv_meta pv) = po_PVName opts /\
    src_NFS (pv_Source (pv_spec pv)) = Some (mkNFS (server_address p o) "/" false) /\
    exec_on (Provisioner.Delete p pv) s' = (set_ticks (pred (c_ticks s)) s, Returned None).
Proof.
  intros R. destruct (rd_config _ _ _ _ _ _ R) as (c & _ & Hopts & _).
  apply server_options_pvName in Hopts. eexists _, _.
  split; [by apply Provision_cluster|]. split; [done|]. split; [done|]. split; [done|].
  rewrite (Delete_cluster p) by apply R.
  replace ("nfs-" +:+ Name (pv_meta (nfs_pv opts policy (server_address p o)))) with (nfs_name o)
    by (unfold nfs_name; by rewrite Hopts).
  rewrite (without_with_server p o q s (rd_absent _ _ _ _ _ _ R)), with_server_tracker.
  rewrite tracker_restored by apply R. by destruct s.
Qed.
End ProvisionCluster.
