(* ===== verification/Recovery.v ===== *)
(** * Provision and Delete, tried again after failures and crashes

    An attempt is a run of a handler against a failing API server, cut anywhere.
    Whatever attempts were made for a volume, the cluster lies between the one
    without its server and the one with it; one undisturbed [Provision] then
    completes the server, and one undisturbed [Delete] removes what there is. *)

From S2P Require Import Prelude GoStrings K8sTypes MetaHelper Hook Prog KubeAPI HookExecute.
From S2P Require Import History Env VolumeConfig NodeAffinity NFSServer Provisioner NFSObjects.
From S2P Require Import NFSDeleteFacts NFSCreateFacts ProvisionerFacts.
From S2P Require Import Tracker Cluster Faults ClusterFacts ProvisionCluster.

Section Recovery.
Context {C : CoreTypes} {P : PatchLib} {Y : MayaConfig} {M : MayaEnv} {N : ProvisionerLib}.
Implicit Types s : cluster.

(** A cluster, a provisioner and a request that provisioning can serve. *)
Record servable (p : Provisioner) (cfg : list MConfig) (opts : ProvisionOptions) (vc : VolumeConfig)
    (o : KernelNFSServerOptions) (q : Quantity) (policy : string) (s0 : cluster) : Prop := {
  sv_hook : hook p = None;
  sv_getter : getVolumeConfig p = GetVolumeConfig cfg;
  sv_config : exec_on (GetVolumeConfig cfg (po_PVName opts) (po_PVC opts)) s0 = (s0, Returned (Ok vc));
  sv_type : GetNFSServerTypeFromConfig vc = "kernel";
  sv_options : server_options p opts vc = Ok o;
  sv_affinity : exec_on (validateNodeAffinityRules p) s0 = (s0, Returned None);
  sv_dns : useClusterIP p = false;
  sv_namespace : serverNamespace p <> EmptyString;
  sv_image : getNFSServerImage <> EmptyString;
  sv_quantity : ParseQuantity (capacity o) = Ok q;
  sv_bind : c_bind s0 = true;
  sv_absent : forall k, k <> KPV -> absent k (serverNamespace p) (nfs_name o) s0;
  sv_policy : sc_ReclaimPolicy (po_StorageClass opts) = Some policy;
  sv_modes : pvc_AccessModes (pvc_spec (po_PVC opts)) <> [];
  sv_name : po_PVName opts <> EmptyString;
}.

#[local] Arguments sv_hook {p cfg opts vc o q policy s0} _.
#[local] Arguments sv_getter {p cfg opts vc o q policy s0} _.
#[local] Arguments sv_config {p cfg opts vc o q policy s0} _.
#[local] Arguments sv_type {p cfg opts vc o q policy s0} _.
#[local] Arguments sv_options {p cfg opts vc o q policy s0} _.
#[local] Arguments sv_affinity {p cfg opts vc o q policy s0} _.
#[local] Arguments sv_dns {p cfg opts vc o q policy s0} _.
#[local] Arguments sv_namespace {p cfg opts vc o q policy s0} _.
#[local] Arguments sv_image {p cfg opts vc o q policy s0} _.
#[local] Arguments sv_quantity {p cfg opts vc o q policy s0} _.
#[local] Arguments sv_bind {p cfg opts vc o q policy s0} _.
#[local] Arguments sv_absent {p cfg opts vc o q policy s0} _ k _.
#[local] Arguments sv_policy {p cfg opts vc o q policy s0} _.
#[local] Arguments sv_modes {p cfg opts vc o q policy s0} _.
#[local] Arguments sv_name {p cfg opts vc o q policy s0} _.

Section Volume.
Context (p : Provisioner) (cfg : list MConfig) (opts : ProvisionOptions) (vc : VolumeConfig).
Context (o : KernelNFSServerOptions) (q : Quantity) (policy : string) (s0 : cluster).
Hypothesis R : servable p cfg opts vc o q policy s0.

Local Abbreviation ns := (serverNamespace p).
Local Abbreviation n := (nfs_name o).
Local Abbreviation opts1 := (set_backendPvcName n o).
Local Abbreviation opts2 := (set_deploymentName n opts1).

(** The objects of the server. *)
Definition wanted (k : kind) : option (obj_of k) :=
  match k with
  | KPVC => Some (backend_pvc p o q)
  | KDeployment => Some (server_deployment p opts1)
  | KService => Some (nfs_service p opts2)
  | KPV => None
  end.

Lemma wanted_name k w : wanted k = Some w -> name_of k w = n.
Proof. destruct k; [|done| |]; by intros [= <-]. Qed.

(** The backend claim of the server is there. *)
Definition claimed s : Prop := is_Some (store_of KPVC s !! (ns, n)).

(** The cluster is the first one with any of these objects, but none without
    the claim, by which the collector finds them. *)
Record between s : Prop := {
  bt_store : forall k, store_of k s = store_of k s0 \/
    exists w, wanted k = Some w /\ store_of k s = <[(ns, n) := stored_object s0 k w]> (store_of k s0);
  bt_sc : c_sc s = c_sc s0;
  bt_nodes : c_nodes s = c_nodes s0;
  bt_bind : c_bind s = c_bind s0;
  bt_claim : forall k, k = KDeployment \/ k = KService ->
    is_Some (store_of k s !! (ns, n)) -> claimed s;
}.

Lemma between_start : between s0.
Proof using R.
  split; [by left|done..|]. intros k Hk [x Hx].
  assert (Hpv : k <> KPV) by (by destruct Hk as [->| ->]). by rewrite (sv_absent R k Hpv) in Hx.
Qed.

#[local] Instance claimed_proper : Proper (same_objects ==> impl) claimed.
Proof. intros s s' Hs. unfold claimed. by rewrite (so_store _ _ Hs KPVC). Qed.

#[local] Instance between_proper : Proper (same_objects ==> impl) between.
Proof.
  intros s s' Hs [B1 B2 B3 B4 B5]. pose proof Hs as [H1 H2 H3 H4]. split; [|congruence..|].
  - intros k. destruct (B1 k) as [Hb|(w & Hw & Hb)]; rewrite H1 in Hb; [by left|right; by exists w].
  - intros k Hk Hx. rewrite <- H1 in Hx. apply (claimed_proper s s' Hs). by eapply B5.
Qed.

Lemma between_same s s' : same_objects s s' -> between s' -> between s.
Proof. intros Hs. by apply between_proper. Qed.

Lemma claimed_create s k w :
  wanted k = Some w -> k = KPVC \/ claimed s -> claimed (cluster_create k ns w s).
Proof.
  intros Hw Hc. unfold claimed, cluster_create. rewrite (wanted_name k w Hw).
  destruct (decide (k = KPVC)) as [->|Hk].
  - rewrite store_set_eq, lookup_insert, decide_True by done. by eexists.
  - rewrite store_set_ne by done. by destruct Hc.
Qed.

Lemma between_create s k w :
  between s -> wanted k = Some w -> store_of k s !! (ns, n) = None -> k = KPVC \/ claimed s ->
  between (cluster_create k ns w s).
Proof.
  intros [B1 B2 B3 B4 B5] Hw Ha Hc. pose proof (claimed_create s k w Hw Hc) as Hcl.
  revert Hcl. unfold cluster_create. rewrite (wanted_name k w Hw). intros Hcl.
  split; [|by destruct k..|by intros].
  intros k'. destruct (decide (k = k')) as [<-|Hk].
  - right. exists w. split; [done|]. rewrite store_set_eq.
    rewrite (stored_object_proper s s0 k w B4).
    destruct (B1 k) as [->|(w' & _ & Hb)]; [done|]. by rewrite Hb, lookup_insert, decide_True in Ha.
  - rewrite store_set_ne by done. apply B1.
Qed.

Lemma delete_between s k :
  between s -> k <> KPV -> delete (ns, n) (store_of k s) = store_of k s0.
Proof using R.
  intros [B1 _ _ _ _] Hk. pose proof (sv_absent R k Hk) as Ha.
  destruct (B1 k) as [->|(w & _ & ->)]; [by apply delete_id|by apply delete_insert_id].
Qed.

(** The claim goes last. *)
Lemma between_delete s k :
  between s -> k <> KPV ->
  (k = KPVC -> absent KDeployment ns n s /\ absent KService ns n s) ->
  between (cluster_delete k ns n s).
Proof using R.
  intros Hb Hk Hlast. pose proof Hb as [B1 B2 B3 B4 B5]. split; [|by destruct k..|].
  - intros k'. unfold cluster_delete. rewrite delete_between by done.
    destruct (decide (k = k')) as [<-|Hkk]; [left; by rewrite store_set_eq|].
    rewrite store_set_ne by done. apply B1.
  - intros k' Hk' Hx. unfold cluster_delete, claimed in *.
    destruct (decide (k = KPVC)) as [->|Hne].
    + exfalso. rewrite store_set_ne in Hx by (by destruct Hk' as [->| ->]).
      destruct (Hlast eq_refl) as [Hd Hs]. destruct Hx as [x Hx]. unfold absent in *.
      destruct Hk' as [->| ->]; congruence.
    + rewrite (store_set_ne k KPVC) by done. apply (B5 k' Hk').
      destruct (decide (k = k')) as [<-|Hkk]; [|by rewrite store_set_ne in Hx].
      rewrite store_set_eq, lookup_delete_eq in Hx. by destruct Hx.
Qed.

Lemma without_between s : between s -> same_objects (without_server ns n s) s0.
Proof using R.
  intros Hb. unfold without_server.
  pose proof (between_delete s KService Hb ltac:(done) ltac:(done)) as H1.
  pose proof (between_delete _ KDeployment H1 ltac:(done) ltac:(done)) as H2.
  assert (Hlast : absent KDeployment ns n (cluster_delete KDeployment ns n (cluster_delete KService ns n s)) /\
                  absent KService ns n (cluster_delete KDeployment ns n (cluster_delete KService ns n s))).
  { unfold absent, cluster_delete. rewrite store_set_eq, lookup_delete_eq. split; [done|].
    by rewrite (store_set_ne KDeployment KService), store_set_eq, lookup_delete_eq. }
  pose proof (between_delete _ KPVC H2 ltac:(done) ltac:(by intros)) as [H3 H4 H5 H6 _].
  split; [|done..]. intros [| | |].
  - by apply (delete_between s KPVC).
  - by destruct (H3 KPV) as [->|(w & Hw & _)].
  - by apply (delete_between s KService).
  - by apply (delete_between s KDeployment).
Qed.

(** A creation keeps the claim, and an accepted one of the claim makes it. *)
Lemma fstep_between_create s k w s' x :
  between s -> wanted k = Some w -> k = KPVC \/ claimed s -> fstep s (RCreate k ns w) s' x ->
  between s' /\ (claimed s -> claimed s').
Proof.
  intros Hb Hw Hc [->|[Ha ->]]%fstep_create; [done|].
  rewrite (wanted_name k w Hw) in Ha. split; [by apply between_create|]. intros Hcl.
  by apply claimed_create; [|right].
Qed.

(** ** Attempts keep the cluster between *)

Abbreviation cw := (cwp between).

Lemma cwp_kget {A} k n' (f : api (obj_of k) -> io A) s Q :
  between s ->
  (forall x, (forall o, x = ApiOk o -> is_Some (store_of k s !! (ns, n'))) -> cw (f x) s Q) ->
  cw (mbind (M := io) f (kget k ns n')) s Q.
Proof.
  intros Hb Hf. split; [done|]. intros s' x Hx.
  assert (s' = s) as -> by (by destruct Hx). apply Hf. intros o' ->.
  apply fstep_get_found in Hx as [_ ->]. by eexists.
Qed.

Lemma cwp_kcreate {A} k w (f : api (obj_of k) -> io A) s Q :
  between s -> wanted k = Some w -> k = KPVC \/ claimed s ->
  (forall s' x, between s' -> (claimed s -> claimed s') ->
     (forall o, x = ApiOk o -> is_Some (store_of k s' !! (ns, n))) -> cw (f x) s' Q) ->
  cw (mbind (M := io) f (kcreate k ns w)) s Q.
Proof.
  intros Hb Hw Hc Hf. split; [done|]. intros s' x Hx.
  destruct (fstep_between_create s k w s' x Hb Hw Hc Hx) as [Hb' Hc']. apply Hf; [done..|].
  intros o' ->. rewrite <- (wanted_name k w Hw). by eapply fstep_created.
Qed.

(** What a creation step leaves, if it succeeded: its options, and the claim. *)
Definition step_done (opts' : KernelNFSServerOptions) s
  (out : outcome (KernelNFSServerOptions * error)) : Prop :=
  exists o' e, out = Returned (o', e) /\ (e = None -> o' = opts' /\ claimed s).

Lemma step_done_ret opts' o' e s :
  between s -> (e = None -> o' = opts' /\ claimed s) -> cw (PRet (o', e)) s (step_done opts').
Proof. intros Hb He. split; [done|]. by exists o', e. Qed.

Lemma no_action obj x : action_on_create p obj x = PRet (Ok obj).
Proof using R. unfold action_on_create, hook_guard. by rewrite (sv_hook R). Qed.

(** A step: the object is there, or the server fails, or the object is created. *)
Ltac step_ret := apply step_done_ret; [done|intros He; first [done|split; [done|]]].

Lemma cwp_createBackendPVC s : between s -> cw (createBackendPVC p o) s (step_done opts1).
Proof using R.
  intros Hb. unfold createBackendPVC; cbn [validate]. apply cwp_kget; [done|].
  intros [x|e] Hx; [step_ret; by eapply Hx|]. destruct (negb _); [step_ret|].
  rewrite backend_pvc_Build, (sv_quantity R), no_action.
  change (mbind (M := io) ?f (PRet ?a)) with (f a).
  apply (cwp_kcreate KPVC); [done|done|by left|].
  intros s' [x|e'] Hs' _ Hc; step_ret. by eapply Hc.
Qed.

Lemma cwp_createDeployment s :
  between s -> claimed s -> cw (createDeployment p opts1) s (step_done opts2).
Proof using R.
  intros Hb Hcl. unfold createDeployment; cbn [validate]. apply cwp_kget; [done|].
  intros [x|e] _; [by step_ret|]. destruct (negb _); [step_ret|].
  rewrite deployment_Build, no_action; [|split; [apply R|done]|apply R].
  change (mbind (M := io) ?f (PRet ?a)) with (f a).
  apply (cwp_kcreate KDeployment); [done|done|by right|].
  intros s' [x|e'] Hs' Hc _; step_ret. by apply Hc.
Qed.

Lemma cwp_createService s :
  between s -> claimed s -> cw (createService p opts2) s (step_done (set_serviceName n opts2)).
Proof using R.
  intros Hb Hcl. unfold createService; cbn [validate]. apply cwp_kget; [done|].
  intros [x|e] _; [by step_ret|]. destruct (negb _); [step_ret|].
  rewrite service_Build, decide_False, no_action; [|apply R].
  change (mbind (M := io) ?f (PRet ?a)) with (f a).
  apply (cwp_kcreate KService); [done|done|by right|].
  intros s' [x|e'] Hs' Hc _; step_ret. by apply Hc.
Qed.

(** A part that changes no object, and what is known of its value. *)
Lemma cwp_between_quiet {A} (m : io A) s h (Q : outcome A -> Prop) :
  between s -> wp (fun _ r => mutates r = false) m h (fun _ => Q) ->
  cw m s (fun s' out => between s' /\ (claimed s -> claimed s') /\ Q out).
Proof.
  intros Hb Hm. eapply cwp_mono, cwp_quiet, Hm; [|by intros; eapply between_same|done].
  intros s' out Hs' [Hsame HQ]. split; [done|]. split; [|done].
  apply claimed_proper. by symmetry.
Qed.

Lemma cwp_wait fuel n' s :
  between s -> cw (waitForPvcBound fuel ns n') s (fun s' out => between s' /\ (claimed s -> claimed s') /\
    (out = OutOfFuel \/ exists e, out = Returned e)).
Proof.
  intros Hb. apply (cwp_between_quiet _ s []); [done|].
  eapply wp_mono, wp_waitForPvcBound; [|by intros ? []].
  intros h' [e| |] _ Hx; [right; by eexists|done|by left].
Qed.

Lemma cwp_createNFSServer fuel s :
  between s -> cw (createNFSServer fuel p o) s (fun _ _ => True).
Proof using R.
  intros Hb. unfold createNFSServer. apply cwp_bind.
  eapply cwp_mono, cwp_createBackendPVC; [|done]. intros s1 ? H1 (o1 & [e|] & -> & He1); [done|].
  destruct He1 as [-> Hc1]; [done|]. apply cwp_bind.
  eapply cwp_mono, cwp_createDeployment; [|done..]. intros s2 ? H2 (o2 & [e|] & -> & He2); [done|].
  destruct He2 as [-> Hc2]; [done|]. apply cwp_bind.
  eapply cwp_mono, cwp_wait; [|done]. intros s3 ? H3 [_ [Hc3 [->|[[e|] ->]]]]; [done|done|].
  unfold execute_guarded, hook_guard. rewrite (sv_hook R).
  change (mbind (M := io) ?f (PRet ?a)) with (f a). cbn beta iota.
  apply cwp_bind. eapply cwp_mono, cwp_createService; [|done|by apply Hc3].
  by intros s4 ? H4 (o3 & [e|] & -> & He3).
Qed.

(** The configuration is the one read on the undisturbed cluster, or an error. *)
Lemma cwp_config s :
  between s -> cw (GetVolumeConfig cfg (po_PVName opts) (po_PVC opts)) s (fun s' out =>
    between s' /\ (out = Returned (Ok vc) \/ exists e, out = Returned (Err e))).
Proof using R.
  intros Hb. pose proof (sv_config R) as Hc. unfold GetVolumeConfig in *.
  destruct (merge_annotation _ _ _) as [c1|e]; [|done].
  destruct (GetStorageClassNameFromPVC _) as [sc|]; [|done].
  apply (eq_trans (eq_sym (exec_on_call (RGetStorageClass sc) _ s0))) in Hc.
  cbn [serve fst snd] in Hc.
  split; [done|]. intros s' x Hx.
  assert (s' = s /\ (x = (serve s (RGetStorageClass sc)).2 \/ exists msg, x = ApiErr (APIOther msg)))
    as [-> [->|[msg ->]]].
  { destruct Hx as [|x [msg ->]|x [msg ->]]; [by split; [|left]|by split; [|right; eexists]..]. }
  - cbn [serve snd]. rewrite (bt_sc _ Hb). destruct (c_sc s0 !! sc) as [scobj|].
    2:{ split; [done|]. split; [done|]. right. by eexists. }
    unfold io_MBind, prog_MBind. cbn [prog_bind]. revert Hc.
    destruct (merge_annotation (sc_meta scobj) _ _) as [c2|e2]; [|done].
    destruct (ConfigToMap c2) as [m|e3]; [|done].
    rewrite exec_on_ret. intros Hc. injection Hc as Hvc.
    split; [done|]. split; [done|]. left. by rewrite Hvc.
  - split; [done|]. split; [done|]. right. by eexists.
Qed.

Lemma cwp_getNFSServerAddress fuel s :
  between s -> cw (getNFSServerAddress fuel p o) s (fun _ _ => True).
Proof using R.
  intros Hb. unfold getNFSServerAddress. apply cwp_bind.
  eapply cwp_mono, cwp_createNFSServer; [|done]. intros s1 [[o1 [e|]]| |] H1 _; [done| |done..].
  by rewrite (sv_dns R).
Qed.

(** A continuation that makes no request. *)
Lemma cwp_then_pure {A B} (f : A -> io B) (m : io A) s :
  (forall a, match f a with PCall _ _ => False | _ => True end) ->
  cw m s (fun _ _ => True) -> cw (mbind (M := io) f m) s (fun _ _ => True).
Proof.
  intros Hf Hm. apply cwp_bind. eapply cwp_mono, Hm. intros s' [a| |] Hs' _; [|done..].
  specialize (Hf a). by destruct (f a).
Qed.

Lemma cwp_ProvisionKernal fuel s :
  between s -> cw (ProvisionKernalNFSServer fuel p opts vc) s (fun _ _ => True).
Proof using R.
  intros Hb. unfold ProvisionKernalNFSServer. rewrite (sv_options R).
  apply cwp_then_pure; [|by apply cwp_getNFSServerAddress].
  intros [o1 [addr|e]]; [|done]. rewrite (sv_policy R).
  destruct (PVBuilder.Build _); [|done]. by rewrite no_action.
Qed.

(** Requests that change no object, before and after the rest. *)
Lemma cwp_affinity s :
  between s -> cw (validateNodeAffinityRules p) s (fun s' out => between s' /\ (claimed s -> claimed s') /\ exists e, out = Returned e).
Proof using R.
  intros Hb. apply (cwp_between_quiet _ s []); [done|].
  eapply wp_mono, wp_validateNodeAffinityRules; [|by intros ? []].
  by intros h' out _ [e ->]; eexists.
Qed.

Lemma cwp_send c v z ty m s :
  between s -> cw (sendEventOrIgnore c v z ty m) s (fun s' out => between s' /\ (claimed s -> claimed s') /\ out = Returned tt).
Proof.
  intros Hb. apply (cwp_between_quiet _ s []); [done|].
  eapply wp_mono, wp_sendEventOrIgnore; [|by intros ? []]. by intros h' out _ [[] ->].
Qed.

Lemma cwp_inc c l s : between s -> cw (inc c l) s (fun s' out => between s' /\ (claimed s -> claimed s') /\ out = Returned tt).
Proof. intros Hb. apply (cwp_between_quiet _ s []); [done|]. split; [done|]. by intros []. Qed.

Lemma cwp_provision_body fuel s :
  between s -> cw (provision_body fuel p opts) s (fun s' _ => between s').
Proof using R.
  intros Hb. unfold provision_body. rewrite (sv_getter R). apply cwp_bind.
  eapply cwp_mono, cwp_config; [|done]. intros s1 ? _ [H1 [->|[e ->]]]; [|done].
  apply cwp_bind. eapply cwp_mono, cwp_affinity; [|done]. intros s2 ? _ (H2 & _ & [e|] & ->); [done|].
  apply cwp_bind. eapply cwp_mono, cwp_send; [|done]. intros s3 ? _ (H3 & _ & ->).
  rewrite decide_True by apply R. apply cwp_bind.
  eapply cwp_mono, cwp_ProvisionKernal; [|done]. intros s4 [[pv|e]| |] H4 _; [..|done|done].
  - apply cwp_bind. eapply cwp_mono, cwp_inc; [|done]. by intros s5 ? _ (H5 & _ & ->).
  - apply cwp_bind. eapply cwp_mono, cwp_inc; [|done]. by intros s5 ? _ (H5 & _ & ->).
Qed.

Lemma cwp_Provision fuel s : between s -> cw (Provision fuel p opts) s (fun s' _ => between s').
Proof using R.
  intros Hb. unfold Provision. apply cwp_bind. split; [done|]. intros s1 [] H1%fstep_same_objects; [|done].
  apply (between_same _ _ H1) in Hb. split; [done|]. apply cwp_defer.
  eapply cwp_mono, cwp_provision_body; [|done]. intros s2 [a| |] _ H2; [| |done].
  all: split; [done|]; intros s3 [] H3%fstep_same_objects; [|done];
    apply (between_same _ _ H3) in H2; by split.
Qed.

(** What the history of a deletion shows gone is gone, so the claim goes last. *)
Definition delete_inv (h : list ev) s : Prop :=
  between s /\ forall k, gone h k ns n -> store_of k s !! (ns, n) = None.

Lemma delete_step h r s s' x :
  bracketed (po_PVName opts) (delete_requests p n) h r -> delete_inv h s ->
  fstep s r s' x -> delete_inv (h ++ [Event r x]) s'.
Proof using R.
  intros [_ Hr] [H1 Hg] Hx. split.
  2:{ intros k. apply (fstep_gone h (Event r x) s s' k); [|apply Hg|done].
      destruct r; try done. cbn [ev_req]. by destruct Hr as [[[|]|]|[|]]; destruct k0. }
  destruct (mutates r) eqn:Hm; [|by apply (between_same _ _ (fstep_same_objects _ _ _ _ Hm Hx))].
  destruct Hr as [[[Hr|Hr]|Hr]|[->| ->]]; [by destruct r|destruct r; try done|by destruct r|done|done].
  apply fstep_delete in Hx as [->| ->]; [done|].
  destruct k; try done.
  - destruct Hr as (-> & -> & Hs & Hd). apply between_delete; [done..|]. intros _. by split; apply Hg.
  - destruct Hr as (-> & ->). by apply between_delete.
  - destruct Hr as (-> & -> & _). by apply between_delete.
Qed.

(** A deletion of the volume, whatever the volume object holds. *)
Lemma cwp_Delete pv s :
  Name (pv_meta pv) = po_PVName opts -> between s ->
  cw (Provisioner.Delete p pv) s (fun s' _ => between s').
Proof using R.
  intros Hn Hb. assert (Hnfs : nfs_of pv = n).
  { unfold nfs_of, nfs_name. by rewrite Hn, (server_options_pvName _ _ _ _ (sv_options R)). }
  pose proof (wp_Delete p pv []) as Hw. rewrite Hnfs, Hn in Hw.
  eapply cwp_mono, (cwp_of_wp delete_inv _ _ _ _ []), Hw; [by intros s' out Hs' _|by intros h s' []|apply delete_step|].
  split; [done|]. intros k [(e & [] %elem_of_nil & _)|(d & []%elem_of_nil & _)].
Qed.

(** ** Undisturbed runs complete the server, from wherever they start *)

Definition ensure (k : kind) (w : obj_of k) s : cluster :=
  match store_of k s !! (ns, n) with
  | Some _ => s
  | None => cluster_create k ns w s
  end.

Lemma between_ensure s k w :
  between s -> wanted k = Some w -> k = KPVC \/ claimed s -> between (ensure k w s).
Proof.
  intros Hb Hw Hc. unfold ensure. destruct (store_of k s !! (ns, n)) eqn:Hs; [done|].
  by apply between_create.
Qed.

Lemma claimed_ensure s k w : wanted k = Some w -> k = KPVC \/ claimed s -> claimed (ensure k w s).
Proof.
  intros Hw Hc. unfold ensure. destruct (store_of k s !! (ns, n)) as [x|] eqn:Hs.
  - destruct Hc as [->|Hc]; [|done]. unfold claimed. rewrite Hs. by eexists.
  - by apply claimed_create.
Qed.

(** What is there is what was wanted. *)
Lemma between_found s k x :
  between s -> store_of k s !! (ns, n) = Some x -> k <> KPV ->
  exists w, wanted k = Some w /\ store_of k s = <[(ns, n) := stored_object s0 k w]> (store_of k s0).
Proof using R.
  intros [B _ _ _ _] Hx Hk. destruct (B k) as [Hb|Hb]; [|done].
  by rewrite Hb, (sv_absent R k Hk) in Hx.
Qed.

Lemma ensure_found s k w : between s -> wanted k = Some w ->
  store_of k (ensure k w s) = <[(ns, n) := stored_object s0 k w]> (store_of k s0).
Proof using R.
  intros Hb Hw. assert (Hk : k <> KPV) by (by intros ->).
  unfold ensure. destruct (store_of k s !! (ns, n)) as [x|] eqn:Hx.
  - destruct (between_found s k x Hb Hx Hk) as (w' & Hw' & ->). congruence.
  - unfold cluster_create. rewrite store_set_eq, (wanted_name k w Hw).
    rewrite (stored_object_proper s s0 k w (bt_bind _ Hb)).
    destruct (bt_store _ Hb k) as [->|(w' & _ & Hb')]; [done|].
    by rewrite Hb', lookup_insert, decide_True in Hx.
Qed.

Lemma ensure_other s k w k' : k <> k' -> store_of k' (ensure k w s) = store_of k' s.
Proof. intros Hk. unfold ensure. destruct (store_of k s !! _); [done|]. by apply store_set_ne. Qed.

Lemma createBackendPVC_ensure s :
  exec_on (createBackendPVC p o) s = (ensure KPVC (backend_pvc p o q) s, Returned (opts1, None)).
Proof using R.
  unfold ensure. destruct (store_of KPVC s !! (ns, n)) as [x|] eqn:Hx.
  - unfold createBackendPVC; cbn [validate]. by rewrite exec_on_kget, (get_response_Some _ _ _ Hx).
  - by apply (createBackendPVC_cluster p (sv_hook R)); [apply R|].
Qed.

Lemma createDeployment_ensure s :
  exec_on (createDeployment p opts1) s =
    (ensure KDeployment (server_deployment p opts1) s, Returned (opts2, None)).
Proof using R.
  unfold ensure. destruct (store_of KDeployment s !! (ns, n)) as [x|] eqn:Hx.
  - unfold createDeployment; cbn [validate].
    rewrite exec_on_kget. by erewrite get_response_Some by exact Hx.
  - apply (createDeployment_cluster p (sv_hook R) opts1 s); [by split; [apply R|]|apply R|done].
Qed.

Lemma createService_ensure s :
  exec_on (createService p opts2) s =
    (ensure KService (nfs_service p opts2) s, Returned (set_serviceName n opts2, None)).
Proof using R.
  unfold ensure. destruct (store_of KService s !! (ns, n)) as [x|] eqn:Hx.
  - unfold createService; cbn [validate].
    rewrite exec_on_kget. by erewrite get_response_Some by exact Hx.
  - apply (createService_cluster p (sv_hook R) opts2 s); [apply R|done].
Qed.

(** The cluster with the whole server, from one between. *)
Definition completed s : cluster :=
  ensure KService (nfs_service p opts2)
    (set_ticks (pred (c_ticks s))
      (ensure KDeployment (server_deployment p opts1) (ensure KPVC (backend_pvc p o q) s))).

Lemma completed_same s : between s -> same_objects (completed s) (with_server p o q s0).
Proof using R.
  intros Hb. pose proof (between_ensure s KPVC _ Hb eq_refl (or_introl eq_refl)) as H1.
  pose proof (claimed_ensure s KPVC _ eq_refl (or_introl eq_refl)) as C1.
  pose proof (between_ensure _ KDeployment _ H1 eq_refl (or_intror C1)) as H2.
  pose proof (claimed_ensure _ KDeployment _ eq_refl (or_intror C1)) as C2.
  pose proof (between_same _ _ (same_objects_ticks (pred (c_ticks s)) _) H2) as H3.
  assert (C3 : claimed (set_ticks (pred (c_ticks s))
    (ensure KDeployment (server_deployment p opts1) (ensure KPVC (backend_pvc p o q) s)))).
  { eapply claimed_proper; [symmetry; apply same_objects_ticks|done]. }
  pose proof (between_ensure _ KService _ H3 eq_refl (or_intror C3)) as H4.
  assert (Hpv : store_of KPV (completed s) = store_of KPV s0).
  { destruct (bt_store _ H4 KPV) as [Hk|(w & Hw & _)]; [exact Hk|done]. }
  split; [|etrans; [apply H4|by destruct s0]..].
  intros [| | |].
  - etrans; [apply ensure_other; done|]. etrans; [apply so_store, same_objects_ticks|].
    etrans; [by apply ensure_other|]. etrans; [by apply ensure_found|]. by destruct s0.
  - etrans; [exact Hpv|by destruct s0].
  - etrans; [by apply ensure_found|]. by destruct s0.
  - etrans; [by apply ensure_other|]. etrans; [apply so_store, same_objects_ticks|].
    etrans; [by apply ensure_found|]. by destruct s0.
Qed.

Lemma ensure_ticks k w s : c_ticks (ensure k w s) = c_ticks s.
Proof. unfold ensure. destruct (store_of k s !! _); [done|]. by destruct k, s. Qed.

Lemma createNFSServer_between fuel s :
  between s -> c_ticks s <> 0 ->
  exec_on (createNFSServer (S fuel) p o) s =
    (completed s, Returned (set_serviceName n opts2, None)).
Proof using R.
  intros Hb Ht. unfold createNFSServer, completed.
  rewrite exec_on_bind, createBackendPVC_ensure. cbn beta iota.
  rewrite exec_on_bind, createDeployment_ensure. cbn beta iota.
  destruct (c_ticks s) as [|ticks] eqn:Htk; [done|]. rewrite exec_on_bind.
  rewrite (wait_cluster fuel ns n _ (stored_object s0 KPVC (backend_pvc p o q)) ticks).
  - cbn beta iota. rewrite exec_on_bind, (exec_on_no_hook p (sv_hook R)).
    cbn beta iota. by rewrite exec_on_bind, createService_ensure.
  - by rewrite !ensure_ticks.
  - rewrite ensure_other, ensure_found by done. by rewrite lookup_insert, decide_True.
  - cbn. by rewrite (sv_bind R).
Qed.

Lemma config_between s :
  between s -> exec_on (GetVolumeConfig cfg (po_PVName opts) (po_PVC opts)) s = (s, Returned (Ok vc)).
Proof using R.
  intros Hb. pose proof (sv_config R) as Hc. unfold GetVolumeConfig in *.
  destruct (merge_annotation _ _ _) as [c1|e]; [|done].
  destruct (GetStorageClassNameFromPVC _) as [sc|]; [|done].
  apply (eq_trans (eq_sym (exec_on_call (RGetStorageClass sc) _ s0))) in Hc.
  etrans; [apply (exec_on_call (RGetStorageClass sc))|]. cbn [serve fst snd] in *.
  rewrite (bt_sc _ Hb). revert Hc. destruct (c_sc s0 !! sc) as [scobj|]; [|done].
  destruct (merge_annotation (sc_meta scobj) _ _) as [c2|e2]; [|done].
  destruct (ConfigToMap c2); [|done]. rewrite !exec_on_ret. intros Hc. by injection Hc as ->.
Qed.

Lemma affinity_between s :
  between s -> exec_on (validateNodeAffinityRules p) s = (s, Returned None).
Proof using R.
  intros Hb. pose proof (sv_affinity R) as Ha. unfold validateNodeAffinityRules in *.
  case_decide; [done|].
  destruct (NodeSelectorRequirementsAsSelector _) as [sel|]; [|done].
  apply (eq_trans (eq_sym (exec_on_call (RListNodes sel) _ s0))) in Ha.
  etrans; [apply (exec_on_call (RListNodes sel))|]. cbn [serve fst snd] in *.
  rewrite (bt_nodes _ Hb). by case_decide.
Qed.

Lemma provision_body_between fuel s :
  between s -> c_ticks s <> 0 ->
  exec_on (provision_body (S fuel) p opts) s =
    (completed s, Returned (Ok (nfs_pv opts policy (server_address p o)), ProvisioningFinished)).
Proof using R.
  intros Hb Ht. unfold provision_body.
  rewrite (sv_getter R), exec_on_bind, config_between by done. cbn beta iota.
  rewrite exec_on_bind, affinity_between by done. cbn beta iota.
  rewrite exec_on_bind, exec_on_send. cbn beta iota.
  rewrite decide_True by apply R. unfold ProvisionKernalNFSServer. rewrite (sv_options R).
  unfold getNFSServerAddress.
  rewrite !exec_on_bind, createNFSServer_between by done. cbn beta iota.
  rewrite (sv_dns R), exec_on_ret. cbn beta iota. rewrite (sv_policy R).
  pose proof (nfs_pv_Build_spec opts policy (server_address p o)) as Hbuild.
  change (serviceName (set_serviceName n opts2) +:+ "." +:+ ns +:+ ".svc.cluster.local")
    with (server_address p o).
  destruct (PVBuilder.Build _) as [pv|e].
  2:{ destruct Hbuild as [Hn|[Hm|Ha]]; [by destruct (sv_name R)|by destruct (sv_modes R)
        |by destruct (server_address_nonempty p o)]. }
  subst pv. rewrite exec_on_bind, (exec_on_no_action p (sv_hook R)). cbn beta iota.
  rewrite exec_on_ret. cbn beta iota. by rewrite exec_on_bind, exec_on_inc.
Qed.

(** ** Attempts *)

(** One attempt at provisioning or deleting the volume.  It starts with a timer
    of its own, and leaves any tracker behind: it may have been the end of the
    process. *)
Inductive attempt (fuel : nat) s : cluster -> Prop :=
| attempt_provision ticks s1 out t :
    frun (set_ticks ticks s) (Provision fuel p opts) s1 out -> attempt fuel s (set_tracker t s1)
| attempt_delete pv s1 out t :
    Name (pv_meta pv) = po_PVName opts ->
    frun s (Provisioner.Delete p pv) s1 out -> attempt fuel s (set_tracker t s1).

Lemma attempt_between fuel s s' : attempt fuel s s' -> between s -> between s'.
Proof using R.
  intros [ticks s1 out t Hr|pv s1 out t Hn Hr] Hb;
    apply (between_same _ _ (same_objects_tracker t s1)).
  - apply (between_same _ _ (same_objects_ticks ticks s)) in Hb.
    by apply (cwp_frun _ _ _ _ _ _ (cwp_Provision fuel _ Hb) Hr).
  - by apply (cwp_frun _ _ _ _ _ _ (cwp_Delete pv s Hn Hb) Hr).
Qed.

Lemma attempts_between fuel s : rtc (attempt fuel) s0 s -> between s.
Proof using R.
  exact (rtc_ind_r between s0 between_start
    (fun s1 s2 _ H12 Hb => attempt_between fuel s1 s2 H12 Hb) s).
Qed.

Lemma Provision_between fuel s :
  between s -> c_ticks s <> 0 ->
  exists s', exec_on (Provision (S fuel) p opts) s =
      (s', Returned (Ok (nfs_pv opts policy (server_address p o)), ProvisioningFinished)) /\
    same_objects s' (with_server p o q s0).
Proof using R.
  intros Hb Ht. set (s1 := set_tracker (Add (c_tracker s) (po_PVName opts)) s).
  assert (Hb1 : between s1) by (by apply (between_same _ _ (same_objects_tracker _ s))).
  eexists. split.
  - unfold Provision. by erewrite exec_on_tracked; [|by apply (provision_body_between fuel s1)|done].
  - etrans; [apply same_objects_tracker|]. by apply completed_same.
Qed.

Lemma Delete_between pv s :
  Name (pv_meta pv) = po_PVName opts ->
  pv_ReclaimPolicy (pv_spec pv) <> PersistentVolumeReclaimRetain ->
  between s ->
  exists s', exec_on (Provisioner.Delete p pv) s = (s', Returned None) /\ same_objects s' s0.
Proof using R.
  intros Hn Hr Hb. eexists. split; [by apply (Delete_cluster p pv s (sv_hook R))|].
  rewrite same_objects_tracker, Hn.
  replace ("nfs-" +:+ po_PVName opts) with n
    by (unfold nfs_name; by rewrite (server_options_pvName _ _ _ _ (sv_options R))).
  by apply without_between.
Qed.
End Volume.

(** C6: provisioning can be tried again: after any number of attempts to
    provision or to delete the volume, each against an API server that loses
    requests and answers and each stopped anywhere, one undisturbed [Provision]
    returns the volume it would have returned at first, and leaves the objects
    it would have left: those of the cluster before, and the server. *)
Theorem provision_recovers fuel fuel' p cfg opts vc o q policy s0 s :
  servable p cfg opts vc o q policy s0 ->
  rtc (attempt p opts fuel) s0 s -> c_ticks s <> 0 ->
  exists s', exec_on (Provision (S fuel') p opts) s =
      (s', Returned (Ok (nfs_pv opts policy (server_address p o)), ProvisioningFinished)) /\
    same_objects s' (with_server p o q s0).
Proof.
  intros R Hs Ht. apply (Provision_between p cfg opts vc o q policy s0 R); [|done].
  by eapply attempts_between.
Qed.

(** C7: deleting can be tried again: after any number of such attempts, one
    undisturbed [Delete] succeeds and leaves the objects of the cluster before
    the volume was provisioned. *)
Theorem delete_recovers fuel p cfg opts vc o q policy s0 s pv :
  servable p cfg opts vc o q policy s0 ->
  rtc (attempt p opts fuel) s0 s ->
  Name (pv_meta pv) = po_PVName opts ->
  pv_ReclaimPolicy (pv_spec pv) <> PersistentVolumeReclaimRetain ->
  exists s', exec_on (Provisioner.Delete p pv) s = (s', Returned None) /\ same_objects s' s0.
Proof.
  intros R Hs Hn Hr. apply (Delete_between p cfg opts vc o q policy s0 R); [done..|].
  by eapply attempts_between.
Qed.
End Recovery.
