(* ===== verification/GCCluster.v ===== *)
(** * The garbage collector against the in-memory cluster

    The abstract collector: walk over the listed claims and remove the server
    of each one that is stale.  A run of the code computes exactly that; what
    it protects and what it removes is then proved of the abstract collector. *)

From S2P Require Import Prelude GoStrings StringFacts K8sTypes MetaHelper Hook Prog KubeAPI HookExecute.
From S2P Require Import History Env VolumeConfig NodeAffinity NFSServer Provisioner NFSObjects.
From S2P Require Import GarbageCollector Tracker Cluster ClusterFacts.

Section GCCluster.
Context {C : CoreTypes} {P : PatchLib} {Y : MayaConfig} {M : MayaEnv}.
Implicit Types s : cluster.

(** The owner the labels name is gone, or is another claim of that name;
    [None] when the labels do not name one. *)
Definition owner_lost s (pvc : PersistentVolumeClaim) : option bool :=
  let label k := gomap_lookup (Labels (pvc_meta pvc)) k in
  match label nfsPvcNameLabelKey, label nfsPvcNsLabelKey, label nfsPvcUIDLabelKey with
  | Some n, Some ns, Some uid =>
      Some (match c_pvc s !! (ns, n) with
            | None => true
            | Some o => negb (bool_decide (uid = UID (pvc_meta o)))
            end)
  | _, _, _ => None
  end.

Definition volume_of (pvc : PersistentVolumeClaim) : string := nfs_pv_name (Name (pvc_meta pvc)).

Definition stale s (pvc : PersistentVolumeClaim) : bool :=
  match owner_lost s pvc with Some b => b | None => false end
  && negb (bool_decide (volume_of pvc = EmptyString))
  && negb (Inprogress (c_tracker s) (volume_of pvc))
  && bool_decide (c_pv s !! (EmptyString, volume_of pvc) = None).

Definition collect_one s (pvc : PersistentVolumeClaim) : cluster :=
  if stale s pvc then without_server (Namespace (pvc_meta pvc)) ("nfs-" +:+ volume_of pvc) s else s.

Definition collect (ns : string) s : cluster :=
  fold_left collect_one (list_pvcs s ns (CASTypeKey +:+ "=" +:+ "nfs-kernel")) s.

(** ** The code computes it *)

Lemma nfsPvcExists_cluster pvc s :
  exec_on (nfsPvcExists pvc) s =
  (s, Returned (match owner_lost s pvc with
                | Some lost => Ok (negb lost)
                | None => Err (ErrNew "backend PVC doesn't have sufficient information of nfs pvc")
                end)).
Proof.
  unfold nfsPvcExists, owner_lost. cbv zeta.
  destruct (gomap_lookup _ nfsPvcNameLabelKey) as [n|]; [|done].
  destruct (gomap_lookup _ nfsPvcNsLabelKey) as [ns|]; [|done].
  destruct (gomap_lookup _ nfsPvcUIDLabelKey) as [uid|]; [|done].
  etrans; [apply (exec_on_kget KPVC)|]. unfold get_response. cbn [store_of].
  change (obj_of KPVC) with PersistentVolumeClaim. destruct (c_pvc s !! (ns, n)) as [o|]; [|done].
  destruct (decide (uid = UID (pvc_meta o))) as [Hu|Hu].
  - by rewrite decide_False, bool_decide_eq_true_2 by tauto.
  - by rewrite decide_True, bool_decide_eq_false_2 by tauto.
Qed.

Lemma pvExists_cluster n s :
  exec_on (pvExists n) s = (s, Returned (Ok (negb (bool_decide (c_pv s !! (EmptyString, n) = None))))).
Proof.
  unfold pvExists. etrans; [apply (exec_on_kget KPV)|]. unfold get_response. cbn [store_of].
  change (obj_of KPV) with PersistentVolume. by destruct (c_pv s !! (EmptyString, n)).
Qed.

Lemma cleanup_one_cluster pvc s : exec_on (cleanup_one pvc) s = (collect_one s pvc, Returned tt).
Proof.
  unfold cleanup_one, collect_one, stale. rewrite exec_on_bind, nfsPvcExists_cluster. cbn beta iota.
  destruct (owner_lost s pvc) as [[]|]; [|done|done]. cbn [negb andb].
  change (nfs_pv_name (Name (pvc_meta pvc))) with (volume_of pvc).
  case_decide as Hv; [by rewrite bool_decide_eq_true_2|]. rewrite (bool_decide_eq_false_2 _ Hv).
  etrans; [apply (exec_on_call (RTrackInprogress (volume_of pvc)))|]. cbn [serve fst snd negb andb].
  destruct (Inprogress (c_tracker s) (volume_of pvc)); [done|]. cbn [negb andb].
  rewrite exec_on_bind, pvExists_cluster. cbn beta iota.
  case_bool_decide; [|done]. cbn [negb]. unfold deleteBackendStaleResources.
  destruct (deleteNFSServer_cluster (gc_provisioner (Namespace (pvc_meta pvc))) eq_refl
    (delete_opts (volume_of pvc)) s) as (o & Hd).
  rewrite !exec_on_bind, Hd. done.
Qed.

Lemma cleanUpStalePvc_cluster ns s : exec_on (cleanUpStalePvc ns) s = (collect ns s, Returned None).
Proof.
  unfold cleanUpStalePvc, collect.
  etrans; [apply (exec_on_call (RListPVC ns (CASTypeKey +:+ "=" +:+ "nfs-kernel")))|].
  cbn [serve fst snd]. generalize (list_pvcs s ns (CASTypeKey +:+ "=" +:+ "nfs-kernel")) as l.
  intros l. rewrite exec_on_bind.
  assert (Hl : exec_on (cleanup_all l) s = (fold_left collect_one l s, Returned tt)); [|by rewrite Hl].
  revert s. induction l as [|pvc l IH]; intros s; [done|]. cbn [cleanup_all fold_left].
  by rewrite exec_on_bind, cleanup_one_cluster, IH.
Qed.

(** ** What it protects and what it removes *)

Lemma cluster_delete_other k ns n s k' key :
  key <> (ns, n) -> store_of k' (cluster_delete k ns n s) !! key = store_of k' s !! key.
Proof.
  intros Hk. unfold cluster_delete. destruct (decide (k = k')) as [->|Hne].
  - by rewrite store_set_eq, lookup_delete_ne.
  - by rewrite store_set_ne.
Qed.

Lemma without_server_other ns n s k key :
  key <> (ns, n) -> store_of k (without_server ns n s) !! key = store_of k s !! key.
Proof. intros Hk. unfold without_server. by rewrite !cluster_delete_other. Qed.

Lemma without_server_gone ns n s k : k <> KPV -> store_of k (without_server ns n s) !! (ns, n) = None.
Proof. destruct s, k; try done; intros _; cbn; by rewrite lookup_delete_eq. Qed.

(** Deleting is monotone: nothing appears. *)
Lemma without_server_absent ns n s k key :
  store_of k s !! key = None -> store_of k (without_server ns n s) !! key = None.
Proof.
  intros Ha. destruct (decide (key = (ns, n))) as [->|]; [|by rewrite without_server_other].
  destruct (decide (k = KPV)) as [->|]; [|by apply without_server_gone]. by destruct s.
Qed.

Lemma without_server_frame ns n s :
  c_pv (without_server ns n s) = c_pv s /\ c_tracker (without_server ns n s) = c_tracker s.
Proof. by destruct s. Qed.

(** The claim of the owner can only disappear. *)
Lemma owner_lost_without ns n s pvc :
  owner_lost s pvc = Some true -> owner_lost (without_server ns n s) pvc = Some true.
Proof.
  unfold owner_lost. cbv zeta. repeat (destruct (gomap_lookup _ _); [|done]).
  rename s0 into on, s1 into ons, s2 into uid. intros H.
  destruct (decide ((ons, on) = (ns, n))) as [Heq|Hne].
  - rewrite Heq. pose proof (without_server_gone ns n s KPVC ltac:(done)) as Hg.
    cbn [store_of] in Hg.
    change (obj_of KPVC) with PersistentVolumeClaim in Hg. by rewrite Hg.
  - pose proof (without_server_other ns n s KPVC _ Hne) as Ho. cbn [store_of] in Ho.
    change (obj_of KPVC) with PersistentVolumeClaim in Ho. by rewrite Ho.
Qed.

Lemma stale_without ns n s pvc : stale s pvc = true -> stale (without_server ns n s) pvc = true.
Proof.
  unfold stale. destruct (without_server_frame ns n s) as [-> ->].
  rewrite !andb_true_iff. intros [[[Ho Hv] Ht] Hp]. split; [|done]. split; [|done]. split; [|done].
  destruct (owner_lost s pvc) as [[]|] eqn:Hl; try done. by rewrite owner_lost_without.
Qed.

Lemma collect_one_stale s pvc pvc' : stale s pvc = true -> stale (collect_one s pvc') pvc = true.
Proof. intros Hs. unfold collect_one. destruct (stale s pvc'); [by apply stale_without|done]. Qed.

Lemma collect_one_absent s pvc k key :
  store_of k s !! key = None -> store_of k (collect_one s pvc) !! key = None.
Proof. intros Ha. unfold collect_one. destruct (stale s pvc); [by apply without_server_absent|done]. Qed.

Lemma fold_absent l s k key :
  store_of k s !! key = None -> store_of k (fold_left collect_one l s) !! key = None.
Proof. revert s. induction l as [|pvc l IH]; intros s Ha; [done|]. by apply IH, collect_one_absent. Qed.

Lemma collect_removes l s pvc k :
  pvc ∈ l -> stale s pvc = true -> k <> KPV ->
  store_of k (fold_left collect_one l s) !! (Namespace (pvc_meta pvc), "nfs-" +:+ volume_of pvc) = None.
Proof.
  revert s. induction l as [|x l IH]; intros s Hin Hs Hk; [by apply not_elem_of_nil in Hin|].
  cbn [fold_left]. apply elem_of_cons in Hin as [<-|Hin].
  - apply fold_absent. unfold collect_one. rewrite Hs. by apply without_server_gone.
  - apply IH; [done| |done]. by apply collect_one_stale.
Qed.

(** A volume that exists or is being worked on. *)
Definition protected s (v : string) : Prop :=
  Inprogress (c_tracker s) v = true \/ is_Some (c_pv s !! (EmptyString, v)).

Lemma collect_one_frame s pvc :
  c_pv (collect_one s pvc) = c_pv s /\ c_tracker (collect_one s pvc) = c_tracker s.
Proof. unfold collect_one. destruct (stale s pvc); [apply without_server_frame|done]. Qed.

Lemma protected_not_stale s pvc : protected s (volume_of pvc) -> stale s pvc = false.
Proof.
  intros Hp. apply not_true_is_false. unfold stale. rewrite !andb_true_iff. intros [[_ Ht] Hn].
  apply bool_decide_eq_true in Hn. destruct Hp as [Hp|[? Hp]]; [by rewrite Hp in Ht|congruence].
Qed.

Lemma collect_protects l s v k ns :
  protected s v ->
  store_of k (fold_left collect_one l s) !! (ns, "nfs-" +:+ v) = store_of k s !! (ns, "nfs-" +:+ v).
Proof.
  revert s. induction l as [|pvc l IH]; intros s Hp; [done|]. cbn [fold_left]. rewrite IH.
  2:{ unfold protected. destruct (collect_one_frame s pvc) as [-> ->]. done. }
  unfold collect_one. destruct (decide (volume_of pvc = v)) as [<-|Hne].
  - by rewrite protected_not_stale.
  - destruct (stale s pvc); [|done]. apply without_server_other. intros [= _ Heq].
    apply Hne. symmetry. exact Heq.
Qed.

(** C8: a run of the collector on a cluster is the abstract collector, which
    walks over the labelled claims and removes the server of each stale one:
    afterwards the server of every stale claim is gone, the objects of a volume
    that exists or that a request is working on are untouched, volumes and
    tracker are as before, and nothing appeared. *)
Theorem collector_effect ns s :
  exists s', exec_on (cleanUpStalePvc ns) s = (s', Returned None) /\ s' = collect ns s /\
  (forall pvc k, pvc ∈ list_pvcs s ns (CASTypeKey +:+ "=" +:+ "nfs-kernel") -> stale s pvc = true ->
     k <> KPV -> store_of k s' !! (Namespace (pvc_meta pvc), "nfs-" +:+ volume_of pvc) = None) /\
  (forall v k ns', protected s v ->
     store_of k s' !! (ns', "nfs-" +:+ v) = store_of k s !! (ns', "nfs-" +:+ v)) /\
  c_pv s' = c_pv s /\ c_tracker s' = c_tracker s /\
  (forall k key, store_of k s !! key = None -> store_of k s' !! key = None).
Proof.
  exists (collect ns s). split; [apply cleanUpStalePvc_cluster|]. split; [done|].
  split; [intros; by apply collect_removes|]. split; [intros; by apply collect_protects|].
  unfold collect. generalize (list_pvcs s ns (CASTypeKey +:+ "=" +:+ "nfs-kernel")) as l. intros l.
  assert (Hf : c_pv (fold_left collect_one l s) = c_pv s /\
               c_tracker (fold_left collect_one l s) = c_tracker s).
  { revert s. induction l as [|x l IH]; intros s; [done|]. cbn [fold_left].
    destruct (IH (collect_one s x)) as [-> ->]. apply collect_one_frame. }
  destruct Hf as [-> ->]. split; [done|]. split; [done|]. intros k key. apply fold_absent.
Qed.

Lemma nfs_pv_name_of opts :
  str_forall visible (pvName opts) = true -> nfs_pv_name (nfs_name opts) = pvName opts.
Proof.
  intros Hv. unfold nfs_pv_name, nfs_name, Sscanf_lit_s. rewrite strip_prefix_app.
  assert (Ht : trim_left_of (filter (fun e => e <> newline) space_encodings) (pvName opts) = pvName opts).
  { destruct (pvName opts) as [|c n]; [done|]. simpl in Hv. apply andb_true_iff in Hv as [Hc _].
    unfold trim_left_of. cbn [String.length trim_left_fuel].
    rewrite strip_any_first; [done|]. apply forallb_forall. intros e He.
    pose proof (space_first c Hc) as Hs. rewrite forallb_forall in Hs. apply Hs.
    apply list_elem_of_In in He. apply list_elem_of_In.
    by apply list_elem_of_filter in He as [_ He]. }
  rewrite Ht. by apply scan_token_visible.
Qed.

(** C25: the collector finds the volume behind a claim: for a volume name without
    blanks, the name read off the claim of a server is the volume's, and the
    objects it then deletes are the ones provisioning created. *)
Theorem collector_name_roundtrip opts :
  str_forall visible (pvName opts) = true ->
  nfs_pv_name (nfs_name opts) = pvName opts /\
  nfs_name (delete_opts (nfs_pv_name (nfs_name opts))) = nfs_name opts.
Proof. intros Hv%nfs_pv_name_of. by rewrite Hv. Qed.

(** ** The loop *)

(** A run at the start, then one per tick. *)
Fixpoint passes (ns : string) (ticks : nat) s : cluster :=
  match ticks with
  | O => s
  | S n => passes ns n (collect ns (set_gc_ticks n s))
  end.

Lemma collect_gc_ticks ns s : c_gc_ticks (collect ns s) = c_gc_ticks s.
Proof.
  unfold collect. generalize (list_pvcs s ns (CASTypeKey +:+ "=" +:+ "nfs-kernel")) as l. intros l.
  revert s. induction l as [|x l IH]; intros s; [done|]. cbn [fold_left]. rewrite IH.
  unfold collect_one. by destruct (stale s x).
Qed.

Lemma gc_loop_cluster ns n : forall fuel s,
  n < fuel -> c_gc_ticks s = n -> exec_on (gc_loop fuel ns) s = (passes ns n s, Returned tt).
Proof.
  induction n as [|n IH]; intros [|fuel] s Hf Hn; try lia; cbn [gc_loop];
    (etrans; [apply (exec_on_call RSelectDone)|]); cbn [serve]; rewrite Hn; cbn [fst snd]; [done|].
  rewrite exec_on_bind, cleanUpStalePvc_cluster. apply IH; [lia|].
  by rewrite collect_gc_ticks.
Qed.

(** C20: the collector's goroutine ends: when its context is done after [n] more
    ticks, it has run [n + 1] times, and every run was a complete one. *)
Theorem collector_terminates fuel ns s :
  c_gc_ticks s < fuel ->
  exec_on (RunGarbageCollector fuel ns) s = (passes ns (c_gc_ticks s) (collect ns s), Returned tt).
Proof.
  intros Hf. unfold RunGarbageCollector. rewrite exec_on_bind, cleanUpStalePvc_cluster.
  apply gc_loop_cluster; [done|apply collect_gc_ticks].
Qed.
End GCCluster.
