(* ===== verification/Abandoned.v ===== *)
(** * The collector cleans up what was abandoned

    A claim is deleted while its volume is being provisioned, or after attempts
    that failed: nobody will try again.  The collector finds the server by its
    backend claim, and removes all of it. *)

From S2P Require Import Prelude GoStrings StringFacts K8sTypes MetaHelper Hook Prog KubeAPI HookExecute.
From S2P Require Import History Env VolumeConfig NodeAffinity NFSServer Provisioner NFSObjects.
From S2P Require Import GarbageCollector Tracker Cluster Faults ClusterFacts ProvisionCluster Recovery GCCluster.

Section Abandoned.
Context {C : CoreTypes} {P : PatchLib} {Y : MayaConfig} {M : MayaEnv} {N : ProvisionerLib}.
Implicit Types s : cluster.

(** What maya calls the label by which the collector lists the claims. *)
Definition cas_type_label : Prop := CASTypeKey = "openebs.io/cas-type".

Lemma backend_pvc_owner p o q :
  let label k := gomap_lookup (Labels (pvc_meta (backend_pvc p o q))) k in
  label nfsPvcNameLabelKey = Some (pvcName o) /\ label nfsPvcNsLabelKey = Some (pvcNamespace o) /\
  label nfsPvcUIDLabelKey = Some (pvcUID o).
Proof.
  cbn. unfold gomap_lookup, gomap_get. cbn. by rewrite !lookup_insert.
Qed.

Lemma backend_pvc_cas_type o :
  gomap_get (backend_pvc_labels o) !! "openebs.io/cas-type" = Some "nfs-kernel".
Proof.
  unfold backend_pvc_labels, getLabels. change (gomap_get (Some ?m)) with m.
  rewrite !lookup_insert_ne by done. cbn [list_to_map foldr].
  by rewrite lookup_insert_ne, lookup_insert, decide_True.
Qed.

Lemma backend_pvc_matches p o q :
  cas_type_label ->
  matches_selector (CASTypeKey +:+ "=" +:+ "nfs-kernel") (pvc_meta (backend_pvc p o q)) = true.
Proof.
  intros Hd. unfold matches_selector.
  change (Labels (pvc_meta (backend_pvc p o q))) with (backend_pvc_labels o).
  generalize (backend_pvc_cas_type o). rewrite <- Hd. generalize (gomap_get (backend_pvc_labels o)).
  intros m Hm. apply existsb_exists. exists (CASTypeKey, "nfs-kernel").
  split; [|by apply bool_decide_eq_true]. apply list_elem_of_In. by apply elem_of_map_to_list.
Qed.

Lemma list_pvcs_elem s ns sel n (o : PersistentVolumeClaim) :
  c_pvc s !! (ns, n) = Some o -> matches_selector sel (pvc_meta o) = true -> o ∈ list_pvcs s ns sel.
Proof.
  intros Ho Hm. unfold list_pvcs. apply list_elem_of_In, in_map_iff. exists ((ns, n), o).
  split; [done|]. apply list_elem_of_In, list_elem_of_filter. split; [done|].
  by apply elem_of_map_to_list.
Qed.

Lemma stored_pvc_meta s (x : PersistentVolumeClaim) : pvc_meta (stored_object s KPVC x) = pvc_meta x.
Proof. simpl. by destruct (c_bind s). Qed.

(** The claim that was stored for a server is stale, once its owner and volume
    are gone and nobody works on it. *)
Lemma abandoned_stale s p o q (x : PersistentVolumeClaim) :
  pvc_meta x = pvc_meta (backend_pvc p o q) -> str_forall visible (pvName o) = true ->
  pvName o <> EmptyString ->
  c_pvc s !! (pvcNamespace o, pvcName o) = None -> c_pv s !! (EmptyString, pvName o) = None ->
  Inprogress (c_tracker s) (pvName o) = false ->
  stale s x = true /\ volume_of x = pvName o.
Proof.
  intros Hm Hv Hne Hown Hpv Hidle.
  assert (Hvol : volume_of x = pvName o).
  { unfold volume_of. rewrite Hm. by apply nfs_pv_name_of. }
  split; [|done]. unfold stale. rewrite Hvol, Hidle, (bool_decide_eq_true_2 _ Hpv),
    (bool_decide_eq_false_2 _ Hne).
  destruct (backend_pvc_owner p o q) as (H1 & H2 & H3).
  unfold owner_lost. rewrite Hm, H1, H2, H3, Hown. done.
Qed.

(** C9: whatever attempts were made to provision or to delete a volume, however
    they failed and wherever they stopped, when the user's claim is deleted, no
    volume exists and no request is running, one undisturbed run of the
    collector removes every object of the server: none is ever left without the
    backend claim by which the collector finds it. *)
Theorem abandoned_collected fuel p cfg opts vc o q policy s0 s :
  servable p cfg opts vc o q policy s0 ->
  rtc (attempt p opts fuel) s0 s ->
  cas_type_label -> str_forall visible (po_PVName opts) = true ->
  c_pv s0 !! (EmptyString, po_PVName opts) = None ->
  (pvcNamespace o, pvcName o) <> (serverNamespace p, nfs_name o) ->
  let s1 := set_tracker ∅ (cluster_delete KPVC (pvcNamespace o) (pvcName o) s) in
  exists s', exec_on (cleanUpStalePvc (serverNamespace p)) s1 = (s', Returned None) /\
    forall k, k <> KPV -> absent k (serverNamespace p) (nfs_name o) s'.
Proof.
  intros R Hs Hlabel Hvis Hpv Hown s1.
  pose proof (attempts_between p cfg opts vc o q policy s0 R fuel s Hs) as Hb.
  pose proof (server_options_pvName _ _ _ _ (sv_options _ _ _ _ _ _ _ _ R)) as Hname.
  exists (collect (serverNamespace p) s1). split; [apply cleanUpStalePvc_cluster|].
  assert (Hsame : forall k, store_of k s1 !! (serverNamespace p, nfs_name o) =
                            store_of k s !! (serverNamespace p, nfs_name o)).
  { intros k. transitivity (store_of k (cluster_delete KPVC (pvcNamespace o) (pvcName o) s)
      !! (serverNamespace p, nfs_name o)); [by destruct k, s|]. by apply cluster_delete_other. }
  intros k Hk. unfold absent, collect.
  destruct (store_of KPVC s !! (serverNamespace p, nfs_name o)) as [x|] eqn:Hx.
  - (* the claim is there: it is listed and stale *)
    destruct (between_found p cfg opts vc o q policy s0 R s KPVC x Hb Hx ltac:(done)) as (w & [= <-] & Hst).
    assert (Hmeta : pvc_meta x = pvc_meta (backend_pvc p o q)).
    { rewrite Hst, lookup_insert, decide_True in Hx by done.
      apply (f_equal (option_map pvc_meta)) in Hx. cbn [option_map] in Hx.
      rewrite stored_pvc_meta in Hx. congruence. }
    destruct (abandoned_stale s1 p o q x) as [Hstale Hvol]; [done|by rewrite Hname|..].
    + rewrite Hname. apply (sv_name _ _ _ _ _ _ _ _ R).
    + cbn. apply lookup_delete_eq.
    + rewrite Hname. destruct (bt_store _ _ _ _ _ Hb KPV) as [Hp|(w & Hw & _)]; [|done].
      etrans; [|exact Hpv]. cbn [store_of] in Hp. unfold s1. by rewrite <- Hp.
    + by apply bool_decide_eq_false.
    + pose proof (collect_removes (list_pvcs s1 (serverNamespace p) (CASTypeKey +:+ "=" +:+ "nfs-kernel"))
        s1 x k) as Hr. rewrite Hvol, Hmeta in Hr.
      assert (Hns : Namespace (pvc_meta (backend_pvc p o q)) = serverNamespace p).
      { cbn. unfold or_default. destruct (decide _) as [H0|]; [|done]. destruct (sv_namespace _ _ _ _ _ _ _ _ R). by destruct (serverNamespace p). }
      rewrite Hns in Hr. apply Hr; [|done..].
      apply (list_pvcs_elem s1 _ _ (nfs_name o)); [exact (eq_trans (Hsame KPVC) Hx)|].
      rewrite Hmeta. by apply backend_pvc_matches.
  - (* without the claim there is nothing *)
    apply fold_absent. rewrite Hsame. apply eq_None_not_Some. intros Hsome.
    destruct (decide (k = KPVC)) as [->|Hne]; [by rewrite Hx in Hsome; destruct Hsome|].
    destruct (bt_claim _ _ _ _ _ Hb k) as [y Hy]; [destruct k; tauto|done|]. congruence.
Qed.
End Abandoned.
