(* ===== verification/Concurrency.v ===== *)
(** * Handlers running concurrently

    The volume controller runs [Provision] and [Delete] in goroutines of the
    process that also runs the garbage collector.  A system is a cluster and one
    program per goroutine; a step lets one of them make its next request, or
    lets anything outside the process change the cluster.  Only the tracker is
    private to the process.  A request is atomic: the tracker's methods hold its
    mutex, and the API server serialises the rest. *)

From S2P Require Import Prelude GoStrings K8sTypes MetaHelper Hook Prog KubeAPI HookExecute.
From S2P Require Import History Env VolumeConfig NodeAffinity NFSServer Provisioner NFSObjects.
From S2P Require Import NFSDeleteFacts NFSCreateFacts ProvisionerFacts GarbageCollector GCFacts.
From S2P Require Import Tracker Cluster.

Section Concurrency.
Context {C : CoreTypes} {P : PatchLib} {Y : MayaConfig} {M : MayaEnv} {N : ProvisionerLib}.

(** ** Interleaved runs *)

Definition system : Type := cluster * list (io ()).

Abbreviation trace := (list (nat * ev)).

(** [sys_run init tr fin]: from [init], the goroutines made the requests [tr],
    each with the number of its goroutine, and [fin] is reached. *)
Inductive sys_run (init : system) : trace -> system -> Prop :=
| run_init : sys_run init [] init
| run_outside tr s s' ts :
    sys_run init tr (s, ts) -> c_tracker s' = c_tracker s -> sys_run init tr (s', ts)
| run_request tr s ts i r k :
    sys_run init tr (s, ts) -> ts !! i = Some (PCall r k) ->
    sys_run init (tr ++ [(i, Event r (serve s r).2)]) ((serve s r).1, <[i := k (serve s r).2]> ts).

(** What goroutine [i] did. *)
Definition proj (i : nat) (tr : trace) : list ev := snd <$> filter (fun e => e.1 = i) tr.

Lemma proj_app i tr1 tr2 : proj i (tr1 ++ tr2) = proj i tr1 ++ proj i tr2.
Proof. unfold proj. by rewrite filter_app, fmap_app. Qed.

Lemma proj_snoc i j e tr : proj i (tr ++ [(j, e)]) = proj i tr ++ if decide (j = i) then [e] else [].
Proof. rewrite proj_app. f_equal. unfold proj. rewrite filter_cons. simpl. by case_decide. Qed.

(** A goroutine cannot tell that it is not alone: its requests are a run of its
    program, and what is left of it continues that run. *)
Lemma run_residual s0 ts0 tr s ts i p :
  sys_run (s0, ts0) tr (s, ts) -> ts0 !! i = Some p ->
  exists q, ts !! i = Some q /\ forall t o, exec q t o -> exec p (proj i tr ++ t) o.
Proof.
  intros Hr Hp. remember (s, ts) as fin eqn:Hf. revert s ts Hf.
  induction Hr as [|tr s1 s1' ts1 Hr IH Ht|tr s1 ts1 j r k Hr IH Hj]; intros s ts Hf.
  - injection Hf as <- <-. by exists p.
  - injection Hf as <- <-. by eapply IH.
  - injection Hf as <- <-. destruct (IH _ _ eq_refl) as (q & Hq & Hexec).
    rewrite proj_snoc. destruct (decide (j = i)) as [->|Hne].
    + rewrite Hj in Hq. injection Hq as <-. exists (k (serve s1 r).2).
      split; [apply list_lookup_insert_eq; by eapply lookup_lt_Some|].
      intros t o He. rewrite <- app_assoc. apply Hexec. by constructor.
    + exists q. rewrite list_lookup_insert_ne by done. split; [done|].
      intros t o He. rewrite app_nil_r. by apply Hexec.
Qed.

Lemma run_thread s0 ts0 tr fin i p :
  sys_run (s0, ts0) tr fin -> ts0 !! i = Some p -> exec p (proj i tr) None.
Proof.
  destruct fin as [s ts]. intros Hr Hp. destruct (run_residual _ _ _ _ _ _ _ Hr Hp) as (q & _ & Hq).
  rewrite <- (app_nil_r (proj i tr)). apply Hq. constructor.
Qed.

(** Runs have prefixes. *)
Lemma run_prefix init tr1 tr2 fin :
  sys_run init (tr1 ++ tr2) fin -> exists mid, sys_run init tr1 mid.
Proof.
  revert fin. induction tr2 as [|e tr2 IH] using rev_ind; intros fin Hr.
  - rewrite app_nil_r in Hr. by exists fin.
  - rewrite app_assoc in Hr. remember ((tr1 ++ tr2) ++ [e]) as tr eqn:Ht.
    induction Hr as [|tr s s' ts Hr IHr Htr|tr s ts i r k Hr IHr Hi].
    + by destruct (tr1 ++ tr2).
    + by apply IHr.
    + apply app_inj_tail in Ht as [-> _]. by eapply IH.
Qed.

(** The run of a schedule: who makes the next request. *)
Fixpoint run_schedule (sched : list nat) (tr : trace) (sys : system) : trace * system :=
  match sched with
  | [] => (tr, sys)
  | i :: rest =>
      match sys.2 !! i with
      | Some (PCall r k) =>
          run_schedule rest (tr ++ [(i, Event r (serve sys.1 r).2)])
            ((serve sys.1 r).1, <[i := k (serve sys.1 r).2]> sys.2)
      | _ => run_schedule rest tr sys
      end
  end.

Lemma run_schedule_run init sched tr sys :
  sys_run init tr sys ->
  sys_run init (run_schedule sched tr sys).1 (run_schedule sched tr sys).2.
Proof.
  revert tr sys. induction sched as [|i sched IH]; intros tr [s ts] Hr; [done|].
  cbn [run_schedule fst snd]. destruct (ts !! i) as [[a| | |r k]|] eqn:Hi; [by apply IH..| |by apply IH].
  apply IH. by eapply run_request.
Qed.

(** The last request of a run was answered by the server. *)
Lemma run_last init tr j r x fin :
  sys_run init (tr ++ [(j, Event r x)]) fin ->
  exists s ts, sys_run init tr (s, ts) /\ Event r x = Event r (serve s r).2.
Proof.
  intros Hr. remember (tr ++ [(j, Event r x)]) as t eqn:Ht.
  induction Hr as [|t s s' ts Hr IH Htr|t s ts i r' k Hr IH Hi].
  - by destruct tr.
  - by apply IH.
  - apply app_inj_tail in Ht as [-> He]. apply (f_equal snd) in He. cbn [snd] in He.
    pose proof (f_equal ev_req He) as Hreq. cbn in Hreq. subst r'. by exists s, ts.
Qed.

(** The tracker's answer in an event. *)
Definition inprogress_of (e : ev) : option bool :=
  match ev_req e as r return resp r -> option bool with
  | RTrackInprogress _ => fun b => Some b
  | _ => fun _ => None
  end (ev_resp e).

(** ** The tracker is what the trace says *)

Lemma serve_tracker s r n :
  Inprogress (c_tracker (serve s r).1) n =
  match r with
  | RTrackAdd m => if decide (m = n) then true else Inprogress (c_tracker s) n
  | RTrackDelete m => if decide (m = n) then false else Inprogress (c_tracker s) n
  | _ => Inprogress (c_tracker s) n
  end.
Proof.
  destruct r; cbn [serve]; repeat case_match; cbn [fst set_tracker c_tracker]; try done;
    try (by destruct k); try (by destruct s).
  all: rewrite ?Inprogress_Add, ?Inprogress_Delete; by case_bool_decide.
Qed.

Lemma run_tracker s0 ts0 tr s ts n :
  sys_run (s0, ts0) tr (s, ts) -> c_tracker s0 = NewProvisioningTracker ->
  Inprogress (c_tracker s) n = tracked n (snd <$> tr).
Proof.
  intros Hr H0. remember (s, ts) as fin eqn:Hf. revert s ts Hf.
  induction Hr as [|tr s1 s1' ts1 Hr IH Ht|tr s1 ts1 j r k Hr IH Hj]; intros s ts Hf; injection Hf as <- <-.
  - rewrite H0. apply Inprogress_new.
  - rewrite Ht. by eapply IH.
  - rewrite serve_tracker, fmap_app. cbn [fmap list_fmap snd]. rewrite tracked_snoc.
    specialize (IH _ _ eq_refl). destruct r; try exact IH; by case_decide.
Qed.

(** ** The goroutines of the process *)

Inductive task :=
| TProvision (p : Provisioner) (opts : ProvisionOptions)
| TDelete (p : Provisioner) (pv : PersistentVolume)
| TCollect (ns : string).

(** The handler, its results dropped. *)
Definition task_prog (fuel : nat) (t : task) : io () :=
  match t with
  | TProvision p opts => Provision fuel p opts;; PRet tt
  | TDelete p pv => Provisioner.Delete p pv;; PRet tt
  | TCollect ns => cleanUpStalePvc ns;; PRet tt
  end.

(** The volume a handler works on. *)
Definition task_volume (t : task) : option string :=
  match t with
  | TProvision _ opts => Some (po_PVName opts)
  | TDelete _ pv => Some (Name (pv_meta pv))
  | TCollect _ => None
  end.

(** What a handler may request when, by the safety theorems on single handlers. *)
Definition task_discipline (t : task) : list ev -> req -> Prop :=
  match t with
  | TProvision p opts => bracketed (po_PVName opts) (body_requests p opts)
  | TDelete p pv => bracketed (Name (pv_meta pv)) (delete_requests p (nfs_of pv))
  | TCollect ns => gc_discipline ns
  end.

(** A provisioner that [NewProvisioner] built reads its own configuration. *)
Definition task_ok (t : task) : Prop :=
  match t with
  | TProvision p _ => exists cfg, getVolumeConfig p = GetVolumeConfig cfg
  | _ => True
  end.

Lemma wp_then_done {A} G (p : io A) h Q :
  wp G p h Q -> wp G (p;; PRet tt) h (fun _ _ => True).
Proof. intros Hw. apply wp_seq. eapply wp_mono, Hw. by intros h' [] _ _. Qed.

Lemma wp_task fuel t : task_ok t -> wp (task_discipline t) (task_prog fuel t) [] (fun _ _ => True).
Proof.
  destruct t as [p opts|p pv|ns]; cbn [task_ok task_prog task_discipline].
  - intros [cfg Hcfg]. eapply wp_then_done. by eapply wp_Provision.
  - intros _. eapply wp_then_done. apply wp_Delete.
  - intros _. eapply wp_then_done. apply wp_cleanUpStalePvc.
Qed.

(** ** The shape of a tracked handler's requests *)

Definition no_track (t : list ev) : Prop := Forall (fun e => is_track (ev_req e) = false) t.

(** Nothing yet, or started, or finished. *)
Definition bracket_shape (n : string) (t : list ev) : Prop :=
  t = [] \/
  exists body, no_track body /\
    (t = Event (RTrackAdd n) tt :: body \/
     t = Event (RTrackAdd n) tt :: body ++ [Event (RTrackDelete n) tt]).

Lemma exec_defer_shape {A} n (p : io A) h Q t o :
  wp (fun _ r => is_track r = false) p h Q ->
  exec ((defer (track_delete n) p);; PRet tt) t o ->
  exists body, no_track body /\ (t = body \/ t = body ++ [Event (RTrackDelete n) tt]).
Proof.
  revert h t. induction p as [a| | |r k IH]; intros h t Hw He.
  - apply (exec_inv (Resp := resp)) in He as [[-> _]|([] & t' & -> & He)].
    { exists []. split; [constructor|by left]. }
    apply (exec_inv (Resp := resp)) in He as [-> _]. exists []. split; [constructor|by right].
  - apply (exec_inv (Resp := resp)) in He as [[-> _]|([] & t' & -> & He)].
    { exists []. split; [constructor|by left]. }
    apply (exec_inv (Resp := resp)) in He as [-> _]. exists []. split; [constructor|by right].
  - apply (exec_inv (Resp := resp)) in He as [-> _]. exists []. split; [constructor|by left].
  - destruct Hw as [Hr Hk]. apply (exec_inv (Resp := resp)) in He as [[-> _]|(x & t' & -> & He)].
    { exists []. split; [constructor|by left]. }
    destruct (IH x _ t' (Hk x) He) as (body & Hb & [-> | ->]).
    + exists (Event r x :: body). split; [by constructor|by left].
    + exists (Event r x :: body). split; [by constructor|by right].
Qed.

Lemma exec_bracket_shape {A} n (p : io A) h Q t o :
  wp (fun _ r => is_track r = false) p h Q ->
  exec ((track_add n;; defer (track_delete n) p);; PRet tt) t o -> bracket_shape n t.
Proof.
  intros Hw He. apply (exec_inv (Resp := resp)) in He as [[-> _]|([] & t' & -> & He)]; [by left|].
  right. destruct (exec_defer_shape n p h Q t' o Hw He) as (body & Hb & [-> | ->]);
    exists body; (split; [done|]); [by left|by right].
Qed.

Lemma task_shape fuel t n tr o :
  task_ok t -> task_volume t = Some n -> exec (task_prog fuel t) tr o -> bracket_shape n tr.
Proof.
  destruct t as [p opts|p pv|ns]; cbn [task_ok task_volume task_prog]; [| |done].
  - intros [cfg Hcfg] [= <-]. apply (exec_bracket_shape _ _ [] (body_post p opts)).
    eapply wp_weaken, (wp_provision_body fuel cfg); [|done].
    intros h r _. apply body_requests_not_track.
  - intros _ [= <-]. unfold Provisioner.Delete.
    apply (exec_bracket_shape _ _ [] (fun _ _ => True)). apply wp_seq.
    eapply wp_mono, wp_weaken, wp_delete_body; [by intros h' [] _ _|].
    intros h r _. apply delete_requests_not_track.
Qed.

Lemma collect_no_track fuel ns tr o : exec (task_prog fuel (TCollect ns)) tr o -> no_track tr.
Proof.
  intros He. pose proof (wp_then_done _ _ _ _ (wp_cleanUpStalePvc ns [])) as Hw.
  destruct (wp_run _ _ _ _ _ Hw He) as [Hobey _]. apply Forall_forall. intros e Hin.
  apply list_elem_of_split in Hin as (t1 & t2 & ->).
  destruct (Hobey t1 e t2 eq_refl) as [Hr|(pvcs & pvc & _ & _ & _ & (k & m & ->) & _)]; [|done].
  by destruct (ev_req e).
Qed.

(** Reading the mark off the shape. *)
Lemma tracked_no_track n b body : no_track body -> tracked_from b n body = b.
Proof.
  intros Hb. induction Hb as [|e body He Hb IH]; [done|]. cbn [tracked_from]. destruct e as [r x].
  simpl in *. by destruct r.
Qed.

Lemma bracket_idle n t : bracket_shape n t -> tracked n t = false ->
  t = [] \/ exists body, no_track body /\ t = Event (RTrackAdd n) tt :: body ++ [Event (RTrackDelete n) tt].
Proof.
  intros [->|(body & Hb & [-> | ->])] Ht; [by left| |right; by exists body].
  unfold tracked in Ht. cbn [tracked_from ev_req] in Ht. rewrite decide_True in Ht by done.
  by rewrite tracked_no_track in Ht.
Qed.

(** A finished handler makes no further request. *)
Lemma bracket_finished n body t :
  no_track body ->
  bracket_shape n (Event (RTrackAdd n) tt :: (body ++ [Event (RTrackDelete n) tt]) ++ t) -> t = [].
Proof.
  intros Hb [?|(body' & Hb' & [Heq|Heq])]; [done| |]; injection Heq as Heq.
  - exfalso. assert (Hin : Event (RTrackDelete n) tt ∈ body') by (rewrite <- Heq; set_solver).
    by pose proof (proj1 (Forall_forall _ _) Hb' _ Hin).
  - destruct t as [|e t _] using rev_ind; [done|]. exfalso.
    rewrite !app_assoc in Heq. apply app_inj_tail in Heq as [Heq _].
    assert (Hin : Event (RTrackDelete n) tt ∈ body') by (rewrite <- Heq; set_solver).
    by pose proof (proj1 (Forall_forall _ _) Hb' _ Hin).
Qed.

(** The tracker requests of a handler are on its own volume. *)
Lemma shape_names m n t r x :
  bracket_shape m t -> Event r x ∈ t -> r = RTrackAdd n \/ r = RTrackDelete n -> m = n.
Proof.
  intros Hs Hin Hr.
  assert (Hb : forall body, no_track body -> Event r x ∉ body).
  { intros body Hb Hin'. pose proof (proj1 (Forall_forall _ _) Hb _ Hin') as Hn. cbn in Hn.
    by destruct Hr as [-> | ->]. }
  assert (Hadd : Event r x = Event (RTrackAdd m) tt -> m = n).
  { intros He. apply (f_equal ev_req) in He. cbn in He. subst r.
    by destruct Hr as [[= ->]|?]. }
  assert (Hdel : Event r x = Event (RTrackDelete m) tt -> m = n).
  { intros He. apply (f_equal ev_req) in He. cbn in He. subst r.
    by destruct Hr as [?|[= ->]]. }
  destruct Hs as [->|(body & Hbody & [-> | ->])]; [by apply not_elem_of_nil in Hin| |].
  - apply elem_of_cons in Hin as [Hin|Hin]; [by apply Hadd|by destruct (Hb body Hbody)].
  - apply elem_of_cons in Hin as [Hin|Hin]; [by apply Hadd|].
    apply elem_of_app in Hin as [Hin|Hin]; [by destruct (Hb body Hbody)|].
    apply list_elem_of_singleton in Hin. by apply Hdel.
Qed.

Lemma elem_proj j e tr : (j, e) ∈ tr -> e ∈ proj j tr.
Proof.
  intros Hin. unfold proj. apply list_elem_of_fmap. exists (j, e). split; [done|].
  by apply list_elem_of_filter.
Qed.

(** When only goroutine [i] tracks [n], its own requests decide the mark. *)
Lemma tracked_proj n i tr :
  (forall j r x, (j, Event r x) ∈ tr -> r = RTrackAdd n \/ r = RTrackDelete n -> j = i) ->
  tracked n (snd <$> tr) = tracked n (proj i tr).
Proof.
  induction tr as [|[j [r x]] tr IH] using rev_ind; intros Ho; [done|].
  rewrite fmap_app, proj_snoc. cbn [fmap list_fmap snd]. rewrite tracked_snoc.
  assert (IH' : tracked n (snd <$> tr) = tracked n (proj i tr)).
  { apply IH. intros j' r' x' Hin. apply (Ho j' r' x'). set_solver. }
  rewrite IH'. case_decide as Hj; [by rewrite tracked_snoc|]. rewrite app_nil_r.
  destruct r; try done; case_decide; try done; subst; exfalso; apply Hj; apply (Ho j _ x);
    (set_solver || by auto).
Qed.

Lemma run_range init tr fin :
  sys_run init tr fin ->
  length fin.2 = length init.2 /\ forall j e, (j, e) ∈ tr -> j < length init.2.
Proof.
  induction 1 as [|tr s s' ts Hr IH Ht|tr s ts i r k Hr [IH1 IH2] Hi].
  - split; [done|]. intros j e Hin. by apply not_elem_of_nil in Hin.
  - exact IH.
  - cbn [snd] in *. split; [by rewrite length_insert|]. intros j e Hin.
    apply elem_of_app in Hin as [Hin|Hin]; [by eapply IH2|].
    apply list_elem_of_singleton in Hin. injection Hin as -> _.
    apply lookup_lt_Some in Hi. exact (eq_ind _ (fun l => i < l) Hi _ IH1).
Qed.

(** ** Theorems *)

Section Process.
Context (fuel : nat) (tasks : list task) (s0 : cluster).

(** At most one handler per volume runs at a time, as the volume controller
    ensures, and the process starts with an empty tracker. *)
Record process_ok : Prop := {
  po_tasks : Forall task_ok tasks;
  po_start : c_tracker s0 = NewProvisioningTracker;
  po_volumes : forall i j t u n, tasks !! i = Some t -> tasks !! j = Some u ->
    task_volume t = Some n -> task_volume u = Some n -> i = j;
}.

Definition process : system := (s0, task_prog fuel <$> tasks).

Lemma process_thread i t : tasks !! i = Some t -> process.2 !! i = Some (task_prog fuel t).
Proof. intros Ht. unfold process. cbn [snd]. by rewrite list_lookup_fmap, Ht. Qed.

Lemma task_exec tr fin i t :
  sys_run process tr fin -> tasks !! i = Some t -> exec (task_prog fuel t) (proj i tr) None.
Proof. intros Hr Ht. eapply run_thread; [exact Hr|]. by apply process_thread. Qed.

Lemma only_handler_tracks tr fin i t n :
  process_ok -> sys_run process tr fin -> tasks !! i = Some t -> task_volume t = Some n ->
  forall j r x, (j, Event r x) ∈ tr -> r = RTrackAdd n \/ r = RTrackDelete n -> j = i.
Proof.
  intros Hok Hr Ht Hn j r x Hin Htr.
  destruct (tasks !! j) as [u|] eqn:Hu.
  - pose proof (task_exec _ _ _ _ Hr Hu) as He. apply elem_proj in Hin.
    pose proof (proj1 (Forall_lookup _ _) (po_tasks Hok) _ _ Hu) as Huok.
    destruct (task_volume u) as [m|] eqn:Hm.
    + pose proof (shape_names m n _ r x (task_shape fuel u m _ _ Huok Hm He) Hin Htr) as <-.
      by eapply (po_volumes Hok).
    + destruct u as [| |ns]; try done. apply collect_no_track in He.
      pose proof (proj1 (Forall_forall _ _) He _ Hin) as Hf. cbn in Hf. by destruct Htr as [-> | ->].
  - apply lookup_ge_None in Hu. destruct (run_range _ _ _ Hr) as [_ Hlt].
    specialize (Hlt j _ Hin). unfold process in Hlt. cbn [snd] in Hlt.
    rewrite length_fmap in Hlt. lia.
Qed.

(** C4: when the tracker tells a collector that no request for a volume is in
    progress, the handler of that volume has not made a request yet, or it has
    made its last one: the collector's check never falls in the middle of a
    handler. (The check and the deletions that follow it are separate steps: a
    handler may start between them.) *)
Theorem collector_exclusion tr1 j n tr2 fin i t :
  process_ok ->
  sys_run process (tr1 ++ (j, Event (RTrackInprogress n) false) :: tr2) fin ->
  tasks !! i = Some t -> task_volume t = Some n ->
  proj i tr1 = [] \/ proj i tr2 = [].
Proof.
  intros Hok Hr Ht Hn.
  assert (Htok : task_ok t) by exact (proj1 (Forall_lookup _ _) (po_tasks Hok) _ _ Ht).
  pose proof (task_shape fuel t n _ _ Htok Hn (task_exec _ _ _ _ Hr Ht)) as Hshape.
  assert (Hidle : tracked n (proj i tr1) = false).
  { replace (tr1 ++ (j, Event (RTrackInprogress n) false) :: tr2)
      with ((tr1 ++ [(j, Event (RTrackInprogress n) false)]) ++ tr2) in Hr
      by by rewrite <- app_assoc.
    apply run_prefix in Hr as [mid Hmid].
    destruct (run_last _ _ _ _ _ _ Hmid) as (s & ts & Hr1 & Hx).
    apply (f_equal inprogress_of) in Hx. injection Hx as Hx. symmetry in Hx.
    rewrite <- (tracked_proj n i tr1).
    - by rewrite <- (run_tracker _ _ _ _ _ _ Hr1 (po_start Hok)).
    - by eapply only_handler_tracks. }
  rewrite proj_app in Hshape.
  assert (Hs1 : bracket_shape n (proj i tr1)).
  { apply run_prefix in Hr as [mid Hmid]. by eapply task_shape, task_exec. }
  destruct (bracket_idle n _ Hs1 Hidle) as [H0|(body & Hb & H1)]; [by left|right].
  rewrite H1 in Hshape. cbn [app] in Hshape. apply bracket_finished in Hshape; [|done].
  unfold proj in *. rewrite filter_cons in Hshape. case_decide; [done|exact Hshape].
Qed.
End Process.
End Concurrency.
