(* ===== verification/WellTyped.v ===== *)
(** * Well-formed objects

    What the API server demands of the objects of an NFS server before it stores
    them, and that the provisioner only ever asks it to create such objects. *)

From S2P Require Import Prelude GoStrings K8sTypes MetaHelper Hook HookFacts Prog KubeAPI HookExecute.
From S2P Require Import History Env VolumeConfig NodeAffinity NFSServer Provisioner NFSObjects.
From S2P Require Import NFSDeleteFacts NFSCreateFacts ProvisionerFacts GarbageCollector GCFacts.
From S2P Require Import Tracker Cluster Concurrency.

Section WellTyped.
Context {C : CoreTypes} {P : PatchLib} {Y : MayaConfig} {M : MayaEnv} {N : ProvisionerLib}.

Definition meta_of (k : kind) (o : obj_of k) : ObjectMeta := object_meta (object_of k o).

(** A container has a name, and mounts volumes of its pod. *)
Definition container_ok (volumes : list string) (c : Container) : Prop :=
  c_Name c <> EmptyString /\ Forall (fun m => vm_Name m ∈ volumes) (c_VolumeMounts c).

Definition pod_ok (t : PodTemplateSpec) : Prop :=
  pod_Containers (pt_spec t) <> [] /\
  Forall (container_ok (v_Name <$> pod_Volumes (pt_spec t))) (pod_Containers (pt_spec t)).

Definition spec_ok (k : kind) : obj_of k -> Prop :=
  match k with
  | KPVC => fun o =>
      pvc_AccessModes (pvc_spec o) <> [] /\
      is_Some (gomap_lookup (pvc_Requests (pvc_spec o)) ResourceStorage)
  | KPV => fun _ => True
  | KService => fun o =>
      gomap_get (svc_Selector (svc_spec o)) <> ∅ /\ svc_Ports (svc_spec o) <> [] /\
      Forall (fun q => 0 < sp_Port q < 65536)%Z (svc_Ports (svc_spec o)) /\
      NoDup (sp_Name <$> svc_Ports (svc_spec o))
  | KDeployment => fun o =>
      exists sel, d_Selector (d_spec o) = Some sel /\ gomap_get sel <> ∅ /\
        gomap_get sel ⊆ gomap_get (Labels (pt_meta (d_Template (d_spec o)))) /\
        pod_ok (d_Template (d_spec o))
  end.

(** The object can be stored in the namespace. *)
Definition well_formed (k : kind) (ns : string) (o : obj_of k) : Prop :=
  Name (meta_of k o) <> EmptyString /\ Namespace (meta_of k o) = ns /\ spec_ok k o.

(** Hooks change neither. *)
Lemma is_base_meta k (o base : obj_of k) :
  is_base k o base ->
  Name (meta_of k o) = Name (meta_of k base) /\ Namespace (meta_of k o) = Namespace (meta_of k base).
Proof.
  unfold is_base, meta_of. destruct k; cbn; unfold same_meta; intros [-> _]; done.
Qed.

Lemma is_base_spec k (o base : obj_of k) : is_base k o base -> spec_ok k base -> spec_ok k o.
Proof.
  unfold is_base. destruct k; cbn; [intros (_ & Hs & _)|done|intros (_ & Hs)|intros (_ & Hs & _)];
    by rewrite Hs.
Qed.

Lemma is_base_well_formed k ns (o base : obj_of k) :
  is_base k o base -> well_formed k ns base -> well_formed k ns o.
Proof.
  intros Hb (Hn & Hns & Hs). destruct (is_base_meta k o base Hb) as [H1 H2].
  unfold well_formed. rewrite H1, H2. eauto using is_base_spec.
Qed.

(** ** The three objects of a server *)

Lemma backend_pvc_well_formed p o q :
  serverNamespace p <> EmptyString -> well_formed KPVC (serverNamespace p) (backend_pvc p o q).
Proof.
  intros Hns. split; [done|]. split.
  - cbn. unfold or_default. case_decide; [|done]. by destruct (serverNamespace p).
  - split; [done|]. exists q. change (({[ResourceStorage := q]} : gmap string Quantity) !! ResourceStorage = Some q).
    apply lookup_singleton_eq.
Qed.

Lemma server_deployment_well_formed p o : well_formed KDeployment (serverNamespace p) (server_deployment p o).
Proof.
  split; [done|]. split; [done|]. exists (deploy_label_selector o (nfs_name o)).
  split; [done|]. split; [|split; [done|]].
  - unfold deploy_label_selector, gomap_get. cbn. apply insert_non_empty.
  - split; [done|]. repeat constructor; done.
Qed.

Lemma nfs_service_well_formed p o : well_formed KService (serverNamespace p) (nfs_service p o).
Proof.
  split; [done|]. split; [done|]. split; [|split; [done|split]].
  - cbn. apply map_non_empty_singleton.
  - repeat constructor; unfold NFSServerPort, RPCBindPort; cbn; lia.
  - apply (bool_decide_unpack _). vm_compute. exact I.
Qed.

(** ** Requests and stores *)

Definition typed_request (r : req) : Prop :=
  match r with
  | RCreate KPV _ _ => False
  | RCreate k ns o => well_formed k ns o
  | _ => True
  end.

(** Every object is stored under its own namespace and name, well-formed. *)
Definition typed (s : cluster) : Prop :=
  forall k ns n o, k <> KPV -> store_of k s !! (ns, n) = Some o -> name_of k o = n /\ well_formed k ns o.

Lemma create_discipline_typed p o h r :
  serverNamespace p <> EmptyString -> create_discipline p o h r -> typed_request r.
Proof.
  intros Hns [Hr|Hr]; [by destruct r|]. destruct r as [|k ns' x| | | | | | | | | | | | | ]; try done.
  destruct k; try done.
  - destruct Hr as (-> & _ & q & _ & Hb). eapply is_base_well_formed; [exact Hb|].
    by apply backend_pvc_well_formed.
  - destruct Hr as (-> & _ & _ & _ & _ & Hb). eapply is_base_well_formed; [exact Hb|].
    apply nfs_service_well_formed.
  - destruct Hr as (-> & _ & _ & Hb). eapply is_base_well_formed; [exact Hb|].
    apply server_deployment_well_formed.
Qed.

Definition task_namespace (t : task) : string :=
  match t with
  | TProvision p _ | TDelete p _ => serverNamespace p
  | TCollect ns => ns
  end.

Lemma task_discipline_typed t h r :
  task_namespace t <> EmptyString -> task_discipline t h r -> typed_request r.
Proof.
  intros Hns. destruct t as [p opts|p pv|ns]; cbn [task_discipline task_namespace] in *.
  - intros [_ [Hr|[-> | ->]]]; [|done..].
    destruct Hr as [[Hr|(vc & o & _ & Hr)]|Hr]; [by destruct r| |by destruct r].
    by eapply create_discipline_typed.
  - intros [_ [[[Hr|Hr]|Hr]|[Hr|Hr]]]; by destruct r.
  - intros [Hr|(pvcs & pvc & _ & _ & _ & (k & n & ->) & _)]; [by destruct r|done].
Qed.

Lemma stored_well_formed s k ns (o : obj_of k) :
  well_formed k ns o ->
  well_formed k ns (stored_object s k o) /\ name_of k (stored_object s k o) = name_of k o.
Proof. destruct k; cbn; [|done..]. by destruct (c_bind s). Qed.

Lemma set_store_typed k m s :
  typed s ->
  (k <> KPV -> forall ns n o, m !! (ns, n) = Some o -> name_of k o = n /\ well_formed k ns o) ->
  typed (set_store k m s).
Proof.
  intros Hs Hm k' ns n o Hk Ho. destruct (decide (k = k')) as [->|Hne].
  - rewrite store_set_eq in Ho. by apply Hm.
  - rewrite store_set_ne in Ho by done. by apply Hs.
Qed.

Lemma serve_typed s r : typed s -> typed_request r -> typed (serve s r).1.
Proof.
  intros Hs Hr.
  destruct r as [|k ns o|k ns n| | | | | | | | | | | | ]; cbn [serve]; try exact Hs.
  - destruct (store_of k s !! (ns, name_of k o)) eqn:Ho; [done|]. cbn [fst].
    apply set_store_typed; [done|]. intros Hk ns' n' o'.
    assert (Hw : well_formed k ns o) by by destruct k.
    rewrite lookup_insert_Some. intros [[[= <- <-] <-]|[_ Hl]]; [|by apply Hs].
    destruct (stored_well_formed s k ns o Hw) as [H1 H2]. by rewrite H2.
  - destruct (store_of k s !! (ns, n)) eqn:Ho; [|done]. cbn [fst].
    apply set_store_typed; [done|]. intros Hk ns' n' o' [_ Hl]%lookup_delete_Some. by apply Hs.
  - by destruct (c_ticks s).
  - by destruct (c_gc_ticks s).
Qed.

(** C10: whatever the interleaving of provisioning, deletion and collection, and
    whatever the API server answers, every object a handler asks to create is
    well-formed in its namespace: named, a claim with access modes and a size, a
    deployment whose selector matches its pod and whose containers mount volumes
    of the pod, a service with a selector and distinct ports.  So none of its
    requests takes a well-typed store to an ill-typed one. *)
Theorem requests_typed fuel tasks s0 tr fin i t :
  process_ok tasks s0 -> sys_run (process fuel tasks s0) tr fin ->
  tasks !! i = Some t -> task_namespace t <> EmptyString ->
  Forall (fun e => typed_request (ev_req e)) (proj i tr) /\
  forall e s, e ∈ proj i tr -> typed s -> typed (serve s (ev_req e)).1.
Proof.
  intros Hok Hr Ht Hns. pose proof (task_exec fuel tasks s0 _ _ _ _ Hr Ht) as He.
  pose proof (proj1 (Forall_lookup _ _) (po_tasks _ _ Hok) _ _ Ht) as Htok.
  destruct (wp_run _ _ _ _ _ (wp_task fuel t Htok) He) as [Hobey _].
  assert (Hall : Forall (fun e => typed_request (ev_req e)) (proj i tr)).
  { apply Forall_forall. intros e (t1 & t2 & Heq)%list_elem_of_split.
    by eapply task_discipline_typed, Hobey. }
  split; [done|]. intros e s Hin Hs. apply serve_typed; [done|].
  by eapply (proj1 (Forall_forall _ _) Hall).
Qed.
End WellTyped.
