(* ===== verification/Examples.v ===== *)
(** * A concrete provisioner and cluster, for the witnesses *)

From S2P Require Import Prelude GoStrings K8sTypes MetaHelper Hook Prog KubeAPI HookExecute.
From S2P Require Import History Env VolumeConfig NodeAffinity NFSServer Provisioner.
From S2P Require Import GarbageCollector Tracker Cluster.
From S2P Require Concrete.

#[export] Instance ex_core : CoreTypes := Concrete.core.
#[export] Instance ex_patch : PatchLib := Concrete.patch_lib.

(** No variable is set, except the namespace and the default image. *)
#[export] Instance ex_env : MayaEnv := {|
  menv_Get := fun k => if decide (k = "OPENEBS_NAMESPACE") then "openebs" else EmptyString;
  menv_GetOrDefault := fun k d => d;
  menv_Truthy := fun _ => false;
  OpenEBSNamespace := "OPENEBS_NAMESPACE";
  OpenEBSServiceAccount := "OPENEBS_SERVICE_ACCOUNT";
  OpenEBSEnableAnalytics := "OPENEBS_IO_ENABLE_ANALYTICS";
  NFSServerDefaultImage := "openebs/nfs-server-alpine";
|}.

(** A configuration is one line [name=value]; a list has one entry at most. *)
Definition ex_unmarshal (s : string) : result (list (string * string)) :=
  match Split s "=" with
  | [n; v] => Ok [(n, v)]
  | _ => Err (ErrNew "cannot unmarshal configuration")
  end.

#[export] Instance ex_config : MayaConfig := {|
  MConfig := string * string;
  mconfig_new := fun n v => (n, v);
  mc_Name := fst;
  mc_Data := fun _ => None;
  CASConfigKey := "cas.openebs.io/config";
  CASTypeKey := "openebs.io/cas-type";
  ValuePTP := "value";
  UnMarshallToConfig := ex_unmarshal;
  MergeConfig := fun high low => high ++ low;
  ConfigToMap := fun l =>
    Ok (foldr (fun nv m => <[nv.1 := IStrMap (Some {["value" := nv.2]})]> m) ∅ l);
  GetNestedField := fun m k => m !! k;
  Unmarshal_ResourceList := fun _ => Ok None;
|}.

#[export] Instance ex_nodes : ProvisionerLib := {|
  NodeSelectorRequirementsAsSelector := fun l => Ok EmptyString;
  Selector_String := fun s => s;
  VolumeProvision := "volume-provision";
  VolumeDeprovision := "volume-deprovision";
  EventLabelCapacity := "Capacity";
|}.

#[export] Instance ex_files : FileSystem := {|
  os_Stat := fun _ => Some (ErrNew "file does not exist");
  os_IsNotExist := fun _ => true;
  ioutil_ReadFile := fun _ => Err (ErrNew "file does not exist");
  yaml_Unmarshal_Hook := fun _ => Ok (None, HookVersion);
|}.

Definition ex_default : list MConfig := [mconfig_new KeyPVNFSServerType "kernel"].

Definition ex_provisioner : Provisioner :=
  mkProvisioner "openebs" "openebs" ex_default (GetVolumeConfig ex_default) false [] 60000000000 None.

Definition ex_sc : StorageClass :=
  mkStorageClass _
    (set_Annotations (Some {["cas.openebs.io/config" := "BackendStorageClass=local"]})
       (set_Name "nfs-sc" emptyMeta))
    (Some "Delete") [].

(** The user's claim: 5 units, read-write-many, of class [nfs-sc]. *)
Definition ex_claim : PersistentVolumeClaim :=
  mkPVC _
    (mkMeta _ "data" EmptyString "apps" "uid-1" 0 None None [] [])
    (mkPVCSpec _ (Some "nfs-sc") [ReadWriteMany] (Some {[ResourceStorage := "5"]}) None EmptyString)
    EmptyString.

Definition ex_options : ProvisionOptions := mkProvisionOptions ex_sc "pvc-1" ex_claim.

Definition ex_sopts : KernelNFSServerOptions :=
  mkOpts "openebs" "pvc-1" "5" "data" "uid-1" "apps" "local" EmptyString EmptyString EmptyString
    EmptyString 90 90 None EmptyString EmptyString EmptyString (Some emptyResources).

(** The storage class exists, claims bind, and the timer fires after three
    ticks. *)
Definition ex_cluster : cluster :=
  mkCluster ∅ ∅ ∅ ∅ {["nfs-sc" := ex_sc]} ["node-1"] ∅ true 3 1.

Definition ex_volume_config : VolumeConfig :=
  mkVolumeConfig "pvc-1" "data" "nfs-sc"
    (<["BackendStorageClass" := IStrMap (Some {["value" := "local"]})]>
       {["NFSServerType" := IStrMap (Some {["value" := "kernel"]})]}) ∅.

(** The volume that provisioning this claim returns. *)
Definition ex_pv : PersistentVolume :=
  mkPV _
    (mkMeta _ "pvc-1" EmptyString EmptyString EmptyString 0
       (Some {["openebs.io/cas-type" := "nfs-kernel"]}) None [] [])
    (mkPVSpec _ "Delete" None [ReadWriteMany] (Some {[ResourceStorage := "5"]})
       (mkPVSource (Some (mkNFS "nfs-pvc-1.openebs.svc.cluster.local" "/" false)) None None) None [] None).

(** What a provisioned volume shows to its user. *)
Definition shown (o : outcome (result PersistentVolume * ProvisioningState))
  : option (string * option NFSVolumeSource * ProvisioningState) :=
  match o with
  | Returned (Ok pv, st) => Some (Name (pv_meta pv), src_NFS (pv_Source (pv_spec pv)), st)
  | _ => None
  end.

Example ex_provision :
  shown (exec_on (Provision 5 ex_provisioner ex_options) ex_cluster).2
  = Some ("pvc-1", Some (mkNFS "nfs-pvc-1.openebs.svc.cluster.local" "/" false), ProvisioningFinished).
Proof. vm_compute. reflexivity. Qed.

Example ex_delete :
  (exec_on (Provisioner.Delete ex_provisioner ex_pv)
     (exec_on (Provision 5 ex_provisioner ex_options) ex_cluster).1).2 = Returned None.
Proof. vm_compute. reflexivity. Qed.
