(* ===== verification/Process.v ===== *)
(** * The process: goroutines, signals, exit

    [main] and the goroutines that its code starts, interleaved: a step lets one
    goroutine make its next request.  From outside come signals, the failure of
    the metric server, and how the code that a goroutine runs ends: the
    controller's library calls [Provision] and [Delete], with any request and
    under any answers of the API server, and ends the process when it loses its
    leadership; the collector runs; the libraries may panic.  A panic of any
    goroutine ends the process. *)

From S2P Require Import Prelude GoStrings Metrics K8sTypes MetaHelper Hook Prog KubeAPI KubeClient Env.
From S2P Require Import VolumeConfig NodeAffinity NFSServer Provisioner GarbageCollector Daemon Controller App.

Inductive exit_status :=
| Exited (code : Z)
| Crashed
| Killed (s : signal).

Section Process.
Context {C : CoreTypes} {P : PatchLib} {Y : MayaConfig} {M : MayaEnv} {F : FileSystem}.
Context {N : ProvisionerLib} {L : ClientLib} {D : DaemonLib}.

(** A goroutine, what is left of it and what it did; [None] is [main]. *)
Record thread := mkThread {
  th_go : option goroutine;
  th_prog : dio ();
  th_hist : list dev;
}.

Record proc := mkProc {
  (** full names in the registry of counters, and paths of the HTTP server *)
  pr_registered : list string;
  pr_handled : list string;
  (** signals that are sent to the channel, and the channel, which has room for one *)
  pr_notified : list signal;
  pr_buffer : option signal;
  (** the context is cancelled *)
  pr_cancelled : bool;
  pr_threads : list thread;
  pr_exit : option exit_status;
  (** every signal the process was sent *)
  pr_signals : list signal;
}.

(** A goroutine that runs handlers or library code: it returns, panics or exits
    with that code. *)
Definition runs (g : goroutine) : dio () :=
  x ← dcall (DRun g);
  match (x : run_result) with
  | RunReturned => PRet tt
  | RunPanicked _ => PPanic
  | RunExit code => x ← dcall (DExit code); match x : Empty_set with end
  end.

Definition body (g : goroutine) : dio () :=
  match g with
  | GoMetricServer path addr => metric_server path addr
  | GoShutdown => shutdown_goroutine
  | _ => runs g
  end.

(** The libraries that a goroutine calls. *)
Definition libraries (g : goroutine) : list library :=
  match g with
  | GoController _ _ _ => [LibVolumeController; LibKubeClient]
  | GoGarbageCollector _ | GoNodeInformer => [LibKubeClient]
  | GoPingCheck _ _ => [LibAnalytics]
  | _ => []
  end.

(** How the code of a goroutine can end. *)
Inductive run_outcome : goroutine -> run_result -> Prop :=
| run_returned g : run_outcome g RunReturned
| run_library g l : l ∈ libraries g -> library_panics l -> run_outcome g (RunPanicked (InLibrary l))
| run_provision name p leader fuel opts t :
    exec (Provision fuel p opts) t (Some Panicked) ->
    run_outcome (GoController name p leader) (RunPanicked (InProvision opts))
| run_delete name p leader pv t :
    exec (Provisioner.Delete p pv) t (Some Panicked) ->
    run_outcome (GoController name p leader) (RunPanicked (InDelete pv))
| run_collect ns fuel t :
    exec (RunGarbageCollector fuel ns) t (Some Panicked) ->
    run_outcome (GoGarbageCollector ns) (RunPanicked InCollector)
| run_lost_leadership name p : run_outcome (GoController name p true) (RunExit leader_lost_status).

Definition spawn (g : goroutine) : thread := mkThread (Some g) (body g) [].

Definition fq_name (c : CounterVec) : string :=
  BuildFQName (co_Namespace (cv_opts c)) (co_Subsystem (cv_opts c)) (co_Name (cv_opts c)).

Definition set_threads (ts : list thread) (st : proc) : proc :=
  mkProc (pr_registered st) (pr_handled st) (pr_notified st) (pr_buffer st) (pr_cancelled st) ts
    (pr_exit st) (pr_signals st).
Definition set_exit (e : exit_status) (st : proc) : proc :=
  mkProc (pr_registered st) (pr_handled st) (pr_notified st) (pr_buffer st) (pr_cancelled st)
    (pr_threads st) (Some e) (pr_signals st).

(** The runtime's answer; [None] blocks. *)
Definition answer (st : proc) (r : dreq) : option (dresp r * proc) :=
  match r with
  | DInitLogs | DFlushLogs | DInstallEvent _ => Some (tt, st)
  | DMustRegister cs =>
      let names := pr_registered st ++ map fq_name cs in
      Some (bool_decide (NoDup names),
            mkProc names (pr_handled st) (pr_notified st) (pr_buffer st) (pr_cancelled st)
              (pr_threads st) (pr_exit st) (pr_signals st))
  | DGo g => Some (tt, set_threads (pr_threads st ++ [spawn g]) st)
  | DNotify sigs =>
      Some (tt, mkProc (pr_registered st) (pr_handled st) sigs (pr_buffer st) (pr_cancelled st)
                  (pr_threads st) (pr_exit st) (pr_signals st))
  | DRecvSignal =>
      match pr_buffer st with
      | None => None
      | Some s => Some (s, mkProc (pr_registered st) (pr_handled st) (pr_notified st) None
                             (pr_cancelled st) (pr_threads st) (pr_exit st) (pr_signals st))
      end
  | DCancel =>
      Some (tt, mkProc (pr_registered st) (pr_handled st) (pr_notified st) (pr_buffer st) true
                  (pr_threads st) (pr_exit st) (pr_signals st))
  | DDone => if pr_cancelled st then Some (tt, st) else None
  | DHandle path =>
      Some (negb (bool_decide (path = EmptyString)) && negb (bool_decide (path ∈ pr_handled st)),
            mkProc (pr_registered st) (path :: pr_handled st) (pr_notified st) (pr_buffer st)
              (pr_cancelled st) (pr_threads st) (pr_exit st) (pr_signals st))
  | DListenAndServe _ | DRun _ | DExit _ => None
  end.

(** The answers that come from outside. *)
Definition outside_answer (r : dreq) : dresp r -> Prop :=
  match r with
  | DListenAndServe _ => fun _ => True
  | DRun g => run_outcome g
  | _ => fun _ => False
  end.

(** The thread went on with an answer. *)
Definition advance (i : nat) (t : thread) {r : dreq} (x : dresp r) (q : dio ()) (st : proc) : proc :=
  set_threads (<[i := mkThread (th_go t) q (th_hist t ++ [Event r x])]> (pr_threads st)) st.

(** A step of the process. *)
Inductive pstep (st : proc) : proc -> Prop :=
| step_request i t r k x st' :
    pr_exit st = None -> pr_threads st !! i = Some t -> th_prog t = PCall r k ->
    answer st r = Some (x, st') -> pstep st (advance i t x (k x) st')
| step_exit i t code k :
    pr_exit st = None -> pr_threads st !! i = Some t -> th_prog t = PCall (DExit code) k ->
    pstep st (set_exit (Exited code) st)
| step_panic i t :
    pr_exit st = None -> pr_threads st !! i = Some t -> th_prog t = PPanic ->
    pstep st (set_exit Crashed st).

Definition sent (s : signal) (buffer : option signal) (st : proc) : proc :=
  mkProc (pr_registered st) (pr_handled st) (pr_notified st) buffer (pr_cancelled st)
    (pr_threads st) (pr_exit st) (s :: pr_signals st).

(** What happens to it: a signal fills the channel, or is dropped when the
    channel is full, and ends a process that did not ask for it; the metric
    server fails; the code of a goroutine ends. *)
Inductive outside (st : proc) : proc -> Prop :=
| out_signal s :
    pr_exit st = None -> s ∈ pr_notified st ->
    outside st (sent s (match pr_buffer st with None => Some s | b => b end) st)
| out_killed s :
    pr_exit st = None -> s ∉ pr_notified st ->
    outside st (set_exit (Killed s) (sent s (pr_buffer st) st))
| out_answer i t r k x :
    pr_exit st = None -> pr_threads st !! i = Some t -> th_prog t = PCall r k ->
    outside_answer r x -> outside st (advance i t x (k x) st).

Definition start_proc : proc :=
  mkProc [] [] [] None false [mkThread None main []] None [].

Definition reachable (st : proc) : Prop :=
  rtc (fun a b => pstep a b \/ outside a b) start_proc st.

(** A goroutine whose code has ended, and how. *)
Definition ran (st : proc) (g : goroutine) (x : run_result) : Prop :=
  exists t, t ∈ pr_threads st /\ th_go t = Some g /\ th_hist t = [Event (DRun g) x].

(** The goroutines that were started, in order. *)
Definition started (st : proc) : list goroutine := omap th_go (pr_threads st).

(** ** Running it

    The next step of one goroutine, and of the goroutines in the order of a
    schedule; a goroutine that is blocked is passed over. *)

Definition step_of (i : nat) (st : proc) : option proc :=
  match pr_exit st, pr_threads st !! i with
  | None, Some t =>
      match th_prog t with
      | PCall r k =>
          match answer st r with
          | Some (x, st1) => Some (advance i t x (k x) st1)
          | None => match r with DExit code => Some (set_exit (Exited code) st) | _ => None end
          end
      | PPanic => Some (set_exit Crashed st)
      | _ => None
      end
  | _, _ => None
  end.

Definition run_goroutines (schedule : list nat) (st : proc) : proc :=
  fold_left (fun st i => default st (step_of i st)) schedule st.

Lemma step_of_sound i st st' : step_of i st = Some st' -> pstep st st'.
Proof.
  unfold step_of. destruct (pr_exit st) eqn:He; [done|]. destruct (pr_threads st !! i) as [t|] eqn:Hi; [|done].
  destruct (th_prog t) as [a| | |r k] eqn:Hp; [done| |done|].
  - intros [= <-]. by eapply step_panic.
  - destruct (answer st r) as [[x st1]|] eqn:Ha.
    + intros [= <-]. by eapply step_request.
    + destruct r; try done. intros [= <-]. by eapply step_exit.
Qed.

Lemma run_goroutines_steps schedule st : rtc pstep st (run_goroutines schedule st).
Proof.
  revert st. induction schedule as [|i l IH]; intros st; [done|].
  cbn [run_goroutines fold_left]. destruct (step_of i st) as [st'|] eqn:Hs; [|apply IH].
  eapply rtc_l; [by eapply step_of_sound|apply IH].
Qed.
End Process.
