(* ===== verification/ProcessFacts.v ===== *)
(** * How the process ends, and that it can be shut down *)

From S2P Require Import Prelude GoStrings StringFacts Metrics K8sTypes MetaHelper Hook Prog KubeAPI KubeClient.
From S2P Require Import Env VolumeConfig NodeAffinity NodeAffinityFacts NFSServer Provisioner.
From S2P Require Import ConstructionFacts History NFSObjects NFSDeleteFacts NFSCreateFacts ProvisionerFacts.
From S2P Require Import GarbageCollector GCFacts Daemon Controller App Process.

Section ProcessFacts.
Context {C : CoreTypes} {P : PatchLib} {Y : MayaConfig} {M : MayaEnv} {F : FileSystem}.
Context {N : ProvisionerLib} {L : ClientLib} {D : DaemonLib}.
Implicit Types st : proc.
Implicit Types h : list dev.

(** ** The discipline of each goroutine *)

Definition reqs h : list dreq := ev_req <$> h.

(** The goroutines that a history started. *)
Definition gos h : list goroutine := omap (fun r => match r with DGo g => Some g | _ => None end) (reqs h).

Lemma gos_snoc h r x : gos (h ++ [Event r x]) = gos h ++ match r with DGo g => [g] | _ => [] end.
Proof. unfold gos, reqs. rewrite fmap_app, omap_app. by destruct r. Qed.

Lemma reqs_snoc h r x : reqs (h ++ [Event r x]) = reqs h ++ [r].
Proof. unfold reqs. by rewrite fmap_app. Qed.

(** Those that provision volumes. *)
Definition provisions (g : goroutine) : bool :=
  match g with
  | GoMetricServer _ _ | GoShutdown => false
  | _ => true
  end.

(** The parsed command line, and what it says of the metric server. *)
Definition metric_server_of (g : goroutine) : Prop :=
  exists flags path addr, cobra_parse provisioner_flags os_Args = ParsedRun flags /\
    flags !! "metrics-path" = Some path /\ g = GoMetricServer path addr.

(** What is started once a provisioner was built: with that provisioner, the
    fixed name and the settings of the environment, the collector only if it is
    enabled. *)
Definition launched (g : goroutine) : Prop :=
  match g with
  | GoMetricServer _ _ | GoShutdown => False
  | GoController name p leader =>
      name = provisionerName /\ leader = isLeaderElectionEnabled /\
      exists gc, NewProvisioner = Some (Ok (p, gc))
  | GoGarbageCollector ns => ns = getNfsServerNamespace /\ exists p, NewProvisioner = Some (Ok (p, true))
  | GoNodeInformer | GoPingCheck _ _ => exists r, NewProvisioner = Some (Ok r)
  end.

Lemma launched_provisions g : launched g -> provisions g = true.
Proof. by destruct g. Qed.

(** The metric server first, then the signal handler, then the rest. *)
Definition next_go (l : list goroutine) (g : goroutine) : Prop :=
  match l with
  | [] => metric_server_of g
  | [_] => g = GoShutdown
  | _ => launched g
  end.

Definition shutdown_signals : list signal := [SIGINT; SIGTERM].

(** The command line, the client or the provisioner is refused. *)
Definition start_refused : Prop :=
  (exists err, cobra_parse provisioner_flags os_Args = ParsedErr err) \/
  (exists err, Clientset (New []) = Some (Err err)) \/
  (exists err, NewProvisioner = Some (Err err)).

(** The controller was started, with the configured leader election. *)
Definition controller_in (l : list goroutine) : Prop :=
  exists p, GoController provisionerName p isLeaderElectionEnabled ∈ l.

Definition exit_allowed (l : list goroutine) (done : Prop) (code : Z) : Prop :=
  (code = 0%Z /\ cobra_parse provisioner_flags os_Args = ParsedHelp /\ l = []) \/
  (code = 0%Z /\ controller_in l /\ done) \/
  (code = 1%Z /\ Forall (fun g => provisions g = false) l /\ start_refused).

Definition main_req h (r : dreq) : Prop :=
  match r with
  | DInitLogs | DFlushLogs | DInstallEvent _ => True
  | DMustRegister cs => cs = registered_counters /\ reqs h = [DInitLogs]
  | DGo g => next_go (gos h) g /\ (g = GoShutdown -> DNotify shutdown_signals ∈ reqs h)
  | DNotify sigs => sigs = shutdown_signals
  | DDone => controller_in (gos h) /\ GoShutdown ∈ gos h
  | DExit code => exit_allowed (gos h) (DDone ∈ reqs h) code
  | _ => False
  end.

(** The counters were refused by the registry; the path by the HTTP server. *)
Definition refused (e : dev) : bool :=
  match ev_req e as r return dresp r -> bool with
  | DMustRegister _ => negb
  | DHandle _ => negb
  | _ => fun _ => false
  end (ev_resp e).

Definition main_end h (o : outcome ()) : Prop :=
  match o with
  | Panicked => existsb refused h = true
  | _ => False
  end.

Definition thread_req (go : option goroutine) h (r : dreq) : Prop :=
  match go with
  | None => main_req h r
  | Some (GoMetricServer path _) => (r = DHandle path /\ h = []) \/ exists a, r = DListenAndServe a
  | Some GoShutdown => (r = DRecvSignal /\ h = []) \/ (r = DCancel /\ DRecvSignal ∈ reqs h)
  | Some g => (r = DRun g /\ h = []) \/ exists code, r = DExit code /\ h = [Event (DRun g) (RunExit code)]
  end.

(** Only [main] starts goroutines, registers counters, asks for signals or waits
    for the context. *)
Lemma goroutine_requests g h r :
  thread_req (Some g) h r ->
  match r with
  | DHandle _ | DListenAndServe _ | DRecvSignal | DCancel | DRun _ | DExit _ => True
  | _ => False
  end.
Proof. destruct g; cbn; intros [[-> _]|Hr]; try done; naive_solver. Qed.

Definition thread_end (go : option goroutine) h (o : outcome ()) : Prop :=
  match go with
  | None => main_end h o
  | Some (GoMetricServer path _) =>
      match o with
      | Panicked => existsb refused h = true
      | o => o = Returned tt
      end
  | Some GoShutdown => o = Returned tt
  | Some g =>
      match o with
      | Panicked => exists source, h = [Event (DRun g) (RunPanicked source)]
      | o => o = Returned tt
      end
  end.

Definition thread_ok (t : thread) : Prop :=
  wp (thread_req (th_go t)) (th_prog t) (th_hist t) (thread_end (th_go t)).

Lemma spawn_ok g : thread_ok (spawn g).
Proof.
  unfold thread_ok, spawn. cbn [th_go th_prog th_hist]. destruct g.
  1:{ cbn. split; [by left|]. intros [|]; cbn; [|done]. split; [right; by eexists|done]. }
  1:{ cbn. split; [by left|]. intros sig. split; [right; split; [done|by left]|by intros []]. }
  all: cbn; split; [by left|]; intros [|source|code]; cbn; [done|by eexists|split; [right; by eexists|by intros []]].
Qed.

Lemma dwp_seq {A B} G (f : A -> dio B) (p : dio A) h (Q : list dev -> outcome B -> Prop) :
  wp G p h (fun h' o =>
    match o with
    | Returned a => wp G (f a) h' Q
    | Panicked => Q h' Panicked
    | OutOfFuel => Q h' OutOfFuel
    end) ->
  wp G (mbind (M := dio) f p) h Q.
Proof. apply wp_bind. Qed.

Lemma dwp_call {A} (G : list dev -> dreq -> Prop) r (f : dresp r -> dio A) h
    (Q : list dev -> outcome A -> Prop) :
  G h r -> (forall x, wp G (f x) (h ++ [Event r x]) Q) -> wp G (mbind (M := dio) f (dcall r)) h Q.
Proof. by split. Qed.

Lemma Clientset_answers : is_Some (Clientset (New [])).
Proof.
  change (New []) with (New (map option_fn [])). rewrite New_options. unfold Clientset.
  rewrite default_client_config. cbn [mbind option_bind]. by destruct (selected_config _ _).
Qed.

(** What [Controller.Start] ends with, and what it started, after the two
    goroutines of [App.Start]. *)
Lemma wp_Controller_Start h g (Q : list dev -> outcome error -> Prop) :
  gos h = [g; GoShutdown] ->
  (forall err h', gos h' = [g; GoShutdown] -> start_refused -> Q h' (Returned (Some err))) ->
  (forall h', controller_in (gos h') -> DDone ∈ reqs h' -> Q h' (Returned None)) ->
  wp main_req Controller.Start h Q.
Proof.
  intros Hh Herr Hok. unfold Controller.Start, NewProvisioner_go, performPreupgradeTasks.
  destruct Clientset_answers as [[kc|err] Hc]; rewrite Hc; [|apply Herr; [done|right; left; by eexists]].
  destruct NewProvisioner_total as [[[p gc]|err] Hn]; rewrite Hn;
    [|apply Herr; [done|do 2 right; by eexists]].
  assert (Hinf : launched GoNodeInformer) by by eexists.
  assert (Hping : launched (GoPingCheck DefaultCASType Ping)) by by eexists.
  assert (Hctl : launched (GoController provisionerName p isLeaderElectionEnabled))
    by (split; [done|]; split; [done|]; by eexists).
  assert (Hgc : gc = true -> launched (GoGarbageCollector getNfsServerNamespace))
    by (intros ->; split; [done|]; by eexists).
  destruct gc, (menv_Truthy OpenEBSEnableAnalytics); cbn -[launched];
    repeat match goal with |- _ /\ forall _ : _, _ => split; [|intros ?] end;
    rewrite ?gos_snoc, ?Hh; cbn -[launched]; try done; auto; try (by split; auto);
    try (apply Hok; rewrite ?gos_snoc, ?reqs_snoc, ?Hh; cbn; [|set_solver]);
    try (split; [|set_solver]); exists p; set_solver.
Qed.

(** [App.Start] needs its flags. *)
Lemma wp_App_Start flags path addr h (Q : list dev -> outcome error -> Prop) :
  cobra_parse provisioner_flags os_Args = ParsedRun flags ->
  flags !! "metrics-path" = Some path -> flags !! "listen-address" = Some addr ->
  reqs h = [DInitLogs] ->
  (forall err h', Forall (fun g => provisions g = false) (gos h') -> start_refused ->
     Q h' (Returned (Some err))) ->
  (forall h', controller_in (gos h') -> DDone ∈ reqs h' -> Q h' (Returned None)) ->
  (forall h', existsb refused h' = true -> Q h' Panicked) ->
  wp main_req (App.Start flags) h Q.
Proof.
  intros Hf Hp Ha Hh Herr Hok Hpanic. unfold App.Start. rewrite Hp, Ha.
  assert (Hg : gos h = []) by (unfold gos; by rewrite Hh).
  cbn -[Controller.Start]. split; [done|]. intros [|]; cbn -[Controller.Start].
  2:{ apply Hpanic. rewrite existsb_app. by apply orb_true_r. }
  rewrite !gos_snoc, Hg. split; [split; [by exists flags, path, addr|done]|]. intros ?.
  split; [done|]. intros ?. rewrite !gos_snoc, Hg. cbn -[Controller.Start].
  split; [split; [done|]|].
  { intros _. rewrite reqs_snoc. set_solver. }
  intros ?. eapply wp_Controller_Start.
  - rewrite !gos_snoc, Hg. done.
  - intros err h' Hgo Hr. apply Herr; [|done]. rewrite Hgo. by repeat constructor.
  - intros h'. apply Hok.
Qed.

Context {DL : DaemonLaws D}.

Lemma main_ok : thread_ok (mkThread None main []).
Proof using DL.
  unfold thread_ok. cbn [th_go th_prog th_hist thread_req thread_end]. unfold main, run, Execute.
  cbn [StartProvisioner cmd_Flags cmd_Run].
  destruct (cobra_parse provisioner_flags os_Args) as [err| |flags] eqn:Hf.
  - cbn. split; [done|]. intros ?. split; [done|]. intros ?. split; [|by intros []].
    right. right. split; [done|]. split; [constructor|]. left. by eexists.
  - cbn. split; [done|]. intros ?. split; [done|]. intros ?. split; [|by intros []].
    by left.
  - destruct (cobra_declared _ _ _ (mkFlag "metrics-path" defaultMetricsPath
      "path under which to expose metrics") Hf) as [path Hp]; [set_solver|].
    destruct (cobra_declared _ _ _ (mkFlag "listen-address" defaultListenAddress
      "address on which to expose metrics") Hf) as [addr Ha]; [set_solver|].
    apply dwp_seq, dwp_call; [done|]. intros ?.
    apply (wp_defer (Resp := dresp)), dwp_seq, dwp_seq.
    eapply wp_App_Start; [done..| | |].
    + intros err h' Hg Hr. rewrite CheckErr_fatal. cbn. split; [|by intros []]. by right; right.
    + intros h' Hg Hr. rewrite CheckErr_nil. cbn. split; [done|]. intros y. split; [|by intros []].
      right; left. split; [done|]. by rewrite gos_snoc, app_nil_r, reqs_snoc, elem_of_app; auto.
    + intros h' Hin. cbn. split; [done|]. intros y. by rewrite existsb_app, Hin.
Qed.

(** ** Steps on the goroutines *)

Definition spawned (r : dreq) : list thread :=
  match r with DGo g => [spawn g] | _ => [] end.

Lemma answer_threads st r x st' :
  answer st r = Some (x, st') -> pr_threads st' = pr_threads st ++ spawned r /\ pr_exit st' = pr_exit st.
Proof.
  destruct r; cbn [answer spawned]; rewrite ?app_nil_r; try (intros [= _ <-]; done); try done.
  - by destruct (pr_buffer st); intros [= _ <-].
  - by destruct (pr_cancelled st); intros [= _ <-].
Qed.

(** A goroutine made a request, and got an answer: the process's, or one from
    outside. *)
Inductive requested st (i : nat) (t : thread) (r : dreq) (x : dresp r) : proc -> Prop :=
| requested_answer st' : answer st r = Some (x, st') -> requested st i t r x st'
| requested_outside : outside_answer r x -> requested st i t r x st.

(** The ways a step changes the goroutines: one goes on, and maybe starts
    another; or none does. *)
Lemma step_cases st st' :
  pstep st st' \/ outside st st' ->
  (exists i t r k x st1, pr_threads st !! i = Some t /\ th_prog t = PCall r k /\
     requested st i t r x st1 /\ pr_exit st = None /\ st' = advance i t x (k x) st1 /\
     pr_threads st1 = pr_threads st ++ spawned r /\ pr_exit st1 = None) \/
  (pr_threads st' = pr_threads st /\ pr_exit st = None /\
   ((exists s, s ∈ pr_notified st /\
       st' = sent s (match pr_buffer st with None => Some s | Some b => Some b end) st) \/
    (exists e st1, st' = set_exit e st1 /\
       ((st1 = st /\ exists t, t ∈ pr_threads st /\
           ((e = Crashed /\ th_prog t = PPanic) \/
            exists code k, e = Exited code /\ th_prog t = PCall (DExit code) k)) \/
        exists s, e = Killed s /\ (s ∉ pr_notified st) /\ st1 = sent s (pr_buffer st) st)))).
Proof.
  intros [Hs|Hs].
  - destruct Hs as [i t r k x st1 He Hi Hp Ha|i t code k He Hi Hp|i t He Hi Hp].
    + left. destruct (answer_threads _ _ _ _ Ha) as [Ht Hx]. rewrite He in Hx.
      exists i, t, r, k, x, st1. by repeat split; try done; apply requested_answer.
    + right. split; [done|]. split; [done|]. right. exists (Exited code), st. split; [done|]. left.
      split; [done|]. exists t. split; [by eapply list_elem_of_lookup_2|]. right. by eexists _, _.
    + right. split; [done|]. split; [done|]. right. exists Crashed, st. split; [done|]. left.
      split; [done|]. exists t. split; [by eapply list_elem_of_lookup_2|]. by left.
  - destruct Hs as [s He Hs|s He Hs|i t r k x He Hi Hp Hx].
    + right. split; [done|]. split; [done|]. left. by exists s.
    + right. split; [done|]. split; [done|]. right. exists (Killed s), (sent s (pr_buffer st) st).
      split; [done|]. right. by exists s.
    + left. exists i, t, r, k, x, st.
      repeat split; try done; [by apply requested_outside|]. destruct r; try done; cbn [spawned];
        by rewrite app_nil_r.
Qed.

Lemma reach_ind (I : proc -> Prop) :
  I start_proc ->
  (forall st st', reachable st -> I st -> pstep st st' \/ outside st st' -> I st') ->
  forall st, reachable st -> I st.
Proof.
  intros H0 Hstep st Hr.
  refine (rtc_ind_r (fun st => I st) start_proc H0 _ st Hr).
  intros a b Ha Hab IH. by eapply Hstep.
Qed.

Definition main_hist st : list dev := default [] (th_hist <$> head (pr_threads st)).

Definition went_on (t : thread) {r : dreq} (x : dresp r) (q : dio ()) : thread :=
  mkThread (th_go t) q (th_hist t ++ [Event r x]).

Lemma advance_threads st st1 i t r (x : dresp r) q :
  pr_threads st !! i = Some t -> pr_threads st1 = pr_threads st ++ spawned r ->
  pr_threads (advance i t x q st1) = <[i := went_on t x q]> (pr_threads st) ++ spawned r.
Proof.
  intros Hi Ht. unfold advance. cbn [pr_threads set_threads]. rewrite Ht.
  apply insert_app_l. by eapply lookup_lt_Some.
Qed.

Lemma set_exit_threads e st : pr_threads (set_exit e st) = pr_threads st.
Proof. done. Qed.

(** Every goroutine keeps to its discipline. *)
Lemma reach_threads st : reachable st -> Forall thread_ok (pr_threads st).
Proof using DL.
  revert st. apply reach_ind; [repeat constructor; apply main_ok|].
  intros st st' _ IH [(i & t & r & k & x & st1 & Hi & Hp & _ & _ & -> & Ht & _)|[-> _]]%step_cases;
    [|done].
  rewrite (advance_threads _ _ _ _ _ _ _ Hi Ht). apply Forall_app. split.
  - apply Forall_insert; [done|]. pose proof (proj1 (Forall_lookup _ _) IH _ _ Hi) as Hok.
    unfold thread_ok in *. rewrite Hp in Hok. by apply Hok.
  - destruct r; repeat constructor. apply spawn_ok.
Qed.

Lemma thread_request st i t r k :
  reachable st -> pr_threads st !! i = Some t -> th_prog t = PCall r k ->
  thread_req (th_go t) (th_hist t) r.
Proof using DL.
  intros Hr Hi Hp. pose proof (proj1 (Forall_lookup _ _) (reach_threads st Hr) _ _ Hi) as Hok.
  unfold thread_ok in Hok. rewrite Hp in Hok. apply Hok.
Qed.

(** Only [main] starts goroutines, and the list of goroutines says which. *)
Lemma reach_shape st :
  reachable st -> th_go <$> pr_threads st = None :: (Some <$> gos (main_hist st)).
Proof using DL.
  revert st. apply reach_ind; [done|].
  intros st st' Hr IH [(i & t & r & k & x & st1 & Hi & Hp & _ & _ & -> & Ht & _)|[Ht _]]%step_cases.
  2:{ unfold main_hist. by rewrite Ht. }
  pose proof (thread_request _ _ _ _ _ Hr Hi Hp) as Hreq.
  unfold main_hist. rewrite (advance_threads _ _ _ _ _ _ _ Hi Ht).
  rewrite fmap_app, list_fmap_insert. cbn [went_on th_go].
  rewrite list_insert_id by (by rewrite list_lookup_fmap, Hi). rewrite IH.
  destruct (pr_threads st) as [|t0 ts] eqn:Hts; [done|]. destruct i as [|i].
  - injection Hi as ->. unfold main_hist. rewrite Hts.
    change (None :: ((Some <$> gos (th_hist t)) ++ (th_go <$> spawned r)) =
            None :: (Some <$> gos (th_hist t ++ [Event r x]))).
    rewrite gos_snoc, fmap_app. f_equal. by destruct r.
  - cbn. unfold main_hist. rewrite Hts. cbn.
    assert (Hg : exists g, th_go t = Some g).
    { unfold main_hist in IH. rewrite Hts in IH. cbn in IH. injection IH as _ IH.
      change (ts !! i = Some t) in Hi.
      assert (Hl : (th_go <$> ts) !! i = Some (th_go t)) by (by rewrite list_lookup_fmap, Hi).
      rewrite IH, list_lookup_fmap in Hl. apply fmap_Some in Hl as (g & _ & Hg).
      by exists g. }
    destruct Hg as [g Hg]. rewrite Hg in Hreq.
    replace (spawned r) with (@nil thread); [by rewrite app_nil_r|].
    pose proof (goroutine_requests g _ _ Hreq). by destruct r.
Qed.

(** ** What the state owes to the goroutines *)

Lemma main_is_first st i t : reachable st -> pr_threads st !! i = Some t -> th_go t = None -> i = 0.
Proof using DL.
  intros Hr Hi Hn. pose proof (reach_shape st Hr) as Hs.
  assert (Hl : (th_go <$> pr_threads st) !! i = Some None) by (by rewrite list_lookup_fmap, Hi, <- Hn).
  rewrite Hs in Hl. destruct i as [|i]; [done|]. change ((Some <$> gos (main_hist st)) !! i = Some None) in Hl.
  rewrite list_lookup_fmap in Hl. by apply fmap_Some in Hl as (g & _ & ?).
Qed.

Lemma thread_started st i t g :
  reachable st -> pr_threads st !! S i = Some t -> th_go t = Some g -> gos (main_hist st) !! i = Some g.
Proof using DL.
  intros Hr Hi Hg. pose proof (reach_shape st Hr) as Hs.
  assert (Hl : (th_go <$> pr_threads st) !! S i = Some (Some g)) by (by rewrite list_lookup_fmap, Hi, <- Hg).
  rewrite Hs in Hl. change ((Some <$> gos (main_hist st)) !! i = Some (Some g)) in Hl.
  rewrite list_lookup_fmap in Hl. by apply fmap_Some in Hl as (g' & Hg' & [= ->]).
Qed.

Lemma main_there st :
  reachable st -> exists t ts, pr_threads st = t :: ts /\ th_go t = None /\ th_hist t = main_hist st.
Proof using DL.
  intros Hr. pose proof (reach_shape st Hr) as Hs. unfold main_hist in *.
  destruct (pr_threads st) as [|t ts]; [done|]. injection Hs as Hg _. by exists t, ts.
Qed.

Lemma main_hist_is st i t :
  reachable st -> pr_threads st !! i = Some t -> th_go t = None -> th_hist t = main_hist st.
Proof using DL.
  intros Hr Hi Hn. assert (i = 0) as -> by by eapply main_is_first.
  destruct (main_there st Hr) as (t0 & ts & Hts & _ & Hh). rewrite Hts in Hi. by injection Hi as <-.
Qed.

(** What [main] did is extended by its own steps only. *)
Lemma main_hist_step st st1 i t r (x : dresp r) q :
  reachable st -> pr_threads st !! i = Some t -> pr_threads st1 = pr_threads st ++ spawned r ->
  main_hist (advance i t x q st1) =
    match th_go t with None => main_hist st ++ [Event r x] | Some _ => main_hist st end.
Proof using DL.
  intros Hr Hi Ht. unfold main_hist. rewrite (advance_threads _ _ _ _ _ _ _ Hi Ht).
  destruct (main_there st Hr) as (t0 & ts & Hts & Hgo & _). rewrite Hts in Hi |- *.
  destruct i as [|i].
  - injection Hi as ->. cbn. by rewrite Hgo.
  - cbn. destruct (th_go t) eqn:Hg; [done|]. assert (S i = 0); [|done].
    apply (main_is_first st (S i) t Hr); [by rewrite Hts|done].
Qed.

(** What an answer changes, field by field. *)
Record answered st (r : dreq) (x : dresp r) st1 : Prop := {
  an_registered : pr_registered st1 = match r with
    DMustRegister cs => pr_registered st ++ map fq_name cs | _ => pr_registered st end;
  an_handled : pr_handled st1 = match r with
    DHandle path => path :: pr_handled st | _ => pr_handled st end;
  an_notified : pr_notified st1 = match r with DNotify sigs => sigs | _ => pr_notified st end;
  an_buffer : pr_buffer st1 = match r with DRecvSignal => None | _ => pr_buffer st end;
  an_cancelled : pr_cancelled st1 = match r with DCancel => true | _ => pr_cancelled st end;
  an_signals : pr_signals st1 = pr_signals st;
  an_answer :
    match r as r return dresp r -> Prop with
    | DMustRegister cs => fun x => x = bool_decide (NoDup (pr_registered st ++ map fq_name cs))
    | DHandle path => fun x =>
        x = negb (bool_decide (path = EmptyString)) && negb (bool_decide (path ∈ pr_handled st))
    | DRecvSignal => fun s => pr_buffer st = Some s
    | DDone => fun _ => pr_cancelled st = true
    | DRun g => run_outcome g
    | _ => fun _ => True
    end x;
}.

Lemma requested_answered st i t r x st1 : requested st i t r x st1 -> answered st r x st1.
Proof.
  intros [st2 Ha|Ha]; [|by destruct r; try done; split].
  destruct r; cbn [answer] in Ha; try (by injection Ha as <- <-; split); try done.
  - destruct (pr_buffer st) as [s|] eqn:Hb; [|done]. by injection Ha as <- <-; split.
  - destruct (pr_cancelled st) eqn:Hc; [|done]. injection Ha as <- <-. by split; rewrite ?Hc.
Qed.

(** A fact of [main]'s history and of the state that only [main]'s requests
    touch. *)
Definition boot_ok (l : list goroutine) : Prop :=
  forall i g, l !! i = Some g ->
    match i with
    | 0 => metric_server_of g
    | 1 => g = GoShutdown
    | _ => launched g
    end.

Lemma boot_ok_snoc l g : boot_ok l -> next_go l g -> boot_ok (l ++ [g]).
Proof.
  intros Hl Hg i g' [Hi|[Hn Hi]]%lookup_app_Some; [by apply Hl|].
  apply list_lookup_singleton_Some in Hi as [Hlen <-].
  assert (i = length l) as -> by lia. destruct l as [|g1 [|g2 l]]; exact Hg.
Qed.

Record main_inv st : Prop := {
  mi_boot : boot_ok (gos (main_hist st));
  mi_shutdown : GoShutdown ∈ gos (main_hist st) -> DNotify shutdown_signals ∈ reqs (main_hist st);
  mi_notify : DNotify shutdown_signals ∈ reqs (main_hist st) -> pr_notified st = shutdown_signals;
  mi_notified : pr_notified st = [] \/ pr_notified st = shutdown_signals;
  mi_registry : reqs (main_hist st) = [] \/ reqs (main_hist st) = [DInitLogs] -> pr_registered st = [];
  mi_registered : existsb refused (main_hist st) = false;
  mi_done : DDone ∈ reqs (main_hist st) -> pr_cancelled st = true;
}.

(** The names of the four counters are different. *)
Lemma counters_distinct : NoDup (map fq_name registered_counters).
Proof using DL.
  unfold registered_counters, fq_name. cbn [map cv_opts co_Namespace co_Subsystem co_Name].
  rewrite !BuildFQName_join by done. apply (bool_decide_unpack _). vm_compute. done.
Qed.

Lemma reach_main st : reachable st -> main_inv st.
Proof using DL.
  revert st. apply reach_ind.
  { split; [done|by intros ?%not_elem_of_nil..|by left|done|done|by intros ?%not_elem_of_nil]. }
  intros st st' Hr IH [(i & t & r & k & x & st1 & Hi & Hp & Hq & _ & -> & Ht & _)|(Ht & _ & Hc)]%step_cases.
  2:{ assert (Hm : main_hist st' = main_hist st) by (unfold main_hist; by rewrite Ht).
      destruct Hc as [(s & _ & ->)|(e & st1 & -> & [(-> & _)|(s & _ & _ & ->)])];
        destruct IH; by split; rewrite ?Hm. }
  pose proof (thread_request _ _ _ _ _ Hr Hi Hp) as Hreq.
  pose proof (requested_answered _ _ _ _ _ _ Hq) as Hans.
  pose proof (main_hist_step st st1 i t r x (k x) Hr Hi Ht) as Hm.
  destruct Hans as [Hreg _ Hnot _ Hcan _ Hx], IH as [Hboot Hsd Hn1 Hn2 Hr1 Hr2 Hd].
  destruct (th_go t) as [g|] eqn:Hgo.
  - assert (Hother : match r with DMustRegister _ | DNotify _ | DCancel => r = DCancel | _ => True end).
    { pose proof (goroutine_requests g _ _ Hreq) as Hg. by destruct r. }
    split; rewrite ?Hm; try done; unfold advance; cbn [pr_registered pr_notified pr_cancelled set_threads];
      rewrite ?Hreg, ?Hnot, ?Hcan; destruct r; try done; intros; auto.
  - rewrite (main_hist_is st i t Hr Hi Hgo) in Hreq.
    split; rewrite ?Hm, ?gos_snoc, ?reqs_snoc; unfold advance;
      cbn [pr_registered pr_notified pr_cancelled set_threads]; rewrite ?Hreg, ?Hnot, ?Hcan.
    + destruct r; rewrite ?app_nil_r; try done. by apply boot_ok_snoc, Hreq.
    + intros [Hin|Hin]%elem_of_app; apply elem_of_app; left; [by apply Hsd|].
      destruct r; try by apply not_elem_of_nil in Hin. apply list_elem_of_singleton in Hin as <-.
      by apply Hreq.
    + intros [Hin|Hin]%elem_of_app; [|apply list_elem_of_singleton in Hin as <-; done].
      destruct r; try by apply Hn1. exact Hreq.
    + destruct r; try done. right. exact Hreq.
    + intros [Hn|Hn]; [by apply app_nil in Hn as [_ ?]|].
      destruct (reqs (main_hist st)) as [|r0 l]; [|by destruct l].
      injection Hn as ->. apply Hr1. by left.
    + rewrite existsb_app, Hr2. destruct r; try done. cbn in Hreq. destruct Hreq as [-> H0].
      rewrite (Hr1 (or_intror H0)) in Hx. subst x. cbn [app].
      by rewrite bool_decide_eq_true_2 by exact counters_distinct.
    + intros [Hin|Hin]%elem_of_app.
      * destruct r; try by apply Hd. done.
      * apply list_elem_of_singleton in Hin as <-. exact Hx.
Qed.

(** The goroutines after a request. *)
Lemma advance_lookup st st1 i t r (x : dresp r) q j u :
  pr_threads st !! i = Some t -> pr_threads st1 = pr_threads st ++ spawned r ->
  pr_threads (advance i t x q st1) !! j = Some u ->
  (j = i /\ u = went_on t x q) \/ (j <> i /\ pr_threads st !! j = Some u) \/
  exists g, r = DGo g /\ u = spawn g.
Proof.
  intros Hi Ht. rewrite (advance_threads _ _ _ _ _ _ _ Hi Ht).
  intros [Hj|[_ Hj]]%lookup_app_Some.
  - apply list_lookup_insert_Some in Hj as [(-> & <- & _)|[Hne Hj]]; [by left|right; left; by auto].
  - right; right. destruct r; try done. apply list_lookup_singleton_Some in Hj as [_ <-]. by eexists.
Qed.

Lemma advance_kept st st1 i t r (x : dresp r) q j u :
  pr_threads st !! i = Some t -> pr_threads st1 = pr_threads st ++ spawned r ->
  pr_threads st !! j = Some u ->
  exists u', pr_threads (advance i t x q st1) !! j = Some u' /\ th_go u' = th_go u /\
    (th_hist u <> [] -> th_hist u' <> []) /\ (j = i -> u' = went_on t x q).
Proof.
  intros Hi Ht Hj. rewrite (advance_threads _ _ _ _ _ _ _ Hi Ht).
  assert (Hlt : j < length (<[i:=went_on t x q]> (pr_threads st)))
    by (rewrite length_insert; by eapply lookup_lt_Some).
  rewrite lookup_app_l by exact Hlt. destruct (decide (i = j)) as [->|Hne].
  - exists (went_on t x q). rewrite Hi in Hj. injection Hj as <-.
    rewrite list_lookup_insert_eq by (by eapply lookup_lt_Some). repeat split; try done.
    cbn. intros _ Hn. by apply app_nil in Hn as [_ ?].
  - exists u. by rewrite list_lookup_insert_ne by done.
Qed.

(** ** The metric server *)

Lemma metric_server_second st i t path addr :
  reachable st -> pr_threads st !! i = Some t -> th_go t = Some (GoMetricServer path addr) -> i = 1.
Proof using DL.
  intros Hr Hi Hg. destruct i as [|i].
  { destruct (main_there st Hr) as (t0 & ts & Hts & Hgo & _). rewrite Hts in Hi.
    injection Hi as <-. congruence. }
  pose proof (mi_boot st (reach_main st Hr) i _ (thread_started st i t _ Hr Hi Hg)) as Hb.
  by destruct i as [|[|i]].
Qed.

Record metric_inv st : Prop := {
  me_handled : pr_handled st = [] \/ exists t, pr_threads st !! 1 = Some t /\ th_hist t <> [];
  me_refused : forall i t path addr, pr_threads st !! i = Some t ->
    th_go t = Some (GoMetricServer path addr) -> existsb refused (th_hist t) = true ->
    path = EmptyString;
}.

(** Who makes the request [http.Handle]. *)
Lemma handle_request st i t path k :
  reachable st -> pr_threads st !! i = Some t -> th_prog t = PCall (DHandle path) k ->
  i = 1 /\ th_hist t = [] /\ exists addr, th_go t = Some (GoMetricServer path addr).
Proof using DL.
  intros Hr Hi Hp. pose proof (thread_request _ _ _ _ _ Hr Hi Hp) as Hreq.
  destruct (th_go t) as [g|] eqn:Hg; [|done].
  destruct g; cbn in Hreq.
  1:{ destruct Hreq as [[[= ->] Hh]|[a ?]]; [|done].
      split; [by eapply metric_server_second|]. split; [done|]. by eexists. }
  all: destruct Hreq as [[? _]|Hreq]; [done|]; naive_solver.
Qed.

Lemma reach_metric st : reachable st -> metric_inv st.
Proof using DL.
  revert st. apply reach_ind.
  { split; [by left|]. intros i t path addr Hi Hg. destruct i as [|i]; [|done]. by injection Hi as <-. }
  intros st st' Hr IH [(i & t & r & k & x & st1 & Hi & Hp & Hq & _ & -> & Ht & _)|(Ht & _ & Hc)]%step_cases.
  2:{ assert (Hh : pr_handled st' = pr_handled st).
      { by destruct Hc as [(s & _ & ->)|(e & st1 & -> & [(-> & _)|(s & _ & _ & ->)])]. }
      destruct IH. split; by rewrite ?Hh, ?Ht. }
  pose proof (requested_answered _ _ _ _ _ _ Hq) as Hans.
  pose proof (handle_request st i t) as Hhandle. split.
  - assert (Hh : pr_handled (advance i t x (k x) st1) = pr_handled st1) by done.
    rewrite Hh, (an_handled _ _ _ _ Hans).
    assert (Hone : (exists path, r = DHandle path) \/ match r with DHandle _ => False | _ => True end)
      by (destruct r; eauto).
    destruct Hone as [[path ->]|Hno].
    + right. destruct (Hhandle _ _ Hr Hi Hp) as (-> & _).
      destruct (advance_kept st st1 1 t _ x (k x) 1 t Hi Ht Hi) as (u & Hu & _ & _ & Heq).
      exists u. split; [done|]. rewrite (Heq eq_refl). cbn. by intros [_ ?]%app_nil.
    + destruct (me_handled st IH) as [Hn|(u & Hu & Hhist)].
      * left. by destruct r.
      * right. destruct (advance_kept st st1 i t r x (k x) 1 u Hi Ht Hu) as (u' & Hu' & _ & Hk & _).
        exists u'. split; [done|]. by apply Hk.
  - intros j u path addr Hj Hg Href.
    destruct (advance_lookup _ _ _ _ _ _ _ _ _ Hi Ht Hj) as [[-> ->]|[[_ Hju]|(g & -> & ->)]];
      [|by eapply (me_refused st IH)|done].
    cbn in Hg, Href. rewrite existsb_app in Href. apply orb_true_iff in Href as [Href|Href];
      [by eapply (me_refused st IH)|].
    destruct r; cbn in Href; try done.
    { pose proof (thread_request _ _ _ _ _ Hr Hi Hp) as Hreq. rewrite Hg in Hreq.
      by destruct Hreq as [[? _]|[? ?]]. }
    destruct (Hhandle _ _ Hr Hi Hp) as (-> & Hnil & addr' & Hgo).
    rewrite Hgo in Hg. injection Hg as -> _. pose proof (an_answer _ _ _ _ Hans) as Hx. cbn in Hx.
    destruct (me_handled st IH) as [Hn|(u & Hu & Hhist)]; [|rewrite Hu in Hi; by injection Hi as ->].
    rewrite orb_false_r, Hx, Hn in Href. rewrite (bool_decide_eq_false_2 (_ ∈ [])) in Href
      by apply not_elem_of_nil.
    rewrite andb_true_r, negb_involutive in Href. by apply bool_decide_eq_true in Href.
Qed.

(** ** Signals *)

Definition signalled st : Prop := exists s, s ∈ pr_signals st /\ s ∈ shutdown_signals.

(** Where the signal handler is. *)
Definition shutdown_at st (t : thread) : Prop :=
  match th_prog t with
  | PCall r k =>
      match r as r return (dresp r -> dio ()) -> Prop with
      | DRecvSignal => fun k => th_hist t = [] /\ forall x, k x = dcall DCancel
      | DCancel => fun k => th_hist t <> [] /\ signalled st /\ forall x, k x = PRet tt
      | _ => fun _ => False
      end k
  | PRet _ => th_hist t <> [] /\ signalled st /\ pr_cancelled st = true
  | _ => False
  end.

Record signal_inv st : Prop := {
  si_buffer : forall s, pr_buffer st = Some s -> s ∈ pr_signals st /\ s ∈ shutdown_signals;
  si_threads : forall i t, pr_threads st !! i = Some t -> th_go t = Some GoShutdown -> shutdown_at st t;
  si_cancelled : pr_cancelled st = true -> signalled st;
  (** a signal is in the channel, or the handler has got it *)
  si_sent : signalled st -> pr_exit st = None -> pr_buffer st <> None \/
    exists i t, pr_threads st !! i = Some t /\ th_go t = Some GoShutdown /\ th_hist t <> [];
}.

Lemma shutdown_at_mono st st' t :
  (signalled st -> signalled st') -> (pr_cancelled st = true -> pr_cancelled st' = true) ->
  shutdown_at st t -> shutdown_at st' t.
Proof.
  intros Hs Hc. unfold shutdown_at. destruct (th_prog t) as [[]| | |r k]; [|done..|].
  - intros (Hh & Hg & Hx). auto.
  - destruct r; try done. intros (Hh & Hg & Hk). auto.
Qed.

Lemma spawn_shutdown_at st : shutdown_at st (spawn GoShutdown).
Proof. done. Qed.

(** Only the handler receives and cancels. *)
Lemma shutdown_request st i t r k :
  reachable st -> pr_threads st !! i = Some t -> th_prog t = PCall r k ->
  r = DRecvSignal \/ r = DCancel -> th_go t = Some GoShutdown.
Proof using DL.
  intros Hr Hi Hp Hrr. pose proof (thread_request _ _ _ _ _ Hr Hi Hp) as Hreq.
  destruct (th_go t) as [[]|]; try done; destruct Hrr as [-> | ->]; try done;
    destruct Hreq as [[? _]|Hreq]; try done; naive_solver.
Qed.

Lemma reach_signal st : reachable st -> signal_inv st.
Proof using DL.
  revert st. apply reach_ind.
  { split; try done.
    - intros [|i] t Hi Hg; [by injection Hi as <-|done].
    - by intros (s & Hs & _) _; apply not_elem_of_nil in Hs. }
  intros st st' Hr IH [(i & t & r & k & x & st1 & Hi & Hp & Hq & He & -> & Ht & He1)|(Ht & He & Hc)]%step_cases.
  - pose proof (requested_answered _ _ _ _ _ _ Hq) as [_ _ _ Hbuf Hcan Hsig Hx].
    pose proof (shutdown_request st i t r k Hr Hi Hp) as Hwho.
    assert (Hs : signalled (advance i t x (k x) st1) <-> signalled st).
    { unfold signalled, advance. cbn [pr_signals set_threads]. by rewrite Hsig. }
    split.
    + intros s. unfold advance. cbn [pr_buffer pr_signals set_threads]. rewrite Hbuf, Hsig.
      destruct r; try apply (si_buffer st IH). done.
    + intros j u Hj Hg.
      destruct (advance_lookup _ _ _ _ _ _ _ _ _ Hi Ht Hj) as [[-> ->]|[[_ Hju]|(g & -> & ->)]].
      * cbn in Hg. pose proof (si_threads st IH i t Hi Hg) as Hat. unfold shutdown_at in Hat |- *.
        rewrite Hp in Hat. cbn [th_prog th_hist went_on].
        destruct r; try done.
        -- destruct Hat as [_ ->]. cbn. split; [by intros [_ ?]%app_nil|]. split; [|by intros []].
           apply Hs. exists x. by apply (si_buffer st IH).
        -- destruct Hat as (_ & Hsd & ->). split; [by intros [_ ?]%app_nil|]. split; [by apply Hs|].
           unfold advance. cbn [pr_cancelled set_threads]. by rewrite Hcan.
      * eapply shutdown_at_mono, (si_threads st IH); [by apply Hs| |done|done].
        unfold advance. cbn [pr_cancelled set_threads]. rewrite Hcan. by destruct r.
      * injection Hg as ->. apply spawn_shutdown_at.
    + unfold advance at 1. cbn [pr_cancelled set_threads]. rewrite Hcan, Hs.
      destruct r; try apply (si_cancelled st IH). intros _.
      pose proof (si_threads st IH i t Hi (Hwho (or_intror eq_refl))) as Hat.
      unfold shutdown_at in Hat. rewrite Hp in Hat. by apply Hat.
    + rewrite Hs. intros Hsd _. unfold advance at 1. cbn [pr_buffer set_threads]. rewrite Hbuf.
      assert (Hone : r = DRecvSignal \/ match r with DRecvSignal => False | _ => True end)
        by (destruct r; auto).
      destruct Hone as [->|Hno].
      * right. destruct (advance_kept _ _ _ _ _ x (k x) i t Hi Ht Hi) as (u & Hu & Hg & _ & Heq).
        exists i, u. split; [done|]. split; [rewrite Hg; auto|]. rewrite (Heq eq_refl). cbn.
        by intros [_ ?]%app_nil.
      * destruct (si_sent st IH Hsd He) as [Hb|(j & u & Hj & Hg & Hh)]; [left; by destruct r|right].
        destruct (advance_kept _ _ _ _ _ x (k x) j u Hi Ht Hj) as (u' & Hu' & Hg' & Hh' & _).
        exists j, u'. rewrite Hg'. auto.
  - destruct Hc as [(s & Hin & ->)|(e & st1 & -> & Hcase)].
    + assert (Hs : s ∈ shutdown_signals).
      { destruct (mi_notified st (reach_main st Hr)) as [Hn|Hn]; rewrite Hn in Hin;
          [by apply not_elem_of_nil in Hin|done]. }
      assert (Hmono : signalled st -> signalled (sent s (match pr_buffer st with None => Some s | b => b end) st)).
      { intros (s' & Hs' & ?). exists s'. split; [by right|done]. }
      split.
      * intros s'. cbn. destruct (pr_buffer st) as [b|] eqn:Hb; intros [= <-].
        -- destruct (si_buffer st IH b Hb). split; [by right|done].
        -- split; [by left|done].
      * intros j u Hj Hg. eapply shutdown_at_mono, (si_threads st IH); done.
      * intros Hcan. by apply Hmono, (si_cancelled st IH).
      * intros _ _. left. cbn. by destruct (pr_buffer st).
    + assert (Hm : pr_buffer (set_exit e st1) = pr_buffer st /\
          pr_cancelled (set_exit e st1) = pr_cancelled st /\
          forall s, s ∈ pr_signals st -> s ∈ pr_signals (set_exit e st1)).
      { destruct Hcase as [(-> & _)|(s & _ & _ & ->)]; [done|]. repeat split. intros s'. by right. }
      destruct Hm as (Hb & Hcan & Hsig).
      assert (Hmono : signalled st -> signalled (set_exit e st1)).
      { intros (s & Hs & ?). exists s. auto. }
      split; [|rewrite Ht|rewrite Hcan|done].
      * intros s. rewrite Hb. intros [Hs ?]%(si_buffer st IH). auto.
      * intros j u Hj Hg. eapply shutdown_at_mono, (si_threads st IH); [done|by rewrite Hcan|done|done].
      * intros Hx. by apply Hmono, (si_cancelled st IH).
Qed.

(** ** The code of the goroutines *)

Definition run_ok (e : dev) : Prop :=
  match ev_req e as r return dresp r -> Prop with
  | DRun g => run_outcome g
  | _ => fun _ => True
  end (ev_resp e).

Lemma reach_runs st : reachable st -> Forall (fun t => Forall run_ok (th_hist t)) (pr_threads st).
Proof.
  revert st. apply reach_ind; [repeat constructor|].
  intros st st' _ IH [(i & t & r & k & x & st1 & Hi & Hp & Hq & _ & -> & Ht & _)|[-> _]]%step_cases;
    [|done].
  rewrite (advance_threads _ _ _ _ _ _ _ Hi Ht). apply Forall_app. split.
  - apply Forall_insert; [done|]. cbn [went_on th_hist]. apply Forall_app.
    split; [by apply (proj1 (Forall_lookup _ _) IH _ _ Hi)|]. constructor; [|constructor].
    pose proof (an_answer _ _ _ _ (requested_answered _ _ _ _ _ _ Hq)) as Hx. by destruct r.
  - destruct r; repeat constructor.
Qed.

(** What a goroutine that has run ended with. *)
Lemma goroutine_ran st i t g x :
  reachable st -> pr_threads st !! i = Some t -> th_hist t = [Event (DRun g) x] -> run_outcome g x.
Proof.
  intros Hr Hi Hh. pose proof (proj1 (Forall_lookup _ _) (reach_runs st Hr) _ _ Hi) as Hok.
  cbn beta in Hok. rewrite Hh in Hok. exact (Forall_inv Hok).
Qed.

(** [Provision], [Delete] and the collector, run with a provisioner that
    [NewProvisioner] built. *)
Lemma NewProvisioner_config p gc :
  NewProvisioner = Some (Ok (p, gc)) -> exists cfg, getVolumeConfig p = GetVolumeConfig cfg.
Proof.
  unfold NewProvisioner. repeat case_match; try done. intros [= <- _]. by eexists.
Qed.

Lemma Delete_no_panic p pv t : ~ exec (Provisioner.Delete p pv) t (Some Panicked).
Proof.
  intros He. destruct (wp_run _ _ _ _ _ (wp_Delete p pv []) He) as [_ Hpost].
  by destruct (Hpost _ eq_refl) as [(err & ? & _) _].
Qed.

Lemma RunGarbageCollector_no_panic fuel ns t : ~ exec (RunGarbageCollector fuel ns) t (Some Panicked).
Proof.
  assert (Hloop : forall f (h : list ev), wp (fun _ _ => True) (gc_loop f ns) h (fun _ o => o <> Panicked)).
  { intros f. induction f as [|f IH]; intros h; [done|]. cbn [gc_loop]. apply wp_call; [done|].
    intros []; [|done]. apply wp_seq. eapply wp_mono, wp_weaken, wp_cleanUpStalePvc; [|done].
    intros h' ? _ [err ->]. apply IH. }
  intros He.
  assert (Hw : wp (fun _ _ => True) (RunGarbageCollector fuel ns) [] (fun _ o => o <> Panicked)).
  { unfold RunGarbageCollector. apply wp_seq. eapply wp_mono, wp_weaken, wp_cleanUpStalePvc; [|done].
    intros h' ? _ [err ->]. apply Hloop. }
  destruct (wp_run _ _ _ _ _ Hw He) as [_ Hpost]. by apply (Hpost _ eq_refl).
Qed.

Definition no_metrics_path : Prop :=
  exists flags, cobra_parse provisioner_flags os_Args = ParsedRun flags /\
    flags !! "metrics-path" = Some EmptyString.

(** A panic that can happen: in [Provision], called by the controller for a
    request of one of three kinds, or in a library that panics; in [Delete] and
    in the collector never. *)
Definition panic_allowed (g : goroutine) (source : panic_source) : Prop :=
  match source with
  | InProvision opts =>
      (exists p, g = GoController provisionerName p isLeaderElectionEnabled) /\
      (may_panic opts \/ GetStorageClassNameFromPVC (po_PVC opts) = None)
  | InLibrary l => l ∈ libraries g /\ library_panics l
  | InDelete _ | InCollector => False
  end.

(** The controller ended the process, having been started with leader election. *)
Definition leadership_lost st (code : Z) : Prop :=
  code = leader_lost_status /\ code <> 0%Z /\
  exists p, ran st (GoController provisionerName p true) (RunExit code) /\ isLeaderElectionEnabled = true.

Definition crash_allowed st : Prop :=
  no_metrics_path \/
  exists g source, ran st g (RunPanicked source) /\ provisions g = true /\ panic_allowed g source.

Lemma run_panicked g source : launched g -> run_outcome g (RunPanicked source) -> panic_allowed g source.
Proof.
  intros Hl Ho.
  inversion Ho as [|g' lib Hlib Hpan|n p le fuel opts t He|n p le pv t He|ns fuel t He|]; subst.
  - done.
  - destruct Hl as (-> & -> & gc & Hnew). destruct (NewProvisioner_config p gc Hnew) as [cfg Hcfg].
    split; [by exists p|].
    destruct (wp_run _ _ _ _ _ (wp_Provision fuel cfg p opts [] Hcfg) He) as [_ Hpost].
    exact (proj1 (Hpost _ eq_refl)).
  - by destruct (Delete_no_panic p pv t).
  - by destruct (RunGarbageCollector_no_panic fuel ns t).
Qed.

(** ** How it ends *)

(** A goroutine that runs handlers or libraries was launched. *)
Lemma thread_launched st i t g :
  reachable st -> pr_threads st !! i = Some t -> th_go t = Some g -> provisions g = true ->
  g ∈ gos (main_hist st) /\ launched g.
Proof using DL.
  intros Hr Hi Hg Hp. destruct i as [|i].
  { destruct (main_there st Hr) as (t0 & ts & Hts & Hgo & _). rewrite Hts in Hi.
    injection Hi as <-. congruence. }
  pose proof (thread_started st i t _ Hr Hi Hg) as Hl. split; [by eapply list_elem_of_lookup_2|].
  pose proof (mi_boot st (reach_main st Hr) i _ Hl) as Hb.
  destruct i as [|[|i]]; [by destruct Hb as (? & ? & ? & _ & _ & ->)|by subst|done].
Qed.

Lemma thread_panics st i t :
  reachable st -> pr_threads st !! i = Some t -> th_prog t = PPanic -> crash_allowed st.
Proof using DL.
  intros Hr Hi Hp. pose proof (reach_main st Hr) as Hmi.
  pose proof (proj1 (Forall_lookup _ _) (reach_threads st Hr) _ _ Hi) as Hok.
  unfold thread_ok in Hok. rewrite Hp in Hok. cbn [wp] in Hok.
  destruct (th_go t) as [g|] eqn:Hg; cbn [thread_end main_end] in Hok.
  2:{ rewrite (main_hist_is st i t Hr Hi Hg) in Hok. by rewrite (mi_registered st Hmi) in Hok. }
  destruct (provisions g) eqn:Hpg.
  - destruct (thread_launched st i t g Hr Hi Hg Hpg) as [Hin Hl].
    assert (Hh : exists source, th_hist t = [Event (DRun g) (RunPanicked source)]) by by destruct g.
    destruct Hh as [source Hh]. right. exists g, source. split; [|split; [done|]].
    + exists t. split; [by eapply list_elem_of_lookup_2|done].
    + apply run_panicked; [done|]. by eapply goroutine_ran.
  - destruct g; try done. left.
    pose proof (me_refused st (reach_metric st Hr) i t _ _ Hi Hg Hok) as ->.
    assert (i = 1) as -> by by eapply metric_server_second.
    destruct (mi_boot st Hmi 0 _ (thread_started st 0 t _ Hr Hi Hg)) as (flags & path & addr & Hf & Hpath & [= <- _]).
    by exists flags.
Qed.

Lemma thread_exits st i t code k :
  reachable st -> pr_threads st !! i = Some t -> th_prog t = PCall (DExit code) k ->
  match th_go t with
  | None => exit_allowed (gos (main_hist st)) (pr_cancelled st = true) code
  | Some _ => leadership_lost st code
  end.
Proof using DL.
  intros Hr Hi Hp. pose proof (thread_request _ _ _ _ _ Hr Hi Hp) as Hreq.
  destruct (th_go t) as [g|] eqn:Hg.
  - assert (Hh : provisions g = true /\ th_hist t = [Event (DRun g) (RunExit code)]).
    { destruct g; cbn in Hreq; destruct Hreq as [[? _]|Hreq]; try done; try (by destruct Hreq);
        destruct Hreq as (c & [= ->] & ->); done. }
    destruct Hh as [Hpg Hh]. pose proof (goroutine_ran st i t g _ Hr Hi Hh) as Ho.
    destruct (thread_launched st i t g Hr Hi Hg Hpg) as [Hin Hl].
    inversion Ho as [| | | | |name p]; subst. destruct Hl as (-> & Hle & _). split; [done|].
    split; [apply leader_lost_fatal|]. exists p. split; [|done].
    exists t. split; [by eapply list_elem_of_lookup_2|done].
  - rewrite (main_hist_is st i t Hr Hi Hg) in Hreq. cbn in Hreq.
    destruct Hreq as [Hx|[(Hx & Hctl & Hd)|Hx]]; [by left| |by right; right].
    right; left. split; [done|]. split; [done|]. by apply (mi_done st (reach_main st Hr)).
Qed.

Lemma reach_exit st :
  reachable st -> forall e, pr_exit st = Some e ->
  match e with
  | Exited code =>
      exit_allowed (gos (main_hist st)) (pr_cancelled st = true) code \/
      leadership_lost st code
  | Crashed => crash_allowed st
  | Killed s => s ∈ pr_signals st /\ (s ∉ shutdown_signals \/ GoShutdown ∉ gos (main_hist st))
  end.
Proof using DL.
  revert st. apply (reach_ind (fun st => forall e, pr_exit st = Some e -> _)); [done|].
  intros st st' Hr _ [(i & t & r & k & x & st1 & _ & _ & _ & _ & -> & _ & He)|(Ht & He & Hc)]%step_cases.
  { intros e Hx. unfold advance in Hx. cbn in Hx. congruence. }
  assert (Hm : main_hist st' = main_hist st) by (unfold main_hist; by rewrite Ht). rewrite Hm.
  pose proof (reach_main st Hr) as Hmi.
  destruct Hc as [(s & _ & ->)|(e & st1 & -> & Hcase)]; [by cbn; congruence|].
  intros e' [= <-].
  destruct Hcase as [(-> & t & (i & Hi)%list_elem_of_lookup & Hcase)|(s & -> & Hn & ->)].
  - destruct Hcase as [[-> Hp]|(code & k & -> & Hp)]; [exact (thread_panics st i t Hr Hi Hp)|].
    pose proof (thread_exits st i t code k Hr Hi Hp) as Hx. destruct (th_go t); [right; exact Hx|by left].
  - split; [by left|]. destruct (decide (s ∈ shutdown_signals)) as [Hs|Hs]; [right|by left].
    intros Hg. apply Hn. by rewrite (mi_notify st Hmi (mi_shutdown st Hmi Hg)).
Qed.

Lemma started_gos st : reachable st -> started st = gos (main_hist st).
Proof using DL.
  intros Hr. assert (Hid : started st = omap id (th_go <$> pr_threads st)).
  { unfold started. induction (pr_threads st) as [|t ts IH]; [done|]. cbn. rewrite IH.
    by destruct (th_go t). }
  rewrite Hid, reach_shape by done. cbn. induction (gos (main_hist st)) as [|g l IH]; [done|].
  cbn. by rewrite IH.
Qed.

(** C11: a process that has ended has ended in one of these ways. It exited with
    status 0 because help was asked for, before anything was started; or with
    status 0 because SIGINT or SIGTERM arrived, after the controller was started;
    or with status 1 because the command line, the client or the provisioner was
    refused, before anything that provisions was started; or with another status
    because the controller, started with leader election, lost its leadership.
    It crashed because the path of the metrics was set to nothing, or because a
    goroutine panicked: the controller in [Provision], on a capacity that does
    not parse, a storage class without reclaim policy or a claim without storage
    class, or a goroutine in a library that panics by itself; neither [Delete]
    nor the collector brings the process down. Or it was killed by a signal that is neither of
    the two, or that came before the handler was there. *)
Theorem daemon_exit st e :
  reachable st -> pr_exit st = Some e ->
  match e with
  | Exited code => exit_allowed (started st) (signalled st) code \/ leadership_lost st code
  | Crashed => crash_allowed st
  | Killed s => s ∈ pr_signals st /\ (s ∉ shutdown_signals \/ GoShutdown ∉ started st)
  end.
Proof using DL.
  intros Hr He. pose proof (reach_exit st Hr e He) as Hx. rewrite (started_gos st Hr).
  destruct e as [code| |s]; [|done..].
  destruct Hx as [[Hx|[(H0 & Hc & Hd)|Hx]]|Hx]; [by left; left| |by left; right; right|by right].
  left; right; left. split; [done|]. split; [done|]. by apply (si_cancelled st (reach_signal st Hr)).
Qed.

(** ** Shutting down *)

Lemma pstep_reachable st st' : reachable st -> pstep st st' -> reachable st'.
Proof. intros Hr Hs. eapply rtc_r; [exact Hr|by left]. Qed.

Lemma psteps_reachable st st' : reachable st -> rtc pstep st st' -> reachable st'.
Proof. intros Hr Hs. induction Hs; [done|]. by eapply IHHs, pstep_reachable. Qed.

Lemma psteps_keep st st' :
  rtc pstep st st' ->
  pr_signals st' = pr_signals st /\ (pr_cancelled st = true -> pr_cancelled st' = true).
Proof using C D M N P Y.
  induction 1 as [st|st1 st2 st3 Hs _ [IH1 IH2]]; [done|].
  destruct Hs as [i t r k x st' _ _ _ Ha|i t code k _ _ _|i t _ _ _]; [|done..].
  destruct (requested_answered st1 i t r x st' (requested_answer _ _ _ _ _ _ Ha)) as [_ _ _ _ Hc Hsig _].
  unfold advance in IH1, IH2. cbn in IH1, IH2. rewrite Hsig in IH1. split; [done|].
  intros Hx. apply IH2. rewrite Hc. by destruct r.
Qed.

(** One request of a goroutine that is not blocked. *)
Lemma pstep_request st i t r k x st1 :
  pr_exit st = None -> pr_threads st !! i = Some t -> th_prog t = PCall r k ->
  answer st r = Some (x, st1) ->
  exists st2, pstep st st2 /\ pr_exit st2 = None /\ pr_threads st2 !! i = Some (went_on t x (k x)).
Proof.
  intros He Hi Hp Ha. exists (advance i t x (k x) st1). split; [by econstructor|].
  destruct (answer_threads _ _ _ _ Ha) as [Ht Hx]. split; [by rewrite <- He, <- Hx|].
  destruct (advance_kept _ _ _ _ _ x (k x) i t Hi Ht Hi) as (u & Hu & _ & _ & Heq).
  by rewrite Hu, Heq.
Qed.

(** [main] runs until the process has ended or it waits for the context. *)
Lemma main_runs st :
  reachable st -> pr_exit st = None ->
  exists st', rtc pstep st st' /\
    ((exists code, pr_exit st' = Some (Exited code) /\
        exit_allowed (gos (main_hist st')) (pr_cancelled st' = true) code) \/
     (pr_exit st' = None /\ pr_cancelled st' = false /\ GoShutdown ∈ gos (main_hist st'))).
Proof using DL.
  intros Hr He. destruct (main_there st Hr) as (t & ts & Hts & Hg & _).
  assert (Hi : pr_threads st !! 0 = Some t) by by rewrite Hts. clear Hts ts.
  remember (th_prog t) as p eqn:Hp. symmetry in Hp. revert st t Hr He Hi Hg Hp.
  induction p as [a| | |r k IH]; intros st t Hr He Hi Hg Hp;
    pose proof (proj1 (Forall_lookup _ _) (reach_threads st Hr) _ _ Hi) as Hok;
    unfold thread_ok in Hok; rewrite Hp, Hg in Hok; cbn [wp] in Hok; try done.
  { rewrite (main_hist_is st 0 t Hr Hi Hg) in Hok. cbn in Hok.
    by rewrite (mi_registered st (reach_main st Hr)) in Hok. }
  destruct Hok as [Hreq _].
  assert (Hgo : forall x st1, answer st r = Some (x, st1) -> exists st', rtc pstep st st' /\
    ((exists code, pr_exit st' = Some (Exited code) /\
        exit_allowed (gos (main_hist st')) (pr_cancelled st' = true) code) \/
     (pr_exit st' = None /\ pr_cancelled st' = false /\ GoShutdown ∈ gos (main_hist st')))).
  { intros x st1 Ha. destruct (pstep_request st 0 t r k x st1 He Hi Hp Ha) as (st2 & Hs & He2 & Hi2).
    destruct (IH x st2 (went_on t x (k x))) as (st' & Hrun & Hend); [by eapply pstep_reachable|done..|].
    exists st'. split; [by eapply rtc_l|done]. }
  destruct r; try done; try by eapply Hgo; cbn [answer].
  - destruct (pr_cancelled st) eqn:Hc; [by eapply Hgo; cbn [answer]; rewrite Hc|].
    exists st. split; [done|]. right. split; [done|]. split; [done|].
    rewrite (main_hist_is st 0 t Hr Hi Hg) in Hreq. apply Hreq.
  - exists (set_exit (Exited code) st). split; [apply rtc_once; by eapply step_exit|].
    left. exists code. split; [done|]. pose proof (thread_exits st 0 t code k Hr Hi Hp) as Hx.
    by rewrite Hg in Hx.
Qed.

Lemma shutdown_third st i t :
  reachable st -> pr_threads st !! i = Some t -> th_go t = Some GoShutdown -> i = 2.
Proof using DL.
  intros Hr Hi Hg. destruct i as [|i].
  { destruct (main_there st Hr) as (t0 & ts & Hts & Hgo & _). rewrite Hts in Hi.
    injection Hi as <-. congruence. }
  pose proof (mi_boot st (reach_main st Hr) i _ (thread_started st i t _ Hr Hi Hg)) as Hb.
  destruct i as [|[|i]]; [|done..]. by destruct Hb as (? & ? & ? & _ & _ & ?).
Qed.

(** A signal that arrived cancels the context. *)
Lemma handler_runs st :
  reachable st -> pr_exit st = None -> signalled st -> GoShutdown ∈ gos (main_hist st) ->
  exists st', rtc pstep st st' /\ pr_exit st' = None /\ pr_cancelled st' = true.
Proof using DL.
  intros Hr He Hsig [i Hgo]%list_elem_of_lookup.
  assert (Hthread : exists t, pr_threads st !! S i = Some t /\ th_go t = Some GoShutdown).
  { assert (Hl : (th_go <$> pr_threads st) !! S i = Some (Some GoShutdown)).
    { rewrite reach_shape by done. change ((Some <$> gos (main_hist st)) !! i = Some (Some GoShutdown)).
      by rewrite list_lookup_fmap, Hgo. }
    rewrite list_lookup_fmap in Hl. apply fmap_Some in Hl as (t & Ht & Hg). by exists t. }
  destruct Hthread as (t & Hi & Hg).
  assert (Hcancel : forall st t, reachable st -> pr_exit st = None -> pr_threads st !! S i = Some t ->
    th_prog t = dcall DCancel ->
    exists st', rtc pstep st st' /\ pr_exit st' = None /\ pr_cancelled st' = true).
  { intros s u Hrs Hes Hu Hp. unfold dcall, call in Hp.
    eexists. split; [apply rtc_once; by eapply (step_request s (S i) u DCancel)|done]. }
  pose proof (reach_signal st Hr) as Hs.
  pose proof (si_threads st Hs (S i) t Hi Hg) as Hat. unfold shutdown_at in Hat.
  destruct (th_prog t) as [a| | |r k] eqn:Hp; try done.
  { exists st. split; [done|]. split; [done|]. by apply Hat. }
  destruct r; try done.
  - destruct Hat as [Hh Hk].
    destruct (si_sent st Hs Hsig He) as [Hb|(j & u & Hj & Hgu & Hhu)].
    2:{ rewrite (shutdown_third st j u Hr Hj Hgu) in Hj. rewrite (shutdown_third st _ t Hr Hi Hg) in Hi.
        congruence. }
    destruct (pr_buffer st) as [s|] eqn:Hbuf; [|done].
    destruct (pstep_request st (S i) t DRecvSignal k s _ He Hi Hp ltac:(cbn [answer]; by rewrite Hbuf))
      as (st2 & Hst & He2 & Hi2).
    destruct (Hcancel st2 (went_on t (r := DRecvSignal) s (k s))) as (st' & Hrun & Hend);
      [by eapply pstep_reachable|done|done|apply Hk|].
    exists st'. split; [by eapply rtc_l|done].
  - eexists. split; [apply rtc_once; by eapply (step_request st (S i) t DCancel)|done].
Qed.

(** C12: SIGINT and SIGTERM can always be obeyed: from whatever state the process
    is in when one of them has arrived, starting or serving, its own steps can
    lead to the exit with status 0, unless its start is refused: no goroutine has
    to be waited for but the signal handler. *)
Theorem daemon_shutdown st flags :
  cobra_parse provisioner_flags os_Args = ParsedRun flags -> ~ start_refused ->
  reachable st -> pr_exit st = None -> signalled st ->
  exists st', rtc pstep st st' /\ pr_exit st' = Some (Exited 0).
Proof using DL.
  intros Hf Hok Hr He Hsig.
  assert (Hend : forall l done code, exit_allowed l done code -> code = 0%Z).
  { intros l d code [(H0 & _)|[(H0 & _)|(_ & _ & Hx)]]; done. }
  destruct (main_runs st Hr He) as (st1 & Hs1 & [(code & Hx & Hal)|(He1 & _ & Hgo)]).
  { exists st1. split; [done|]. rewrite Hx. by rewrite (Hend _ _ _ Hal). }
  pose proof (psteps_reachable _ _ Hr Hs1) as Hr1.
  assert (Hsig1 : signalled st1) by (unfold signalled; by rewrite (proj1 (psteps_keep _ _ Hs1))).
  destruct (handler_runs st1 Hr1 He1 Hsig1 Hgo) as (st2 & Hs2 & He2 & Hc2).
  pose proof (psteps_reachable _ _ Hr1 Hs2) as Hr2.
  destruct (main_runs st2 Hr2 He2) as (st3 & Hs3 & [(code & Hx & Hal)|(_ & Hc3 & _)]).
  - exists st3. split; [by repeat (etrans; [eassumption|])|]. rewrite Hx. by rewrite (Hend _ _ _ Hal).
  - pose proof (proj2 (psteps_keep _ _ Hs3) Hc2). congruence.
Qed.
End ProcessFacts.
