(* ===== verification/ProcessExamples.v ===== *)
(** * A process that starts, serves and is shut down, or crashes, or loses its
    leadership *)

From S2P Require Import Prelude GoStrings Metrics K8sTypes MetaHelper Hook Prog KubeAPI KubeClient Env.
From S2P Require Import VolumeConfig NodeAffinity NFSServer Provisioner Daemon Controller App Process ProcessFacts.
From S2P Require Import Cluster Examples.

#[export] Instance ex_client : ClientLib := example_lib.

(** Arguments are not understood, except a request for help. *)
#[export] Instance ex_daemon : DaemonLib := {|
  os_Getenv := fun _ => EmptyString;
  os_Args := [];
  cobra_parse := fun flags args =>
    match args with
    | [] => ParsedRun (list_to_map (map (fun f => (fl_Name f, fl_Value f)) flags))
    | ["--help"] => ParsedHelp
    | _ => ParsedErr (ErrNew "unknown command")
    end;
  CheckErr_Fatal := fun err => match err with None => None | Some _ => Some 1%Z end;
  BuildFQName := fun ns sub name => ns +:+ "_" +:+ sub +:+ "_" +:+ name;
  library_panics := fun l => l = LibAnalytics;
  leader_lost_status := 255;
|}.

#[export] Instance ex_daemon_laws : DaemonLaws ex_daemon.
Proof.
  split; try done. intros flags [|arg args] values f.
  - intros [= <-] Hf. apply not_eq_None_Some. rewrite <- not_elem_of_list_to_map. intros Hn. apply Hn.
    apply list_elem_of_fmap. exists (fl_Name f, fl_Value f). split; [done|].
    by apply list_elem_of_fmap; exists f.
  - cbn. repeat case_match; done.
Qed.

(** [main] starts the controller and waits. *)
Definition ex_serving : proc := run_goroutines (replicate 8 0) start_proc.

Definition ex_signalled : proc := sent SIGTERM (Some SIGTERM) ex_serving.

(** The handler gets the signal and cancels, [main] ends. *)
Definition ex_exited : proc := run_goroutines [2; 2; 0; 0; 0] ex_signalled.

Definition name_of_go (g : goroutine) : string :=
  match g with
  | GoMetricServer path addr => "metrics " +:+ addr +:+ path
  | GoShutdown => "shutdown"
  | GoNodeInformer => "informer"
  | GoGarbageCollector ns => "collector " +:+ ns
  | GoController n _ leader => "controller " +:+ n +:+ (if leader then " elected" else EmptyString)
  | GoPingCheck _ _ => "ping"
  end.

Example ex_started :
  (map name_of_go (started ex_serving), pr_exit ex_serving) =
  (["metrics :9500/metrics"; "shutdown"; "informer"; "collector openebs";
    "controller openebs.io/nfsrwx elected"], None).
Proof. vm_compute. reflexivity. Qed.

Lemma ex_reachable : reachable ex_serving.
Proof. eapply psteps_reachable; [apply rtc_refl|apply run_goroutines_steps]. Qed.

Lemma ex_signalled_reachable : reachable ex_signalled.
Proof.
  eapply rtc_r; [exact ex_reachable|]. right.
  assert (Hb : pr_buffer ex_serving = None) by (vm_compute; reflexivity).
  pose proof (out_signal ex_serving SIGTERM) as Ho. rewrite Hb in Ho. apply Ho.
  - vm_compute. reflexivity.
  - apply (bool_decide_unpack _). vm_compute. exact I.
Qed.

Lemma ex_exited_reachable : reachable ex_exited.
Proof. eapply psteps_reachable; [exact ex_signalled_reachable|apply run_goroutines_steps]. Qed.

(** *** A process whose controller panics

    [Provision] is called for a claim without storage class. *)
Definition ex_no_class : ProvisionOptions :=
  mkProvisionOptions ex_sc "pvc-2"
    (mkPVC _ (pvc_meta ex_claim) (mkPVCSpec _ None [ReadWriteMany] None None EmptyString) EmptyString).

(** The provisioner of this environment. *)
Definition ex_built : Provisioner :=
  match NewProvisioner with Some (Ok (p, _)) => p | _ => ex_provisioner end.

Definition ex_controller : goroutine := GoController provisionerName ex_built true.

Lemma ex_panics : run_outcome ex_controller (RunPanicked (InProvision ex_no_class)).
Proof.
  apply (run_provision provisionerName ex_built true 5 ex_no_class
    (Prog.run serve (Provision 5 ex_built ex_no_class) ex_cluster).1.2).
  assert (Ho : (Prog.run serve (Provision 5 ex_built ex_no_class) ex_cluster).2 = Panicked)
    by (vm_compute; reflexivity).
  rewrite <- Ho. exact (run_exec (Resp := resp) serve _ ex_cluster).
Qed.

(** The controller goroutine of the serving process, and how it goes on. *)
Definition ex_then (x : run_result) : dio () :=
  match x with
  | RunReturned => PRet tt
  | RunPanicked _ => PPanic
  | RunExit code => x ← dcall (DExit code); match x : Empty_set with end
  end.

Definition ex_ran (x : run_result) : proc :=
  advance 5 (spawn ex_controller) (r := DRun ex_controller) x (ex_then x) ex_serving.

Lemma ex_ran_reachable x : run_outcome ex_controller x -> reachable (ex_ran x).
Proof.
  intros Hx. eapply rtc_r; [exact ex_reachable|]. right.
  refine (out_answer ex_serving 5 (spawn ex_controller) (DRun ex_controller) ex_then x _ _ _ Hx).
  - vm_compute. reflexivity.
  - reflexivity.
  - reflexivity.
Qed.

Definition ex_crashed : proc := run_goroutines [5] (ex_ran (RunPanicked (InProvision ex_no_class))).
Definition ex_lost : proc := run_goroutines [5] (ex_ran (RunExit leader_lost_status)).

Lemma ex_crashed_reachable : reachable ex_crashed.
Proof. eapply psteps_reachable; [apply ex_ran_reachable, ex_panics|apply run_goroutines_steps]. Qed.

Lemma ex_lost_reachable : reachable ex_lost.
Proof.
  eapply psteps_reachable; [apply ex_ran_reachable|apply run_goroutines_steps].
  apply run_lost_leadership.
Qed.

(** The three ways this process can end. *)
Lemma daemon_exit_witness :
  (pr_exit ex_exited = Some (Exited 0) /\
   (exit_allowed (started ex_exited) (signalled ex_exited) 0 \/ leadership_lost ex_exited 0)) /\
  (pr_exit ex_crashed = Some Crashed /\
   crash_allowed ex_crashed) /\
  (pr_exit ex_lost = Some (Exited 255) /\
   (exit_allowed (started ex_lost) (signalled ex_lost) 255 \/ leadership_lost ex_lost 255)).
Proof.
  assert (H1 : pr_exit ex_exited = Some (Exited 0)) by (vm_compute; reflexivity).
  assert (H2 : pr_exit ex_crashed = Some Crashed) by (vm_compute; reflexivity).
  assert (H3 : pr_exit ex_lost = Some (Exited 255)) by (vm_compute; reflexivity).
  split; [split; [exact H1|exact (daemon_exit ex_exited _ ex_exited_reachable H1)]|].
  split; [split; [exact H2|exact (daemon_exit ex_crashed _ ex_crashed_reachable H2)]|].
  split; [exact H3|exact (daemon_exit ex_lost _ ex_lost_reachable H3)].
Defined.

Lemma ex_not_refused : ~ start_refused.
Proof.
  intros [[err H]|[[err H]|[err H]]].
  - discriminate.
  - apply (f_equal (fun x => match x with Some (Err _) => true | _ => false end)) in H.
    vm_compute in H. discriminate.
  - apply (f_equal (fun x => match x with Some (Err _) => true | _ => false end)) in H.
    vm_compute in H. discriminate.
Qed.

Lemma daemon_shutdown_witness :
  pr_exit ex_signalled = None /\
  exists st', rtc pstep ex_signalled st' /\ pr_exit st' = Some (Exited 0).
Proof.
  assert (He : pr_exit ex_signalled = None) by (vm_compute; reflexivity).
  split; [exact He|].
  refine (daemon_shutdown ex_signalled _ eq_refl ex_not_refused ex_signalled_reachable He _).
  exists SIGTERM. split; [left|]. right; left.
Defined.
