(* ===== verification/HandlerProperties.v ===== *)
(** * Properties of the handlers, for every run

    A run is any trace of [exec]: the server may answer anything, and the run
    may be cut anywhere.  The last section states functional properties against
    the in-memory cluster. *)

From S2P Require Import Prelude GoStrings K8sTypes MetaHelper Hook Prog KubeAPI HookExecute.
From S2P Require Import HookFacts History Env VolumeConfig NodeAffinity NFSServer Provisioner NFSObjects.
From S2P Require Import NFSDeleteFacts NFSCreateFacts ProvisionerFacts GarbageCollector GCFacts.
From S2P Require Import Cluster ClusterFacts Examples.
From S2P Require ServiceBuilder DeploymentBuilder PVCBuilder.

Section Properties.
Context {C : CoreTypes} {P : PatchLib} {Y : MayaConfig} {M : MayaEnv} {N : ProvisionerLib}.

(** C2: whatever the API server answers, [Delete] deletes only the service, the
    deployment and the backend claim of this volume, the deployment after the
    service is gone and the claim after both are gone; every write happens
    while the volume is marked in the tracker; it always returns, the mark is
    removed, and it returns nil only if the volume is retained or the three
    objects are gone. *)
Theorem Delete_safe p pv t o :
  exec (Provisioner.Delete p pv) t o ->
  obeys (bracketed (Name (pv_meta pv)) (delete_requests p (nfs_of pv))) t /\
  (forall o', o = Some o' ->
     tracked (Name (pv_meta pv)) t = false /\
     exists err, o' = Returned err /\
       (err = None -> pv_ReclaimPolicy (pv_spec pv) = PersistentVolumeReclaimRetain \/
                      all_gone t (serverNamespace p) (nfs_of pv))).
Proof.
  intros He. destruct (wp_run _ _ _ _ _ (wp_Delete p pv []) He) as [Hobey Hpost].
  split; [done|]. intros o' Ho. pose proof (Hpost o' Ho) as [Hd Ht]. destruct Hd as (err & -> & Hg).
  split; [by apply Ht|]. by exists err.
Qed.

(** A retained volume is left alone: [Delete] makes no request to the API
    server and returns nil. *)
Theorem Delete_retained p pv t o :
  pv_ReclaimPolicy (pv_spec pv) = PersistentVolumeReclaimRetain ->
  exec (Provisioner.Delete p pv) t (Some o) ->
  t = [Event (RTrackAdd (Name (pv_meta pv))) tt; Event (RTrackDelete (Name (pv_meta pv))) tt] /\
  o = Returned None.
Proof.
  intros Hr He. unfold Provisioner.Delete, delete_body in He.
  rewrite decide_False in He by tauto.
  apply (exec_call_inv (Resp := resp)) in He as ([] & t1 & -> & He).
  apply (exec_call_inv (Resp := resp)) in He as ([] & t2 & -> & He).
  by apply (exec_ret_inv (Resp := resp)) in He as [-> ->].
Qed.

(** C1: whatever the API server answers, [Provision] creates only the backend
    claim, the deployment and the service of this volume, each after the server
    reported it absent, the service only when the claim was seen bound and the
    other two exist, and deletes nothing; every write happens while the volume
    is marked in the tracker, and the mark is removed when it returns and when
    it panics; a volume is returned, with state Finished, only if the three
    objects exist and the claim is bound, and it points at the service; an
    error leaves state NoChange; it panics only on an unparsable capacity, a
    storage class without reclaim policy or a claim without storage class. *)
Theorem Provision_safe fuel cfg p opts t o :
  getVolumeConfig p = GetVolumeConfig cfg ->
  exec (Provision fuel p opts) t o ->
  obeys (bracketed (po_PVName opts) (body_requests p opts)) t /\
  (forall o', o = Some o' ->
     body_post p opts t o' /\ (o' <> OutOfFuel -> tracked (po_PVName opts) t = false)).
Proof.
  intros Hcfg He. exact (wp_run _ _ _ _ _ (wp_Provision fuel cfg p opts [] Hcfg) He).
Qed.

(** C3: whatever the API server answers, a run of the garbage collector only
    reads, and deletes objects of claims it listed and found stale: the owner
    claim was seen gone or replaced, no request for the volume was in progress
    and the volume was seen gone. The deletions follow the order of a volume
    deletion, nothing is created or patched, and the run always returns. *)
Theorem cleanUpStalePvc_safe ns t o :
  exec (cleanUpStalePvc ns) t o ->
  obeys (gc_discipline ns) t /\ (forall o', o = Some o' -> exists err, o' = Returned err).
Proof. intros He. exact (wp_run _ _ _ _ _ (wp_cleanUpStalePvc ns []) He). Qed.

(** C14: creating a server for given options creates each of its three objects
    at most once, in the order claim, deployment, service, whatever the API
    server answers: each only after a not-found answer, the service only when
    the claim was seen bound and the other two exist. On success the objects
    created are exactly those that were reported absent, all three exist and
    their names are in the options; a panic needs an unparsable capacity. *)
Theorem createNFSServer_safe fuel p opts t o :
  exec (createNFSServer fuel p opts) t o ->
  obeys (create_discipline p opts) t /\
  created t `sublist_of` [KPVC; KDeployment; KService] /\
  (forall o', o = Some o' -> create_post p opts t o') /\
  (forall opts', o = Some (Returned (opts', None)) ->
     created t = missing (serverNamespace p) (nfs_name opts) t).
Proof.
  intros He. destruct (wp_run _ _ _ _ _ (wp_createNFSServer fuel p opts []) He) as [Hobey Hpost].
  destruct (wp_run _ _ _ _ _ (once_createNFSServer fuel p opts) He) as [Honce Hacc].
  split; [done|]. split; [by apply obeys_once|]. split; [done|].
  intros opts' Ho. by destruct (Hacc _ Ho) as (_ & ? & _).
Qed.

(** ** The waiting loop ends *)

Definition tick_of (e : ev) : option bool :=
  match ev_req e as r return resp r -> option bool with
  | RSelectTick => fun b => Some b
  | _ => fun _ => None
  end (ev_resp e).

(** The answers of the loop's [select] along a trace. *)
Definition ticks (t : list ev) : list bool := omap tick_of t.

Lemma wait_ticks fuel ns n t o :
  exec (waitForPvcBound fuel ns n) t (Some o) ->
  match o with
  | OutOfFuel => ticks t = replicate fuel true
  | _ => length (ticks t) <= fuel
  end.
Proof.
  revert t o. induction fuel as [|fuel IH]; intros t o He; cbn [waitForPvcBound] in He.
  { apply (exec_inv (Resp := resp)) in He as [-> [?|[= ->]]]; done. }
  apply (exec_call_inv (Resp := resp)) in He as ([] & t1 & -> & He).
  - apply (exec_call_inv (Resp := resp)) in He as (x & t2 & -> & He).
    destruct x as [a|e]; [|apply (exec_ret_inv (Resp := resp)) in He as [-> ->]; simpl; lia].
    destruct (decide (pvc_Phase a = ClaimBound));
      [apply (exec_ret_inv (Resp := resp)) in He as [-> ->]; simpl; lia|].
    specialize (IH _ _ He). destruct o; simpl in *; [lia|lia|]. f_equal. exact IH.
  - apply (exec_ret_inv (Resp := resp)) in He as [-> ->]. simpl. lia.
Qed.

(** C19: the waiting loop ends: once the timer has fired within the first [n]
    rounds, [n] rounds of fuel give a result, for any answers of the server. *)
Theorem waitForPvcBound_terminates fuel ns name t o n :
  exec (waitForPvcBound fuel ns name) t (Some o) ->
  (forall l, l `prefix_of` ticks t -> length l = n -> false ∈ l) -> n <= fuel ->
  o <> OutOfFuel.
Proof.
  intros He Htimer Hn ->. pose proof (wait_ticks _ _ _ _ _ He) as Ht. cbn in Ht.
  specialize (Htimer (replicate n true)). rewrite Ht in Htimer.
  assert (Hin : false ∈ replicate n true).
  { apply Htimer; [|by rewrite length_replicate].
    exists (replicate (fuel - n) true). rewrite <- replicate_add. f_equal. lia. }
  by apply elem_of_replicate in Hin as [? _].
Qed.

(** C21: the objects of a server fit together: the deployment selects the pods
    of its template, the service selects them too, and the container mounts
    the volume that the backend claim provides. *)
Theorem server_objects_wired p opts d s :
  deploymentName opts = nfs_name opts ->
  DeploymentBuilder.Build (deployment_builder p opts (nfs_name opts)) = Ok d ->
  ServiceBuilder.Build (service_builder p opts (nfs_name opts)) = Ok s ->
  let pod := d_Template (d_spec d) in
  d_Selector (d_spec d) = Some (Labels (pt_meta pod)) /\
  gomap_get (svc_Selector (svc_spec s)) ⊆ gomap_get (Labels (pt_meta pod)) /\
  svc_Selector (svc_spec s) <> None /\
  (exists c v, pod_Containers (pt_spec pod) = [c] /\ pod_Volumes (pt_spec pod) = [v] /\
     vs_PVC (v_Source v) = Some (backendPvcName opts) /\
     vm_Name <$> c_VolumeMounts c = [v_Name v] /\
     cp_Port <$> c_Ports c = sp_Port <$> svc_Ports (svc_spec s)).
Proof.
  intros Hn Hd Hs. pose proof (deployment_Build_spec p opts) as Hb. rewrite Hd in Hb.
  destruct Hb as (_ & _ & ->). rewrite service_Build in Hs.
  destruct (decide (serverNamespace p = EmptyString)); [done|]. injection Hs as <-.
  split; [done|]. split; [|split; [done|]].
  - cbn. rewrite Hn. apply map_subseteq_spec. intros k v. rewrite lookup_singleton.
    case_decide as Hk; [|done]. intros [= <-]. subst k.
    rewrite !lookup_insert_ne by done. apply lookup_singleton_eq.
  - eexists _, _. cbn. done.
Qed.

(** ** On the in-memory cluster *)

(** On a cluster that answers every request, deleting a server succeeds
    and removes exactly the three objects named after the volume, whether or
    not they were there. *)
Theorem deleteNFSServer_effect p opts s :
  hook p = None ->
  exists opts', exec_on (deleteNFSServer p opts) s =
    (without_server (serverNamespace p) (nfs_name opts) s, Returned (opts', None)).
Proof. intros Hh. by apply deleteNFSServer_cluster. Qed.

End Properties.

(** ** Witnesses *)

(** The trace and the outcome of a run on the example cluster. *)
Definition ex_trace {A} (p : io A) (s : cluster) : list ev := (run serve p s).1.2.
Definition ex_outcome {A} (p : io A) (s : cluster) : outcome A := (run serve p s).2.

Lemma ex_exec {A} (p : io A) s : exec p (ex_trace p s) (Some (ex_outcome p s)).
Proof. exact (run_exec (Resp := resp) serve p s). Qed.

(** The cluster after the example volume was provisioned. *)
Definition ex_provisioned : cluster := (exec_on (Provision 5 ex_provisioner ex_options) ex_cluster).1.

Lemma Delete_safe_witness :
  ex_outcome (Provisioner.Delete ex_provisioner ex_pv) ex_provisioned = Returned None /\
  length (ex_trace (Provisioner.Delete ex_provisioner ex_pv) ex_provisioned) = 9 /\
  obeys (bracketed "pvc-1" (delete_requests ex_provisioner "nfs-pvc-1"))
    (ex_trace (Provisioner.Delete ex_provisioner ex_pv) ex_provisioned).
Proof.
  split; [vm_compute; reflexivity|]. split; [vm_compute; reflexivity|].
  exact (proj1 (Delete_safe ex_provisioner ex_pv _ _ (ex_exec _ _))).
Defined.

Definition ex_retained : PersistentVolume :=
  mkPV _ (pv_meta ex_pv) (PVBuilder.set_ReclaimPolicy PersistentVolumeReclaimRetain (pv_spec ex_pv)).

Lemma Delete_retained_witness :
  ex_trace (Provisioner.Delete ex_provisioner ex_retained) ex_provisioned =
    [Event (RTrackAdd "pvc-1") tt; Event (RTrackDelete "pvc-1") tt] /\
  ex_outcome (Provisioner.Delete ex_provisioner ex_retained) ex_provisioned = Returned None.
Proof. exact (Delete_retained ex_provisioner ex_retained _ _ eq_refl (ex_exec _ _)). Defined.

Lemma Provision_safe_witness :
  shown (ex_outcome (Provision 5 ex_provisioner ex_options) ex_cluster) =
    Some ("pvc-1", Some (mkNFS "nfs-pvc-1.openebs.svc.cluster.local" "/" false), ProvisioningFinished) /\
  obeys (bracketed "pvc-1" (body_requests ex_provisioner ex_options))
    (ex_trace (Provision 5 ex_provisioner ex_options) ex_cluster) /\
  body_post ex_provisioner ex_options
    (ex_trace (Provision 5 ex_provisioner ex_options) ex_cluster)
    (ex_outcome (Provision 5 ex_provisioner ex_options) ex_cluster).
Proof.
  split; [vm_compute; reflexivity|].
  pose proof (Provision_safe 5 ex_default ex_provisioner ex_options _ _ eq_refl (ex_exec _ ex_cluster))
    as [Ho Hp].
  split; [exact Ho|]. exact (proj1 (Hp _ eq_refl)).
Defined.

(** The claim's owner is gone from [ex_provisioned] (it was never in it), and
    so is the volume: the collector removes the server. *)
Lemma cleanUpStalePvc_safe_witness :
  size (c_pvc ex_provisioned) = 1 /\
  size (c_pvc (exec_on (cleanUpStalePvc "openebs") ex_provisioned).1) = 0 /\
  obeys (gc_discipline "openebs") (ex_trace (cleanUpStalePvc "openebs") ex_provisioned).
Proof.
  split; [vm_compute; reflexivity|]. split; [vm_compute; reflexivity|].
  exact (proj1 (cleanUpStalePvc_safe "openebs" _ _ (ex_exec _ ex_provisioned))).
Defined.

(** On an empty cluster everything is created; when the deployment is already
    there, only the other two. *)
Definition ex_half : cluster :=
  mkCluster ∅ ∅ ∅ (c_dep (exec_on (createNFSServer 5 ex_provisioner ex_sopts) ex_cluster).1) ∅ [] ∅
    true 3 0.

Lemma createNFSServer_safe_witness :
  created (ex_trace (createNFSServer 5 ex_provisioner ex_sopts) ex_half) = [KPVC; KService] /\
  obeys (create_discipline ex_provisioner ex_sopts)
    (ex_trace (createNFSServer 5 ex_provisioner ex_sopts) ex_half) /\
  created (ex_trace (createNFSServer 5 ex_provisioner ex_sopts) ex_half) `sublist_of` [KPVC; KDeployment; KService].
Proof.
  split; [vm_compute; reflexivity|].
  pose proof (createNFSServer_safe 5 ex_provisioner ex_sopts _ _ (ex_exec _ ex_half)) as Hs.
  split; [exact (proj1 Hs)|exact (proj1 (proj2 Hs))].
Defined.

(** A cluster that does not bind claims: the timer fires after three ticks, and
    four rounds are enough. *)
Definition ex_unbound : cluster :=
  mkCluster {[("openebs", "nfs-pvc-1") := ex_claim]} ∅ ∅ ∅ ∅ [] ∅ false 3 0.

Lemma waitForPvcBound_terminates_witness :
  ticks (ex_trace (waitForPvcBound 4 "openebs" "nfs-pvc-1") ex_unbound) = [true; true; true; false] /\
  ex_outcome (waitForPvcBound 4 "openebs" "nfs-pvc-1") ex_unbound <> OutOfFuel.
Proof.
  split; [vm_compute; reflexivity|].
  apply (waitForPvcBound_terminates 4 "openebs" "nfs-pvc-1" _ _ 4 (ex_exec _ _)); [|lia].
  intros l [k Hk] Hl. change (ticks (ex_trace (waitForPvcBound 4 "openebs" "nfs-pvc-1") ex_unbound))
    with [true; true; true; false] in Hk.
  do 4 (destruct l as [|? l]; [discriminate Hl|]). injection Hk as <- <- <- <- _.
  do 3 right. left.
Defined.

Lemma server_objects_wired_witness :
  exists d s,
    DeploymentBuilder.Build (deployment_builder ex_provisioner
      (set_deploymentName "nfs-pvc-1" (set_backendPvcName "nfs-pvc-1" ex_sopts)) "nfs-pvc-1") = Ok d /\
    ServiceBuilder.Build (service_builder ex_provisioner
      (set_deploymentName "nfs-pvc-1" (set_backendPvcName "nfs-pvc-1" ex_sopts)) "nfs-pvc-1") = Ok s /\
    gomap_get (svc_Selector (svc_spec s)) ⊆ gomap_get (Labels (pt_meta (d_Template (d_spec d)))).
Proof.
  eexists _, _. split; [reflexivity|]. split; [reflexivity|].
  refine (proj1 (proj2 (server_objects_wired ex_provisioner
    (set_deploymentName "nfs-pvc-1" (set_backendPvcName "nfs-pvc-1" ex_sopts)) _ _ eq_refl _ _)));
    reflexivity.
Defined.

Lemma deleteNFSServer_effect_witness :
  exists opts', exec_on (deleteNFSServer ex_provisioner (delete_opts "pvc-1")) ex_provisioned =
    (without_server "openebs" "nfs-pvc-1" ex_provisioned, Returned (opts', None)).
Proof. exact (deleteNFSServer_effect ex_provisioner (delete_opts "pvc-1") ex_provisioned eq_refl). Defined.
