(* ===== verification/Witnesses.v ===== *)
(** * Concrete instances of the theorems on configuration, collector and life
    cycle, on the example provisioner *)

From S2P Require Import Prelude GoStrings StringFacts K8sTypes MetaHelper Hook Prog KubeAPI HookExecute.
From S2P Require Import History Env VolumeConfig NodeAffinity NFSServer Provisioner NFSObjects.
From S2P Require Import VolumeConfigFacts GarbageCollector Tracker Cluster ClusterFacts.
From S2P Require Import MetricsFacts ProvisionCluster Faults Recovery GCCluster Abandoned Concurrency WellTyped.
From S2P Require Import Examples HandlerProperties.

(** The example language keeps the first value of a name. *)
Definition ex_config_value (l : list (string * string)) (k : string) : option string :=
  snd <$> head (filter (fun nv => nv.1 = k) l).

Lemma ex_config_value_cons nv l k :
  ex_config_value (nv :: l) k = if decide (nv.1 = k) then Some nv.2 else ex_config_value l k.
Proof. unfold ex_config_value. rewrite filter_cons. by case_decide. Qed.

Definition ex_map (l : list (string * string)) : gmap string iface :=
  foldr (fun nv m => <[nv.1 := IStrMap (Some {["value" := nv.2]})]> m) ∅ l.

Lemma ex_map_lookup l k :
  lookup_field (C := ex_core) (ex_map l) k "value" = default EmptyString (ex_config_value l k).
Proof.
  unfold lookup_field. cbn [GetNestedField ex_config]. induction l as [|nv l IH]; [done|].
  rewrite ex_config_value_cons. cbn [ex_map foldr]. fold (ex_map l). rewrite lookup_insert.
  case_decide; [done|exact IH].
Qed.

#[export] Instance ex_config_laws : MayaConfigLaws.
Proof.
  refine {| config_value := ex_config_value; config_value_merge := _; config_value_map := _ |}.
  - intros high low k. cbn. induction high as [|nv high IH]; [done|].
    rewrite <- app_comm_cons, !ex_config_value_cons. by case_decide.
  - intros l m k [= <-]. exact (ex_map_lookup l k).
Defined.

(** The storage class an event returns. *)
Definition class_of_event (e : ev) : option StorageClass :=
  match ev_req e as r return resp r -> option StorageClass with
  | RGetStorageClass _ => fun a => match a with ApiOk sc => Some sc | ApiErr _ => None end
  | _ => fun _ => None
  end (ev_resp e).

(** The storage class sets the backend class, the default the server type. *)
Lemma GetVolumeConfig_precedence_witness :
  exists c t, exec (GetVolumeConfig ex_default "pvc-1" ex_claim) t (Some (Returned (Ok c))) /\
    getValue c "BackendStorageClass" = "local" /\ getValue c "NFSServerType" = "kernel".
Proof.
  destruct (ex_outcome (GetVolumeConfig ex_default "pvc-1" ex_claim) ex_cluster) as [[c|e]| |] eqn:Ho;
    [|by vm_compute in Ho..].
  pose proof (ex_exec (GetVolumeConfig ex_default "pvc-1" ex_claim) ex_cluster) as He.
  rewrite Ho in He. exists c, (ex_trace (GetVolumeConfig ex_default "pvc-1" ex_claim) ex_cluster).
  split; [exact He|].
  destruct (GetVolumeConfig_precedence ex_default "pvc-1" ex_claim _ c He) as (sc & Hn & Ht & _ & Hv).
  assert (Hc : vc_scName c = "nfs-sc") by (injection Hn as <-; reflexivity).
  assert (Hsc : sc_meta sc = sc_meta ex_sc).
  { rewrite Hc in Ht. assert (Hr : ex_trace (GetVolumeConfig ex_default "pvc-1" ex_claim) ex_cluster =
      [Event (RGetStorageClass "nfs-sc") (ApiOk ex_sc)]) by reflexivity.
    rewrite Hr in Ht. apply (f_equal (fmap class_of_event)) in Ht. injection Ht as <-. reflexivity. }
  rewrite !Hv, Hsc. split; reflexivity.
Defined.

(** ** The life of the example volume *)

Lemma ex_config_run t :
  exec_on (getVolumeConfig ex_provisioner "pvc-1" ex_claim) (set_tracker t ex_cluster) =
    (set_tracker t ex_cluster, Returned (Ok ex_volume_config)).
Proof. reflexivity. Qed.

Lemma ex_server_options : server_options ex_provisioner ex_options ex_volume_config = Ok ex_sopts.
Proof. reflexivity. Qed.

Lemma ex_ready : ready ex_provisioner ex_options ex_sopts "5" "Delete" ex_cluster.
Proof.
  split; try reflexivity; try discriminate.
  - exists ex_volume_config. split; [reflexivity|]. split; [apply ex_server_options|apply ex_config_run].
  - intros k Hk. destruct k; reflexivity.
Qed.

Lemma provision_delete_cycle_witness :
  exists pv s',
    exec_on (Provision 5 ex_provisioner ex_options) ex_cluster =
      (s', Returned (Ok pv, ProvisioningFinished)) /\
    Name (pv_meta pv) = "pvc-1" /\
    exec_on (Provisioner.Delete ex_provisioner pv) s' = (set_ticks 2 ex_cluster, Returned None).
Proof.
  destruct (provision_delete_cycle 4 ex_provisioner ex_options ex_sopts "5" "Delete" ex_cluster ex_ready)
    as (pv & s' & Hp & _ & Hn & _ & Hd).
  exists pv, s'. split; [exact Hp|]. split; [exact Hn|exact Hd].
Defined.

Lemma collector_name_roundtrip_witness :
  str_forall visible "pvc-1" = true /\ nfs_pv_name "nfs-pvc-1" = "pvc-1".
Proof.
  split; [reflexivity|]. exact (proj1 (collector_name_roundtrip ex_sopts eq_refl)).
Defined.


(** ** The process stops after it created the claim, and starts again *)

Lemma ex_servable :
  servable ex_provisioner ex_default ex_options ex_volume_config ex_sopts "5" "Delete" ex_cluster.
Proof.
  split; try reflexivity; try discriminate. intros k Hk. destruct k; reflexivity.
Qed.

Definition ex_stopped : cluster :=
  set_tracker ∅ (stopped 4 (Provision 5 ex_provisioner ex_options) (set_ticks 3 ex_cluster)).

Lemma ex_stopped_attempt : rtc (attempt ex_provisioner ex_options 5) ex_cluster ex_stopped.
Proof.
  apply rtc_once. unfold ex_stopped. eapply attempt_provision, stopped_frun.
Qed.

Definition has (k : kind) (s : cluster) : bool :=
  match store_of k s !! ("openebs", "nfs-pvc-1") with Some _ => true | None => false end.

(** The server of a claim that is gone is removed in the first of two runs. *)
Lemma collector_terminates_witness :
  has KPVC ex_provisioned = true /\
  exec_on (RunGarbageCollector 5 "openebs") ex_provisioned =
    (passes "openebs" 1 (collect "openebs" ex_provisioned), Returned tt) /\
  has KPVC (collect "openebs" ex_provisioned) = false.
Proof.
  split; [vm_compute; reflexivity|]. split; [|vm_compute; reflexivity].
  apply (collector_terminates 5 "openebs" ex_provisioned). vm_compute. lia.
Defined.

Lemma provision_recovers_witness :
  (has KPVC ex_stopped, has KDeployment ex_stopped) = (true, false) /\
  exists pv s', exec_on (Provision 5 ex_provisioner ex_options) ex_stopped =
      (s', Returned (Ok pv, ProvisioningFinished)) /\ has KService s' = true.
Proof.
  split; [vm_compute; reflexivity|].
  assert (Ht : Nat.eqb (c_ticks ex_stopped) 0 = false) by (vm_compute; reflexivity).
  apply Nat.eqb_neq in Ht.
  destruct (provision_recovers 5 4 ex_provisioner ex_default ex_options ex_volume_config ex_sopts "5"
    "Delete" ex_cluster ex_stopped ex_servable ex_stopped_attempt Ht) as (s' & Hp & Hs).
  eexists _, s'. split; [exact Hp|]. unfold has. rewrite (so_store _ _ Hs KService). reflexivity.
Defined.

Lemma delete_recovers_witness :
  exists s', exec_on (Provisioner.Delete ex_provisioner ex_pv) ex_stopped = (s', Returned None) /\
    has KPVC s' = false.
Proof.
  assert (Hn : Name (pv_meta ex_pv) = po_PVName ex_options) by reflexivity.
  assert (Hr : pv_ReclaimPolicy (pv_spec ex_pv) <> PersistentVolumeReclaimRetain) by discriminate.
  destruct (delete_recovers 5 ex_provisioner ex_default ex_options ex_volume_config ex_sopts "5"
    "Delete" ex_cluster ex_stopped ex_pv ex_servable ex_stopped_attempt Hn Hr) as (s' & Hd & Hs).
  exists s'. split; [exact Hd|]. unfold has. rewrite (so_store _ _ Hs KPVC). reflexivity.
Defined.

Lemma abandoned_collected_witness :
  has KPVC ex_stopped = true /\
  exists s', exec_on (cleanUpStalePvc "openebs")
      (set_tracker ∅ (cluster_delete KPVC "apps" "data" ex_stopped)) = (s', Returned None) /\
    has KPVC s' = false.
Proof.
  split; [vm_compute; reflexivity|].
  destruct (abandoned_collected 5 ex_provisioner ex_default ex_options ex_volume_config ex_sopts "5"
    "Delete" ex_cluster ex_stopped ex_servable ex_stopped_attempt) as (s' & Hx & Ha);
    [reflexivity|reflexivity|reflexivity|discriminate|].
  exists s'. split; [exact Hx|]. unfold has.
  rewrite (Ha KPVC ltac:(discriminate) : store_of KPVC s' !! ("openebs", "nfs-pvc-1") = None).
  reflexivity.
Defined.

(** ** What the counters say *)

Lemma handlers_counted_witness :
  length (only is_inc (ex_trace (Provision 5 ex_provisioner ex_options) ex_cluster)) = 1 /\
  provision_counts (ex_trace (Provision 5 ex_provisioner ex_options) ex_cluster)
    (ex_outcome (Provision 5 ex_provisioner ex_options) ex_cluster) /\
  delete_counts ex_pv (ex_trace (Provisioner.Delete ex_provisioner ex_pv) ex_provisioned)
    (ex_outcome (Provisioner.Delete ex_provisioner ex_pv) ex_provisioned).
Proof.
  split; [vm_compute; reflexivity|].
  destruct (handlers_counted 5 ex_default ex_provisioner ex_options ex_pv eq_refl) as [Hp Hd].
  split; [exact (Hp _ _ (ex_exec _ _))|exact (Hd _ _ (ex_exec _ _))].
Defined.

(** A request for a server type that does not exist fails, and no counter of
    failures sees it. *)
Definition ex_ganesha : ProvisionOptions :=
  mkProvisionOptions ex_sc "pvc-2"
    (mkPVC _ (set_Annotations (Some {["cas.openebs.io/config" := "NFSServerType=ganesha"]})
                (pvc_meta ex_claim)) (pvc_spec ex_claim) EmptyString).

Definition failed {A} (o : outcome (result A * ProvisioningState)) : bool :=
  match o with Returned (Err _, _) => true | _ => false end.

Example uncounted_failure :
  failed (ex_outcome (Provision 5 ex_provisioner ex_ganesha) ex_cluster) = true /\
  length (only is_inc (ex_trace (Provision 5 ex_provisioner ex_ganesha) ex_cluster)) = 0.
Proof. vm_compute. done. Qed.

(** ** A provisioning request and the collector, interleaved

    The collector lists the claims, looks for the owner and asks the tracker;
    then the request for the same volume starts. *)

Definition ex_tasks : list task := [TProvision ex_provisioner ex_options; TCollect "openebs"].

Definition ex_stale_cluster : cluster := set_tracker NewProvisioningTracker ex_provisioned.

Definition ex_process : system := process 5 ex_tasks ex_stale_cluster.

Definition ex_run : list (nat * ev) * system :=
  run_schedule [1; 1; 1; 0; 0; 1; 0] [] ex_process.

Lemma ex_run_ok : sys_run ex_process ex_run.1 ex_run.2.
Proof. exact (run_schedule_run ex_process _ [] ex_process (run_init ex_process)). Qed.

Lemma ex_process_ok : process_ok ex_tasks ex_stale_cluster.
Proof.
  split.
  - constructor; [exists ex_default; reflexivity|]. constructor; [exact I|constructor].
  - reflexivity.
  - intros [|[|i]] [|[|j]] t u n Ht Hu Hn Hm; cbn in Ht, Hu; try done;
      injection Ht as <-; injection Hu as <-; done.
Qed.

Lemma requests_typed_witness :
  Forall (fun e => typed_request (ev_req e)) (proj 0 ex_run.1).
Proof.
  refine (proj1 (requests_typed 5 ex_tasks ex_stale_cluster ex_run.1 ex_run.2 0
    (TProvision ex_provisioner ex_options) ex_process_ok ex_run_ok eq_refl _)).
  discriminate.
Defined.

(** The tracker's answer that the volume is idle. *)
Definition idle_answer (n : string) (e : nat * ev) : bool :=
  match ev_req e.2 as r return resp r -> bool with
  | RTrackInprogress m => fun b => bool_decide (m = n) && negb b
  | _ => fun _ => false
  end (ev_resp e.2).

Lemma idle_answer_spec n e :
  idle_answer n e = true -> e = (e.1, Event (RTrackInprogress n) false).
Proof.
  destruct e as [j [r x]]. unfold idle_answer. cbn [fst snd ev_req ev_resp]. destruct r; try done.
  intros [->%bool_decide_eq_true Hx%negb_true_iff]%andb_true_iff. cbn in x. by subst x.
Qed.

Lemma collector_exclusion_witness :
  exists j, ex_run.1 !! 2 = Some (j, Event (RTrackInprogress "pvc-1") false) /\
    (proj 0 (take 2 ex_run.1) = [] \/ proj 0 (drop 3 ex_run.1) = []).
Proof.
  assert (Hb : from_option (idle_answer "pvc-1") false (ex_run.1 !! 2) = true)
    by (vm_compute; reflexivity).
  destruct (ex_run.1 !! 2) as [e|] eqn:He; [|discriminate Hb].
  apply idle_answer_spec in Hb. rewrite Hb in He. exists e.1. split; [rewrite Hb; reflexivity|].
  assert (Hr : sys_run (process 5 ex_tasks ex_stale_cluster)
    (take 2 ex_run.1 ++ (e.1, Event (RTrackInprogress "pvc-1") false) :: drop 3 ex_run.1) ex_run.2).
  { rewrite (take_drop_middle _ _ _ He). exact ex_run_ok. }
  pose proof (collector_exclusion 5 ex_tasks ex_stale_cluster (take 2 ex_run.1) e.1 "pvc-1"
    (drop 3 ex_run.1) ex_run.2 0 (TProvision ex_provisioner ex_options) ex_process_ok Hr) as H.
  apply H; reflexivity.
Defined.

(** ** Behaviour worth knowing *)

(** A lease time that is not a number is an error of its getter, but the server
    is set up all the same, with a lease time of zero. *)
Definition ex_bad_lease : VolumeConfig :=
  mkVolumeConfig "pvc-1" "data" "nfs-sc" {["LeaseTime" := IStrMap (Some {["value" := "soon"]})]} ∅.

Lemma lease_error_ignored :
  (GetNFSServerLeaseTime ex_bad_lease).2 <> None /\
  exists o, server_options ex_provisioner ex_options ex_bad_lease = Ok o /\ leaseTime o = 0%Z.
Proof. split; [discriminate|]. eexists. split; reflexivity. Qed.

(** A lease time outside the documented range of 10 to 3600 is accepted. *)
Definition ex_long_lease : VolumeConfig :=
  mkVolumeConfig "pvc-1" "data" "nfs-sc" {["LeaseTime" := IStrMap (Some {["value" := "7200"]})]} ∅.

Lemma lease_range_unchecked :
  exists o, server_options ex_provisioner ex_options ex_long_lease = Ok o /\ leaseTime o = 7200%Z.
Proof. eexists. split; reflexivity. Qed.

(** A capacity that does not parse makes the construction of the backend claim
    panic: its error branch reads the claim that could not be built. *)
Definition ex_bad_capacity : KernelNFSServerOptions :=
  mkOpts "openebs" "pvc-1" "five" "data" "uid-1" "apps" "local" EmptyString EmptyString EmptyString
    EmptyString 90 90 None EmptyString EmptyString EmptyString (Some emptyResources).

Lemma bad_capacity_panics :
  ex_outcome (createBackendPVC ex_provisioner ex_bad_capacity) ex_cluster = Panicked.
Proof. reflexivity. Qed.
